(* ===== verification/_CoqProject ===== *)
-Q . S2P
Prelude.v
Memory.v
GoStrings.v
KubeTypes.v
ApiTypes.v
DeepCopy.v
Json.v
Kube.v
Server.v
CtrlUtil.v
Host.v
SessionLog.v
NetIP.v
Base64.v
Certs.v
WebhookCert.v
Apply.v
Metrics.v
Activity.v
AuditWebhook.v
Notifier.v
Float64.v
Duration.v
Flag.v
Manager.v
ManagerMain.v
Hash.v
ShimIds.v
ShimTypes.v
Names.v
DecoySecret.v
Mirrors.v
Join.v
JoinedPods.v
RenderSeed.v
SeedJson.v
ShimSeed.v
ShimFacts.v
ShimDemo.v
Fs.v
SaLayout.v
Http.v
Exec.v
ExecFacts.v
ExecDemo.v
Stats.v
KubeletServer.v
Process.v
Deploy.v
ShimMain.v
ShimProc.v
Reconcile.v
Guards.v
StatusFacts.v
Delivery.v
Testbed.v
DeliveryDemo.v
Witnesses.v
