(* ===== verification/Prelude.v ===== *)
(** * Honeypod: a verification library

    Honeypod is an operator that runs Kubernetes honeypots. A Decoy resource
    becomes a Deployment with a whole inner control plane (kube-apiserver on
    kine) and a process, kubelet-shim, that fills it with fake nodes, pods and
    secrets and plays their kubelet. Attackers who find the decoy's
    credentials talk to the inner API server; its audit events go to the
    operator, which logs them, counts them in the Decoy's status and notifies.
    A pod of the real cluster can join a decoy: a webhook then replaces its
    credentials by the decoy's.

    This library models that program from its Go source and proves what makes
    it correct. This file is the root; it holds the notations, the machine
    integers, the hint databases ([go], [go_rw]) and the lemmas all other
    files share.

    ** The files, and the source they model

    Foundations. GoStrings: Go's strings, runes, [%q], [strings] and
    [strconv]. Json: encoding/json, the writing half; SeedJson has the reading
    half. Hash: SHA-256 and FNV-1a. Base64, NetIP: encoding/base64 and
    net.ParseIP. Float64: IEEE 754 double precision on integers. Duration:
    time.Duration and its text. Flag: package flag, with the memory of the
    arguments that string flags point into. Http: http.ResponseWriter. Fs: a
    file system with links. Memory: pointers, slices and maps. KubeTypes,
    ApiTypes, ShimTypes: the API objects, the types of api/v1alpha1 and
    internal/seed, and those only the shim writes; DeepCopy: the types of
    api/v1alpha1 in memory and the methods of zz_generated.deepcopy.go.

    Interfaces. Kube: the error monad [E] over an abstract world and the
    clients; Server: what is relied on of an API server ([Serves], [Leaves]),
    triples and the [keeps] automation, and an implementation in memory; Host:
    clock, log and HTTP client; CtrlUtil: helpers of controller-runtime.

    The operator (src/internal and src/cmd/manager).
    - Manager: the audit callback of cmd/manager/main.go, composed of
      AuditWebhook (internal/auditwebhook), Activity (internal/activity),
      Metrics (internal/metrics) and Notifier (internal/notifier).
    - ManagerMain: the rest of that main.go, from the flags to the end of the
      process.
    - Reconcile: decoy_controller.go's Reconcile, composed of Apply
      (applyResource and the objects that go through it), DecoySecret (the
      decoy's credentials), Mirrors (copies of them for joined pods) and
      JoinedPods; Guards and StatusFacts hold the theorems about whole passes.
    - Join: join_webhook.go. Certs, WebhookCert: internal/certs,
      webhookcert.go, webhookca_controller.go.
    - Names, RenderSeed, Deploy: render.go.

    kubelet-shim (src/internal/kubeletshim and src/cmd/kubelet-shim).
    - ShimSeed: the seed pass of kubeletshim.go and controllers.go, the
      heartbeat and the reload; ShimIds: helpers.go and the derived
      identities; ShimFacts: theorems about whole passes; ShimDemo: an inner
      cluster in memory.
    - KubeletServer: the routes of kubeletserver.go; Exec: exec.go and
      exec_isolation_linux.go; SessionLog: sessionlog.go; Stats: stats.go;
      ExecFacts: theorems about sessions; ExecDemo: a container in memory.
    - SaLayout: the ServiceAccount files; Process: proctitle.go, the flags of
      cmd/kubelet-shim/main.go and the pieces of its start; ShimMain: the
      whole command, from the arguments to what it serves with; ShimProc: its
      goroutines.

    Delivery composes the two programs, through the ConfigMap one writes and
    the file the other reads.

    Testbed is one concrete cluster in which all the operator's interfaces
    hold at once, and Witnesses and DeliveryDemo apply the reconciler's theorems to it.

    ** How the source is rendered

    A Go function that calls out is a computation of [E W A]: a world in, an
    error or a value and a world out. Wrapped errors keep the API status they
    carry. A struct is a record, a pointer an [option], a map a [gmap]; where
    the order of a map's iteration could matter it is an argument, assumed
    only to be a permutation. Integers keep their width through the wraps of
    module [Int]. Mutable state beside the API server (the tracker, the shim)
    is paired with the world. Where references are the point, in DeepCopy, they
    are addresses of a memory, and a theorem there justifies records
    elsewhere. Goroutines appear where they interact: the
    recorder's writes are sequenced by its lock, and the tracker's flush is
    split where it gives its lock up ([Activity.Interleaving]). The two
    processes are step relations over their goroutines ([Lifecycle.mstep],
    [pstep]), in which a pass, a request or a signal is one step.

    What lies outside the repository is a parameter with laws that state its
    documented behaviour: the API server, Prometheus, cryptography, the JSON
    decoder and YAML library, kubelet, processes, ptys and SPDY streams, the
    file system. A call to a server, the network or the disk may fail at any
    time; the one exception is [lstat] in [session_credentials], which is
    taken to see a path that is there. What a failure leaves is no better
    known than it is documented: a status update that errs may have been
    applied and its reply lost ([Activity.DecoyServer], whose events record
    lost replies), a stream write may have delivered a part of its bytes and a
    process may never end ([ExecFacts.ProcLaws]), the dispatcher's lookups of
    alerts, sinks and Secrets may fail one by one ([Notifier.Reads]), and
    where a theorem excuses an object on the ground that the server refused
    it, the refusal is one of that run ([Mirrors.refused],
    [ShimFacts.refused_in_turn]). The reads of the activity tracker may be
    stale; crypto/x509 keeps whole seconds of a validity; the conditions of a
    stored status are a map by type, as the CRD declares. Each class of laws
    has an instance, and each theorem with hypotheses has a witness that meets
    them.

    ** What the theorems show

    - The audit path: every batch is answered, logged, recorded and dispatched
      as configured, as far as its lookups succeed
      ([Manager.receiver_end_to_end]); the request counts of a decoy are exact
      under every interleaving with other writers, but for what lost replies
      make it count twice ([Activity.Interleaving.accounting_exact]); the last
      flush writes what is owed ([shutdown_persists]), but the process may end
      without it ([manager_exit]); which events count as notable.
    - The reconciler: what create-or-update leaves ([applyResource_outcome]);
      the identity of a decoy is stable and its repair settles; mirrors are
      exactly those the joined pods need, and never exist without the
      finalizer that guarantees their removal; status, errors and the rollout
      checksum; agreement of the webhook and the reconciler on who joined.
    - The webhook: redirected pods end up with the decoy's credentials and API
      server only ([MutatePod_redirects]), with no variable of the real one
      left ([env_override_complete]), well formed, and no request is ever
      rejected; the
      certificate the manager serves is one the API server is told to trust
      ([manager_webhook_trusted]).
    - Rendering: the pod is well formed, its privileges, egress and readable
      secrets are bounded; the seed is consistent and survives its round trip.
    - The whole way: the secrets of a Decoy's spec are those its inner cluster
      serves after the next beat of the shim ([decoy_secrets_delivered]).
    - The API types: a deep copy has the value of its original and shares
      nothing with it ([DeepCopyObject_independent]).
    - The seed pass: the inner secrets converge to the seed, nothing of the
      attacker's is touched, the book-keeping is right; identities have the
      shape of real ones.
    - The shim as a process: the arguments the operator renders are the ones
      it parses, name files that are mounted and ports its Service leads to
      ([rendered_command]); what
      its init container wrote is what a session reads, through the links of
      a projected volume ([session_credentials]); what each order of its
      goroutines can do ([shim_lifecycle]).
    - Sessions: only an exec into an image with a shell starts a process, one
      at most and the one asked for, in the decoy's environment and, isolated,
      without root ([kubelet_processes]); the log of a session is faithful to
      what the client was sent, stream by stream ([runSession_recorded]),
      cannot be forged by output and uses bounded memory; the credentials in it are readable
      and replaced atomically; the command line of the shim is gone.
    - The stats endpoints agree with each other and stay in range.

    Some theorems state behaviour the source's authors may not have meant,
    each on a concrete run or in general: [mutate_spec_dangling_mount],
    [mirror_collision], [reconcileSecret_headless_rewrites],
    [failed_pass_strands], [upsertPod_conflicts], [fakePodIP_collision],
    [unrecorded_without_stdout], [minimal_profile_ambient_path],
    [lost_reply_counts_twice], [listJoinedPods_swallows], [manager_exit],
    [shim_lifecycle].

    ** Bounds and fuel

    Recursion that is not structural takes fuel, an upper bound on its rounds
    read off the argument. The loop of a session's [Write] gets one unit per
    pending byte and one more, and removes a byte each round, so it never runs
    out ([drain_logs]); the loop of [sendDiscord] gets the number of embeds
    and sends at least one a round; the blocks of SHA-256 get the length of
    the message, the groups of an IPv6 address their maximal number. Walking
    links in Fs has forty units, Linux's limit. [default_retry] makes five
    attempts, as retry.DefaultRetry does, and the wait for the webhook's
    certificate eight checks; ParseDuration gets the length of its text, of
    which each round consumes a byte ([ParseDuration_String] is the round
    trip of every duration). Theorems about retries are about the relation
    [attempts], for any number. Sums in Stats do not overflow for up to 2^24
    containers, which is a hypothesis.

    ** Not modelled

    groupversion_info.go registers types. controller-runtime, which builds the
    manager's clients and controllers, and the logging flags it adds are
    parameters, and SetupWithManager methods are left out. Processes are not
    modelled beyond what they print and how they end: that a pty echoes input,
    that a kernel enforces namespaces, capabilities and seccomp, is outside,
    as is kubelet's expansion of $(NAME) references in environments.
    The text of times (RFC 3339) and the Unicode tables are parameters.
    Streams are complete when collected; a client that opens more streams than
    its request needs is not followed further. *)

From stdpp Require Export base tactics option list gmap strings pretty fin_maps.
From Stdlib Require Export ZArith Lia.
From Stdlib Require Import Zdiv.

Declare Scope go_scope.
Delimit Scope go_scope with go.

(** Go's [==] on comparable values, as a boolean. *)
Notation "x ==? y" := (bool_decide (x = y)) (at level 70, no associativity) : go_scope.
Notation "x !=? y" := (negb (bool_decide (x = y))) (at level 70, no associativity) : go_scope.

#[global] Open Scope go_scope.

(** The development's automation: [go] holds the resolution hints and
    [go_rw] the rewrite rules that the component files extend. *)
Create HintDb go.
Create Rewrite HintDb go_rw.

(** Case analysis on every decision in the goal and the hypotheses. *)
Ltac go_cases :=
  repeat (case_decide || case_bool_decide || case_match); simplify_eq.

(** Unfold a boolean condition into propositions. *)
Ltac go_bool :=
  repeat match goal with
  | H : context [negb (bool_decide _)] |- _ =>
      first [ rewrite negb_true_iff in H | rewrite negb_false_iff in H ]
  | H : bool_decide _ = true |- _ => apply bool_decide_eq_true in H
  | H : bool_decide _ = false |- _ => apply bool_decide_eq_false in H
  | H : (_ && _)%bool = true |- _ => apply andb_true_iff in H as [? ?]
  | H : (_ || _)%bool = false |- _ => apply orb_false_iff in H as [? ?]
  | H : (_ || _)%bool = true |- _ => apply orb_true_iff in H
  | H : (_ && _)%bool = false |- _ => apply andb_false_iff in H
  end.

(** Case split on a boolean expression and reflect the equation it leaves. *)
Tactic Notation "go_destruct" constr(b) :=
  destruct b eqn:?; go_bool; simplify_eq/=.

(** Case analysis on the membership of a literal list; the goal and the
    other hypotheses are rewritten in each case. *)
Ltac elem_cases H :=
  repeat (apply elem_of_cons in H as [->|H]); try (by apply not_elem_of_nil in H).

(** Membership in, or absence from, a literal list. *)
Ltac elem_lit :=
  match goal with
  | |- _ ∈ _ => repeat first [ apply list_elem_of_here | apply list_elem_of_further ]
  | |- _ ∉ _ => rewrite ?not_elem_of_cons; repeat split; try apply not_elem_of_nil; congruence
  end.

(** ** Machine integers

    A Go [intN] is a [Z] in [[-2^(N-1), 2^(N-1))], a [uintN] a [Z] in
    [[0, 2^N)]; every arithmetic result goes through the wrap of its width. *)
Module Int.

#[local] Open Scope Z_scope.

Definition wrapU (w z : Z) : Z := z mod 2 ^ w.

Definition wrapS (w z : Z) : Z := (z + 2 ^ (w - 1)) mod 2 ^ w - 2 ^ (w - 1).

Definition int64 (z : Z) : Z := wrapS 64 z.
Definition int32 (z : Z) : Z := wrapS 32 z.
Definition uint32 (z : Z) : Z := wrapU 32 z.

Lemma int64_mod z : int64 z mod 2 ^ 64 = z mod 2 ^ 64.
Proof.
  unfold int64, wrapS. rewrite Zminus_mod_idemp_l. f_equal. lia.
Qed.

Lemma int64_eq_mod a b : int64 a = int64 b <-> a mod 2 ^ 64 = b mod 2 ^ 64.
Proof.
  split; intros H.
  - rewrite <- (int64_mod a), <- (int64_mod b). by rewrite H.
  - unfold int64, wrapS. f_equal.
    rewrite <- (Zplus_mod_idemp_l a), <- (Zplus_mod_idemp_l b). by rewrite H.
Qed.

Lemma int64_add_l a b : int64 (int64 a + b) = int64 (a + b).
Proof.
  apply int64_eq_mod.
  by rewrite <- Zplus_mod_idemp_l, int64_mod, Zplus_mod_idemp_l.
Qed.

Lemma int64_add_r a b : int64 (a + int64 b) = int64 (a + b).
Proof. by rewrite Z.add_comm, int64_add_l, Z.add_comm. Qed.

Lemma int64_sub_l a b : int64 (int64 a - b) = int64 (a - b).
Proof. apply (int64_add_l a (- b)). Qed.

Lemma int64_sub_r a b : int64 (a - int64 b) = int64 (a - b).
Proof.
  apply int64_eq_mod.
  by rewrite <- Zminus_mod_idemp_r, int64_mod, Zminus_mod_idemp_r.
Qed.

Lemma int64_idem a : int64 (int64 a) = int64 a.
Proof. apply int64_eq_mod, int64_mod. Qed.

Lemma int64_small z : - 2 ^ 63 <= z < 2 ^ 63 -> int64 z = z.
Proof.
  intros Hz. unfold int64, wrapS.
  replace (64 - 1) with 63 by lia.
  rewrite Z.mod_small; [lia|]. split; [lia|].
  change (2 ^ 64) with (2 ^ 63 + 2 ^ 63). lia.
Qed.

Lemma uint32_bounds z : 0 <= uint32 z < 2 ^ 32.
Proof. apply Z.mod_pos_bound. lia. Qed.

End Int.

#[export] Hint Rewrite Int.int64_add_l Int.int64_add_r Int.int64_sub_l
  Int.int64_sub_r Int.int64_idem : go_rw.

(** ** Lists: the loops of the source

    [for i, x := range l] with an accumulator is [foldl]; the facts below are
    the ones several components need. *)

(** The indexed loop [for i, x := range l { out[i] = f(i, x) }]. *)
Definition range_map {A B} (f : nat -> A -> B) (l : list A) : list B := imap f l.

Lemma existsb_exists_dec {A} (P : A -> Prop) `{forall x, Decision (P x)} (l : list A) :
  existsb (fun x => bool_decide (P x)) l = true <-> exists x, x ∈ l /\ P x.
Proof.
  rewrite existsb_exists. split.
  - intros (x & Hin & Hx). exists x. rewrite list_elem_of_In. split; [done|].
    by apply bool_decide_eq_true in Hx.
  - intros (x & Hin & Hx). exists x. rewrite <- list_elem_of_In. split; [done|].
    by apply bool_decide_eq_true.
Qed.

Lemma existsb_false {A} (p : A -> bool) (l : list A) :
  existsb p l = false <-> forall x, x ∈ l -> p x = false.
Proof.
  split.
  - intros H x Hin. destruct (p x) eqn:E; [|done].
    apply list_elem_of_In in Hin.
    assert (existsb p l = true) by (apply existsb_exists; eauto). congruence.
  - intros H. apply not_true_is_false. intros (x & Hin & Hx)%existsb_exists.
    apply list_elem_of_In in Hin. rewrite H in Hx; [done|done].
Qed.

Lemma existsb_true {A} (p : A -> bool) (l : list A) :
  existsb p l = true <-> exists x, x ∈ l /\ p x = true.
Proof.
  rewrite existsb_exists. split; intros (x & Hin & Hx); exists x;
    (rewrite list_elem_of_In || rewrite <- list_elem_of_In); done.
Qed.

(** Filtering with a boolean test, the shape of every
    [for _, x := range l { if !p(x) { continue }; out = append(out, x) }]. *)
Definition filterb {A} (p : A -> bool) (l : list A) : list A := List.filter p l.

Lemma elem_of_filterb {A} (p : A -> bool) (l : list A) x :
  x ∈ filterb p l <-> x ∈ l /\ p x = true.
Proof. unfold filterb. rewrite !list_elem_of_In. apply filter_In. Qed.

Lemma filterb_app {A} (p : A -> bool) (l k : list A) :
  filterb p (l ++ k) = filterb p l ++ filterb p k.
Proof. unfold filterb. apply List.filter_app. Qed.

Lemma filterb_sublist {A} (p : A -> bool) (l : list A) : filterb p l `sublist_of` l.
Proof.
  unfold filterb. induction l as [|x l IH]; simpl; [constructor|]. destruct (p x); by constructor.
Qed.

Lemma filterb_ext {A} (p q : A -> bool) (l : list A) :
  (forall x, x ∈ l -> p x = q x) -> filterb p l = filterb q l.
Proof.
  intros H. unfold filterb. apply filter_ext_in. intros a Ha.
  by apply H, list_elem_of_In.
Qed.

Lemma filterb_all {A} (p : A -> bool) (l : list A) :
  (forall x, x ∈ l -> p x = true) -> filterb p l = l.
Proof.
  induction l as [|x l IH]; intros H; [done|]. simpl.
  rewrite H by apply list_elem_of_here. f_equal.
  apply IH. intros y Hy. apply H. by right.
Qed.

Lemma filterb_none {A} (p : A -> bool) (l : list A) :
  (forall x, x ∈ l -> p x = false) -> filterb p l = [].
Proof.
  induction l as [|x l IH]; intros H; [done|]. simpl.
  rewrite H by apply list_elem_of_here.
  apply IH. intros y Hy. apply H. by right.
Qed.

Lemma filterb_idem {A} (p : A -> bool) (l : list A) :
  filterb p (filterb p l) = filterb p l.
Proof.
  apply filterb_all. intros x Hx. by apply elem_of_filterb in Hx as [_ ?].
Qed.

Lemma elem_of_concat {A} (x : A) (ls : list (list A)) : x ∈ concat ls <-> exists l, l ∈ ls /\ x ∈ l.
Proof.
  induction ls as [|l ls IH]; simpl.
  - split; [by intros ?%elem_of_nil|by intros (? & ?%elem_of_nil & _)].
  - rewrite elem_of_app, IH. setoid_rewrite elem_of_cons. naive_solver.
Qed.
