(* ===== verification/Memory.v ===== *)
(** * Memory: Go's pointers, slices and maps

    A memory of typed blocks, for code whose point is which variables are
    shared: what reading through a reference yields, and what it means for a
    function to copy a value so that nothing is shared with the original. *)

From S2P Require Import Prelude.
#[local] Open Scope list_scope.

Abbreviation loc := positive.

(** A block of type [B] among the blocks [C] of a memory. *)
Class Cell (C B : Type) := {
  cell : B -> C; uncell : C -> option B; uncell_cell : forall b, uncell (cell b) = Some b }.

(** A pointer to a variable, or to an element of an array; a slice, an array
    with an offset and a length; a map, the reference to its table. *)
Inductive ptr (T : Type) := Nil | Addr (l : loc) (i : nat).
Inductive slice (T : Type) := NilSlice | Slice (l : loc) (off len : nat).
Inductive gomap := NilMap | MapAt (l : loc).
Arguments Nil {T}.
Arguments Addr {T} l i.
Arguments NilSlice {T}.
Arguments Slice {T} l off len.

(** A computation over a memory; [None] is a panic. *)
Definition M (C A : Type) : Type := gmap loc C -> option (A * gmap loc C).

#[global] Instance M_ret {C} : MRet (M C) := fun A a m => Some (a, m).
#[global] Instance M_bind {C} : MBind (M C) := fun A B k c m =>
  match c m with Some (a, m') => k a m' | None => None end.

(** The variables of a block are [None] until they are written: such a
    variable holds the zero value of its type, which nothing here reads. *)
Abbreviation vars T := (list (option T)).

Section Operations.
Context {C : Type}.

Definition block {B} `{Cell C B} (m : gmap loc C) (l : loc) : option B :=
  match m !! l with Some c => uncell c | None => None end.

Definition load_block {B} `{Cell C B} (l : loc) : M C B := fun m => b ← block m l; Some (b, m).

Definition store_block {B} `{Cell C B} (l : loc) (b : B) : M C unit := fun m =>
  _ ← (block m l : option B); Some (tt, <[l := cell b]> m).

Definition alloc {B} `{Cell C B} (b : B) : M C loc := fun m =>
  let l := fresh (dom m) in Some (l, <[l := cell b]> m).

Context {T : Type} `{!Cell C (vars T)}.

Definition load (p : ptr T) : M C T := fun m =>
  match p with
  | Nil => None
  | Addr l i => b ← (block m l : option (vars T)); o ← b !! i; v ← o; Some (v, m)
  end.

Definition store (p : ptr T) (v : T) : M C unit :=
  match p with
  | Nil => fun _ => None
  | Addr l i =>
      b ← (load_block l : M C (vars T));
      if decide (i < length b) then store_block l (<[i := Some v]> b) else fun _ => None
  end.

(** [new(T)] and [make([]T, n)]. *)
Definition new : M C (ptr T) := l ← alloc ([None] : vars T); mret (Addr l 0).
Definition make (n : nat) : M C (slice T) := l ← alloc (replicate n None : vars T); mret (Slice l 0 n).

(** [&s[i]] *)
Definition elem (s : slice T) (i : nat) : ptr T :=
  match s with
  | Slice l off len => if decide (i < len) then Addr l (off + i) else Nil
  | NilSlice => Nil
  end.

Fixpoint for_range (is_ : list nat) (body : nat -> M C unit) : M C unit :=
  match is_ with
  | [] => mret tt
  | i :: is' => _ ← body i; for_range is' body
  end.

(** [p.DeepCopyInto(out)], or [*out = *p]. *)
Definition copy_var (into : T -> M C T) (p out : ptr T) : M C unit :=
  v ← load p; v' ← into v; store out v'.

(** The three shapes of copying. A pointer: [new], then the variable. *)
Definition copy_ptr (into : T -> M C T) (p : ptr T) : M C (ptr T) :=
  match p with
  | Nil => mret Nil
  | Addr _ _ => out ← new; _ ← copy_var into p out; mret out
  end.

(** A slice: [make], then each element; [copy] is the same with [mret]. *)
Definition copy_slice (into : T -> M C T) (s : slice T) : M C (slice T) :=
  match s with
  | NilSlice => mret NilSlice
  | Slice _ _ n =>
      out ← make n;
      _ ← for_range (seq 0 n) (fun i => copy_var into (elem s i) (elem out i));
      mret out
  end.

(** A map: [make], then each pair. *)
Definition copy_map `{!Cell C (gmap string string)} (s : gomap) : M C gomap :=
  match s with
  | NilMap => mret NilMap
  | MapAt l =>
      out ← alloc (∅ : gmap string string);
      t ← (load_block l : M C (gmap string string));
      _ ← store_block out (foldr (fun kv o => <[kv.1 := kv.2]> o) ∅ (map_to_list t));
      mret (MapAt out)
  end.
End Operations.

(** ** What a value stands for

    [read m x = Some d]: in [m], every reference reachable from [x] resolves,
    and [x] stands for the value [d]. *)
Class Reads (C T D : Type) := {
  read : gmap loc C -> T -> option D;
  read_mono : forall m m' x d, m ⊆ m' -> read m x = Some d -> read m' x = Some d }.

Section Read.
Context {C : Type}.

Lemma block_mono {B} `{Cell C B} m m' l b : m ⊆ m' -> block m l = Some b -> block m' l = Some b.
Proof.
  unfold block. intros Hs Hb. destruct (m !! l) as [c|] eqn:E; [|done].
  by rewrite (lookup_weaken _ _ _ _ E Hs).
Qed.

Lemma block_insert {B} `{Cell C B} m l b : block (<[l := cell b]> m) l = Some b.
Proof. unfold block. by rewrite lookup_insert_eq, uncell_cell. Qed.

(** A type without references stands for itself. *)
Definition plain_reads {T} : Reads C T T.
Proof. refine {| read _ x := Some x |}. done. Defined.

Context {T D : Type} `{!Cell C (vars T), !Reads C T D}.

Definition read_var (m : gmap loc C) (o : option T) : option D := v ← o; read m v.

Lemma read_var_mono m m' o d : m ⊆ m' -> read_var m o = Some d -> read_var m' o = Some d.
Proof. intros Hs. destruct o as [v|]; [|done]. by apply read_mono. Qed.

Definition read_ptr (m : gmap loc C) (p : ptr T) : option (option D) :=
  match p with
  | Nil => Some None
  | Addr l i => b ← (block m l : option (vars T)); o ← b !! i; d ← read_var m o; Some (Some d)
  end.

Definition read_slice (m : gmap loc C) (s : slice T) : option (list D) :=
  match s with
  | NilSlice => Some []
  | Slice l off n =>
      b ← (block m l : option (vars T));
      if decide (off + n <= length b) then mapM (read_var m) (take n (drop off b)) else None
  end.

#[export] Program Instance ptr_reads : Reads C (ptr T) (option D) := {| read := read_ptr |}.
Next Obligation.
  intros m m' [|l i] d Hs Hr; [done|]. simpl in *. simplify_option_eq.
  erewrite block_mono by done. simpl. simplify_option_eq. by erewrite read_var_mono by done.
Qed.

#[export] Program Instance slice_reads : Reads C (slice T) (list D) := {| read := read_slice |}.
Next Obligation.
  intros m m' [|l off n] d Hs Hr; [done|]. simpl in *. simplify_option_eq.
  erewrite block_mono by done. simpl. rewrite decide_True by done.
  rewrite mapM_Some in *. eapply Forall2_impl; [done|]. intros. by eapply read_var_mono.
Qed.
End Read.

Definition read_map {C} `{!Cell C (gmap string string)} (m : gmap loc C) (s : gomap) : option (gmap string string) :=
  match s with NilMap => Some ∅ | MapAt l => block m l end.

#[export] Program Instance map_reads {C} `{!Cell C (gmap string string)} : Reads C gomap (gmap string string) := {|
  read := read_map |}.
Next Obligation. intros C HC m m' [|l] d Hs Hr; [done|]. by eapply block_mono. Qed.

(** ** Deep copies

    [copies into]: where [x] stands for [d], [into x] ends, only adds blocks,
    and its result stands for [d] by those blocks alone. *)
Definition copies {C T D} `{!Reads C T D} (into : T -> M C T) : Prop := forall m x d,
  read m x = Some d ->
  exists y new, into x m = Some (y, new ∪ m) /\ new ##ₘ m /\ read new y = Some d.

Section Copies.
Context {C : Type}.

Lemma plain_copies {T} : @copies C T T plain_reads mret.
Proof.
  intros m x d Hr. exists x, ∅. rewrite (left_id_L ∅ (∪)). split_and!; [done|apply map_disjoint_empty_l|exact Hr].
Qed.

(** Copying a value field by field: [seq c acc m P] says that [c], run when
    the copies so far are the blocks [acc], ends with more of them. *)
Definition runs {A} (c : M C A) (acc m : gmap loc C) (P : gmap loc C -> A -> Prop) : Prop :=
  exists a acc', c (acc ∪ m) = Some (a, acc' ∪ m) /\ acc ⊆ acc' /\ acc' ##ₘ m /\ P acc' a.

Lemma runs_ret {A} (a : A) acc m (P : gmap loc C -> A -> Prop) :
  acc ##ₘ m -> P acc a -> runs (mret a) acc m P.
Proof. intros Hd Hp. by exists a, acc. Qed.

Lemma runs_copy {T D A} `{!Reads C T D} (into : T -> M C T) x d (k : T -> M C A) acc m P :
  copies into -> acc ##ₘ m -> read m x = Some d ->
  (forall y acc', acc ⊆ acc' -> acc' ##ₘ m -> read acc' y = Some d -> runs (k y) acc' m P) ->
  runs (y ← into x; k y) acc m P.
Proof.
  intros Hc Hd Hr Hk.
  destruct (Hc (acc ∪ m) x d) as (y & new & Hrun & Hn & Hy).
  { eapply read_mono; [|done]. by apply map_union_subseteq_r. }
  apply map_disjoint_union_r in Hn as [Hna Hnm].
  destruct (Hk y (new ∪ acc)) as (a & acc' & Hrun' & Hs & Hd' & Hp).
  { by apply map_union_subseteq_r. }
  { by apply map_disjoint_union_l. }
  { eapply read_mono; [|done]. by apply map_union_subseteq_l. }
  exists a, acc'. split_and!; [|by etrans; [apply map_union_subseteq_r|]|done|done].
  unfold mbind, M_bind. rewrite Hrun. by rewrite (assoc_L (∪)).
Qed.

Lemma runs_copies {T D} `{!Reads C T D} (into : T -> M C T) :
  (forall m x d, read m x = Some d -> runs (into x) ∅ m (fun acc y => read acc y = Some d)) -> copies into.
Proof.
  intros H m x d Hr. destruct (H m x d Hr) as (y & acc & Hrun & _ & Hd & Hy).
  rewrite (left_id_L ∅ (∪)) in Hrun. by exists y, acc.
Qed.

(** *** The three shapes *)

Lemma fresh_block (m : gmap loc C) : m !! fresh (dom m) = None.
Proof. apply not_elem_of_dom, is_fresh. Qed.

Lemma map_copies `{!Cell C (gmap string string)} : copies (D := gmap string string) copy_map.
Proof.
  intros m [|l] d Hr.
  { injection Hr as <-. exists NilMap, ∅. rewrite (left_id_L ∅ (∪)). by split_and!; [|apply map_disjoint_empty_l|]. }
  set (o := fresh (dom m)). assert (Ho : m !! o = None) by apply fresh_block.
  exists (MapAt o), {[ o := cell d ]}. rewrite <- insert_union_singleton_l. split_and!.
  - unfold copy_map, mbind, M_bind, alloc. fold o. unfold load_block.
    erewrite (block_mono m); [|by apply insert_subseteq|exact Hr]. unfold store_block. simpl.
    rewrite block_insert. simpl. rewrite insert_insert_eq. do 4 f_equal.
    change (foldr _ _ _) with (list_to_map (map_to_list d) : gmap string string). by rewrite list_to_map_to_list.
  - by apply map_disjoint_singleton_l_2.
  - simpl. unfold block. by rewrite lookup_singleton_eq, uncell_cell.
Qed.

Section Elements.
Context {T D : Type} `{!Cell C (vars T), !Reads C T D} (into : T -> M C T) (Hinto : copies into).

(** A memory in which the block [o] is being filled. *)
Abbreviation filling o b m := (<[o := cell (b : vars T)]> m).

Lemma load_var m l i (b : vars T) v :
  block m l = Some b -> b !! i = Some (Some v) -> load (Addr l i) m = Some (v, m).
Proof. intros Hb Hi. simpl. rewrite Hb. simpl. by rewrite Hi. Qed.

Lemma store_filling o (b : vars T) m i v :
  i < length b -> store (Addr o i) v (filling o b m) = Some (tt, filling o (<[i := Some v]> b) m).
Proof.
  intros Hi. unfold store, mbind, M_bind, load_block, store_block. rewrite block_insert. simpl.
  rewrite decide_True by done. rewrite block_insert. simpl. by rewrite insert_insert_eq.
Qed.

(** One variable: what was added besides the block being filled. *)
Lemma copy_var_run p m o (b : vars T) i acc x d :
  o ∉ dom (acc ∪ m) -> acc ##ₘ m -> i < length b ->
  load p (filling o b (acc ∪ m)) = Some (x, filling o b (acc ∪ m)) -> read m x = Some d ->
  exists y acc', acc ⊆ acc' /\ acc' ##ₘ m /\ (o ∉ dom (acc' ∪ m)) /\ read acc' y = Some d /\
    copy_var into p (Addr o i) (filling o b (acc ∪ m)) =
      Some (tt, filling o (<[i := Some y]> b) (acc' ∪ m)).
Proof.
  intros Ho Hd Hi Hl Hr.
  assert (Hs : m ⊆ filling o b (acc ∪ m)).
  { etrans; [by apply map_union_subseteq_r|]. by apply insert_subseteq, not_elem_of_dom. }
  destruct (Hinto _ x d (read_mono _ _ _ _ Hs Hr)) as (y & new & Hrun & Hn & Hy).
  apply map_disjoint_insert_r in Hn as [Hno Hn]. apply map_disjoint_union_r in Hn as [Hna Hnm].
  exists y, (new ∪ acc). split_and!.
  - by apply map_union_subseteq_r.
  - by apply map_disjoint_union_l.
  - rewrite <- (assoc_L (∪)), dom_union, not_elem_of_union. by rewrite not_elem_of_dom.
  - eapply read_mono; [|done]. by apply map_union_subseteq_l.
  - unfold copy_var, mbind, M_bind. rewrite Hl, Hrun.
    rewrite <- insert_union_r, (assoc_L (∪)) by done. by apply store_filling.
Qed.

Lemma ptr_copies : copies (copy_ptr into).
Proof using Hinto.
  intros m [|l i] d Hr.
  { injection Hr as <-. exists Nil, ∅. rewrite (left_id_L ∅ (∪)). by split_and!; [|apply map_disjoint_empty_l|]. }
  simpl in Hr. destruct (block m l) as [b|] eqn:Hb; [|done]. simpl in Hr.
  destruct (b !! i) as [[x|]|] eqn:Hi; [|done..]. simpl in Hr.
  destruct (read m x) as [dx|] eqn:Hx; [|done]. injection Hr as <-.
  set (o := fresh (dom m)). assert (Ho : o ∉ dom m) by apply is_fresh.
  destruct (copy_var_run (Addr l i) m o [None] 0 ∅ x dx) as (y & acc & _ & Hd & Hoa & Hy & Hrun);
    rewrite ?(left_id_L ∅ (∪)); [done|apply map_disjoint_empty_l|simpl; lia| |done|].
  { eapply load_var; [|exact Hi]. eapply block_mono; [|exact Hb]. by apply insert_subseteq, not_elem_of_dom. }
  rewrite (left_id_L ∅ (∪)) in Hrun. rewrite dom_union, not_elem_of_union in Hoa. destruct Hoa as [Hoa _].
  exists (Addr o 0), (filling o [Some y] acc). split_and!.
  - rewrite <- insert_union_l. simpl in Hrun. unfold copy_ptr, new.
    unfold mbind, M_bind, alloc, mret, M_ret. fold o. by rewrite Hrun.
  - apply map_disjoint_insert_l. split; [by apply not_elem_of_dom|done].
  - simpl. rewrite block_insert. simpl. erewrite read_mono; [reflexivity| |exact Hy].
    by apply insert_subseteq, not_elem_of_dom.
Qed.

(** The elements [i] to the end, where what each stands for is known. *)
Definition elements_read (m : gmap loc C) (s : slice T) (ds : list D) : Prop :=
  forall i d, ds !! i = Some d -> exists x, read m x = Some d /\
    forall m', m ⊆ m' -> load (elem s i) m' = Some (x, m').

Lemma fill_run m s ds o : elements_read m s ds -> forall j ys acc,
  length ys + j = length ds -> Forall2 (fun y d => read acc y = Some d) ys (take (length ys) ds) ->
  acc ##ₘ m -> o ∉ dom (acc ∪ m) ->
  exists ys' acc',
    for_range (seq (length ys) j) (fun i => copy_var into (elem s i) (elem (Slice o 0 (length ds)) i))
      (filling o ((Some <$> ys) ++ replicate j None) (acc ∪ m)) = Some (tt, filling o (Some <$> ys') (acc' ∪ m)) /\
    acc' ##ₘ m /\ (o ∉ dom (acc' ∪ m)) /\ Forall2 (fun y d => read acc' y = Some d) ys' ds.
Proof using Hinto.
  intros Hs j. induction j as [|j IH]; intros ys acc Hlen Hys Hd Ho.
  { exists ys, acc. rewrite take_ge in Hys by lia. by rewrite app_nil_r. }
  destruct (lookup_lt_is_Some_2 ds (length ys)) as [d Hdk]; [lia|].
  destruct (Hs _ _ Hdk) as (x & Hx & Hload).
  destruct (copy_var_run (elem s (length ys)) m o ((Some <$> ys) ++ replicate (S j) None) (length ys) acc x d)
    as (y & acc1 & Hsub & Hd1 & Ho1 & Hy & Hrun); [done|done| | |done|].
  { rewrite length_app, length_fmap, length_replicate. lia. }
  { apply Hload. etrans; [by apply map_union_subseteq_r|]. by apply insert_subseteq, not_elem_of_dom. }
  destruct (IH (ys ++ [y]) acc1) as (ys' & acc2 & Hrun2 & Hrest).
  { rewrite length_app. simpl. lia. }
  { rewrite length_app. simpl. rewrite Nat.add_1_r, (take_S_r _ _ _ Hdk). apply Forall2_app.
    - eapply Forall2_impl; [exact Hys|]. intros y0 d0. by apply read_mono.
    - by constructor. }
  { done. }
  { done. }
  exists ys', acc2. split; [|exact Hrest]. cbn [seq for_range]. unfold mbind, M_bind.
  assert (elem (Slice o 0 (length ds)) (length ys) = Addr o (length ys)) as ->.
  { simpl. by rewrite decide_True by lia. }
  rewrite Hrun. rewrite <- Hrun2, length_app, Nat.add_1_r. f_equal. f_equal. f_equal.
  rewrite insert_app_r_alt, length_fmap, Nat.sub_diag by (rewrite length_fmap; lia).
  by rewrite fmap_app, <- (assoc_L (++)).
Qed.

Lemma slice_elements m s ds : read m s = Some ds -> elements_read m s ds.
Proof.
  destruct s as [|l off n]; intros Hr i d Hd; [injection Hr as <-; done|].
  simpl in Hr. destruct (block m l) as [b|] eqn:Hb; [|done]. simpl in Hr. case_decide as Hn; [|done].
  apply mapM_Some in Hr. destruct (Forall2_lookup_r _ _ _ _ _ Hr Hd) as (v & Hv & Hx).
  apply lookup_take_Some in Hv as [Hv Hin]. rewrite lookup_drop in Hv.
  destruct v as [x|]; [|done]. exists x. split; [exact Hx|]. intros m' Hs. simpl. rewrite decide_True by done.
  eapply load_var; [|exact Hv]. by eapply block_mono.
Qed.

Lemma slice_copies : copies (copy_slice into).
Proof using Hinto.
  intros m s ds Hr. pose proof (slice_elements m s ds Hr) as Hs.
  destruct s as [|l off n].
  { injection Hr as <-. exists NilSlice, ∅. rewrite (left_id_L ∅ (∪)). by split_and!; [|apply map_disjoint_empty_l|]. }
  assert (Hn : length ds = n).
  { simpl in Hr. destruct (block m l) as [b|]; [|done]. simpl in Hr. case_decide as Hn; [|done].
    apply mapM_Some, Forall2_length in Hr. rewrite <- Hr, length_take, length_drop. lia. }
  set (o := fresh (dom m)). assert (Ho : o ∉ dom m) by apply is_fresh.
  destruct (fill_run m _ ds o Hs (length ds) [] ∅) as (ys & acc & Hrun & Hd & Hoa & Hys);
    rewrite ?(left_id_L ∅ (∪)); [done|constructor|apply map_disjoint_empty_l|done|].
  rewrite (left_id_L ∅ (∪)) in Hrun. rewrite dom_union, not_elem_of_union in Hoa. destruct Hoa as [Hoa _].
  exists (Slice o 0 n), (filling o (Some <$> ys) acc). split_and!.
  - rewrite <- insert_union_l. unfold copy_slice, make, mbind, M_bind, alloc, mret, M_ret. fold o.
    rewrite Hn in Hrun. cbn [fmap list_fmap app length] in Hrun. by rewrite Hrun.
  - apply map_disjoint_insert_l. split; [by apply not_elem_of_dom|done].
  - simpl. rewrite block_insert. simpl. rewrite length_fmap, (Forall2_length _ _ _ Hys), decide_True by lia.
    rewrite drop_0, take_ge by (rewrite length_fmap, (Forall2_length _ _ _ Hys); lia).
    apply mapM_Some, Forall2_fmap_l. eapply Forall2_impl; [exact Hys|]. intros y d. simpl.
    by apply read_mono, insert_subseteq, not_elem_of_dom.
Qed.
End Elements.
End Copies.

#[global] Arguments read : simpl never.

(** How the parts of a value are copied. *)
Create HintDb copies.
#[export] Hint Resolve slice_copies ptr_copies map_copies : copies.
#[export] Hint Extern 1 (copies mret) => exact plain_copies : copies.
