(* ===== verification/GoStrings.v ===== *)
(** * Go's strings

    A Go string is a sequence of bytes, and is Stdlib's [string] here: one
    [ascii] per byte, a non-ASCII literal being the bytes of its UTF-8
    encoding. This file holds the parts of [strings], [strconv], [fmt] and
    [unicode/utf8] the source calls, as executable functions, with the
    facts about them the components use. The two Unicode tables the library
    consults for runes above 0x7F ([unicode.ToLower], [strconv.IsPrint]) are
    parameters of the functions that need them. *)

From S2P Require Import Prelude.
From Stdlib Require Import Ascii String.
From stdpp Require Import strings.

#[local] Open Scope string_scope.
#[global] Open Scope list_scope.

Infix "+:+" := String.append (at level 60, right associativity) : go_scope.

(** ** Bytes *)

Definition byteZ (a : ascii) : Z := Z.of_N (N_of_ascii a).
Definition Zbyte (z : Z) : ascii := ascii_of_N (Z.to_N z).

Lemma byteZ_bounds a : (0 <= byteZ a < 256)%Z.
Proof.
  unfold byteZ. pose proof (N_ascii_bounded a). lia.
Qed.

Lemma Zbyte_byteZ a : Zbyte (byteZ a) = a.
Proof. unfold Zbyte, byteZ. rewrite N2Z.id. apply ascii_N_embedding. Qed.

Lemma byteZ_Zbyte z : (0 <= z < 256)%Z -> byteZ (Zbyte z) = z.
Proof.
  intros Hz. unfold byteZ, Zbyte. rewrite N_ascii_embedding by lia. lia.
Qed.

Lemma byteZ_inj a b : byteZ a = byteZ b -> a = b.
Proof. intros H. by rewrite <- (Zbyte_byteZ a), H, Zbyte_byteZ. Qed.

(** The double quote, which cannot be written in a literal. *)
Definition dq : string := String (Zbyte 34) "".
Definition nl : string := String (Zbyte 10) "".

(** [chars] and [of_chars]: a string as a list of its bytes. *)
Definition chars (s : string) : list ascii := list_ascii_of_string s.
Definition of_chars (l : list ascii) : string := string_of_list_ascii l.

Lemma of_chars_chars s : of_chars (chars s) = s.
Proof. apply string_of_list_ascii_of_string. Qed.

Lemma chars_of_chars l : chars (of_chars l) = l.
Proof. apply list_ascii_of_string_of_list_ascii. Qed.

Lemma sapp_cons a s t : String a s +:+ t = String a (s +:+ t).
Proof. reflexivity. Qed.

Lemma sapp_nil_l s : "" +:+ s = s.
Proof. reflexivity. Qed.

Lemma chars_app s t : chars (s +:+ t) = chars s ++ chars t.
Proof.
  unfold chars. induction s as [|a s IH]; [done|].
  rewrite sapp_cons. simpl. by rewrite IH.
Qed.

Lemma of_chars_app l k : of_chars (l ++ k) = of_chars l +:+ of_chars k.
Proof.
  unfold of_chars. induction l as [|a l IH]; [done|].
  simpl. by rewrite sapp_cons, IH.
Qed.

Lemma length_chars s : length (chars s) = String.length s.
Proof. unfold chars. induction s as [|a s IH]; simpl; congruence. Qed.

Lemma chars_inj s t : chars s = chars t -> s = t.
Proof. intros H. by rewrite <- (of_chars_chars s), H, of_chars_chars. Qed.

Lemma sapp_assoc s t u : (s +:+ t) +:+ u = s +:+ (t +:+ u).
Proof. apply chars_inj. rewrite !chars_app. by rewrite (assoc_L (++)). Qed.

Lemma sapp_nil_r s : s +:+ "" = s.
Proof. apply chars_inj. rewrite chars_app. apply app_nil_r. Qed.

Lemma sapp_inj_l s t u : s +:+ t = s +:+ u -> t = u.
Proof.
  intros H%(f_equal chars). rewrite !chars_app in H.
  by apply app_inv_head, chars_inj in H.
Qed.

Lemma sapp_inj_r s t u : s +:+ u = t +:+ u -> s = t.
Proof.
  intros H%(f_equal chars). rewrite !chars_app in H.
  by apply app_inv_tail, chars_inj in H.
Qed.

Lemma length_sapp s t : String.length (s +:+ t) = String.length s + String.length t.
Proof. rewrite <- !length_chars, chars_app, length_app. done. Qed.

(** ** [strings.HasPrefix], [strings.TrimSuffix] *)

Definition HasPrefix (s prefix : string) : bool := String.prefix prefix s.

Lemma HasPrefix_true s p : HasPrefix s p = true <-> exists t, s = p +:+ t.
Proof.
  unfold HasPrefix. revert s. induction p as [|a p IH]; intros s.
  - split; [|by destruct s]. intros _. by exists s.
  - destruct s as [|b s]; simpl.
    + split; [done|]. by intros (t & ?).
    + destruct (ascii_dec a b) as [->|Hne].
      * rewrite IH. split; intros (t & Ht); exists t; [by rewrite Ht|].
        rewrite sapp_cons in Ht. by injection Ht.
      * split; [done|]. intros (t & Ht). rewrite sapp_cons in Ht. by injection Ht as ??.
Qed.

Lemma HasPrefix_app p t : HasPrefix (p +:+ t) p = true.
Proof. apply HasPrefix_true. eauto. Qed.

Fixpoint strip_suffix (s suffix : string) : option string :=
  if bool_decide (s = suffix) then Some ""
  else match s with
       | "" => None
       | String a s' => String a <$> strip_suffix s' suffix
       end.

Definition TrimSuffix (s suffix : string) : string := default s (strip_suffix s suffix).

(** ** [strings.Cut] and [strings.SplitN(s, sep, 2)] with a one-byte separator *)

Fixpoint Cut (s : string) (sep : ascii) : string * string * bool :=
  match s with
  | "" => ("", "", false)
  | String a s' =>
      if bool_decide (a = sep) then ("", s', true)
      else let '(before, after, found) := Cut s' sep in (String a before, after, found)
  end.

Definition SplitN2 (s : string) (sep : ascii) : list string :=
  let '(before, after, found) := Cut s sep in
  if found then [before; after] else [before].

(** [strings.Split] at a one-byte separator. *)
Fixpoint Split (s : string) (sep : ascii) : list string :=
  match s with
  | "" => [""]
  | String a s' =>
      if bool_decide (a = sep) then "" :: Split s' sep
      else match Split s' sep with
           | x :: l => String a x :: l
           | [] => [String a ""]
           end
  end.

Definition contains_byte (c : ascii) (s : string) : Prop := c ∈ chars s.

#[global] Instance contains_byte_dec c s : Decision (contains_byte c s).
Proof. unfold contains_byte. apply _. Defined.

Lemma Cut_found s sep b a :
  Cut s sep = (b, a, true) -> s = b +:+ String sep a /\ ~ contains_byte sep b.
Proof.
  revert b a. induction s as [|c s IH]; intros b a; simpl; [done|].
  case_bool_decide as Hc.
  - intros [= <- <-]. subst. split; [done|]. unfold contains_byte. set_solver.
  - destruct (Cut s sep) as [[b' a'] f] eqn:E. intros [= <- <- ->].
    destruct (IH b' a' eq_refl) as [-> Hb]. split; [done|].
    unfold contains_byte in *. simpl. set_solver.
Qed.

Lemma Cut_not_found s sep b a :
  Cut s sep = (b, a, false) -> b = s /\ a = "" /\ ~ contains_byte sep s.
Proof.
  revert b a. induction s as [|c s IH]; intros b a; simpl.
  - intros [= <- <-]. repeat split. unfold contains_byte. set_solver.
  - case_bool_decide as Hc; [done|].
    destruct (Cut s sep) as [[b' a'] f] eqn:E. intros [= <- <- ->].
    destruct (IH b' a' eq_refl) as (-> & -> & Hb). repeat split.
    unfold contains_byte in *. simpl. set_solver.
Qed.

Lemma Cut_app b sep a :
  ~ contains_byte sep b -> Cut (b +:+ String sep a) sep = (b, a, true).
Proof.
  unfold contains_byte. induction b as [|c b IH]; intros Hb.
  - simpl. by rewrite bool_decide_eq_true_2.
  - rewrite sapp_cons. simpl in *. rewrite bool_decide_eq_false_2 by set_solver.
    rewrite IH by set_solver. done.
Qed.

Lemma Split_ne s sep : Split s sep <> [].
Proof. induction s as [|a s IH]; simpl; [done|]. case_bool_decide; [done|]. by destruct (Split s sep). Qed.

(** ** [strings.Trim], [strings.TrimRight] with an ASCII cutset *)

Definition drop_while {A} (p : A -> bool) : list A -> list A :=
  fix go l := match l with
              | [] => []
              | x :: l' => if p x then go l' else l
              end.

Definition in_set (cutset : string) (a : ascii) : bool := bool_decide (a ∈ chars cutset).

Definition TrimLeft_l (cutset : string) (l : list ascii) : list ascii :=
  drop_while (in_set cutset) l.

Definition TrimRight_l (cutset : string) (l : list ascii) : list ascii :=
  reverse (drop_while (in_set cutset) (reverse l)).

Definition TrimRight (s cutset : string) : string :=
  of_chars (TrimRight_l cutset (chars s)).

Definition Trim (s cutset : string) : string :=
  of_chars (TrimRight_l cutset (TrimLeft_l cutset (chars s))).

Lemma drop_while_suffix {A} (p : A -> bool) l :
  exists pre, l = pre ++ drop_while p l /\ Forall (fun x => p x = true) pre.
Proof.
  induction l as [|x l (pre & Hl & Hp)]; simpl; [by exists []|].
  destruct (p x) eqn:E.
  - exists (x :: pre). simpl. split; [by rewrite <- Hl|by constructor].
  - by exists [].
Qed.

Lemma drop_while_head {A} (p : A -> bool) l x :
  head (drop_while p l) = Some x -> p x = false.
Proof.
  induction l as [|y l IH]; simpl; [done|]. destruct (p y) eqn:E; [done|].
  simpl. congruence.
Qed.

Lemma TrimRight_l_last cutset l x :
  last (TrimRight_l cutset l) = Some x -> in_set cutset x = false.
Proof.
  unfold TrimRight_l. rewrite last_reverse. apply drop_while_head.
Qed.

(** ** [unicode/utf8] *)

Definition RuneError : Z := 65533.

Definition between (lo hi z : Z) : bool := ((lo <=? z) && (z <=? hi))%Z.

(** The range the second byte of a multi-byte sequence must be in. *)
Definition second_ok (b0 b1 : Z) : bool :=
  if bool_decide (b0 = 224%Z) then between 160 191 b1
  else if bool_decide (b0 = 237%Z) then between 128 159 b1
  else if bool_decide (b0 = 240%Z) then between 144 191 b1
  else if bool_decide (b0 = 244%Z) then between 128 143 b1
  else between 128 191 b1.

Definition cont (b : Z) : Z := Z.land b 63.

(** [for _, r := range s]: each rune with the bytes it was decoded from; an
    invalid byte yields [RuneError] and one byte. *)
Fixpoint runes (s : string) : list (Z * string) :=
  match s with
  | "" => []
  | String a0 s1 =>
      let b0 := byteZ a0 in
      let bad := (RuneError, String a0 "") in
      if (b0 <? 128)%Z then (b0, String a0 "") :: runes s1
      else match s1 with
      | "" => [bad]
      | String a1 s2 =>
          let b1 := byteZ a1 in
          if between 194 223 b0 then
            if between 128 191 b1
            then (Z.lor (Z.shiftl (Z.land b0 31) 6) (cont b1), String a0 (String a1 "")) :: runes s2
            else bad :: runes s1
          else if between 224 239 b0 then
            match s2 with
            | String a2 s3 =>
                let b2 := byteZ a2 in
                if second_ok b0 b1 && between 128 191 b2
                then (Z.lor (Z.lor (Z.shiftl (Z.land b0 15) 12) (Z.shiftl (cont b1) 6)) (cont b2),
                      String a0 (String a1 (String a2 ""))) :: runes s3
                else bad :: runes s1
            | "" => bad :: runes s1
            end
          else if between 240 244 b0 then
            match s2 with
            | String a2 (String a3 s4) =>
                let b2 := byteZ a2 in let b3 := byteZ a3 in
                if second_ok b0 b1 && between 128 191 b2 && between 128 191 b3
                then (Z.lor (Z.lor (Z.shiftl (Z.land b0 7) 18) (Z.shiftl (cont b1) 12))
                            (Z.lor (Z.shiftl (cont b2) 6) (cont b3)),
                      String a0 (String a1 (String a2 (String a3 "")))) :: runes s4
                else bad :: runes s1
            | _ => bad :: runes s1
            end
          else bad :: runes s1
      end
  end.

(** [utf8.EncodeRune], with the replacement of invalid runes. *)
Definition encode_rune (r : Z) : string :=
  let r := if ((r <? 0) || between 55296 57343 r || (1114111 <? r))%Z then RuneError else r in
  let c (k : Z) := Zbyte (Z.lor 128 (Z.land (Z.shiftr r k) 63)) in
  if (r <? 128)%Z then String (Zbyte r) ""
  else if (r <? 2048)%Z then String (Zbyte (Z.lor 192 (Z.shiftr r 6))) (String (c 0%Z) "")
  else if (r <? 65536)%Z
  then String (Zbyte (Z.lor 224 (Z.shiftr r 12))) (String (c 6%Z) (String (c 0%Z) ""))
  else String (Zbyte (Z.lor 240 (Z.shiftr r 18)))
         (String (c 12%Z) (String (c 6%Z) (String (c 0%Z) ""))).

Definition concat_all (l : list string) : string := String.concat "" l.

Lemma concat_all_cons x l : concat_all (x :: l) = x +:+ concat_all l.
Proof.
  unfold concat_all. destruct l as [|y l]; simpl; [by rewrite sapp_nil_r|done].
Qed.

Lemma concat_all_app l k : concat_all (l ++ k) = concat_all l +:+ concat_all k.
Proof.
  induction l as [|x l IH]; [done|].
  rewrite <- app_comm_cons, !concat_all_cons, IH. by rewrite sapp_assoc.
Qed.

(** [strings.ToLower]: ASCII by the code, above it by the Unicode table. *)
Definition lower_rune (table : Z -> Z) (r : Z) : Z :=
  if (r <? 128)%Z then (if between 65 90 r then r + 32 else r)%Z else table r.

Definition ToLower (table : Z -> Z) (s : string) : string :=
  concat_all ((fun r => encode_rune (lower_rune table r.1)) <$> runes s).

(** [strings.TrimSpace]: Unicode's White_Space set. *)
Definition is_space (r : Z) : bool :=
  between 9 13 r || bool_decide (r ∈ [32; 133; 160; 5760; 8232; 8233; 8239; 8287; 12288]%Z)
  || between 8192 8202 r.

Definition TrimSpace (s : string) : string :=
  let p (r : Z * string) := is_space r.1 in
  concat_all (snd <$> reverse (drop_while p (reverse (drop_while p (runes s))))).

(** ** [strconv.Itoa], [%d], hexadecimal *)

Definition Itoa (z : Z) : string := pretty z.

Lemma Itoa_inj a b : Itoa a = Itoa b -> a = b.
Proof. unfold Itoa. apply (inj pretty). Qed.

Definition hex_digit (z : Z) : ascii :=
  if (z <? 10)%Z then Zbyte (48 + z) else Zbyte (87 + z).

Fixpoint hex_fixed (n : nat) (z : Z) : string :=
  match n with
  | 0 => ""
  | S n' => hex_fixed n' (Z.shiftr z 4) +:+ String (hex_digit (Z.land z 15)) ""
  end.

(** [hex.EncodeToString]. *)
Definition hex_encode (bs : list Z) : string :=
  concat_all ((fun b => hex_fixed 2 b) <$> bs).

(** ** [strconv.Quote], the verb [%q] *)

Definition quote_rune (is_print : Z -> bool) (r : Z * string) : string :=
  let '(c, raw) := r in
  if bool_decide (c = RuneError) && bool_decide (String.length raw = 1)
  then "\x" +:+ match raw with String b _ => hex_fixed 2 (byteZ b) | "" => "" end
  else if bool_decide (c = 34%Z) || bool_decide (c = 92%Z) then "\" +:+ raw
  else if (c <? 128)%Z && between 32 126 c then raw
  else if (128 <=? c)%Z && is_print c then raw
  else if bool_decide (c = 7%Z) then "\a"
  else if bool_decide (c = 8%Z) then "\b"
  else if bool_decide (c = 12%Z) then "\f"
  else if bool_decide (c = 10%Z) then "\n"
  else if bool_decide (c = 13%Z) then "\r"
  else if bool_decide (c = 9%Z) then "\t"
  else if bool_decide (c = 11%Z) then "\v"
  else if ((c <? 32) || (c =? 127))%Z then "\x" +:+ hex_fixed 2 c
  else if (c <? 65536)%Z then "\u" +:+ hex_fixed 4 c
  else "\U" +:+ hex_fixed 8 c.

Definition Quote (is_print : Z -> bool) (s : string) : string :=
  dq +:+ concat_all (quote_rune is_print <$> runes s) +:+ dq.

(** ** Byte-wise order, Go's [<] on strings *)

Definition str_lt (a b : string) : bool := String.ltb a b.

(** [strings.Contains]. *)
Definition Contains (s sub : string) : bool :=
  match String.index 0 sub s with Some _ => true | None => false end.

Definition Join (l : list string) (sep : string) : string := String.concat sep l.

Example ToLower_ascii : ToLower id "Kube-PROXY" = "kube-proxy".
Proof. vm_compute. reflexivity. Qed.

Example Quote_groups : Quote (fun _ => false) "system:nodes,system:masters"
  = dq +:+ "system:nodes,system:masters" +:+ dq.
Proof. vm_compute. reflexivity. Qed.

Example Quote_escapes : Quote (fun _ => true) ("a" +:+ dq +:+ nl +:+ String (Zbyte 255) "é")
  = dq +:+ "a\" +:+ dq +:+ "\n\xffé" +:+ dq.
Proof. vm_compute. reflexivity. Qed.

Example TrimSpace_ex : TrimSpace "  pods a/b " = "pods a/b".
Proof. vm_compute. reflexivity. Qed.

Example TrimSuffix_ex : TrimSuffix "/var/run/" "/" = "/var/run".
Proof. vm_compute. reflexivity. Qed.
