(* ===== verification/KubeTypes.v ===== *)
(** * The Kubernetes object types the source reads and writes

    Records for the [k8s.io/api] and [apimachinery] structs that appear in
    src/, with the fields the source uses. A pointer is an [option], a Go map
    a [gmap], a slice a [list], a time the nanoseconds since Go's zero time
    (so [IsZero] is [= 0]). They are data only: what the API server does with
    them is the interface of file Kube. *)

From S2P Require Import Prelude GoStrings.
#[local] Open Scope string_scope.

Abbreviation Time := Z (only parsing).
Definition time_is_zero (t : Time) : bool := bool_decide (t = 0%Z).

(** [types.NamespacedName]. *)
Record NamespacedName := NN { nn_Namespace : string; nn_Name : string }.

#[global] Instance NamespacedName_eq_dec : EqDecision NamespacedName.
Proof. solve_decision. Defined.

#[global] Instance NamespacedName_countable : Countable NamespacedName.
Proof.
  refine (inj_countable' (fun n => (nn_Namespace n, nn_Name n))
                         (fun p => NN p.1 p.2) _). by intros [].
Defined.

(** [metav1.OwnerReference]. *)
Record OwnerReference := {
  or_APIVersion : string; or_Kind : string; or_Name : string; or_UID : string;
  or_Controller : option bool; or_BlockOwnerDeletion : option bool }.

#[global] Instance OwnerReference_eq_dec : EqDecision OwnerReference.
Proof. solve_decision. Defined.

(** [metav1.ObjectMeta]. *)
Record ObjectMeta := {
  om_Name : string; om_Namespace : string; om_UID : string;
  om_ResourceVersion : string; om_Generation : Z;
  om_CreationTimestamp : Time; om_DeletionTimestamp : option Time;
  om_Labels : gmap string string; om_Annotations : gmap string string;
  om_OwnerReferences : list OwnerReference; om_Finalizers : list string }.

#[global] Instance ObjectMeta_eq_dec : EqDecision ObjectMeta.
Proof. solve_decision. Defined.

(** [metav1.ObjectMeta{Name: ..., Namespace: ..., Labels: ...}]: every other
    field at its zero value. *)
Definition object_meta (name ns : string) (labels : gmap string string) : ObjectMeta :=
  {| om_Name := name; om_Namespace := ns; om_UID := ""; om_ResourceVersion := "";
     om_Generation := 0; om_CreationTimestamp := 0; om_DeletionTimestamp := None;
     om_Labels := labels; om_Annotations := ∅; om_OwnerReferences := [];
     om_Finalizers := [] |}.

Definition om_with_labels (m : ObjectMeta) (l : gmap string string) : ObjectMeta :=
  {| om_Name := om_Name m; om_Namespace := om_Namespace m; om_UID := om_UID m;
     om_ResourceVersion := om_ResourceVersion m; om_Generation := om_Generation m;
     om_CreationTimestamp := om_CreationTimestamp m;
     om_DeletionTimestamp := om_DeletionTimestamp m; om_Labels := l;
     om_Annotations := om_Annotations m; om_OwnerReferences := om_OwnerReferences m;
     om_Finalizers := om_Finalizers m |}.

Definition om_with_owners (m : ObjectMeta) (l : list OwnerReference) : ObjectMeta :=
  {| om_Name := om_Name m; om_Namespace := om_Namespace m; om_UID := om_UID m;
     om_ResourceVersion := om_ResourceVersion m; om_Generation := om_Generation m;
     om_CreationTimestamp := om_CreationTimestamp m;
     om_DeletionTimestamp := om_DeletionTimestamp m; om_Labels := om_Labels m;
     om_Annotations := om_Annotations m; om_OwnerReferences := l;
     om_Finalizers := om_Finalizers m |}.

Definition om_with_finalizers (m : ObjectMeta) (l : list string) : ObjectMeta :=
  {| om_Name := om_Name m; om_Namespace := om_Namespace m; om_UID := om_UID m;
     om_ResourceVersion := om_ResourceVersion m; om_Generation := om_Generation m;
     om_CreationTimestamp := om_CreationTimestamp m;
     om_DeletionTimestamp := om_DeletionTimestamp m; om_Labels := om_Labels m;
     om_Annotations := om_Annotations m; om_OwnerReferences := om_OwnerReferences m;
     om_Finalizers := l |}.

Definition om_key (m : ObjectMeta) : NamespacedName := NN (om_Namespace m) (om_Name m).

(** ** [corev1] *)

Record EnvVar := Env { env_Name : string; env_Value : string }.

Record VolumeMount := {
  vm_Name : string; vm_MountPath : string; vm_SubPath : string; vm_ReadOnly : bool }.

Record KeyToPath := { kp_Key : string; kp_Path : string }.

Inductive VolumeProjection :=
  | ProjSecret (name : string) (items : list KeyToPath)
  | ProjDownwardAPI (items : list (string * string)).

(** [corev1.VolumeSource]: the sources src/ builds; a volume of the
    cluster's own pods that is none of them is [OtherSource]. An empty item
    list projects every key of the object. *)
Inductive VolumeSource :=
  | ProjectedSource (sources : list VolumeProjection)
  | ConfigMapSource (name : string) (items : list KeyToPath)
  | SecretSource (name : string) (items : list KeyToPath)
  | EmptyDirSource (medium : string)
  | PVCSource (claim : string)
  | OtherSource (descr : string).

Record Volume := { v_Name : string; v_Source : VolumeSource }.

Record Capabilities := { cap_Drop : list string; cap_Add : list string }.

Record SecurityContext := {
  sc_RunAsNonRoot : option bool; sc_RunAsUser : option Z;
  sc_AllowPrivilegeEscalation : option bool;
  sc_Capabilities : option Capabilities; sc_SeccompProfile : option string }.

Record ResourceRequirements := {
  rr_Requests : gmap string string; rr_Limits : gmap string string }.

Definition no_resources : ResourceRequirements := {| rr_Requests := ∅; rr_Limits := ∅ |}.

Record ContainerPort := { cp_Name : string; cp_ContainerPort : Z }.

Record Container := {
  c_Name : string; c_Image : string; c_ImagePullPolicy : string;
  c_Command : list string; c_Args : list string; c_Env : list EnvVar;
  c_Ports : list ContainerPort; c_Resources : ResourceRequirements;
  c_VolumeMounts : list VolumeMount; c_SecurityContext : option SecurityContext }.

(** [corev1.Container{Name: ..., Image: ...}]. *)
Definition container (name image : string) : Container :=
  {| c_Name := name; c_Image := image; c_ImagePullPolicy := ""; c_Command := [];
     c_Args := []; c_Env := []; c_Ports := []; c_Resources := no_resources;
     c_VolumeMounts := []; c_SecurityContext := None |}.

Definition c_with_mounts (c : Container) (l : list VolumeMount) : Container :=
  {| c_Name := c_Name c; c_Image := c_Image c; c_ImagePullPolicy := c_ImagePullPolicy c;
     c_Command := c_Command c; c_Args := c_Args c; c_Env := c_Env c; c_Ports := c_Ports c;
     c_Resources := c_Resources c; c_VolumeMounts := l;
     c_SecurityContext := c_SecurityContext c |}.

Definition c_with_env (c : Container) (l : list EnvVar) : Container :=
  {| c_Name := c_Name c; c_Image := c_Image c; c_ImagePullPolicy := c_ImagePullPolicy c;
     c_Command := c_Command c; c_Args := c_Args c; c_Env := l; c_Ports := c_Ports c;
     c_Resources := c_Resources c; c_VolumeMounts := c_VolumeMounts c;
     c_SecurityContext := c_SecurityContext c |}.

Record DNSOption := { do_Name : string; do_Value : option string }.

Record PodDNSConfig := {
  dns_Nameservers : list string; dns_Searches : list string;
  dns_Options : list DNSOption }.

Record PodSpec := {
  ps_InitContainers : list Container; ps_Containers : list Container;
  ps_Volumes : list Volume; ps_NodeName : string; ps_HostNetwork : bool;
  ps_Hostname : string; ps_RuntimeClassName : option string;
  ps_TerminationGracePeriodSeconds : option Z;
  ps_DNSPolicy : string; ps_DNSConfig : option PodDNSConfig;
  ps_AutomountServiceAccountToken : option bool;
  ps_EnableServiceLinks : option bool }.

(** [corev1.PodSpec{Containers: ...}], every other field at its zero value. *)
Definition pod_spec (containers : list Container) : PodSpec :=
  {| ps_InitContainers := []; ps_Containers := containers; ps_Volumes := [];
     ps_NodeName := ""; ps_HostNetwork := false; ps_Hostname := "";
     ps_RuntimeClassName := None; ps_TerminationGracePeriodSeconds := None;
     ps_DNSPolicy := ""; ps_DNSConfig := None;
     ps_AutomountServiceAccountToken := None; ps_EnableServiceLinks := None |}.

Record ContainerStatus := {
  cs_Name : string; cs_Image : string; cs_Ready : bool; cs_Started : option bool;
  cs_RestartCount : Z; cs_ContainerID : string; cs_ImageID : string;
  cs_StartedAt : option Time }.

Record PodCondition := { pc_Type : string; pc_Status : string; pc_LastTransitionTime : Time }.

Record PodStatus := {
  pst_Phase : string; pst_StartTime : option Time; pst_Conditions : list PodCondition;
  pst_HostIP : string; pst_PodIP : string; pst_PodIPs : list string;
  pst_ContainerStatuses : list ContainerStatus }.

Definition no_pod_status : PodStatus :=
  {| pst_Phase := ""; pst_StartTime := None; pst_Conditions := []; pst_HostIP := "";
     pst_PodIP := ""; pst_PodIPs := []; pst_ContainerStatuses := [] |}.

Record Pod := { p_Meta : ObjectMeta; p_Spec : PodSpec; p_Status : PodStatus }.

Definition p_Name (p : Pod) : string := om_Name (p_Meta p).
Definition p_Namespace (p : Pod) : string := om_Namespace (p_Meta p).

(** [p.Annotations[k]]: the empty string when the key is absent. *)
Definition annotation (p : Pod) (k : string) : string :=
  default "" (om_Annotations (p_Meta p) !! k).

Record ServicePort := {
  sp_Name : string; sp_Port : Z; sp_TargetPort : string + Z; sp_Protocol : string }.

Record ServiceSpec := {
  ss_ClusterIP : string; ss_Selector : gmap string string; ss_Ports : list ServicePort }.

Record Service := { svc_Meta : ObjectMeta; svc_Spec : ServiceSpec }.

(** [corev1.Secret]; the bytes of a value are a [string]. *)
Record Secret := {
  sec_Meta : ObjectMeta; sec_Type : string; sec_Data : gmap string string }.

(** [secret.Data[k]]: no bytes when the key is absent. *)
Definition sec_get (s : Secret) (k : string) : string := default "" (sec_Data s !! k).

Record ConfigMap := { cm_Meta : ObjectMeta; cm_Data : gmap string string }.

(** [corev1.PersistentVolumeClaim]; [pvc_Storage] is the text of the storage
    request. *)
Record PersistentVolumeClaim := {
  pvc_Meta : ObjectMeta; pvc_AccessModes : list string;
  pvc_StorageClassName : option string; pvc_Storage : string }.

(** ** [appsv1], [networkingv1] *)

Record PodTemplateSpec := {
  pt_Labels : gmap string string; pt_Annotations : gmap string string; pt_Spec : PodSpec }.

Record DeploymentSpec := {
  ds_Replicas : option Z; ds_Strategy : string; ds_Selector : gmap string string;
  ds_Template : PodTemplateSpec }.

Record DeploymentStatus := {
  dst_Replicas : Z; dst_ReadyReplicas : Z; dst_AvailableReplicas : Z; dst_UpdatedReplicas : Z }.

Definition no_deployment_status : DeploymentStatus :=
  {| dst_Replicas := 0; dst_ReadyReplicas := 0; dst_AvailableReplicas := 0; dst_UpdatedReplicas := 0 |}.

Record Deployment := {
  d_Meta : ObjectMeta; d_Spec : DeploymentSpec; d_Status : DeploymentStatus }.

Record NetworkPolicyPort := { npp_Protocol : string; npp_Port : Z }.

Record NetworkPolicyPeer := { npr_NamespaceSelector : gmap string string }.

Record NetworkPolicyEgressRule := {
  ner_To : list NetworkPolicyPeer; ner_Ports : list NetworkPolicyPort }.

Record NetworkPolicySpec := {
  nps_PodSelector : gmap string string; nps_PolicyTypes : list string;
  nps_Egress : list NetworkPolicyEgressRule }.

Record NetworkPolicy := { np_Meta : ObjectMeta; np_Spec : NetworkPolicySpec }.

#[global] Instance EnvVar_eq_dec : EqDecision EnvVar.
Proof. solve_decision. Defined.
#[global] Instance VolumeMount_eq_dec : EqDecision VolumeMount.
Proof. solve_decision. Defined.
#[global] Instance KeyToPath_eq_dec : EqDecision KeyToPath.
Proof. solve_decision. Defined.
#[global] Instance VolumeProjection_eq_dec : EqDecision VolumeProjection.
Proof. solve_decision. Defined.
#[global] Instance VolumeSource_eq_dec : EqDecision VolumeSource.
Proof. solve_decision. Defined.
#[global] Instance Volume_eq_dec : EqDecision Volume.
Proof. solve_decision. Defined.
