(* ===== verification/ApiTypes.v ===== *)
(** * The types of api/v1alpha1 and internal/seed

    The operator's own resources (Decoy, Provider, Alert, AuditSink) and the
    seed, the document the operator renders and kubelet-shim loads. Each
    record keeps the fields of the Go struct, under a prefix. *)

From S2P Require Import Prelude GoStrings KubeTypes.
#[local] Open Scope string_scope.

(** ** api/v1alpha1/decoy_types.go *)

(** [src/api/v1alpha1/decoy_types.go:9-21, FakeNode] *)
Record FakeNode := {
  fn_Name : string; fn_InternalIP : string; fn_KubeletVersion : string }.

(** [src/api/v1alpha1/decoy_types.go:23-27, FakeContainer] *)
Record FakeContainer := { fc_Name : string; fc_Image : string }.

(** [src/api/v1alpha1/decoy_types.go:29-56, FakePod] *)
Record FakePod := {
  fp_Name : string; fp_Namespace : string; fp_Replicas : Z;
  fp_Containers : list FakeContainer; fp_NodeName : string;
  fp_LogLines : list string; fp_Labels : gmap string string }.

(** [src/api/v1alpha1/decoy_types.go:58-67, FakeSecret] *)
Record FakeSecret := {
  fs_Name : string; fs_Namespace : string; fs_Data : gmap string string }.

(** [src/api/v1alpha1/decoy_types.go:228-266, FakeCRD] *)
Record FakeCRD := {
  fcrd_Group : string; fcrd_Kind : string; fcrd_Plural : string;
  fcrd_Singular : string; fcrd_ShortNames : list string;
  fcrd_Versions : list string; fcrd_Scope : string }.

(** [src/api/v1alpha1/decoy_types.go:268-279, PersistenceSpec]. [resource.Quantity]
    is the quantity's text, the empty text being the zero quantity. *)
Record PersistenceSpec := { per_StorageClassName : option string; per_Size : string }.

(** [src/api/v1alpha1/decoy_types.go:69-216, DecoySpec] *)
Record DecoySpec := {
  spec_KubeletShimImage : string; spec_ExecProfile : string; spec_ExecIsolation : bool;
  spec_KubernetesVersion : string; spec_KubeAPIServerImage : string;
  spec_KineImage : string; spec_Port : Z; spec_SANs : list string;
  spec_AuditLevel : string; spec_FakeNodes : list FakeNode;
  spec_FakePods : list FakePod; spec_FakeSecrets : list FakeSecret;
  spec_Resources : ResourceRequirements; spec_RuntimeClassName : option string;
  spec_SeedSystemComponents : option bool; spec_FakeCRDs : list FakeCRD;
  spec_Persistence : option PersistenceSpec }.

(** The CEL rules the CRD puts on the spec.
    [src/api/v1alpha1/decoy_types.go:70-71, DecoySpec XValidation] *)
Definition DecoySpec_XValidation (s : DecoySpec) : bool :=
  forallb (fun p => (fp_NodeName p ==? "") ||
             existsb (fun n => fn_Name n ==? fp_NodeName p) (spec_FakeNodes s))
          (spec_FakePods s)
  && (negb (spec_ExecIsolation s) ||
      match spec_RuntimeClassName s with Some rc => rc !=? "" | None => false end).

(** [src/api/v1alpha1/decoy_types.go:281-304, JoinedPod] *)
Record JoinedPod := { jp_Name : string; jp_Namespace : string; jp_Redirected : bool }.

(** [src/api/v1alpha1/decoy_types.go:306-323, IntrusionActivity] *)
Record IntrusionActivity := {
  ia_FirstSeen : option Time; ia_LastSeen : option Time;
  ia_RequestCount : Z; ia_LastSourceIP : string }.

(** [src/api/v1alpha1/decoy_types.go:325-332, DecoyPhase] *)
Definition DecoyPhase := string.
Definition DecoyPhasePending : DecoyPhase := "Pending".
Definition DecoyPhaseReady : DecoyPhase := "Ready".
Definition DecoyPhaseFailed : DecoyPhase := "Failed".

(** [metav1.Condition]. *)
Record Condition := {
  cond_Type : string; cond_Status : string; cond_Reason : string;
  cond_Message : string; cond_ObservedGeneration : Z; cond_LastTransitionTime : Time }.

(** [src/api/v1alpha1/decoy_types.go:334-375, DecoyStatus] *)
Record DecoyStatus := {
  st_Phase : DecoyPhase; st_Endpoint : string; st_CredentialsSecret : string;
  st_ObservedGeneration : Z; st_JoinedPods : list JoinedPod;
  st_IntrusionActivity : option IntrusionActivity; st_Conditions : list Condition }.

(** [src/api/v1alpha1/decoy_types.go:387-399, Decoy] *)
Record Decoy := { kt_Meta : ObjectMeta; kt_Spec : DecoySpec; kt_Status : DecoyStatus }.

Definition kt_Name (kt : Decoy) : string := om_Name (kt_Meta kt).
Definition kt_Namespace (kt : Decoy) : string := om_Namespace (kt_Meta kt).
Definition kt_key (kt : Decoy) : NamespacedName := NN (kt_Namespace kt) (kt_Name kt).

Definition empty_status : DecoyStatus :=
  {| st_Phase := ""; st_Endpoint := ""; st_CredentialsSecret := "";
     st_ObservedGeneration := 0; st_JoinedPods := []; st_IntrusionActivity := None;
     st_Conditions := [] |}.

(** A spec with every field at its zero value: what the concrete instances
    below start from. *)
Definition empty_spec : DecoySpec :=
  {| spec_KubeletShimImage := ""; spec_ExecProfile := ""; spec_ExecIsolation := false;
     spec_KubernetesVersion := ""; spec_KubeAPIServerImage := ""; spec_KineImage := "";
     spec_Port := 0; spec_SANs := []; spec_AuditLevel := ""; spec_FakeNodes := [];
     spec_FakePods := []; spec_FakeSecrets := []; spec_Resources := no_resources;
     spec_RuntimeClassName := None; spec_SeedSystemComponents := None;
     spec_FakeCRDs := []; spec_Persistence := None |}.

Definition mk_decoy (ns name : string) (s : DecoySpec) : Decoy :=
  {| kt_Meta := object_meta name ns ∅; kt_Spec := s; kt_Status := empty_status |}.

(** ** Providers, alerts and audit sinks *)

(** [corev1.LocalObjectReference] is the referenced name.
    [src/api/v1alpha1/provider_types.go:8-22, ProviderSpec] *)
Record ProviderSpec := {
  pv_Type : string; pv_Address : string; pv_SecretRef : option string }.

(** [src/api/v1alpha1/provider_types.go:24-36, Provider] *)
Record Provider := { prov_Meta : ObjectMeta; prov_Spec : ProviderSpec }.

(** [src/api/v1alpha1/reference_types.go:5-19, ProviderReference] *)
Record ProviderReference := { pr_Type : string; pr_SecretRef : option string }.

(** [src/api/v1alpha1/reference_types.go:21-31, DecoyTarget] *)
Record DecoyTarget := { dt_Name : string; dt_Namespace : string }.

(** [src/api/v1alpha1/alert_types.go:7-18, AlertEventType] *)
Definition AlertEventType := string.
Definition AlertEventPodJoin : AlertEventType := "PodJoin".
Definition AlertEventAuditActivity : AlertEventType := "AuditActivity".

(** [src/api/v1alpha1/alert_types.go:20-54, AlertSpec] *)
Record AlertSpec := {
  al_ProviderRef : ProviderReference; al_Targets : list DecoyTarget;
  al_EventTypes : list AlertEventType; al_IncludeAll : bool;
  al_ExcludeVerbs : list string; al_ExcludeResources : list string }.

(** [src/api/v1alpha1/alert_types.go:56-68, Alert] *)
Record Alert := { alert_Meta : ObjectMeta; alert_Spec : AlertSpec }.

Definition alert_Namespace (a : Alert) : string := om_Namespace (alert_Meta a).
Definition alert_Name (a : Alert) : string := om_Name (alert_Meta a).

(** [src/api/v1alpha1/auditsink_types.go:7-20, AuditSinkSpec] *)
Record AuditSinkSpec := { as_ProviderRef : ProviderReference; as_Targets : list DecoyTarget }.

(** [src/api/v1alpha1/auditsink_types.go:22-34, AuditSink] *)
Record AuditSink := { sink_Meta : ObjectMeta; sink_Spec : AuditSinkSpec }.

Definition sink_Namespace (s : AuditSink) : string := om_Namespace (sink_Meta s).
Definition sink_Name (s : AuditSink) : string := om_Name (sink_Meta s).

(** ** internal/seed/seed.go *)
Module seed.

(** [src/internal/seed/seed.go:154-160, OwnerRef] *)
Record OwnerRef := {
  sor_APIVersion : string; sor_Kind : string; sor_Name : string; sor_Controller : bool }.

(** [src/internal/seed/seed.go:79-85, ServicePort] *)
Record ServicePort := {
  ssp_Name : string; ssp_Port : Z; ssp_TargetPort : Z; ssp_Protocol : string }.

(** [src/internal/seed/seed.go:64-77, Service] *)
Record Service := {
  ssv_Name : string; ssv_Namespace : string; ssv_Labels : gmap string string;
  ssv_ClusterIP : string; ssv_Ports : list ServicePort;
  ssv_Selector : gmap string string; ssv_EndpointIPs : list string }.

(** [src/internal/seed/seed.go:87-93, ConfigMap] *)
Record ConfigMap := {
  scm_Name : string; scm_Namespace : string; scm_Labels : gmap string string;
  scm_Data : gmap string string }.

(** [src/internal/seed/seed.go:95-114, CRD] *)
Record CRD := {
  crd_Group : string; crd_Kind : string; crd_Plural : string; crd_Singular : string;
  crd_ShortNames : list string; crd_Versions : list string; crd_Scope : string }.

(** [src/internal/seed/seed.go:116-139, Pod] *)
Record Pod := {
  sp_FakePod : FakePod; sp_OwnerRefs : list OwnerRef;
  sp_Annotations : gmap string string; sp_HostNetwork : bool;
  sp_CPURequest : string; sp_MemoryRequest : string }.

(** [src/internal/seed/seed.go:141-152, Controller] *)
Record Controller := {
  ctl_APIVersion : string; ctl_Kind : string; ctl_Name : string; ctl_Namespace : string;
  ctl_Labels : gmap string string; ctl_Replicas : Z; ctl_Image : string;
  ctl_OwnerRefs : list OwnerRef }.

(** [src/internal/seed/seed.go:20-62, Seed] *)
Record Seed := {
  s_FakeNodes : list FakeNode; s_FakePods : list Pod; s_FakeSecrets : list FakeSecret;
  s_Controllers : list Controller; s_CRDs : list CRD; s_Services : list Service;
  s_ConfigMaps : list ConfigMap }.

End seed.

#[global] Instance FakeNode_eq_dec : EqDecision FakeNode.
Proof. solve_decision. Defined.
#[global] Instance FakeContainer_eq_dec : EqDecision FakeContainer.
Proof. solve_decision. Defined.
#[global] Instance FakePod_eq_dec : EqDecision FakePod.
Proof. solve_decision. Defined.
#[global] Instance CRD_eq_dec : EqDecision seed.CRD.
Proof. solve_decision. Defined.
