(* ===== verification/DeepCopy.v ===== *)
(** * zz_generated.deepcopy.go: the API objects in memory

    The types of api/v1alpha1 as Go lays them out, with pointers, slices and
    maps, what each stands for (the records of ApiTypes), and the copying
    methods. A controller works on a copy of what its cache holds; the rest
    of the library gives such objects the value of a record, which is right
    because a copy shares nothing with the cache.

    The types of apimachinery and their copying methods are parameters. *)

From S2P Require Import Prelude Memory GoStrings KubeTypes ApiTypes.
#[local] Open Scope list_scope.

(** The types of apimachinery in memory, and the blocks they allocate. *)
Class Foreign := {
  ObjectMetaM : Type; ListMetaM : Type; ListMeta : Type; ResourceRequirementsM : Type;
  ConditionM : Type; QuantityM : Type; TimeM : Type; foreign : Type }.

(** [metav1.TypeMeta] *)
Record TypeMeta := { tm_Kind : string; tm_APIVersion : string }.

(** ** The types

    A type without references is its record of ApiTypes. *)
Section Types.
Context `{Foreign}.

(** [src/api/v1alpha1/decoy_types.go:30-56, FakePod] *)
Record FakePodM := {
  fpm_Name : string; fpm_Namespace : string; fpm_Replicas : Z; fpm_Containers : slice FakeContainer;
  fpm_NodeName : string; fpm_LogLines : slice string; fpm_Labels : gomap }.

(** [src/api/v1alpha1/decoy_types.go:59-67, FakeSecret] *)
Record FakeSecretM := { fsm_Name : string; fsm_Namespace : string; fsm_Data : gomap }.

(** [src/api/v1alpha1/decoy_types.go:232-266, FakeCRD] *)
Record FakeCRDM := {
  fcm_Group : string; fcm_Kind : string; fcm_Plural : string; fcm_Singular : string;
  fcm_ShortNames : slice string; fcm_Versions : slice string; fcm_Scope : string }.

(** [src/api/v1alpha1/decoy_types.go:269-279, PersistenceSpec] *)
Record PersistenceSpecM := { pm_StorageClassName : ptr string; pm_Size : QuantityM }.

(** [src/api/v1alpha1/decoy_types.go:72-226, DecoySpec] *)
Record DecoySpecM := {
  dm_KubeletShimImage : string; dm_ExecProfile : string; dm_ExecIsolation : bool;
  dm_KubernetesVersion : string; dm_KubeAPIServerImage : string; dm_KineImage : string;
  dm_Port : Z; dm_SANs : slice string; dm_AuditLevel : string; dm_FakeNodes : slice FakeNode;
  dm_FakePods : slice FakePodM; dm_FakeSecrets : slice FakeSecretM;
  dm_Resources : ResourceRequirementsM; dm_RuntimeClassName : ptr string;
  dm_SeedSystemComponents : ptr bool; dm_FakeCRDs : slice FakeCRDM;
  dm_Persistence : ptr PersistenceSpecM }.

(** [src/api/v1alpha1/decoy_types.go:309-323, IntrusionActivity] *)
Record IntrusionActivityM := {
  iam_FirstSeen : ptr TimeM; iam_LastSeen : ptr TimeM; iam_RequestCount : Z; iam_LastSourceIP : string }.

(** [src/api/v1alpha1/decoy_types.go:335-375, DecoyStatus] *)
Record DecoyStatusM := {
  sm_Phase : DecoyPhase; sm_Endpoint : string; sm_CredentialsSecret : string;
  sm_ObservedGeneration : Z; sm_JoinedPods : slice JoinedPod;
  sm_IntrusionActivity : ptr IntrusionActivityM; sm_Conditions : slice ConditionM }.

(** [src/api/v1alpha1/provider_types.go:9-22, ProviderSpec] *)
Record ProviderSpecM := { psm_Type : string; psm_Address : string; psm_SecretRef : ptr string }.

(** [src/api/v1alpha1/reference_types.go:10-19, ProviderReference] *)
Record ProviderReferenceM := { prm_Type : string; prm_SecretRef : ptr string }.

(** [src/api/v1alpha1/alert_types.go:21-54, AlertSpec] *)
Record AlertSpecM := {
  am_ProviderRef : ProviderReferenceM; am_Targets : slice DecoyTarget;
  am_EventTypes : slice AlertEventType; am_IncludeAll : bool;
  am_ExcludeVerbs : slice string; am_ExcludeResources : slice string }.

(** [src/api/v1alpha1/auditsink_types.go:9-20, AuditSinkSpec] *)
Record AuditSinkSpecM := { asm_ProviderRef : ProviderReferenceM; asm_Targets : slice DecoyTarget }.

(** [src/api/v1alpha1/decoy_types.go:393-399, Decoy] *)
Record DecoyM := {
  dcm_TypeMeta : TypeMeta; dcm_ObjectMeta : ObjectMetaM; dcm_Spec : DecoySpecM; dcm_Status : DecoyStatusM }.

(** [src/api/v1alpha1/provider_types.go:31-36, Provider] *)
Record ProviderM := { pvm_TypeMeta : TypeMeta; pvm_ObjectMeta : ObjectMetaM; pvm_Spec : ProviderSpecM }.

(** [src/api/v1alpha1/alert_types.go:63-68, Alert] *)
Record AlertM := { alm_TypeMeta : TypeMeta; alm_ObjectMeta : ObjectMetaM; alm_Spec : AlertSpecM }.

(** [src/api/v1alpha1/auditsink_types.go:29-34, AuditSink] *)
Record AuditSinkM := { skm_TypeMeta : TypeMeta; skm_ObjectMeta : ObjectMetaM; skm_Spec : AuditSinkSpecM }.

(** The four list types have the same fields. *)
Record ListM (Item : Type) := {
  lsm_TypeMeta : TypeMeta; lsm_ListMeta : ListMetaM; lsm_Items : slice Item }.
(** [src/api/v1alpha1/decoy_types.go:404-408, DecoyList] *)
Definition DecoyListM := ListM DecoyM.
(** [src/api/v1alpha1/provider_types.go:41-45, ProviderList] *)
Definition ProviderListM := ListM ProviderM.
(** [src/api/v1alpha1/alert_types.go:73-77, AlertList] *)
Definition AlertListM := ListM AlertM.
(** [src/api/v1alpha1/auditsink_types.go:39-43, AuditSinkList] *)
Definition AuditSinkListM := ListM AuditSinkM.
End Types.
Arguments ListM {_} Item.
Arguments Build_ListM {_ Item}.
Arguments lsm_TypeMeta {_ Item}.
Arguments lsm_ListMeta {_ Item}.
Arguments lsm_Items {_ Item}.

(** ** The memory *)
Section Blocks.
Context `{Foreign}.

(** The blocks of the memory: variables of each type, tables of maps, and the
    blocks of the packages. *)
Inductive cell_ :=
  | VString (b : vars string)
  | VBool (b : vars bool)
  | VFakeNode (b : vars FakeNode)
  | VFakeContainer (b : vars FakeContainer)
  | VJoinedPod (b : vars JoinedPod)
  | VDecoyTarget (b : vars DecoyTarget)
  | VCondition (b : vars ConditionM)
  | VTime (b : vars TimeM)
  | VFakePod (b : vars FakePodM)
  | VFakeSecret (b : vars FakeSecretM)
  | VFakeCRD (b : vars FakeCRDM)
  | VPersistenceSpec (b : vars PersistenceSpecM)
  | VIntrusionActivity (b : vars IntrusionActivityM)
  | VDecoySpec (b : vars DecoySpecM)
  | VDecoyStatus (b : vars DecoyStatusM)
  | VDecoy (b : vars DecoyM)
  | VDecoyList (b : vars DecoyListM)
  | VProviderSpec (b : vars ProviderSpecM)
  | VProviderReference (b : vars ProviderReferenceM)
  | VProvider (b : vars ProviderM)
  | VProviderList (b : vars ProviderListM)
  | VAlertSpec (b : vars AlertSpecM)
  | VAlert (b : vars AlertM)
  | VAlertList (b : vars AlertListM)
  | VAuditSinkSpec (b : vars AuditSinkSpecM)
  | VAuditSink (b : vars AuditSinkM)
  | VAuditSinkList (b : vars AuditSinkListM)
  | VTable (b : gmap string string)
  | VForeign (b : foreign).
#[export] Instance VString_cell : Cell cell_ (vars string) :=
  {| cell := VString; uncell c := match c with VString b => Some b | _ => None end; uncell_cell _ := eq_refl |}.
#[export] Instance VBool_cell : Cell cell_ (vars bool) :=
  {| cell := VBool; uncell c := match c with VBool b => Some b | _ => None end; uncell_cell _ := eq_refl |}.
#[export] Instance VFakeNode_cell : Cell cell_ (vars FakeNode) :=
  {| cell := VFakeNode; uncell c := match c with VFakeNode b => Some b | _ => None end; uncell_cell _ := eq_refl |}.
#[export] Instance VFakeContainer_cell : Cell cell_ (vars FakeContainer) :=
  {| cell := VFakeContainer; uncell c := match c with VFakeContainer b => Some b | _ => None end; uncell_cell _ := eq_refl |}.
#[export] Instance VJoinedPod_cell : Cell cell_ (vars JoinedPod) :=
  {| cell := VJoinedPod; uncell c := match c with VJoinedPod b => Some b | _ => None end; uncell_cell _ := eq_refl |}.
#[export] Instance VDecoyTarget_cell : Cell cell_ (vars DecoyTarget) :=
  {| cell := VDecoyTarget; uncell c := match c with VDecoyTarget b => Some b | _ => None end; uncell_cell _ := eq_refl |}.
#[export] Instance VCondition_cell : Cell cell_ (vars ConditionM) :=
  {| cell := VCondition; uncell c := match c with VCondition b => Some b | _ => None end; uncell_cell _ := eq_refl |}.
#[export] Instance VTime_cell : Cell cell_ (vars TimeM) :=
  {| cell := VTime; uncell c := match c with VTime b => Some b | _ => None end; uncell_cell _ := eq_refl |}.
#[export] Instance VFakePod_cell : Cell cell_ (vars FakePodM) :=
  {| cell := VFakePod; uncell c := match c with VFakePod b => Some b | _ => None end; uncell_cell _ := eq_refl |}.
#[export] Instance VFakeSecret_cell : Cell cell_ (vars FakeSecretM) :=
  {| cell := VFakeSecret; uncell c := match c with VFakeSecret b => Some b | _ => None end; uncell_cell _ := eq_refl |}.
#[export] Instance VFakeCRD_cell : Cell cell_ (vars FakeCRDM) :=
  {| cell := VFakeCRD; uncell c := match c with VFakeCRD b => Some b | _ => None end; uncell_cell _ := eq_refl |}.
#[export] Instance VPersistenceSpec_cell : Cell cell_ (vars PersistenceSpecM) :=
  {| cell := VPersistenceSpec; uncell c := match c with VPersistenceSpec b => Some b | _ => None end; uncell_cell _ := eq_refl |}.
#[export] Instance VIntrusionActivity_cell : Cell cell_ (vars IntrusionActivityM) :=
  {| cell := VIntrusionActivity; uncell c := match c with VIntrusionActivity b => Some b | _ => None end; uncell_cell _ := eq_refl |}.
#[export] Instance VDecoySpec_cell : Cell cell_ (vars DecoySpecM) :=
  {| cell := VDecoySpec; uncell c := match c with VDecoySpec b => Some b | _ => None end; uncell_cell _ := eq_refl |}.
#[export] Instance VDecoyStatus_cell : Cell cell_ (vars DecoyStatusM) :=
  {| cell := VDecoyStatus; uncell c := match c with VDecoyStatus b => Some b | _ => None end; uncell_cell _ := eq_refl |}.
#[export] Instance VDecoy_cell : Cell cell_ (vars DecoyM) :=
  {| cell := VDecoy; uncell c := match c with VDecoy b => Some b | _ => None end; uncell_cell _ := eq_refl |}.
#[export] Instance VDecoyList_cell : Cell cell_ (vars DecoyListM) :=
  {| cell := VDecoyList; uncell c := match c with VDecoyList b => Some b | _ => None end; uncell_cell _ := eq_refl |}.
#[export] Instance VProviderSpec_cell : Cell cell_ (vars ProviderSpecM) :=
  {| cell := VProviderSpec; uncell c := match c with VProviderSpec b => Some b | _ => None end; uncell_cell _ := eq_refl |}.
#[export] Instance VProviderReference_cell : Cell cell_ (vars ProviderReferenceM) :=
  {| cell := VProviderReference; uncell c := match c with VProviderReference b => Some b | _ => None end; uncell_cell _ := eq_refl |}.
#[export] Instance VProvider_cell : Cell cell_ (vars ProviderM) :=
  {| cell := VProvider; uncell c := match c with VProvider b => Some b | _ => None end; uncell_cell _ := eq_refl |}.
#[export] Instance VProviderList_cell : Cell cell_ (vars ProviderListM) :=
  {| cell := VProviderList; uncell c := match c with VProviderList b => Some b | _ => None end; uncell_cell _ := eq_refl |}.
#[export] Instance VAlertSpec_cell : Cell cell_ (vars AlertSpecM) :=
  {| cell := VAlertSpec; uncell c := match c with VAlertSpec b => Some b | _ => None end; uncell_cell _ := eq_refl |}.
#[export] Instance VAlert_cell : Cell cell_ (vars AlertM) :=
  {| cell := VAlert; uncell c := match c with VAlert b => Some b | _ => None end; uncell_cell _ := eq_refl |}.
#[export] Instance VAlertList_cell : Cell cell_ (vars AlertListM) :=
  {| cell := VAlertList; uncell c := match c with VAlertList b => Some b | _ => None end; uncell_cell _ := eq_refl |}.
#[export] Instance VAuditSinkSpec_cell : Cell cell_ (vars AuditSinkSpecM) :=
  {| cell := VAuditSinkSpec; uncell c := match c with VAuditSinkSpec b => Some b | _ => None end; uncell_cell _ := eq_refl |}.
#[export] Instance VAuditSink_cell : Cell cell_ (vars AuditSinkM) :=
  {| cell := VAuditSink; uncell c := match c with VAuditSink b => Some b | _ => None end; uncell_cell _ := eq_refl |}.
#[export] Instance VAuditSinkList_cell : Cell cell_ (vars AuditSinkListM) :=
  {| cell := VAuditSinkList; uncell c := match c with VAuditSinkList b => Some b | _ => None end; uncell_cell _ := eq_refl |}.
#[export] Instance VTable_cell : Cell cell_ (gmap string string) :=
  {| cell := VTable; uncell c := match c with VTable b => Some b | _ => None end; uncell_cell _ := eq_refl |}.
#[export] Instance VForeign_cell : Cell cell_ foreign :=
  {| cell := VForeign; uncell c := match c with VForeign b => Some b | _ => None end; uncell_cell _ := eq_refl |}.
End Blocks.

(** ** What the types stand for *)

#[export] Instance string_reads {C} : Reads C string string := plain_reads.
#[export] Instance bool_reads {C} : Reads C bool bool := plain_reads.
#[export] Instance FakeNode_reads {C} : Reads C FakeNode FakeNode := plain_reads.
#[export] Instance FakeContainer_reads {C} : Reads C FakeContainer FakeContainer := plain_reads.
#[export] Instance JoinedPod_reads {C} : Reads C JoinedPod JoinedPod := plain_reads.
#[export] Instance DecoyTarget_reads {C} : Reads C DecoyTarget DecoyTarget := plain_reads.

(** What the objects of apimachinery stand for, and how they are copied. *)
Class ForeignOps `{Foreign} := {
  ObjectMeta_reads :: Reads cell_ ObjectMetaM ObjectMeta;
  ListMeta_reads :: Reads cell_ ListMetaM ListMeta;
  Resources_reads :: Reads cell_ ResourceRequirementsM ResourceRequirements;
  Condition_reads :: Reads cell_ ConditionM Condition;
  Quantity_reads :: Reads cell_ QuantityM string;
  Time_reads :: Reads cell_ TimeM Time;
  ObjectMeta_DeepCopyInto : ObjectMetaM -> M cell_ ObjectMetaM;
  ListMeta_DeepCopyInto : ListMetaM -> M cell_ ListMetaM;
  ResourceRequirements_DeepCopyInto : ResourceRequirementsM -> M cell_ ResourceRequirementsM;
  Condition_DeepCopyInto : ConditionM -> M cell_ ConditionM;
  Quantity_DeepCopy : QuantityM -> M cell_ QuantityM;
  Time_DeepCopy : ptr TimeM -> M cell_ (ptr TimeM) }.

Class ForeignLaws `{ForeignOps} : Prop := {
  ObjectMeta_copies : copies ObjectMeta_DeepCopyInto;
  ListMeta_copies : copies ListMeta_DeepCopyInto;
  Resources_copies : copies ResourceRequirements_DeepCopyInto;
  Condition_copies : copies Condition_DeepCopyInto;
  Quantity_copies : copies Quantity_DeepCopy;
  Time_copies : copies Time_DeepCopy }.

(** The value of a struct is made of its fields'; more memory keeps it. *)
Ltac reads_mono :=
  intros; simplify_option_eq;
  repeat (erewrite read_mono by done; simpl); done.

Section Values.
Context `{ForeignOps}.

#[export] Program Instance FakePod_reads : Reads cell_ FakePodM FakePod := {|
  read m x :=
    containers ← read m (fpm_Containers x); lines ← read m (fpm_LogLines x); labels ← read m (fpm_Labels x);
    Some {| fp_Name := fpm_Name x; fp_Namespace := fpm_Namespace x; fp_Replicas := fpm_Replicas x;
            fp_Containers := containers; fp_NodeName := fpm_NodeName x; fp_LogLines := lines;
            fp_Labels := labels |} |}.
Next Obligation. reads_mono. Qed.

#[export] Program Instance FakeSecret_reads : Reads cell_ FakeSecretM FakeSecret := {|
  read m x :=
    data ← read m (fsm_Data x);
    Some {| fs_Name := fsm_Name x; fs_Namespace := fsm_Namespace x; fs_Data := data |} |}.
Next Obligation. reads_mono. Qed.

#[export] Program Instance FakeCRD_reads : Reads cell_ FakeCRDM FakeCRD := {|
  read m x :=
    short ← read m (fcm_ShortNames x); versions ← read m (fcm_Versions x);
    Some {| fcrd_Group := fcm_Group x; fcrd_Kind := fcm_Kind x; fcrd_Plural := fcm_Plural x;
            fcrd_Singular := fcm_Singular x; fcrd_ShortNames := short; fcrd_Versions := versions;
            fcrd_Scope := fcm_Scope x |} |}.
Next Obligation. reads_mono. Qed.

#[export] Program Instance PersistenceSpec_reads : Reads cell_ PersistenceSpecM PersistenceSpec := {|
  read m x :=
    class ← read m (pm_StorageClassName x); size ← read m (pm_Size x);
    Some {| per_StorageClassName := class; per_Size := size |} |}.
Next Obligation. reads_mono. Qed.

#[export] Program Instance DecoySpec_reads : Reads cell_ DecoySpecM DecoySpec := {|
  read m x :=
    sans ← read m (dm_SANs x); nodes ← read m (dm_FakeNodes x); pods ← read m (dm_FakePods x);
    secrets ← read m (dm_FakeSecrets x); resources ← read m (dm_Resources x);
    class ← read m (dm_RuntimeClassName x); system ← read m (dm_SeedSystemComponents x);
    crds ← read m (dm_FakeCRDs x); persistence ← read m (dm_Persistence x);
    Some {| spec_KubeletShimImage := dm_KubeletShimImage x; spec_ExecProfile := dm_ExecProfile x;
            spec_ExecIsolation := dm_ExecIsolation x; spec_KubernetesVersion := dm_KubernetesVersion x;
            spec_KubeAPIServerImage := dm_KubeAPIServerImage x; spec_KineImage := dm_KineImage x;
            spec_Port := dm_Port x; spec_SANs := sans; spec_AuditLevel := dm_AuditLevel x;
            spec_FakeNodes := nodes; spec_FakePods := pods; spec_FakeSecrets := secrets;
            spec_Resources := resources; spec_RuntimeClassName := class;
            spec_SeedSystemComponents := system; spec_FakeCRDs := crds;
            spec_Persistence := persistence |} |}.
Next Obligation. reads_mono. Qed.

#[export] Program Instance IntrusionActivity_reads : Reads cell_ IntrusionActivityM IntrusionActivity := {|
  read m x :=
    first ← read m (iam_FirstSeen x); last ← read m (iam_LastSeen x);
    Some {| ia_FirstSeen := first; ia_LastSeen := last; ia_RequestCount := iam_RequestCount x;
            ia_LastSourceIP := iam_LastSourceIP x |} |}.
Next Obligation. reads_mono. Qed.

#[export] Program Instance DecoyStatus_reads : Reads cell_ DecoyStatusM DecoyStatus := {|
  read m x :=
    joined ← read m (sm_JoinedPods x); activity ← read m (sm_IntrusionActivity x);
    conditions ← read m (sm_Conditions x);
    Some {| st_Phase := sm_Phase x; st_Endpoint := sm_Endpoint x; st_CredentialsSecret := sm_CredentialsSecret x;
            st_ObservedGeneration := sm_ObservedGeneration x; st_JoinedPods := joined;
            st_IntrusionActivity := activity; st_Conditions := conditions |} |}.
Next Obligation. reads_mono. Qed.

#[export] Program Instance ProviderSpec_reads : Reads cell_ ProviderSpecM ProviderSpec := {|
  read m x :=
    ref ← read m (psm_SecretRef x);
    Some {| pv_Type := psm_Type x; pv_Address := psm_Address x; pv_SecretRef := ref |} |}.
Next Obligation. reads_mono. Qed.

#[export] Program Instance ProviderReference_reads : Reads cell_ ProviderReferenceM ProviderReference := {|
  read m x := ref ← read m (prm_SecretRef x); Some {| pr_Type := prm_Type x; pr_SecretRef := ref |} |}.
Next Obligation. reads_mono. Qed.

#[export] Program Instance AlertSpec_reads : Reads cell_ AlertSpecM AlertSpec := {|
  read m x :=
    ref ← read m (am_ProviderRef x); targets ← read m (am_Targets x); types ← read m (am_EventTypes x);
    verbs ← read m (am_ExcludeVerbs x); resources ← read m (am_ExcludeResources x);
    Some {| al_ProviderRef := ref; al_Targets := targets; al_EventTypes := types;
            al_IncludeAll := am_IncludeAll x; al_ExcludeVerbs := verbs; al_ExcludeResources := resources |} |}.
Next Obligation. reads_mono. Qed.

#[export] Program Instance AuditSinkSpec_reads : Reads cell_ AuditSinkSpecM AuditSinkSpec := {|
  read m x :=
    ref ← read m (asm_ProviderRef x); targets ← read m (asm_Targets x);
    Some {| as_ProviderRef := ref; as_Targets := targets |} |}.
Next Obligation. reads_mono. Qed.

#[export] Program Instance Decoy_reads : Reads cell_ DecoyM (TypeMeta * Decoy) := {|
  read m x :=
    meta ← read m (dcm_ObjectMeta x); spec ← read m (dcm_Spec x); status ← read m (dcm_Status x);
    Some (dcm_TypeMeta x, {| kt_Meta := meta; kt_Spec := spec; kt_Status := status |}) |}.
Next Obligation. reads_mono. Qed.

#[export] Program Instance Provider_reads : Reads cell_ ProviderM (TypeMeta * Provider) := {|
  read m x :=
    meta ← read m (pvm_ObjectMeta x); spec ← read m (pvm_Spec x);
    Some (pvm_TypeMeta x, {| prov_Meta := meta; prov_Spec := spec |}) |}.
Next Obligation. reads_mono. Qed.

#[export] Program Instance Alert_reads : Reads cell_ AlertM (TypeMeta * Alert) := {|
  read m x :=
    meta ← read m (alm_ObjectMeta x); spec ← read m (alm_Spec x);
    Some (alm_TypeMeta x, {| alert_Meta := meta; alert_Spec := spec |}) |}.
Next Obligation. reads_mono. Qed.

#[export] Program Instance AuditSink_reads : Reads cell_ AuditSinkM (TypeMeta * AuditSink) := {|
  read m x :=
    meta ← read m (skm_ObjectMeta x); spec ← read m (skm_Spec x);
    Some (skm_TypeMeta x, {| sink_Meta := meta; sink_Spec := spec |}) |}.
Next Obligation. reads_mono. Qed.

#[export] Program Instance List_reads {Item D} `{!Cell cell_ (vars Item), !Reads cell_ Item D} :
    Reads cell_ (ListM Item) (TypeMeta * ListMeta * list D) := {|
  read m x :=
    meta ← read m (lsm_ListMeta x); items ← read m (lsm_Items x); Some (lsm_TypeMeta x, meta, items) |}.
Next Obligation. reads_mono. Qed.
End Values.

(** ** The methods

    [in.DeepCopyInto(out)] takes what [in] points to and gives what it leaves
    in [out], a variable no one else has. It starts with [*out = *in], so a
    field that is not copied is the same in both. *)
Section Methods.
Context `{ForeignOps}.

(** [src/api/v1alpha1/zz_generated.deepcopy.go:395-397, DeepCopyInto] *)
Definition FakeNode_DeepCopyInto (x : FakeNode) : M cell_ FakeNode := mret x.
(** [src/api/v1alpha1/zz_generated.deepcopy.go:400-407, DeepCopy] *)
Definition FakeNode_DeepCopy : ptr FakeNode -> M cell_ (ptr FakeNode) := copy_ptr FakeNode_DeepCopyInto.

(** [src/api/v1alpha1/zz_generated.deepcopy.go:380-382, DeepCopyInto] *)
Definition FakeContainer_DeepCopyInto (x : FakeContainer) : M cell_ FakeContainer := mret x.
(** [src/api/v1alpha1/zz_generated.deepcopy.go:385-392, DeepCopy] *)
Definition FakeContainer_DeepCopy : ptr FakeContainer -> M cell_ (ptr FakeContainer) := copy_ptr FakeContainer_DeepCopyInto.

(** [src/api/v1alpha1/zz_generated.deepcopy.go:487-489, DeepCopyInto] *)
Definition JoinedPod_DeepCopyInto (x : JoinedPod) : M cell_ JoinedPod := mret x.
(** [src/api/v1alpha1/zz_generated.deepcopy.go:492-499, DeepCopy] *)
Definition JoinedPod_DeepCopy : ptr JoinedPod -> M cell_ (ptr JoinedPod) := copy_ptr JoinedPod_DeepCopyInto.

(** [src/api/v1alpha1/zz_generated.deepcopy.go:340-342, DeepCopyInto] *)
Definition DecoyTarget_DeepCopyInto (x : DecoyTarget) : M cell_ DecoyTarget := mret x.
(** [src/api/v1alpha1/zz_generated.deepcopy.go:345-352, DeepCopy] *)
Definition DecoyTarget_DeepCopy : ptr DecoyTarget -> M cell_ (ptr DecoyTarget) := copy_ptr DecoyTarget_DeepCopyInto.

(** [src/api/v1alpha1/zz_generated.deepcopy.go:410-429, DeepCopyInto] *)
Definition FakePod_DeepCopyInto (x : FakePodM) : M cell_ FakePodM :=
  containers ← copy_slice mret (fpm_Containers x);
  lines ← copy_slice mret (fpm_LogLines x);
  labels ← copy_map (fpm_Labels x);
  mret {| fpm_Name := fpm_Name x; fpm_Namespace := fpm_Namespace x; fpm_Replicas := fpm_Replicas x;
          fpm_Containers := containers; fpm_NodeName := fpm_NodeName x; fpm_LogLines := lines;
          fpm_Labels := labels |}.
(** [src/api/v1alpha1/zz_generated.deepcopy.go:432-439, DeepCopy] *)
Definition FakePod_DeepCopy : ptr FakePodM -> M cell_ (ptr FakePodM) := copy_ptr FakePod_DeepCopyInto.

(** [src/api/v1alpha1/zz_generated.deepcopy.go:442-451, DeepCopyInto] *)
Definition FakeSecret_DeepCopyInto (x : FakeSecretM) : M cell_ FakeSecretM :=
  data ← copy_map (fsm_Data x);
  mret {| fsm_Name := fsm_Name x; fsm_Namespace := fsm_Namespace x; fsm_Data := data |}.
(** [src/api/v1alpha1/zz_generated.deepcopy.go:454-461, DeepCopy] *)
Definition FakeSecret_DeepCopy : ptr FakeSecretM -> M cell_ (ptr FakeSecretM) := copy_ptr FakeSecret_DeepCopyInto.

(** [src/api/v1alpha1/zz_generated.deepcopy.go:355-367, DeepCopyInto] *)
Definition FakeCRD_DeepCopyInto (x : FakeCRDM) : M cell_ FakeCRDM :=
  short ← copy_slice mret (fcm_ShortNames x);
  versions ← copy_slice mret (fcm_Versions x);
  mret {| fcm_Group := fcm_Group x; fcm_Kind := fcm_Kind x; fcm_Plural := fcm_Plural x;
          fcm_Singular := fcm_Singular x; fcm_ShortNames := short; fcm_Versions := versions;
          fcm_Scope := fcm_Scope x |}.
(** [src/api/v1alpha1/zz_generated.deepcopy.go:370-377, DeepCopy] *)
Definition FakeCRD_DeepCopy : ptr FakeCRDM -> M cell_ (ptr FakeCRDM) := copy_ptr FakeCRD_DeepCopyInto.

(** [src/api/v1alpha1/zz_generated.deepcopy.go:502-510, DeepCopyInto] *)
Definition PersistenceSpec_DeepCopyInto (x : PersistenceSpecM) : M cell_ PersistenceSpecM :=
  class ← copy_ptr mret (pm_StorageClassName x);
  size ← Quantity_DeepCopy (pm_Size x);
  mret {| pm_StorageClassName := class; pm_Size := size |}.
(** [src/api/v1alpha1/zz_generated.deepcopy.go:513-520, DeepCopy] *)
Definition PersistenceSpec_DeepCopy : ptr PersistenceSpecM -> M cell_ (ptr PersistenceSpecM) := copy_ptr PersistenceSpec_DeepCopyInto.

(** [src/api/v1alpha1/zz_generated.deepcopy.go:246-295, DeepCopyInto] *)
Definition DecoySpec_DeepCopyInto (x : DecoySpecM) : M cell_ DecoySpecM :=
  sans ← copy_slice mret (dm_SANs x);
  nodes ← copy_slice mret (dm_FakeNodes x);
  pods ← copy_slice FakePod_DeepCopyInto (dm_FakePods x);
  secrets ← copy_slice FakeSecret_DeepCopyInto (dm_FakeSecrets x);
  resources ← ResourceRequirements_DeepCopyInto (dm_Resources x);
  class ← copy_ptr mret (dm_RuntimeClassName x);
  system ← copy_ptr mret (dm_SeedSystemComponents x);
  crds ← copy_slice FakeCRD_DeepCopyInto (dm_FakeCRDs x);
  persistence ← copy_ptr PersistenceSpec_DeepCopyInto (dm_Persistence x);
  mret {| dm_KubeletShimImage := dm_KubeletShimImage x; dm_ExecProfile := dm_ExecProfile x;
          dm_ExecIsolation := dm_ExecIsolation x; dm_KubernetesVersion := dm_KubernetesVersion x;
          dm_KubeAPIServerImage := dm_KubeAPIServerImage x; dm_KineImage := dm_KineImage x;
          dm_Port := dm_Port x; dm_SANs := sans; dm_AuditLevel := dm_AuditLevel x; dm_FakeNodes := nodes;
          dm_FakePods := pods; dm_FakeSecrets := secrets; dm_Resources := resources;
          dm_RuntimeClassName := class; dm_SeedSystemComponents := system; dm_FakeCRDs := crds;
          dm_Persistence := persistence |}.
(** [src/api/v1alpha1/zz_generated.deepcopy.go:298-305, DeepCopy] *)
Definition DecoySpec_DeepCopy : ptr DecoySpecM -> M cell_ (ptr DecoySpecM) := copy_ptr DecoySpec_DeepCopyInto.

(** [src/api/v1alpha1/zz_generated.deepcopy.go:464-474, DeepCopyInto] *)
Definition IntrusionActivity_DeepCopyInto (x : IntrusionActivityM) : M cell_ IntrusionActivityM :=
  first ← Time_DeepCopy (iam_FirstSeen x);
  last ← Time_DeepCopy (iam_LastSeen x);
  mret {| iam_FirstSeen := first; iam_LastSeen := last; iam_RequestCount := iam_RequestCount x;
          iam_LastSourceIP := iam_LastSourceIP x |}.
(** [src/api/v1alpha1/zz_generated.deepcopy.go:477-484, DeepCopy] *)
Definition IntrusionActivity_DeepCopy : ptr IntrusionActivityM -> M cell_ (ptr IntrusionActivityM) := copy_ptr IntrusionActivity_DeepCopyInto.

(** [src/api/v1alpha1/zz_generated.deepcopy.go:308-327, DeepCopyInto] *)
Definition DecoyStatus_DeepCopyInto (x : DecoyStatusM) : M cell_ DecoyStatusM :=
  joined ← copy_slice mret (sm_JoinedPods x);
  activity ← copy_ptr IntrusionActivity_DeepCopyInto (sm_IntrusionActivity x);
  conditions ← copy_slice Condition_DeepCopyInto (sm_Conditions x);
  mret {| sm_Phase := sm_Phase x; sm_Endpoint := sm_Endpoint x;
          sm_CredentialsSecret := sm_CredentialsSecret x; sm_ObservedGeneration := sm_ObservedGeneration x;
          sm_JoinedPods := joined; sm_IntrusionActivity := activity; sm_Conditions := conditions |}.
(** [src/api/v1alpha1/zz_generated.deepcopy.go:330-337, DeepCopy] *)
Definition DecoyStatus_DeepCopy : ptr DecoyStatusM -> M cell_ (ptr DecoyStatusM) := copy_ptr DecoyStatus_DeepCopyInto.

(** [src/api/v1alpha1/zz_generated.deepcopy.go:187-193, DeepCopyInto] *)
Definition Decoy_DeepCopyInto (x : DecoyM) : M cell_ DecoyM :=
  meta ← ObjectMeta_DeepCopyInto (dcm_ObjectMeta x);
  spec ← DecoySpec_DeepCopyInto (dcm_Spec x);
  status ← DecoyStatus_DeepCopyInto (dcm_Status x);
  mret {| dcm_TypeMeta := dcm_TypeMeta x; dcm_ObjectMeta := meta; dcm_Spec := spec; dcm_Status := status |}.
(** [src/api/v1alpha1/zz_generated.deepcopy.go:196-203, DeepCopy] *)
Definition Decoy_DeepCopy : ptr DecoyM -> M cell_ (ptr DecoyM) := copy_ptr Decoy_DeepCopyInto.

(** [src/api/v1alpha1/zz_generated.deepcopy.go:601-608, DeepCopyInto] *)
Definition ProviderSpec_DeepCopyInto (x : ProviderSpecM) : M cell_ ProviderSpecM :=
  ref ← copy_ptr mret (psm_SecretRef x);
  mret {| psm_Type := psm_Type x; psm_Address := psm_Address x; psm_SecretRef := ref |}.
(** [src/api/v1alpha1/zz_generated.deepcopy.go:611-618, DeepCopy] *)
Definition ProviderSpec_DeepCopy : ptr ProviderSpecM -> M cell_ (ptr ProviderSpecM) := copy_ptr ProviderSpec_DeepCopyInto.

(** [src/api/v1alpha1/zz_generated.deepcopy.go:523-528, DeepCopyInto] *)
Definition Provider_DeepCopyInto (x : ProviderM) : M cell_ ProviderM :=
  meta ← ObjectMeta_DeepCopyInto (pvm_ObjectMeta x);
  spec ← ProviderSpec_DeepCopyInto (pvm_Spec x);
  mret {| pvm_TypeMeta := pvm_TypeMeta x; pvm_ObjectMeta := meta; pvm_Spec := spec |}.
(** [src/api/v1alpha1/zz_generated.deepcopy.go:531-538, DeepCopy] *)
Definition Provider_DeepCopy : ptr ProviderM -> M cell_ (ptr ProviderM) := copy_ptr Provider_DeepCopyInto.

(** [src/api/v1alpha1/zz_generated.deepcopy.go:581-588, DeepCopyInto] *)
Definition ProviderReference_DeepCopyInto (x : ProviderReferenceM) : M cell_ ProviderReferenceM :=
  ref ← copy_ptr mret (prm_SecretRef x);
  mret {| prm_Type := prm_Type x; prm_SecretRef := ref |}.
(** [src/api/v1alpha1/zz_generated.deepcopy.go:591-598, DeepCopy] *)
Definition ProviderReference_DeepCopy : ptr ProviderReferenceM -> M cell_ (ptr ProviderReferenceM) := copy_ptr ProviderReference_DeepCopyInto.

(** [src/api/v1alpha1/zz_generated.deepcopy.go:72-95, DeepCopyInto] *)
Definition AlertSpec_DeepCopyInto (x : AlertSpecM) : M cell_ AlertSpecM :=
  ref ← ProviderReference_DeepCopyInto (am_ProviderRef x);
  targets ← copy_slice mret (am_Targets x);
  types ← copy_slice mret (am_EventTypes x);
  verbs ← copy_slice mret (am_ExcludeVerbs x);
  resources ← copy_slice mret (am_ExcludeResources x);
  mret {| am_ProviderRef := ref; am_Targets := targets; am_EventTypes := types;
          am_IncludeAll := am_IncludeAll x; am_ExcludeVerbs := verbs; am_ExcludeResources := resources |}.
(** [src/api/v1alpha1/zz_generated.deepcopy.go:98-105, DeepCopy] *)
Definition AlertSpec_DeepCopy : ptr AlertSpecM -> M cell_ (ptr AlertSpecM) := copy_ptr AlertSpec_DeepCopyInto.

(** [src/api/v1alpha1/zz_generated.deepcopy.go:14-19, DeepCopyInto] *)
Definition Alert_DeepCopyInto (x : AlertM) : M cell_ AlertM :=
  meta ← ObjectMeta_DeepCopyInto (alm_ObjectMeta x);
  spec ← AlertSpec_DeepCopyInto (alm_Spec x);
  mret {| alm_TypeMeta := alm_TypeMeta x; alm_ObjectMeta := meta; alm_Spec := spec |}.
(** [src/api/v1alpha1/zz_generated.deepcopy.go:22-29, DeepCopy] *)
Definition Alert_DeepCopy : ptr AlertM -> M cell_ (ptr AlertM) := copy_ptr Alert_DeepCopyInto.

(** [src/api/v1alpha1/zz_generated.deepcopy.go:166-174, DeepCopyInto] *)
Definition AuditSinkSpec_DeepCopyInto (x : AuditSinkSpecM) : M cell_ AuditSinkSpecM :=
  ref ← ProviderReference_DeepCopyInto (asm_ProviderRef x);
  targets ← copy_slice mret (asm_Targets x);
  mret {| asm_ProviderRef := ref; asm_Targets := targets |}.
(** [src/api/v1alpha1/zz_generated.deepcopy.go:177-184, DeepCopy] *)
Definition AuditSinkSpec_DeepCopy : ptr AuditSinkSpecM -> M cell_ (ptr AuditSinkSpecM) := copy_ptr AuditSinkSpec_DeepCopyInto.

(** [src/api/v1alpha1/zz_generated.deepcopy.go:108-113, DeepCopyInto] *)
Definition AuditSink_DeepCopyInto (x : AuditSinkM) : M cell_ AuditSinkM :=
  meta ← ObjectMeta_DeepCopyInto (skm_ObjectMeta x);
  spec ← AuditSinkSpec_DeepCopyInto (skm_Spec x);
  mret {| skm_TypeMeta := skm_TypeMeta x; skm_ObjectMeta := meta; skm_Spec := spec |}.
(** [src/api/v1alpha1/zz_generated.deepcopy.go:116-123, DeepCopy] *)
Definition AuditSink_DeepCopy : ptr AuditSinkM -> M cell_ (ptr AuditSinkM) := copy_ptr AuditSink_DeepCopyInto.

(** What the four list types have in common. *)
Definition list_DeepCopyInto {Item} `{!Cell cell_ (vars Item)} (into : Item -> M cell_ Item) (x : ListM Item) : M cell_ (ListM Item) :=
  meta ← ListMeta_DeepCopyInto (lsm_ListMeta x);
  items ← copy_slice into (lsm_Items x);
  mret {| lsm_TypeMeta := lsm_TypeMeta x; lsm_ListMeta := meta; lsm_Items := items |}.

(** [src/api/v1alpha1/zz_generated.deepcopy.go:214-225, DeepCopyInto] *)
Definition DecoyList_DeepCopyInto : DecoyListM -> M cell_ DecoyListM := list_DeepCopyInto Decoy_DeepCopyInto.
(** [src/api/v1alpha1/zz_generated.deepcopy.go:228-235, DeepCopy] *)
Definition DecoyList_DeepCopy : ptr DecoyListM -> M cell_ (ptr DecoyListM) := copy_ptr DecoyList_DeepCopyInto.

(** [src/api/v1alpha1/zz_generated.deepcopy.go:549-560, DeepCopyInto] *)
Definition ProviderList_DeepCopyInto : ProviderListM -> M cell_ ProviderListM := list_DeepCopyInto Provider_DeepCopyInto.
(** [src/api/v1alpha1/zz_generated.deepcopy.go:563-570, DeepCopy] *)
Definition ProviderList_DeepCopy : ptr ProviderListM -> M cell_ (ptr ProviderListM) := copy_ptr ProviderList_DeepCopyInto.

(** [src/api/v1alpha1/zz_generated.deepcopy.go:40-51, DeepCopyInto] *)
Definition AlertList_DeepCopyInto : AlertListM -> M cell_ AlertListM := list_DeepCopyInto Alert_DeepCopyInto.
(** [src/api/v1alpha1/zz_generated.deepcopy.go:54-61, DeepCopy] *)
Definition AlertList_DeepCopy : ptr AlertListM -> M cell_ (ptr AlertListM) := copy_ptr AlertList_DeepCopyInto.

(** [src/api/v1alpha1/zz_generated.deepcopy.go:134-145, DeepCopyInto] *)
Definition AuditSinkList_DeepCopyInto : AuditSinkListM -> M cell_ AuditSinkListM := list_DeepCopyInto AuditSink_DeepCopyInto.
(** [src/api/v1alpha1/zz_generated.deepcopy.go:148-155, DeepCopy] *)
Definition AuditSinkList_DeepCopy : ptr AuditSinkListM -> M cell_ (ptr AuditSinkListM) := copy_ptr AuditSinkList_DeepCopyInto.

(** A [runtime.Object] of this API group: a pointer with its dynamic type. *)
Inductive object :=
  | ODecoy (p : ptr DecoyM)
  | ODecoyList (p : ptr DecoyListM)
  | OProvider (p : ptr ProviderM)
  | OProviderList (p : ptr ProviderListM)
  | OAlert (p : ptr AlertM)
  | OAlertList (p : ptr AlertListM)
  | OAuditSink (p : ptr AuditSinkM)
  | OAuditSinkList (p : ptr AuditSinkListM).

(** [if c := in.DeepCopy(); c != nil { return c }; return nil], where
    [None] is the nil interface. *)
Definition as_object {T} (wrap : ptr T -> object) (c : ptr T) : option object :=
  match c with Nil => None | Addr _ _ => Some (wrap c) end.

(** [src/api/v1alpha1/zz_generated.deepcopy.go:206-211, DeepCopyObject] *)
Definition Decoy_DeepCopyObject (p : ptr DecoyM) : M cell_ (option object) :=
  c ← Decoy_DeepCopy p; mret (as_object ODecoy c).

(** [src/api/v1alpha1/zz_generated.deepcopy.go:238-243, DeepCopyObject] *)
Definition DecoyList_DeepCopyObject (p : ptr DecoyListM) : M cell_ (option object) :=
  c ← DecoyList_DeepCopy p; mret (as_object ODecoyList c).

(** [src/api/v1alpha1/zz_generated.deepcopy.go:541-546, DeepCopyObject] *)
Definition Provider_DeepCopyObject (p : ptr ProviderM) : M cell_ (option object) :=
  c ← Provider_DeepCopy p; mret (as_object OProvider c).

(** [src/api/v1alpha1/zz_generated.deepcopy.go:573-578, DeepCopyObject] *)
Definition ProviderList_DeepCopyObject (p : ptr ProviderListM) : M cell_ (option object) :=
  c ← ProviderList_DeepCopy p; mret (as_object OProviderList c).

(** [src/api/v1alpha1/zz_generated.deepcopy.go:32-37, DeepCopyObject] *)
Definition Alert_DeepCopyObject (p : ptr AlertM) : M cell_ (option object) :=
  c ← Alert_DeepCopy p; mret (as_object OAlert c).

(** [src/api/v1alpha1/zz_generated.deepcopy.go:64-69, DeepCopyObject] *)
Definition AlertList_DeepCopyObject (p : ptr AlertListM) : M cell_ (option object) :=
  c ← AlertList_DeepCopy p; mret (as_object OAlertList c).

(** [src/api/v1alpha1/zz_generated.deepcopy.go:126-131, DeepCopyObject] *)
Definition AuditSink_DeepCopyObject (p : ptr AuditSinkM) : M cell_ (option object) :=
  c ← AuditSink_DeepCopy p; mret (as_object OAuditSink c).

(** [src/api/v1alpha1/zz_generated.deepcopy.go:158-163, DeepCopyObject] *)
Definition AuditSinkList_DeepCopyObject (p : ptr AuditSinkListM) : M cell_ (option object) :=
  c ← AuditSinkList_DeepCopy p; mret (as_object OAuditSinkList c).

(** The method of the interface. *)
Definition DeepCopyObject (o : object) : M cell_ (option object) :=
  match o with
  | ODecoy p => Decoy_DeepCopyObject p
  | ODecoyList p => DecoyList_DeepCopyObject p
  | OProvider p => Provider_DeepCopyObject p
  | OProviderList p => ProviderList_DeepCopyObject p
  | OAlert p => Alert_DeepCopyObject p
  | OAlertList p => AlertList_DeepCopyObject p
  | OAuditSink p => AuditSink_DeepCopyObject p
  | OAuditSinkList p => AuditSinkList_DeepCopyObject p
  end.

(** The value of an object. *)
Inductive object_value :=
  | IsDecoy (v : option (TypeMeta * Decoy))
  | IsDecoyList (v : option (TypeMeta * ListMeta * list (TypeMeta * Decoy)))
  | IsProvider (v : option (TypeMeta * Provider))
  | IsProviderList (v : option (TypeMeta * ListMeta * list (TypeMeta * Provider)))
  | IsAlert (v : option (TypeMeta * Alert))
  | IsAlertList (v : option (TypeMeta * ListMeta * list (TypeMeta * Alert)))
  | IsAuditSink (v : option (TypeMeta * AuditSink))
  | IsAuditSinkList (v : option (TypeMeta * ListMeta * list (TypeMeta * AuditSink))).

Definition read_object (m : gmap loc cell_) (o : object) : option object_value :=
  match o with
  | ODecoy p => IsDecoy <$> read m p
  | ODecoyList p => IsDecoyList <$> read m p
  | OProvider p => IsProvider <$> read m p
  | OProviderList p => IsProviderList <$> read m p
  | OAlert p => IsAlert <$> read m p
  | OAlertList p => IsAlertList <$> read m p
  | OAuditSink p => IsAuditSink <$> read m p
  | OAuditSinkList p => IsAuditSinkList <$> read m p
  end.

#[export] Program Instance object_reads : Reads cell_ object object_value := {| read := read_object |}.
Next Obligation.
  intros m m' o v Hs Hr. destruct o; simpl in *; (destruct (read m p) as [w|] eqn:Hp; [|done]); injection Hr as <-;
    by rewrite (read_mono _ _ _ _ Hs Hp).
Qed.

(** Whether an interface holds a nil pointer. *)
Definition is_nil (o : object) : bool :=
  match o with
  | ODecoy p => if p is Nil then true else false
  | ODecoyList p => if p is Nil then true else false
  | OProvider p => if p is Nil then true else false
  | OProviderList p => if p is Nil then true else false
  | OAlert p => if p is Nil then true else false
  | OAlertList p => if p is Nil then true else false
  | OAuditSink p => if p is Nil then true else false
  | OAuditSinkList p => if p is Nil then true else false
  end.
End Methods.

(** ** What they promise *)

(** Follow a [DeepCopyInto] field by field. *)
Tactic Notation "copy_fields" reference(into) :=
  let Hr := fresh in
  apply runs_copies; intros ? ? ? Hr; unfold into; unfold read in Hr; simpl in Hr; simplify_option_eq;
  repeat (eapply runs_copy; [solve [eauto with copies]|first [done|apply map_disjoint_empty_l]|eassumption|intros]);
  apply runs_ret; [done|]; unfold read; simpl;
  repeat (erewrite read_mono; [simpl| |eassumption]; [|by repeat (etrans; [eassumption|])]); done.

Section Promise.
Context `{ForeignLaws}.

#[local] Hint Resolve ObjectMeta_copies ListMeta_copies Resources_copies Condition_copies Quantity_copies
  Time_copies : copies.

Lemma FakeNode_copies : copies FakeNode_DeepCopyInto.
Proof. exact plain_copies. Qed.
Lemma FakeContainer_copies : copies FakeContainer_DeepCopyInto.
Proof. exact plain_copies. Qed.
Lemma JoinedPod_copies : copies JoinedPod_DeepCopyInto.
Proof. exact plain_copies. Qed.
Lemma DecoyTarget_copies : copies DecoyTarget_DeepCopyInto.
Proof. exact plain_copies. Qed.
Lemma FakePod_copies : copies FakePod_DeepCopyInto.
Proof. copy_fields FakePod_DeepCopyInto. Qed.
#[local] Hint Resolve FakePod_copies : copies.
Lemma FakeSecret_copies : copies FakeSecret_DeepCopyInto.
Proof. copy_fields FakeSecret_DeepCopyInto. Qed.
#[local] Hint Resolve FakeSecret_copies : copies.
Lemma FakeCRD_copies : copies FakeCRD_DeepCopyInto.
Proof. copy_fields FakeCRD_DeepCopyInto. Qed.
#[local] Hint Resolve FakeCRD_copies : copies.
Lemma PersistenceSpec_copies : copies PersistenceSpec_DeepCopyInto.
Proof. copy_fields PersistenceSpec_DeepCopyInto. Qed.
#[local] Hint Resolve PersistenceSpec_copies : copies.
Lemma DecoySpec_copies : copies DecoySpec_DeepCopyInto.
Proof. copy_fields DecoySpec_DeepCopyInto. Qed.
#[local] Hint Resolve DecoySpec_copies : copies.
Lemma IntrusionActivity_copies : copies IntrusionActivity_DeepCopyInto.
Proof. copy_fields IntrusionActivity_DeepCopyInto. Qed.
#[local] Hint Resolve IntrusionActivity_copies : copies.
Lemma DecoyStatus_copies : copies DecoyStatus_DeepCopyInto.
Proof. copy_fields DecoyStatus_DeepCopyInto. Qed.
#[local] Hint Resolve DecoyStatus_copies : copies.
Lemma Decoy_copies : copies Decoy_DeepCopyInto.
Proof. copy_fields Decoy_DeepCopyInto. Qed.
#[local] Hint Resolve Decoy_copies : copies.
Lemma ProviderSpec_copies : copies ProviderSpec_DeepCopyInto.
Proof. copy_fields ProviderSpec_DeepCopyInto. Qed.
#[local] Hint Resolve ProviderSpec_copies : copies.
Lemma Provider_copies : copies Provider_DeepCopyInto.
Proof. copy_fields Provider_DeepCopyInto. Qed.
#[local] Hint Resolve Provider_copies : copies.
Lemma ProviderReference_copies : copies ProviderReference_DeepCopyInto.
Proof. copy_fields ProviderReference_DeepCopyInto. Qed.
#[local] Hint Resolve ProviderReference_copies : copies.
Lemma AlertSpec_copies : copies AlertSpec_DeepCopyInto.
Proof. copy_fields AlertSpec_DeepCopyInto. Qed.
#[local] Hint Resolve AlertSpec_copies : copies.
Lemma Alert_copies : copies Alert_DeepCopyInto.
Proof. copy_fields Alert_DeepCopyInto. Qed.
#[local] Hint Resolve Alert_copies : copies.
Lemma AuditSinkSpec_copies : copies AuditSinkSpec_DeepCopyInto.
Proof. copy_fields AuditSinkSpec_DeepCopyInto. Qed.
#[local] Hint Resolve AuditSinkSpec_copies : copies.
Lemma AuditSink_copies : copies AuditSink_DeepCopyInto.
Proof. copy_fields AuditSink_DeepCopyInto. Qed.
#[local] Hint Resolve AuditSink_copies : copies.

Lemma list_copies {Item D} `{!Cell cell_ (vars Item), !Reads cell_ Item D} (into : Item -> M cell_ Item) :
  copies into -> copies (list_DeepCopyInto into).
Proof. intros Hinto. copy_fields list_DeepCopyInto. Qed.
#[local] Hint Resolve list_copies : copies.

(** The methods through an interface, one for each kind. *)
Lemma object_copies {T D} `{!Cell cell_ (vars T), !Reads cell_ T D} (into : T -> M cell_ T) wrap m (p : ptr T) v :
  copies into -> read m p = Some v ->
  match p with
  | Nil => (c ← copy_ptr into p; mret (as_object wrap c)) m = Some (None, m)
  | Addr _ _ => exists q new,
      (c ← copy_ptr into p; mret (as_object wrap c)) m = Some (Some (wrap q), new ∪ m) /\
      new ##ₘ m /\ read new q = Some v
  end.
Proof.
  intros Hinto Hr. destruct (ptr_copies into Hinto m p v Hr) as (q & new & Hrun & Hd & Hq).
  destruct p as [|l i]; [done|]. exists q, new. split_and!; [|done|done].
  unfold mbind, M_bind. rewrite Hrun. destruct q as [|l' i']; [|done].
  unfold read in Hr, Hq. simpl in Hr, Hq. injection Hq as <-.
  by repeat (case_match || simplify_option_eq).
Qed.

Lemma as_object_kind o v m : read m o = Some v ->
  if is_nil o then DeepCopyObject o m = Some (None, m)
  else exists o' new, DeepCopyObject o m = Some (Some o', new ∪ m) /\ new ##ₘ m /\ read new o' = Some v.
Proof.
  intros Hr. destruct o; unfold read in Hr; cbn in Hr;
    (destruct (read m p) as [w|] eqn:Hp; [|done]); injection Hr as <-.
  1: pose proof (object_copies Decoy_DeepCopyInto ODecoy m p w Decoy_copies Hp) as Ho.
  2: pose proof (object_copies DecoyList_DeepCopyInto ODecoyList m p w (list_copies _ Decoy_copies) Hp) as Ho.
  3: pose proof (object_copies Provider_DeepCopyInto OProvider m p w Provider_copies Hp) as Ho.
  4: pose proof (object_copies ProviderList_DeepCopyInto OProviderList m p w (list_copies _ Provider_copies) Hp) as Ho.
  5: pose proof (object_copies Alert_DeepCopyInto OAlert m p w Alert_copies Hp) as Ho.
  6: pose proof (object_copies AlertList_DeepCopyInto OAlertList m p w (list_copies _ Alert_copies) Hp) as Ho.
  7: pose proof (object_copies AuditSink_DeepCopyInto OAuditSink m p w AuditSink_copies Hp) as Ho.
  8: pose proof (object_copies AuditSinkList_DeepCopyInto OAuditSinkList m p w (list_copies _ AuditSink_copies) Hp) as Ho.
  all: destruct p as [|l i]; [exact Ho|]; destruct Ho as (q & new & Hrun & Hd & Hq).
  all: eexists _, new; split_and!; [exact Hrun|exact Hd|]; unfold read; cbn; by rewrite Hq.
Qed.

(** C30: a deep copy shares nothing. For every kind of object of the API and
    every memory in which its references resolve, [DeepCopyObject] ends
    without a panic, changes no block of the memory, and gives an object of
    the same value; whatever is written afterwards to any block that existed
    before, the original's included, the copy keeps that value, and whatever
    is written to the copy's blocks the original does. A nil pointer gives
    the nil interface. So what a client with a cache hands out may be changed
    freely, and every field with references is among those copied. *)
Theorem DeepCopyObject_independent m o v :
  read m o = Some v ->
  if is_nil o then DeepCopyObject o m = Some (None, m)
  else exists o' new,
    DeepCopyObject o m = Some (Some o', new ∪ m) /\ new ##ₘ m /\ read (new ∪ m) o' = Some v /\
    (forall m', m' ##ₘ new -> read (new ∪ m') o' = Some v) /\
    (forall new', new' ##ₘ m -> read (new' ∪ m) o = Some v).
Proof.
  intros Hr. pose proof (as_object_kind o v m Hr) as Ho. destruct (is_nil o); [done|].
  destruct Ho as (o' & new & Hrun & Hd & Hq). exists o', new. split_and!; [done|done|..].
  - eapply read_mono; [|done]. by apply map_union_subseteq_l.
  - intros m' _. eapply read_mono; [|done]. by apply map_union_subseteq_l.
  - intros new' Hn. eapply read_mono; [|done]. by apply map_union_subseteq_r.
Qed.
End Promise.

(** ** A memory *)
Module CopyDemo.

(** Metadata in a block of its own; the other types of apimachinery by
    value. *)
#[global] Instance by_value : Foreign := {|
  ObjectMetaM := loc; ListMetaM := unit; ListMeta := unit; ResourceRequirementsM := ResourceRequirements;
  ConditionM := Condition; QuantityM := string; TimeM := Time; foreign := ObjectMeta |}.

#[global] Instance meta_cell : Cell cell_ ObjectMeta := VForeign_cell.

Definition read_meta (m : gmap loc cell_) (l : loc) : option ObjectMeta := block m l.

#[global] Instance meta_reads : Reads cell_ loc ObjectMeta.
Proof. refine {| read := read_meta |}. intros m m' l d Hs. by apply block_mono. Defined.

Definition copy_meta (l : loc) : M cell_ loc := o ← (load_block l : M cell_ ObjectMeta); alloc o.

#[global] Instance by_value_ops : ForeignOps := {|
  ObjectMeta_reads := meta_reads; ListMeta_reads := plain_reads; Resources_reads := plain_reads;
  Condition_reads := plain_reads; Quantity_reads := plain_reads; Time_reads := plain_reads;
  ObjectMeta_DeepCopyInto := copy_meta; ListMeta_DeepCopyInto := mret;
  ResourceRequirements_DeepCopyInto := mret; Condition_DeepCopyInto := mret; Quantity_DeepCopy := mret;
  Time_DeepCopy := copy_ptr mret |}.

Lemma meta_copies : copies copy_meta.
Proof.
  intros m l d Hr. unfold read in Hr. simpl in Hr. unfold read_meta in Hr.
  exists (fresh (dom m)), {[ fresh (dom m) := cell d ]}. rewrite <- insert_union_singleton_l. split_and!.
  - unfold copy_meta, mbind, M_bind, load_block. by rewrite Hr.
  - apply map_disjoint_singleton_l_2, not_elem_of_dom, is_fresh.
  - unfold read. simpl. unfold read_meta, block. by rewrite lookup_singleton_eq.
Qed.

#[global] Instance by_value_laws : ForeignLaws.
Proof. split; try exact plain_copies; [exact meta_copies|exact (ptr_copies _ plain_copies)]. Qed.

(** A Decoy with one name for its certificate and a labelled pod. *)
Definition web_meta : ObjectMeta := object_meta "web" "traps" ∅.

Definition pod_m : FakePodM := {|
  fpm_Name := "api"; fpm_Namespace := "prod"; fpm_Replicas := 1; fpm_Containers := NilSlice;
  fpm_NodeName := ""; fpm_LogLines := NilSlice; fpm_Labels := MapAt 3 |}.

Definition spec_m : DecoySpecM := {|
  dm_KubeletShimImage := ""; dm_ExecProfile := "shell"; dm_ExecIsolation := false; dm_KubernetesVersion := "";
  dm_KubeAPIServerImage := ""; dm_KineImage := ""; dm_Port := 6443; dm_SANs := Slice 2 0 1;
  dm_AuditLevel := ""; dm_FakeNodes := NilSlice; dm_FakePods := Slice 4 0 1; dm_FakeSecrets := NilSlice;
  dm_Resources := no_resources; dm_RuntimeClassName := Nil; dm_SeedSystemComponents := Nil;
  dm_FakeCRDs := NilSlice; dm_Persistence := Nil |}.

Definition status_m : DecoyStatusM := {|
  sm_Phase := ""; sm_Endpoint := ""; sm_CredentialsSecret := ""; sm_ObservedGeneration := 0;
  sm_JoinedPods := NilSlice; sm_IntrusionActivity := Nil; sm_Conditions := NilSlice |}.

Definition decoy_m : DecoyM := {|
  dcm_TypeMeta := {| tm_Kind := "Decoy"; tm_APIVersion := "honeypod.io/v1alpha1" |};
  dcm_ObjectMeta := 1%positive; dcm_Spec := spec_m; dcm_Status := status_m |}.

Definition cache : gmap loc cell_ := list_to_map
  [(1%positive, VForeign web_meta); (2%positive, VString [Some "web.example.com"]);
   (3%positive, VTable {[ "app" := "api" ]}); (4%positive, VFakePod [Some pod_m]);
   (5%positive, VDecoy [Some decoy_m])].

Definition cached : object := ODecoy (Addr 5 0).

(** The names of the certificate an object asks for. *)
Definition sans (v : option object_value) : list string :=
  match v with Some (IsDecoy (Some (_, kt))) => spec_SANs (kt_Spec kt) | _ => [] end.

(** The cache's name is overwritten after the copy: the copy keeps its own. *)
Lemma DeepCopyObject_independent_witness :
  exists o' new, DeepCopyObject cached cache = Some (Some o', new ∪ cache) /\
    sans (read (new ∪ <[2%positive := VString [Some "changed"]]> cache) o') = ["web.example.com"] /\
    sans (read (<[2%positive := VString [Some "changed"]]> cache) cached) = ["changed"].
Proof.
  destruct (read cache cached) as [v|] eqn:Hr.
  2:{ exfalso. apply (f_equal (fun r => match r with None => true | _ => false end)) in Hr.
      vm_compute in Hr. discriminate Hr. }
  assert (Hv : sans (Some v) = ["web.example.com"]) by (rewrite <- Hr; vm_compute; reflexivity).
  destruct (DeepCopyObject_independent cache cached v Hr) as (o' & new & Hrun & Hd & _ & Hkeep & _).
  exists o', new. split; [exact Hrun|]. split; [|vm_compute; reflexivity].
  rewrite Hkeep; [exact Hv|]. symmetry. apply map_disjoint_insert_r_2; [|exact Hd].
  apply map_disjoint_Some_r with cache (VString [Some "web.example.com"]); [exact Hd|vm_compute; reflexivity].
Defined.
End CopyDemo.
