(* ===== verification/Json.v ===== *)
(** * encoding/json, the writing half

    [Marshal] of the values the source serialises, as Go's encoder writes
    them: no white space, HTML-sensitive characters and the line separators
    U+2028 and U+2029 escaped, invalid UTF-8 replaced. A struct is the list of
    its fields in declaration order; [omitempty] is the caller's choice of
    fields; a map is the list of its entries, sorted by key. *)

From S2P Require Import Prelude GoStrings.
From Stdlib Require Import Ascii.
#[local] Open Scope string_scope.
#[local] Open Scope list_scope.

Inductive json :=
  | JNull
  | JBool (b : bool)
  | JInt (z : Z)
  | JString (s : string)
  | JArray (l : list json)
  | JObject (l : list (string * json)).

(** One rune of a string literal, [r] being what [runes] decoded. *)
Definition json_rune (r : Z * string) : string :=
  let '(c, raw) := r in
  if bool_decide (c = RuneError) && bool_decide (String.length raw = 1) then "\ufffd"
  else if bool_decide (c = 92%Z) || bool_decide (c = 34%Z) then "\" +:+ raw
  else if bool_decide (c = 8%Z) then "\b"
  else if bool_decide (c = 12%Z) then "\f"
  else if bool_decide (c = 10%Z) then "\n"
  else if bool_decide (c = 13%Z) then "\r"
  else if bool_decide (c = 9%Z) then "\t"
  else if (c <? 32)%Z || bool_decide (c ∈ [60; 62; 38]%Z) then "\u00" +:+ hex_fixed 2 c
  else if bool_decide (c = 8232%Z) then "\u2028"
  else if bool_decide (c = 8233%Z) then "\u2029"
  else raw.

Definition json_string (s : string) : string :=
  dq +:+ concat_all (json_rune <$> runes s) +:+ dq.

Fixpoint Marshal (j : json) : string :=
  match j with
  | JNull => "null"
  | JBool b => if b then "true" else "false"
  | JInt z => Itoa z
  | JString s => json_string s
  | JArray l => "[" +:+ String.concat "," (Marshal <$> l) +:+ "]"
  | JObject l =>
      "{" +:+ String.concat "," ((fun kv => json_string kv.1 +:+ ":" +:+ Marshal kv.2) <$> l)
      +:+ "}"
  end.

(** The fields of a struct that survive [omitempty]. *)
Definition omit_empty (name v : string) : list (string * json) :=
  if v ==? "" then [] else [(name, JString v)].

(** ** No control byte in the output *)

(** Every byte of [s] is printable ASCII or part of a multi-byte rune. *)
Definition no_ctl (s : string) : bool := forallb (fun a => (32 <=? byteZ a)%Z) (chars s).

Lemma no_ctl_app s t : no_ctl (s +:+ t) = no_ctl s && no_ctl t.
Proof. unfold no_ctl. by rewrite chars_app, forallb_app. Qed.

Lemma no_ctl_cons a s : no_ctl (String a s) = (32 <=? byteZ a)%Z && no_ctl s.
Proof. reflexivity. Qed.

Lemma no_ctl_concat sep l :
  no_ctl sep = true -> Forall (fun s => no_ctl s = true) l -> no_ctl (String.concat sep l) = true.
Proof.
  intros Hsep. induction 1 as [|x l Hx Hl IH]; [done|]. simpl.
  destruct l as [|y l]; [done|]. by rewrite !no_ctl_app, Hx, Hsep, IH.
Qed.

(** A rune and its bytes: an ASCII byte stands for itself, and all the bytes
    of anything else are above 0x7F. *)
Definition rune_ok (r : Z * string) : Prop :=
  (exists a, r = (byteZ a, String a "") /\ (byteZ a < 128)%Z) \/
  Forall (fun a => (128 <= byteZ a)%Z) (chars r.2).

Lemma second_ok_ge b0 b1 : second_ok b0 b1 = true -> (128 <= b1)%Z.
Proof.
  unfold second_ok, between. repeat case_bool_decide; rewrite andb_true_iff; lia.
Qed.

Lemma between_ge lo hi z : between lo hi z = true -> (lo <= z)%Z.
Proof. unfold between. rewrite andb_true_iff. lia. Qed.

Lemma runes_ok n s : String.length s <= n -> Forall rune_ok (runes s).
Proof.
  revert s. induction n as [|n IH]; intros [|a0 s1] Hn; simpl in *; try (by constructor); [lia|].
  assert (Hbad : (128 <= byteZ a0)%Z -> rune_ok (RuneError, String a0 "")).
  { intros Ha. right. by repeat constructor. }
  destruct (Z.ltb_spec (byteZ a0) 128) as [H0|H0].
  { constructor; [left; eauto|]. apply IH. lia. }
  destruct s1 as [|a1 s2]; [by repeat constructor; auto|].
  assert (H1 : Forall rune_ok (runes (String a1 s2))) by (apply IH; simpl in *; lia).
  destruct (between 194 223 (byteZ a0)).
  { destruct (between 128 191 (byteZ a1)) eqn:E1; [|by constructor; auto].
    constructor; [|apply IH; simpl in *; lia].
    right. repeat constructor; [done|by eapply between_ge]. }
  destruct (between 224 239 (byteZ a0)).
  { destruct s2 as [|a2 s3]; [by constructor; auto|].
    destruct (second_ok _ _ && _) eqn:E; [|by constructor; auto].
    apply andb_true_iff in E as [E1%second_ok_ge E2%between_ge].
    constructor; [|apply IH; simpl in *; lia]. right. by repeat constructor. }
  destruct (between 240 244 (byteZ a0)); [|by constructor; auto].
  destruct s2 as [|a2 [|a3 s4]]; [by constructor; auto..|].
  destruct (second_ok _ _ && _ && _) eqn:E; [|by constructor; auto].
  apply andb_true_iff in E as [[E1%second_ok_ge E2%between_ge]%andb_true_iff E3%between_ge].
  constructor; [|apply IH; simpl in *; lia]. right. by repeat constructor.
Qed.

Lemma hex_digit_no_ctl z : (0 <= z < 16)%Z -> (32 <=? byteZ (hex_digit z))%Z = true.
Proof.
  intros Hz. assert (z ∈ seqZ 0 16) as Hin by (apply elem_of_seqZ; lia).
  clear Hz. revert z Hin. apply Forall_forall. by repeat constructor.
Qed.

Lemma hex_fixed_no_ctl n z : no_ctl (hex_fixed n z) = true.
Proof.
  revert z. induction n as [|n IH]; intros z; [done|]. simpl.
  rewrite no_ctl_app, IH, no_ctl_cons. simpl. rewrite andb_true_r.
  apply hex_digit_no_ctl. change 15%Z with (Z.ones 4). rewrite Z.land_ones by lia.
  by apply Z.mod_pos_bound.
Qed.

Lemma json_rune_no_ctl r : rune_ok r -> no_ctl (json_rune r) = true.
Proof.
  intros Hr. destruct r as [c raw]. unfold json_rune.
  assert (Hraw : (c <? 32)%Z = false -> no_ctl raw = true).
  { intros Hc%Z.ltb_ge. destruct Hr as [(a & [= -> ->] & Ha)|Hr].
    - rewrite no_ctl_cons. rewrite andb_true_r. by apply Z.leb_le.
    - unfold no_ctl. apply forallb_forall. intros a Ha%list_elem_of_In.
      simpl in Hr. rewrite Forall_forall in Hr. apply Hr in Ha. apply Z.leb_le. lia. }
  destruct (bool_decide _ && _); [done|].
  destruct (bool_decide (c = 92%Z) || _) eqn:Eq.
  { rewrite no_ctl_app, Hraw; [done|]. apply Z.ltb_ge.
    apply orb_true_iff in Eq as [Eq|Eq]; apply bool_decide_eq_true in Eq; lia. }
  repeat (case_bool_decide; [done|]).
  destruct (c <? 32)%Z eqn:Ec; cbn [orb]; [by rewrite no_ctl_app, hex_fixed_no_ctl|].
  repeat (case_bool_decide; [try done; by rewrite no_ctl_app, hex_fixed_no_ctl|]).
  by apply Hraw.
Qed.

Lemma json_string_no_ctl s : no_ctl (json_string s) = true.
Proof.
  unfold json_string. rewrite !no_ctl_app. simpl. rewrite andb_true_r.
  apply no_ctl_concat; [done|]. apply Forall_fmap.
  eapply Forall_impl; [apply (runes_ok (String.length s)); lia|].
  intros r Hr. by apply json_rune_no_ctl.
Qed.

#[export] Hint Rewrite no_ctl_app json_string_no_ctl hex_fixed_no_ctl : go_rw.

(** Digits, and so decimal numbers, are printable. *)
Lemma pretty_N_char_no_ctl x : no_ctl (String (pretty_N_char x) "") = true.
Proof. unfold pretty_N_char. by repeat case_match. Qed.

Lemma pretty_N_go_no_ctl x s : no_ctl (pretty_N_go x s) = no_ctl s.
Proof.
  revert s. induction (N.lt_wf_0 x) as [x _ IH]. intros s.
  destruct (decide (0 < x)%N) as [Hx|Hx].
  - rewrite pretty_N_go_step by done. rewrite IH by (by apply N.div_lt).
    pose proof (pretty_N_char_no_ctl (x `mod` 10)) as Hc.
    rewrite no_ctl_cons in *. simpl in Hc. by apply andb_true_iff in Hc as [-> _].
  - assert (x = 0)%N as -> by lia. by rewrite pretty_N_go_0.
Qed.

Lemma pretty_N_no_ctl n : no_ctl (pretty (n : N)) = true.
Proof.
  unfold pretty, pretty_N. case_decide; [done|]. by rewrite pretty_N_go_no_ctl.
Qed.

Lemma Itoa_no_ctl z : no_ctl (Itoa z) = true.
Proof.
  unfold Itoa, pretty, pretty_Z. destruct z; [done|apply pretty_N_no_ctl|].
  rewrite no_ctl_app. exact (pretty_N_no_ctl (N.pos p)).
Qed.

(** Induction through the arrays and the objects of a document. *)
Fixpoint json_nested_ind (P : json -> Prop)
    (Hnull : P JNull) (Hbool : forall b, P (JBool b)) (Hint : forall z, P (JInt z))
    (Hstr : forall s, P (JString s))
    (Harr : forall l, Forall P l -> P (JArray l))
    (Hobj : forall l, Forall (fun kv => P kv.2) l -> P (JObject l)) (j : json) : P j :=
  let rec := json_nested_ind P Hnull Hbool Hint Hstr Harr Hobj in
  match j with
  | JNull => Hnull
  | JBool b => Hbool b
  | JInt z => Hint z
  | JString s => Hstr s
  | JArray l =>
      Harr l ((fix go l := match l return Forall P l with
                           | [] => Forall_nil_2 P
                           | x :: l => Forall_cons_2 P x l (rec x) (go l)
                           end) l)
  | JObject l =>
      Hobj l ((fix go l := match l return Forall (fun kv => P kv.2) l with
                           | [] => Forall_nil_2 _
                           | x :: l => Forall_cons_2 _ x l (rec x.2) (go l)
                           end) l)
  end.

Lemma Marshal_no_ctl j : no_ctl (Marshal j) = true.
Proof.
  induction j as [|b|z|s|l IH|l IH] using json_nested_ind; simpl.
  - done.
  - by destruct b.
  - apply Itoa_no_ctl.
  - apply json_string_no_ctl.
  - rewrite !no_ctl_app, no_ctl_concat; [done|done|]. by apply Forall_fmap.
  - rewrite !no_ctl_app, no_ctl_concat; [done|done|]. apply Forall_fmap.
    eapply Forall_impl; [done|]. intros [k v] Hv. simpl in *.
    by rewrite !no_ctl_app, json_string_no_ctl, Hv.
Qed.

Example Marshal_ex :
  Marshal (JObject [("a", JArray [JInt (-3); JNull]); ("b<", JString ("x" +:+ nl +:+ dq))])
  = "{" +:+ dq +:+ "a" +:+ dq +:+ ":[-3,null]," +:+ dq +:+ "b\u003c" +:+ dq +:+ ":"
    +:+ dq +:+ "x\n\" +:+ dq +:+ dq +:+ "}".
Proof. vm_compute. reflexivity. Qed.
