(* ===== verification/Kube.v ===== *)
(** * The API server, as an interface

    client-go, controller-runtime and the API server are not part of the
    repository. Code that calls them is written here against [Client], a
    record of operations on an abstract world [W], and against
    [RetryOnConflict]; theorems that depend on what the calls do assume the
    documented behaviour as class laws, and file Kube ends with an in-memory
    client that satisfies the generic ones. *)

From S2P Require Import Prelude GoStrings KubeTypes.
#[local] Open Scope string_scope.

(** ** Errors *)

Inductive StatusReason :=
  | ReasonNotFound | ReasonAlreadyExists | ReasonConflict | ReasonInvalid
  | ReasonForbidden | ReasonOther.

#[global] Instance StatusReason_eq_dec : EqDecision StatusReason.
Proof. solve_decision. Defined.

(** A Go [error]: the API status it carries (found through wrapping by
    [errors.As]) and its text. *)
Record error := {
  e_Reason : StatusReason; e_Causes : list string; e_Message : string }.

Definition Errorf (msg : string) : error :=
  {| e_Reason := ReasonOther; e_Causes := []; e_Message := msg |}.

(** [fmt.Errorf("prefix: %w", err)]. *)
Definition wrapf (prefix : string) (e : error) : error :=
  {| e_Reason := e_Reason e; e_Causes := e_Causes e;
     e_Message := prefix +:+ ": " +:+ e_Message e |}.

Definition IsNotFound (e : error) : bool := e_Reason e ==? ReasonNotFound.
Definition IsAlreadyExists (e : error) : bool := e_Reason e ==? ReasonAlreadyExists.
Definition IsConflict (e : error) : bool := e_Reason e ==? ReasonConflict.
Definition IsInvalid (e : error) : bool := e_Reason e ==? ReasonInvalid.
Definition IsForbidden (e : error) : bool := e_Reason e ==? ReasonForbidden.
Definition HasStatusCause (e : error) (c : string) : bool := bool_decide (c ∈ e_Causes e).

Lemma IsNotFound_wrapf p e : IsNotFound (wrapf p e) = IsNotFound e.
Proof. reflexivity. Qed.

(** ** Computations that call the API: a world in, a result or an error and
    a world out. *)

Definition E (W A : Type) : Type := W -> (error + A) * W.

#[global] Instance E_ret W : MRet (E W) := fun A a w => (inr a, w).

#[global] Instance E_bind W : MBind (E W) := fun A B k c w =>
  match c w with
  | (inr a, w') => k a w'
  | (inl e, w') => (inl e, w')
  end.

Definition throw {W A} (e : error) : E W A := fun w => (inl e, w).

(** A call that does not touch the world and may fail. *)
Definition lift {W A} (r : error + A) : E W A := fun w => (r, w).

(** [res, err := c]: the error becomes a value the code inspects. *)
Definition try_ {W A} (c : E W A) : E W (error + A) := fun w =>
  let '(r, w') := c w in (inr r, w').

(** [if err := c; err != nil { return fmt.Errorf("prefix: %w", err) }]. *)
Definition wrap_err {W A} (prefix : string) (c : E W A) : E W A := fun w =>
  match c w with
  | (inl e, w') => (inl (wrapf prefix e), w')
  | r => r
  end.

Lemma E_bind_inr {W A B} (c : E W A) (k : A -> E W B) w b w' :
  (c ≫= k) w = (inr b, w') <->
  exists a w1, c w = (inr a, w1) /\ k a w1 = (inr b, w').
Proof.
  unfold mbind, E_bind. destruct (c w) as [[e|a] w1]; split.
  - done.
  - by intros (? & ? & [= ] & ?).
  - eauto.
  - by intros (? & ? & [= <- <-] & ?).
Qed.

Lemma wrap_err_inr {W A} p (c : E W A) w a w' : wrap_err p c w = (inr a, w') -> c w = (inr a, w').
Proof. unfold wrap_err. by destruct (c w) as [[]]. Qed.

Lemma try_inr {W A} (c : E W A) w r w' : try_ c w = (inr r, w') -> c w = (r, w').
Proof. unfold try_. destruct (c w) as [r0 w0]. by intros [= -> ->]. Qed.

(** Run a computation on every element, stopping at the first error:
    [for _, x := range l { if err := f(x); err != nil { return err } }]. *)
Fixpoint for_each {W A} (f : A -> E W unit) (l : list A) : E W unit :=
  match l with
  | [] => mret tt
  | x :: l' => f x ≫= fun _ => for_each f l'
  end.

Lemma for_each_app {W A} (f : A -> E W unit) l1 l2 w :
  (for_each f l1 ≫= fun _ => for_each f l2) w = for_each f (l1 ++ l2) w.
Proof.
  revert w. induction l1 as [|x l1 IH]; intros w; [done|]. simpl.
  unfold mbind, E_bind in *. destruct (f x w) as [[e|u] w1]; [done|]. apply IH.
Qed.

(** A loop that skips elements is a loop over the others. *)
Lemma for_each_skip {W A B} (p : A -> bool) (g : A -> B) (f : B -> E W unit) l w :
  for_each (fun x => if p x then mret tt else f (g x)) l w =
  for_each f (g <$> filterb (fun x => negb (p x)) l) w.
Proof.
  revert w. induction l as [|x l IH]; intros w; [done|]. simpl.
  unfold mbind, E_bind in *. destruct (p x); simpl; [apply IH|].
  unfold mbind, E_bind. destruct (f (g x) w) as [[e|u] w1]; [done|]. apply IH.
Qed.

(** ** The client *)

Record ListOptions := { lo_Namespace : option string; lo_Labels : gmap string string }.

Definition everything : ListOptions := {| lo_Namespace := None; lo_Labels := ∅ |}.

(** One typed client: [Get], [List], [Create], [Update], [Status().Update] and
    [Delete] of one kind of object. *)
Record Client (W O : Type) := {
  Get : NamespacedName -> E W O;
  List_ : ListOptions -> E W (list O);
  Create : O -> E W O;
  Update : O -> E W O;
  StatusUpdate : O -> E W O;
  Delete : O -> E W unit }.
Arguments Get {W O}.
Arguments List_ {W O}.
Arguments Create {W O}.
Arguments Update {W O}.
Arguments StatusUpdate {W O}.
Arguments Delete {W O}.

(** ** [retry.RetryOnConflict] *)

(** [attempts fn w r w']: running [fn] from [w] again after each Conflict may
    end with [r]. *)
Inductive attempts {W A} (fn : E W A) : W -> error + A -> W -> Prop :=
  | attempts_last w r w' : fn w = (r, w') -> attempts fn w r w'
  | attempts_again w e w1 r w' :
      fn w = (inl e, w1) -> IsConflict e = true ->
      attempts fn w1 r w' -> attempts fn w r w'.

(** [retry.RetryOnConflict(retry.DefaultRetry, fn)]. *)
Class RetryOnConflict := retry_on_conflict : forall {W A : Type}, E W A -> E W A.

(** Its documented behaviour: [fn] is run until it returns no Conflict or the
    attempts are used up, and the last result is returned. *)
Class RetryLaws `{RetryOnConflict} : Prop := {
  retry_attempts : forall W A (fn : E W A) w r w',
    retry_on_conflict fn w = (r, w') -> attempts fn w r w';
  retry_first : forall W A (fn : E W A) w r w',
    fn w = (r, w') ->
    match r with inl e => IsConflict e = false | inr _ => True end ->
    retry_on_conflict fn w = (r, w') }.

Section Attempts.
Context {W A : Type} (fn : E W A) (I : W -> W -> Prop).
Context {I_pre : PreOrder I}.

(** An invariant of the failing attempts holds of the whole run, whose last
    attempt starts in a world related to the first. *)
Lemma attempts_last_run w r w' :
  attempts fn w r w' ->
  (forall w1 e w2, fn w1 = (inl e, w2) -> I w1 w2) ->
  exists w1, I w w1 /\ fn w1 = (r, w').
Proof.
  intros H Hinv. induction H as [w r w' Hfn|w e w1 r w' Hfn Hc _ (w2 & HI & Hw2)].
  - exists w. split; [reflexivity|done].
  - exists w2. split; [|done]. transitivity w1; eauto.
Qed.

End Attempts.

(** An executable retry: [n] attempts at most, as [retry.DefaultRetry] makes
    five. *)
Fixpoint retry_n (n : nat) {W A} (fn : E W A) : E W A := fun w =>
  match fn w, n with
  | (inl e, w'), S n' => if IsConflict e then retry_n n' fn w' else (inl e, w')
  | r, _ => r
  end.

Definition default_retry : RetryOnConflict := fun W A fn => retry_n 4 fn.

Lemma retry_n_attempts n {W A} (fn : E W A) w r w' :
  retry_n n fn w = (r, w') -> attempts fn w r w'.
Proof.
  revert w. induction n as [|n IH]; intros w; simpl;
    destruct (fn w) as [[e|a] w1] eqn:Hfn; intros Hr; simplify_eq;
    try (by constructor).
  destruct (IsConflict e) eqn:Hc; simplify_eq; [|by constructor].
  eapply attempts_again; eauto.
Qed.

Lemma default_retry_laws : @RetryLaws default_retry.
Proof.
  split.
  - intros W A fn w r w'. apply retry_n_attempts.
  - intros W A fn w r w' Hfn Hr. unfold retry_on_conflict, default_retry.
    destruct r as [e|a]; simpl; rewrite Hfn; [by rewrite Hr|done].
Qed.
