(* ===== verification/Server.v ===== *)
(** * What the operator relies on from the API server

    The Go interface [client.Object] as a class, the documented behaviour of
    a typed client as the class [Serves] over a view of the world (the
    objects of that kind), the frame condition [Leaves], and pre- and
    postconditions for computations of the monad [E]. A world here is what
    the operator sees between two of its own calls with nobody else writing;
    a call may fail at any point, and a write that fails may or may not have
    been carried out. Module Mem is an in-memory server that satisfies the
    laws. *)

From S2P Require Import Prelude GoStrings KubeTypes ApiTypes Kube.
#[local] Open Scope string_scope.
#[local] Open Scope list_scope.

(** ** client.Object *)

Class Object (O : Type) := {
  meta : O -> ObjectMeta;
  with_meta : O -> ObjectMeta -> O }.

Class ObjectLaws (O : Type) `{Object O} : Prop := {
  meta_with : forall o m, meta (with_meta o m) = m;
  with_meta_id : forall o, with_meta o (meta o) = o;
  with_meta_with : forall o m m', with_meta (with_meta o m) m' = with_meta o m' }.

#[global] Instance Secret_object : Object Secret := {|
  meta := sec_Meta;
  with_meta s m := {| sec_Meta := m; sec_Type := sec_Type s; sec_Data := sec_Data s |} |}.
#[global] Instance ConfigMap_object : Object ConfigMap := {|
  meta := cm_Meta; with_meta c m := {| cm_Meta := m; cm_Data := cm_Data c |} |}.
#[global] Instance Service_object : Object Service := {|
  meta := svc_Meta; with_meta s m := {| svc_Meta := m; svc_Spec := svc_Spec s |} |}.
#[global] Instance Deployment_object : Object Deployment := {|
  meta := d_Meta;
  with_meta d m := {| d_Meta := m; d_Spec := d_Spec d; d_Status := d_Status d |} |}.
#[global] Instance NetworkPolicy_object : Object NetworkPolicy := {|
  meta := np_Meta; with_meta n m := {| np_Meta := m; np_Spec := np_Spec n |} |}.
#[global] Instance Decoy_object : Object Decoy := {|
  meta := kt_Meta;
  with_meta k m := {| kt_Meta := m; kt_Spec := kt_Spec k; kt_Status := kt_Status k |} |}.
#[global] Instance Pod_object : Object Pod := {|
  meta := p_Meta;
  with_meta p m := {| p_Meta := m; p_Spec := p_Spec p; p_Status := p_Status p |} |}.

#[global] Instance PVC_object : Object PersistentVolumeClaim := {|
  meta := pvc_Meta;
  with_meta p m := {| pvc_Meta := m; pvc_AccessModes := pvc_AccessModes p;
                      pvc_StorageClassName := pvc_StorageClassName p; pvc_Storage := pvc_Storage p |} |}.

Ltac object_laws := split; [done|intros []; reflexivity|done].

#[global] Instance Secret_object_laws : ObjectLaws Secret. Proof. object_laws. Qed.
#[global] Instance ConfigMap_object_laws : ObjectLaws ConfigMap. Proof. object_laws. Qed.
#[global] Instance Service_object_laws : ObjectLaws Service. Proof. object_laws. Qed.
#[global] Instance Deployment_object_laws : ObjectLaws Deployment. Proof. object_laws. Qed.
#[global] Instance NetworkPolicy_object_laws : ObjectLaws NetworkPolicy. Proof. object_laws. Qed.
#[global] Instance Decoy_object_laws : ObjectLaws Decoy. Proof. object_laws. Qed.
#[global] Instance PVC_object_laws : ObjectLaws PersistentVolumeClaim. Proof. object_laws. Qed.
#[global] Instance Pod_object_laws : ObjectLaws Pod. Proof. object_laws. Qed.

(** [client.ObjectKeyFromObject]. *)
Definition key_of {O} `{Object O} (o : O) : NamespacedName := om_key (meta o).

(** ** Triples

    [triple P c Q X]: from a world with [P], [c] ends in a world with [Q a]
    when it returns [a] and with [X] when it returns an error. *)
Definition triple {W A} (P : W -> Prop) (c : E W A) (Q : A -> W -> Prop) (X : W -> Prop) : Prop :=
  forall w, P w -> match c w with (inr a, w') => Q a w' | (inl _, w') => X w' end.

(** [c] does not touch [view]. *)
Definition keeps {W A X} (view : W -> X) (c : E W A) : Prop := forall w, view (c w).2 = view w.

Section Triples.
Context {W : Type}.
Implicit Types P I X : W -> Prop.

Lemma triple_ret {A} P (a : A) (Q : A -> W -> Prop) X :
  (forall w, P w -> Q a w) -> triple P (mret a) Q X.
Proof. intros H w HP. by apply H. Qed.

Lemma triple_throw {A} P e (Q : A -> W -> Prop) X :
  (forall w, P w -> X w) -> triple P (throw e) Q X.
Proof. intros H w HP. by apply H. Qed.

Lemma triple_lift {A} P (r : error + A) (Q : A -> W -> Prop) X :
  (forall a w, r = inr a -> P w -> Q a w) -> (forall w, P w -> X w) -> triple P (lift r) Q X.
Proof. intros HQ HX w HP. unfold lift. destruct r; [by apply HX|by apply HQ]. Qed.

Lemma triple_bind {A B} P (c : E W A) (k : A -> E W B) R Q X :
  triple P c R X -> (forall a, triple (R a) (k a) Q X) -> triple P (c ≫= k) Q X.
Proof.
  intros Hc Hk w HP. unfold mbind, E_bind. specialize (Hc w HP).
  destruct (c w) as [[e|a] w']; [done|]. by apply Hk.
Qed.

Lemma triple_try {A} P (c : E W A) Q X Y :
  triple P c (fun a => Q (inr a)) (fun w => forall e, Q (inl e) w) ->
  triple P (try_ c) Q Y.
Proof.
  intros Hc w HP. unfold try_. specialize (Hc w HP). by destruct (c w) as [[e|a] w'].
Qed.

Lemma triple_wrap {A} P p (c : E W A) Q X : triple P c Q X -> triple P (wrap_err p c) Q X.
Proof. intros Hc w HP. unfold wrap_err. specialize (Hc w HP). by destruct (c w) as [[]]. Qed.

Lemma triple_conseq {A} P P' (c : E W A) (Q Q' : A -> W -> Prop) X X' :
  triple P c Q X -> (forall w, P' w -> P w) -> (forall a w, Q a w -> Q' a w) ->
  (forall w, X w -> X' w) -> triple P' c Q' X'.
Proof.
  intros Hc HP HQ HX w Hw. specialize (Hc w (HP w Hw)). destruct (c w) as [[]]; auto.
Qed.

Lemma triple_for_each {A} I (f : A -> E W unit) (l : list A) :
  (forall x, x ∈ l -> triple I (f x) (fun _ => I) I) ->
  triple I (for_each f l) (fun _ => I) I.
Proof.
  induction l as [|x l IH]; intros Hf; simpl.
  - by apply triple_ret.
  - eapply triple_bind; [apply Hf, list_elem_of_here|]. intros ?. apply IH.
    intros y Hy. apply Hf. by right.
Qed.

Lemma triple_attempts {A} I (fn : E W A) Q w r w' :
  triple I fn Q I -> attempts fn w r w' -> I w ->
  match r with inr a => Q a w' | inl _ => I w' end.
Proof.
  intros Hfn H. induction H as [w r w' Hf|w e w1 r w' Hf _ _ IH]; intros HI.
  - specialize (Hfn w HI). rewrite Hf in Hfn. by destruct r.
  - apply IH. specialize (Hfn w HI). by rewrite Hf in Hfn.
Qed.

Lemma triple_retry `{RetryLaws} {A} I (fn : E W A) Q :
  triple I fn Q I -> triple I (retry_on_conflict fn) Q I.
Proof.
  intros Hfn w HI. destruct (retry_on_conflict fn w) as [r w'] eqn:E.
  apply (triple_attempts I fn Q w r w' Hfn); [by apply retry_attempts|done].
Qed.

(** What a computation does not touch, it preserves. *)
Lemma triple_keeps {A Y} (view : W -> Y) (c : E W A) (J : Y -> Prop) P :
  keeps view c -> (forall w, P w -> J (view w)) ->
  triple P c (fun _ w => J (view w)) (fun w => J (view w)).
Proof.
  intros Hk HP w Hw. specialize (Hk w). destruct (c w) as [[]]; simpl in Hk; rewrite Hk; auto.
Qed.

Section Keeps.
Context {Y : Type} (view : W -> Y).

Lemma keeps_ret {A} (a : A) : keeps view (mret a : E W A).
Proof. by intros w. Qed.

Lemma keeps_throw {A} e : keeps view (throw e : E W A).
Proof. by intros w. Qed.

Lemma keeps_lift {A} (r : error + A) : keeps view (lift r : E W A).
Proof. by intros w. Qed.

Lemma keeps_bind {A B} (c : E W A) (k : A -> E W B) :
  keeps view c -> (forall a, keeps view (k a)) -> keeps view (c ≫= k).
Proof.
  intros Hc Hk w. unfold mbind, E_bind. specialize (Hc w).
  destruct (c w) as [[e|a] w']; simpl in *; [done|]. by rewrite Hk.
Qed.

Lemma keeps_try {A} (c : E W A) : keeps view c -> keeps view (try_ c).
Proof. intros Hc w. unfold try_. specialize (Hc w). by destruct (c w). Qed.

Lemma keeps_wrap {A} p (c : E W A) : keeps view c -> keeps view (wrap_err p c).
Proof. intros Hc w. unfold wrap_err. specialize (Hc w). by destruct (c w) as [[]]. Qed.

Lemma keeps_for_each {A} (f : A -> E W unit) (l : list A) :
  (forall x, keeps view (f x)) -> keeps view (for_each f l).
Proof.
  intros Hf. induction l as [|x l IH]; simpl; [apply keeps_ret|].
  by apply keeps_bind.
Qed.

Lemma keeps_retry `{RetryLaws} {A} (fn : E W A) :
  keeps view fn -> keeps view (retry_on_conflict fn).
Proof.
  intros Hf w. destruct (retry_on_conflict fn w) as [r w'] eqn:E. simpl.
  apply retry_attempts in E. induction E as [w r w' E|w e w1 r w' E _ _ IH].
  - specialize (Hf w). by rewrite E in Hf.
  - rewrite IH. specialize (Hf w). by rewrite E in Hf.
Qed.

End Keeps.
End Triples.

Create HintDb keeps.
#[export] Hint Resolve keeps_ret keeps_throw keeps_lift keeps_bind keeps_try keeps_wrap keeps_for_each
  keeps_retry : keeps.

(** Close a [keeps] goal by following the computation. *)
Ltac keep_step :=
  match goal with
  | |- keeps _ (match ?x with _ => _ end) => destruct x
  | |- keeps _ (let '(_, _) := ?x in _) => destruct x
  | |- forall _, _ => intros ?
  | |- keeps _ (mbind _ _) => apply keeps_bind
  | |- keeps _ (mret _) => apply keeps_ret
  | |- keeps _ (throw _) => apply keeps_throw
  | |- keeps _ (lift _) => apply keeps_lift
  | |- keeps _ (try_ _) => apply keeps_try
  | |- keeps _ (wrap_err _ _) => apply keeps_wrap
  | |- keeps _ (for_each _ _) => apply keeps_for_each
  | |- keeps _ (retry_on_conflict _) => apply keeps_retry
  | |- _ => solve [eauto with keeps]
  end.
Ltac keep := repeat keep_step.

(** ** The laws of a typed client *)

Definition list_match (lo : ListOptions) (m : ObjectMeta) : Prop :=
  match lo_Namespace lo with None => True | Some ns => om_Namespace m = ns end /\
  lo_Labels lo ⊆ om_Labels m.

(** The metadata the server keeps as it was sent. *)
Definition meta_sent (m m' : ObjectMeta) : Prop :=
  om_Name m' = om_Name m /\ om_Namespace m' = om_Namespace m /\ om_Labels m' = om_Labels m /\
  om_Annotations m' = om_Annotations m /\ om_OwnerReferences m' = om_OwnerReferences m /\
  om_Finalizers m' = om_Finalizers m.

Section Laws.
Context {W O : Type} `{Object O} (view : W -> gmap NamespacedName O).
(** [body old sent stored]: what of an object's own fields the server stores;
    [old] is [None] for a creation. *)
Context (body : option O -> O -> O -> Prop).

(** [o'] is what the server stores for [o]. *)
Definition stored (old : option O) (o o' : O) : Prop :=
  meta_sent (meta o) (meta o') /\ body old o o' /\
  om_DeletionTimestamp (meta o') = (o ← old; om_DeletionTimestamp (meta o)).

(** [o] was created and is now [o']. *)
Definition created (o o' : O) (w w' : W) : Prop :=
  view w !! key_of o = None /\ stored None o o' /\ view w' = <[key_of o := o']> (view w).

(** [o] replaced the stored object and is now [o']; an object under deletion
    that loses its last finalizer goes away. *)
Definition replaced (o o' : O) (w w' : W) : Prop :=
  exists old, view w !! key_of o = Some old /\ stored (Some old) o o' /\
    om_ResourceVersion (meta old) = om_ResourceVersion (meta o) /\
    (view w' = <[key_of o := o']> (view w) \/
     is_Some (om_DeletionTimestamp (meta old)) /\ om_Finalizers (meta o) = [] /\
     view w' = delete (key_of o) (view w)).

(** The object is gone, or is being deleted: nothing else of it changed. *)
Definition deleted (k : NamespacedName) (w w' : W) : Prop :=
  view w' = delete k (view w) \/
  exists o o', view w !! k = Some o /\ view w' = <[k := o']> (view w) /\
    is_Some (om_DeletionTimestamp (meta o')) /\ meta_sent (meta o) (meta o').

Class Serves (c : Client W O) : Prop := {
  serves_key : forall w k o, view w !! k = Some o -> key_of o = k;
  serves_get : forall k w r w', Get c k w = (r, w') ->
    view w' = view w /\
    match r with
    | inr o => view w !! k = Some o
    | inl e => IsNotFound e = true -> view w !! k = None
    end;
  serves_list : forall lo w r w', List_ c lo w = (r, w') ->
    view w' = view w /\
    match r with
    | inr l => NoDup (key_of <$> l) /\
        forall o, o ∈ l <-> view w !! key_of o = Some o /\ list_match lo (meta o)
    | inl e => True
    end;
  serves_create : forall o w r w', Create c o w = (r, w') ->
    match r with
    | inr o' => created o o' w w'
    | inl e => view w' = view w \/ exists o', created o o' w w'
    end;
  serves_update : forall o w r w', Update c o w = (r, w') ->
    match r with
    | inr o' => replaced o o' w w'
    | inl e => view w' = view w \/ exists o', replaced o o' w w'
    end;
  serves_delete : forall o w r w', Delete c o w = (r, w') ->
    match r with
    | inr _ => deleted (key_of o) w w'
    | inl e => (view w' = view w \/ deleted (key_of o) w w') /\
               (IsNotFound e = true -> view w' !! key_of o = None)
    end }.
End Laws.

(** Calls on one kind of object leave a view alone. *)
Class Leaves {W O X} (c : Client W O) (view : W -> X) : Prop := {
  leaves_get : forall k, keeps view (Get c k);
  leaves_list : forall lo, keeps view (List_ c lo);
  leaves_create : forall o, keeps view (Create c o);
  leaves_update : forall o, keeps view (Update c o);
  leaves_status : forall o, keeps view (StatusUpdate c o);
  leaves_delete : forall o, keeps view (Delete c o) }.

#[export] Hint Resolve leaves_get leaves_list leaves_create leaves_update leaves_status
  leaves_delete : keeps.

(** The kinds whose stored form the theorems need. *)
Definition secret_body (_ : option Secret) (s s' : Secret) : Prop :=
  sec_Type s' = sec_Type s /\ sec_Data s' = sec_Data s.

Definition decoy_body (old : option Decoy) (d d' : Decoy) : Prop :=
  kt_Spec d' = kt_Spec d /\ kt_Status d' = from_option kt_Status empty_status old.

Lemma meta_sent_key m m' : meta_sent m m' -> om_key m' = om_key m.
Proof. intros (Hn & Hns & _). unfold om_key. by rewrite Hn, Hns. Qed.

Lemma meta_sent_refl m : meta_sent m m.
Proof. by split_and!. Qed.

(** ** An in-memory server

    One kind of object in a field of the world, reached by [get] and [set]:
    resource versions grow with every write, a stale update is a Conflict,
    deletion waits for finalizers. [merge] and [status] say which fields an
    update and a status update take from the object sent; an object that is
    not [valid] is refused. *)
Module Mem.

Definition api_error (r : StatusReason) (msg : string) : error :=
  {| e_Reason := r; e_Causes := []; e_Message := msg |}.

#[global] Instance list_match_dec lo m : Decision (list_match lo m).
Proof. unfold list_match. destruct (lo_Namespace lo); apply _. Defined.

(** The metadata of a written object. *)
Definition written_meta (old : option ObjectMeta) (m : ObjectMeta) : ObjectMeta :=
  {| om_Name := om_Name m; om_Namespace := om_Namespace m;
     om_UID := from_option om_UID "uid" old;
     om_ResourceVersion := from_option om_ResourceVersion "" old +:+ "i";
     om_Generation := om_Generation m; om_CreationTimestamp := om_CreationTimestamp m;
     om_DeletionTimestamp := (x ← old; om_DeletionTimestamp x);
     om_Labels := om_Labels m; om_Annotations := om_Annotations m;
     om_OwnerReferences := om_OwnerReferences m; om_Finalizers := om_Finalizers m |}.

Definition deleted_meta (m : ObjectMeta) : ObjectMeta :=
  {| om_Name := om_Name m; om_Namespace := om_Namespace m; om_UID := om_UID m;
     om_ResourceVersion := om_ResourceVersion m; om_Generation := om_Generation m;
     om_CreationTimestamp := om_CreationTimestamp m; om_DeletionTimestamp := Some 1%Z;
     om_Labels := om_Labels m; om_Annotations := om_Annotations m;
     om_OwnerReferences := om_OwnerReferences m; om_Finalizers := om_Finalizers m |}.

Definition all_valid {O} (_ : O) : bool := true.

Section Client.
Context {W O : Type} `{ObjectLaws O}.
Context (get : W -> gmap NamespacedName O) (set : gmap NamespacedName O -> W -> W).
Context (merge : option O -> O -> O) (status : O -> O -> O) (valid : O -> bool).

(** The valid objects that sit under their own key. *)
Definition objects (w : W) : gmap NamespacedName O :=
  filter (fun ko : NamespacedName * O => key_of ko.2 = ko.1 /\ valid ko.2 = true) (get w).

Definition bump (old : option O) (o : O) : O :=
  with_meta o (written_meta (meta <$> old) (meta o)).

Definition put (k : NamespacedName) (o : O) (w : W) : W := set (<[k := o]> (get w)) w.

(** [prune]: an object under deletion goes with its last finalizer. *)
Definition write (prune : bool) (f : O -> O -> O) (o : O) : E W O := fun w =>
  match objects w !! key_of o with
  | None => (inl (api_error ReasonNotFound "not found"), w)
  | Some old =>
      if om_ResourceVersion (meta old) ==? om_ResourceVersion (meta o) then
        let o' := bump (Some old) (f old o) in
        if negb (valid o') then (inl (api_error ReasonInvalid "invalid"), w)
        else if prune && bool_decide (is_Some (om_DeletionTimestamp (meta old))) &&
           bool_decide (om_Finalizers (meta o') = [])
        then (inr o', set (delete (key_of o) (get w)) w)
        else (inr o', put (key_of o) o' w)
      else (inl (api_error ReasonConflict "the object has been modified"), w)
  end.

Definition listing (lo : ListOptions) (w : W) : list O :=
  filterb (fun o => bool_decide (list_match lo (meta o))) (snd <$> map_to_list (objects w)).

Definition client : Client W O := {|
  Get k := fun w => (match objects w !! k with
                     | Some o => inr o
                     | None => inl (api_error ReasonNotFound "not found")
                     end, w);
  List_ lo := fun w => (inr (listing lo w), w);
  Create o := fun w =>
    match objects w !! key_of o with
    | Some _ => (inl (api_error ReasonAlreadyExists "already exists"), w)
    | None =>
        let o' := bump None (merge None o) in
        if valid o' then (inr o', put (key_of o) o' w)
        else (inl (api_error ReasonInvalid "invalid"), w)
    end;
  Update := write true (fun old o => merge (Some old) o);
  StatusUpdate := write false status;
  Delete o := fun w =>
    match objects w !! key_of o with
    | None => (inl (api_error ReasonNotFound "not found"), w)
    | Some old =>
        if bool_decide (om_Finalizers (meta old) = [])
        then (inr tt, set (delete (key_of o) (get w)) w)
        else (inr tt, put (key_of o) (with_meta old (deleted_meta (meta old))) w)
    end |}.

Context (get_set : forall m w, get (set m w) = m).

Context (valid_meta : forall o m, valid (with_meta o m) = valid o).

Lemma objects_put k o w :
  key_of o = k -> valid o = true -> objects (put k o w) = <[k := o]> (objects w).
Proof.
  intros Hk Hval. unfold objects, put. rewrite get_set. by rewrite map_filter_insert_True.
Qed.

Lemma objects_delete k w : objects (set (delete k (get w)) w) = delete k (objects w).
Proof. unfold objects. rewrite get_set. by rewrite map_filter_delete. Qed.

Lemma objects_key w k o : objects w !! k = Some o -> key_of o = k.
Proof. unfold objects. by intros [_ [? _]]%map_lookup_filter_Some. Qed.

Lemma objects_valid w k o : objects w !! k = Some o -> valid o = true.
Proof. unfold objects. by intros [_ [_ ?]]%map_lookup_filter_Some. Qed.

Context (body : option O -> O -> O -> Prop).
Context (merge_meta : forall old o, meta (merge old o) = meta o).
Context (merge_body : forall old o m, body old o (with_meta (merge old o) m)).

Lemma bump_key old o : key_of (bump old o) = key_of o.
Proof. unfold key_of, bump. by rewrite meta_with. Qed.

Lemma key_of_merge old o : key_of (merge old o) = key_of o.
Proof. unfold key_of. by rewrite merge_meta. Qed.

Lemma bump_stored old o : stored body old o (bump old (merge old o)).
Proof.
  unfold stored, bump. rewrite meta_with, merge_meta. split_and!; [by split_and!|apply merge_body|].
  by destruct old.
Qed.

Lemma list_law lo w :
  NoDup (key_of <$> listing lo w) /\
  forall o, o ∈ listing lo w <-> objects w !! key_of o = Some o /\ list_match lo (meta o).
Proof.
  assert (Hk : forall k o, (k, o) ∈ map_to_list (objects w) -> key_of o = k).
  { intros k o Hin. apply elem_of_map_to_list in Hin. by apply objects_key in Hin. }
  assert (Heq : key_of <$> (snd <$> map_to_list (objects w)) = fst <$> map_to_list (objects w)).
  { rewrite <- list_fmap_compose. apply list_fmap_ext. intros i [k o] Hi. simpl.
    eapply Hk. by eapply list_elem_of_lookup_2. }
  unfold listing. split.
  - eapply sublist_NoDup; [eapply (NoDup_fst_map_to_list (objects w))|].
    rewrite <- Heq. apply fmap_sublist, filterb_sublist.
  - intros o. rewrite elem_of_filterb, bool_decide_eq_true. f_equiv.
    rewrite list_elem_of_fmap. split.
    + intros ([k o'] & -> & Hin). simpl. rewrite (Hk _ _ Hin). by apply elem_of_map_to_list in Hin.
    + intros Ho. exists (key_of o, o). split; [done|]. by apply elem_of_map_to_list.
Qed.

Lemma client_serves : Serves objects body client.
Proof.
  split.
  - apply objects_key.
  - intros k w r w' [= <- <-]. split; [done|]. by destruct (objects w !! k).
  - intros lo w r w' [= <- <-]. split; [done|]. apply list_law.
  - intros o w r w'. simpl. destruct (objects w !! key_of o) eqn:Hg; [intros [= <- <-]; by left|].
    destruct (valid _) eqn:Hval; intros [= <- <-]; [|by left].
    split_and!; [done|apply bump_stored|]. apply objects_put; [|done]. by rewrite bump_key, key_of_merge.
  - intros o w r w'. simpl. unfold write.
    destruct (objects w !! key_of o) as [old|] eqn:Hg; [|intros [= <- <-]; by left].
    case_bool_decide as Hrv; [|intros [= <- <-]; by left].
    intros Hw. assert (Hfin : om_Finalizers (meta (bump (Some old) (merge (Some old) o))) = om_Finalizers (meta o)).
    { unfold bump. by rewrite meta_with, merge_meta. }
    destruct (valid _) eqn:Hval; simpl in Hw; [|injection Hw as <- <-; by left].
    rewrite Hfin in Hw. destruct (_ && _) eqn:Hd; injection Hw as <- <-;
      exists old; split_and!; try done; try apply bump_stored.
    + right. go_bool. split_and!; [done|done|]. apply objects_delete.
    + left. apply objects_put; [|done]. by rewrite bump_key, key_of_merge.
  - intros o w r w'. simpl. destruct (objects w !! key_of o) as [old|] eqn:Hg.
    2:{ intros [= <- <-]. split; [by left|done]. }
    case_bool_decide; intros [= <- <-].
    + left. apply objects_delete.
    + right. exists old. eexists. split_and!; [done| | |].
      * apply objects_put; [|rewrite valid_meta; by eapply objects_valid].
        unfold key_of. rewrite meta_with. apply objects_key in Hg. done.
      * rewrite meta_with. by eexists.
      * rewrite meta_with. by split_and!.
Qed.

Lemma client_leaves {X} (view : W -> X) :
  (forall m w, view (set m w) = view w) -> Leaves client view.
Proof.
  intros Hv. split; intros o w; simpl; unfold write, put; try done;
    repeat (case_match; simpl; rewrite ?Hv; try done).
Qed.

End Client.
End Mem.
