(* ===== verification/CtrlUtil.v ===== *)
(** * controllerutil and apimachinery helpers, as an interface

    The functions of sigs.k8s.io/controller-runtime and k8s.io/apimachinery
    that work on an object in memory, with their documented behaviour, and an
    implementation that has it. *)

From S2P Require Import Prelude GoStrings KubeTypes ApiTypes Kube Server.
#[local] Open Scope string_scope.
#[local] Open Scope list_scope.

Class ControllerUtil := {
  (** [controllerutil.SetControllerReference(owner, object, scheme)]. *)
  SetControllerReference : ObjectMeta -> ObjectMeta -> error + ObjectMeta;
  (** [metav1.IsControlledBy(object, owner)]. *)
  IsControlledBy : ObjectMeta -> ObjectMeta -> bool;
  (** The finalizers of an object, and whether they changed. *)
  AddFinalizer : string -> list string -> list string * bool;
  RemoveFinalizer : string -> list string -> list string * bool;
  ContainsFinalizer : string -> list string -> bool;
  (** [apimeta.SetStatusCondition] at a time. *)
  SetStatusCondition : Time -> Condition -> list Condition -> list Condition }.

Class ControllerUtilLaws `{ControllerUtil} : Prop := {
  set_controller : forall owner m m', SetControllerReference owner m = inr m' ->
    m' = om_with_owners m (om_OwnerReferences m') /\ IsControlledBy m' owner = true;
  contains_finalizer : forall f l, ContainsFinalizer f l = true <-> f ∈ l;
  add_finalizer : forall f l, (AddFinalizer f l).2 = negb (bool_decide (f ∈ l)) /\
    (forall g, g ∈ (AddFinalizer f l).1 <-> g = f \/ g ∈ l) /\
    ((AddFinalizer f l).2 = false -> (AddFinalizer f l).1 = l);
  remove_finalizer : forall f l, (RemoveFinalizer f l).2 = bool_decide (f ∈ l) /\
    (forall g, g ∈ (RemoveFinalizer f l).1 <-> g <> f /\ g ∈ l) /\
    ((RemoveFinalizer f l).2 = false -> (RemoveFinalizer f l).1 = l);
  (** A condition of the type is set or added; types that were distinct stay so. *)
  set_condition : forall t c l,
    (NoDup (cond_Type <$> l) -> NoDup (cond_Type <$> SetStatusCondition t c l)) /\
    (exists d, d ∈ SetStatusCondition t c l /\ cond_Type d = cond_Type c /\
       cond_Status d = cond_Status c /\ cond_Reason d = cond_Reason c /\
       cond_Message d = cond_Message c /\ cond_ObservedGeneration d = cond_ObservedGeneration c) /\
    (forall d, cond_Type d <> cond_Type c -> d ∈ SetStatusCondition t c l <-> d ∈ l) }.

(** ** An implementation *)
Module CtrlUtilImpl.

Definition controller_ref (owner : ObjectMeta) : OwnerReference :=
  {| or_APIVersion := "honeypod.io/v1alpha1"; or_Kind := "Decoy"; or_Name := om_Name owner;
     or_UID := om_UID owner; or_Controller := Some true; or_BlockOwnerDeletion := Some true |}.

Definition set_cond (t : Time) (c : Condition) (l : list Condition) : list Condition :=
  let old := List.find (fun d => cond_Type d ==? cond_Type c) l in
  let time := match old with
              | Some d => if cond_Status d ==? cond_Status c then cond_LastTransitionTime d else t
              | None => t
              end in
  filterb (fun d => cond_Type d !=? cond_Type c) l ++
  [{| cond_Type := cond_Type c; cond_Status := cond_Status c; cond_Reason := cond_Reason c;
      cond_Message := cond_Message c; cond_ObservedGeneration := cond_ObservedGeneration c;
      cond_LastTransitionTime := time |}].

#[global] Instance ctrlutil : ControllerUtil := {|
  SetControllerReference owner m := inr (om_with_owners m [controller_ref owner]);
  IsControlledBy m owner := existsb (fun r => or_UID r ==? om_UID owner) (om_OwnerReferences m);
  AddFinalizer f l := if bool_decide (f ∈ l) then (l, false) else (l ++ [f], true);
  RemoveFinalizer f l :=
    (filterb (fun g => g !=? f) l, bool_decide (f ∈ l));
  ContainsFinalizer f l := bool_decide (f ∈ l);
  SetStatusCondition := set_cond |}.

#[global] Instance ctrlutil_laws : ControllerUtilLaws.
Proof.
  split.
  - intros owner m m' [= <-]. split; [done|]. simpl. by rewrite bool_decide_eq_true_2.
  - intros f l. apply bool_decide_eq_true.
  - intros f l. simpl. case_bool_decide; simpl; split_and!; try done.
    + intros g. split; [by right|]. by intros [->|?].
    + intros g. rewrite elem_of_app, list_elem_of_singleton. tauto.
  - intros f l. simpl. split_and!; [done| |].
    + intros g. rewrite elem_of_filterb, negb_true_iff, bool_decide_eq_false. tauto.
    + intros Hf%bool_decide_eq_false. apply filterb_all. intros g Hg.
      rewrite negb_true_iff, bool_decide_eq_false. by intros ->.
  - intros t c l. simpl. unfold set_cond. split_and!.
    + intros Hn. rewrite fmap_app. apply NoDup_app. split_and!.
      * eapply sublist_NoDup; [exact Hn|]. apply fmap_sublist, filterb_sublist.
      * intros ty (d & -> & [_ Hd]%elem_of_filterb)%list_elem_of_fmap.
        rewrite negb_true_iff, bool_decide_eq_false in Hd. by intros ?%list_elem_of_singleton.
      * apply NoDup_singleton.
    + eexists. split; [apply elem_of_app; right; by apply list_elem_of_singleton|done].
    + intros d Hd. rewrite elem_of_app, elem_of_filterb, list_elem_of_singleton,
        negb_true_iff, bool_decide_eq_false. split; [by intros [[? _]|Heq]; [|subst d]|by left].
Qed.
End CtrlUtilImpl.
