(* ===== verification/Host.v ===== *)
(** * The process's surroundings: clock, log and HTTP client

    [time.Now], [log.Printf] and [http.Client.Do] act on the world; what a
    reply is, and what time it is, are the world's choice. [sent], [answered]
    and [logged] are the history the theorems speak about: the requests handed
    to the network, whether each was answered with a status below 300, and the
    lines handed to the logger, oldest first. A
    component that keeps state beside the world runs in the pair of the two. *)

From S2P Require Import Prelude GoStrings KubeTypes Kube.
#[local] Open Scope string_scope.
#[local] Open Scope list_scope.

Record Request := {
  rq_Method : string; rq_URL : string; rq_ContentType : string; rq_Body : string }.

Record Response := { rs_StatusCode : Z; rs_Body : string }.

Class Host (W : Type) := {
  time_Now : E W Time;
  log_Print : string -> E W unit;
  http_NewRequest : string -> string -> string -> option error;
  http_Do : Request -> E W Response;
  sent : W -> list Request;
  answered : W -> list bool;
  logged : W -> list string }.

Definition good_answer (r : error + Response) : bool :=
  match r with inr resp => negb (300 <=? rs_StatusCode resp)%Z | inl _ => false end.

(** The clock and the logger do not fail, and only [Do] sends. *)
Class HostLaws (W : Type) `{Host W} : Prop := {
  now_ok : forall w, exists t w', time_Now w = (inr t, w') /\ sent w' = sent w /\ logged w' = logged w;
  log_ok : forall s w, exists w', log_Print s w = (inr tt, w') /\
    sent w' = sent w /\ logged w' = logged w ++ [s];
  do_sent : forall r w, sent (http_Do r w).2 = sent w ++ [r] /\ logged (http_Do r w).2 = logged w;
  now_answered : forall w, answered (time_Now w).2 = answered w;
  log_answered : forall s w, answered (log_Print s w).2 = answered w;
  do_answered : forall r w, answered (http_Do r w).2 = answered w ++ [good_answer (http_Do r w).1] }.

(** A computation that sends nothing. *)
Definition silent {W A} `{Host W} (c : E W A) : Prop := forall w, sent (c w).2 = sent w.

Section Silent.
Context {W : Type} `{HostLaws W}.

Lemma silent_ret {A} (a : A) : silent (mret a : E W A).
Proof. by intros w. Qed.

Lemma silent_throw {A} e : silent (throw e : E W A).
Proof. by intros w. Qed.

Lemma silent_bind {A B} (c : E W A) (k : A -> E W B) :
  silent c -> (forall a, silent (k a)) -> silent (c ≫= k).
Proof.
  intros Hc Hk w. unfold mbind, E_bind. specialize (Hc w).
  destruct (c w) as [[e|a] w']; simpl in *; [done|]. by rewrite Hk.
Qed.

Lemma silent_now : silent (time_Now : E W Time).
Proof. intros w. destruct (now_ok w) as (t & w' & -> & Hs & _). done. Qed.

Lemma silent_log s : silent (log_Print s : E W unit).
Proof. intros w. destruct (log_ok s w) as (w' & -> & Hs & _). done. Qed.

Lemma silent_try {A} (c : E W A) : silent c -> silent (try_ c).
Proof. intros Hc w. unfold try_. specialize (Hc w). by destruct (c w). Qed.

Lemma silent_wrap {A} p (c : E W A) : silent c -> silent (wrap_err p c).
Proof. intros Hc w. unfold wrap_err. specialize (Hc w). by destruct (c w) as [[]]. Qed.
End Silent.

#[export] Hint Resolve silent_ret silent_throw silent_bind silent_now silent_log
  silent_try silent_wrap : go.

(** ** Two components of one world *)

Section Pair.
Context {T W : Type}.

(** A computation of the second component, run beside the first. *)
Definition on_host {A} (c : E W A) : E (T * W) A := fun tw =>
  let '(r, w') := c tw.2 in (r, (tw.1, w')).

(** An update of the first component. *)
Definition on_state (f : T -> T) : E (T * W) unit := fun tw => (inr tt, (f tw.1, tw.2)).

#[global] Instance pair_host `{Host W} : Host (T * W) := {|
  time_Now := on_host time_Now;
  log_Print s := on_host (log_Print s);
  http_NewRequest := http_NewRequest (W := W);
  http_Do r := on_host (http_Do r);
  sent tw := sent tw.2;
  answered tw := answered tw.2;
  logged tw := logged tw.2 |}.

#[global] Instance pair_host_laws `{HostLaws W} : HostLaws (T * W).
Proof.
  split.
  - intros [t w]. destruct (now_ok w) as (n & w' & Hn & ? & ?).
    exists n, (t, w'). simpl. unfold on_host. simpl. by rewrite Hn.
  - intros s [t w]. destruct (log_ok s w) as (w' & Hl & ? & ?).
    exists (t, w'). simpl. unfold on_host. simpl. by rewrite Hl.
  - intros r [t w]. destruct (do_sent r w) as [? ?]. simpl. unfold on_host. simpl.
    by destruct (http_Do r w).
  - intros [t w]. pose proof (now_answered w). simpl. unfold on_host. simpl. by destruct (time_Now w).
  - intros s [t w]. pose proof (log_answered s w). simpl. unfold on_host. simpl. by destruct (log_Print s w).
  - intros r [t w]. pose proof (do_answered r w). simpl. unfold on_host. simpl. by destruct (http_Do r w).
Qed.
End Pair.

(** A scripted host: the requests and the log lines so far, a clock that
    ticks, and the replies the network will give (then 200s). *)
Module Script.

Record script := {
  sc_sent : list Request; sc_answered : list bool; sc_logged : list string; sc_clock : Time;
  sc_replies : list Response }.

Definition next_reply (s : script) : Response :=
  default {| rs_StatusCode := 200; rs_Body := "" |} (head (sc_replies s)).

#[global] Instance script_host : Host script := {|
  time_Now s := (inr (sc_clock s),
    {| sc_sent := sc_sent s; sc_answered := sc_answered s; sc_logged := sc_logged s; sc_clock := sc_clock s + 1;
       sc_replies := sc_replies s |});
  log_Print l s := (inr tt,
    {| sc_sent := sc_sent s; sc_answered := sc_answered s; sc_logged := sc_logged s ++ [l]; sc_clock := sc_clock s;
       sc_replies := sc_replies s |});
  http_NewRequest _ url _ := if url ==? "" then Some (Errorf "empty url") else None;
  http_Do r s := (inr (next_reply s),
    {| sc_sent := sc_sent s ++ [r]; sc_answered := sc_answered s ++ [good_answer (inr (next_reply s))];
       sc_logged := sc_logged s; sc_clock := sc_clock s;
       sc_replies := tail (sc_replies s) |});
  sent := sc_sent;
  answered := sc_answered;
  logged := sc_logged |}.

#[global] Instance script_laws : HostLaws script.
Proof. split; intros; simpl; eauto 6. Qed.

Definition start (replies : list Response) : script :=
  {| sc_sent := []; sc_answered := []; sc_logged := []; sc_clock := 1000; sc_replies := replies |}.

End Script.
