(* ===== verification/SessionLog.v ===== *)
(** * internal/kubeletshim/sessionlog.go: the transcript of an exec session

    What a process inside the decoy writes is teed into a [sessionLog], which
    prints it line by line. The chunks arrive as the pty or the pipes deliver
    them, each [Write] under the lock, so a session is a sequence of writes
    between its start and [done]. *)

From Stdlib Require Import Ascii.
From S2P Require Import Prelude GoStrings KubeTypes Kube Host.
#[local] Open Scope string_scope.
#[local] Open Scope list_scope.

Definition LF : ascii := Zbyte 10.
Definition CR : string := String (Zbyte 13) "".
Definition CRLF : string := CR +:+ nl.

(** [src/internal/kubeletshim/sessionlog.go:20-28, sessionLog] *)
Record sessionLog := {
  sl_target : string; sl_prefix : string; sl_start : Time;
  sl_pending : string; sl_bytes : Z }.

(** [src/internal/kubeletshim/sessionlog.go:82-84, maxPendingLine] *)
Definition maxPendingLine : nat := 8 * 1024.

Section Session.
Context (is_print : Z -> bool) (duration : Time -> Time -> string).
Context {W : Type} `{Host W}.

Definition start_line (target container shape command : string) : string :=
  "[honeypod exec] session start " +:+ target +:+ " (" +:+ container +:+ ") " +:+ shape
  +:+ " command=" +:+ Quote is_print command.

(** [src/internal/kubeletshim/sessionlog.go:30-43, newSessionLog] *)
Definition newSessionLog (namespace pod container : string) (tty : bool) (command : list string)
    : E W sessionLog :=
  let shape := if tty then "exec-tty" else "exec" in
  let target := namespace +:+ "/" +:+ pod in
  _ ← log_Print (start_line target container shape (Join command " "));
  now ← time_Now;
  mret {| sl_target := target; sl_prefix := "[honeypod exec] " +:+ target +:+ " | ";
          sl_start := now; sl_pending := ""; sl_bytes := 0 |}.

(** The loop of [Write], and what it leaves pending.
    [src/internal/kubeletshim/sessionlog.go:59-71, Write] *)
Fixpoint drain (fuel : nat) (prefix pending : string) : E W string :=
  match fuel with
  | O => mret pending
  | S f =>
      match Cut pending LF with
      | (_, _, false) => mret pending
      | (before, rest, true) =>
          let line := TrimRight before CR in
          _ ← (if line !=? "" then log_Print (prefix +:+ line) else mret tt);
          drain f prefix rest
      end
  end.

Definition sl_with (s : sessionLog) (pending : string) (bytes : Z) : sessionLog :=
  {| sl_target := sl_target s; sl_prefix := sl_prefix s; sl_start := sl_start s;
     sl_pending := pending; sl_bytes := bytes |}.

(** The number of bytes accepted and the recorder afterwards.
    [src/internal/kubeletshim/sessionlog.go:54-80, Write] *)
Definition Write (s : sessionLog) (p : string) : E W (Z * sessionLog) :=
  let n := Z.of_nat (String.length p) in
  let bytes := Int.int64 (sl_bytes s + n) in
  let pending := sl_pending s +:+ p in
  pending ← drain (S (String.length pending)) (sl_prefix s) pending;
  if bool_decide (maxPendingLine < String.length pending) then
    _ ← log_Print (sl_prefix s +:+ TrimRight pending CR);
    mret (n, sl_with s "" bytes)
  else mret (n, sl_with s pending bytes).

Definition end_line (s : sessionLog) (exitCode : Z) (now : Time) : string :=
  "[honeypod exec] session end " +:+ sl_target s +:+ " exit=" +:+ Itoa exitCode
  +:+ " bytes=" +:+ Itoa (sl_bytes s) +:+ " duration=" +:+ duration (sl_start s) now.

(** [src/internal/kubeletshim/sessionlog.go:86-101, done] *)
Definition done_ (s : sessionLog) (exitCode : Z) : E W unit :=
  let tail := TrimRight (sl_pending s) CRLF in
  _ ← (if tail !=? "" then log_Print (sl_prefix s +:+ tail) else mret tt);
  now ← time_Now;
  log_Print (end_line s exitCode now).

(** The writes of a session, in the order the lock admits them. *)
Fixpoint writes (s : sessionLog) (chunks : list string) : E W sessionLog :=
  match chunks with
  | [] => mret s
  | p :: chunks' => '(_, s') ← Write s p; writes s' chunks'
  end.

(** A recorded session, from its start to its end. *)
Definition session (namespace pod container : string) (tty : bool) (command chunks : list string)
    (exitCode : Z) : E W unit :=
  s ← newSessionLog namespace pod container tty command;
  s ← writes s chunks;
  done_ s exitCode.

End Session.

(** ** The reference: the lines of a text *)

(** The complete lines of a text and what follows the last newline. *)
Fixpoint split_lines (s : string) : list string * string :=
  match s with
  | "" => ([], "")
  | String a s' =>
      let '(ls, rest) := split_lines s' in
      if bool_decide (a = LF) then ("" :: ls, rest)
      else match ls with
           | [] => ([], String a rest)
           | l :: ls' => (String a l :: ls', rest)
           end
  end.

(** The lines of a text that are shown, without the carriage returns at
    their ends. *)
Definition shown (ls : list string) : list string :=
  filterb (fun l => l !=? "") ((fun l => TrimRight l CR) <$> ls).

(** The transcript of an output: its lines, the unfinished one last. *)
Definition transcript (text : string) : list string :=
  let '(ls, rest) := split_lines text in shown (ls ++ [rest]).

(** No line of the output is longer than the recorder's buffer. *)
Definition short_lines (text : string) : Prop :=
  let '(ls, rest) := split_lines text in
  Forall (fun l => String.length l <= maxPendingLine) (ls ++ [rest]).

#[global] Instance short_lines_dec text : Decision (short_lines text).
Proof. unfold short_lines. destruct (split_lines text). apply _. Defined.

(** The bytes of a text that are not line ends. *)
Definition is_eol (a : ascii) : bool := in_set CRLF a.
Definition visible (s : string) : list ascii := filterb (fun a => negb (is_eol a)) (chars s).

Lemma split_lines_found s b a :
  Cut s LF = (b, a, true) -> split_lines s = (b :: (split_lines a).1, (split_lines a).2).
Proof.
  revert b a. induction s as [|c s IH]; intros b a; simpl; [done|].
  case_bool_decide.
  - intros [= <- <-]. by destruct (split_lines s).
  - destruct (Cut s LF) as [[b' a'] f] eqn:E. intros [= <- <- ->]. by rewrite (IH b' a' eq_refl).
Qed.

Lemma split_lines_none s : ~ contains_byte LF s -> split_lines s = ([], s).
Proof.
  unfold contains_byte. induction s as [|c s IH]; simpl; [done|].
  rewrite not_elem_of_cons. intros [Hc Hs]. rewrite IH by done.
  by rewrite bool_decide_eq_false_2.
Qed.

Lemma split_lines_no_lf s :
  Forall (fun l => ~ contains_byte LF l) ((split_lines s).1 ++ [(split_lines s).2]).
Proof.
  assert (Hnil : ~ contains_byte LF "") by apply not_elem_of_nil.
  induction s as [|c s IH]; simpl; [by repeat constructor|].
  destruct (split_lines s) as [ls rest]. simpl in *. case_bool_decide as Hc.
  - by constructor.
  - assert (Hcons : forall l, ~ contains_byte LF l -> ~ contains_byte LF (String c l)).
    { intros l Hl. unfold contains_byte in *. simpl. rewrite not_elem_of_cons. auto. }
    destruct ls as [|l ls]; simpl in *; inversion IH; subst; constructor; auto.
Qed.

(** Splitting a text after its first part has been split. *)
Lemma split_lines_app s t :
  split_lines (s +:+ t) =
  ((split_lines s).1 ++ (split_lines ((split_lines s).2 +:+ t)).1,
   (split_lines ((split_lines s).2 +:+ t)).2).
Proof.
  induction s as [|c s IH]; [simpl; rewrite !sapp_nil_l; by destruct (split_lines t)|].
  rewrite sapp_cons. simpl. rewrite IH. destruct (split_lines s) as [ls rest]. simpl in *.
  case_bool_decide; simpl; [done|]. destruct ls as [|l ls]; simpl; [|done].
  destruct (split_lines (rest +:+ t)) as [ls' r']. simpl.
  rewrite bool_decide_eq_false_2 by done. by destruct ls'.
Qed.

(** The first line of a text that begins with [r] is at least as long. *)
Lemma split_lines_grow r t :
  ~ contains_byte LF r ->
  exists l ls, (split_lines (r +:+ t)).1 ++ [(split_lines (r +:+ t)).2] = l :: ls /\
    String.length r <= String.length l.
Proof.
  unfold contains_byte. induction r as [|c r IH]; simpl.
  - intros _. rewrite sapp_nil_l. destruct ((split_lines t).1) as [|l ls]; simpl; eauto with lia.
  - rewrite not_elem_of_cons. intros [Hc Hr]. destruct (IH Hr) as (l & ls & Heq & Hl).
    destruct (split_lines (r +:+ t)) as [ls' r']. simpl in *.
    rewrite bool_decide_eq_false_2 by done.
    destruct ls' as [|l' ls'']; simpl in *; injection Heq as <- <-; simpl;
      eexists _, _; (split; [done|simpl; lia]).
Qed.

Lemma shown_app l k : shown (l ++ k) = shown l ++ shown k.
Proof. unfold shown. by rewrite fmap_app, filterb_app. Qed.

(** *** What trimming keeps *)

Lemma TrimRight_split s cutset :
  exists tl, s = TrimRight s cutset +:+ tl /\ Forall (fun a => in_set cutset a = true) (chars tl).
Proof.
  unfold TrimRight, TrimRight_l.
  destruct (drop_while_suffix (in_set cutset) (reverse (chars s))) as (pre & Heq & Hpre).
  exists (of_chars (reverse pre)). split.
  - rewrite <- of_chars_app, <- reverse_app, <- Heq, reverse_involutive. by rewrite of_chars_chars.
  - rewrite chars_of_chars. by apply Forall_reverse.
Qed.

Lemma visible_app s t : visible (s +:+ t) = visible s ++ visible t.
Proof. unfold visible. by rewrite chars_app, filterb_app. Qed.

Lemma visible_TrimRight s cutset :
  (forall a, in_set cutset a = true -> is_eol a = true) -> visible (TrimRight s cutset) = visible s.
Proof.
  intros Hc. destruct (TrimRight_split s cutset) as (tl & Heq & Htl).
  rewrite Heq at 2. rewrite visible_app. unfold visible at 3.
  rewrite (filterb_none _ (chars tl)), app_nil_r; [done|].
  intros a Ha. rewrite Forall_forall in Htl. by rewrite Hc by auto.
Qed.

Lemma eol_CR a : in_set CR a = true -> is_eol a = true.
Proof.
  unfold is_eol, in_set. rewrite !bool_decide_eq_true. unfold CRLF. rewrite chars_app, elem_of_app. by left.
Qed.

Lemma TrimRight_sub s cutset a : contains_byte a (TrimRight s cutset) -> contains_byte a s.
Proof.
  destruct (TrimRight_split s cutset) as (tl & Heq & _). intros Ha. rewrite Heq.
  unfold contains_byte in *. rewrite chars_app, elem_of_app. by left.
Qed.

(** Without newlines, trimming [\r\n] is trimming [\r]. *)
Lemma TrimRight_CRLF s : ~ contains_byte LF s -> TrimRight s CRLF = TrimRight s CR.
Proof.
  unfold contains_byte, TrimRight, TrimRight_l. intros Hs. f_equal. f_equal.
  rewrite <- elem_of_reverse in Hs. induction (reverse (chars s)) as [|a l IH]; [done|].
  rewrite not_elem_of_cons in Hs. destruct Hs as [Ha Hl]. simpl.
  assert (in_set CRLF a = in_set CR a) as ->.
  { unfold in_set. apply bool_decide_ext. unfold CRLF. rewrite chars_app, elem_of_app.
    unfold nl. simpl. rewrite !elem_of_cons, elem_of_nil. unfold LF in Ha. naive_solver. }
  by rewrite IH.
Qed.

(** ** What a session records *)

Section Facts.
Context (is_print : Z -> bool) (duration : Time -> Time -> string).
Context {W : Type} `{HostLaws W}.

(** [c] logs the given lines and sends nothing. *)
Definition logs {A} (c : E W A) (w : W) (a : A) (lines : list string) : Prop :=
  exists w', c w = (inr a, w') /\ sent w' = sent w /\ logged w' = logged w ++ lines.

Lemma logs_ret {A} (a : A) w : logs (mret a) w a [].
Proof. exists w. by rewrite app_nil_r. Qed.

Lemma logs_print s w : logs (log_Print s) w tt [s].
Proof. destruct (log_ok s w) as (w' & ? & ? & ?). by exists w'. Qed.

Lemma logs_bind {A B} (c : E W A) (k : A -> E W B) w a b l1 l2 :
  logs c w a l1 -> (forall w', logs (k a) w' b l2) -> logs (c ≫= k) w b (l1 ++ l2).
Proof.
  intros (w1 & Hc & Hs & Hl) Hk. destruct (Hk w1) as (w2 & Hk2 & Hs2 & Hl2).
  exists w2. unfold mbind, E_bind. rewrite Hc, Hk2, Hs2, Hs, Hl2, Hl. by rewrite (assoc_L (++)).
Qed.

Lemma logs_line (prefix l : string) w :
  logs (if l !=? "" then log_Print (prefix +:+ l) else mret tt) w tt
    (String.append prefix <$> filterb (fun l => l !=? "") [l]).
Proof.
  unfold filterb. simpl. destruct (negb _); [apply logs_print|apply logs_ret].
Qed.

(** The loop ends, having logged exactly the complete lines; the fuel is
    enough because every round removes a byte. *)
Lemma drain_logs fuel prefix pending w :
  String.length pending < fuel ->
  logs (drain fuel prefix pending) w (split_lines pending).2
    (String.append prefix <$> shown (split_lines pending).1).
Proof.
  revert pending w. induction fuel as [|f IH]; intros pending w Hf; [lia|]. simpl.
  destruct (Cut pending LF) as [[before rest] []] eqn:E.
  - rewrite (split_lines_found _ _ _ E). apply Cut_found in E as [-> _].
    rewrite length_sapp in Hf. simpl in Hf. simpl fst. simpl snd.
    change (before :: (split_lines rest).1) with ([before] ++ (split_lines rest).1).
    rewrite shown_app, fmap_app. eapply logs_bind; [apply logs_line|]. intros w'. apply IH. lia.
  - apply Cut_not_found in E as (-> & -> & E). rewrite split_lines_none by done. apply logs_ret.
Qed.

(** Whether an unfinished line is flushed because it is too long. *)
Definition overlong (rest : string) : bool := bool_decide (maxPendingLine < String.length rest).

Definition after_write (s : sessionLog) (p : string) : sessionLog :=
  let rest := (split_lines (sl_pending s +:+ p)).2 in
  sl_with s (if overlong rest then "" else rest)
    (Int.int64 (sl_bytes s + Z.of_nat (String.length p))).

(** The lines one write adds to the transcript. *)
Definition write_lines (s : sessionLog) (p : string) : list string :=
  let '(ls, rest) := split_lines (sl_pending s +:+ p) in
  shown ls ++ (if overlong rest then [TrimRight rest CR] else []).

Lemma Write_logs s p w :
  logs (Write s p) w (Z.of_nat (String.length p), after_write s p)
    ((String.append (sl_prefix s)) <$> write_lines s p).
Proof.
  unfold Write, after_write, write_lines.
  pose proof (drain_logs (S (String.length (sl_pending s +:+ p))) (sl_prefix s)
                (sl_pending s +:+ p)) as Hd.
  destruct (split_lines (sl_pending s +:+ p)) as [ls rest]. simpl fst in *. simpl snd in *.
  rewrite fmap_app. eapply logs_bind; [apply Hd; lia|]. intros w'. unfold overlong.
  destruct (bool_decide _); [|apply logs_ret].
  change (fmap (String.append (sl_prefix s)) [TrimRight rest CR])
    with ([sl_prefix s +:+ TrimRight rest CR] ++ []).
  eapply logs_bind; [apply logs_print|]. intros w''. apply logs_ret.
Qed.

(** The recorder between two writes: nothing complete is held back, and what
    is held back is bounded. *)
Definition sl_ok (s : sessionLog) : Prop :=
  ~ contains_byte LF (sl_pending s) /\ String.length (sl_pending s) <= maxPendingLine.

Lemma after_write_ok s p : sl_ok (after_write s p).
Proof.
  unfold after_write, sl_ok. simpl. unfold overlong.
  pose proof (split_lines_no_lf (sl_pending s +:+ p)) as Hn. rewrite Forall_app in Hn.
  destruct Hn as [_ Hn]. rewrite Forall_singleton in Hn. case_bool_decide.
  - split; [apply not_elem_of_nil|simpl; lia].
  - split; [done|lia].
Qed.

(** All the lines of a list of writes, and the recorder after them. *)
Fixpoint all_lines (s : sessionLog) (chunks : list string) : list string :=
  match chunks with
  | [] => []
  | p :: chunks' => write_lines s p ++ all_lines (after_write s p) chunks'
  end.

Definition after_writes (s : sessionLog) (chunks : list string) : sessionLog :=
  foldl after_write s chunks.

Lemma writes_logs s chunks w :
  logs (writes s chunks) w (after_writes s chunks) ((String.append (sl_prefix s)) <$> all_lines s chunks).
Proof.
  revert s w. induction chunks as [|p chunks IH]; intros s w; [apply logs_ret|].
  simpl. rewrite fmap_app. eapply logs_bind; [apply Write_logs|]. intros w'.
  apply (IH (after_write s p)).
Qed.

Lemma visible_lines s :
  concat (visible <$> shown (split_lines s).1) ++ visible (split_lines s).2 = visible s.
Proof.
  assert (Hshown : forall ls, concat (visible <$> shown ls) = concat (visible <$> ls)).
  { intros ls. induction ls as [|l ls IH]; [done|].
    change (l :: ls) with ([l] ++ ls). rewrite shown_app, !fmap_app, !concat_app, IH. f_equal.
    simpl. rewrite <- (visible_TrimRight l CR eol_CR). unfold shown, filterb. simpl.
    by case_bool_decide as Hl; simpl; rewrite ?Hl. }
  rewrite Hshown. induction s as [|c s IH]; [done|].
  change (String c s) with (String c "" +:+ s). rewrite visible_app, <- IH. simpl.
  rewrite ?sapp_cons, ?sapp_nil_l. simpl.
  destruct (split_lines s) as [ls rest]. simpl. case_bool_decide as Hc.
  - subst c. done.
  - destruct ls as [|l ls]; simpl;
      change (visible (String c ?t)) with (visible (String c "" +:+ t)); rewrite visible_app; [done|].
    by rewrite <- !(assoc_L (++)).
Qed.

Lemma write_lines_visible s p :
  concat (visible <$> write_lines s p) ++ visible (sl_pending (after_write s p)) =
  visible (sl_pending s) ++ visible p.
Proof.
  rewrite <- visible_app, <- (visible_lines (sl_pending s +:+ p)). unfold write_lines, after_write. simpl.
  destruct (split_lines _) as [ls rest]. simpl. destruct (overlong rest); simpl.
  - rewrite fmap_app, concat_app. simpl. rewrite (visible_TrimRight _ _ eol_CR), !app_nil_r.
    done.
  - by rewrite app_nil_r.
Qed.

Lemma all_lines_visible s chunks :
  concat (visible <$> all_lines s chunks) ++ visible (sl_pending (after_writes s chunks)) =
  visible (sl_pending s) ++ visible (concat_all chunks).
Proof.
  revert s. induction chunks as [|p chunks IH]; intros s; simpl.
  - by rewrite app_nil_r.
  - rewrite concat_all_cons, visible_app, fmap_app, concat_app, <- (assoc_L (++)).
    change (foldl after_write (after_write s p) chunks) with (after_writes (after_write s p) chunks).
    rewrite IH, !(assoc_L (++)). by rewrite write_lines_visible.
Qed.

(** Every line of the transcript is free of newlines. *)
Lemma all_lines_no_lf s chunks l : l ∈ all_lines s chunks -> ~ contains_byte LF l.
Proof.
  revert s. induction chunks as [|p chunks IH]; intros s; simpl; [by intros ?%elem_of_nil|].
  rewrite elem_of_app. intros [Hl|Hl]; [|by eapply IH].
  unfold write_lines in Hl. pose proof (split_lines_no_lf (sl_pending s +:+ p)) as Hn.
  destruct (split_lines _) as [ls rest]. simpl in Hn. rewrite Forall_app, Forall_singleton in Hn.
  destruct Hn as [Hls Hrest]. rewrite Forall_forall in Hls. apply elem_of_app in Hl as [Hl|Hl].
  - unfold shown in Hl. apply elem_of_filterb in Hl as [Hl _].
    apply list_elem_of_fmap in Hl as (l' & -> & Hl'). intros Hc. apply TrimRight_sub in Hc.
    by apply (Hls l').
  - destruct (overlong rest); [|by apply elem_of_nil in Hl].
    apply list_elem_of_singleton in Hl as ->. by intros ?%TrimRight_sub.
Qed.

(** When no line outgrows the buffer, how the output was cut into chunks does
    not show. *)
Lemma all_lines_short s chunks :
  short_lines (sl_pending s +:+ concat_all chunks) -> ~ contains_byte LF (sl_pending s) ->
  all_lines s chunks = shown (split_lines (sl_pending s +:+ concat_all chunks)).1 /\
  sl_pending (after_writes s chunks) = (split_lines (sl_pending s +:+ concat_all chunks)).2.
Proof.
  revert s. induction chunks as [|p chunks IH]; intros s Hshort Hlf.
  { change (concat_all []) with "". rewrite sapp_nil_r, split_lines_none by done. done. }
  rewrite concat_all_cons, <- sapp_assoc in *. unfold short_lines in Hshort.
  rewrite split_lines_app in *. simpl all_lines. simpl fst. simpl snd.
  pose proof (split_lines_no_lf (sl_pending s +:+ p)) as Hn.
  unfold after_writes. simpl foldl. unfold write_lines.
  assert (Hover : overlong (split_lines (sl_pending s +:+ p)).2 = false).
  { destruct (split_lines_grow (split_lines (sl_pending s +:+ p)).2 (concat_all chunks))
      as (l & ls & Heq & Hl).
    { rewrite Forall_app, Forall_singleton in Hn. apply Hn. }
    rewrite <- (assoc_L (++)), Heq, Forall_app in Hshort. destruct Hshort as [_ Hshort].
    inversion Hshort; subst. apply bool_decide_eq_false. lia. }
  assert (Hp : sl_pending (after_write s p) = (split_lines (sl_pending s +:+ p)).2)
    by (unfold after_write; simpl; by rewrite Hover).
  destruct (IH (after_write s p)) as [IH1 IH2].
  { rewrite Hp. unfold short_lines. rewrite <- (assoc_L (++)), Forall_app in Hshort.
    destruct (split_lines (_ +:+ concat_all chunks)). apply Hshort. }
  { rewrite Hp. rewrite Forall_app, Forall_singleton in Hn. apply Hn. }
  rewrite IH1. rewrite Hp in *. unfold after_writes in IH2. rewrite IH2.
  destruct (split_lines (sl_pending s +:+ p)) as [ls rest]. simpl in *.
  rewrite Hover, app_nil_r, shown_app. done.
Qed.

Lemma done_logs s code w :
  ~ contains_byte LF (sl_pending s) ->
  exists now, logs (done_ duration s code) w tt
    ((String.append (sl_prefix s) <$> shown [sl_pending s]) ++ [end_line duration s code now]).
Proof.
  intros Hlf. unfold done_. rewrite TrimRight_CRLF by done.
  destruct (logs_line (sl_prefix s) (TrimRight (sl_pending s) CR) w) as (w1 & H1 & Hs1 & Hl1).
  destruct (now_ok w1) as (now & w2 & H2 & Hs2 & Hl2).
  destruct (log_ok (end_line duration s code now) w2) as (w3 & H3 & Hs3 & Hl3).
  exists now, w3. unfold mbind, E_bind. rewrite H1, H2, H3.
  split; [done|]. split; [congruence|]. rewrite Hl3, Hl2, Hl1. by rewrite <- (assoc_L (++)).
Qed.

Lemma shown_visible l : concat (visible <$> shown [l]) = visible l.
Proof.
  unfold shown, filterb. simpl. rewrite <- (visible_TrimRight l CR eol_CR).
  case_bool_decide as Hl; simpl; [by rewrite Hl|by rewrite app_nil_r].
Qed.

Lemma shown_no_lf l l' : ~ contains_byte LF l -> l' ∈ shown [l] -> ~ contains_byte LF l'.
Proof.
  intros Hl [Hin _]%elem_of_filterb. apply list_elem_of_singleton in Hin as ->.
  by intros ?%TrimRight_sub.
Qed.

(** What a list of writes leaves unchanged, and the bytes it counts. *)
Lemma after_writes_inv s chunks :
  ~ contains_byte LF (sl_pending s) -> sl_bytes s = Int.int64 (sl_bytes s) ->
  let s' := after_writes s chunks in
  ~ contains_byte LF (sl_pending s') /\ sl_prefix s' = sl_prefix s /\ sl_target s' = sl_target s /\
  sl_bytes s' = Int.int64 (sl_bytes s + Z.of_nat (String.length (concat_all chunks))).
Proof.
  simpl. revert s. induction chunks as [|p chunks IH]; intros s Hs Hint; simpl.
  { split_and!; [done..|]. by rewrite Z.add_0_r. }
  destruct (IH (after_write s p)) as (? & Hp & Ht & Hb);
    [apply after_write_ok|simpl; by autorewrite with go_rw|].
  split_and!; [done|exact Hp|exact Ht|].
  etrans; [exact Hb|]. rewrite concat_all_cons, length_sapp. simpl.
  autorewrite with go_rw. f_equal. lia.
Qed.

(** The recorder at the start of a session. *)
Definition fresh_log (target : string) (now : Time) : sessionLog :=
  {| sl_target := target; sl_prefix := "[honeypod exec] " +:+ target +:+ " | ";
     sl_start := now; sl_pending := ""; sl_bytes := 0 |}.

(** The lines of a whole session, the unfinished one included. *)
Definition session_lines (s : sessionLog) (chunks : list string) : list string :=
  all_lines s chunks ++ shown [sl_pending (after_writes s chunks)].

(** They are one-line entries that hold the whole text, and the lines of the
    text when none outgrows the buffer. *)
Definition faithful (lines : list string) (text : string) : Prop :=
  (forall l, l ∈ lines -> ~ contains_byte LF l) /\
  concat (visible <$> lines) = visible text /\
  (short_lines text -> lines = transcript text).

Lemma session_lines_faithful target now chunks :
  faithful (session_lines (fresh_log target now) chunks) (concat_all chunks).
Proof.
  pose proof (after_writes_inv (fresh_log target now) chunks (not_elem_of_nil _) eq_refl) as (Hlf & _).
  unfold session_lines. split_and!.
  - intros l [Hl|Hl]%elem_of_app; [by eapply all_lines_no_lf|by eapply shown_no_lf].
  - rewrite fmap_app, concat_app, shown_visible. apply (all_lines_visible (fresh_log target now) chunks).
  - intros Hshort. destruct (all_lines_short (fresh_log target now) chunks) as [-> ->];
      [done|apply not_elem_of_nil|].
    unfold transcript. simpl sl_pending. rewrite sapp_nil_l.
    destruct (split_lines (concat_all chunks)). simpl. by rewrite <- shown_app.
Qed.

(** The last entry of a session. *)
Definition ends_with (target : string) (code : Z) (text e : string) : Prop :=
  exists d, e = "[honeypod exec] session end " +:+ target +:+ " exit=" +:+ Itoa code +:+ " bytes="
    +:+ Itoa (Int.int64 (Z.of_nat (String.length text))) +:+ " duration=" +:+ d.

Lemma done_ends target now chunks code w :
  let s := after_writes (fresh_log target now) chunks in
  exists e, ends_with target code (concat_all chunks) e /\
    logs (done_ duration s code) w tt ((String.append (sl_prefix (fresh_log target now)) <$> shown [sl_pending s]) ++ [e]).
Proof.
  intros s. pose proof (after_writes_inv (fresh_log target now) chunks (not_elem_of_nil _) eq_refl)
    as (Hlf & Hpre & Htgt & Hbytes). fold s in Hlf, Hpre, Htgt, Hbytes.
  destruct (done_logs s code w Hlf) as (now' & Hd). exists (end_line duration s code now').
  rewrite <- Hpre. split; [|done]. unfold end_line. rewrite Htgt, Hbytes. by eexists.
Qed.

Lemma new_logs ns pod container tty command w :
  exists now, logs (newSessionLog is_print ns pod container tty command) w (fresh_log (ns +:+ "/" +:+ pod) now)
    [start_line is_print (ns +:+ "/" +:+ pod) container (if tty then "exec-tty" else "exec") (Join command " ")].
Proof.
  unfold newSessionLog. set (line := start_line _ _ _ _ _).
  destruct (log_ok line w) as (w1 & Hw1 & Hs1 & Hl1). destruct (now_ok w1) as (now & w2 & Hw2 & Hs2 & Hl2).
  exists now, w2. unfold mbind, E_bind. rewrite Hw1, Hw2. split_and!; [done|congruence..].
Qed.

(** C15: what an operator reads of a recorded session is what happened in it.
    Between its start and end lines the log holds lines that carry the
    session's prefix and no newline of their own, so output cannot forge an
    entry of another session; together they hold every byte the session wrote
    that is not a line end, in order, however the bytes were cut into writes
    and however long the lines are; and when no line exceeds the buffer they
    are exactly the non-empty lines of the output. The end line counts the
    bytes. *)
Theorem session_transcript ns pod container tty command chunks code w :
  exists w' lines e,
    session is_print duration ns pod container tty command chunks code w = (inr tt, w') /\
    let target := ns +:+ "/" +:+ pod in
    logged w' = logged w
      ++ [start_line is_print target container (if tty then "exec-tty" else "exec") (Join command " ")]
      ++ (String.append ("[honeypod exec] " +:+ target +:+ " | ") <$> lines) ++ [e] /\
    faithful lines (concat_all chunks) /\ ends_with target code (concat_all chunks) e.
Proof.
  unfold session. destruct (new_logs ns pod container tty command w) as (now & w1 & Hw1 & _ & Hl1).
  set (s0 := fresh_log (ns +:+ "/" +:+ pod) now) in *.
  destruct (writes_logs s0 chunks w1) as (w2 & Hw2 & _ & Hl2).
  destruct (done_ends (ns +:+ "/" +:+ pod) now chunks code w2) as (e & He & w3 & Hw3 & _ & Hl3).
  exists w3, (session_lines s0 chunks), e.
  split; [unfold mbind, E_bind; by rewrite Hw1, Hw2|]. split_and!; [|apply session_lines_faithful|done].
  unfold session_lines. rewrite Hl3, Hl2, Hl1, fmap_app, <- !(assoc_L (++)). done.
Qed.

(** C24: a write always ends, accepts everything it is given, and leaves no
    complete line and at most 8 KiB waiting, whatever was written: output
    without newlines cannot grow the recorder without bound. *)
Theorem Write_bounded s p w :
  exists s' w', Write s p w = (inr (Z.of_nat (String.length p), s'), w') /\
    String.length (sl_pending s') <= maxPendingLine /\ ~ contains_byte LF (sl_pending s').
Proof.
  destruct (Write_logs s p w) as (w' & Hw & _). exists (after_write s p), w'.
  destruct (after_write_ok s p). done.
Qed.
End Facts.

Module SessionDemo.
Import Script.

Definition chunks : list string := ["ls" +:+ CR; nl +:+ "etc"; nl +:+ nl +:+ "b"; "in"].

(** Four writes that cut lines apart: the log shows the three lines. *)
Lemma session_transcript_witness :
  exists w' lines,
    session (fun _ => true) (fun _ _ => "0s") "default" "web" "nginx" true ["sh"] chunks 0
      (start []) = (inr tt, w') /\ lines = ["ls"; "etc"; "bin"] /\
    take 3 (tail (logged w')) = (fun l => "[honeypod exec] default/web | " +:+ l) <$> lines.
Proof.
  destruct (session_transcript (fun _ => true) (fun _ _ => "0s") "default" "web" "nginx" true ["sh"]
    chunks 0 (start [])) as (w' & lines & e & Hrun & Hlog & (_ & _ & Hshort) & _).
  exists w', lines. split; [exact Hrun|].
  assert (Hl : lines = ["ls"; "etc"; "bin"]).
  { rewrite Hshort; [vm_compute; reflexivity|]. apply (bool_decide_eq_true_1 _). vm_compute. reflexivity. }
  split; [exact Hl|]. rewrite Hlog, Hl. vm_compute. reflexivity.
Defined.

Lemma Write_bounded_witness :
  exists s' w', Write {| sl_target := "default/web"; sl_prefix := "> "; sl_start := 0;
      sl_pending := "pass"; sl_bytes := 4 |} ("word" +:+ nl +:+ "x") (start []) = (inr (6%Z, s'), w') /\
    String.length (sl_pending s') <= maxPendingLine.
Proof.
  destruct (Write_bounded {| sl_target := "default/web"; sl_prefix := "> "; sl_start := 0;
      sl_pending := "pass"; sl_bytes := 4 |} ("word" +:+ nl +:+ "x") (start []))
    as (s' & w' & Hrun & Hlen & _).
  exists s', w'. split; [exact Hrun|exact Hlen].
Defined.
End SessionDemo.
