(* ===== verification/NetIP.v ===== *)
(** * [net.ParseIP], of the standard library

    The parser behind [net.ParseIP] ([netip.ParseAddr] without zones), byte
    by byte. An address is its sixteen bytes; an IPv4 address is the
    IPv4-mapped one, which is how [IP.Equal] compares the two forms. *)

From S2P Require Import Prelude GoStrings.
From Stdlib Require Import Ascii.
#[local] Open Scope string_scope.
#[local] Open Scope list_scope.

Module net.

Definition IP := list Z.

Definition digit (a : ascii) : option Z :=
  let b := byteZ a in if between 48 57 b then Some (b - 48)%Z else None.

Definition hexdigit (a : ascii) : option Z :=
  let b := byteZ a in
  if between 48 57 b then Some (b - 48)%Z
  else if between 97 102 b then Some (b - 97 + 10)%Z
  else if between 65 70 b then Some (b - 65 + 10)%Z
  else None.

(** The loop of [parseIPv4Fields]: the fields before the current one, its
    value and its number of digits. *)
Fixpoint ipv4_fields (s : list ascii) (done : list Z) (val : Z) (digLen : nat) : option (list Z) :=
  match s with
  | [] => if bool_decide (length done = 3) && bool_decide (0 < digLen) then Some (done ++ [val]) else None
  | c :: s' =>
      match digit c with
      | Some d =>
          if bool_decide (digLen = 1) && bool_decide (val = 0%Z) then None
          else let val' := (val * 10 + d)%Z in
               if bool_decide (255 < val')%Z then None else ipv4_fields s' done val' (S digLen)
      | None =>
          if bool_decide (c = "."%char) then
            if bool_decide (digLen = 0) || bool_decide (length done = 3) then None
            else ipv4_fields s' (done ++ [val]) 0 0
          else None
      end
  end.

Definition parseIPv4 (s : list ascii) : option (list Z) := ipv4_fields s [] 0 0.

(** One hexadecimal group: its value, its number of digits, what follows. *)
Fixpoint hex_group (s : list ascii) (acc : Z) (off : nat) : option (Z * nat * list ascii) :=
  match s with
  | [] => Some (acc, off, [])
  | c :: s' =>
      match hexdigit c with
      | None => Some (acc, off, s)
      | Some d => if bool_decide (3 < off) then None else hex_group s' (acc * 16 + d)%Z (S off)
      end
  end.

(** The loop of [parseIPv6]: the bytes so far, where the ellipsis was, and
    the rest of the text. [fuel] bounds the number of groups, eight. *)
Fixpoint ipv6_groups (fuel : nat) (s : list ascii) (ip : list Z) (ellipsis : option nat)
    : option (list Z * option nat * list ascii) :=
  match fuel with
  | O => Some (ip, ellipsis, s)
  | S fuel =>
      match hex_group s 0 0 with
      | None => None
      | Some (acc, off, rest) =>
          if bool_decide (off = 0) then None
          else
            if bool_decide (head rest = Some "."%char) then
              if bool_decide (ellipsis = None) && negb (bool_decide (length ip = 12)) then None
              else if bool_decide (16 < length ip + 4) then None
              else match parseIPv4 s with
                   | None => None
                   | Some v4 => Some (ip ++ v4, ellipsis, [])
                   end
            else
              let ip := ip ++ [(acc / 256)%Z; (acc mod 256)%Z] in
              match rest with
              | [] => Some (ip, ellipsis, [])
              | c :: rest =>
                  if negb (bool_decide (c = ":"%char)) then None
                  else match rest with
                       | [] => None
                       | c' :: rest' =>
                           if bool_decide (c' = ":"%char) then
                             match ellipsis with
                             | Some _ => None
                             | None =>
                                 match rest' with
                                 | [] => Some (ip, Some (length ip), [])
                                 | _ => ipv6_groups fuel rest' ip (Some (length ip))
                                 end
                             end
                           else ipv6_groups fuel rest ip ellipsis
                       end
              end
      end
  end.

(** After the loop: everything used, and the ellipsis expanded. *)
Definition ipv6_finish (ip : list Z) (ellipsis : option nat) (rest : list ascii) : option IP :=
  if negb (bool_decide (rest = [])) then None
  else match ellipsis with
       | None => if bool_decide (length ip = 16) then Some ip else None
       | Some e => if bool_decide (length ip < 16)
                   then Some (take e ip ++ replicate (16 - length ip) 0%Z ++ drop e ip) else None
       end.

Definition parseIPv6 (s : list ascii) : option IP :=
  let '(s, ellipsis) :=
    match s with
    | ":"%char :: ":"%char :: s' => (s', Some 0)
    | _ => (s, None)
    end in
  if bool_decide (ellipsis = Some 0) && bool_decide (s = []) then Some (replicate 16 0%Z)
  else '(ip, ellipsis, rest) ← ipv6_groups 8 s [] ellipsis; ipv6_finish ip ellipsis rest.

(** The first of ['.'], [':'] and ['%'] decides the family; a zone is refused. *)
Definition ParseIP (s : string) : option IP :=
  match List.find (fun c => bool_decide (c ∈ ["."; ":"; "%"]%char)) (chars s) with
  | Some "."%char => (fun v4 => replicate 10 0%Z ++ [255; 255]%Z ++ v4) <$> parseIPv4 (chars s)
  | Some ":"%char => if bool_decide ("%"%char ∈ chars s) then None else parseIPv6 (chars s)
  | _ => None
  end.

Example parse_v4 : ParseIP "10.96.0.1" = Some [0;0;0;0;0;0;0;0;0;0;255;255;10;96;0;1]%Z.
Proof. reflexivity. Qed.
Example parse_v6 : ParseIP "fd00::1:2" = Some [253;0;0;0;0;0;0;0;0;0;0;0;0;1;0;2]%Z.
Proof. reflexivity. Qed.
Example parse_mapped : ParseIP "::ffff:10.96.0.1" = ParseIP "10.96.0.1".
Proof. reflexivity. Qed.
Example parse_rejects :
  ParseIP <$> ["None"; ""; "localhost"; "web.default.svc"; "1.2.3"; "1.2.3.256"; "01.2.3.4"; "1::2::3"; "fe80::1%eth0"; ":::"; "1:"]
  = replicate 11 None.
Proof. reflexivity. Qed.

End net.
