(* ===== verification/Base64.v ===== *)
(** * [encoding/base64], of the standard library: the two encoders in use *)

From S2P Require Import Prelude GoStrings.
From Stdlib Require Import Ascii.
#[local] Open Scope string_scope.
#[local] Open Scope list_scope.

Module base64.

Definition common : list ascii :=
  chars "ABCDEFGHIJKLMNOPQRSTUVWXYZabcdefghijklmnopqrstuvwxyz0123456789".
Definition std_alphabet : list ascii := common ++ chars "+/".
Definition url_alphabet : list ascii := common ++ chars "-_".

Definition sextet (alphabet : list ascii) (z : Z) : ascii :=
  nth (Z.to_nat (z mod 64)) alphabet "A"%char.

(** Three bytes become four characters; what is left over two or three, and
    padding when the encoding has it. *)
Fixpoint encode (alphabet : list ascii) (pad : list ascii) (l : list Z) : list ascii :=
  match l with
  | [] => []
  | [a] => let v := (a * 16)%Z in
           [sextet alphabet (Z.shiftr v 6); sextet alphabet v] ++ pad ++ pad
  | [a; b] => let v := ((a * 256 + b) * 4)%Z in
              [sextet alphabet (Z.shiftr v 12); sextet alphabet (Z.shiftr v 6); sextet alphabet v] ++ pad
  | a :: b :: c :: rest =>
      let v := ((a * 256 + b) * 256 + c)%Z in
      [sextet alphabet (Z.shiftr v 18); sextet alphabet (Z.shiftr v 12);
       sextet alphabet (Z.shiftr v 6); sextet alphabet v] ++ encode alphabet pad rest
  end.

Definition bytes (s : string) : list Z := byteZ <$> chars s.

(** [base64.StdEncoding.EncodeToString] and
    [base64.RawURLEncoding.EncodeToString]. *)
Definition StdEncoding (s : string) : string :=
  of_chars (encode std_alphabet ["="%char] (bytes s)).
Definition RawURLEncoding (s : string) : string := of_chars (encode url_alphabet [] (bytes s)).

Example std_examples :
  StdEncoding <$> [""; "f"; "fo"; "foo"; "foob"] = [""; "Zg=="; "Zm8="; "Zm9v"; "Zm9vYg=="].
Proof. reflexivity. Qed.
Example url_examples : RawURLEncoding <$> ["fo"; of_chars [Zbyte 255; Zbyte 254; Zbyte 253]] = ["Zm8"; "__79"].
Proof. reflexivity. Qed.

Lemma sextet_in alphabet z : length alphabet = 64 -> sextet alphabet z ∈ alphabet.
Proof.
  intros Hl. unfold sextet. apply list_elem_of_In, nth_In. rewrite Hl.
  pose proof (Z.mod_pos_bound z 64). lia.
Qed.

(** Induction three elements at a time. *)
Lemma list_ind3 {A} (P : list A -> Prop) :
  P [] -> (forall a, P [a]) -> (forall a b, P [a; b]) ->
  (forall a b c l, P l -> P (a :: b :: c :: l)) -> forall l, P l.
Proof.
  intros H0 H1 H2 H3. fix IH 1. intros [|a [|b [|c l]]]; [done|apply H1|apply H2|]. apply H3, IH.
Qed.

Lemma encode_alphabet alphabet l :
  length alphabet = 64 -> Forall (fun a => a ∈ alphabet) (encode alphabet [] l).
Proof.
  intros Hl. induction l as [|a|a b|a b c l IH] using list_ind3; cbn [encode].
  - constructor.
  - repeat constructor; by apply sextet_in.
  - repeat constructor; by apply sextet_in.
  - apply Forall_app. split; [repeat constructor; by apply sextet_in|done].
Qed.

(** Unpadded, [n] bytes take the least number of characters that holds them. *)
Lemma length_encode alphabet l : length (encode alphabet [] l) = (4 * length l + 2) / 3.
Proof.
  induction l as [|a|a b|a b c l IH] using list_ind3; try done. cbn [encode].
  rewrite length_app, IH. cbn [length].
  replace (4 * S (S (S (length l))) + 2) with (4 * 3 + (4 * length l + 2)) by lia.
  rewrite Nat.div_add_l by lia. reflexivity.
Qed.

Lemma length_RawURLEncoding s :
  String.length (RawURLEncoding s) = (4 * String.length s + 2) / 3.
Proof.
  unfold RawURLEncoding. rewrite <- length_chars, chars_of_chars, length_encode.
  unfold bytes. by rewrite length_fmap, length_chars.
Qed.

Lemma RawURLEncoding_alphabet s : Forall (fun a => a ∈ url_alphabet) (chars (RawURLEncoding s)).
Proof. unfold RawURLEncoding. rewrite chars_of_chars. by apply encode_alphabet. Qed.

End base64.
