(* ===== verification/Certs.v ===== *)
(** * internal/certs, and the certificates of the webhook

    The CA, the serving certificates and the ServiceAccount keys of
    internal/certs/certs.go, and internal/controller/webhookcert.go. The
    cryptographic packages are the class [Crypto], with what the code relies
    on as [CryptoLaws]: PEM and key encodings round-trip, and a certificate
    that was created parses back to its template, its validity cut to whole
    seconds, signed by the key given. *)

From S2P Require Import Prelude GoStrings KubeTypes ApiTypes Kube Server Host NetIP.
#[local] Open Scope string_scope.
#[local] Open Scope list_scope.

(** The fields of [x509.Certificate] the code sets or reads. *)
Record Certificate (PublicKey : Type) := mkCertificate {
  x_SerialNumber : Z; x_CommonName : string; x_NotBefore : Time; x_NotAfter : Time;
  x_KeyUsage : list string; x_ExtKeyUsage : list string; x_IsCA : bool;
  x_DNSNames : list string; x_IPAddresses : list net.IP; x_PublicKey : option PublicKey }.
Arguments mkCertificate {PublicKey}.
Arguments x_SerialNumber {PublicKey}.
Arguments x_CommonName {PublicKey}.
Arguments x_NotBefore {PublicKey}.
Arguments x_NotAfter {PublicKey}.
Arguments x_KeyUsage {PublicKey}.
Arguments x_ExtKeyUsage {PublicKey}.
Arguments x_IsCA {PublicKey}.
Arguments x_DNSNames {PublicKey}.
Arguments x_IPAddresses {PublicKey}.
Arguments x_PublicKey {PublicKey}.

(** [crypto/rand], [crypto/ecdsa], [crypto/x509] and [encoding/pem]. *)
Class Crypto (W : Type) := {
  PrivateKey : Type; PublicKey : Type;
  Public : PrivateKey -> PublicKey;
  rand_Read : nat -> E W string;
  rand_Int : Z -> E W Z;
  ecdsa_GenerateKey : E W PrivateKey;
  x509_CreateCertificate :
    Certificate PublicKey -> Certificate PublicKey -> PublicKey -> PrivateKey -> E W string;
  x509_ParseCertificate : string -> error + Certificate PublicKey;
  x509_MarshalECPrivateKey : PrivateKey -> error + string;
  x509_ParseECPrivateKey : string -> error + PrivateKey;
  x509_MarshalPKIXPublicKey : PublicKey -> error + string;
  pem_EncodeToMemory : string -> string -> string;
  pem_Decode : string -> option string;
  (** The DER bytes carry a signature that verifies under the key. *)
  signed_by : string -> PublicKey -> Prop }.

(** What the DER encoding of a time keeps: its whole seconds. *)
Definition x509_time (t : Time) : Time := (t / 1000000000 * 1000000000)%Z.

Class CryptoLaws (W : Type) `{Crypto W} : Prop := {
  rand_read_length : forall n w b w', rand_Read n w = (inr b, w') -> String.length b = n;
  pem_decode_encode : forall t b, pem_Decode (pem_EncodeToMemory t b) = Some b;
  pem_encode_nonempty : forall t b, pem_EncodeToMemory t b <> "";
  parse_marshal_key : forall k b, x509_MarshalECPrivateKey k = inr b -> x509_ParseECPrivateKey b = inr k;
  create_parses : forall tmpl parent pub priv w der w',
    x509_CreateCertificate tmpl parent pub priv w = (inr der, w') ->
    signed_by der (Public priv) /\
    exists c, x509_ParseCertificate der = inr c /\
      x_CommonName c = x_CommonName tmpl /\ x_NotBefore c = x509_time (x_NotBefore tmpl) /\
      x_NotAfter c = x509_time (x_NotAfter tmpl) /\ x_IsCA c = x_IsCA tmpl /\
      x_DNSNames c = x_DNSNames tmpl /\ x_IPAddresses c = x_IPAddresses tmpl /\
      x_PublicKey c = Some pub }.

(** Randomness and key generation do not touch a view. *)
Class CryptoLeaves {W X : Type} `{Crypto W} (view : W -> X) : Prop := {
  rand_read_keeps : forall n, keeps view (rand_Read n);
  rand_int_keeps : forall n, keeps view (rand_Int n);
  genkey_keeps : keeps view ecdsa_GenerateKey;
  create_keeps : forall a b c d, keeps view (x509_CreateCertificate a b c d) }.

#[export] Hint Resolve rand_read_keeps rand_int_keeps genkey_keeps create_keeps : keeps.

(** [src/internal/certs/certs.go:19-19, validity], in nanoseconds. *)
Definition hour : Z := 3600 * 1000000000.
Definition validity : Z := 10 * 365 * 24 * hour.

Section Certs.
Context {W : Type} `{Host W} `{Crypto W}.

(** [src/internal/certs/certs.go:21-51, GenerateCA] *)
Definition GenerateCA (commonName : string) : E W (string * string) :=
  key ← ecdsa_GenerateKey;
  serial ← rand_Int (Z.shiftl 1 128);
  t1 ← time_Now;
  t2 ← time_Now;
  let tmpl := mkCertificate serial commonName (t1 - hour)%Z (t2 + validity)%Z
    ["CertSign"; "CRLSign"; "DigitalSignature"] [] true [] [] None in
  der ← x509_CreateCertificate tmpl tmpl (Public key) key;
  let caCertPEM := pem_EncodeToMemory "CERTIFICATE" der in
  keyDER ← lift (x509_MarshalECPrivateKey key);
  mret (caCertPEM, pem_EncodeToMemory "EC PRIVATE KEY" keyDER).

(** The loop that tells addresses from names.
    [src/internal/certs/certs.go:82-90, IssueServerCert] *)
Fixpoint split_sans (dnsNames : list string) : list net.IP * list string :=
  match dnsNames with
  | [] => ([], [])
  | n :: rest =>
      let '(ips, names) := split_sans rest in
      match net.ParseIP n with
      | Some ip => (ip :: ips, names)
      | None => (ips, n :: names)
      end
  end.

(** [dnsNames[0]] panics on an empty list, which no caller passes; the panic
    is the error [index out of range].
    [src/internal/certs/certs.go:53-113, IssueServerCert] *)
Definition IssueServerCert (caCertPEM caKeyPEM : string) (dnsNames : list string)
    : E W (string * string) :=
  match pem_Decode caCertPEM with
  | None => throw (Errorf "invalid CA cert PEM")
  | Some caCertBlock =>
      caCert ← lift (x509_ParseCertificate caCertBlock);
      match pem_Decode caKeyPEM with
      | None => throw (Errorf "invalid CA key PEM")
      | Some caKeyBlock =>
          caKey ← lift (x509_ParseECPrivateKey caKeyBlock);
          leafKey ← ecdsa_GenerateKey;
          serial ← rand_Int (Z.shiftl 1 128);
          let '(ips, names) := split_sans dnsNames in
          match dnsNames with
          | [] => throw (Errorf "index out of range")
          | cn :: _ =>
              t1 ← time_Now;
              t2 ← time_Now;
              let tmpl := mkCertificate serial cn (t1 - hour)%Z (t2 + validity)%Z
                ["DigitalSignature"; "KeyEncipherment"] ["ServerAuth"] false names ips None in
              der ← x509_CreateCertificate tmpl caCert (Public leafKey) caKey;
              let certPEM := pem_EncodeToMemory "CERTIFICATE" der in
              keyDER ← lift (x509_MarshalECPrivateKey leafKey);
              mret (certPEM, pem_EncodeToMemory "EC PRIVATE KEY" keyDER)
          end
      end
  end.

(** [src/internal/certs/certs.go:115-143, GenerateServiceAccountSigningKey] *)
Definition GenerateServiceAccountSigningKey : E W (string * string) :=
  key ← ecdsa_GenerateKey;
  keyDER ← lift (x509_MarshalECPrivateKey key);
  let privPEM := pem_EncodeToMemory "EC PRIVATE KEY" keyDER in
  pubDER ← lift (x509_MarshalPKIXPublicKey (Public key));
  mret (pem_EncodeToMemory "PUBLIC KEY" pubDER, privPEM).

(** ** What an issued certificate is good for *)

(** The PEM holds a certificate. *)
Definition cert_of (p : string) : option (Certificate PublicKey) :=
  b ← pem_Decode p;
  match x509_ParseCertificate b with inr c => Some c | inl _ => None end.

Definition key_in (p : string) : option PrivateKey :=
  b ← pem_Decode p;
  match x509_ParseECPrivateKey b with inr k => Some k | inl _ => None end.

(** A CA whose key and certificate belong together. *)
Definition is_ca (caCertPEM caKeyPEM : string) : Prop :=
  exists c k, cert_of caCertPEM = Some c /\ key_in caKeyPEM = Some k /\
    x_PublicKey c = Some (Public k).

(** The serving pair is usable: the key is the certificate's, the CA's key
    signed it, and it covers every one of the names, addresses as addresses. *)
Definition serves_names (caKeyPEM certPEM keyPEM : string) (names : list string) : Prop :=
  exists c k ca der, cert_of certPEM = Some c /\ key_in keyPEM = Some k /\
    x_PublicKey c = Some (Public k) /\ key_in caKeyPEM = Some ca /\
    pem_Decode certPEM = Some der /\ signed_by der (Public ca) /\
    forall n, n ∈ names ->
      match net.ParseIP n with Some ip => ip ∈ x_IPAddresses c | None => n ∈ x_DNSNames c end.

Context `{!CryptoLaws W}.

Lemma GenerateCA_inv cn w cert key w' :
  GenerateCA cn w = (inr (cert, key), w') ->
  is_ca cert key /\ cert <> "" /\ key <> "".
Proof.
  unfold GenerateCA. intros (k & w1 & Hk & He)%E_bind_inr.
  apply E_bind_inr in He as (serial & w2 & _ & He).
  apply E_bind_inr in He as (t1 & w3 & _ & He). apply E_bind_inr in He as (t2 & w4 & _ & He).
  apply E_bind_inr in He as (der & w5 & Hc & He).
  apply E_bind_inr in He as (kder & w6 & Hm & He). injection Hm as Hm <-. injection He as <- <- <-.
  apply create_parses in Hc as (_ & c & Hp & _ & _ & _ & _ & _ & _ & Hpub).
  split_and!; [|apply pem_encode_nonempty..].
  exists c, k. unfold cert_of, key_in. rewrite !pem_decode_encode. simpl.
  rewrite Hp, (parse_marshal_key _ _ Hm). done.
Qed.

Lemma split_sans_spec l ips names n :
  split_sans l = (ips, names) -> n ∈ l ->
  match net.ParseIP n with Some ip => ip ∈ ips | None => n ∈ names end.
Proof.
  revert ips names. induction l as [|m l IH]; intros ips names Hs Hin; [by apply not_elem_of_nil in Hin|].
  simpl in Hs. destruct (split_sans l) as [ips' names'] eqn:E.
  destruct (net.ParseIP m) as [ip|] eqn:Hm; injection Hs as <- <-;
    apply elem_of_cons in Hin as [->|Hin];
    try (rewrite Hm; apply list_elem_of_here);
    specialize (IH _ _ eq_refl Hin); destruct (net.ParseIP n); try (by right); done.
Qed.

Lemma IssueServerCert_inv caCert caKey names w cert key w' :
  IssueServerCert caCert caKey names w = (inr (cert, key), w') ->
  serves_names caKey cert key names /\ cert <> "".
Proof.
  unfold IssueServerCert, serves_names, cert_of, key_in.
  destruct (pem_Decode caCert) as [cb|]; [|done].
  intros (ca & w1 & _ & He)%E_bind_inr.
  destruct (pem_Decode caKey) as [kb|]; [|done]. simpl.
  apply E_bind_inr in He as (k & w2 & Hk & He). injection Hk as Hk <-.
  apply E_bind_inr in He as (lk & w3 & _ & He). apply E_bind_inr in He as (serial & w4 & _ & He).
  destruct (split_sans names) as [ips dns] eqn:Hs. destruct names as [|cn rest] eqn:Hn; [done|].
  apply E_bind_inr in He as (t1 & w5 & _ & He). apply E_bind_inr in He as (t2 & w6 & _ & He).
  apply E_bind_inr in He as (der & w7 & Hc & He).
  apply E_bind_inr in He as (kder & w8 & Hm & He). injection Hm as Hm <-. injection He as <- <- <-.
  apply create_parses in Hc as (Hsig & c & Hp & _ & _ & _ & _ & Hdns & Hips & Hpub).
  split; [|apply pem_encode_nonempty]. exists c, lk, k, der. rewrite !pem_decode_encode. simpl.
  rewrite Hp, (parse_marshal_key _ _ Hm), Hk. split_and!; try done.
  intros n Hin. rewrite Hdns, Hips. simpl. by eapply split_sans_spec.
Qed.

(** A certificate whose issue succeeded, from its own CA. *)
Lemma GenerateCA_Issue cn names w1 caCert caKey w2 w3 cert key w4 :
  GenerateCA cn w1 = (inr (caCert, caKey), w2) ->
  IssueServerCert caCert caKey names w3 = (inr (cert, key), w4) ->
  is_ca caCert caKey /\ serves_names caKey cert key names.
Proof.
  intros (? & _ & _)%GenerateCA_inv [? _]%IssueServerCert_inv. done.
Qed.
End Certs.

Section CertsKeep.
Context {W X : Type} `{Host W} `{Crypto W} (view : W -> X).
Context `{!CryptoLeaves view} (now_keeps : keeps view time_Now).

Lemma GenerateCA_keeps cn : keeps view (GenerateCA cn).
Proof using All. unfold GenerateCA. keep. Qed.

Lemma IssueServerCert_keeps a b l : keeps view (IssueServerCert a b l).
Proof using All. unfold IssueServerCert. keep. Qed.

Lemma GenerateServiceAccountSigningKey_keeps : keeps view GenerateServiceAccountSigningKey.
Proof using All. unfold GenerateServiceAccountSigningKey. keep. Qed.
End CertsKeep.
