(* ===== verification/WebhookCert.v ===== *)
(** * The join webhook's serving certificate and its CA bundle

    internal/controller/webhookcert.go keeps one serving certificate in a
    Secret; internal/controller/webhookca_controller.go keeps the webhook
    configuration's CA bundle equal to its CA. *)

From S2P Require Import Prelude GoStrings KubeTypes ApiTypes Kube Server Host NetIP Certs.
#[local] Open Scope string_scope.
#[local] Open Scope list_scope.

Section Ensure.
Context {W : Type} `{Host W} `{Crypto W} (secrets : Client W Secret).
(** [tls.Certificate] and [tls.X509KeyPair]. *)
Context {TLS : Type} (X509KeyPair : string -> string -> error + TLS).

(** [src/internal/controller/webhookcert.go:17-31, generateWebhookServingCert] *)
Definition generateWebhookServingCert (dnsNames : list string) : E W (string * string * string) :=
  '(caCertPEM, caKeyPEM) ← wrap_err "generating webhook CA" (GenerateCA "kubernetes");
  '(leafCertPEM, leafKeyPEM) ← wrap_err "issuing webhook serving cert"
    (IssueServerCert caCertPEM caKeyPEM dnsNames);
  mret (leafCertPEM, leafKeyPEM, caCertPEM).

(** The closure of [EnsureWebhookServingCert].
    [src/internal/controller/webhookcert.go:45-55, loadStored] *)
Definition loadStored (key : NamespacedName) : E W (TLS * string) :=
  secret ← Get secrets key;
  tlsCert ← wrap_err "parsing stored webhook cert"
    (lift (X509KeyPair (sec_get secret "tls.crt") (sec_get secret "tls.key")));
  mret (tlsCert, sec_get secret "ca.crt").

Definition webhook_secret (namespace secretName leafCert leafKey caCert : string) : Secret :=
  {| sec_Meta := object_meta secretName namespace ∅; sec_Type := "";
     sec_Data := {[ "tls.crt" := leafCert; "tls.key" := leafKey; "ca.crt" := caCert ]} |}.

(** [src/internal/controller/webhookcert.go:33-93, EnsureWebhookServingCert] *)
Definition EnsureWebhookServingCert (namespace secretName : string) (dnsNames : list string)
    : E W (TLS * string) :=
  let key := NN namespace secretName in
  r ← try_ (loadStored key);
  match r with
  | inr res => mret res
  | inl getErr =>
      if negb (IsNotFound getErr) then throw (wrapf "getting webhook cert secret" getErr)
      else
        '(leafCertPEM, leafKeyPEM, caCertPEM) ← generateWebhookServingCert dnsNames;
        tlsCert ← wrap_err "building webhook tls.Certificate" (lift (X509KeyPair leafCertPEM leafKeyPEM));
        c ← try_ (Create secrets (webhook_secret namespace secretName leafCertPEM leafKeyPEM caCertPEM));
        match c with
        | inr _ => mret (tlsCert, caCertPEM)
        | inl err => if negb (IsAlreadyExists err)
                     then throw (wrapf "storing webhook cert secret" err)
                     else loadStored key
        end
  end.

(** What the Secret in the cluster serves with. *)
Definition stored_pair (s : Secret) (res : TLS * string) : Prop :=
  X509KeyPair (sec_get s "tls.crt") (sec_get s "tls.key") = inr res.1 /\ sec_get s "ca.crt" = res.2.

Context (view : W -> gmap NamespacedName Secret) `{!Serves view secret_body secrets}.

Lemma loadStored_inv key w res w' :
  loadStored key w = (inr res, w') ->
  view w' = view w /\ exists s, view w !! key = Some s /\ stored_pair s res.
Proof.
  unfold loadStored. intros (s & w1 & Hg & He)%E_bind_inr. apply (serves_get view _) in Hg as [Hv Hs].
  apply E_bind_inr in He as (c & w2 & Hx & He). injection He as <- <-.
  unfold wrap_err, lift in Hx. destruct (X509KeyPair _ _) as [e|c'] eqn:Hp; [done|].
  injection Hx as -> <-. split; [done|]. exists s. by split_and!.
Qed.

Context `{!CryptoLaws W, !CryptoLeaves view} (now_keeps : keeps view time_Now).

(** A freshly generated pair for the names, under a CA of its own. *)
Definition fresh_pair (dnsNames : list string) (s : Secret) : Prop :=
  exists caKey, is_ca (sec_get s "ca.crt") caKey /\
    serves_names caKey (sec_get s "tls.crt") (sec_get s "tls.key") dnsNames.

Lemma generateWebhookServingCert_inv dnsNames w leaf key ca w' :
  generateWebhookServingCert dnsNames w = (inr (leaf, key, ca), w') ->
  exists caKey, is_ca ca caKey /\ serves_names caKey leaf key dnsNames.
Proof using All.
  unfold generateWebhookServingCert. intros ([ca' caKey] & w1 & Hca & He)%E_bind_inr.
  apply E_bind_inr in He as ([leaf' key'] & w2 & Hi & He). injection He as <- <- <- <-.
  unfold wrap_err in Hca, Hi.
  destruct (GenerateCA "kubernetes" w) as [[]] eqn:Hca'; [done|]. injection Hca as -> <-.
  destruct (IssueServerCert ca' caKey dnsNames _) as [[]] eqn:Hi'; [done|]. injection Hi as -> <-.
  exists caKey. by eapply GenerateCA_Issue.
Qed.

Lemma generateWebhookServingCert_keeps dnsNames : keeps view (generateWebhookServingCert dnsNames).
Proof using All.
  unfold generateWebhookServingCert.
  pose proof (GenerateCA_keeps view now_keeps). pose proof (IssueServerCert_keeps view now_keeps). keep.
Qed.

Lemma webhook_secret_created dnsNames ns name leaf key ca cert caKey s :
  X509KeyPair leaf key = inr cert -> is_ca ca caKey -> serves_names caKey leaf key dnsNames ->
  sec_Data s = sec_Data (webhook_secret ns name leaf key ca) ->
  stored_pair s (cert, ca) /\ fresh_pair dnsNames s.
Proof.
  intros Hp Hca Hs Hd. unfold stored_pair, fresh_pair, sec_get. rewrite Hd. split.
  - split; [exact Hp|reflexivity].
  - exists caKey. split; [exact Hca|exact Hs].
Qed.

(** Whatever it returns, the Secret is the only object written, and what was
    written is a fresh pair. *)
Lemma Ensure_writes ns name dnsNames w r w' :
  EnsureWebhookServingCert ns name dnsNames w = (r, w') ->
  view w' = view w \/ exists s, view w' = <[NN ns name := s]> (view w) /\ fresh_pair dnsNames s.
Proof using All.
  assert (Hl : keeps view (loadStored (NN ns name))).
  { unfold loadStored. keep. intros w0. destruct (Get secrets (NN ns name) w0) eqn:Hg.
    by apply (serves_get view _) in Hg as [? _]. }
  unfold EnsureWebhookServingCert. unfold mbind at 1, E_bind at 1, try_. pose proof (Hl w) as Hw.
  destruct (loadStored (NN ns name) w) as [[getErr|res] w1]; simpl in Hw; [|intros [= <- <-]; by left].
  destruct (IsNotFound getErr); cbn [negb]; [|intros [= <- <-]; by left].
  unfold mbind at 1, E_bind at 1. pose proof (generateWebhookServingCert_keeps dnsNames w1) as Hk.
  destruct (generateWebhookServingCert dnsNames w1) as [[e|[[leaf key] ca]] w2] eqn:Hgen; simpl in Hk.
  { intros [= <- <-]. left. congruence. }
  apply generateWebhookServingCert_inv in Hgen as (caKey & Hca & Hs).
  unfold mbind at 1, E_bind at 1, wrap_err, lift.
  destruct (X509KeyPair leaf key); [intros [= <- <-]; left; congruence|].
  unfold mbind, E_bind. destruct (Create secrets _ w2) as [cr w3] eqn:Hc.
  assert (Hv : view w3 = view w \/ exists s, view w3 = <[NN ns name := s]> (view w) /\ fresh_pair dnsNames s).
  { apply (serves_create view _) in Hc.
    assert (Hmade : forall s, created view secret_body (webhook_secret ns name leaf key ca) s w2 w3 ->
      exists s, view w3 = <[NN ns name := s]> (view w) /\ fresh_pair dnsNames s).
    { intros s (_ & (_ & [_ Hd] & _) & Hview). exists s. rewrite Hview, Hk, Hw. split; [done|].
      exists caKey. unfold sec_get. by rewrite Hd. }
    destruct cr as [e|s]; [destruct Hc as [Hc|[s Hc]]; [by left; congruence|]|]; right; by eapply Hmade. }
  destruct cr as [e|s]; [|intros [= <- <-]; exact Hv].
  destruct (IsAlreadyExists e); cbn [negb]; intros Hr.
  - pose proof (Hl w3) as Hw3. by rewrite Hr in Hw3; simpl in Hw3; rewrite Hw3.
  - injection Hr as <- <-. exact Hv.
Qed.

(** The webhook serves with what the cluster stores. Whatever
    [EnsureWebhookServingCert] had to do (reuse the Secret, generate and
    create it, or find at creation that it is there after all), the key pair
    and the CA it returns are those of the Secret stored when it returns; the
    CA published as the webhook's bundle is therefore the one behind the
    certificate presented. That Secret is the one stored before, or a fresh
    one whose certificate is signed by its CA and covers every name asked
    for. *)
Theorem EnsureWebhookServingCert_stored ns name dnsNames w res w' :
  EnsureWebhookServingCert ns name dnsNames w = (inr res, w') ->
  exists s, view w' !! NN ns name = Some s /\ stored_pair s res /\
    (view w !! NN ns name = Some s \/ fresh_pair dnsNames s).
Proof using All.
  unfold EnsureWebhookServingCert. intros (r & w1 & Hr & He)%E_bind_inr.
  unfold try_ in Hr. destruct (loadStored (NN ns name) w) as [r' w1'] eqn:Hl. injection Hr as -> ->.
  destruct r as [getErr|res'].
  2:{ injection He as -> ->. apply loadStored_inv in Hl as [Hv (s & Hs & Hp)].
      exists s. rewrite Hv. eauto. }
  destruct (IsNotFound getErr); [|done]. simpl in He.
  assert (Hv1 : view w1 = view w).
  { assert (Hk : keeps view (loadStored (NN ns name))).
    { unfold loadStored. keep. intros w0. simpl. destruct (Get secrets (NN ns name) w0) eqn:Hg.
      by apply (serves_get view _) in Hg as [? _]. }
    specialize (Hk w). by rewrite Hl in Hk. }
  apply E_bind_inr in He as ([[leaf key] ca] & w2 & Hgen & He).
  assert (Hv2 : view w2 = view w1).
  { pose proof (generateWebhookServingCert_keeps dnsNames w1) as Hk. by rewrite Hgen in Hk. }
  apply generateWebhookServingCert_inv in Hgen as (caKey & Hca & Hsrv).
  apply E_bind_inr in He as (cert & w3 & Hx & He).
  unfold wrap_err, lift in Hx. destruct (X509KeyPair leaf key) as [e|c] eqn:Hp; [done|].
  injection Hx as -> <-. apply E_bind_inr in He as (cr & w4 & Hcr & He). unfold try_ in Hcr.
  destruct (Create secrets _ w2) as [cr' w4'] eqn:Hc. injection Hcr as -> ->.
  apply (serves_create view _) in Hc. destruct cr as [err|s'].
  - destruct (IsAlreadyExists err); [|done]. simpl in He.
    apply loadStored_inv in He as [Hv (s & Hs & Hpair)]. exists s. rewrite Hv.
    split_and!; [done|done|]. destruct Hc as [Hc|(s' & _ & (_ & [_ Hd] & _) & Hc)].
    + left. by rewrite <- Hv1, <- Hv2, <- Hc.
    + right. rewrite Hc in Hs. rewrite (lookup_insert_eq _ (NN ns name)) in Hs. injection Hs as <-.
      by eapply webhook_secret_created.
  - injection He as <- <-. destruct Hc as (_ & (_ & [_ Hd] & _) & Hview).
    exists s'. rewrite Hview. split; [apply (lookup_insert_eq _ (NN ns name))|].
    eapply webhook_secret_created in Hd as [? ?]; eauto.
Qed.
End Ensure.

(** ** The CA bundle *)

(** The fields of [admissionregistrationv1.MutatingWebhookConfiguration] in use. *)
Record MutatingWebhook := { wh_Name : string; wh_CABundle : string }.
Record MutatingWebhookConfiguration := {
  mwc_Meta : ObjectMeta; mwc_Webhooks : list MutatingWebhook }.

#[global] Instance mwc_object : Object MutatingWebhookConfiguration := {|
  meta := mwc_Meta; with_meta c m := {| mwc_Meta := m; mwc_Webhooks := mwc_Webhooks c |} |}.
#[global] Instance mwc_object_laws : ObjectLaws MutatingWebhookConfiguration.
Proof. object_laws. Qed.

Definition mwc_body (_ : option MutatingWebhookConfiguration) (c c' : MutatingWebhookConfiguration) : Prop :=
  mwc_Webhooks c' = mwc_Webhooks c.

Section CABundle.
Context {W : Type} (configs : Client W MutatingWebhookConfiguration).
Context (Info : Z -> string -> list (string * string) -> E W unit).

(** [src/internal/controller/webhookca_controller.go:15-29, WebhookCABundleReconciler] *)
Record WebhookCABundleReconciler := { wr_ConfigName : string; wr_CABundle : string }.

(** The loop over the webhooks, with [drift]. *)
Definition patch_bundle (ca : string) (l : list MutatingWebhook) : list MutatingWebhook * bool :=
  ((fun wh => if wh_CABundle wh !=? ca then {| wh_Name := wh_Name wh; wh_CABundle := ca |} else wh) <$> l,
   existsb (fun wh => wh_CABundle wh !=? ca) l).

(** [src/internal/controller/webhookca_controller.go:31-55, Reconcile] *)
Definition WebhookCABundle_Reconcile (r : WebhookCABundleReconciler) (req : NamespacedName) : E W unit :=
  if nn_Name req !=? wr_ConfigName r then mret tt
  else
    g ← try_ (Get configs (NN "" (nn_Name req)));
    match g with
    | inl err => if IsNotFound err then mret tt else throw err
    | inr cfg =>
        let '(webhooks, drift) := patch_bundle (wr_CABundle r) (mwc_Webhooks cfg) in
        if negb drift then mret tt
        else
          _ ← Update configs {| mwc_Meta := mwc_Meta cfg; mwc_Webhooks := webhooks |};
          Info 0%Z "re-patched drifted join-webhook CA bundle"
            [("mutatingWebhookConfiguration", nn_Name req)]
    end.

Lemma patch_bundle_spec ca l :
  Forall (fun wh => wh_CABundle wh = ca) (patch_bundle ca l).1 /\
  wh_Name <$> (patch_bundle ca l).1 = wh_Name <$> l /\
  ((patch_bundle ca l).2 = false -> (patch_bundle ca l).1 = l).
Proof.
  unfold patch_bundle. simpl. split_and!.
  - apply Forall_fmap, Forall_forall. intros wh _. simpl. by case_bool_decide.
  - rewrite <- list_fmap_compose. apply list_fmap_ext. intros i wh _. simpl. by case_bool_decide.
  - intros Hf. rewrite existsb_false in Hf. rewrite <- (list_fmap_id l) at 2. apply list_fmap_ext.
    intros i wh Hi. rewrite Hf; [done|]. by eapply list_elem_of_lookup_2.
Qed.

Lemma patch_bundle_drift ca l :
  (patch_bundle ca l).2 = negb (bool_decide (Forall (fun wh => wh_CABundle wh = ca) l)).
Proof.
  unfold patch_bundle. simpl. case_bool_decide as Hf; simpl.
  - apply existsb_false. intros wh Hwh. rewrite Forall_forall in Hf.
    by rewrite bool_decide_eq_true_2 by (by apply Hf).
  - apply not_false_iff_true. intros Hx. apply Hf, Forall_forall. intros wh Hwh.
    rewrite existsb_false in Hx. specialize (Hx wh Hwh). by case_bool_decide.
Qed.

#[local] Opaque patch_bundle.

Context (view : W -> gmap NamespacedName MutatingWebhookConfiguration).
Context `{!Serves view mwc_body configs} (info_keeps : forall v m kv, keeps view (Info v m kv)).

(** The bundle converges and is then left alone. After a pass that
    returns no error, the configuration the manager looks after, if it
    exists, carries the manager's CA in each of its webhooks, under their old
    names and with the metadata unchanged; when it already did, or when the
    request is for another configuration, nothing is written. *)
Theorem WebhookCABundle_converges r req w w' :
  WebhookCABundle_Reconcile r req w = (inr tt, w') ->
  let key := NN "" (wr_ConfigName r) in
  (nn_Name req <> wr_ConfigName r -> view w' = view w) /\
  (nn_Name req = wr_ConfigName r ->
   match view w !! key with
   | None => view w' = view w
   | Some cfg =>
       if bool_decide (Forall (fun wh => wh_CABundle wh = wr_CABundle r) (mwc_Webhooks cfg))
       then view w' = view w
       else om_DeletionTimestamp (mwc_Meta cfg) = None ->
         exists cfg', view w' = <[key := cfg']> (view w) /\
         Forall (fun wh => wh_CABundle wh = wr_CABundle r) (mwc_Webhooks cfg') /\
         wh_Name <$> mwc_Webhooks cfg' = wh_Name <$> mwc_Webhooks cfg /\
         meta_sent (mwc_Meta cfg) (mwc_Meta cfg')
   end).
Proof.
  intros He key. unfold WebhookCABundle_Reconcile in He. case_bool_decide as Hn; simpl in He.
  2:{ injection He as <-. by split. }
  split; [done|]. intros _. rewrite Hn in He. fold key in He.
  apply E_bind_inr in He as (g & w1 & Hg & He). unfold try_ in Hg.
  destruct (Get configs key w) as [g' w1'] eqn:Hget. injection Hg as -> ->.
  apply (serves_get view _) in Hget as [Hv Hget]. destruct g as [err|cfg].
  { destruct (IsNotFound err); [|done]. injection He as ->. rewrite Hget by done. done. }
  rewrite Hget. destruct (patch_bundle_spec (wr_CABundle r) (mwc_Webhooks cfg)) as (Hall & Hnames & Hsame).
  destruct (patch_bundle _ _) as [webhooks drift] eqn:Hp. simpl in *.
  assert (Hdrift := patch_bundle_drift (wr_CABundle r) (mwc_Webhooks cfg)). rewrite Hp in Hdrift. simpl in Hdrift.
  case_bool_decide as Hf; subst drift; simpl in He.
  { by injection He as <-. }
  intros Hdel. apply E_bind_inr in He as (o' & w2 & Hu & Hi).
  apply (serves_update view _) in Hu as (old & Hold & (Hmeta & Hb & _) & _ & Hwr).
  assert (Hko : key_of {| mwc_Meta := mwc_Meta cfg; mwc_Webhooks := webhooks |} = key).
  { apply (serves_key view _) in Hget. exact Hget. }
  rewrite Hko, Hv in *. rewrite Hget in Hold. injection Hold as <-.
  assert (Hvw : view w' = view w2).
  { specialize (info_keeps 0%Z "re-patched drifted join-webhook CA bundle"
      [("mutatingWebhookConfiguration", wr_ConfigName r)] w2). by rewrite Hi in info_keeps. }
  exists o'. rewrite Hvw. destruct Hwr as [->|(Hdt & _)].
  - split_and!; [done| | |exact Hmeta]; by rewrite Hb.
  - simpl in Hdt. rewrite Hdel in Hdt. by destruct Hdt.
Qed.
End CABundle.
