(* ===== verification/Apply.v ===== *)
(** * internal/controller/decoy_controller.go: create or update

    [applyResource], the generic create-or-update every child object of a
    Decoy goes through, and its instances. The Go type parameter
    [T client.Object] is the class [Object]. *)

From S2P Require Import Prelude GoStrings KubeTypes ApiTypes Kube Server.
#[local] Open Scope string_scope.
#[local] Open Scope list_scope.

(** [src/internal/controller/decoy_controller.go:843-857, mergedLabels] *)
Definition mergedLabels (live desired : gmap string string) : gmap string string :=
  if bool_decide (desired = ∅) then live else desired ∪ live.

Lemma mergedLabels_union live desired : mergedLabels live desired = desired ∪ live.
Proof.
  unfold mergedLabels. case_bool_decide as Hd; [|done]. subst. by rewrite map_empty_union.
Qed.

(** The operator's labels win, and nothing else is lost; doing it again
    changes nothing. *)
Lemma lookup_mergedLabels live desired k :
  mergedLabels live desired !! k =
  match desired !! k with Some v => Some v | None => live !! k end.
Proof.
  rewrite mergedLabels_union, lookup_union. by destruct (desired !! k), (live !! k).
Qed.

Lemma mergedLabels_idem live desired :
  mergedLabels (mergedLabels live desired) desired = mergedLabels live desired.
Proof.
  apply map_eq. intros k. rewrite !lookup_mergedLabels. by destruct (desired !! k).
Qed.

Lemma mergedLabels_subseteq live desired : desired ⊆ mergedLabels live desired.
Proof. rewrite mergedLabels_union. apply map_union_subseteq_l. Qed.

Section Apply.
Context {W O : Type} `{ObjectLaws O} `{RetryOnConflict} (c : Client W O).
Context (mutate : O -> O -> O).

(** [live.SetLabels(...)], [live.SetOwnerReferences(...)] after [mutate]. *)
Definition overlay (live desired : O) : O :=
  let live' := mutate live desired in
  with_meta live'
    (om_with_owners
      (om_with_labels (meta live') (mergedLabels (om_Labels (meta live')) (om_Labels (meta desired))))
      (om_OwnerReferences (meta desired))).

(** [src/internal/controller/decoy_controller.go:796-841, applyResource] *)
Definition applyResource (desired : O) : E W O :=
  let key := key_of desired in
  g ← try_ (Get c key);
  match g with
  | inl err => if IsNotFound err then Create c desired else throw err
  | inr _ =>
      retry_on_conflict (
        live ← Get c key;
        Update c (overlay live desired))
  end.

Context `{!RetryLaws} (view : W -> gmap NamespacedName O) (body : option O -> O -> O -> Prop).
Context `{!Serves view body c}.

Lemma triple_get key (P : gmap NamespacedName O -> Prop) :
  triple (fun w => P (view w)) (Get c key)
    (fun o w => P (view w) /\ view w !! key = Some o) (fun w => P (view w)).
Proof.
  intros w HP. destruct (Get c key w) as [r w'] eqn:E.
  apply (serves_get view _) in E as [Hv Hr]. destruct r; rewrite Hv; by split_and?.
Qed.

(** An assertion about the view that an update of the object respects holds
    after the retried update, whatever fails in between. *)
Lemma triple_update_loop (desired : O) (I : gmap NamespacedName O -> Prop) (Q : O -> gmap NamespacedName O -> Prop) :
  (forall w live o' w', I (view w) -> view w !! key_of desired = Some live ->
     replaced view body (overlay live desired) o' w w' -> I (view w') /\ Q o' (view w')) ->
  triple (fun w => I (view w))
    (retry_on_conflict (live ← Get c (key_of desired); Update c (overlay live desired)))
    (fun o' w => I (view w) /\ Q o' (view w)) (fun w => I (view w)).
Proof.
  intros Hu. apply triple_retry. eapply triple_bind; [apply triple_get|].
  intros live w [HI Hlive]. destruct (Update c (overlay live desired) w) as [r w'] eqn:E.
  apply (serves_update view _) in E. destruct r as [e|o']; [|eauto].
  destruct E as [->|(o' & E)]; [done|]. by apply (Hu w live o' w').
Qed.

(** The same for [applyResource], with the creation. *)
Lemma triple_applyResource (desired : O) (I : gmap NamespacedName O -> Prop) (Q : O -> gmap NamespacedName O -> Prop) :
  (forall w o' w', I (view w) -> created view body desired o' w w' -> I (view w') /\ Q o' (view w')) ->
  (forall w live o' w', I (view w) -> view w !! key_of desired = Some live ->
     replaced view body (overlay live desired) o' w w' -> I (view w') /\ Q o' (view w')) ->
  triple (fun w => I (view w)) (applyResource desired) (fun o' w => I (view w) /\ Q o' (view w))
    (fun w => I (view w)).
Proof.
  intros Hc Hu. unfold applyResource.
  eapply triple_bind with (R := fun _ w => I (view w)).
  { eapply triple_try with (X := fun _ => True). eapply triple_conseq; [apply (triple_get _ I)|done|..]; naive_solver. }
  intros [err|_]; [|by apply triple_update_loop].
  destruct (IsNotFound err); [|by apply triple_throw].
  intros w HI. destruct (Create c desired w) as [r w'] eqn:E. apply (serves_create view _) in E.
  destruct r as [e|o']; [|eauto]. destruct E as [->|(o' & E)]; [done|]. by apply (Hc w o' w').
Qed.

Context (mutate_meta : forall live desired, meta (mutate live desired) = meta live).

Lemma meta_overlay live desired :
  meta (overlay live desired) =
  om_with_owners (om_with_labels (meta live) (mergedLabels (om_Labels (meta live)) (om_Labels (meta desired))))
    (om_OwnerReferences (meta desired)).
Proof using mutate_meta H0. unfold overlay. by rewrite meta_with, mutate_meta. Qed.

Lemma key_of_overlay live desired : key_of (overlay live desired) = key_of live.
Proof using mutate_meta H0. unfold key_of. by rewrite meta_overlay. Qed.

(** What an update by [applyResource] leaves of the metadata. *)
Lemma overlay_stored live desired o' :
  stored body (Some live) (overlay live desired) o' ->
  om_Labels (meta o') = mergedLabels (om_Labels (meta live)) (om_Labels (meta desired)) /\
  om_OwnerReferences (meta o') = om_OwnerReferences (meta desired) /\
  om_Annotations (meta o') = om_Annotations (meta live) /\
  om_Finalizers (meta o') = om_Finalizers (meta live) /\
  om_DeletionTimestamp (meta o') = om_DeletionTimestamp (meta live).
Proof using mutate_meta H0.
  intros ((_ & _ & Hl & Ha & Ho & Hf) & _ & Hd). rewrite meta_overlay in *. by split_and!.
Qed.

(** Between the attempts: the object, if it is still there, is the live one
    as it was or as an earlier attempt left it. *)
Definition apply_inv (desired live : O) (m0 m : gmap NamespacedName O) : Prop :=
  (forall k, k <> key_of desired -> m !! k = m0 !! k) /\
  match m !! key_of desired with
  | None => True
  | Some x =>
      (om_Labels (meta x) = om_Labels (meta live) \/
       om_Labels (meta x) = mergedLabels (om_Labels (meta live)) (om_Labels (meta desired))) /\
      om_Annotations (meta x) = om_Annotations (meta live) /\
      om_Finalizers (meta x) = om_Finalizers (meta live) /\
      om_DeletionTimestamp (meta x) = om_DeletionTimestamp (meta live)
  end.

Definition apply_post (desired live o' : O) (m : gmap NamespacedName O) : Prop :=
  (forall k, om_Labels (meta o') !! k =
     match om_Labels (meta desired) !! k with Some v => Some v | None => om_Labels (meta live) !! k end) /\
  om_OwnerReferences (meta o') = om_OwnerReferences (meta desired) /\
  om_Annotations (meta o') = om_Annotations (meta live) /\
  om_Finalizers (meta o') = om_Finalizers (meta live) /\
  (exists live', body (Some live') (overlay live' desired) o') /\
  (m !! key_of desired = Some o' \/ is_Some (om_DeletionTimestamp (meta live))).

Lemma apply_step desired live m0 w x o' w' :
  apply_inv desired live m0 (view w) -> view w !! key_of desired = Some x ->
  replaced view body (overlay x desired) o' w w' ->
  apply_inv desired live m0 (view w') /\ apply_post desired live o' (view w').
Proof using All.
  unfold apply_inv, apply_post. intros (Hfr & Hx) Hlook (old & Hold & Hst & _ & Hw).
  rewrite Hlook in Hx. destruct Hx as (Hl & Ha & Hf & Hd).
  assert (Hkx : key_of (overlay x desired) = key_of desired).
  { rewrite key_of_overlay. by apply (serves_key view _) in Hlook. }
  rewrite Hkx in *. rewrite Hlook in Hold. injection Hold as <-.
  pose proof (overlay_stored _ _ _ Hst) as (Hl' & Ho' & Ha' & Hf' & Hd').
  assert (Hmerged : om_Labels (meta o') = mergedLabels (om_Labels (meta live)) (om_Labels (meta desired))).
  { rewrite Hl'. destruct Hl as [->| ->]; [done|]. apply mergedLabels_idem. }
  destruct Hst as (_ & Hbody & _). split.
  - split.
    + intros k Hk. destruct Hw as [->|(_ & _ & ->)];
        [rewrite lookup_insert_ne by done|rewrite lookup_delete_ne by done]; by apply Hfr.
    + destruct Hw as [->|(_ & _ & ->)]; [rewrite lookup_insert_eq|by rewrite lookup_delete_eq].
      split_and!; [by right|congruence..].
  - split_and!; [|done|congruence|congruence|eauto|].
    + intros k. by rewrite Hmerged, lookup_mergedLabels.
    + destruct Hw as [->|(Hdt & _ & _)]; [left; apply lookup_insert_eq|]. right. by rewrite <- Hd.
Qed.

(** What [applyResource] leaves in the cluster when it succeeds, through
    any number of conflicts and of failed writes that took effect all the
    same. No other object of the kind changes. An absent object is created as
    desired. A present one keeps its annotations and finalizers and every
    label the operator does not manage, gets the operator's labels and
    exactly the desired owner references (so a stripped label or owner is
    restored), and its own fields are those [mutate] makes of a live object. *)
Theorem applyResource_outcome desired w o' w' :
  applyResource desired w = (inr o', w') ->
  (forall k, k <> key_of desired -> view w' !! k = view w !! k) /\
  match view w !! key_of desired with
  | None => stored body None desired o'
  | Some live =>
      (forall k, om_Labels (meta o') !! k =
         match om_Labels (meta desired) !! k with Some v => Some v | None => om_Labels (meta live) !! k end) /\
      om_OwnerReferences (meta o') = om_OwnerReferences (meta desired) /\
      om_Annotations (meta o') = om_Annotations (meta live) /\
      om_Finalizers (meta o') = om_Finalizers (meta live) /\
      exists live', body (Some live') (overlay live' desired) o'
  end /\
  (view w' !! key_of desired = Some o' \/
   exists live, view w !! key_of desired = Some live /\ is_Some (om_DeletionTimestamp (meta live))).
Proof using All.
  unfold applyResource. intros (g & w1 & Hg & He)%E_bind_inr. unfold try_ in Hg.
  destruct (Get c (key_of desired) w) as [g' w1'] eqn:E. injection Hg as -> ->.
  apply (serves_get view _) in E as [Hv Hget]. destruct g as [err|live].
  - destruct (IsNotFound err) eqn:Hnf; [|done]. rewrite (Hget eq_refl).
    apply (serves_create view _) in He as (_ & Hst & Hw). rewrite Hw, Hv. split_and!; [|done|].
    + intros k Hk. by rewrite lookup_insert_ne.
    + left. apply lookup_insert_eq.
  - rewrite Hget. pose proof (triple_update_loop desired (apply_inv desired live (view w)) (apply_post desired live)
      (apply_step desired live (view w)) w1) as Ht.
    rewrite He in Ht. destruct Ht as [(Hfr & _) (Hl & Ho & Ha & Hf & Hb & Hend)].
    { rewrite Hv. split; [done|]. rewrite Hget. split_and!; by try left. }
    split_and!; try done. destruct Hend as [?|Hd]; [by left|]. right. eauto.
Qed.
End Apply.
