(* ===== verification/Metrics.v ===== *)
(** * internal/metrics: the operator's Prometheus series

    prometheus/client_golang is not part of the repository: a metric vector
    is the class [Vec], whose laws are the documented behaviour of
    [WithLabelValues(...).Set/Inc/Add] and [DeletePartialMatch]. A sample
    value is an integer (the code only adds and sets whole numbers). *)

From S2P Require Import Prelude GoStrings.
#[local] Open Scope string_scope.

(** [m] is contained in the label set [names -> vals]. *)
Definition partial_match (names : list string) (m : list (string * string))
    (vals : list string) : bool :=
  forallb (fun kv => bool_decide (kv ∈ zip names vals)) m.

Class Vec (V : Type) := {
  vec_new : V;
  vec_value : V -> list string -> option Z;
  vec_set : list string -> Z -> V -> V;
  vec_add : list string -> Z -> V -> V;
  vec_delete_partial : list string -> list (string * string) -> V -> V }.

Class VecLaws (V : Type) `{Vec V} : Prop := {
  vec_value_new : forall l, vec_value vec_new l = None;
  vec_value_set : forall v l z l',
    vec_value (vec_set l z v) l' = if decide (l = l') then Some z else vec_value v l';
  vec_value_add : forall v l z l',
    vec_value (vec_add l z v) l' =
    if decide (l = l') then Some (default 0 (vec_value v l) + z)%Z else vec_value v l';
  vec_value_delete : forall v names m l,
    vec_value (vec_delete_partial names m v) l =
    if partial_match names m l then None else vec_value v l }.

#[export] Hint Rewrite @vec_value_new @vec_value_set @vec_value_add @vec_value_delete
  using typeclasses eauto : go_rw.

(** A finite map is a vector. *)
#[global] Instance gmap_vec : Vec (gmap (list string) Z) := {|
  vec_new := ∅;
  vec_value v l := v !! l;
  vec_set l z v := <[l := z]> v;
  vec_add l z v := <[l := (default 0 (v !! l) + z)%Z]> v;
  vec_delete_partial names m v :=
    filter (fun lz : list string * Z => partial_match names m lz.1 = false) v |}.

#[global] Instance gmap_vec_laws : VecLaws (gmap (list string) Z).
Proof.
  split; intros; simpl.
  - apply lookup_empty.
  - by rewrite lookup_insert.
  - by rewrite lookup_insert.
  - rewrite map_lookup_filter. destruct (v !! l) as [z|]; simpl; [|by destruct partial_match].
    case_guard as Hg; simpl; [by rewrite Hg|].
    by destruct (partial_match names m l).
Qed.

Section Metrics.
Context {V : Type} `{Vec V}.

(** [src/internal/metrics/metrics.go:21-24, phases] *)
Definition phases : list string := ["Pending"; "Ready"; "Failed"].

Definition nn_labels : list string := ["namespace"; "name"].
Definition phase_labels : list string := ["namespace"; "name"; "phase"].

(** The registered collectors.
    [src/internal/metrics/metrics.go:26-83, var block and init] *)
Record Registry := {
  ReconcileErrors : V; Phase : V; JoinedPods : V; AuditEvents : V;
  AttackerRequests : V; ActivityFlushErrors : Z }.

Definition new_registry : Registry :=
  {| ReconcileErrors := vec_new; Phase := vec_new; JoinedPods := vec_new;
     AuditEvents := vec_new; AttackerRequests := vec_new; ActivityFlushErrors := 0 |}.

Definition with_Phase (r : Registry) (v : V) : Registry :=
  {| ReconcileErrors := ReconcileErrors r; Phase := v; JoinedPods := JoinedPods r;
     AuditEvents := AuditEvents r; AttackerRequests := AttackerRequests r;
     ActivityFlushErrors := ActivityFlushErrors r |}.

Definition add_AttackerRequests (ns name : string) (r : Registry) : Registry :=
  {| ReconcileErrors := ReconcileErrors r; Phase := Phase r; JoinedPods := JoinedPods r;
     AuditEvents := AuditEvents r;
     AttackerRequests := vec_add [ns; name] 1 (AttackerRequests r);
     ActivityFlushErrors := ActivityFlushErrors r |}.

Definition add_AuditEvents (ns name : string) (n : Z) (r : Registry) : Registry :=
  {| ReconcileErrors := ReconcileErrors r; Phase := Phase r; JoinedPods := JoinedPods r;
     AuditEvents := vec_add [ns; name] n (AuditEvents r);
     AttackerRequests := AttackerRequests r;
     ActivityFlushErrors := ActivityFlushErrors r |}.

Definition inc_ActivityFlushErrors (r : Registry) : Registry :=
  {| ReconcileErrors := ReconcileErrors r; Phase := Phase r; JoinedPods := JoinedPods r;
     AuditEvents := AuditEvents r; AttackerRequests := AttackerRequests r;
     ActivityFlushErrors := ActivityFlushErrors r + 1 |}.

Definition inc_ReconcileErrors (ns name : string) (r : Registry) : Registry :=
  {| ReconcileErrors := vec_add [ns; name] 1 (ReconcileErrors r); Phase := Phase r;
     JoinedPods := JoinedPods r; AuditEvents := AuditEvents r;
     AttackerRequests := AttackerRequests r;
     ActivityFlushErrors := ActivityFlushErrors r |}.

Definition set_JoinedPods (ns name : string) (n : Z) (r : Registry) : Registry :=
  {| ReconcileErrors := ReconcileErrors r; Phase := Phase r;
     JoinedPods := vec_set [ns; name] n (JoinedPods r); AuditEvents := AuditEvents r;
     AttackerRequests := AttackerRequests r;
     ActivityFlushErrors := ActivityFlushErrors r |}.

(** [src/internal/metrics/metrics.go:85-96, SetPhase] *)
Definition SetPhase (ns name phase : string) (r : Registry) : Registry :=
  foldl (fun r p =>
           let v := if p ==? phase then 1%Z else 0%Z in
           with_Phase r (vec_set [ns; name; p] v (Phase r)))
        r phases.

(** [src/internal/metrics/metrics.go:98-108, DeleteDecoy] *)
Definition DeleteDecoy (ns name : string) (r : Registry) : Registry :=
  let m := [("namespace", ns); ("name", name)] in
  {| ReconcileErrors := vec_delete_partial nn_labels m (ReconcileErrors r);
     Phase := vec_delete_partial phase_labels m (Phase r);
     JoinedPods := vec_delete_partial nn_labels m (JoinedPods r);
     AuditEvents := vec_delete_partial nn_labels m (AuditEvents r);
     AttackerRequests := vec_delete_partial nn_labels m (AttackerRequests r);
     ActivityFlushErrors := ActivityFlushErrors r |}.

(** The series of a registry: every metric name and label set with a value. *)
Definition series (r : Registry) (metric : string) (l : list string) : option Z :=
  if metric ==? "honeypod_reconcile_errors_total" then vec_value (ReconcileErrors r) l
  else if metric ==? "honeypod_phase" then vec_value (Phase r) l
  else if metric ==? "honeypod_joined_pods" then vec_value (JoinedPods r) l
  else if metric ==? "honeypod_audit_events_received_total" then vec_value (AuditEvents r) l
  else if metric ==? "honeypod_attacker_requests_total" then vec_value (AttackerRequests r) l
  else if metric ==? "honeypod_activity_flush_errors_total" then
    (if l ==? [] then Some (ActivityFlushErrors r) else None)
  else None.

Context `{!VecLaws V}.

Lemma Phase_SetPhase ns name phase r ns' name' p :
  vec_value (Phase (SetPhase ns name phase r)) [ns'; name'; p] =
  if decide ((ns', name') = (ns, name) /\ p ∈ phases)
  then Some (if p ==? phase then 1%Z else 0%Z)
  else vec_value (Phase r) [ns'; name'; p].
Proof.
  unfold SetPhase. simpl. rewrite !vec_value_set. unfold phases.
  destruct (decide ((ns', name') = (ns, name))) as [[= -> ->]|Hne].
  - destruct (decide (p ∈ ["Pending"; "Ready"; "Failed"])) as [Hp|Hp].
    + rewrite (decide_True (P := _ /\ _)) by done.
      elem_cases Hp; repeat case_decide; simplify_eq; done.
    + rewrite (decide_False (P := _ /\ _)) by tauto.
      rewrite !not_elem_of_cons in Hp. by rewrite !decide_False by naive_solver.
  - rewrite (decide_False (P := _ /\ _)) by tauto.
    by rewrite !decide_False by congruence.
Qed.

(** The number of phase rows of a decoy that read 1. *)
Definition phase_sum (r : Registry) (ns name : string) : Z :=
  foldr (fun p z => default 0%Z (vec_value (Phase r) [ns; name; p]) + z)%Z 0%Z phases.

(** After [SetPhase] with one of the three phases, exactly the row of
    that phase reads 1 and the other two read 0 (so the rows sum to 1), and
    no series of another decoy or of another metric has changed. *)
Theorem SetPhase_one_hot ns name phase r :
  phase ∈ phases ->
  (forall p, p ∈ phases ->
     vec_value (Phase (SetPhase ns name phase r)) [ns; name; p] =
     Some (if decide (p = phase) then 1%Z else 0%Z)) /\
  phase_sum (SetPhase ns name phase r) ns name = 1%Z /\
  (forall metric l, take 2 l <> [ns; name] \/ metric <> "honeypod_phase" ->
     series (SetPhase ns name phase r) metric l = series r metric l).
Proof.
  intros Hin.
  assert (Hrow : forall p, p ∈ phases ->
     vec_value (Phase (SetPhase ns name phase r)) [ns; name; p] =
     Some (if decide (p = phase) then 1%Z else 0%Z)).
  { intros p Hp. rewrite Phase_SetPhase, decide_True by done.
    by case_bool_decide; case_decide. }
  split_and!; [done| |].
  - revert Hrow. generalize (SetPhase ns name phase r) as r'. intros r' Hrow.
    unfold phase_sum. simpl. rewrite !Hrow by (unfold phases; elem_lit).
    unfold phases in Hin. elem_cases Hin; done.
  - intros metric l Hl. unfold series, SetPhase; simpl.
    destruct (decide (metric = "honeypod_phase")) as [->|Hm].
    + destruct Hl as [Hl|Hl]; [|done]. simpl. rewrite !vec_value_set.
      by rewrite !decide_False by (by intros <-).
    + by rewrite !(bool_decide_eq_false_2 (metric = "honeypod_phase")).
Qed.

Lemma partial_match_prefix labels ns name l :
  "namespace" ∉ labels -> "name" ∉ labels ->
  partial_match ("namespace" :: "name" :: labels) [("namespace", ns); ("name", name)] l = true <->
  take 2 l = [ns; name].
Proof.
  intros H1 H2. unfold partial_match. simpl. rewrite !andb_true_iff, !bool_decide_eq_true.
  assert (Hz : forall (k v : string) l', (k, v) ∈ zip labels l' -> k ∈ labels).
  { intros k v l' Hin%elem_of_zip_l. done. }
  destruct l as [|a [|b l]]; simpl.
  - split; [|done]. by intros (?%not_elem_of_nil & _).
  - split; [|done]. by intros (_ & [?|?%not_elem_of_nil]%elem_of_cons & _).
  - rewrite !elem_of_cons. split.
    + intros ([?|[?|Ha]] & [?|[?|Hb]] & _); simplify_eq; try done;
        exfalso; naive_solver.
    + intros [= -> ->]. naive_solver.
Qed.

(** [DeleteDecoy] removes every series labelled with the deleted decoy,
    in all five per-decoy metrics and for every phase row, and leaves every
    series of every other decoy and the unlabelled counter as it was. *)
Theorem DeleteDecoy_exact ns name r metric l :
  series (DeleteDecoy ns name r) metric l =
  if decide (take 2 l = [ns; name]) then None else series r metric l.
Proof.
  unfold series, DeleteDecoy, nn_labels, phase_labels. simpl. rewrite !vec_value_delete.
  assert (Hm : forall labels, labels ∈ [[]; ["phase"]] ->
    partial_match ("namespace" :: "name" :: labels) [("namespace", ns); ("name", name)] l =
    bool_decide (take 2 l = [ns; name])).
  { intros labels Hl. apply eq_true_iff_eq. rewrite bool_decide_eq_true.
    elem_cases Hl; apply partial_match_prefix; elem_lit. }
  rewrite !Hm by elem_lit.
  case_bool_decide as Hl; case_decide; try done.
  rewrite (bool_decide_eq_false_2 (l = [])) by (by intros ->).
  by repeat case_match.
Qed.

End Metrics.

#[export] Hint Resolve Phase_SetPhase : go.

(** [SetPhase_one_hot] on the finite-map registry, with a stale Pending row. *)
Lemma SetPhase_one_hot_witness :
  let r := with_Phase new_registry (vec_set ["ns"; "trap"; "Pending"] 1%Z vec_new)
    : Registry (V := gmap (list string) Z) in
  "Ready" ∈ phases /\ phase_sum (SetPhase "ns" "trap" "Ready" r) "ns" "trap" = 1%Z.
Proof.
  assert (H : "Ready" ∈ phases) by (unfold phases; elem_lit).
  split; [exact H|]. exact (proj1 (proj2 (SetPhase_one_hot "ns" "trap" "Ready" _ H))).
Defined.

(** [DeleteDecoy_exact]: the phase rows of the deleted decoy are gone. *)
Lemma DeleteDecoy_exact_witness :
  let r := SetPhase "ns" "trap" "Ready" new_registry : Registry (V := gmap (list string) Z) in
  series r "honeypod_phase" ["ns"; "trap"; "Ready"] = Some 1%Z /\
  series (DeleteDecoy "ns" "trap" r) "honeypod_phase" ["ns"; "trap"; "Ready"] = None.
Proof.
  split; [vm_compute; reflexivity|].
  rewrite (DeleteDecoy_exact "ns" "trap" _ "honeypod_phase" ["ns"; "trap"; "Ready"]). reflexivity.
Defined.
