(* ===== verification/Activity.v ===== *)
(** * internal/activity: the tracker of attacker requests

    [Tracker] keeps one [counter] per decoy in memory and adds what it saw to
    the decoy's status. Recording runs on the audit path, a flush runs in its
    own goroutine and holds the lock only to take its snapshot and to settle
    each write, so the two interleave: the file has the sequential operations
    ([Record], [writeStatus], [flush], [Run]) and, in [Interleaving], the step
    relation in which any number of [Record] calls and of writes by other API
    clients happen between the steps of a flush.

    The map iteration order of [range t.counters] is an argument. Counts are
    [int64] and wrap. *)

From S2P Require Import Prelude GoStrings KubeTypes ApiTypes Kube Metrics.
#[local] Open Scope string_scope.
#[local] Open Scope list_scope.

(** [src/internal/activity/tracker.go:22-29, counter] *)
Record counter := {
  firstSeen : Time; lastSeen : Time; count : Z; flushed : Z;
  lastSourceIP : string; dirty : bool }.

Definition c_set_dirty (b : bool) (c : counter) : counter :=
  {| firstSeen := firstSeen c; lastSeen := lastSeen c; count := count c;
     flushed := flushed c; lastSourceIP := lastSourceIP c; dirty := b |}.

Definition c_set_flushed (z : Z) (c : counter) : counter :=
  {| firstSeen := firstSeen c; lastSeen := lastSeen c; count := count c;
     flushed := z; lastSourceIP := lastSourceIP c; dirty := dirty c |}.

(** [&counter{firstSeen: when}]. *)
Definition new_counter (when : Time) : counter :=
  {| firstSeen := when; lastSeen := 0; count := 0; flushed := 0;
     lastSourceIP := ""; dirty := false |}.

(** The requests a decoy's status accounts for. *)
Definition hits (kt : Decoy) : Z :=
  match st_IntrusionActivity (kt_Status kt) with
  | Some ia => ia_RequestCount ia
  | None => 0
  end.

Definition with_activity (kt : Decoy) (ia : IntrusionActivity) : Decoy :=
  {| kt_Meta := kt_Meta kt; kt_Spec := kt_Spec kt;
     kt_Status :=
       {| st_Phase := st_Phase (kt_Status kt); st_Endpoint := st_Endpoint (kt_Status kt);
          st_CredentialsSecret := st_CredentialsSecret (kt_Status kt);
          st_ObservedGeneration := st_ObservedGeneration (kt_Status kt);
          st_JoinedPods := st_JoinedPods (kt_Status kt);
          st_IntrusionActivity := Some ia;
          st_Conditions := st_Conditions (kt_Status kt) |} |}.

Section Tracker.
Context {V : Type} `{Vec V}.

(** The tracker's memory, with the process's metrics it updates.
    [src/internal/activity/tracker.go:31-40, Tracker] *)
Record Tracker := {
  counters : gmap NamespacedName counter;
  registry : Registry (V := V) }.

Definition set_counters (t : Tracker) (m : gmap NamespacedName counter) : Tracker :=
  {| counters := m; registry := registry t |}.

(** [src/internal/activity/tracker.go:42-44, New] *)
Definition New (reg : Registry) : Tracker := {| counters := ∅; registry := reg |}.

(** The update [Record] makes to one counter under the lock. *)
Definition bump (sourceIP : string) (when : Time) (c : counter) : counter :=
  {| firstSeen := if time_is_zero (firstSeen c) then when else firstSeen c;
     lastSeen := if (lastSeen c <? when)%Z then when else lastSeen c;
     count := Int.int64 (count c + 1);
     flushed := flushed c;
     lastSourceIP := if sourceIP !=? "" then sourceIP else lastSourceIP c;
     dirty := true |}.

(** [src/internal/activity/tracker.go:46-71, Record] *)
Definition Record_ (namespace name sourceIP : string) (when : Time) (t : Tracker) : Tracker :=
  let key := NN namespace name in
  let c := default (new_counter when) (counters t !! key) in
  {| counters := <[key := bump sourceIP when c]> (counters t);
     registry := add_AttackerRequests namespace name (registry t) |}.

(** One iteration of the snapshot loop of [flush]. *)
Definition snapshot_step (acc : list (NamespacedName * counter) * gmap NamespacedName counter)
    (key : NamespacedName) :=
  let '(todo, m) := acc in
  match m !! key with
  | Some c => if dirty c then (todo ++ [(key, c)], <[key := c_set_dirty false c]> m) else acc
  | None => acc
  end.

(** The locked part of [flush]: [order] is the order in which the runtime
    iterates over the map.
    [src/internal/activity/tracker.go:100-108, flush] *)
Definition snapshot (order : list NamespacedName) (t : Tracker)
    : list (NamespacedName * counter) * Tracker :=
  let '(todo, m) := foldl snapshot_step ([], counters t) order in
  (todo, set_counters t m).

(** What [flush] does with the result of a write, under the lock.
    [src/internal/activity/tracker.go:110-136, flush] *)
Definition settle (p : NamespacedName * counter) (r : error + unit) (t : Tracker) : Tracker :=
  let '(key, c) := p in
  match r with
  | inr _ =>
      match counters t !! key with
      | Some cur => set_counters t (<[key := c_set_flushed (count c) cur]> (counters t))
      | None => t
      end
  | inl e =>
      if IsNotFound e then set_counters t (delete key (counters t))
      else
        let t := {| counters := counters t; registry := inc_ActivityFlushErrors (registry t) |} in
        match counters t !! key with
        | Some cur => set_counters t (<[key := c_set_dirty true cur]> (counters t))
        | None => t
        end
  end.

(** The activity a write stores: the delta since the last successful flush
    on top of what the status has, and the earliest [FirstSeen]. *)
Definition next_activity (c : counter) (prev : option IntrusionActivity) : IntrusionActivity :=
  let delta := Int.int64 (count c - flushed c) in
  {| ia_LastSeen := Some (lastSeen c);
     ia_RequestCount :=
       match prev with Some p => Int.int64 (delta + ia_RequestCount p) | None => delta end;
     ia_LastSourceIP := lastSourceIP c;
     ia_FirstSeen :=
       match prev ≫= ia_FirstSeen with Some f => Some f | None => Some (firstSeen c) end |}.

Section Client.
Context {W : Type} (client : Client W Decoy) `{RetryOnConflict}.

(** The function [writeStatus] retries. *)
Definition write_attempt (key : NamespacedName) (c : counter) : E W unit :=
  kt ← Get client key;
  _ ← StatusUpdate client
        (with_activity kt (next_activity c (st_IntrusionActivity (kt_Status kt))));
  mret tt.

(** [src/internal/activity/tracker.go:139-171, writeStatus] *)
Definition writeStatus (key : NamespacedName) (c : counter) : E W unit :=
  retry_on_conflict (write_attempt key c).

Fixpoint flush_writes (todo : list (NamespacedName * counter)) (tw : Tracker * W) : Tracker * W :=
  match todo with
  | [] => tw
  | p :: todo' =>
      let '(t, w) := tw in
      let '(r, w') := writeStatus p.1 p.2 w in
      flush_writes todo' (settle p r t, w')
  end.

(** A flush that nothing interleaves with.
    [src/internal/activity/tracker.go:92-137, flush] *)
Definition flush (order : list NamespacedName) (tw : Tracker * W) : Tracker * W :=
  let '(t, w) := tw in
  let '(todo, t') := snapshot order t in
  flush_writes todo (t', w).

End Client.

(** What wakes the loop of [Run]: the ticker, or the end of its context. *)
Inductive run_event := Tick (order : list NamespacedName) | CtxDone (order : list NamespacedName).

(** [Run] over the events it receives: the flush of a tick uses the context
    [Run] was given ([live]), the last one its own ([final]). The result is
    [None] while the loop still waits.
    [src/internal/activity/tracker.go:73-90, Run] *)
Fixpoint Run {W} (live final : Client W Decoy) `{RetryOnConflict}
    (events : list run_event) (tw : Tracker * W) : (Tracker * W) * bool :=
  match events with
  | [] => (tw, false)
  | Tick order :: rest => Run live final rest (flush live order tw)
  | CtxDone order :: _ => (flush final order tw, true)
  end.
End Tracker.
Arguments Tracker V : clear implicits.

(** ** The snapshot *)

Lemma c_set_dirty_same c : dirty c = false -> c_set_dirty false c = c.
Proof. destruct c. simpl. by intros ->. Qed.

(** The entries of [m] a flush that visits [order] writes. *)
Definition dirty_entries (m : gmap NamespacedName counter) (order : list NamespacedName)
    : list (NamespacedName * counter) :=
  omap (fun key => c ← m !! key; if dirty c then Some (key, c) else None) order.

Lemma elem_of_dirty_entries m order key c :
  (key, c) ∈ dirty_entries m order <-> key ∈ order /\ m !! key = Some c /\ dirty c = true.
Proof.
  unfold dirty_entries. rewrite list_elem_of_omap. split.
  - intros (k & Hk & Hc). destruct (m !! k) as [c'|] eqn:E; simpl in Hc; [|done].
    destruct (dirty c') eqn:D; simplify_eq. done.
  - intros (Hk & Hm & Hd). exists key. split; [done|]. rewrite Hm. simpl. by rewrite Hd.
Qed.

Lemma dirty_entries_keys_NoDup m order :
  NoDup order -> NoDup (dirty_entries m order).*1.
Proof.
  unfold dirty_entries. induction 1 as [|k order Hk Hn IH]; simpl; [constructor|].
  destruct (m !! k ≫= _) as [[k' c]|] eqn:E; [|done]. simpl.
  destruct (m !! k) as [c'|]; simpl in E; [|done]. destruct (dirty c'); simplify_eq.
  constructor; [|done]. intros ([p1 p2] & -> & Hp)%list_elem_of_fmap.
  by apply elem_of_dirty_entries in Hp as (? & _).
Qed.

Lemma snapshot_fold order todo m :
  NoDup order ->
  exists m', foldl snapshot_step (todo, m) order = (todo ++ dirty_entries m order, m') /\
    forall k, m' !! k = if decide (k ∈ order) then c_set_dirty false <$> m !! k else m !! k.
Proof.
  intros Hn. revert todo m. induction Hn as [|k order Hk Hn IH]; intros todo m; cbn [foldl].
  { exists m. rewrite app_nil_r. split; [done|]. intros k. by rewrite decide_False by set_solver. }
  unfold snapshot_step at 2, dirty_entries. cbn [omap list_omap].
  destruct (m !! k) as [c|] eqn:Hm; simpl.
  - destruct (dirty c) eqn:Hd.
    + destruct (IH (todo ++ [(k, c)]) (<[k := c_set_dirty false c]> m)) as (m' & Hf & Hm').
      exists m'. split.
      * rewrite Hf, <- (assoc_L (++)). do 2 f_equal. simpl. f_equal.
        apply list_omap_ext. apply Forall2_same_length_lookup_2; [done|].
        intros i x y Hx Hy. simplify_eq. apply list_elem_of_lookup_2 in Hx.
        rewrite lookup_insert_ne by set_solver. done.
      * intros k'. rewrite Hm'. destruct (decide (k' = k)) as [->|Hne].
        -- rewrite decide_False by done. rewrite decide_True by set_solver.
           rewrite lookup_insert_eq, Hm. done.
        -- rewrite lookup_insert_ne by done. repeat case_decide; set_solver.
    + destruct (IH todo m) as (m' & Hf & Hm'). exists m'. split; [done|].
      intros k'. rewrite Hm'. destruct (decide (k' = k)) as [->|Hne].
      * rewrite decide_False by done. rewrite decide_True by set_solver.
        rewrite Hm. simpl. by rewrite c_set_dirty_same.
      * repeat case_decide; set_solver.
  - destruct (IH todo m) as (m' & Hf & Hm'). exists m'. split; [done|].
    intros k'. rewrite Hm'. destruct (decide (k' = k)) as [->|Hne].
    * rewrite decide_False by done. rewrite decide_True by set_solver. by rewrite Hm.
    * repeat case_decide; set_solver.
Qed.

(** ** A flush, sequentially *)

(** What a settled write leaves of the counter in memory. *)
Definition settled (c : counter) (r : error + unit) (cur : option counter) : option counter :=
  match r with
  | inr _ => c_set_flushed (count c) <$> cur
  | inl e => if IsNotFound e then None else c_set_dirty true <$> cur
  end.

#[local] Arguments settle : simpl never.

Section Flush.
Context {V : Type} `{Vec V} {W : Type} (client : Client W Decoy) `{RetryOnConflict}.

Lemma settle_lookup p r (t : Tracker V) k :
  counters (settle p r t) !! k =
  if decide (k = p.1) then settled p.2 r (counters t !! k) else counters t !! k.
Proof.
  destruct p as [key c]. unfold settle, settled. simpl.
  destruct (decide (k = key)) as [->|Hne].
  - destruct r as [e|]; [destruct (IsNotFound e)|].
    + simpl. apply lookup_delete_eq.
    + destruct (counters t !! key) eqn:E; simpl; [by rewrite lookup_insert_eq|by rewrite E].
    + destruct (counters t !! key) eqn:E; simpl; [by rewrite lookup_insert_eq|by rewrite E].
  - destruct r as [e|]; [destruct (IsNotFound e)|]; simpl.
    + by rewrite lookup_delete_ne.
    + destruct (counters t !! key); simpl; by rewrite ?lookup_insert_ne.
    + destruct (counters t !! key); simpl; by rewrite ?lookup_insert_ne.
Qed.

Lemma flush_writes_other todo (t : Tracker V) w k :
  k ∉ todo.*1 -> counters (flush_writes client todo (t, w)).1 !! k = counters t !! k.
Proof.
  revert t w. induction todo as [|[key c] todo IH]; intros t w Hk; [done|]. simpl.
  destruct (writeStatus client key c w) as [r w']. rewrite fmap_cons in Hk.
  rewrite IH by set_solver. rewrite settle_lookup, decide_False; [done|]. simpl. set_solver.
Qed.

Definition errs (t : Tracker V) : Z := ActivityFlushErrors (registry t).

Lemma settle_errs p r (t : Tracker V) :
  errs (settle p r t) =
  (errs t + match r with inl e => if IsNotFound e then 0 else 1 | inr _ => 0 end)%Z.
Proof.
  destruct p as [key c]. unfold settle, errs. destruct r as [e|]; [destruct (IsNotFound e)|]; simpl.
  - lia.
  - destruct (counters t !! key); simpl; lia.
  - destruct (counters t !! key); simpl; lia.
Qed.

Lemma flush_writes_errs todo (t : Tracker V) w :
  (errs t <= errs (flush_writes client todo (t, w)).1)%Z.
Proof.
  revert t w. induction todo as [|p todo IH]; intros t w; simpl; [lia|].
  destruct (writeStatus client p.1 p.2 w) as [r w'].
  etransitivity; [|apply IH]. rewrite settle_errs. destruct r; [destruct IsNotFound|]; lia.
Qed.

Lemma flush_writes_entry todo (t : Tracker V) w k c :
  NoDup todo.*1 -> (k, c) ∈ todo ->
  exists w1 r w2, writeStatus client k c w1 = (r, w2) /\
    counters (flush_writes client todo (t, w)).1 !! k = settled c r (counters t !! k) /\
    (forall e, r = inl e -> IsNotFound e = false ->
       (errs t < errs (flush_writes client todo (t, w)).1)%Z).
Proof.
  revert t w. induction todo as [|[key c'] todo IH]; intros t w Hn Hin; [set_solver|]. simpl.
  destruct (writeStatus client key c' w) as [r w'] eqn:Hw.
  rewrite fmap_cons in Hn. apply NoDup_cons in Hn as [Hk Hn].
  apply elem_of_cons in Hin as [[= -> ->]|Hin].
  - exists w, r, w'. split_and!; [done| |].
    + rewrite flush_writes_other by done. by rewrite settle_lookup, decide_True.
    + intros e -> He. pose proof (flush_writes_errs todo (settle (key, c') (inl e) t) w') as Hle.
      rewrite settle_errs, He in Hle. lia.
  - destruct (IH (settle (key, c') r t) w' Hn Hin) as (w1 & r1 & w2 & Hw1 & Hc & He).
    exists w1, r1, w2. split_and!; [done| |].
    + rewrite Hc, settle_lookup, decide_False; [done|].
      simpl. intros ->. apply Hk, list_elem_of_fmap. by exists (key, c).
    + intros e Hr Hnf. specialize (He e Hr Hnf). rewrite settle_errs in He.
      destruct r; [destruct IsNotFound|]; lia.
Qed.

(** What one flush does to each counter. *)
Lemma flush_entry order (t : Tracker V) w k :
  order ≡ₚ elements (dom (counters t)) ->
  match counters t !! k with
  | None => counters (flush client order (t, w)).1 !! k = None
  | Some c =>
      if dirty c then
        exists w1 r w2, writeStatus client k c w1 = (r, w2) /\
          counters (flush client order (t, w)).1 !! k =
          match r with
          | inr _ => Some (c_set_flushed (count c) (c_set_dirty false c))
          | inl e => if IsNotFound e then None else Some c
          end /\
          (forall e, r = inl e -> IsNotFound e = false ->
             (errs t < errs (flush client order (t, w)).1)%Z)
      else counters (flush client order (t, w)).1 !! k = Some c
  end.
Proof.
  intros Hperm.
  assert (Hn : NoDup order) by (rewrite Hperm; apply NoDup_elements).
  unfold flush, snapshot.
  destruct (snapshot_fold order [] (counters t) Hn) as (m' & -> & Hm'). simpl.
  destruct (counters t !! k) as [c|] eqn:Hk.
  - assert (Hin : k ∈ order).
    { rewrite Hperm. apply elem_of_elements, elem_of_dom. by eexists. }
    destruct (dirty c) eqn:Hd.
    + destruct (flush_writes_entry (dirty_entries (counters t) order)
        (set_counters t m') w k c) as (w1 & r & w2 & Hw & Hc & He);
        [by apply dirty_entries_keys_NoDup|by apply elem_of_dirty_entries|].
      exists w1, r, w2. split_and!; [done| |exact He]. rewrite Hc. simpl.
      rewrite Hm', decide_True, Hk by done. destruct r as [e|]; simpl; [|done].
      destruct (IsNotFound e); [done|]. destruct c; simpl in *. by subst.
    + rewrite flush_writes_other; simpl.
      * rewrite Hm', decide_True, Hk by done. simpl. by rewrite c_set_dirty_same.
      * intros ([k' c'] & -> & Hin')%list_elem_of_fmap.
        apply elem_of_dirty_entries in Hin' as (_ & ? & ?). simpl in *. congruence.
  - rewrite flush_writes_other; simpl.
    + rewrite Hm', Hk. by case_decide.
    + intros ([k' c'] & -> & Hin')%list_elem_of_fmap.
      apply elem_of_dirty_entries in Hin' as (_ & ? & ?). simpl in *. congruence.
Qed.

(** What one flush does to each counter, whatever order the runtime
    iterates the map in: a clean counter is untouched; a dirty one is written
    once, and afterwards it is clean with everything flushed if the write
    succeeded, gone if the decoy no longer exists, and as before (dirty, so
    the next flush retries it) on any other error, which the flush-error
    metric then counts. *)
Theorem flush_outcome order (t : Tracker V) w k :
  order ≡ₚ elements (dom (counters t)) ->
  match counters t !! k with
  | None => counters (flush client order (t, w)).1 !! k = None
  | Some c =>
      if dirty c then
        exists w1 r w2, writeStatus client k c w1 = (r, w2) /\
          counters (flush client order (t, w)).1 !! k =
          match r with
          | inr _ => Some (c_set_flushed (count c) (c_set_dirty false c))
          | inl e => if IsNotFound e then None else Some c
          end /\
          (forall e, r = inl e -> IsNotFound e = false ->
             (errs t < errs (flush client order (t, w)).1)%Z)
      else counters (flush client order (t, w)).1 !! k = Some c
  end.
Proof. apply flush_entry. Qed.

End Flush.

(** ** Recording and flushing concurrently *)

Module Interleaving.

(** The server takes the update [kt]: at some moment the stored object has the
    resource version of [kt] and gets its status; other clients may act before
    and after. [accepted] counts the updates taken. *)
Definition commits {W} (env : relation W) (look : W -> option Decoy) (accepted : W -> nat)
    (kt : Decoy) (w w' : W) : Prop :=
  exists w1 cur w2 new, env w w1 /\ look w1 = Some cur /\
    om_ResourceVersion (kt_Meta cur) = om_ResourceVersion (kt_Meta kt) /\
    look w2 = Some new /\ kt_Status new = kt_Status kt /\
    accepted w2 = S (accepted w1) /\ env w2 w'.

(** The documented behaviour of the API server and of a client towards one
    decoy [k], that exists throughout, and whose activity only the tracker
    writes: [env] relates worlds before and after what other clients do. Reads
    may be stale, as a cache's are (main gives the tracker a direct client,
    whose reads are better than that), but a status update is taken only at
    the current resource version. An update that reports an error was refused,
    or it was taken and its reply was lost (a timeout, a broken connection):
    the caller cannot tell, except that Conflict and NotFound are answers of a
    server that refused. [accepted] is not visible to the code. *)
Class DecoyServer {W} (client : Client W Decoy) (k : NamespacedName) := {
  env : relation W;
  env_preorder : PreOrder env;
  look : W -> option Decoy;
  accepted : W -> nat;
  seen : W -> Decoy -> Prop;
  env_seen : forall w w' kt, env w w' -> seen w kt -> seen w' kt;
  env_hits : forall w w' a, env w w' -> look w = Some a ->
    exists b, look w' = Some b /\ hits b = hits a;
  env_accepted : forall w w', env w w' -> accepted w' = accepted w;
  seen_current : forall w kt cur, seen w kt -> look w = Some cur ->
    om_ResourceVersion (kt_Meta kt) = om_ResourceVersion (kt_Meta cur) -> kt = cur;
  get_ok : forall key w kt w', Get client key w = (inr kt, w') ->
    env w w' /\ kt_key kt = key /\ (key = k -> seen w' kt);
  get_err : forall key w e w', Get client key w = (inl e, w') ->
    env w w' /\ (key = k -> is_Some (look w) -> IsNotFound e = false);
  update_ok : forall kt w kt' w', StatusUpdate client kt w = (inr kt', w') -> kt_key kt = k ->
    commits env look accepted kt w w';
  update_other : forall kt w r w', StatusUpdate client kt w = (r, w') -> kt_key kt <> k ->
    env w w';
  update_err : forall kt w e w', StatusUpdate client kt w = (inl e, w') -> kt_key kt = k ->
    (env w w' /\ (is_Some (look w) -> IsNotFound e = false)) \/
    (commits env look accepted kt w w' /\ IsConflict e = false /\ IsNotFound e = false) }.

#[global] Existing Instance env_preorder.

(** Where the flushing goroutine is: between flushes, about to write the next
    pending entry, or about to settle the write it has made. *)
Inductive flusher :=
  | Idle
  | Writing (todo : list (NamespacedName * counter))
  | Settling (p : NamespacedName * counter) (r : error + unit)
             (todo : list (NamespacedName * counter)).

Record Sys (V W : Type) := mkSys { s_t : Tracker V; s_w : W; s_f : flusher }.
Arguments mkSys {V W}.
Arguments s_t {V W}.
Arguments s_w {V W}.
Arguments s_f {V W}.

Section Steps.
Context {V : Type} `{Vec V} {W : Type} (client : Client W Decoy).
Context `{Hretry : RetryOnConflict} `{!RetryLaws}.
Context (k : NamespacedName) `{!DecoyServer client k}.

(** What a step did: a [Record] call for a key, a write of a pending entry
    with its result and the number of times the server took it, or neither. *)
Inductive event :=
  | Recorded (key : NamespacedName)
  | Written (p : NamespacedName * counter) (r : error + unit) (n : nat)
  | Internal.

(** One step of the process. *)
Inductive step : Sys V W -> event -> Sys V W -> Prop :=
  | step_record ns name ip when t w f :
      step (mkSys t w f) (Recorded (NN ns name)) (mkSys (Record_ ns name ip when t) w f)
  | step_env t w w' f : env w w' -> step (mkSys t w f) Internal (mkSys t w' f)
  | step_snapshot t w order todo t' :
      order ≡ₚ elements (dom (counters t)) -> snapshot order t = (todo, t') ->
      step (mkSys t w Idle) Internal (mkSys t' w (Writing todo))
  | step_write t w p todo r w' :
      writeStatus client p.1 p.2 w = (r, w') ->
      step (mkSys t w (Writing (p :: todo))) (Written p r (accepted w' - accepted w))
        (mkSys t w' (Settling p r todo))
  | step_settle t w p r todo :
      step (mkSys t w (Settling p r todo)) Internal (mkSys (settle p r t) w (Writing todo))
  | step_done t w : step (mkSys t w (Writing [])) Internal (mkSys t w Idle).

Inductive steps : Sys V W -> list event -> Sys V W -> Prop :=
  | steps_refl s : steps s [] s
  | steps_snoc s1 tr s2 l s3 : steps s1 tr s2 -> step s2 l s3 -> steps s1 (tr ++ [l]) s3.

(** The number of [Record] calls for [k] in a trace. *)
Definition recorded_by (l : event) : Z :=
  match l with Recorded key => if decide (key = k) then 1 else 0 | _ => 0 end.

Definition recorded (tr : list event) : Z := foldr (fun l n => recorded_by l + n)%Z 0%Z tr.

(** The deltas of the writes the server took although they report an error. *)
Definition lost_by (l : event) : list Z :=
  match l with
  | Written p (inl _) (S _) => [count p.2 - flushed p.2]%Z
  | _ => []
  end.

Definition lost (tr : list event) : list Z := tr ≫= lost_by.

(** The failing writes of a trace, an answer NotFound not being a failure. *)
Definition failed_by (l : event) : Z :=
  match l with Written _ (inl e) _ => if IsNotFound e then 0 else 1 | _ => 0 end.

Definition failed (tr : list event) : Z := foldr (fun l n => failed_by l + n)%Z 0%Z tr.

Definition sumZ (l : list Z) : Z := foldr Z.add 0%Z l.

Lemma sumZ_app l1 l2 : sumZ (l1 ++ l2) = (sumZ l1 + sumZ l2)%Z.
Proof. induction l1 as [|x l1 IH]; simpl; [done|]. rewrite IH. lia. Qed.

Lemma recorded_snoc tr l : recorded (tr ++ [l]) = (recorded tr + recorded_by l)%Z.
Proof. unfold recorded. induction tr as [|x tr IH]; simpl; [lia|]. rewrite IH. lia. Qed.

Lemma failed_snoc tr l : failed (tr ++ [l]) = (failed tr + failed_by l)%Z.
Proof. unfold failed. induction tr as [|x tr IH]; simpl; [lia|]. rewrite IH. lia. Qed.

Lemma lost_snoc tr l : lost (tr ++ [l]) = lost tr ++ lost_by l.
Proof. unfold lost. rewrite bind_app. simpl. by rewrite app_nil_r. Qed.

(** What the counts of a trace add up to: recorded, or written twice. *)
Definition gain (l : event) : Z := (recorded_by l + sumZ (lost_by l))%Z.

(** An update the server takes adds the delta to the status of [k], once. *)
Lemma commits_adds c w w1 w' a kt :
  look w = Some a -> env w w1 -> seen w1 kt ->
  commits env look accepted
    (with_activity kt (next_activity c (st_IntrusionActivity (kt_Status kt)))) w1 w' ->
  exists b, look w' = Some b /\ accepted w' = S (accepted w) /\
    hits b = Int.int64 (hits a + (count c - flushed c)).
Proof.
  intros Ha Henv Hseen (w3 & cur & w4 & new & He & Hcur & Hrv & Hnew & Hst & Hacc & He').
  assert (kt = cur) as -> by (apply (seen_current w3); [by apply (env_seen w1); auto|done|symmetry; exact Hrv]).
  destruct (env_hits _ _ a (transitivity Henv He) Ha) as (cur' & Hcur' & Hh). simplify_eq.
  destruct (env_hits _ _ _ He' Hnew) as (b & Hb & Hhb). exists b. split_and!; [done| |].
  - rewrite (env_accepted _ _ He'), Hacc. f_equal. apply env_accepted. by transitivity w1.
  - rewrite Hhb, <- Hh. unfold hits. rewrite Hst. simpl.
    destruct (st_IntrusionActivity (kt_Status cur)); simpl; autorewrite with go_rw; f_equal; lia.
Qed.

(** One attempt of a write: it leaves the status of [k] alone, or the server
    takes it once; only the latter when it succeeds, only the former when it
    conflicts. *)
Definition wrote key c w (r : error + unit) w' (a : Decoy) : Prop :=
  exists b n, look w' = Some b /\ accepted w' = n + accepted w /\
    hits b = match n with 0 => hits a | S _ => Int.int64 (hits a + (count c - flushed c)) end /\
    (key <> k -> n = 0) /\
    (key = k -> match r with
                | inr _ => n = 1
                | inl e => (n = 0 \/ n = 1 /\ IsConflict e = false) /\ IsNotFound e = false
                end).

Lemma wrote_env key c w r w' a :
  look w = Some a -> env w w' ->
  (key = k -> exists e, r = inl e /\ IsNotFound e = false) -> wrote key c w r w' a.
Proof.
  intros Ha Henv Hk. destruct (env_hits _ _ _ Henv Ha) as (b & Hb & Hh). exists b, 0.
  rewrite (env_accepted _ _ Henv), Hh. split_and!; [done..|].
  intros Heq. destruct (Hk Heq) as (e & -> & He). auto.
Qed.

Lemma write_attempt_spec key c w r w' a :
  look w = Some a -> write_attempt client key c w = (r, w') -> wrote key c w r w' a.
Proof.
  intros Ha. unfold write_attempt, mbind, E_bind. intros Hw.
  destruct (Get client key w) as [[e|kt] w1] eqn:Hget; simplify_eq.
  { destruct (get_err _ _ _ _ Hget) as [Henv Hn]. apply wrote_env; [done|done|].
    intros Hk. exists e. split; [done|]. by apply Hn. }
  destruct (get_ok _ _ _ _ Hget) as (Henv & Hkey & Hseen).
  destruct (env_hits _ _ _ Henv Ha) as (a1 & Ha1 & _).
  destruct (StatusUpdate client _ w1) as [r' w2] eqn:Hup.
  assert (Hr : w2 = w' /\ r = match r' with inl e => inl e | inr _ => inr tt end).
  { destruct r'; unfold mret, E_ret in Hw; by simplify_eq. }
  clear Hw. destruct Hr as [-> ->].
  destruct (decide (key = k)) as [Hk|Hk].
  2:{ apply wrote_env; [done| |done]. transitivity w1; [done|].
      eapply update_other; [done|]. intros Hx. apply Hk. rewrite <- Hkey. exact Hx. }
  specialize (Hseen Hk).
  assert (Hkk : kt_key (with_activity kt (next_activity c (st_IntrusionActivity (kt_Status kt)))) = k)
    by (rewrite <- Hk, <- Hkey; done).
  assert (Hone : commits env look accepted
      (with_activity kt (next_activity c (st_IntrusionActivity (kt_Status kt)))) w1 w' ->
      exists b, look w' = Some b /\ accepted w' = 1 + accepted w /\
        hits b = Int.int64 (hits a + (count c - flushed c))).
  { intros Hc. by apply (commits_adds _ _ _ _ _ _ Ha Henv Hseen). }
  destruct r' as [e|kt'].
  - destruct (update_err _ _ _ _ Hup Hkk) as [[He Hn]|(Hc & Hcf & Hnf)].
    + apply wrote_env; [done|by transitivity w1|]. intros _. exists e. split; [done|]. apply Hn. by exists a1.
    + destruct (Hone Hc) as (b & ? & ? & ?). exists b, 1. split_and!; auto; done.
  - destruct (Hone (update_ok _ _ _ _ Hup Hkk)) as (b & ? & ? & ?).
    exists b, 1. split_and!; auto; done.
Qed.

(** The same with retries. *)
Lemma writeStatus_spec key c w r w' a :
  look w = Some a -> writeStatus client key c w = (r, w') -> wrote key c w r w' a.
Proof.
  intros Ha Hw. unfold writeStatus in Hw. apply retry_attempts in Hw. revert a Ha.
  induction Hw as [w r w' Hw|w e w1 r w' Hw Hc _ IH]; intros a Ha; [by eapply write_attempt_spec|].
  destruct (write_attempt_spec _ _ _ _ _ _ Ha Hw) as (b & n & Hb & Hacc & Hh & Hne & Heq).
  assert (n = 0) as ->.
  { destruct (decide (key = k)) as [Hk|Hk]; [|by apply Hne].
    destruct (Heq Hk) as [[?|[_ ?]] _]; [done|congruence]. }
  destruct (IH b Hb) as (b' & n & Hb' & Hacc' & Hh' & Hrest). exists b', n.
  split_and!; [done|lia| |by apply Hrest|by apply Hrest].
  by rewrite Hh', Hh.
Qed.

(** What the tracker still owes the status of [k]: the requests counted and
    not yet in it. *)
Definition mem_count (t : Tracker V) : Z := from_option count 0%Z (counters t !! k).
Definition mem_flushed (t : Tracker V) : Z := from_option flushed 0%Z (counters t !! k).
Definition mem_dirty (t : Tracker V) : bool := from_option dirty false (counters t !! k).

Definition balanced (base n : Z) (h cnt fl : Z) : Prop :=
  Int.int64 (h + (cnt - fl)) = Int.int64 (base + n).

(** Nothing of [k] is held by the flush. *)
Definition quiet (base n h : Z) (t : Tracker V) : Prop :=
  balanced base n h (mem_count t) (mem_flushed t) /\
  (mem_dirty t = true \/ mem_count t = mem_flushed t).

(** The pending entries, when no write of [k] is being settled. *)
Definition writing_inv (base n h : Z) (t : Tracker V)
    (todo : list (NamespacedName * counter)) : Prop :=
  NoDup todo.*1 /\
  (k ∉ todo.*1 -> quiet base n h t) /\
  (forall c, (k, c) ∈ todo ->
      is_Some (counters t !! k) /\ flushed c = mem_flushed t /\
      balanced base n h (mem_count t) (mem_flushed t) /\
      (mem_dirty t = true \/ mem_count t = count c)).

Definition settling_inv (base n h : Z) (t : Tracker V) (p : NamespacedName * counter)
    (r : error + unit) (todo : list (NamespacedName * counter)) : Prop :=
  NoDup (p :: todo).*1 /\
  (p.1 <> k -> writing_inv base n h t todo) /\
  (p.1 = k ->
     is_Some (counters t !! k) /\
     match r with
     | inr _ => balanced base n h (mem_count t) (count p.2) /\
                (mem_dirty t = true \/ mem_count t = count p.2)
     | inl e => IsNotFound e = false /\ balanced base n h (mem_count t) (mem_flushed t)
     end).

(** The invariant: [n] requests recorded for [k], or written a second time
    after a lost reply, on top of the [base] its status started with. *)
Definition inv (base n : Z) (s : Sys V W) : Prop :=
  exists kt, look (s_w s) = Some kt /\
  match s_f s with
  | Idle => quiet base n (hits kt) (s_t s)
  | Writing todo => writing_inv base n (hits kt) (s_t s) todo
  | Settling p r todo => settling_inv base n (hits kt) (s_t s) p r todo
  end.

Lemma balanced_bump base n h cnt fl :
  balanced base n h cnt fl -> balanced base (n + 1) h (Int.int64 (cnt + 1)) fl.
Proof.
  unfold balanced. intros Hb.
  replace (h + (Int.int64 (cnt + 1) - fl))%Z with (h - fl + Int.int64 (cnt + 1))%Z by lia.
  rewrite Int.int64_add_r.
  replace (h - fl + (cnt + 1))%Z with (h + (cnt - fl) + 1)%Z by lia.
  rewrite <- Int.int64_add_l, Hb, Int.int64_add_l. f_equal. lia.
Qed.

(** Writing the delta moves it from memory to the status. *)
Lemma balanced_write base n h cnt fl c :
  balanced base n h cnt fl -> flushed c = fl ->
  balanced base n (Int.int64 (h + (count c - flushed c))) cnt (count c).
Proof.
  unfold balanced. intros Hb <-. rewrite Int.int64_add_l, <- Hb. f_equal. lia.
Qed.

(** Writing it without learning so leaves it in memory as well. *)
Lemma balanced_lost base n h cnt fl d :
  balanced base n h cnt fl -> balanced base (n + d) (Int.int64 (h + d)) cnt fl.
Proof.
  unfold balanced. intros Hb. rewrite Int.int64_add_l.
  replace (h + d + (cnt - fl))%Z with (h + (cnt - fl) + d)%Z by lia.
  rewrite <- Int.int64_add_l, Hb, Int.int64_add_l. f_equal. lia.
Qed.

(** The invariants read the memory only at [k]. *)
Lemma writing_inv_ext base n h t t' todo :
  counters t !! k = counters t' !! k -> writing_inv base n h t todo -> writing_inv base n h t' todo.
Proof.
  unfold writing_inv, quiet, mem_count, mem_flushed, mem_dirty. by intros ->.
Qed.

Lemma settling_inv_ext base n h t t' p r todo :
  counters t !! k = counters t' !! k ->
  settling_inv base n h t p r todo -> settling_inv base n h t' p r todo.
Proof.
  unfold settling_inv, writing_inv, quiet, mem_count, mem_flushed, mem_dirty. by intros ->.
Qed.

Lemma Record_mem ns name ip when (t : Tracker V) :
  let t' := Record_ ns name ip when t in
  if decide (NN ns name = k) then
    mem_count t' = Int.int64 (mem_count t + 1) /\ mem_flushed t' = mem_flushed t /\
    mem_dirty t' = true /\ is_Some (counters t' !! k)
  else counters t !! k = counters t' !! k.
Proof.
  simpl. unfold mem_count, mem_flushed, mem_dirty, Record_. case_decide as Hk; subst; simpl.
  - rewrite lookup_insert_eq. simpl. destruct (counters t !! NN ns name); simpl; eauto.
  - by rewrite lookup_insert_ne.
Qed.

(** [Record] for [k] keeps what is owed in balance, wherever the flush is. *)
Lemma bump_inv base n h (t t' : Tracker V) todo :
  mem_count t' = Int.int64 (mem_count t + 1) -> mem_flushed t' = mem_flushed t ->
  mem_dirty t' = true -> is_Some (counters t' !! k) ->
  (quiet base n h t -> quiet base (n + 1) h t') /\
  (writing_inv base n h t todo -> writing_inv base (n + 1) h t' todo).
Proof.
  intros Hc Hfl Hd Hs.
  assert (Hq : quiet base n h t -> quiet base (n + 1) h t').
  { intros [Hb _]. split; [|by left]. rewrite Hc, Hfl. by apply balanced_bump. }
  split; [done|]. intros (Hn & Hout & Hin). split_and!; [done|by auto|].
  intros c Hc'. destruct (Hin c Hc') as (_ & -> & Hb & _).
  rewrite Hc, Hfl. split_and!; auto. by apply balanced_bump.
Qed.

Lemma inv_record base n ns name ip when t w f :
  inv base n (mkSys t w f) ->
  inv base (n + recorded_by (Recorded (NN ns name))) (mkSys (Record_ ns name ip when t) w f).
Proof.
  intros (kt & Hkt & Hf). exists kt. simpl in *.
  pose proof (Record_mem ns name ip when t) as Hr. cbv zeta in Hr.
  generalize dependent (Record_ ns name ip when t). intros t' Hr.
  split; [done|]. case_decide as Hk.
  - destruct Hr as (Hc & Hfl & Hd & Hs).
    pose proof (fun todo => bump_inv base n (hits kt) t t' todo Hc Hfl Hd Hs) as Hbump.
    destruct f as [|todo|p r todo].
    + by apply (proj1 (Hbump [])).
    + by apply (proj2 (Hbump _)).
    + destruct Hf as (Hn & Hne & Heq). split_and!; [done| |].
      * intros Hp. by apply (proj2 (Hbump _)), Hne.
      * intros Hp. destruct (Heq Hp) as [_ Hf]. split; [done|].
        destruct r as [e|]; rewrite Hc, ?Hfl; destruct Hf; split;
          solve [done | by apply balanced_bump | by left].
  - rewrite Z.add_0_r. destruct f as [|todo|p r todo].
    + revert Hf. unfold quiet, mem_count, mem_flushed, mem_dirty. by rewrite Hr.
    + by eapply writing_inv_ext.
    + by eapply settling_inv_ext.
Qed.

Lemma inv_env base n t w w' f :
  env w w' -> inv base n (mkSys t w f) -> inv base n (mkSys t w' f).
Proof.
  intros He (kt & Hkt & Hf). simpl in *.
  destruct (env_hits _ _ _ He Hkt) as (kt' & Hkt' & Hh). exists kt'. simpl. by rewrite Hh.
Qed.

Lemma inv_snapshot base n t w order todo t' :
  order ≡ₚ elements (dom (counters t)) -> snapshot order t = (todo, t') ->
  inv base n (mkSys t w Idle) -> inv base n (mkSys t' w (Writing todo)).
Proof.
  intros Hperm Hs (kt & Hkt & Hb & Hd). simpl in *.
  assert (Hn : NoDup order) by (rewrite Hperm; apply NoDup_elements).
  destruct (snapshot_fold order [] (counters t) Hn) as (m' & Hf & Hm').
  unfold snapshot in Hs. rewrite Hf in Hs. simplify_eq/=.
  assert (Hk : m' !! k = c_set_dirty false <$> counters t !! k).
  { rewrite Hm'. case_decide as Hin; [done|]. rewrite Hperm, elem_of_elements, not_elem_of_dom in Hin.
    by rewrite Hin. }
  assert (Hmc : mem_count (set_counters t m') = mem_count t /\
                mem_flushed (set_counters t m') = mem_flushed t).
  { unfold mem_count, mem_flushed; simpl. rewrite Hk. by destruct (counters t !! k). }
  destruct Hmc as [Hmc Hmf]. exists kt. simpl. split; [done|].
  split_and!; [by apply dirty_entries_keys_NoDup| |].
  - intros Hout. split; [by rewrite Hmc, Hmf|]. right. rewrite Hmc, Hmf.
    destruct Hd as [Hd|Hd]; [|done]. destruct Hout. unfold mem_dirty in Hd.
    destruct (counters t !! k) as [c|] eqn:Ec; simpl in Hd; [|done].
    apply list_elem_of_fmap. exists (k, c). split; [done|]. apply elem_of_dirty_entries.
    rewrite Hperm, elem_of_elements, elem_of_dom, Ec. eauto.
  - intros c (_ & Hc & _)%elem_of_dirty_entries. rewrite Hmc, Hmf. simpl.
    unfold mem_count, mem_flushed in *. rewrite Hc in *. simpl in *. rewrite Hk. simpl. eauto.
Qed.

Lemma inv_write base n t w p todo r w' :
  writeStatus client p.1 p.2 w = (r, w') ->
  inv base n (mkSys t w (Writing (p :: todo))) ->
  inv base (n + sumZ (lost_by (Written p r (accepted w' - accepted w))))
    (mkSys t w' (Settling p r todo)).
Proof.
  intros Hw (kt & Hkt & Hn & Hout & Hin). csimpl in *.
  destruct (writeStatus_spec _ _ _ _ _ _ Hkt Hw) as (b & m & Hb & Hacc & Hh & Hne & Heq).
  replace (accepted w' - accepted w) with m by lia.
  exists b. simpl. split; [done|]. split_and!; [done| |].
  - intros Hp. rewrite (Hne Hp) in *. rewrite Hh.
    replace (n + sumZ _)%Z with n by (destruct r; simpl; lia).
    apply NoDup_cons in Hn as [_ Hn].
    split_and!; [done|set_solver|]. intros c Hc. apply Hin. by right.
  - destruct p as [key c]. simpl in *. intros ->.
    destruct (Hin c) as (Hs & Hfl & Hbal & Hd); [by left|]. split; [done|].
    specialize (Heq eq_refl). destruct r as [e|].
    + destruct Heq as [Hm He]. split; [done|].
      destruct Hm as [->|[-> _]]; simpl in *; rewrite Hh, ?Z.add_0_r; [done|].
      by apply balanced_lost.
    + subst m. rewrite Hh. simpl. rewrite Z.add_0_r. split; [|done].
      by eapply balanced_write.
Qed.

Lemma inv_settle base n t w p r todo :
  inv base n (mkSys t w (Settling p r todo)) ->
  inv base n (mkSys (settle p r t) w (Writing todo)).
Proof.
  destruct p as [key c0]. intros (kt & Hkt & Hn & Hne & Heq). csimpl in *.
  pose proof (settle_lookup (key, c0) r t k) as Hl. exists kt. simpl in *. split; [done|].
  generalize dependent (settle (key, c0) r t). intros t' Hl.
  apply NoDup_cons in Hn as [Hp Hn].
  destruct (decide (k = key)) as [<-|Hk].
  - destruct (Heq eq_refl) as [[c Hc] Hr]. clear Heq Hne.
    assert (Hno : forall c', (k, c') ∉ todo).
    { intros c' Hc'. apply Hp, list_elem_of_fmap. by exists (k, c'). }
    unfold settled in Hl. rewrite Hc in Hl.
    unfold writing_inv, quiet, mem_count, mem_flushed, mem_dirty in *. rewrite Hc in *.
    destruct r as [err|u]; [destruct Hr as [He Hb]; rewrite He in Hl|destruct Hr as [Hb Hd]];
      rewrite Hl; simpl in *; split_and!; auto; intros c' []%Hno.
  - by eapply writing_inv_ext; [symmetry|apply Hne].
Qed.

Lemma inv_step base n s l s' :
  step s l s' -> inv base n s -> inv base (n + gain l) s'.
Proof.
  intros Hs Hi. destruct Hs; try (change (gain Internal) with 0%Z; rewrite Z.add_0_r);
    unfold gain.
  - change (sumZ (lost_by (Recorded (NN ns name)))) with 0%Z. rewrite Z.add_0_r. by apply inv_record.
  - by eapply inv_env.
  - by eapply inv_snapshot.
  - change (recorded_by (Written _ _ _)) with 0%Z. rewrite Z.add_0_l. by apply inv_write.
  - by apply inv_settle.
  - destruct Hi as (kt & Hkt & _ & Hout & _). exists kt. simpl in *.
    split; [done|]. apply Hout, not_elem_of_nil.
Qed.

Lemma inv_steps base n s0 tr s :
  steps s0 tr s -> inv base n s0 -> inv base (n + (recorded tr + sumZ (lost tr))) s.
Proof.
  induction 1 as [s|s1 tr s2 l s3 _ IH Hs]; intros Hi.
  { change (recorded [] + sumZ (lost []))%Z with 0%Z. by rewrite Z.add_0_r. }
  rewrite recorded_snoc, lost_snoc, sumZ_app.
  replace (_ + (_ + _ + (_ + _)))%Z with (n + (recorded tr + sumZ (lost tr)) + gain l)%Z
    by (unfold gain; lia).
  eapply inv_step; eauto.
Qed.

Lemma steps_trans s1 tr1 s2 tr2 s3 : steps s1 tr1 s2 -> steps s2 tr2 s3 -> steps s1 (tr1 ++ tr2) s3.
Proof.
  intros H1 H2. revert tr1 H1. induction H2 as [|s2 tr s l s' _ IH Hs]; intros tr1 H1.
  - by rewrite app_nil_r.
  - rewrite (assoc_L (++)). eapply steps_snoc; eauto.
Qed.

(** Every failing write is counted by the metric once it is settled. *)
Definition unsettled (f : flusher) : Z :=
  match f with Settling _ (inl e) _ => if IsNotFound e then 0 else 1 | _ => 0 end.

Lemma Record_errs ns name ip when (t : Tracker V) : errs (Record_ ns name ip when t) = errs t.
Proof. done. Qed.

Lemma snapshot_errs order (t : Tracker V) : errs (snapshot order t).2 = errs t.
Proof. unfold snapshot. by destruct (foldl _ _ _). Qed.

Lemma errs_step s l s' :
  step s l s' ->
  (errs (s_t s') + unsettled (s_f s') = errs (s_t s) + unsettled (s_f s) + failed_by l)%Z.
Proof.
  intros Hs. destruct Hs as [| |t w order todo t' Hp Hsn| | |]; simpl.
  - rewrite Record_errs. lia.
  - lia.
  - pose proof (snapshot_errs order t) as He. rewrite Hsn in He. simpl in He. lia.
  - destruct r as [e|]; [destruct (IsNotFound e)|]; lia.
  - rewrite settle_errs. destruct r as [e|]; [destruct (IsNotFound e)|]; lia.
  - lia.
Qed.

Lemma errs_steps s0 tr s :
  steps s0 tr s ->
  (errs (s_t s) + unsettled (s_f s) = errs (s_t s0) + unsettled (s_f s0) + failed tr)%Z.
Proof.
  induction 1 as [s|s1 tr s2 l s3 _ IH Hs]; [simpl; lia|].
  rewrite failed_snoc. pose proof (errs_step _ _ _ Hs). lia.
Qed.

(** A lost reply is a failing write. *)
Lemma lost_le_failed base n s l s' :
  step s l s' -> inv base n s -> (Z.of_nat (length (lost_by l)) <= failed_by l)%Z.
Proof.
  intros Hs (kt & Hkt & _). destruct Hs as [| | |t w p todo r w' Hw| |]; simpl; try lia.
  destruct r as [e|]; simpl; [|lia]. simpl in Hkt.
  destruct (writeStatus_spec _ _ _ _ _ _ Hkt Hw) as (b & m & Hb & Hacc & Hh & Hne & Heq).
  replace (accepted w' - accepted w) with m by lia.
  destruct m as [|m]; [simpl; destruct (IsNotFound e); lia|].
  destruct (decide (p.1 = k)) as [Hk|Hk]; [|by specialize (Hne Hk)].
  destruct (Heq Hk) as [_ ->]. simpl. lia.
Qed.

Lemma lost_steps base n s0 tr s :
  steps s0 tr s -> inv base n s0 -> (Z.of_nat (length (lost tr)) <= failed tr)%Z.
Proof.
  induction 1 as [s|s1 tr s2 l s3 Hst IH Hs]; intros Hi; [simpl; lia|].
  rewrite lost_snoc, length_app, failed_snoc.
  pose proof (lost_le_failed _ _ _ _ _ Hs (inv_steps _ _ _ _ _ Hst Hi)). specialize (IH Hi). lia.
Qed.

(** Between two idle moments no more replies were lost than errors counted. *)
Lemma lost_le_errs base n s0 tr s :
  steps s0 tr s -> inv base n s0 -> s_f s0 = Idle -> s_f s = Idle ->
  (Z.of_nat (length (lost tr)) <= errs (s_t s) - errs (s_t s0))%Z.
Proof.
  intros Hs Hi Hf Hf'. pose proof (lost_steps _ _ _ _ _ Hs Hi).
  pose proof (errs_steps _ _ _ Hs) as He. rewrite Hf, Hf' in He. simpl in He. lia.
Qed.

Lemma quiet_exact base n h t :
  quiet base n h t ->
  Int.int64 (h + (mem_count t - mem_flushed t)) = Int.int64 (base + n) /\
  (mem_dirty t = false -> Int.int64 h = Int.int64 (base + n)).
Proof.
  intros [Hb Hd]. split; [done|]. intros Hnd. destruct Hd as [Hd|Hd]; [congruence|].
  rewrite <- Hb, Hd. f_equal. lia.
Qed.

(** A process that has just started: nothing in memory, no flush running. *)
Definition fresh (s : Sys V W) : Prop := counters (s_t s) = ∅ /\ s_f s = Idle.

Lemma inv_fresh s kt : fresh s -> look (s_w s) = Some kt -> inv (hits kt) 0 s.
Proof.
  intros [Hc Hf] Hkt. exists kt. rewrite Hf.
  unfold quiet, balanced, mem_count, mem_flushed, mem_dirty. rewrite Hc, lookup_empty. simpl.
  split_and!; auto.
Qed.

(** C3: exact accounting under every interleaving. Start a tracker with
    empty memory while the decoy's status says [hits kt0] requests; let
    [Record] calls, the steps of flushes and other API clients' writes
    interleave in any way, where a write may be refused, conflict and be
    retried, or be taken by the server and yet report an error because its
    reply was lost. Whenever no flush is in progress, what the status holds
    plus what memory has not flushed is, modulo 2^64, the starting count plus
    the number of requests recorded plus the deltas of the writes whose reply
    was lost: no request is lost, and one is counted twice exactly when it was
    in such a write. Each of these has raised the flush-error metric, so while
    that is still what it was the count is exact. A counter that is not marked
    dirty owes nothing, so then the status itself is the sum. *)
Theorem accounting_exact s0 tr s kt0 :
  fresh s0 -> look (s_w s0) = Some kt0 -> steps s0 tr s -> s_f s = Idle ->
  (exists kt, look (s_w s) = Some kt /\
     Int.int64 (hits kt + (mem_count (s_t s) - mem_flushed (s_t s))) =
       Int.int64 (hits kt0 + (recorded tr + sumZ (lost tr))) /\
     (mem_dirty (s_t s) = false ->
        Int.int64 (hits kt) = Int.int64 (hits kt0 + (recorded tr + sumZ (lost tr))))) /\
  (Z.of_nat (length (lost tr)) <= errs (s_t s) - errs (s_t s0))%Z.
Proof.
  intros Hf Hkt0 Hs Hidle. pose proof (inv_fresh _ _ Hf Hkt0) as Hi0. split.
  - destruct (inv_steps _ _ _ _ _ Hs Hi0) as (kt & Hkt & Hi).
    rewrite Hidle in Hi. exists kt. split; [done|]. by apply quiet_exact.
  - eapply lost_le_errs; [done|done|apply Hf|done].
Qed.

(** A sequential flush is a run of the step relation. *)
Lemma flush_writes_steps todo t w s0 tr :
  steps s0 tr (mkSys t w (Writing todo)) ->
  exists tr', steps s0 tr' (mkSys (flush_writes client todo (t, w)).1
                              (flush_writes client todo (t, w)).2 Idle) /\
    recorded tr' = recorded tr.
Proof.
  revert t w tr. induction todo as [|p todo IH]; intros t w tr Hs.
  - exists (tr ++ [Internal]). split; [|rewrite recorded_snoc; simpl; lia].
    eapply steps_snoc; [done|]. apply step_done.
  - simpl. destruct (writeStatus client p.1 p.2 w) as [r w'] eqn:Hw.
    destruct (IH (settle p r t) w' ((tr ++ [Written p r (accepted w' - accepted w)]) ++ [Internal]))
      as (tr' & Hs' & Hr).
    { eapply steps_snoc; [|apply step_settle]. eapply steps_snoc; [done|]. by apply step_write. }
    exists tr'. split; [done|]. rewrite Hr, !recorded_snoc. simpl. lia.
Qed.

Lemma flush_steps order t w :
  order ≡ₚ elements (dom (counters t)) ->
  exists tr', steps (mkSys t w Idle) tr' (mkSys (flush client order (t, w)).1
                              (flush client order (t, w)).2 Idle) /\
    recorded tr' = 0%Z.
Proof.
  intros Hperm. unfold flush. destruct (snapshot order t) as [todo t'] eqn:Hsn.
  apply (flush_writes_steps todo t' w _ [Internal]).
  apply (steps_snoc _ [] (mkSys t w Idle)); [constructor|]. by eapply step_snapshot.
Qed.


End Steps.

(** *** An API server in memory

    A store of decoys that refuses an update at a stale resource version, and
    whose reply to an update it has taken may get lost: [sv_lose] says which of
    the replies to come. *)

Record store := {
  sv_objects : gmap NamespacedName Decoy; sv_taken : list NamespacedName; sv_lose : list bool }.

Definition store_of (l : list Decoy) (lose : list bool) : store :=
  {| sv_objects := list_to_map ((fun kt => (kt_key kt, kt)) <$> l); sv_taken := []; sv_lose := lose |}.

Definition on_objects (f : gmap NamespacedName Decoy -> gmap NamespacedName Decoy) (w : store) : store :=
  {| sv_objects := f (sv_objects w); sv_taken := sv_taken w; sv_lose := sv_lose w |}.

(** The updates of [k] the store has taken. *)
Definition taken (k : NamespacedName) (w : store) : nat :=
  length (filter (fun key => key = k) (sv_taken w)).

Definition with_version (kt : Decoy) (rv : string) : Decoy :=
  {| kt_Meta := let m := kt_Meta kt in
       {| om_Name := om_Name m; om_Namespace := om_Namespace m; om_UID := om_UID m;
          om_ResourceVersion := rv; om_Generation := om_Generation m;
          om_CreationTimestamp := om_CreationTimestamp m;
          om_DeletionTimestamp := om_DeletionTimestamp m; om_Labels := om_Labels m;
          om_Annotations := om_Annotations m; om_OwnerReferences := om_OwnerReferences m;
          om_Finalizers := om_Finalizers m |};
     kt_Spec := kt_Spec kt; kt_Status := kt_Status kt |}.

Definition api_error (r : StatusReason) : error :=
  {| e_Reason := r; e_Causes := []; e_Message := "" |}.

Definition store_get (key : NamespacedName) : E store Decoy := fun w =>
  match sv_objects w !! key with
  | Some kt => if decide (kt_key kt = key) then (inr kt, w) else (inl (api_error ReasonOther), w)
  | None => (inl (api_error ReasonNotFound), w)
  end.

Definition store_status_update (kt : Decoy) : E store Decoy := fun w =>
  match sv_objects w !! kt_key kt with
  | Some cur =>
      if decide (om_ResourceVersion (kt_Meta cur) = om_ResourceVersion (kt_Meta kt)) then
        let new := with_version
          {| kt_Meta := kt_Meta cur; kt_Spec := kt_Spec cur; kt_Status := kt_Status kt |}
          (om_ResourceVersion (kt_Meta cur) +:+ "+") in
        (if default false (head (sv_lose w)) then inl (api_error ReasonOther) else inr new,
         {| sv_objects := <[kt_key kt := new]> (sv_objects w);
            sv_taken := kt_key kt :: sv_taken w; sv_lose := tail (sv_lose w) |})
      else (inl (api_error ReasonConflict), w)
  | None => (inl (api_error ReasonNotFound), w)
  end.

Definition store_client : Client store Decoy := {|
  Get := store_get;
  List_ _ w := (inr (map_to_list (sv_objects w)).*2, w);
  Create kt w := (inr kt, on_objects <[kt_key kt := kt]> w);
  Update kt w := (inr kt, on_objects <[kt_key kt := kt]> w);
  StatusUpdate := store_status_update;
  Delete kt w := (inr tt, on_objects (delete (kt_key kt)) w) |}.

(** What the store knows of [k]. *)
Definition store_look (k : NamespacedName) (w : store) : option Decoy * nat :=
  (sv_objects w !! k, taken k w).

(** An update that the store takes is a commit, whatever becomes of the
    reply; one it does not take leaves the store alone. *)
Lemma store_update_cases k kt w r w' :
  store_status_update kt w = (r, w') -> kt_key kt = k ->
  (exists e, r = inl e /\ w' = w /\ (is_Some (sv_objects w !! k) -> IsNotFound e = false)) \/
  (commits (fun a b => store_look k a = store_look k b) (fun w => sv_objects w !! k) (taken k) kt w w' /\
   forall e, r = inl e -> IsConflict e = false /\ IsNotFound e = false).
Proof.
  unfold store_status_update. intros Hu <-.
  destruct (sv_objects w !! kt_key kt) as [cur|] eqn:E.
  2:{ left. simplify_eq. eexists. split_and!; [done|done|]. by intros [? ?]. }
  case_decide as Hrv; [|left; simplify_eq; by eexists]. right.
  injection Hu as <- <-. split.
  - eexists w, cur, _, _. split_and!; [done|exact E|done| | | |reflexivity]; simpl.
    + apply lookup_insert_eq.
    + done.
    + unfold taken. simpl. by rewrite filter_cons, decide_True.
  - intros e. by destruct (default false _); intros [= <-].
Qed.

#[global] Program Instance store_server k : DecoyServer store_client k := {|
  env w w' := store_look k w = store_look k w';
  look w := sv_objects w !! k;
  accepted := taken k;
  seen w kt := sv_objects w !! k = Some kt |}.
Next Obligation. intros k. split; [by intros w|by intros w1 w2 w3 -> ->]. Qed.
Next Obligation. intros k w w' kt. unfold store_look. simpl. congruence. Qed.
Next Obligation. intros k w w' a [= He _] Ha. exists a. by rewrite <- He. Qed.
Next Obligation. by intros k w w' [= _ He]. Qed.
Next Obligation. intros k w kt cur. simpl. congruence. Qed.
Next Obligation.
  intros k key w kt w'. simpl. unfold store_get. intros Hg.
  destruct (sv_objects w !! key) eqn:E; [|done]. case_decide; simplify_eq.
  split_and!; [done|done|]. by intros <-.
Qed.
Next Obligation.
  intros k key w e w'. simpl. unfold store_get. intros Hg.
  destruct (sv_objects w !! key) eqn:E; [case_decide|]; simplify_eq; (split; [done|]); [done|].
  intros -> [? ?]. congruence.
Qed.
Next Obligation.
  intros k kt w kt' w' Hu Hk. by destruct (store_update_cases k kt w _ w' Hu Hk) as [(? & ? & _)|[? _]].
Qed.
Next Obligation.
  intros k kt w r w' Hu Hne. simpl in Hu. unfold store_status_update in Hu.
  destruct (sv_objects w !! kt_key kt) as [cur|] eqn:E; [|by simplify_eq].
  case_decide; injection Hu as <- <-; [|done]. unfold store_look, taken. simpl.
  by rewrite lookup_insert_ne, filter_cons, decide_False.
Qed.
Next Obligation.
  intros k kt w e w' Hu Hk.
  destruct (store_update_cases k kt w _ w' Hu Hk) as [(? & [= <-] & -> & ?)|[? He]]; [by left|right].
  by split; [|apply He].
Qed.

(** Two requests, the second recorded while the first is being written: one
    is in the status, the other still owed. *)
Definition demo_key : NamespacedName := NN "traps" "web".
Definition demo_store : store := store_of [mk_decoy "traps" "web" empty_spec] [].
Definition demo_tracker : Tracker (gmap (list string) Z) := New new_registry.
Definition demo_start : Sys (gmap (list string) Z) store := mkSys demo_tracker demo_store Idle.

Definition demo_t1 := Record_ "traps" "web" "10.1.2.3" 7 demo_tracker.
Definition demo_todo := (snapshot [demo_key] demo_t1).1.
Definition demo_t2 := (snapshot [demo_key] demo_t1).2.
Definition demo_t3 := Record_ "traps" "web" "10.1.2.4" 9 demo_t2.

Definition demo_pending : NamespacedName * counter :=
  (demo_key, bump "10.1.2.3" 7 (new_counter 7)).

Definition demo_write := @writeStatus _ store_client default_retry demo_key demo_pending.2 demo_store.
Definition demo_t4 := settle demo_pending demo_write.1 demo_t3.

Definition demo_trace : list event :=
  [Recorded demo_key; Internal; Recorded demo_key; Written demo_pending demo_write.1 1; Internal; Internal].

Lemma demo_run :
  @steps _ _ _ store_client default_retry demo_key _ demo_start demo_trace
    (mkSys demo_t4 demo_write.2 Idle).
Proof.
  pose proof default_retry_laws as Hl.
  change demo_trace with ((((([] ++ [Recorded demo_key]) ++ [Internal]) ++ [Recorded demo_key])
    ++ [Written demo_pending demo_write.1 1]) ++ [Internal] ++ [Internal]).
  rewrite (assoc_L (++)).
  assert (Hone : 1 = @accepted _ _ demo_key (store_server demo_key) demo_write.2
                     - @accepted _ _ demo_key (store_server demo_key) demo_store)
    by (vm_compute; reflexivity).
  eapply steps_snoc; [|apply step_done].
  eapply steps_snoc; [|apply step_settle].
  eapply steps_snoc; [|rewrite Hone; eapply (step_write _ _ _ _ demo_pending []); apply surjective_pairing].
  eapply steps_snoc; [|apply step_record].
  eapply steps_snoc; [|eapply (step_snapshot _ _ demo_t1 _ [demo_key]); [vm_compute; reflexivity|]; vm_compute; reflexivity].
  eapply steps_snoc; [apply steps_refl|apply step_record].
Qed.

Lemma accounting_exact_witness :
  exists kt, sv_objects demo_write.2 !! demo_key = Some kt /\ hits kt = 1%Z /\
    Int.int64 (hits kt + (mem_count demo_key demo_t4 - mem_flushed demo_key demo_t4)) =
    Int.int64 (0 + 2).
Proof.
  destruct (@accounting_exact _ _ _ store_client default_retry default_retry_laws demo_key
    (store_server demo_key)
    demo_start demo_trace _ (mk_decoy "traps" "web" empty_spec)
    (conj eq_refl eq_refl) ltac:(vm_compute; reflexivity) demo_run eq_refl) as [(kt & Hkt & Hb & _) _].
  exists kt. split; [exact Hkt|]. split; [|exact Hb].
  assert (Hh : hits <$> (sv_objects demo_write.2 !! demo_key) = Some 1%Z) by (vm_compute; reflexivity).
  assert (Some (hits kt) = Some 1%Z) as [= ->]; [|reflexivity].
  rewrite <- Hh. symmetry. exact (f_equal (fmap hits) Hkt).
Defined.


(** One request, one flush whose reply is lost, and the flush that retries:
    the status says two. *)
Lemma lost_reply_counts_twice :
  let lossy := store_of [mk_decoy "traps" "web" empty_spec] [true] in
  let once := @flush _ _ store_client default_retry [demo_key] (demo_t1, lossy) in
  let twice := @flush _ _ store_client default_retry [demo_key] once in
  hits <$> (sv_objects once.2 !! demo_key) = Some 1%Z /\ mem_dirty demo_key once.1 = true /\
  hits <$> (sv_objects twice.2 !! demo_key) = Some 2%Z /\ mem_count demo_key twice.1 = 1%Z /\
  mem_dirty demo_key twice.1 = false.
Proof. vm_compute. repeat split. Qed.

(** [flush_outcome] for a decoy deleted while its counter was dirty: the
    write answers NotFound and the counter goes. *)
Lemma flush_outcome_witness :
  counters demo_t1 !! demo_key = Some demo_pending.2 /\
  exists w1 r w2,
    @writeStatus _ store_client default_retry demo_key demo_pending.2 w1 = (r, w2) /\
    counters (@flush _ _ store_client default_retry [demo_key] (demo_t1, store_of [] [])).1 !! demo_key =
    match r with
    | inr _ => Some (c_set_flushed 1 (c_set_dirty false demo_pending.2))
    | inl e => if IsNotFound e then None else Some demo_pending.2
    end.
Proof.
  assert (Hc : counters demo_t1 !! demo_key = Some demo_pending.2) by (vm_compute; reflexivity).
  split; [exact Hc|].
  pose proof (@flush_outcome _ _ store_client default_retry [demo_key] demo_t1 (store_of [] []) demo_key
    ltac:(vm_compute; reflexivity)) as H.
  rewrite Hc in H. destruct H as (w1 & r & w2 & Hw & Hr & _).
  exists w1, r, w2. split; [exact Hw|exact Hr].
Defined.

End Interleaving.

(** ** A sequence of [Record] calls *)

Section RecordSeq.
Context {V : Type} `{VecLaws V}.

(** One call: namespace, name, source address, time. *)
Record call := { cl_ns : string; cl_name : string; cl_ip : string; cl_when : Time }.

Definition record_call (t : Tracker V) (c : call) : Tracker V :=
  Record_ (cl_ns c) (cl_name c) (cl_ip c) (cl_when c) t.

Definition calls_for (k : NamespacedName) (cs : list call) : list call :=
  filter (fun c => NN (cl_ns c) (cl_name c) = k) cs.

(** The first value of a list that is not the zero value [z], or [z]. *)
Definition first_nonzero {A} `{EqDecision A} (z : A) (l : list A) : A :=
  default z (head (filter (fun x => x <> z) l)).

Lemma first_nonzero_snoc {A} `{EqDecision A} (z : A) l x :
  first_nonzero z (l ++ [x]) = if decide (first_nonzero z l = z) then x else first_nonzero z l.
Proof.
  unfold first_nonzero. rewrite filter_app, head_app.
  destruct (filter _ l) as [|y l'] eqn:E; simpl.
  - rewrite decide_True, filter_cons, filter_nil by done. case_decide as Hx; simpl; [done|congruence].
  - rewrite decide_False; [done|].
    assert (Hy : y ∈ filter (fun x => x <> z) l) by (rewrite E; left).
    by apply list_elem_of_filter in Hy as [? _].
Qed.

(** What any sequence of [Record] calls leaves for one decoy, however
    the calls for other decoys are mixed in: as many requests as calls (as an
    [int64]), the latest time, the first time that is not zero, the last
    source address that is not empty, and the same number added to the
    decoy's request metric; nothing at all when there was no call for it. *)
Theorem Record_sequence reg cs k :
  let t := foldl record_call (New reg) cs in
  let mine := calls_for k cs in
  counters t !! k =
    (if decide (mine = []) then None else Some
      {| firstSeen := first_nonzero 0%Z (cl_when <$> mine);
         lastSeen := foldl Z.max 0%Z (cl_when <$> mine);
         count := Int.int64 (Z.of_nat (length mine)); flushed := 0;
         lastSourceIP := first_nonzero "" (reverse (cl_ip <$> mine)); dirty := true |}) /\
  vec_value (AttackerRequests (registry t)) [nn_Namespace k; nn_Name k] =
    (let before := vec_value (AttackerRequests reg) [nn_Namespace k; nn_Name k] in
     if decide (mine = []) then before
     else Some (default 0 before + Z.of_nat (length mine))%Z).
Proof.
  simpl. induction cs as [|c cs IH] using rev_ind; simpl.
  { by rewrite lookup_empty. }
  rewrite foldl_snoc. destruct IH as [IHc IHm].
  unfold calls_for in *. rewrite filter_app, filter_cons, filter_nil.
  generalize dependent (foldl record_call (New reg) cs). intros t IHc IHm.
  unfold record_call, Record_. simpl. rewrite vec_value_add.
  destruct (decide (NN (cl_ns c) (cl_name c) = k)) as [Hk|Hk].
  - rewrite !(decide_False (P := _ ++ _ = [])) by (by intros [_ ?]%app_eq_nil).
    subst k. rewrite lookup_insert_eq, IHc. simpl in *.
    rewrite (decide_True (P := [cl_ns c; cl_name c] = [cl_ns c; cl_name c])), IHm by done.
    rewrite !fmap_app, length_app. simpl.
    rewrite first_nonzero_snoc, foldl_snoc, reverse_snoc.
    set (mine := filter _ cs) in *. split.
    + f_equal. case_decide as Hm.
      * rewrite Hm. simpl. unfold bump, new_counter, first_nonzero. simpl.
        f_equal; [by case_match| |].
        -- destruct (Z.ltb_spec 0 (cl_when c)); lia.
        -- rewrite ?filter_cons, ?filter_nil. case_bool_decide; case_decide; simpl; congruence.
      * unfold bump. simpl. unfold time_is_zero. f_equal.
        -- by case_bool_decide; case_decide.
        -- destruct (Z.ltb_spec (foldl Z.max 0%Z (cl_when <$> mine)) (cl_when c)); lia.
        -- autorewrite with go_rw. f_equal. lia.
        -- unfold first_nonzero. rewrite filter_cons.
           case_bool_decide; simpl; case_decide; done.
    + f_equal. case_decide as Hm; [rewrite Hm; simpl; lia|]. simpl. lia.
  - rewrite app_nil_r, lookup_insert_ne by done. split; [done|].
    rewrite decide_False; [done|]. destruct k; simpl. congruence.
Qed.

End RecordSeq.

(** Two calls for one decoy around a call for another. *)
Lemma Record_sequence_witness :
  let call ns ip t := {| cl_ns := ns; cl_name := "web"; cl_ip := ip; cl_when := t |} in
  count <$> (counters (foldl record_call (New (V := gmap (list string) Z) new_registry)
     [call "a" "10.0.0.1" 5%Z; call "b" "" 6%Z; call "a" "" 7%Z]) !! NN "a" "web") = Some 2%Z.
Proof.
  intros call.
  rewrite (proj1 (Record_sequence (V := gmap (list string) Z) new_registry
    [call "a" "10.0.0.1" 5%Z; call "b" "" 6%Z; call "a" "" 7%Z] (NN "a" "web"))).
  vm_compute. reflexivity.
Defined.
