(* ===== verification/AuditWebhook.v ===== *)
(** * internal/auditwebhook: the receiver of the decoys' audit events

    The request routed to [POST /audit/{namespace}/{name}] is decoded (the
    decoder is a parameter), the events that are not ResponseComplete are
    dropped, and the rest go to the callback in one batch. *)

From S2P Require Import Prelude GoStrings Json KubeTypes Kube Host.
#[local] Open Scope string_scope.
#[local] Open Scope list_scope.

(** [src/internal/auditwebhook/auditwebhook.go:25-30, ObjectRef] *)
Record ObjectRef := {
  ob_Resource : string; ob_Namespace : string; ob_Name : string; ob_Subresource : string }.

(** [src/internal/auditwebhook/auditwebhook.go:36-56, Event] *)
Record Event := {
  ev_Stage : string; ev_Verb : string; ev_RequestURI : string; ev_Username : string;
  ev_ObjectRef : option ObjectRef; ev_Code : Z; ev_RequestReceivedTimestamp : string;
  ev_SourceIPs : list string; ev_UserAgent : string }.

#[global] Instance ObjectRef_eq_dec : EqDecision ObjectRef.
Proof. solve_decision. Defined.
#[global] Instance Event_eq_dec : EqDecision Event.
Proof. solve_decision. Defined.

(** The JSON form the struct tags give. *)
Definition objectref_json (o : ObjectRef) : json :=
  JObject [("resource", JString (ob_Resource o)); ("namespace", JString (ob_Namespace o));
           ("name", JString (ob_Name o)); ("subresource", JString (ob_Subresource o))].

Definition event_json (ev : Event) : json :=
  JObject ([("stage", JString (ev_Stage ev)); ("verb", JString (ev_Verb ev));
            ("requestURI", JString (ev_RequestURI ev));
            ("user", JObject [("username", JString (ev_Username ev))]);
            ("objectRef", from_option objectref_json JNull (ev_ObjectRef ev));
            ("responseStatus", JObject [("code", JInt (ev_Code ev))]);
            ("requestReceivedTimestamp", JString (ev_RequestReceivedTimestamp ev))]
           ++ (if ev_SourceIPs ev ==? [] then []
               else [("sourceIPs", JArray (JString <$> ev_SourceIPs ev))])
           ++ omit_empty "userAgent" (ev_UserAgent ev)).

(** The [resource] of an audit line. *)
Definition line_resource (o : ObjectRef) : string :=
  ob_Resource o
  +:+ (if ob_Namespace o !=? "" then " " +:+ ob_Namespace o +:+ "/" +:+ ob_Name o
       else if ob_Name o !=? "" then " " +:+ ob_Name o else "")
  +:+ (if ob_Subresource o !=? "" then "/" +:+ ob_Subresource o else "").

Section Format.
(** The table [%q] consults for runes above 0x7F. *)
Context (is_print : Z -> bool).

(** [src/internal/auditwebhook/auditwebhook.go:144-169, FormatLine] *)
Definition FormatLine (ev : Event) : string :=
  let resource := from_option line_resource "" (ev_ObjectRef ev) in
  let line := "verb=" +:+ ev_Verb ev +:+ " user=" +:+ ev_Username ev
    +:+ " resource=" +:+ Quote is_print (TrimSpace resource)
    +:+ " status=" +:+ Itoa (ev_Code ev) +:+ " uri=" +:+ ev_RequestURI ev in
  let line := if bool_decide (ev_SourceIPs ev = []) then line
              else line +:+ " srcIP=" +:+ Join (ev_SourceIPs ev) "," in
  let line := if ev_UserAgent ev !=? ""
              then line +:+ " userAgent=" +:+ Quote is_print (ev_UserAgent ev) else line in
  line +:+ " ts=" +:+ ev_RequestReceivedTimestamp ev.

Context {W : Type} `{Host W}.

(** [src/internal/auditwebhook/auditwebhook.go:114-118, LogEvent] *)
Definition LogEvent (namespace name : string) (ev : Event) : E W unit :=
  log_Print ("[honeypod audit] honeypod=" +:+ namespace +:+ "/" +:+ name +:+ " " +:+ FormatLine ev).

(** [json.Marshal] of this struct of strings and integers returns no error.
    [src/internal/auditwebhook/auditwebhook.go:138-142, jsonLine] *)
Definition jsonLine (namespace name : string) (ev : Event) : json :=
  JObject [("honeypodNamespace", JString namespace); ("honeypodName", JString name);
           ("event", event_json ev)].

(** [src/internal/auditwebhook/auditwebhook.go:120-136, LogEventJSON] *)
Definition LogEventJSON (namespace name : string) (ev : Event) : E W unit :=
  log_Print (Marshal (jsonLine namespace name ev)).

(** [src/internal/auditwebhook/auditwebhook.go:108-112, logBatch] *)
Definition logBatch (namespace name : string) (events : list Event) : E W unit :=
  for_each (LogEvent namespace name) events.

(** [src/internal/auditwebhook/auditwebhook.go:67, BatchFunc] *)
Definition BatchFunc := string -> string -> list Event -> E W unit.

(** The stage filter of the handler. *)
Definition complete (ev : Event) : bool :=
  negb ((ev_Stage ev !=? "") && (ev_Stage ev !=? "ResponseComplete")).

Definition http_Error (msg : string) (code : Z) : Response :=
  {| rs_StatusCode := code; rs_Body := msg +:+ nl |}.

(** The handler of [POST /audit/{namespace}/{name}], [decode] being
    [json.NewDecoder(r.Body).Decode(&list)].
    [src/internal/auditwebhook/auditwebhook.go:69-106, NewHandler] *)
Definition NewHandler (decode : string -> error + list Event) (fn : option BatchFunc)
    (ns name body : string) : E W Response :=
  let fn := default logBatch fn in
  match decode body with
  | inl err => mret (http_Error ("invalid audit event payload: " +:+ e_Message err) 400)
  | inr items =>
      let events := filterb complete items in
      (if bool_decide (0 < length events) then fn ns name events else mret tt) ≫= fun _ =>
      mret {| rs_StatusCode := 200; rs_Body := "" |}
  end.

End Format.
Arguments BatchFunc W : clear implicits.

Lemma complete_true ev :
  complete ev = true <-> ev_Stage ev = "" \/ ev_Stage ev = "ResponseComplete".
Proof.
  unfold complete. repeat case_bool_decide; simpl; naive_solver.
Qed.

Section Facts.
Context (is_print : Z -> bool) {W : Type} `{HostLaws W}.

Lemma LogEvent_logged ns name ev w :
  exists w', LogEvent is_print ns name ev w = (inr tt, w') /\ sent w' = sent w /\
    logged w' = logged w ++
      ["[honeypod audit] honeypod=" +:+ ns +:+ "/" +:+ name +:+ " " +:+ FormatLine is_print ev].
Proof. apply log_ok. Qed.

(** An event logged as JSON is exactly one log line, whatever bytes the
    attacker put into the URI, the user agent or any other field: the line
    holds no newline and no other control byte, so no field can forge a
    second entry. *)
Theorem LogEventJSON_one_line ns name ev w :
  exists w' line, LogEventJSON ns name ev w = (inr tt, w') /\
    logged w' = logged w ++ [line] /\ no_ctl line = true /\ ~ contains_byte (Zbyte 10) line.
Proof.
  destruct (log_ok (Marshal (jsonLine ns name ev)) w) as (w' & Hw & _ & Hl).
  exists w', (Marshal (jsonLine ns name ev)). split_and!; [done|done|apply Marshal_no_ctl|].
  pose proof (Marshal_no_ctl (jsonLine ns name ev)) as Hn. intros Hin.
  unfold no_ctl in Hn. rewrite forallb_forall in Hn.
  by specialize (Hn _ (proj1 (list_elem_of_In _ _) Hin)).
Qed.

Lemma logBatch_logged ns name evs w :
  exists w', logBatch is_print ns name evs w = (inr tt, w') /\ sent w' = sent w /\
    logged w' = logged w ++
      ((fun ev => "[honeypod audit] honeypod=" +:+ ns +:+ "/" +:+ name +:+ " "
                  +:+ FormatLine is_print ev) <$> evs).
Proof.
  revert w. induction evs as [|ev evs IH]; intros w.
  - exists w. rewrite app_nil_r. done.
  - unfold logBatch. cbn [for_each]. unfold mbind, E_bind.
    destruct (LogEvent_logged ns name ev w) as (w1 & -> & Hs & Hl).
    destruct (IH w1) as (w' & Hw & Hs' & Hl'). exists w'.
    split_and!; [exact Hw|congruence|]. by rewrite Hl', Hl, <- (assoc_L (++)).
Qed.

(** The receiver with its default callback. A body that does not decode
    is answered 400 and leaves no trace; any other is answered 200, and the
    log grows by exactly one line per event whose stage is empty or
    ResponseComplete, in the order received: RequestReceived duplicates add
    nothing. *)
Theorem NewHandler_logs_complete_events decode ns name body w :
  exists r w', NewHandler is_print decode None ns name body w = (inr r, w') /\
  sent w' = sent w /\
  match decode body with
  | inl _ => rs_StatusCode r = 400%Z /\ w' = w
  | inr items => rs_StatusCode r = 200%Z /\
      logged w' = logged w ++
        ((fun ev => "[honeypod audit] honeypod=" +:+ ns +:+ "/" +:+ name +:+ " "
                    +:+ FormatLine is_print ev)
         <$> filter (fun ev => ev_Stage ev ∈ [""; "ResponseComplete"]) items)
  end.
Proof.
  unfold NewHandler. simpl. destruct (decode body) as [e|items]; [by eexists _, _|].
  assert (Hf : filterb complete items =
               filter (fun ev => ev_Stage ev ∈ [""; "ResponseComplete"]) items).
  { unfold filterb. clear. induction items as [|ev items IH]; [done|].
    cbn [List.filter]. rewrite filter_cons, IH.
    destruct (complete ev) eqn:E; case_decide as Hd; try done; exfalso.
    - apply Hd. apply complete_true in E as [->| ->]; elem_lit.
    - apply not_true_iff_false in E. apply E, complete_true.
      rewrite !elem_of_cons, elem_of_nil in Hd. tauto. }
  rewrite Hf. destruct (filter _ items) as [|ev evs] eqn:E.
  - eexists _, w. simpl. rewrite app_nil_r. by split_and!.
  - simpl length. rewrite bool_decide_eq_true_2 by lia. unfold mbind, E_bind.
    destruct (logBatch_logged ns name (ev :: evs) w) as (w' & -> & Hs & Hl).
    eexists _, w'. by split_and!.
Qed.

End Facts.

Module AuditDemo.
Import Script.

Definition ev : Event :=
  {| ev_Stage := "RequestReceived"; ev_Verb := "get"; ev_RequestURI := "/" +:+ nl +:+ "forged";
     ev_Username := "kubernetes-admin"; ev_ObjectRef := None; ev_Code := 200;
     ev_RequestReceivedTimestamp := "t"; ev_SourceIPs := []; ev_UserAgent := "" |}.

Lemma LogEventJSON_one_line_witness :
  exists w' line, LogEventJSON "ns" "trap" ev (start []) = (inr tt, w') /\ logged w' = [line] /\
    ~ contains_byte (Zbyte 10) line.
Proof.
  destruct (LogEventJSON_one_line "ns" "trap" ev (start [])) as (w' & line & Hw & Hl & _ & Hn).
  exists w', line. split; [exact Hw|]. split; [exact Hl|exact Hn].
Defined.

(** The batch holds one event at the RequestReceived stage: answered, not
    logged. *)
Lemma NewHandler_logs_complete_events_witness :
  exists r w', NewHandler (fun _ => true) (fun _ => inr [ev]) None "ns" "trap" "" (start []) = (inr r, w')
    /\ rs_StatusCode r = 200%Z /\ logged w' = [].
Proof.
  destruct (NewHandler_logs_complete_events (fun _ => true) (fun _ => inr [ev]) "ns" "trap" "" (start []))
    as (r & w' & Hw & _ & Hc & Hl).
  exists r, w'. split; [exact Hw|]. split; [exact Hc|exact Hl].
Defined.

End AuditDemo.
