(* ===== verification/Notifier.v ===== *)
(** * internal/notifier: alerts and audit sinks

    [Dispatcher] reads the Alerts, AuditSinks and Providers on every call and
    posts JSON to the addresses they resolve to. The clients, the HTTP
    client, the clock and the logger are the interfaces of Kube and Host; the
    text of a time in RFC 3339 and the table of printable runes are
    parameters. *)

From S2P Require Import Prelude GoStrings Json KubeTypes ApiTypes Kube Host AuditWebhook.
From Stdlib Require Import Ascii.
#[local] Open Scope string_scope.
#[local] Open Scope list_scope.

(** ** classify.go *)

(** [src/internal/notifier/classify.go:10-19, AuditFilter] *)
Record AuditFilter := {
  af_IncludeAll : bool; af_ExcludeVerbs : list string; af_ExcludeResources : list string }.

(** [AuditFilter{}]. *)
Definition default_filter : AuditFilter :=
  {| af_IncludeAll := false; af_ExcludeVerbs := []; af_ExcludeResources := [] |}.

(** [src/internal/notifier/classify.go:21-28, FilterFromAlertSpec] *)
Definition FilterFromAlertSpec (spec : AlertSpec) : AuditFilter :=
  {| af_IncludeAll := al_IncludeAll spec; af_ExcludeVerbs := al_ExcludeVerbs spec;
     af_ExcludeResources := al_ExcludeResources spec |}.

(** [src/internal/notifier/classify.go:68-79, matchesResourcePattern] *)
Definition matchesResourcePattern (pattern : string) (ref : option ObjectRef) : bool :=
  match ref with
  | None => false
  | Some ref =>
      let '(resource, subresource, hasSub) := Cut pattern "/"%char in
      if ob_Resource ref !=? resource then false
      else negb hasSub || (ob_Subresource ref ==? subresource)
  end.

(** [src/internal/notifier/classify.go:30-66, IsNotableAuditEvent] *)
Definition IsNotableAuditEvent (ev : Event) (filter : AuditFilter) : bool :=
  if negb (af_IncludeAll filter) &&
     (HasPrefix (ev_Username ev) "system:" ||
      match ev_ObjectRef ev with
      | None => true
      | Some ref => (ob_Subresource ref ==? "status") || (ob_Resource ref ==? "leases")
      end)
  then false
  else if existsb (fun v => v ==? ev_Verb ev) (af_ExcludeVerbs filter) then false
  else if existsb (fun pattern => matchesResourcePattern pattern (ev_ObjectRef ev))
            (af_ExcludeResources filter) then false
  else true.

(** ** Matching an alert or a sink with a decoy *)

(** [src/internal/notifier/dispatcher.go:23-27, DecoyRef] *)
Record DecoyRef := { dr_Namespace : string; dr_Name : string }.

(** [src/internal/notifier/dispatcher.go:224-243, anyDecoyMatches] *)
Definition anyDecoyMatches (targets : list DecoyTarget) (ownerNamespace : string)
    (kt : DecoyRef) : bool :=
  if bool_decide (targets = []) then true
  else existsb (fun t =>
         let ns := if dt_Namespace t ==? "" then ownerNamespace else dt_Namespace t in
         if ns !=? dr_Namespace kt then false
         else (dt_Name t ==? "*") || (dt_Name t ==? dr_Name kt)) targets.

(** [src/internal/notifier/dispatcher.go:245-255, wantsEventType] *)
Definition wantsEventType (eventTypes : list AlertEventType) (want : AlertEventType) : bool :=
  if bool_decide (eventTypes = []) then true else existsb (fun t => t ==? want) eventTypes.

(** ** discord.go: the embeds *)

(** [src/internal/notifier/discord.go:14, discordEmbedsPerMessage] *)
Definition discordEmbedsPerMessage : nat := 10.

Definition colorJoined : Z := 0x2ecc71.
Definition colorLeft : Z := 0x95a5a6.
Definition colorAudit : Z := 0xe67e22.

(** [src/internal/notifier/discord.go:32-36, discordField] *)
Record discordField := { df_Name : string; df_Value : string; df_Inline : bool }.

(** [src/internal/notifier/discord.go:22-30, discordEmbed] *)
Record discordEmbed := {
  de_Title : string; de_Description : string; de_Color : Z; de_Timestamp : string;
  de_Fields : list discordField }.

Definition field_json (f : discordField) : json :=
  JObject ([("name", JString (df_Name f)); ("value", JString (df_Value f))]
           ++ (if df_Inline f then [("inline", JBool true)] else [])).

Definition embed_json (e : discordEmbed) : json :=
  JObject (omit_empty "title" (de_Title e) ++ omit_empty "description" (de_Description e)
           ++ (if de_Color e ==? 0%Z then [] else [("color", JInt (de_Color e))])
           ++ omit_empty "timestamp" (de_Timestamp e)
           ++ (if bool_decide (length (de_Fields e) = 0) then []
               else [("fields", JArray (field_json <$> de_Fields e))])).

(** [src/internal/notifier/discord.go:38-40, discordPayload] *)
Definition discordPayload (embeds : list discordEmbed) : json :=
  JObject (if bool_decide (length embeds = 0) then []
           else [("embeds", JArray (embed_json <$> embeds))]).

(** [src/internal/notifier/discord.go:111-122, codeOrDash] *)
Definition codeOrDash (v : string) : string :=
  if v ==? "" then "—"
  else let v := if bool_decide (1000 < String.length v)
                then of_chars (take 1000 (chars v)) +:+ "…" else v in
       "`" +:+ v +:+ "`".

(** [src/internal/notifier/discord.go:42-63, podJoinEmbed] *)
Definition podJoinEmbed (kt : DecoyRef) (pod : NamespacedName) (joined : bool) (ts : string)
    : discordEmbed :=
  {| de_Title := if joined then "🪤 Pod joined a decoy" else "🔌 Pod left a decoy";
     de_Description := "";
     de_Color := if joined then colorJoined else colorLeft;
     de_Timestamp := ts;
     de_Fields :=
       [ {| df_Name := "Pod"; df_Value := codeOrDash (nn_Name pod); df_Inline := true |};
         {| df_Name := "Namespace"; df_Value := codeOrDash (nn_Namespace pod); df_Inline := true |};
         {| df_Name := "Decoy"; df_Value := codeOrDash (dr_Namespace kt +:+ "/" +:+ dr_Name kt);
            df_Inline := false |} ] |}.

(** A field shown inline. *)
Definition inline_field (name v : string) : discordField :=
  {| df_Name := name; df_Value := codeOrDash v; df_Inline := true |}.

(** [src/internal/notifier/discord.go:65-109, auditEmbed] *)
Definition auditEmbed (kt : DecoyRef) (ev : Event) (ts : string) : discordEmbed :=
  let namespace := from_option ob_Namespace "" (ev_ObjectRef ev) in
  let name := from_option ob_Name "" (ev_ObjectRef ev) in
  let object := match ev_ObjectRef ev with
    | Some o => TrimSpace (ob_Resource o)
                +:+ (if ob_Subresource o !=? "" then "/" +:+ ob_Subresource o else "")
    | None => ev_RequestURI ev
    end in
  {| de_Title := "🚨 Attacker activity · " +:+ dr_Namespace kt +:+ "/" +:+ dr_Name kt;
     de_Description := "";
     de_Color := colorAudit;
     de_Timestamp := ts;
     de_Fields :=
       [inline_field "Verb" (ev_Verb ev); inline_field "Status" (Itoa (ev_Code ev));
        inline_field "Identity" (ev_Username ev)]
       ++ (if namespace !=? "" then [inline_field "Namespace" namespace] else [])
       ++ [inline_field "Object" object]
       ++ (if name !=? "" then [inline_field "Name" name] else [])
       ++ (if bool_decide (ev_SourceIPs ev = []) then []
           else [inline_field "Source IP" (Join (ev_SourceIPs ev) ", ")])
       ++ (if ev_UserAgent ev !=? "" then [inline_field "Client" (ev_UserAgent ev)] else []) |}.

(** ** loki.go: the push request *)

(** [t.UnixNano()], the time's distance from 1970 as an [int64]. *)
Definition UnixNano (t : Time) : Z := Int.int64 (t - 62135596800000000000).

Definition loki_labels (kt : DecoyRef) : list (string * json) :=
  [("honeypod_name", JString (dr_Name kt)); ("honeypod_namespace", JString (dr_Namespace kt));
   ("job", JString "honeypod-audit")].

(** The values of the stream: each line with its own timestamp. *)
Definition loki_values (now : Time) (lines : list string) : list (string * string) :=
  imap (fun i line => (Itoa (UnixNano (now + Z.of_nat i)), line)) lines.

(** [src/internal/notifier/loki.go:10-17, lokiPushRequest] *)
Definition lokiPushRequest (labels : list (string * json)) (values : list (string * string)) : json :=
  JObject [("streams", JArray [JObject
    [("stream", JObject labels);
     ("values", JArray ((fun v => JArray [JString v.1; JString v.2]) <$> values))]])].

(** ** The dispatcher *)

Section Dispatcher.
Context (is_print : Z -> bool) (rfc3339 : Time -> string).
Context {W : Type} `{Host W}.
Context (alerts : Client W Alert) (auditsinks : Client W AuditSink)
        (providers : Client W Provider) (secrets : Client W Secret).

(** [src/internal/notifier/transport.go:18-35, postJSON] *)
Definition postJSON (address body : string) : E W unit :=
  match http_NewRequest "POST" address body with
  | Some err => throw err
  | None =>
      resp ← http_Do {| rq_Method := "POST"; rq_URL := address;
                        rq_ContentType := "application/json"; rq_Body := body |};
      if (300 <=? rs_StatusCode resp)%Z
      then throw (Errorf (address +:+ " returned " +:+ Itoa (rs_StatusCode resp) +:+ ": "
                          +:+ of_chars (take 2048 (chars (rs_Body resp)))))
      else mret tt
  end.

(** The loop of [sendDiscord] from index [i], [fuel] being at least the
    number of messages left. *)
Fixpoint discord_loop (fuel : nat) (address : string) (embeds : list discordEmbed) (i : nat)
    : E W unit :=
  match fuel with
  | 0 => mret tt
  | S fuel' =>
      if bool_decide (i < length embeds) then
        let end_ := if bool_decide (length embeds < i + discordEmbedsPerMessage)
                    then length embeds else i + discordEmbedsPerMessage in
        _ ← postJSON address (Marshal (discordPayload (drop i (take end_ embeds))));
        discord_loop fuel' address embeds (i + discordEmbedsPerMessage)
      else mret tt
  end.

(** [src/internal/notifier/discord.go:124-141, sendDiscord] *)
Definition sendDiscord (address : string) (embeds : list discordEmbed) : E W unit :=
  discord_loop (length embeds) address embeds 0.

(** [src/internal/notifier/generic.go:11-20, genericMessage] *)
Definition genericMessage (kt : DecoyRef) (eventType message timestamp : string) : json :=
  JObject [("honeypodNamespace", JString (dr_Namespace kt)); ("honeypodName", JString (dr_Name kt));
           ("eventType", JString eventType); ("message", JString message);
           ("timestamp", JString timestamp)].

(** [src/internal/notifier/generic.go:22-34, sendGenericMessage] *)
Definition sendGenericMessage (address : string) (kt : DecoyRef) (eventType message : string)
    : E W unit :=
  now ← time_Now;
  postJSON address (Marshal (genericMessage kt eventType message (rfc3339 now))).

(** [src/internal/notifier/generic.go:36-43, genericAuditBatch] *)
Definition genericAuditBatch (kt : DecoyRef) (events : list Event) : json :=
  JObject [("honeypodNamespace", JString (dr_Namespace kt)); ("honeypodName", JString (dr_Name kt));
           ("events", JArray (event_json <$> events))].

(** [src/internal/notifier/generic.go:45-55, sendGenericAudit] *)
Definition sendGenericAudit (address : string) (kt : DecoyRef) (events : list Event) : E W unit :=
  postJSON address (Marshal (genericAuditBatch kt events)).

(** [src/internal/notifier/loki.go:19-34, sendLoki] *)
Definition sendLoki (address : string) (labels : list (string * json)) (lines : list string)
    : E W unit :=
  now ← time_Now;
  postJSON address (Marshal (lokiPushRequest labels (loki_values now lines))).

(** [src/internal/notifier/dispatcher.go:183-222, resolveProvider] *)
Definition resolveProvider (namespace : string) (ref : ProviderReference)
    : E W (Provider * string) :=
  items ← wrap_err ("listing providers in " +:+ namespace)
            (List_ providers {| lo_Namespace := Some namespace; lo_Labels := ∅ |});
  match filterb (fun p => pv_Type (prov_Spec p) ==? pr_Type ref) items with
  | [] => throw (Errorf ("no provider of type " +:+ Quote is_print (pr_Type ref)
                         +:+ " found in namespace " +:+ namespace))
  | [p] =>
      let name := om_Name (prov_Meta p) in
      let secretRef := match pr_SecretRef ref with
                       | Some s => Some s
                       | None => pv_SecretRef (prov_Spec p)
                       end in
      match secretRef with
      | Some s =>
          sec ← wrap_err ("getting provider " +:+ namespace +:+ "/" +:+ name +:+ " secret "
                          +:+ Quote is_print s) (Get secrets (NN namespace s));
          mret (p, sec_get sec "address")
      | None =>
          if pv_Address (prov_Spec p) !=? "" then mret (p, pv_Address (prov_Spec p))
          else throw (Errorf ("provider " +:+ namespace +:+ "/" +:+ name
            +:+ " has no address: set providerRef.secretRef, spec.secretRef, or spec.address"))
      end
  | _ => throw (Errorf ("multiple providers of type " +:+ Quote is_print (pr_Type ref)
                        +:+ " found in namespace " +:+ namespace +:+ ", expected exactly one"))
  end.

(** [src/internal/notifier/dispatcher.go:67-83, sendPodJoinAlert] *)
Definition sendPodJoinAlert (a : Alert) (kt : DecoyRef) (pod : NamespacedName) (joined : bool)
    (message : string) : E W unit :=
  '(p, address) ← resolveProvider (alert_Namespace a) (al_ProviderRef (alert_Spec a));
  let ty := pv_Type (prov_Spec p) in
  if ty ==? "discord" then
    now ← time_Now;
    sendDiscord address [podJoinEmbed kt pod joined (rfc3339 now)]
  else if ty ==? "generic-webhook" then sendGenericMessage address kt "PodJoin" message
  else throw (Errorf ("provider type " +:+ Quote is_print ty
    +:+ " not supported for a PodJoin alert (use discord or generic-webhook)")).

(** [src/internal/notifier/dispatcher.go:139-157, sendAlertAudit] *)
Definition sendAlertAudit (a : Alert) (kt : DecoyRef) (events : list Event) : E W unit :=
  '(p, address) ← resolveProvider (alert_Namespace a) (al_ProviderRef (alert_Spec a));
  let ty := pv_Type (prov_Spec p) in
  if ty ==? "discord" then
    now ← time_Now;
    sendDiscord address ((fun ev => auditEmbed kt ev (rfc3339 now)) <$> events)
  else if ty ==? "generic-webhook" then sendGenericAudit address kt events
  else throw (Errorf ("provider type " +:+ Quote is_print ty
    +:+ " not supported for an AuditActivity alert (use discord or generic-webhook)")).

(** [src/internal/notifier/dispatcher.go:159-181, shipToSink] *)
Definition shipToSink (s : AuditSink) (kt : DecoyRef) (events : list Event) : E W unit :=
  '(p, address) ← resolveProvider (sink_Namespace s) (as_ProviderRef (sink_Spec s));
  let ty := pv_Type (prov_Spec p) in
  if ty ==? "loki" then
    sendLoki address (loki_labels kt) (FormatLine is_print <$> events)
  else if ty ==? "generic-webhook" then sendGenericAudit address kt events
  else throw (Errorf ("provider type " +:+ Quote is_print ty
    +:+ " not supported for AuditSink (use loki or generic-webhook)")).

(** [if err := c; err != nil { log.Printf(prefix+": %v", err) }]. *)
Definition or_log (prefix : string) (c : E W unit) : E W unit :=
  r ← try_ c;
  match r with
  | inl err => log_Print (prefix +:+ ": " +:+ e_Message err)
  | inr _ => mret tt
  end.

Definition alert_prefix (a : Alert) : string :=
  "notifier: alert " +:+ alert_Namespace a +:+ "/" +:+ alert_Name a.

(** [src/internal/notifier/dispatcher.go:40-65, NotifyPodJoin] *)
Definition NotifyPodJoin (kt : DecoyRef) (pod : NamespacedName) (joined : bool) : E W unit :=
  r ← try_ (List_ alerts everything);
  match r with
  | inl err => log_Print ("notifier: listing alerts: " +:+ e_Message err)
  | inr items =>
      let action := if joined then "joined" else "left" in
      let message := "pod " +:+ nn_Namespace pod +:+ "/" +:+ nn_Name pod +:+ " " +:+ action
                     +:+ " Decoy " +:+ dr_Namespace kt +:+ "/" +:+ dr_Name kt in
      for_each (fun a =>
        if negb (wantsEventType (al_EventTypes (alert_Spec a)) AlertEventPodJoin) then mret tt
        else if negb (anyDecoyMatches (al_Targets (alert_Spec a)) (alert_Namespace a) kt)
        then mret tt
        else or_log (alert_prefix a) (sendPodJoinAlert a kt pod joined message)) items
  end.

(** The events of a batch one alert is told about. *)
Definition notable_for (a : Alert) (events : list Event) : list Event :=
  filterb (fun ev => IsNotableAuditEvent ev (FilterFromAlertSpec (alert_Spec a))) events.

(** [src/internal/notifier/dispatcher.go:85-116, NotifyAuditActivity] *)
Definition NotifyAuditActivity (kt : DecoyRef) (events : list Event) : E W unit :=
  r ← try_ (List_ alerts everything);
  match r with
  | inl err => log_Print ("notifier: listing alerts: " +:+ e_Message err)
  | inr items =>
      for_each (fun a =>
        if negb (wantsEventType (al_EventTypes (alert_Spec a)) AlertEventAuditActivity)
        then mret tt
        else if negb (anyDecoyMatches (al_Targets (alert_Spec a)) (alert_Namespace a) kt)
        then mret tt
        else let notable := notable_for a events in
             if bool_decide (length notable = 0) then mret tt
             else or_log (alert_prefix a) (sendAlertAudit a kt notable)) items
  end.

(** [src/internal/notifier/dispatcher.go:118-137, ShipAuditLog] *)
Definition ShipAuditLog (kt : DecoyRef) (events : list Event) : E W unit :=
  if bool_decide (length events = 0) then mret tt
  else
    r ← try_ (List_ auditsinks everything);
    match r with
    | inl err => log_Print ("notifier: listing auditsinks: " +:+ e_Message err)
    | inr items =>
        for_each (fun s =>
          if negb (anyDecoyMatches (as_Targets (sink_Spec s)) (sink_Namespace s) kt) then mret tt
          else or_log ("notifier: auditsink " +:+ sink_Namespace s +:+ "/" +:+ sink_Name s)
                 (shipToSink s kt events)) items
    end.

End Dispatcher.

(** ** What a delivery does *)

Section Delivery.
Context {W : Type} `{HostLaws W}.

Definition succeeded {A} (r : error + A) : bool := match r with inr _ => true | inl _ => false end.

(** What one recipient got: the requests made, whether each was answered well,
    and the lines logged. *)
Record Outcome := { oc_sent : list Request; oc_answers : list bool; oc_logged : list string }.

(** [w'] is [w] after these outcomes. *)
Definition after (w : W) (outs : list Outcome) (w' : W) : Prop :=
  sent w' = sent w ++ concat (oc_sent <$> outs) /\
  answered w' = answered w ++ concat (oc_answers <$> outs) /\
  logged w' = logged w ++ concat (oc_logged <$> outs).

Lemma after_refl w : after w [] w.
Proof. unfold after. simpl. by rewrite !app_nil_r. Qed.

Lemma after_trans w1 outs1 w2 outs2 w3 :
  after w1 outs1 w2 -> after w2 outs2 w3 -> after w1 (outs1 ++ outs2) w3.
Proof.
  intros (Hs & Ha & Hl) (Hs' & Ha' & Hl'). unfold after.
  rewrite Hs', Ha', Hl', Hs, Ha, Hl, !fmap_app, !concat_app, !(assoc_L (++)). done.
Qed.

(** A request that cannot even be built. *)
Definition unsendable (q : Request) : Prop :=
  exists e, http_NewRequest (W := W) (rq_Method q) (rq_URL q) (rq_Body q) = Some e.

(** All requests of [rs] were made and answered well. *)
Definition all_served (rs ps : list Request) (oks : list bool) : Prop :=
  ps = rs /\ oks = replicate (length rs) true.

(** The requests of [rs] were made, and answered well, up to one that was
    answered badly or could not be built, and no further. *)
Definition gave_up (rs ps : list Request) (oks : list bool) : Prop :=
  exists done q rest, rs = done ++ q :: rest /\
    ((ps = done ++ [q] /\ oks = replicate (length done) true ++ [false]) \/
     (ps = done /\ oks = replicate (length done) true /\ unsendable q)).

(** What an attempt made of a plan: nothing and a failure when there is none. *)
Definition carried_out (plan : option (list Request)) (ok : bool) (ps : list Request)
    (oks : list bool) : Prop :=
  match plan with
  | None => ok = false /\ ps = [] /\ oks = []
  | Some rs => if ok then all_served rs ps oks else gave_up rs ps oks
  end.

(** From [w], [c] logs nothing and carries out one of the plans in [P]. *)
Definition tries_at (P : option (list Request) -> Prop) (c : E W unit) (w : W) : Prop :=
  exists plan ps oks, P plan /\ sent (c w).2 = sent w ++ ps /\
    answered (c w).2 = answered w ++ oks /\
    logged (c w).2 = logged w /\ carried_out plan (succeeded (c w).1) ps oks.

Definition tries (P : option (list Request) -> Prop) (c : E W unit) : Prop :=
  forall w, tries_at P c w.

(** The request [postJSON] makes. *)
Definition json_post (address body : string) : Request :=
  {| rq_Method := "POST"; rq_URL := address; rq_ContentType := "application/json"; rq_Body := body |}.

#[local] Hint Resolve after_refl : core.

Lemma postJSON_tries address body :
  tries (eq (Some [json_post address body])) (postJSON address body).
Proof.
  intros w. exists (Some [json_post address body]). unfold postJSON.
  destruct (http_NewRequest _ _ _) as [e|] eqn:Hn.
  - exists [], []. rewrite !app_nil_r. split_and!; try done.
    exists [], (json_post address body), []. split; [done|]. right. split_and!; [done|done|]. by exists e.
  - exists [json_post address body], [good_answer (http_Do (json_post address body) w).1].
    unfold mbind, E_bind.
    destruct (do_sent (json_post address body) w) as [Hs Hl].
    pose proof (do_answered (json_post address body) w) as Ha. unfold json_post in *.
    destruct (http_Do _ w) as [[e|resp] w']; simpl in *; [|destruct (300 <=? _)%Z];
      simpl; split_and!; try done; by exists [], (json_post address body), []; auto.
Qed.

Lemma tries_weaken (P Q : option (list Request) -> Prop) c w :
  (forall p, P p -> Q p) -> tries_at P c w -> tries_at Q c w.
Proof.
  intros HPQ (plan & ps & oks & HP & ?). exists plan, ps, oks. split; [by apply HPQ|done].
Qed.

Lemma tries_ret : tries (eq (Some [])) (mret tt).
Proof. intros w. exists (Some []), [], []. rewrite !app_nil_r. by split_and!. Qed.

Lemma gave_up_app rs0 rs ps oks :
  gave_up rs ps oks -> gave_up (rs0 ++ rs) (rs0 ++ ps) (replicate (length rs0) true ++ oks).
Proof.
  intros (d & q & rest & -> & Hd). exists (rs0 ++ d), q, rest. rewrite length_app, replicate_add.
  split; [by rewrite (assoc_L (++))|].
  destruct Hd as [[-> ->]|(-> & -> & Hu)]; [left|right]; by rewrite ?(assoc_L (++)).
Qed.

(** Two attempts in a row carry out one plan after the other. *)
Lemma tries_seq rs rs' c c' :
  tries (eq (Some rs)) c -> tries (eq (Some rs')) c' ->
  tries (eq (Some (rs ++ rs'))) (c ≫= fun _ => c').
Proof.
  intros Hc Hc' w. exists (Some (rs ++ rs')). unfold mbind, E_bind.
  destruct (Hc w) as (plan & ps & oks & <- & Hs & Ha & Hl & Hok).
  destruct (c w) as [[e|[]] w1]; simpl in *.
  - exists ps, oks. split_and!; [done..|]. destruct Hok as (d & q & rest & -> & Hd).
    exists d, q, (rest ++ rs'). by rewrite <- (assoc_L (++)).
  - destruct Hok as [-> ->]. destruct (Hc' w1) as (plan' & ps' & oks' & <- & Hs' & Ha' & Hl' & Hok').
    exists (rs ++ ps'), (replicate (length rs) true ++ oks').
    rewrite Hs', Hs, Ha', Ha, Hl', !(assoc_L (++)). split_and!; [done..|]. unfold carried_out in *.
    destruct (succeeded (c' w1).1); [|by apply gave_up_app].
    destruct Hok' as [-> ->]. split; [done|]. by rewrite length_app, replicate_add.
Qed.

Lemma tries_now (P : option (list Request) -> Prop) (k : Time -> E W unit) :
  (forall t, tries P (k t)) -> tries P (time_Now ≫= k).
Proof.
  intros Hk w. unfold tries_at, mbind, E_bind. pose proof (now_answered w) as Ha.
  destruct (now_ok w) as (t & w1 & Hn & Hs & Hl). rewrite Hn in *. simpl in Ha.
  destruct (Hk t w1) as (plan & ps & oks & HP & Hs' & Ha' & Hl' & Hc). exists plan, ps, oks.
  rewrite Hs', Ha', Hl', Hs, Ha, Hl. done.
Qed.

(** *** Discord's messages *)

Fixpoint chunks_of {A} (fuel n : nat) (l : list A) : list (list A) :=
  match fuel, l with
  | S fuel', _ :: _ => take n l :: chunks_of fuel' n (drop n l)
  | _, _ => []
  end.

(** The embeds of each message, in order. *)
Definition discord_messages (embeds : list discordEmbed) : list (list discordEmbed) :=
  chunks_of (length embeds) discordEmbedsPerMessage embeds.

Lemma chunks_of_concat {A} fuel n (l : list A) :
  0 < n -> length l <= fuel -> concat (chunks_of fuel n l) = l.
Proof.
  intros Hn. revert l. induction fuel as [|fuel IH]; intros [|x l] Hl; simpl in *; try done; [lia|].
  rewrite IH; [apply (take_drop n (x :: l))|]. rewrite length_drop. simpl. lia.
Qed.

Lemma chunks_of_sizes {A} fuel n (l : list A) :
  0 < n -> Forall (fun ch => 0 < length ch <= n) (chunks_of fuel n l).
Proof.
  intros Hn. revert l. induction fuel as [|fuel IH]; intros [|x l]; simpl; constructor; auto.
  rewrite length_take. simpl. lia.
Qed.

Definition discord_plan (address : string) (embeds : list discordEmbed) : list Request :=
  (fun ch => json_post address (Marshal (discordPayload ch))) <$> discord_messages embeds.

Lemma discord_loop_tries fuel address embeds i :
  length embeds <= i + fuel ->
  tries (eq (Some ((fun ch => json_post address (Marshal (discordPayload ch)))
                   <$> chunks_of fuel discordEmbedsPerMessage (drop i embeds))))
    (discord_loop fuel address embeds i).
Proof.
  revert i. induction fuel as [|fuel IH]; intros i Hf; simpl; [apply tries_ret|].
  case_bool_decide as Hi.
  - destruct (drop i embeds) as [|e rest] eqn:Ed.
    { apply (f_equal length) in Ed. rewrite length_drop in Ed. simpl in Ed. lia. }
    rewrite fmap_cons.
    assert (Hd : drop i (take (if bool_decide (length embeds < i + discordEmbedsPerMessage)
                               then length embeds else i + discordEmbedsPerMessage) embeds)
                 = take discordEmbedsPerMessage (e :: rest)).
    { rewrite <- Ed. case_bool_decide.
      - rewrite (take_ge embeds) by lia. rewrite take_ge; [done|]. rewrite length_drop. lia.
      - rewrite <- take_drop_commute. f_equal. }
    rewrite Hd. apply (tries_seq [_]); [apply postJSON_tries|].
    rewrite <- Ed, drop_drop. apply IH. unfold discordEmbedsPerMessage. lia.
  - rewrite drop_ge by lia. apply tries_ret.
Qed.

Lemma sendDiscord_tries address embeds :
  tries (eq (Some (discord_plan address embeds))) (sendDiscord address embeds).
Proof.
  unfold sendDiscord, discord_plan, discord_messages.
  pose proof (discord_loop_tries (length embeds) address embeds 0) as Ht.
  rewrite drop_0 in Ht. apply Ht. lia.
Qed.

(** Discord's limit. The embeds of a notification are split, in order
    and without loss, into messages of one to ten embeds; [sendDiscord] posts
    these messages to the address one by one, all of them when it succeeds,
    and it stops after the first message that fails. *)
Theorem sendDiscord_chunks address embeds w :
  exists messages ps,
    concat messages = embeds /\
    Forall (fun m => 1 <= length m <= 10) messages /\
    sent (sendDiscord address embeds w).2 = sent w ++ ps /\
    ps `prefix_of` ((fun m => json_post address (Marshal (discordPayload m))) <$> messages) /\
    (succeeded (sendDiscord address embeds w).1 = true ->
       ps = ((fun m => json_post address (Marshal (discordPayload m))) <$> messages)).
Proof.
  destruct (sendDiscord_tries address embeds w) as (plan & ps & oks & <- & Hs & _ & _ & Hp).
  exists (discord_messages embeds), ps. split_and!; try done.
  - apply chunks_of_concat; unfold discordEmbedsPerMessage; lia.
  - eapply Forall_impl; [apply (chunks_of_sizes _ discordEmbedsPerMessage)|];
      unfold discordEmbedsPerMessage; simpl; lia.
  - simpl in Hp. unfold discord_plan in Hp. destruct (succeeded _); [by destruct Hp as [-> _]|].
    destruct Hp as (d & q & rest & -> & [[-> _]|[-> _]]); [|by apply prefix_app_r].
    exists rest. by rewrite <- (assoc_L (++)).
  - intros Hok. rewrite Hok in Hp. by destruct Hp.
Qed.
End Delivery.

(** ** Notifying and shipping *)

(** The objects the dispatcher reads, while nobody changes them. *)
Record Snapshot := {
  sn_alerts : list Alert; sn_sinks : list AuditSink; sn_providers : list Provider;
  sn_secrets : gmap NamespacedName Secret }.

Definition not_found : error :=
  {| e_Reason := ReasonNotFound; e_Causes := []; e_Message := "not found" |}.

Section Notify.
Context (is_print : Z -> bool) (rfc3339 : Time -> string).
Context {W : Type} `{HostLaws W}.
Context (alerts : Client W Alert) (auditsinks : Client W AuditSink)
        (providers : Client W Provider) (secrets : Client W Secret) (api : Snapshot).

(** [r] is the result of a read from [w]: an error, or the answer [a] of the
    snapshot ([None]: there is no such object). Reads neither send nor log. *)
Definition reads {A} (a : option A) (w : W) (r : (error + A) * W) : Prop :=
  after w [] r.2 /\ match r.1 with inr x => a = Some x | inl _ => True end.

(** The clients answer from the snapshot, or fail, each call anew. *)
Record Reads : Prop := {
  read_alerts : forall w, reads (Some (sn_alerts api)) w (List_ alerts everything w);
  read_sinks : forall w, reads (Some (sn_sinks api)) w (List_ auditsinks everything w);
  read_providers : forall ns w,
    reads (Some (filterb (fun p => om_Namespace (prov_Meta p) ==? ns) (sn_providers api))) w
      (List_ providers {| lo_Namespace := Some ns; lo_Labels := ∅ |} w);
  read_secrets : forall key w, reads (sn_secrets api !! key) w (Get secrets key w) }.
Context (Hreads : Reads).

(** The one provider of a reference's type in the namespace. *)
Definition the_provider (ns : string) (ref : ProviderReference) : option Provider :=
  match filterb (fun p => (pv_Type (prov_Spec p) ==? pr_Type ref) &&
                          (om_Namespace (prov_Meta p) ==? ns)) (sn_providers api) with
  | [p] => Some p
  | _ => None
  end.

(** The secret that holds the address: the one the reference names, else the
    one the provider names. *)
Definition address_secret (ns : string) (ref : ProviderReference) (p : Provider) : option NamespacedName :=
  NN ns <$> from_option Some (pv_SecretRef (prov_Spec p)) (pr_SecretRef ref).

(** Where a reference leads: the provider, and the address in that secret,
    else in the provider itself. *)
Definition resolve (ns : string) (ref : ProviderReference) : option (Provider * string) :=
  p ← the_provider ns ref;
  match address_secret ns ref p with
  | Some key => (fun sec => (p, sec_get sec "address")) <$> (sn_secrets api !! key)
  | None => if pv_Address (prov_Spec p) ==? "" then None else Some (p, pv_Address (prov_Spec p))
  end.

(** Asked from [w], the API server does not say where a reference leads: it
    fails to list the providers, or to get the secret. *)
Definition unreadable (ns : string) (ref : ProviderReference) (w : W) : Prop :=
  match List_ providers {| lo_Namespace := Some ns; lo_Labels := ∅ |} w with
  | (inl _, _) => True
  | (inr _, w1) => exists p key e, the_provider ns ref = Some p /\
      address_secret ns ref p = Some key /\ (Get secrets key w1).1 = inl e
  end.

Lemma filterb_filterb {A} (p q : A -> bool) l :
  filterb p (filterb q l) = filterb (fun x => p x && q x) l.
Proof.
  unfold filterb. induction l as [|x l IH]; [done|]. simpl.
  destruct (q x) eqn:Eq; simpl; rewrite ?andb_true_r, ?andb_false_r, IH; [|done].
  by destruct (p x).
Qed.

Lemma resolveProvider_resolve ns ref w :
  after w [] (resolveProvider is_print providers secrets ns ref w).2 /\
  match (resolveProvider is_print providers secrets ns ref w).1 with
  | inr pa => resolve ns ref = Some pa
  | inl _ => resolve ns ref = None \/ unreadable ns ref w
  end.
Proof.
  unfold resolve, the_provider, unreadable, resolveProvider, address_secret, mbind, option_bind, E_bind, wrap_err.
  destruct (read_providers Hreads ns w) as [Hq Hp].
  destruct (List_ providers _ w) as [[e|l] w1]; simpl in *; [by split; [|right]|].
  injection Hp as <-. rewrite filterb_filterb.
  destruct (filterb _ _) as [|p [|q ps]] eqn:Hf; simpl; [by auto| |by auto].
  assert (Hkey : exists o, match pr_SecretRef ref with Some s => Some s | None => pv_SecretRef (prov_Spec p) end = o /\
    from_option Some (pv_SecretRef (prov_Spec p)) (pr_SecretRef ref) = o)
    by (destruct (pr_SecretRef ref); eauto).
  destruct Hkey as (o & -> & Ho). rewrite Ho. destruct o as [s|]; simpl.
  - destruct (read_secrets Hreads (NN ns s) w1) as [Hq2 Hs].
    pose proof (after_trans _ _ _ _ _ Hq Hq2) as Hq3.
    destruct (Get secrets (NN ns s) w1) as [[e|sec] w2] eqn:Hg; simpl in *; (split; [exact Hq3|]).
    + right. exists p, (NN ns s), e. unfold the_provider. by rewrite Hf, Ho, Hg.
    + by rewrite Hs.
  - case_bool_decide; simpl; auto.
Qed.

(** An attempt that starts by resolving its provider. *)
Lemma resolve_tries ns ref (k : Provider * string -> E W unit) (P : option (list Request) -> Prop) w :
  match resolve ns ref with
  | Some pa => tries P (k pa)
  | None => P None
  end ->
  tries_at (fun plan => plan = None /\ unreadable ns ref w \/ P plan)
    (resolveProvider is_print providers secrets ns ref ≫= k) w.
Proof.
  intros Hk. unfold tries_at, mbind, E_bind.
  destruct (resolveProvider_resolve ns ref w) as [Hq Hr]. unfold after in Hq.
  destruct (resolveProvider _ _ _ _ _ w) as [[e|pa] w1]; simpl in *; rewrite !app_nil_r in Hq;
    destruct Hq as (Hs & Ha & Hl).
  - exists None, [], []. rewrite !app_nil_r. split_and!; try done.
    destruct Hr as [Hr|Hr]; [right; by rewrite Hr in Hk|by left].
  - rewrite Hr in Hk. destruct (Hk w1) as (plan & ps & oks & HP & Hs' & Ha' & Hl' & Hc).
    exists plan, ps, oks. rewrite Hs', Ha', Hl', Hs, Ha, Hl. auto.
Qed.

Lemma throw_tries e : tries (eq None) (throw e : E W unit).
Proof. intros w. exists None, [], []. rewrite !app_nil_r. by split_and!. Qed.

(** What an alert should post about a batch, at time [ts]; [None] when it has
    no usable provider. *)
Definition alert_plan (kt : DecoyRef) (a : Alert) (events : list Event) (ts : string)
    : option (list Request) :=
  '(p, address) ← resolve (alert_Namespace a) (al_ProviderRef (alert_Spec a));
  let ty := pv_Type (prov_Spec p) in
  if ty ==? "discord" then
    Some (discord_plan address ((fun ev => auditEmbed kt ev ts) <$> events))
  else if ty ==? "generic-webhook" then
    Some [json_post address (Marshal (genericAuditBatch kt events))]
  else None.

(** What a sink should receive. *)
Definition sink_plan (kt : DecoyRef) (s : AuditSink) (events : list Event) (now : Time)
    : option (list Request) :=
  '(p, address) ← resolve (sink_Namespace s) (as_ProviderRef (sink_Spec s));
  let ty := pv_Type (prov_Spec p) in
  if ty ==? "loki" then
    Some [json_post address (Marshal (lokiPushRequest (loki_labels kt)
            (loki_values now (FormatLine is_print <$> events))))]
  else if ty ==? "generic-webhook" then
    Some [json_post address (Marshal (genericAuditBatch kt events))]
  else None.

(** What an alert is to be sent about a batch when its turn comes in [w]:
    its plan, at some time, for the events notable to it; nothing when the API
    server does not say where. *)
Definition alert_share (kt : DecoyRef) (events : list Event) (a : Alert) (w : W)
    (plan : option (list Request)) : Prop :=
  plan = None /\ unreadable (alert_Namespace a) (al_ProviderRef (alert_Spec a)) w \/
  exists t, plan = alert_plan kt a (notable_for a events) (rfc3339 t).

(** The same for a sink and the whole batch. *)
Definition sink_share (kt : DecoyRef) (events : list Event) (s : AuditSink) (w : W)
    (plan : option (list Request)) : Prop :=
  plan = None /\ unreadable (sink_Namespace s) (as_ProviderRef (sink_Spec s)) w \/
  exists t, plan = sink_plan kt s events t.

Lemma sendAlertAudit_tries a kt events w :
  tries_at (fun plan =>
      plan = None /\ unreadable (alert_Namespace a) (al_ProviderRef (alert_Spec a)) w \/
      exists t, plan = alert_plan kt a events (rfc3339 t))
    (sendAlertAudit is_print rfc3339 providers secrets a kt events) w.
Proof.
  unfold sendAlertAudit, alert_plan. apply resolve_tries.
  destruct (resolve _ _) as [[p address]|]; simpl; [|by exists 0%Z].
  case_bool_decide; [|case_bool_decide].
  - apply tries_now. intros t w1. eapply tries_weaken; [|apply sendDiscord_tries]. intros ? <-. by exists t.
  - intros w1. eapply tries_weaken; [|apply postJSON_tries]. intros ? <-. by exists 0%Z.
  - intros w1. eapply tries_weaken; [|apply throw_tries]. intros ? <-. by exists 0%Z.
Qed.

Lemma shipToSink_tries s kt events w :
  tries_at (sink_share kt events s w) (shipToSink is_print providers secrets s kt events) w.
Proof.
  unfold shipToSink, sink_share, sink_plan. apply resolve_tries.
  destruct (resolve _ _) as [[p address]|]; simpl; [|by exists 0%Z].
  case_bool_decide; [|case_bool_decide].
  - apply tries_now. intros t w1. eapply tries_weaken; [|apply postJSON_tries]. intros ? <-. by exists t.
  - intros w1. eapply tries_weaken; [|apply postJSON_tries]. intros ? <-. by exists 0%Z.
  - intros w1. eapply tries_weaken; [|apply throw_tries]. intros ? <-. by exists 0%Z.
Qed.

(** One recipient's share of a notification: the whole plan, well answered, and
    no line; or part of it, up to the request that failed, or nothing for want
    of a plan, and one line that names the recipient. *)
Definition delivered (prefix : string) (plan : option (list Request)) (o : Outcome) : Prop :=
  (exists rs, plan = Some rs /\ all_served rs (oc_sent o) (oc_answers o) /\ oc_logged o = []) \/
  ((exists rs, plan = Some rs /\ gave_up rs (oc_sent o) (oc_answers o)) \/
   (plan = None /\ oc_sent o = [] /\ oc_answers o = [])) /\
  exists msg, oc_logged o = [prefix +:+ ": " +:+ msg].

Lemma or_log_delivered prefix P (c : E W unit) w :
  tries_at P c w ->
  exists w' plan o, or_log prefix c w = (inr tt, w') /\ P plan /\
    delivered prefix plan o /\ after w [o] w'.
Proof.
  intros (plan & ps & oks & HP & Hs & Ha & Hl & Hout). unfold after. simpl.
  unfold or_log, try_, mbind, E_bind. destruct (c w) as [[e|[]] w1]; simpl in *.
  - destruct (log_ok (prefix +:+ ": " +:+ e_Message e) w1) as (w' & Hp & Hs' & Hl').
    pose proof (log_answered (prefix +:+ ": " +:+ e_Message e) w1) as Ha'. rewrite Hp in *.
    exists w', plan, {| oc_sent := ps; oc_answers := oks; oc_logged := [prefix +:+ ": " +:+ e_Message e] |}.
    simpl in *. rewrite !app_nil_r, Hs', Ha', Hl', Hs, Ha, Hl. split_and!; try done.
    right. split; [|by eexists]. destruct plan as [rs|]; [left; eauto|right].
    by destruct Hout as (_ & -> & ->).
  - exists w1, plan, {| oc_sent := ps; oc_answers := oks; oc_logged := [] |}. simpl.
    rewrite !app_nil_r. split_and!; try done. left.
    destruct plan as [rs|]; simpl in Hout; [|by destruct Hout]. by exists rs.
Qed.

(** The recipients are served in turn, each from the world the one before it
    left, by [act]; [Q] says what one of them gets. *)
Inductive in_turn {X} (act : X -> E W unit) (Q : X -> W -> Outcome -> Prop) :
    list X -> W -> list Outcome -> W -> Prop :=
  | turn_nil w : in_turn act Q [] w [] w
  | turn_cons x l w o w1 outs w' :
      act x w = (inr tt, w1) -> after w [o] w1 -> Q x w o -> in_turn act Q l w1 outs w' ->
      in_turn act Q (x :: l) w (o :: outs) w'.

Lemma in_turn_after {X} (act : X -> E W unit) Q l w outs w' :
  in_turn act Q l w outs w' -> after w outs w'.
Proof. induction 1; [apply after_refl|]. by eapply (after_trans _ [_]). Qed.

Lemma in_turn_length {X} (act : X -> E W unit) Q l w outs w' :
  in_turn act Q l w outs w' -> length outs = length l.
Proof. induction 1; simpl; congruence. Qed.

(** A loop over recipients serves each of the selected ones in turn,
    whatever happened to those before it. *)
Lemma for_each_delivered {X} (sel : X -> bool) (prefix : X -> string)
    (act : X -> E W unit) (body : X -> E W unit) (P : X -> W -> option (list Request) -> Prop) items w :
  (forall x w, body x w = (if sel x then or_log (prefix x) (act x) else mret tt) w) ->
  (forall x w, tries_at (P x w) (act x) w) ->
  exists w' outs, for_each body items w = (inr tt, w') /\
    in_turn (fun x => or_log (prefix x) (act x))
      (fun x w o => exists plan, P x w plan /\ delivered (prefix x) plan o)
      (filterb sel items) w outs w'.
Proof.
  intros Hbody Hact. revert w. induction items as [|x items IH]; intros w.
  - exists w, []. split; [done|constructor].
  - cbn [for_each]. unfold mbind, E_bind. rewrite Hbody. unfold filterb. simpl.
    destruct (sel x).
    + destruct (or_log_delivered (prefix x) (P x w) (act x) w (Hact x w))
        as (w1 & plan & o & Hw1 & HP & Hd & Ho). rewrite Hw1.
      destruct (IH w1) as (w' & outs & -> & Hin).
      exists w', (o :: outs). split; [done|]. by apply (turn_cons _ _ x _ w o w1); eauto.
    + destruct (IH w) as (w' & outs & Hw & ?). exists w', outs. split; [exact Hw|done].
Qed.

(** Whether an alert is told about a batch. *)
Definition alert_selected (kt : DecoyRef) (events : list Event) (a : Alert) : bool :=
  wantsEventType (al_EventTypes (alert_Spec a)) AlertEventAuditActivity &&
  anyDecoyMatches (al_Targets (alert_Spec a)) (alert_Namespace a) kt &&
  negb (bool_decide (notable_for a events = [])).

(** From [w] to [w'] the alerts are told about a batch, with these outcomes:
    those that want it, one by one, each being posted exactly the events
    notable to it at the address its own reference resolves to; one whose
    reference cannot be read or resolves to nothing usable, or whose provider
    answers badly, gets a log line instead. If listing the alerts fails, that
    is all that is logged. *)
Definition alerts_told (kt : DecoyRef) (events : list Event) (w : W) (outs : list Outcome) (w' : W) : Prop :=
  match List_ alerts everything w with
  | (inl e, _) =>
      outs = [{| oc_sent := []; oc_answers := [];
                 oc_logged := ["notifier: listing alerts: " +:+ e_Message e] |}] /\ after w outs w'
  | (inr items, w1) => items = sn_alerts api /\ after w [] w1 /\
      in_turn (fun a => or_log (alert_prefix a)
          (sendAlertAudit is_print rfc3339 providers secrets a kt (notable_for a events)))
        (fun a w o => exists plan, alert_share kt events a w plan /\ delivered (alert_prefix a) plan o)
        (filterb (alert_selected kt events) items) w1 outs w'
  end.

Definition sink_prefix (s : AuditSink) : string :=
  "notifier: auditsink " +:+ sink_Namespace s +:+ "/" +:+ sink_Name s.

(** The same for the sinks that target the decoy and a batch of events, all of
    which they get. *)
Definition sinks_told (kt : DecoyRef) (events : list Event) (w : W) (outs : list Outcome) (w' : W) : Prop :=
  match List_ auditsinks everything w with
  | (inl e, _) =>
      outs = [{| oc_sent := []; oc_answers := [];
                 oc_logged := ["notifier: listing auditsinks: " +:+ e_Message e] |}] /\ after w outs w'
  | (inr items, w1) => items = sn_sinks api /\ after w [] w1 /\
      in_turn (fun s => or_log (sink_prefix s) (shipToSink is_print providers secrets s kt events))
        (fun s w o => exists plan, sink_share kt events s w plan /\ delivered (sink_prefix s) plan o)
        (filterb (fun s => anyDecoyMatches (as_Targets (sink_Spec s)) (sink_Namespace s) kt) items) w1 outs w'
  end.

Lemma alerts_told_after kt events w outs w' : alerts_told kt events w outs w' -> after w outs w'.
Proof.
  unfold alerts_told. destruct (List_ alerts everything w) as [[e|items] w1]; [by intros [_ ?]|].
  intros (_ & H1 & Ht%in_turn_after). exact (after_trans _ [] _ outs _ H1 Ht).
Qed.

Lemma sinks_told_after kt events w outs w' : sinks_told kt events w outs w' -> after w outs w'.
Proof.
  unfold sinks_told. destruct (List_ auditsinks everything w) as [[e|items] w1]; [by intros [_ ?]|].
  intros (_ & H1 & Ht%in_turn_after). exact (after_trans _ [] _ outs _ H1 Ht).
Qed.

(** The line of a listing that failed. *)
Lemma log_failure s w w1 :
  after w [] w1 -> exists w', log_Print s w1 = (inr tt, w') /\
    after w [{| oc_sent := []; oc_answers := []; oc_logged := [s] |}] w'.
Proof.
  intros (Hs & Ha & Hl). destruct (log_ok s w1) as (w' & Hp & Hs' & Hl').
  pose proof (log_answered s w1) as Ha'. rewrite Hp in *. exists w'. split; [done|].
  unfold after in *. simpl in *. rewrite !app_nil_r in *. split_and!; congruence.
Qed.

(** A batch of audit events reaches every alert that wants it, and no
    other: [NotifyAuditActivity] never fails, and tells the alerts. *)
Theorem NotifyAuditActivity_exact kt events w :
  exists w' outs,
    NotifyAuditActivity is_print rfc3339 alerts providers secrets kt events w = (inr tt, w') /\
    alerts_told kt events w outs w'.
Proof.
  unfold NotifyAuditActivity, alerts_told. unfold mbind at 1, E_bind at 1, try_ at 1.
  destruct (read_alerts Hreads w) as [Hq Hitems].
  destruct (List_ alerts everything w) as [[e|items] w1]; simpl in *.
  { destruct (log_failure ("notifier: listing alerts: " +:+ e_Message e) w w1 Hq) as (w' & -> & Ha).
    by eexists w', _. }
  injection Hitems as <-.
  destruct (for_each_delivered (alert_selected kt events) alert_prefix
    (fun a => sendAlertAudit is_print rfc3339 providers secrets a kt (notable_for a events))
    (fun a =>
        if negb (wantsEventType (al_EventTypes (alert_Spec a)) AlertEventAuditActivity)
        then mret tt
        else if negb (anyDecoyMatches (al_Targets (alert_Spec a)) (alert_Namespace a) kt)
        then mret tt
        else let notable := notable_for a events in
             if bool_decide (length notable = 0) then mret tt
             else or_log (alert_prefix a) (sendAlertAudit is_print rfc3339 providers secrets a kt notable))
    (alert_share kt events) (sn_alerts api) w1) as (w' & outs & Hw & Hin).
  - intros a w2. unfold alert_selected.
    destruct (wantsEventType _ _); [|done]. destruct (anyDecoyMatches _ _ _); [|done]. simpl.
    rewrite (bool_decide_ext (length (notable_for a events) = 0) (notable_for a events = []))
      by apply length_zero_iff_nil.
    by case_bool_decide.
  - intros a w2. apply sendAlertAudit_tries.
  - exists w', outs. split_and!; [exact Hw|done|exact Hq|exact Hin].
Qed.

(** The audit stream is shipped whole: every sink that targets the decoy is
    told every event of the batch; an empty batch sends nothing. *)
Theorem ShipAuditLog_exact kt events w :
  exists w' outs,
    ShipAuditLog is_print auditsinks providers secrets kt events w = (inr tt, w') /\
    if bool_decide (events = []) then w' = w /\ outs = [] else sinks_told kt events w outs w'.
Proof.
  unfold ShipAuditLog, sinks_told.
  rewrite (bool_decide_ext (length events = 0) (events = [])) by apply length_zero_iff_nil.
  case_bool_decide as He; simpl; [by exists w, []|].
  unfold mbind at 1, E_bind at 1, try_ at 1. destruct (read_sinks Hreads w) as [Hq Hitems].
  destruct (List_ auditsinks everything w) as [[e|items] w1]; simpl in *.
  { destruct (log_failure ("notifier: listing auditsinks: " +:+ e_Message e) w w1 Hq) as (w' & -> & Ha).
    by eexists w', _. }
  injection Hitems as <-.
  destruct (for_each_delivered
    (fun s => anyDecoyMatches (as_Targets (sink_Spec s)) (sink_Namespace s) kt) sink_prefix
    (fun s => shipToSink is_print providers secrets s kt events)
    (fun s =>
       if negb (anyDecoyMatches (as_Targets (sink_Spec s)) (sink_Namespace s) kt) then mret tt
       else or_log ("notifier: auditsink " +:+ sink_Namespace s +:+ "/" +:+ sink_Name s)
              (shipToSink is_print providers secrets s kt events))
    (sink_share kt events) (sn_sinks api) w1) as (w' & outs & Hw & Hin).
  - intros s w2. by destruct (anyDecoyMatches _ _ _).
  - intros s w2. apply shipToSink_tries.
  - exists w', outs. split_and!; [exact Hw|done|exact Hq|exact Hin].
Qed.

End Notify.

(** ** Notability *)

Lemma matchesResourcePattern_spec pattern ref :
  ~ contains_byte "/"%char (ob_Resource ref) ->
  matchesResourcePattern pattern (Some ref) = true <->
  pattern ∈ [ob_Resource ref; ob_Resource ref +:+ "/" +:+ ob_Subresource ref].
Proof.
  intros Hslash. unfold matchesResourcePattern. rewrite !elem_of_cons, elem_of_nil.
  destruct (Cut pattern "/") as [[r s] found] eqn:HC. case_bool_decide as Hr; simpl.
  - subst r. destruct found; simpl.
    + apply Cut_found in HC as [-> _]. rewrite bool_decide_eq_true. split.
      * intros ->. by right; left.
      * intros [Hp|[Hp|[]]].
        -- exfalso. apply Hslash. rewrite <- Hp. unfold contains_byte.
           rewrite chars_app, elem_of_app. right. left.
        -- apply sapp_inj_l in Hp. by injection Hp.
    + apply Cut_not_found in HC as (-> & _ & _). naive_solver.
  - split; [done|]. intros [Hp|[Hp|[]]]; subst pattern; exfalso; apply Hr.
    + destruct found.
      * apply Cut_found in HC as [Heq _]. exfalso. apply Hslash. rewrite Heq. unfold contains_byte.
        rewrite chars_app, elem_of_app. right. left.
      * by apply Cut_not_found in HC as (-> & _ & _).
    + change ("/" +:+ ob_Subresource ref) with (String "/" (ob_Subresource ref)) in HC.
      rewrite (Cut_app (ob_Resource ref) "/" (ob_Subresource ref)) in HC by done. by injection HC.
Qed.

(** C40: exactly which events an alert reports. Unless the alert includes
    everything, the identity must not start with [system:] and the request
    must be for an object that is neither a status subresource nor a lease;
    and in every case the verb, the resource and the resource/subresource
    must not be excluded by the alert. Resource names have no slash. *)
Theorem IsNotableAuditEvent_iff ev f :
  (forall ref, ev_ObjectRef ev = Some ref -> ~ contains_byte "/"%char (ob_Resource ref)) ->
  (IsNotableAuditEvent ev f = true) <->
  (af_IncludeAll f = true \/
     (forall rest, ev_Username ev <> ("system:" +:+ rest)) /\
     exists ref, ev_ObjectRef ev = Some ref /\
       ob_Subresource ref <> "status" /\ ob_Resource ref <> "leases") /\
  (ev_Verb ev ∉ af_ExcludeVerbs f) /\
  (forall ref, ev_ObjectRef ev = Some ref ->
     (ob_Resource ref ∉ af_ExcludeResources f) /\
     (ob_Resource ref +:+ "/" +:+ ob_Subresource ref) ∉ af_ExcludeResources f).
Proof.
  intros Hslash. unfold IsNotableAuditEvent.
  assert (Hex : existsb (fun v => v ==? ev_Verb ev) (af_ExcludeVerbs f) = false <->
                ev_Verb ev ∉ af_ExcludeVerbs f).
  { rewrite <- not_true_iff_false, (existsb_exists_dec (fun v => v = ev_Verb ev)). naive_solver. }
  assert (Hres : existsb (fun p => matchesResourcePattern p (ev_ObjectRef ev))
                   (af_ExcludeResources f) = false <->
    (forall ref, ev_ObjectRef ev = Some ref ->
     (ob_Resource ref ∉ af_ExcludeResources f) /\
     (ob_Resource ref +:+ "/" +:+ ob_Subresource ref) ∉ af_ExcludeResources f)).
  { rewrite existsb_false. destruct (ev_ObjectRef ev) as [ref|]; [|by split].
    split.
    - intros Hf ref' [= <-].
      split; intros Hin; specialize (Hf _ Hin); apply not_true_iff_false in Hf; apply Hf;
        apply matchesResourcePattern_spec; auto; elem_lit.
    - intros Hf p Hp. apply not_true_iff_false. rewrite matchesResourcePattern_spec by auto.
      destruct (Hf _ eq_refl) as [H1 H2]. intros Hin. elem_cases Hin; done. }
  assert (Hpre : HasPrefix (ev_Username ev) "system:" = false <->
                 forall rest, ev_Username ev <> "system:" +:+ rest).
  { rewrite <- not_true_iff_false, HasPrefix_true. naive_solver. }
  rewrite <- Hex, <- Hres, <- Hpre.
  destruct (existsb (fun v => v ==? ev_Verb ev) _); [by destruct (negb _ && _); naive_solver|].
  destruct (existsb (fun p => matchesResourcePattern p _) _); [by destruct (negb _ && _); naive_solver|].
  destruct (af_IncludeAll f); simpl; [naive_solver|].
  destruct (HasPrefix _ _); simpl; [naive_solver|].
  destruct (ev_ObjectRef ev) as [ref|]; [|naive_solver].
  repeat case_bool_decide; simpl; naive_solver.
Qed.

(** ** Loki's timestamps *)

(** The lines of a push are all there, in order, and their timestamps
    increase strictly, as Loki requires of a stream, for any clock reading
    whose nanoseconds fit the [int64] [UnixNano] returns. *)
Theorem loki_values_increasing now lines :
  (- 2 ^ 63 <= now - 62135596800000000000)%Z ->
  (now - 62135596800000000000 + Z.of_nat (length lines) <= 2 ^ 63)%Z ->
  (loki_values now lines).*2 = lines /\
  forall i j vi vj, i < j -> loki_values now lines !! i = Some vi ->
    loki_values now lines !! j = Some vj ->
    exists ti tj, vi.1 = Itoa ti /\ vj.1 = Itoa tj /\ (ti < tj)%Z.
Proof.
  intros Hlo Hhi. unfold loki_values. split.
  - apply list_eq. intros i. rewrite list_lookup_fmap, list_lookup_imap.
    by destruct (lines !! i).
  - intros i j vi vj Hij. rewrite !list_lookup_imap.
    destruct (lines !! i) eqn:Hi, (lines !! j) eqn:Hj; intros [= <-] [= <-]. simpl.
    apply lookup_lt_Some in Hi, Hj. eexists _, _. split_and!; [done|done|].
    unfold UnixNano. rewrite !Int.int64_small by lia. lia.
Qed.

(** ** Discord's limits on a field *)

Lemma codeOrDash_size v : 1 <= String.length (codeOrDash v) <= 1005.
Proof.
  unfold codeOrDash. case_bool_decide as Hv; [simpl; lia|].
  rewrite !length_sapp. simpl. case_bool_decide as Hl.
  - rewrite length_sapp, <- (length_chars (of_chars _)), chars_of_chars, length_take, length_chars.
    rewrite Nat.min_l by lia. cbn [String.length]. lia.
  - lia.
Qed.

(** Discord accepts every embed the operator builds: each embed has at
    most eight fields (of the 25 allowed) and no field value is empty or
    longer than 1005 bytes (of the 1024 allowed), however long the names,
    URIs and user agents in the event are. *)
Theorem embeds_within_limits kt pod joined ev ts e :
  e ∈ [podJoinEmbed kt pod joined ts; auditEmbed kt ev ts] ->
  length (de_Fields e) <= 8 /\
  forall f, f ∈ de_Fields e -> 1 <= String.length (df_Value f) <= 1005.
Proof.
  intros He. elem_cases He.
  - simpl. split; [lia|]. intros f Hf. elem_cases Hf; apply codeOrDash_size.
  - unfold auditEmbed. simpl. split.
    + rewrite !length_app. repeat case_bool_decide; simpl; rewrite ?length_app; repeat case_bool_decide; simpl; lia.
    + intros f Hf.
      assert (exists n v, f = inline_field n v) as (n & v & ->); [|apply codeOrDash_size].
      rewrite !elem_of_cons, !elem_of_app in Hf.
      repeat case_bool_decide; simpl in Hf; rewrite ?elem_of_cons, ?elem_of_nil in Hf;
        rewrite ?elem_of_app, ?elem_of_cons, ?elem_of_nil in Hf; naive_solver.
Qed.

(** ** Concrete instances *)

Module Demo.
Import Script.

(** A client that only answers reads. *)
Definition readonly {O} (get : NamespacedName -> option O) (list_ : ListOptions -> list O)
    : Client script O := {|
  Get key w := (match get key with Some o => inr o | None => inl not_found end, w);
  List_ o w := (inr (list_ o), w);
  Create _ := throw (Errorf "read only"); Update _ := throw (Errorf "read only");
  StatusUpdate _ := throw (Errorf "read only"); Delete _ := throw (Errorf "read only") |}.

Definition hook (name ns ty addr : string) : Provider :=
  {| prov_Meta := object_meta name ns ∅;
     prov_Spec := {| pv_Type := ty; pv_Address := addr; pv_SecretRef := None |} |}.

Definition alert (name ns ty : string) : Alert :=
  {| alert_Meta := object_meta name ns ∅;
     alert_Spec := {| al_ProviderRef := {| pr_Type := ty; pr_SecretRef := None |};
       al_Targets := []; al_EventTypes := []; al_IncludeAll := false;
       al_ExcludeVerbs := ["watch"]; al_ExcludeResources := [] |} |}.

Definition sink (name ns ty : string) : AuditSink :=
  {| sink_Meta := object_meta name ns ∅;
     sink_Spec := {| as_ProviderRef := {| pr_Type := ty; pr_SecretRef := None |};
                     as_Targets := [{| dt_Name := "*"; dt_Namespace := "" |}] |} |}.

Definition event (user verb : string) : Event :=
  {| ev_Stage := "ResponseComplete"; ev_Verb := verb; ev_RequestURI := "/api/v1/secrets";
     ev_Username := user;
     ev_ObjectRef := Some {| ob_Resource := "secrets"; ob_Namespace := ""; ob_Name := "";
                             ob_Subresource := "" |};
     ev_Code := 200; ev_RequestReceivedTimestamp := "t"; ev_SourceIPs := ["10.0.0.9"];
     ev_UserAgent := "curl" |}.

(** Two alerts, of which the first has no provider; one sink. *)
Definition api : Snapshot := {|
  sn_alerts := [alert "broken" "ns" "discord"; alert "ok" "ns" "generic-webhook"];
  sn_sinks := [sink "loki" "ns" "generic-webhook"];
  sn_providers := [hook "hook" "ns" "generic-webhook" "http://h"];
  sn_secrets := ∅ |}.

Definition c_alerts := readonly (fun _ => None) (fun _ => sn_alerts api).
Definition c_sinks := readonly (fun _ => None) (fun _ => sn_sinks api).
Definition c_providers := readonly (fun _ => None) (fun o =>
  filterb (fun p => om_Namespace (prov_Meta p) ==? default "" (lo_Namespace o)) (sn_providers api)).
Definition c_secrets := readonly (fun k => sn_secrets api !! k) (fun _ => []).

Lemma api_reads : Reads c_alerts c_sinks c_providers c_secrets api.
Proof.
  split; intros; (split; [apply after_refl|done]).
Qed.

(** A client whose listings fail. *)
Definition down_alerts : Client script Alert := {|
  Get := Get c_alerts; List_ _ := throw (Errorf "timeout"); Create := Create c_alerts;
  Update := Update c_alerts; StatusUpdate := StatusUpdate c_alerts; Delete := Delete c_alerts |}.

Lemma down_reads : Reads down_alerts c_sinks c_providers c_secrets api.
Proof.
  split; intros; (split; [apply after_refl|done]).
Qed.

Definition kt : DecoyRef := {| dr_Namespace := "ns"; dr_Name := "trap" |}.
Definition batch : list Event := [event "system:apiserver" "list"; event "kubernetes-admin" "list"].

(** The alert with a provider posts the one notable event although the alert
    before it could not be served. *)
Lemma NotifyAuditActivity_exact_witness :
  exists (w' : script) (outs : list Outcome),
    NotifyAuditActivity (fun _ => true) Itoa c_alerts c_providers c_secrets kt batch
      (start []) = (inr tt, w') /\
    length outs = 2 /\ sent w' = concat (oc_sent <$> outs) /\
    sent w' = [json_post "http://h" (Marshal (genericAuditBatch kt [event "kubernetes-admin" "list"]))].
Proof.
  destruct (NotifyAuditActivity_exact (fun _ => true) Itoa c_alerts c_sinks c_providers c_secrets
    api api_reads kt batch (start [])) as (w' & outs & Hw & Ho).
  exists w', outs. split; [exact Hw|]. pose proof (alerts_told_after _ _ _ _ _ _ _ _ _ _ _ Ho) as (Hs & _ & _).
  destruct Ho as (_ & _ & Ho%in_turn_length). split; [rewrite Ho; vm_compute; reflexivity|].
  split; [exact Hs|].
  assert (w' = (NotifyAuditActivity (fun _ => true) Itoa c_alerts c_providers c_secrets kt batch
      (start [])).2) as -> by (by rewrite Hw).
  vm_compute. reflexivity.
Defined.

(** When the alerts cannot be listed, one line says so and nothing is sent. *)
Lemma NotifyAuditActivity_unlisted :
  exists w' : script,
    NotifyAuditActivity (fun _ => true) Itoa down_alerts c_providers c_secrets kt batch
      (start []) = (inr tt, w') /\
    sent w' = [] /\ logged w' = ["notifier: listing alerts: timeout"].
Proof.
  destruct (NotifyAuditActivity_exact (fun _ => true) Itoa down_alerts c_sinks c_providers c_secrets
    api down_reads kt batch (start [])) as (w' & outs & Hw & -> & Hs & _ & Hl).
  by exists w'.
Qed.

Lemma ShipAuditLog_exact_witness :
  exists (w' : script) (outs : list Outcome),
    ShipAuditLog (fun _ => true) c_sinks c_providers c_secrets kt batch (start []) = (inr tt, w') /\
    length outs = 1 /\ sent w' = concat (oc_sent <$> outs) /\ sent w' <> [].
Proof.
  destruct (ShipAuditLog_exact (fun _ => true) c_alerts c_sinks c_providers c_secrets
    api api_reads kt batch (start [])) as (w' & outs & Hw & Ho).
  exists w', outs. split; [exact Hw|]. pose proof (sinks_told_after _ _ _ _ _ _ _ _ _ _ Ho) as (Hs & _ & _).
  destruct Ho as (_ & _ & Ho%in_turn_length). split; [rewrite Ho; vm_compute; reflexivity|].
  split; [exact Hs|].
  assert (w' = (ShipAuditLog (fun _ => true) c_sinks c_providers c_secrets kt batch (start [])).2)
    as -> by (by rewrite Hw).
  vm_compute. discriminate.
Defined.

Lemma IsNotableAuditEvent_iff_witness :
  IsNotableAuditEvent (event "kubernetes-admin" "list") default_filter = true /\
  (forall rest, ev_Username (event "kubernetes-admin" "list") <> ("system:" +:+ rest)).
Proof.
  assert (H : forall ref, ev_ObjectRef (event "kubernetes-admin" "list") = Some ref ->
    ~ contains_byte "/"%char (ob_Resource ref)).
  { intros ref [= <-]. apply (bool_decide_eq_false_1 _). vm_compute. reflexivity. }
  assert (Hn : IsNotableAuditEvent (event "kubernetes-admin" "list") default_filter = true)
    by (vm_compute; reflexivity).
  split; [exact Hn|].
  apply (proj1 (IsNotableAuditEvent_iff _ default_filter H)) in Hn as [[Hf|[Hr _]] _].
  - discriminate Hf.
  - exact Hr.
Defined.

Lemma loki_values_increasing_witness :
  (loki_values 63900000000000000000 ["a"; "b"]).*2 = ["a"; "b"].
Proof. apply (loki_values_increasing 63900000000000000000 ["a"; "b"]); vm_compute; discriminate. Defined.

(** Eleven embeds are two messages; the second is refused. *)
Lemma sendDiscord_chunks_witness :
  let embeds := replicate 11 (podJoinEmbed kt (NN "a" "b") true "t") in
  exists messages, concat messages = embeds /\ Forall (fun m => 1 <= length m <= 10) messages /\
    2 <= length messages.
Proof.
  intros embeds.
  destruct (sendDiscord_chunks "http://d" embeds
    (start [{| rs_StatusCode := 204; rs_Body := "" |}; {| rs_StatusCode := 500; rs_Body := "" |}]))
    as (messages & ps & Hc & Hf & _).
  exists messages. split; [exact Hc|]. split; [exact Hf|].
  destruct messages as [|m [|m' rest]]; [discriminate Hc| |simpl; lia].
  exfalso. apply Forall_cons in Hf as [[_ Hm] _]. simpl in Hc. rewrite app_nil_r in Hc.
  rewrite Hc in Hm. unfold embeds in Hm. rewrite length_replicate in Hm. lia.
Defined.

Lemma embeds_within_limits_witness :
  length (de_Fields (auditEmbed kt (event "kubernetes-admin" "list") "t")) <= 8.
Proof.
  apply (embeds_within_limits kt (NN "a" "b") true (event "kubernetes-admin" "list") "t"). elem_lit.
Defined.

End Demo.
