(* ===== verification/Float64.v ===== *)
(** * float64

    Go's float64 on amd64 is IEEE 754 binary64, rounded to nearest even after
    every operation; the operations are those of the reference library's
    [SpecFloat], computed on integers. *)

From Corelib Require Import SpecFloat.
From S2P Require Import Prelude GoStrings.
#[local] Open Scope Z_scope.

Abbreviation float64 := spec_float.

(** [float64(z)] of an integer. *)
Definition f64 (z : Z) : float64 := binary_normalize 53 1024 z 0 false.

Definition fadd : float64 -> float64 -> float64 := SFadd 53 1024.
Definition fmul : float64 -> float64 -> float64 := SFmul 53 1024.
Definition fdiv : float64 -> float64 -> float64 := SFdiv 53 1024.

(** A decimal constant [n/d], correctly rounded. *)
Definition flit (n d : Z) : float64 := fdiv (f64 n) (f64 d).

(** [int64(x)] for a finite [x]: truncation towards zero; out of range the
    result is amd64's. *)
Definition to_int64 (x : float64) : Z :=
  match x with
  | S754_zero _ => 0
  | S754_finite s m e =>
      let a := if 0 <=? e then Z.pos m * 2 ^ e else Z.pos m / 2 ^ (- e) in
      let z := if s then - a else a in
      if (- 2 ^ 63 <=? z) && (z <? 2 ^ 63) then z else - 2 ^ 63
  | _ => - 2 ^ 63
  end.

(** The nearest integer to [m * 2^e * 10^6], the even one of two. *)
Definition micros (m : positive) (e : Z) : Z :=
  let n := Z.pos m * 1000000 in
  if 0 <=? e then n * 2 ^ e
  else
    let d := 2 ^ (- e) in
    let q := n / d in
    let r := 2 * (n mod d) in
    if r <? d then q else if d <? r then q + 1 else if Z.even q then q else q + 1.

Definition pad6 (z : Z) : string :=
  let s := Itoa z in concat_all (replicate (6 - String.length s) "0") +:+ s.

(** [fmt.Sprintf("%.6f", x)]. *)
Definition format6 (x : float64) : string :=
  match x with
  | S754_zero s => (if s then "-" else "") +:+ "0.000000"
  | S754_infinity s => if s then "-Inf" else "+Inf"
  | S754_nan => "NaN"
  | S754_finite s m e =>
      let n := micros m e in
      (if s then "-" else "") +:+ Itoa (n / 1000000) +:+ "." +:+ pad6 (n mod 1000000)
  end%string.

(** [d.Seconds()] of a duration in nanoseconds. *)
Definition Seconds (d : Z) : float64 :=
  fadd (f64 (Z.quot d 1000000000)) (fdiv (f64 (Z.rem d 1000000000)) (f64 1000000000)).

(** [t.Sub(u)]: a duration saturates. *)
Definition time_Sub (t u : Z) : Z := Z.max (- 2 ^ 63) (Z.min (2 ^ 63 - 1) (t - u)).

(** ** Exact products

    A product of two integers that fits the mantissa is computed exactly. *)

(** [p * 2^n]. *)
Definition xOs (n : nat) (p : positive) : positive := Nat.iter n xO p.

Lemma xOs_val n p : Z.pos (xOs n p) = Z.pos p * 2 ^ Z.of_nat n.
Proof.
  unfold xOs. induction n as [|n IH]; simpl; [lia|].
  rewrite Pos2Z.inj_xO, IH, Nat2Z.inj_succ, Z.pow_succ_r by lia. lia.
Qed.

Lemma xOs_add n m p : xOs n (xOs m p) = xOs (n + m) p.
Proof. unfold xOs. by rewrite Nat.iter_add. Qed.

Lemma xOs_mul n m p q : Pos.mul (xOs n p) (xOs m q) = xOs (n + m) (Pos.mul p q).
Proof.
  apply (inj Z.pos). rewrite Pos2Z.inj_mul, !xOs_val, Pos2Z.inj_mul, Nat2Z.inj_add, Z.pow_add_r by lia. lia.
Qed.

Lemma digits_xOs n p : Z.pos (digits2_pos (xOs n p)) = Z.pos (digits2_pos p) + Z.of_nat n.
Proof. unfold xOs. induction n as [|n IH]; simpl; [lia|]. rewrite Pos2Z.inj_succ. lia. Qed.

Lemma digits_bounds p :
  2 ^ (Z.pos (digits2_pos p) - 1) <= Z.pos p < 2 ^ Z.pos (digits2_pos p).
Proof.
  induction p as [p IH|p IH|]; cbn [digits2_pos]; [| |done];
    rewrite Pos2Z.inj_succ, Z.pow_succ_r by lia;
    replace (Z.succ (Z.pos (digits2_pos p)) - 1) with (Z.succ (Z.pos (digits2_pos p) - 1)) by lia;
    rewrite Z.pow_succ_r by lia; lia.
Qed.

Lemma digits_le p n : Z.pos p < 2 ^ n -> 0 <= n -> Z.pos (digits2_pos p) <= n.
Proof.
  intros Hp Hn. destruct (digits_bounds p) as [Hl _].
  assert (Z.pos (digits2_pos p) - 1 < n); [|lia].
  apply (Z.pow_lt_mono_r_iff 2); lia.
Qed.

Lemma digits_mul p q :
  Z.pos (digits2_pos p) + Z.pos (digits2_pos q) - 1 <= Z.pos (digits2_pos (p * q)).
Proof.
  destruct (digits_bounds p) as [Hp _], (digits_bounds q) as [Hq _], (digits_bounds (p * q)) as [_ Hpq].
  assert (Z.pos (digits2_pos p) - 1 + (Z.pos (digits2_pos q) - 1) < Z.pos (digits2_pos (p * q))); [|lia].
  apply (Z.pow_lt_mono_r_iff 2); [lia|lia|]. rewrite Z.pow_add_r, Pos2Z.inj_mul in * by lia. nia.
Qed.

Definition exact_record (p : positive) : shr_record := {| shr_m := Z.pos p; shr_r := false; shr_s := false |}.

Lemma iter_pos_nat {A} (f : A -> A) p x : SpecFloat.iter_pos f p x = Nat.iter (Pos.to_nat p) f x.
Proof.
  revert x. induction p as [p IH|p IH|]; intros x; cbn [SpecFloat.iter_pos]; [| |done]; rewrite !IH.
  - rewrite Pos2Nat.inj_xI, Nat.iter_succ_r. change (2 * Pos.to_nat p)%nat with (Pos.to_nat p + (Pos.to_nat p + 0))%nat.
    by rewrite Nat.add_0_r, Nat.iter_add.
  - rewrite Pos2Nat.inj_xO. change (2 * Pos.to_nat p)%nat with (Pos.to_nat p + (Pos.to_nat p + 0))%nat.
    by rewrite Nat.add_0_r, Nat.iter_add.
Qed.

Lemma shr_exact n p e :
  shr (exact_record (xOs n p)) e (Z.of_nat n) = (exact_record p, e + Z.of_nat n).
Proof.
  destruct n as [|n]; [unfold shr; simpl; f_equal; lia|].
  unfold shr. change (Z.of_nat (S n)) with (Z.pos (Pos.of_succ_nat n)). f_equal.
  rewrite iter_pos_nat, SuccNat2Pos.id_succ. generalize (S n). clear n e. intros n.
  induction n as [|n IH]; [done|]. rewrite Nat.iter_succ_r. exact IH.
Qed.

(** Rounding drops low zeros only. *)
Lemma round_exact n p e :
  Z.pos (digits2_pos p) = 53 -> - 1074 <= e + Z.of_nat n <= 971 ->
  binary_round_aux 53 1024 false (Z.pos (xOs n p)) e loc_Exact = S754_finite false p (e + Z.of_nat n).
Proof.
  intros Hd He. unfold binary_round_aux, shr_fexp. cbn [Zdigits2 shr_record_of_loc].
  unfold fexp, SpecFloat.emin. rewrite digits_xOs, Hd.
  replace (Z.max _ _ - e) with (Z.of_nat n) by lia.
  change {| shr_m := Z.pos (xOs n p); shr_r := false; shr_s := false |} with (exact_record (xOs n p)).
  rewrite shr_exact. cbn [exact_record shr_m loc_of_shr_record shr_r shr_s round_nearest_even Zdigits2].
  rewrite Hd. replace (Z.max _ _ - (e + Z.of_nat n)) with 0 by lia. cbn [shr shr_m].
  by rewrite (proj2 (Z.leb_le _ _)) by lia.
Qed.

(** The double of a positive integer below [2^53]: its bits, shifted up. *)
Lemma f64_pos p :
  Z.pos p < 2 ^ 53 ->
  f64 (Z.pos p) = S754_finite false (xOs (Z.to_nat (53 - Z.pos (digits2_pos p))) p) (Z.pos (digits2_pos p) - 53).
Proof.
  intros Hp. pose proof (digits_le p 53 Hp ltac:(lia)) as Hd.
  unfold f64, binary_normalize, binary_round, fexp, SpecFloat.emin. set (d := Z.pos (digits2_pos p)) in *.
  rewrite Z.add_0_r. replace (Z.max _ _) with (d - 53) by lia. unfold shl_align.
  set (n := Z.to_nat (53 - d)).
  assert (Hx : Z.pos (digits2_pos (xOs n p)) = 53) by (rewrite digits_xOs; lia).
  destruct (d - 53 - 0) as [|q|q] eqn:E; [|lia|].
  - assert (n = O) as -> by lia. pose proof (round_exact 0 p 0 Hx ltac:(lia)) as Hr.
    cbn [xOs Nat.iter nat_rect] in *. rewrite Hr. f_equal; lia.
  - assert (PosDef.Pos.iter xO p q = xOs n p) as ->.
    { unfold xOs. change (PosDef.Pos.iter xO p q) with (Pos.iter xO p q).
      rewrite Pos2Nat.inj_iter. replace n with (Pos.to_nat q) by lia. done. }
    pose proof (round_exact 0 (xOs n p) (d - 53) Hx ltac:(lia)) as Hr.
    cbn [xOs Nat.iter nat_rect] in Hr. rewrite Hr. f_equal. lia.
Qed.

(** [int64(float64(a) * float64(b)) == a * b] when the product is below [2^53]. *)
Lemma fmul_exact a b : 0 < a -> 0 < b -> a * b < 2 ^ 53 -> to_int64 (fmul (f64 a) (f64 b)) = a * b.
Proof.
  intros Ha Hb Hab. destruct a as [|a|]; [lia| |lia]. destruct b as [|b|]; [lia| |lia].
  rewrite !f64_pos by nia. unfold fmul, SFmul.
  pose proof (digits_le a 53 ltac:(nia) ltac:(lia)) as Hda. pose proof (digits_le b 53 ltac:(nia) ltac:(lia)) as Hdb.
  pose proof (digits_le (a * b) 53 Hab ltac:(lia)) as Hdab. pose proof (digits_mul a b) as Hdm.
  rewrite xOs_mul. set (da := Z.pos (digits2_pos a)) in *. set (db := Z.pos (digits2_pos b)) in *.
  set (d := Z.pos (digits2_pos (a * b))) in *. set (k := Z.to_nat (53 - d)).
  set (n := Z.to_nat (d + 53 - da - db)).
  assert ((Z.to_nat (53 - da) + Z.to_nat (53 - db))%nat = (n + k)%nat) as -> by lia.
  rewrite <- xOs_add. cbn [xorb]. rewrite round_exact; [|rewrite digits_xOs; lia|lia].
  cbn [to_int64]. rewrite xOs_val.
  replace (da - 53 + (db - 53) + Z.of_nat n) with (- Z.of_nat k) by lia.
  destruct (0 <=? - Z.of_nat k) eqn:E.
  - apply Z.leb_le in E. assert (k = O) as -> by lia. simpl Z.of_nat. rewrite !Z.mul_1_r.
    by rewrite (proj2 (Z.leb_le _ _)), (proj2 (Z.ltb_lt _ _)) by lia.
  - rewrite Z.opp_involutive, Z.div_mul by (apply Z.pow_nonzero; lia).
    by rewrite (proj2 (Z.leb_le _ _)), (proj2 (Z.ltb_lt _ _)) by lia.
Qed.
