(* ===== verification/Duration.v ===== *)
(** * time.Duration's text

    [Duration.String] and [time.ParseDuration], as the flags of the two
    commands use them. A duration is an [int64] of nanoseconds. *)

From Stdlib Require Import Ascii.
From S2P Require Import Prelude GoStrings Float64.
#[local] Open Scope string_scope.
#[local] Open Scope list_scope.

Definition Microsecond : Z := 1000.
Definition Millisecond : Z := 1000000.
Definition Second : Z := 1000000000.
Definition Minute : Z := 60000000000.
Definition Hour : Z := 3600000000000.

(** ** [Duration.String] *)

Definition digit_char (d : Z) : ascii := Zbyte (48 + d).

(** [fmtFrac]: the text of [v / 10^prec] after the point, without trailing
    zeros, and the integral part; [tail] is what is already written. *)
Fixpoint fmtFrac (prec : nat) (v : Z) (print : bool) (tail : string) : string * Z :=
  match prec with
  | O => (if print then "." +:+ tail else tail, v)
  | S n =>
      let digit := (v mod 10)%Z in
      let print := print || (digit !=? 0%Z) in
      fmtFrac n (v / 10) print (if print then String (digit_char digit) tail else tail)
  end.

(** The largest units of a duration of [u] whole seconds. *)
Definition fmt_seconds (u : Z) (tail : string) : string :=
  let s := Itoa (u mod 60) +:+ tail in
  let u := (u / 60)%Z in
  if (0 <? u)%Z then
    let s := Itoa (u mod 60) +:+ "m" +:+ s in
    let u := (u / 60)%Z in
    if (0 <? u)%Z then Itoa u +:+ "h" +:+ s else s
  else s.

Definition micro_sign : string := encode_rune 181.

Definition format_abs (u : Z) : string :=
  if (u <? Second)%Z then
    if u ==? 0%Z then "0s"
    else
      let '(prec, unit) := if (u <? Microsecond)%Z then (0, "ns")
                           else if (u <? Millisecond)%Z then (3, micro_sign +:+ "s") else (6, "ms") in
      let '(frac, v) := fmtFrac prec u false unit in Itoa v +:+ frac
  else
    let '(frac, v) := fmtFrac 9 u false "s" in fmt_seconds v frac.

Definition Duration_String (d : Z) : string :=
  if (d <? 0)%Z then "-" +:+ format_abs (- d) else format_abs d.

(** ** [time.ParseDuration] *)

Definition is_digit (c : ascii) : bool := between 48 57 (byteZ c).

(** [leadingInt]; [None] is its overflow error. *)
Fixpoint leadingInt (x : Z) (s : string) : option (Z * string) :=
  match s with
  | String c s' =>
      if is_digit c then
        if (2 ^ 63 / 10 <? x)%Z then None
        else let x' := (x * 10 + (byteZ c - 48))%Z in
             if (2 ^ 63 <? x')%Z then None else leadingInt x' s'
      else Some (x, s)
  | "" => Some (x, s)
  end.

Fixpoint leadingFraction (x : Z) (scale : float64) (overflow : bool) (s : string) : Z * float64 * string :=
  match s with
  | String c s' =>
      if is_digit c then
        if overflow then leadingFraction x scale true s'
        else if ((2 ^ 63 - 1) / 10 <? x)%Z then leadingFraction x scale true s'
        else let y := (x * 10 + (byteZ c - 48))%Z in
             if (2 ^ 63 <? y)%Z then leadingFraction x scale true s'
             else leadingFraction y (fmul scale (f64 10)) false s'
      else (x, scale, s)
  | "" => (x, scale, s)
  end.

(** The unit: up to the next point or digit. *)
Fixpoint span_unit (s : string) : string * string :=
  match s with
  | String c s' =>
      if bool_decide (c = "."%char) || is_digit c then ("", s)
      else let '(u, rest) := span_unit s' in (String c u, rest)
  | "" => ("", "")
  end.

Definition unitMap : list (string * Z) :=
  [("ns", 1%Z); ("us", Microsecond); (micro_sign +:+ "s", Microsecond); (encode_rune 956 +:+ "s", Microsecond);
   ("ms", Millisecond); ("s", Second); ("m", Minute); ("h", Hour)].

Definition unit_of (u : string) : option Z := snd <$> List.find (fun p => p.1 ==? u) unitMap.

(** The fraction [f / scale] of a unit, in nanoseconds: computed in float64. *)
Definition frac_ns (f : Z) (scale : float64) (unit : Z) : Z :=
  to_int64 (fmul (f64 f) (fdiv (f64 unit) scale)).

(** One number with its unit; [None] is any of the errors. *)
Definition parse_term (s : string) : option (Z * string) :=
  '(v, s1) ← leadingInt 0 s;
  let pre := String.length s1 !=? String.length s in
  let '(f, scale, s2, post) :=
    match s1 with
    | String c s' =>
        if bool_decide (c = "."%char) then
          let '(f, scale, s2) := leadingFraction 0 (f64 1) false s' in
          (f, scale, s2, String.length s2 !=? String.length s')
        else (0%Z, f64 1, s1, false)
    | "" => (0%Z, f64 1, s1, false)
    end in
  if negb pre && negb post then None
  else
    let '(u, s3) := span_unit s2 in
    unit ← unit_of u;
    if (2 ^ 63 / unit <? v)%Z then None
    else
      let v := (v * unit)%Z in
      let v := if (0 <? f)%Z then (v + frac_ns f scale unit)%Z else v in
      if (2 ^ 63 <? v)%Z then None else Some (v, s3).

(** The loop; a round consumes at least the unit's first byte. *)
Fixpoint parse_terms (fuel : nat) (d : Z) (s : string) : option Z :=
  match s, fuel with
  | "", _ => Some d
  | _, O => None
  | String c _, S n =>
      if negb (bool_decide (c = "."%char) || is_digit c) then None
      else '(v, s') ← parse_term s;
           let d := Int.wrapU 64 (d + v) in
           if (2 ^ 63 <? d)%Z then None else parse_terms n d s'
  end.

Definition ParseDuration (s : string) : option Z :=
  let '(neg, s) := match s with
                   | String c s' => if bool_decide (c = "-"%char) then (true, s')
                                    else if bool_decide (c = "+"%char) then (false, s') else (false, s)
                   | "" => (false, s)
                   end in
  if s ==? "0" then Some 0%Z
  else if s ==? "" then None
  else d ← parse_terms (String.length s) 0 s;
       if neg : bool then Some (- d)%Z
       else if (2 ^ 63 - 1 <? d)%Z then None else Some d.

Example dur1 : Duration_String 20000000000 = "20s" /\ Duration_String 5400000000000 = "1h30m0s"
  /\ Duration_String (-1500000) = "-1.5ms" /\ Duration_String (- 2 ^ 63) = "-2562047h47m16.854775808s"
  /\ ParseDuration "1.5h" = Some 5400000000000%Z /\ ParseDuration "1h15m30.918273645s" = Some 4530918273645%Z
  /\ ParseDuration "20" = None /\ ParseDuration "-2562047h47m16.854775808s" = Some (- 2 ^ 63)%Z.
Proof. vm_compute. repeat split. Qed.

(** ** What is printed is parsed

    The fraction goes through float64 arithmetic, which is exact here: the
    quotient of the unit and the scale is a power of ten, and the products
    stay below [2^53]. *)

Lemma is_digit_char d : (0 <= d < 10)%Z -> is_digit (digit_char d) = true /\ byteZ (digit_char d) = (48 + d)%Z.
Proof.
  intros Hd. unfold is_digit, digit_char. rewrite byteZ_Zbyte by lia. split; [|done].
  unfold between. apply andb_true_iff. split; apply Z.leb_le; lia.
Qed.

(** The first byte, if any, is no digit. *)
Definition no_digit (s : string) : Prop := match s with String c _ => is_digit c = false | "" => True end.

(** *** Integers *)

Lemma pretty_digit n : (n < 10)%N -> pretty_N_char n = digit_char (Z.of_N n).
Proof.
  intros Hn. destruct n as [|p]; [reflexivity|].
  do 4 (destruct p as [p|p|]; try reflexivity; try lia).
Qed.

Lemma leadingInt_digit x d s :
  (0 <= d < 10)%Z -> (0 <= x)%Z -> (x * 10 + d <= 2 ^ 63)%Z ->
  leadingInt x (String (digit_char d) s) = leadingInt (x * 10 + d) s.
Proof.
  intros Hd Hx Hm. cbn [leadingInt]. destruct (is_digit_char d Hd) as [-> ->].
  replace (48 + d - 48)%Z with d by lia.
  rewrite (proj2 (Z.ltb_ge _ _)), (proj2 (Z.ltb_ge _ _)); [done|lia|].
  apply Z.div_le_lower_bound; lia.
Qed.

Lemma div10 x : exists q r, (x / 10)%N = q /\ (x mod 10)%N = r /\ x = (10 * q + r)%N /\ (r < 10)%N.
Proof.
  exists (x / 10)%N, (x mod 10)%N. split_and!; [done|done|apply N.div_mod; lia|apply N.mod_lt; lia].
Qed.

Lemma leadingInt_go x s :
  (Z.of_N x <= 2 ^ 63)%Z -> leadingInt 0 (pretty_N_go x s) = leadingInt (Z.of_N x) s.
Proof.
  revert s. induction (N.lt_wf_0 x) as [x _ IH]. intros s Hx.
  destruct (decide (x = 0%N)) as [->|Hne]; [by rewrite pretty_N_go_0|].
  rewrite pretty_N_go_step by lia. destruct (div10 x) as (q & r & -> & -> & Hx' & Hr). subst x.
  rewrite IH by lia. rewrite pretty_digit by done.
  rewrite leadingInt_digit by lia. f_equal. lia.
Qed.

Lemma leadingInt_rest x s : no_digit s -> leadingInt x s = Some (x, s).
Proof. destruct s as [|c s]; [done|]. simpl. by intros ->. Qed.

Lemma pretty_go_app x s : pretty_N_go x s = pretty_N_go x "" +:+ s.
Proof.
  revert s. induction (N.lt_wf_0 x) as [x _ IH]. intros s.
  destruct (decide (x = 0%N)) as [->|Hne]; [by rewrite !pretty_N_go_0|].
  assert (Hlt : (x / 10 < x)%N) by (apply N.div_lt; lia).
  rewrite (pretty_N_go_step x s), (pretty_N_go_step x "") by lia.
  rewrite (IH _ Hlt (String _ "")), (IH _ Hlt (String _ s)). by rewrite sapp_assoc.
Qed.

Lemma leadingInt_Itoa u s :
  (0 <= u <= 2 ^ 63)%Z -> no_digit s -> leadingInt 0 (Itoa u +:+ s) = Some (u, s).
Proof.
  intros Hu Hs. unfold Itoa, pretty, pretty_Z. destruct u as [|p|p]; [|..|lia].
  - change ("0" +:+ s) with (String (digit_char 0) s). rewrite leadingInt_digit by lia. by apply leadingInt_rest.
  - unfold pretty, pretty_positive, pretty, pretty_N. rewrite decide_False by done.
    rewrite <- pretty_go_app, leadingInt_go by lia. simpl. by apply leadingInt_rest.
Qed.

Lemma Itoa_first u s : (0 <= u)%Z -> exists c t, Itoa u +:+ s = String c t /\ is_digit c = true.
Proof.
  intros Hu. assert (Hc : forall x t, (0 < x)%N -> exists c t', pretty_N_go x t = String c t' /\ is_digit c = true).
  { intros x. induction (N.lt_wf_0 x) as [x _ IH]. intros t Hx. rewrite pretty_N_go_step by lia.
    destruct (div10 x) as (q & r & -> & -> & -> & Hr).
    destruct (decide (q = 0)%N) as [->|Hne]; [|apply IH; lia].
    rewrite pretty_N_go_0. eexists _, _. split; [reflexivity|]. rewrite pretty_digit by done.
    apply is_digit_char. lia. }
  unfold Itoa, pretty, pretty_Z. destruct u as [|p|p]; [by eexists _, _|..|lia].
  unfold pretty, pretty_positive, pretty, pretty_N. rewrite decide_False by done. rewrite <- pretty_go_app. by apply Hc.
Qed.

(** *** Fractions *)

(** The last [n] digits of [v]. *)
Fixpoint low_digits (n : nat) (v : Z) (tail : string) : string :=
  match n with
  | O => tail
  | S m => low_digits m (v / 10) (String (digit_char (v mod 10)) tail)
  end.

Lemma fmtFrac_print n v tail : fmtFrac n v true tail = ("." +:+ low_digits n v tail, (v / 10 ^ Z.of_nat n)%Z).
Proof.
  revert v tail. induction n as [|n IH]; intros v tail.
  - cbn. by rewrite Z.div_1_r.
  - cbn [fmtFrac low_digits orb]. rewrite IH. f_equal. rewrite Nat2Z.inj_succ, Z.pow_succ_r by lia.
    by rewrite Z.div_div by lia.
Qed.

Lemma low_digits_succ n v tail : low_digits (S n) v tail = low_digits n (v / 10) (String (digit_char (v mod 10)) tail).
Proof. reflexivity. Qed.

(** [fmtFrac] drops the trailing zeros, [j] of them. *)
Lemma fmtFrac_trim prec v unit :
  exists j, (j <= prec)%nat /\ (v mod 10 ^ Z.of_nat j = 0)%Z /\
    fmtFrac prec v false unit =
      (if decide (j = prec) then unit else "." +:+ low_digits (prec - j) (v / 10 ^ Z.of_nat j) unit,
       (v / 10 ^ Z.of_nat prec)%Z) /\
    (j < prec -> ((v / 10 ^ Z.of_nat j) mod 10 <> 0)%Z).
Proof.
  revert v. induction prec as [|n IH]; intros v.
  { exists 0. split_and!; [done|apply Z.mod_1_r| |lia]. rewrite decide_True by done. cbn. by rewrite Z.div_1_r. }
  cbn [fmtFrac orb]. case_bool_decide as H0; cbn [negb].
  - destruct (IH (v / 10)%Z) as (j & Hj & Hm & -> & Hn). exists (S j).
    rewrite !Nat2Z.inj_succ, !Z.pow_succ_r, <- !Z.div_div by lia. split_and!; [lia| |f_equal|].
    + rewrite Z.rem_mul_r, H0, Hm by lia. lia.
    + destruct (decide (j = n)) as [->|]; [by rewrite decide_True|]. by rewrite decide_False by lia.
    + intros Hlt. apply Hn. lia.
  - exists 0. change (10 ^ Z.of_nat 0)%Z with 1%Z. rewrite Z.div_1_r, Z.mod_1_r. split_and!; [lia|done| |done].
    rewrite decide_False by lia. rewrite fmtFrac_print, Nat.sub_0_r, low_digits_succ. f_equal.
    rewrite Nat2Z.inj_succ, Z.pow_succ_r by lia. by rewrite Z.div_div by lia.
Qed.

Lemma leadingFraction_digit x sc d s :
  (0 <= d < 10)%Z -> (0 <= x < 10 ^ 17)%Z ->
  leadingFraction x sc false (String (digit_char d) s) = leadingFraction (x * 10 + d) (fmul sc (f64 10)) false s.
Proof.
  intros Hd Hx. cbn [leadingFraction]. destruct (is_digit_char d Hd) as [-> ->].
  replace (48 + d - 48)%Z with d by lia. rewrite (proj2 (Z.ltb_ge _ _)), (proj2 (Z.ltb_ge _ _)); [done|lia|].
  apply Z.div_le_lower_bound; lia.
Qed.

(** [10^k] as the loop computes it. *)
Definition scale_at (k : nat) : float64 := Nat.iter k (fun sc => fmul sc (f64 10)) (f64 1).

(** Reading [n] digits back after [x]. *)
Lemma leadingFraction_low n v tail x sc :
  (0 <= x)%Z -> (x * 10 ^ Z.of_nat n + 10 ^ Z.of_nat n <= 10 ^ 17)%Z ->
  leadingFraction x sc false (low_digits n v tail) =
  leadingFraction (x * 10 ^ Z.of_nat n + v mod 10 ^ Z.of_nat n)
    (Nat.iter n (fun sc => fmul sc (f64 10)) sc) false tail.
Proof.
  revert v tail. induction n as [|n IH]; intros v tail Hx Hb.
  - cbn. rewrite Z.mod_1_r. f_equal. lia.
  - rewrite low_digits_succ. rewrite Nat2Z.inj_succ, Z.pow_succ_r in * by lia.
    assert (Hp : (0 < 10 ^ Z.of_nat n)%Z) by (apply Z.pow_pos_nonneg; lia).
    pose proof (Z.mod_pos_bound (v / 10) _ Hp) as Hm. pose proof (Z.mod_pos_bound v 10 ltac:(lia)) as Hd.
    rewrite IH by lia. rewrite leadingFraction_digit by nia.
    replace (v mod (10 * 10 ^ Z.of_nat n))%Z with (v mod 10 + 10 * ((v / 10) mod 10 ^ Z.of_nat n))%Z
      by (rewrite Z.rem_mul_r by lia; lia).
    f_equal. lia.
Qed.

Lemma leadingFraction_rest x sc s : no_digit s -> leadingFraction x sc false s = (x, sc, s).
Proof. destruct s as [|c s]; [done|]. simpl. by intros ->. Qed.

(** The units whose fractions are written, with the digits they have. *)
Inductive fractional : Z -> nat -> Prop :=
  | frac_s : fractional Second 9
  | frac_ms : fractional Millisecond 6
  | frac_us : fractional Microsecond 3.

Lemma fractional_pow unit prec : fractional unit prec -> unit = (10 ^ Z.of_nat prec)%Z /\ prec <= 9.
Proof. intros []; split; (reflexivity || lia). Qed.

(** The quotient [unit / scale] is exact. *)
Lemma unit_scale unit prec k :
  fractional unit prec -> k <= prec -> fdiv (f64 unit) (scale_at k) = f64 (10 ^ Z.of_nat (prec - k)).
Proof.
  intros [] Hk; do 10 (destruct k as [|k]; [first [lia | vm_compute; reflexivity]|]); lia.
Qed.

Lemma frac_ns_exact unit prec k w :
  fractional unit prec -> k <= prec -> (0 < w < 10 ^ Z.of_nat k)%Z ->
  frac_ns w (scale_at k) unit = (w * 10 ^ Z.of_nat (prec - k))%Z.
Proof.
  intros Hf Hk Hw. unfold frac_ns. erewrite unit_scale by done.
  apply fractional_pow in Hf as [_ Hp].
  assert (10 ^ Z.of_nat k * 10 ^ Z.of_nat (prec - k) = 10 ^ Z.of_nat prec)%Z as Hprod.
  { rewrite <- Z.pow_add_r by lia. f_equal. lia. }
  assert (10 ^ Z.of_nat prec <= 10 ^ 9)%Z by (apply Z.pow_le_mono_r; lia).
  assert (0 < 10 ^ Z.of_nat (prec - k))%Z by (apply Z.pow_pos_nonneg; lia).
  apply fmul_exact; nia.
Qed.

(** *** Terms *)

Definition in_unit (c : ascii) : bool := negb (bool_decide (c = "."%char) || is_digit c).

(** What may follow a unit: the end or the next number. *)
Definition next_term (s : string) : Prop := match s with String c _ => is_digit c = true | "" => True end.

(** [n] is the text of the unit [U]. *)
Definition unit_text (n : string) (U : Z) : Prop :=
  Forall (fun c => in_unit c = true) (chars n) /\ n <> "" /\ unit_of n = Some U /\ (1 <= U <= Hour)%Z.

Lemma unit_texts :
  unit_text "ns" 1 /\ unit_text (micro_sign +:+ "s") Microsecond /\ unit_text "ms" Millisecond /\
  unit_text "s" Second /\ unit_text "m" Minute /\ unit_text "h" Hour.
Proof.
  split_and!; (split_and!; [|done|vm_compute; reflexivity|vm_compute; discriminate..]);
    (apply (bool_decide_eq_true_1 _); vm_compute; reflexivity).
Qed.

Lemma span_unit_app n rest :
  Forall (fun c => in_unit c = true) (chars n) -> next_term rest -> span_unit (n +:+ rest) = (n, rest).
Proof.
  intros Hn Hr. induction n as [|c n IH].
  - destruct rest as [|c rest]; [done|]. simpl in *. by rewrite Hr, orb_true_r.
  - apply Forall_cons in Hn as [Hc Hn]. rewrite sapp_cons. simpl. unfold in_unit in Hc.
    apply negb_true_iff in Hc. by rewrite Hc, IH.
Qed.

Lemma unit_no_digit n U rest : unit_text n U -> no_digit (n +:+ rest).
Proof.
  intros (Hn & Hne & _). destruct n as [|c n]; [done|]. rewrite sapp_cons. simpl.
  apply Forall_cons in Hn as [Hc _]. unfold in_unit in Hc. by apply negb_true_iff, orb_false_iff in Hc as [_ ?].
Qed.

Lemma length_Itoa_pos u s : (0 <= u)%Z -> String.length s < String.length (Itoa u +:+ s).
Proof.
  intros Hu. destruct (Itoa_first u "" Hu) as (c & t & Ht & _). rewrite sapp_nil_r in Ht.
  rewrite Ht, length_sapp. simpl. lia.
Qed.

(** A number without a fraction. *)
Lemma parse_term_int v n U rest :
  (0 <= v)%Z -> (v * U <= 2 ^ 63)%Z -> unit_text n U -> next_term rest ->
  parse_term (Itoa v +:+ n +:+ rest) = Some ((v * U)%Z, rest).
Proof.
  intros Hv HvU Hn Hr. unfold parse_term. pose proof Hn as (Hf & Hne & Hu & HU).
  rewrite leadingInt_Itoa; [|nia|by eapply unit_no_digit]. cbn [mbind option_bind].
  pose proof (length_Itoa_pos v (n +:+ rest) Hv) as Hlen.
  rewrite bool_decide_eq_false_2 by lia.
  assert (Hs : match n +:+ rest with
    | String c s' => if bool_decide (c = "."%char) then
        let '(f, scale, s2) := leadingFraction 0 (f64 1) false s' in
        (f, scale, s2, String.length s2 !=? String.length s') else (0%Z, f64 1, n +:+ rest, false)
    | "" => (0%Z, f64 1, n +:+ rest, false) end = (0%Z, f64 1, n +:+ rest, false)).
  { destruct n as [|c n]; [done|]. rewrite sapp_cons. apply Forall_cons in Hf as [Hc _].
    unfold in_unit in Hc. apply negb_true_iff, orb_false_iff in Hc as [-> _]. done. }
  rewrite Hs. cbn [negb andb]. rewrite span_unit_app by done. rewrite Hu. cbn [mbind option_bind].
  rewrite (proj2 (Z.ltb_ge _ _)) by (apply Z.div_le_lower_bound; lia).
  rewrite (proj2 (Z.ltb_ge 0 0)) by lia. by rewrite (proj2 (Z.ltb_ge _ _)).
Qed.

(** A number with the fraction [fmtFrac] writes. *)
Lemma parse_term_frac u n prec U rest frac v :
  fractional U prec -> unit_text n U -> next_term rest -> (0 <= u <= 2 ^ 63)%Z ->
  fmtFrac prec u false (n +:+ rest) = (frac, v) ->
  parse_term (Itoa v +:+ frac) = Some (u, rest).
Proof.
  intros Hfr Hn Hr Hu Hfmt. pose proof (fractional_pow _ _ Hfr) as [HU Hp9].
  destruct (fmtFrac_trim prec u (n +:+ rest)) as (j & Hj & Hmod & Heq & Hnz). rewrite Heq in Hfmt. clear Heq.
  assert (HP : (0 < 10 ^ Z.of_nat prec)%Z) by (apply Z.pow_pos_nonneg; lia).
  destruct (decide (j = prec)) as [->|Hjp]; injection Hfmt as <- <-.
  { rewrite (parse_term_int _ n U); [| |rewrite HU|done..].
    - rewrite HU. do 2 f_equal. apply Z.mod_divide in Hmod; [|lia].
      destruct Hmod as [q ->]. by rewrite Z.div_mul by lia.
    - apply Z.div_pos; lia.
    - pose proof (Z.mul_div_le u _ HP). lia. }
  set (k := prec - j) in *. set (w := ((u / 10 ^ Z.of_nat j) mod 10 ^ Z.of_nat k)%Z).
  assert (HJ : (0 < 10 ^ Z.of_nat j)%Z) by (apply Z.pow_pos_nonneg; lia).
  assert (HK : (0 < 10 ^ Z.of_nat k)%Z) by (apply Z.pow_pos_nonneg; lia).
  assert (HJK : (10 ^ Z.of_nat prec = 10 ^ Z.of_nat j * 10 ^ Z.of_nat k)%Z).
  { rewrite <- Z.pow_add_r by lia. f_equal. lia. }
  assert (HK17 : (10 ^ Z.of_nat k <= 10 ^ 9)%Z) by (apply Z.pow_le_mono_r; lia).
  assert (Hw : (0 < w < 10 ^ Z.of_nat k)%Z).
  { pose proof (Z.mod_pos_bound (u / 10 ^ Z.of_nat j) _ HK) as Hb. fold w in Hb.
    assert (w <> 0%Z); [|lia]. intros Hw0. apply Hnz; [lia|].
    assert (Hk : Z.of_nat k = Z.succ (Z.of_nat (k - 1))) by lia. unfold w in Hw0.
    rewrite Hk, Z.pow_succ_r, Z.rem_mul_r in Hw0 by lia.
    pose proof (Z.mod_pos_bound (u / 10 ^ Z.of_nat j) 10 ltac:(lia)).
    pose proof (Z.mod_pos_bound (u / 10 ^ Z.of_nat j / 10) (10 ^ Z.of_nat (k - 1)) ltac:(apply Z.pow_pos_nonneg; lia)). lia. }
  assert (Hval : (u / 10 ^ Z.of_nat prec * U + w * 10 ^ Z.of_nat (prec - k) = u)%Z).
  { replace (prec - k) with j by lia. rewrite HU. unfold w. rewrite HJK, <- Z.div_div by lia.
    pose proof (Z.div_mod (u / 10 ^ Z.of_nat j) (10 ^ Z.of_nat k) ltac:(lia)).
    pose proof (Z.div_mod u (10 ^ Z.of_nat j) ltac:(lia)). nia. }
  assert (Hv0 : (0 <= u / 10 ^ Z.of_nat prec)%Z) by (apply Z.div_pos; lia).
  assert (Hw' : (0 <= w * 10 ^ Z.of_nat (prec - k))%Z) by (replace (prec - k) with j by lia; nia).
  unfold parse_term. pose proof Hn as (Hf & Hne & Hun & HU1).
  rewrite leadingInt_Itoa by (try reflexivity; nia). cbn [mbind option_bind].
  rewrite sapp_cons, sapp_nil_l, bool_decide_eq_true_2 by done.
  rewrite leadingFraction_low by lia. rewrite leadingFraction_rest by (by eapply unit_no_digit).
  rewrite Z.mul_0_l, Z.add_0_l. fold w. fold (scale_at k).
  rewrite bool_decide_eq_false_2.
  2: { match goal with |- ?a <> ?b => assert (a < b); [|lia] end. apply (length_Itoa_pos _ (String _ _) Hv0). }
  cbn [negb andb]. rewrite span_unit_app by done. rewrite Hun. cbn [mbind option_bind].
  rewrite (proj2 (Z.ltb_ge _ _)) by (apply Z.div_le_lower_bound; nia).
  rewrite (proj2 (Z.ltb_lt 0 w)) by lia. rewrite (frac_ns_exact U prec) by (done || lia).
  rewrite Hval. by rewrite (proj2 (Z.ltb_ge _ _)) by lia.
Qed.

Lemma fmtFrac_snd prec v b t : (fmtFrac prec v b t).2 = (v / 10 ^ Z.of_nat prec)%Z.
Proof.
  revert v b t. induction prec as [|n IH]; intros v b t; [cbn; by rewrite Z.div_1_r|].
  cbn [fmtFrac]. rewrite IH, Nat2Z.inj_succ, Z.pow_succ_r by lia. by rewrite Z.div_div by lia.
Qed.

Lemma fmtFrac_mod prec v v' b t :
  (v mod 10 ^ Z.of_nat prec = v' mod 10 ^ Z.of_nat prec)%Z ->
  (fmtFrac prec v b t).1 = (fmtFrac prec v' b t).1.
Proof.
  revert v v' b t. induction prec as [|n IH]; intros v v' b t Hm; [done|].
  cbn [fmtFrac]. rewrite Nat2Z.inj_succ, Z.pow_succ_r in Hm by lia.
  assert (HP : (0 < 10 ^ Z.of_nat n)%Z) by (apply Z.pow_pos_nonneg; lia).
  rewrite !Z.rem_mul_r in Hm by lia.
  pose proof (Z.mod_pos_bound v 10 ltac:(lia)). pose proof (Z.mod_pos_bound v' 10 ltac:(lia)).
  assert (v mod 10 = v' mod 10)%Z as -> by lia. apply IH. lia.
Qed.

(** *** The round trip *)

Lemma parse_terms_step n d s v s' :
  (exists c t, s = String c t /\ is_digit c = true) -> parse_term s = Some (v, s') ->
  (0 <= d)%Z -> (0 <= v)%Z -> (d + v <= 2 ^ 63)%Z ->
  parse_terms (S n) d s = parse_terms n (d + v) s'.
Proof.
  intros (c & t & -> & Hc) Hp Hd Hv Hb. cbn [parse_terms]. rewrite Hc, orb_true_r. cbn [negb].
  rewrite Hp. cbn [mbind option_bind]. unfold Int.wrapU. rewrite Z.mod_small by lia.
  by rewrite (proj2 (Z.ltb_ge _ _)).
Qed.

Lemma parse_terms_done n d : parse_terms n d "" = Some d.
Proof. by destruct n. Qed.

(** A text of terms that adds up to [u], whatever was read before. *)
Definition reads (s : string) (u : Z) : Prop :=
  (exists c t, s = String c t /\ is_digit c = true) /\ 2 <= String.length s /\
  forall d, (0 <= d)%Z -> (d + u <= 2 ^ 63)%Z ->
    parse_terms (String.length s) d s = Some (d + u)%Z.

Lemma parse_terms_fuel n m d s u : n <= m -> parse_terms n d s = Some u -> parse_terms m d s = Some u.
Proof.
  revert m d s. induction n as [|n IH]; intros m d s Hm Hp.
  - destruct s; [|done]. by destruct m.
  - destruct s as [|c s]; [by destruct m|]. destruct m as [|m]; [lia|]. cbn [parse_terms] in *.
    destruct (negb _); [done|]. destruct (parse_term (String c s)) as [[v s']|]; [|done].
    cbn [mbind option_bind] in *. destruct (_ <? _)%Z; [done|]. apply IH; [lia|done].
Qed.

Lemma reads_term v s' u rest :
  (0 <= v)%Z -> (0 <= u)%Z -> parse_term (Itoa v +:+ s') = Some (u, rest) -> rest = "" -> s' <> "" ->
  reads (Itoa v +:+ s') u.
Proof.
  intros Hv Hu Hp -> Hne. pose proof (length_Itoa_pos v s' Hv) as Hl.
  split_and!; [by apply Itoa_first|destruct s'; [done|simpl in *; lia]|].
  intros d Hd Hb. destruct (String.length (Itoa v +:+ s')) as [|n] eqn:E; [lia|].
  rewrite (parse_terms_step n d _ u "") by (done || by apply Itoa_first). apply parse_terms_done.
Qed.

Lemma reads_cons v n U s u :
  (0 <= v)%Z -> unit_text n U -> (0 <= u)%Z -> reads s u -> (v * U <= 2 ^ 63)%Z ->
  reads (Itoa v +:+ n +:+ s) (v * U + u).
Proof.
  intros Hv Hn Hu ((c & t & -> & Hc) & Hl & Hr) HvU.
  pose proof (length_Itoa_pos v (n +:+ String c t) Hv) as Hlen. rewrite length_sapp in Hlen.
  split_and!; [by apply Itoa_first|lia|]. intros d Hd Hb.
  destruct (String.length (Itoa v +:+ n +:+ String c t)) as [|f] eqn:E; [lia|].
  destruct Hn as (Hn1 & Hn2 & Hn3 & Hn4).
  rewrite (parse_terms_step f d _ (v * U) (String c t)); [|by apply Itoa_first| |done|nia|lia].
  - apply (parse_terms_fuel (String.length (String c t))); [simpl in *; lia|]. rewrite Hr by lia. f_equal. lia.
  - apply parse_term_int; [done|done|done|]. by simpl.
Qed.

(** A fraction of one unit. *)
Lemma frac_reads u U prec n :
  (0 <= u <= 2 ^ 63)%Z -> fractional U prec -> unit_text n U ->
  reads (let '(frac, v) := fmtFrac prec u false n in Itoa v +:+ frac) u.
Proof.
  intros Hu Hf Hn. destruct (fmtFrac prec u false n) as [frac v] eqn:E.
  assert (Hv : v = (u / 10 ^ Z.of_nat prec)%Z) by (by rewrite <- fmtFrac_snd with (b := false) (t := n), E).
  pose proof E as E'. rewrite <- (sapp_nil_r n) in E'.
  apply (reads_term v frac u ""); [subst v; apply Z.div_pos; lia|lia| |done|].
  - by eapply parse_term_frac.
  - intros ->. destruct (fmtFrac_trim prec u n) as (j & _ & _ & Ht & _). rewrite E in Ht.
    destruct Hn as (_ & Hne & _). case_decide; by simplify_eq.
Qed.

Lemma format_small u : (0 <= u < Second)%Z -> reads (format_abs u) u.
Proof.
  intros Hu. assert (HS : Second = 1000000000%Z) by done. unfold format_abs.
  destruct unit_texts as (Hns & Hus & Hms & _). rewrite (proj2 (Z.ltb_lt _ _)) by lia.
  case_bool_decide as H0.
  { subst u. apply (reads_term 0 "s" 0 ""); (done || lia || by vm_compute). }
  destruct (Z.ltb_spec u Microsecond); [|destruct (Z.ltb_spec u Millisecond)].
  - cbn [fmtFrac]. apply (reads_term u "ns" u ""); [lia|lia| |done|done].
    rewrite <- (sapp_nil_r "ns"). rewrite (parse_term_int u "ns" 1 ""); [|lia|lia|done|done]. do 2 f_equal. lia.
  - apply (frac_reads u Microsecond 3); [lia|constructor|done].
  - apply (frac_reads u Millisecond 6); [lia|constructor|done].
Qed.

(** The seconds of a longer duration, with their fraction. *)
Lemma seconds_reads u frac v :
  (0 <= u)%Z -> fmtFrac 9 u false "s" = (frac, v) ->
  reads (Itoa (v mod 60) +:+ frac) (v mod 60 * Second + u mod Second).
Proof.
  intros Hu E. set (u0 := (v mod 60 * Second + u mod Second)%Z).
  assert (HS : Second = 1000000000%Z) by done. assert (HP : (10 ^ Z.of_nat 9 = Second)%Z) by done.
  pose proof (Z.mod_pos_bound u Second ltac:(lia)). pose proof (Z.mod_pos_bound v 60 ltac:(lia)).
  assert (Hf : fmtFrac 9 u0 false ("s" +:+ "") = (frac, v mod 60)%Z).
  { rewrite (surjective_pairing (fmtFrac 9 u0 false _)), fmtFrac_snd, HP. f_equal.
    - rewrite (fmtFrac_mod 9 u0 u); [by rewrite sapp_nil_r, E|]. rewrite HP. unfold u0.
      by rewrite Z.add_comm, Z.mod_add, Z.mod_mod by lia.
    - unfold u0. rewrite Z.add_comm, Z.div_add, Z.div_small by lia. lia. }
  apply (reads_term _ _ u0 ""); [lia|unfold u0; lia| |done|].
  - eapply parse_term_frac; [constructor|apply unit_texts|done|unfold u0; lia|exact Hf].
  - intros ->. destruct (fmtFrac_trim 9 u "s") as (j & _ & _ & Ht & _). rewrite E in Ht.
    case_decide; by simplify_eq.
Qed.

Lemma format_reads u : (0 <= u <= 2 ^ 63)%Z -> reads (format_abs u) u.
Proof.
  intros Hu. destruct (Z.lt_ge_cases u Second) as [Hlt|Hge]; [apply format_small; lia|].
  destruct unit_texts as (_ & _ & _ & _ & Hm & Hh). assert (HS : Second = 1000000000%Z) by done.
  unfold format_abs. rewrite (proj2 (Z.ltb_ge _ _)) by lia.
  destruct (fmtFrac 9 u false "s") as [frac v] eqn:E.
  assert (Hv : v = (u / Second)%Z).
  { change Second with (10 ^ Z.of_nat 9)%Z. by rewrite <- fmtFrac_snd with (b := false) (t := "s"), E. }
  pose proof (seconds_reads u frac v ltac:(lia) E) as Hsec. set (u0 := (v mod 60 * Second + u mod Second)%Z) in *.
  pose proof (Z.mod_pos_bound u Second ltac:(lia)). pose proof (Z.mod_pos_bound v 60 ltac:(lia)).
  pose proof (Z.div_mod u Second ltac:(lia)) as Hud. rewrite <- Hv in Hud.
  pose proof (Z.div_mod v 60 ltac:(lia)).
  unfold fmt_seconds. destruct (Z.ltb_spec 0 (v / 60)) as [Hm0|Hm0].
  2: { replace u with u0; [done|]. unfold u0. lia. }
  set (m := (v / 60)%Z) in *. pose proof (Z.mod_pos_bound m 60 ltac:(lia)). pose proof (Z.div_mod m 60 ltac:(lia)).
  assert (Hmin : reads (Itoa (m mod 60) +:+ "m" +:+ Itoa (v mod 60) +:+ frac) (m mod 60 * Minute + u0)).
  { apply reads_cons; [lia|done|unfold u0; lia|done|unfold Minute; lia]. }
  destruct (Z.ltb_spec 0 (m / 60)) as [Hh0|Hh0].
  - replace u with (m / 60 * Hour + (m mod 60 * Minute + u0))%Z by (unfold u0, Hour, Minute; lia).
    apply reads_cons; [lia|done|unfold u0, Minute; lia|done|unfold Hour; lia].
  - replace u with (m mod 60 * Minute + u0)%Z; [done|]. unfold u0, Minute. lia.
Qed.

(** A duration survives being printed and parsed. *)
Lemma ParseDuration_String d : (- 2 ^ 63 <= d < 2 ^ 63)%Z -> ParseDuration (Duration_String d) = Some d.
Proof.
  intros Hd. unfold Duration_String.
  assert (Hr : reads (format_abs (Z.abs d)) (Z.abs d)) by (apply format_reads; lia).
  destruct Hr as ((c & t & Hs & Hc) & Hl & Hp). specialize (Hp 0%Z). rewrite Z.add_0_l in Hp.
  assert (Hne : format_abs (Z.abs d) <> "0" /\ format_abs (Z.abs d) <> "").
  { split; intros Heq; rewrite Heq in Hl; simpl in Hl; lia. }
  unfold ParseDuration. destruct (Z.ltb_spec d 0) as [Hneg|Hpos].
  - replace (- d)%Z with (Z.abs d) by lia. rewrite sapp_cons, sapp_nil_l, bool_decide_eq_true_2 by done.
    rewrite !bool_decide_eq_false_2 by apply Hne. rewrite Hp by lia. cbn [mbind option_bind]. f_equal. lia.
  - replace d with (Z.abs d) by lia. rewrite Hs.
    rewrite !(bool_decide_eq_false_2 (c = _)) by (intros ->; vm_compute in Hc; discriminate).
    rewrite <- Hs, !bool_decide_eq_false_2 by apply Hne. rewrite Hp by lia. cbn [mbind option_bind].
    by rewrite (proj2 (Z.ltb_ge _ _)) by lia.
Qed.

Lemma parse_terms_range n d s u :
  (0 <= d <= 2 ^ 63)%Z -> parse_terms n d s = Some u -> (0 <= u <= 2 ^ 63)%Z.
Proof.
  revert d s. induction n as [|n IH]; intros d [|c s] Hd; cbn [parse_terms]; try (intros [= <-]; lia).
  destruct (negb _); [done|]. destruct (parse_term _) as [[v s']|]; [|done]. cbn [mbind option_bind].
  destruct (Z.ltb_spec (2 ^ 63) (Int.wrapU 64 (d + v))); [done|]. apply IH.
  pose proof (Z.mod_pos_bound (d + v) (2 ^ 64) ltac:(lia)). unfold Int.wrapU in *. lia.
Qed.

Lemma ParseDuration_range s d : ParseDuration s = Some d -> (- 2 ^ 63 <= d < 2 ^ 63)%Z.
Proof.
  unfold ParseDuration. destruct (match s with "" => _ | String _ _ => _ end) as [neg t].
  repeat case_bool_decide; [by intros [= <-]|done|].
  destruct (parse_terms _ 0 t) as [u|] eqn:E; [|done]. apply parse_terms_range in E; [|lia]. cbn [mbind option_bind].
  destruct neg; [intros [= <-]; lia|]. destruct (Z.ltb_spec (2 ^ 63 - 1) u); [done|]. intros [= <-]. lia.
Qed.
