(* ===== verification/Flag.v ===== *)
(** * Package flag

    The command lines of both commands: strconv.ParseBool and ParseInt, the
    values of flags, and [FlagSet.Parse]. A flag's text is a slice of the
    memory the process was started with, so a Go string here says where it
    lies. *)

From Stdlib Require Import Ascii.
From S2P Require Import Prelude GoStrings Duration.
#[local] Open Scope string_scope.
#[local] Open Scope list_scope.

(** ** strconv *)

(** [strconv.ParseBool] *)
Definition ParseBool (s : string) : option bool :=
  if bool_decide (s ∈ ["1"; "t"; "T"; "true"; "TRUE"; "True"]) then Some true
  else if bool_decide (s ∈ ["0"; "f"; "F"; "false"; "FALSE"; "False"]) then Some false
  else None.

Definition FormatBool (b : bool) : string := if b then "true" else "false".

(** [lower(c)]: [c | 0x20]. *)
Definition lower (c : ascii) : Z := Z.lor (byteZ c) 32.

(** The digit a byte stands for; [None] is a syntax error. *)
Definition digit_val (c : ascii) : option Z :=
  if is_digit c then Some (byteZ c - 48)%Z
  else if between 97 122 (lower c) then Some (lower c - 97 + 10)%Z else None.

(** [base_of s]: the base a literal without its sign announces, and the rest. *)
Definition base_of (s : string) : Z * string :=
  match s with
  | String a s1 =>
      if bool_decide (a = "0"%char) then
        match s1 with
        | String b (String _ _ as s2) =>
            if (lower b =? 98)%Z then (2%Z, s2)
            else if (lower b =? 111)%Z then (8%Z, s2)
            else if (lower b =? 120)%Z then (16%Z, s2) else (8%Z, s1)
        | _ => (8%Z, s1)
        end
      else (10%Z, s)
  | "" => (10%Z, s)
  end.

(** The digits of [ParseUint(s, 0, 64)]; [None] is a syntax or range error,
    the boolean whether an underscore was seen. *)
Fixpoint uint_digits (base n : Z) (underscores : bool) (s : string) : option (Z * bool) :=
  match s with
  | "" => Some (n, underscores)
  | String c s' =>
      if bool_decide (c = "_"%char) then uint_digits base n true s'
      else
        d ← digit_val c;
        if (base <=? d)%Z then None
        else let n' := (n * base + d)%Z in
             if (2 ^ 64 <=? n')%Z then None else uint_digits base n' underscores s'
  end.

(** The last byte an underscore may depend on: the start, a digit, an
    underscore, anything else. *)
Inductive saw := AtStart | Digit | Underscore | Other.

Fixpoint underscore_scan (hex : bool) (st : saw) (s : string) : bool :=
  match s with
  | "" => match st with Underscore => false | _ => true end
  | String c s' =>
      if is_digit c || (hex && between 97 102 (lower c)) then underscore_scan hex Digit s'
      else if bool_decide (c = "_"%char)
      then match st with Digit => underscore_scan hex Underscore s' | _ => false end
      else match st with Underscore => false | _ => underscore_scan hex Other s' end
  end.

(** [underscoreOK], of a literal without its sign. *)
Definition underscoreOK (s : string) : bool :=
  match s with
  | String a (String b s2) =>
      if bool_decide (a = "0"%char) && bool_decide (lower b ∈ [98; 111; 120]%Z)
      then underscore_scan (lower b =? 120)%Z Digit s2
      else underscore_scan false AtStart s
  | _ => underscore_scan false AtStart s
  end.

(** [ParseUint(s, 0, 64)] *)
Definition ParseUint0 (s : string) : option Z :=
  if s ==? "" then None
  else
    let '(base, digits) := base_of s in
    '(n, underscores) ← uint_digits base 0 false digits;
    if (underscores : bool) && negb (underscoreOK s) then None else Some n.

(** [ParseInt(s, 0, 64)] *)
Definition ParseInt0 (s : string) : option Z :=
  let '(neg, s) := match s with
                   | String c s' => if bool_decide (c = "+"%char) then (false, s')
                                    else if bool_decide (c = "-"%char) then (true, s') else (false, s)
                   | "" => (false, s)
                   end in
  un ← ParseUint0 s;
  if negb neg && (2 ^ 63 <=? un)%Z then None
  else if neg && (2 ^ 63 <? un)%Z then None
  else Some (if neg then - un else un)%Z.

Example parse_ints :
  ParseInt0 <$> ["10250"; "-0x_1F"; "0755"; "0"; "0b11"; "08"; "1__0"; "0x"; "9223372036854775808"; "-9223372036854775808"]
  = [Some 10250%Z; Some (-31)%Z; Some 493%Z; Some 0%Z; Some 3%Z; None; None; None; None; Some (- 2 ^ 63)%Z].
Proof. vm_compute. reflexivity. Qed.

(** ** Strings and where they lie *)

(** A slice of the block of the arguments, or memory of its own. *)
Inductive gostring := InArgv (off len : nat) | OnHeap (s : string).

Definition read_string (block : list ascii) (v : gostring) : string :=
  match v with
  | InArgv off len => of_chars (take len (drop off block))
  | OnHeap s => s
  end.

(** [s[n:]] *)
Definition slice_from (n : nat) (v : gostring) : gostring :=
  match v with
  | InArgv off len => InArgv (off + n) (len - n)
  | OnHeap s => OnHeap (of_chars (drop n (chars s)))
  end.

(** [strings.Clone] *)
Definition Clone (block : list ascii) (v : gostring) : gostring := OnHeap (read_string block v).

(** ** Values *)

(** [flag.Value], with [IsBoolFlag]; [None] is an error of [Set]. *)
Class Value (V : Type) := {
  IsBoolFlag : V -> bool;
  Set_ : list ascii -> V -> gostring -> option V;
  String_ : list ascii -> V -> string }.

(** The values of the package itself. *)
Inductive value :=
  | StringVal (v : gostring)
  | BoolVal (b : bool)
  | IntVal (z : Z)
  | DurationVal (d : Z).

#[global] Instance value_Value : Value value := {|
  IsBoolFlag v := match v with BoolVal _ => true | _ => false end;
  Set_ block v g := match v with
    | StringVal _ => Some (StringVal g)
    | BoolVal _ => BoolVal <$> ParseBool (read_string block g)
    | IntVal _ => IntVal <$> ParseInt0 (read_string block g)
    | DurationVal _ => DurationVal <$> ParseDuration (read_string block g)
    end;
  String_ block v := match v with
    | StringVal g => read_string block g
    | BoolVal b => FormatBool b
    | IntVal z => Itoa z
    | DurationVal d => Duration_String d
    end |}.

(** Flags of the program's own and of a package it imports. *)
#[global] Instance sum_Value {V X} `{Value V, Value X} : Value (V + X) := {|
  IsBoolFlag v := match v with inl v => IsBoolFlag v | inr x => IsBoolFlag x end;
  Set_ block v g := match v with inl v => inl <$> Set_ block v g | inr x => inr <$> Set_ block x g end;
  String_ block v := match v with inl v => String_ block v | inr x => String_ block x end |}.

(** ** [FlagSet.Parse] *)

Section Parse.
Context {V : Type} `{Value V} (block : list ascii).

Inductive parsed :=
  | Parsed (formal : gmap string V) (args : list gostring)
  | ErrHelp
  | ParseFailed (what : string).

(** The name and, after the first equals sign, the slice of the value. *)
Definition name_value (a : gostring) (minuses : nat) (body : string) : string * option gostring :=
  let '(name, _, found) := Cut body "="%char in
  (name, if found then Some (slice_from (minuses + String.length name + 1) a) else None).

Fixpoint Parse (formal : gmap string V) (args : list gostring) : parsed :=
  match args with
  | [] => Parsed formal []
  | a :: rest =>
      match read_string block a with
      | String c0 (String c1 s2 as s1) =>
          if bool_decide (c0 <> "-"%char) then Parsed formal args
          else if bool_decide (c1 = "-"%char) && (s2 ==? "") then Parsed formal rest
          else
            let '(minuses, body) := if bool_decide (c1 = "-"%char) then (2, s2) else (1, s1) in
            match body with
            | "" => ParseFailed "bad flag syntax"
            | String b _ =>
                if bool_decide (b = "-"%char) || bool_decide (b = "="%char) then ParseFailed "bad flag syntax"
                else
                  let '(name, val) := name_value a minuses body in
                  match formal !! name with
                  | None => if bool_decide (name = "help") || bool_decide (name = "h") then ErrHelp
                            else ParseFailed "flag provided but not defined"
                  | Some fl =>
                      if IsBoolFlag fl then
                        match Set_ block fl (default (OnHeap "true") val) with
                        | Some fl' => Parse (<[name := fl']> formal) rest
                        | None => ParseFailed "invalid boolean value"
                        end
                      else
                        match val, rest with
                        | Some v, _ => match Set_ block fl v with
                                       | Some fl' => Parse (<[name := fl']> formal) rest
                                       | None => ParseFailed "invalid value"
                                       end
                        | None, v :: rest' => match Set_ block fl v with
                                              | Some fl' => Parse (<[name := fl']> formal) rest'
                                              | None => ParseFailed "invalid value"
                                              end
                        | None, [] => ParseFailed "flag needs an argument"
                        end
                  end
            end
      | _ => Parsed formal args
      end
  end.
End Parse.
Arguments Parsed {V}.
Arguments ErrHelp {V}.
Arguments ParseFailed {V}.

(** ** The arguments in memory

    The strings of [os.Args] lie one after the other, each with its NUL. *)

Definition NUL : ascii := Zbyte 0.

Definition argv_block (args : list string) : list ascii := concat ((fun a => chars a ++ [NUL]) <$> args).

Fixpoint argv_from (off : nat) (args : list string) : list gostring :=
  match args with
  | [] => []
  | a :: args' => InArgv off (String.length a) :: argv_from (off + String.length a + 1) args'
  end.

Definition argv (args : list string) : list gostring := argv_from 0 args.

Lemma read_argv_from pre args :
  read_string (pre ++ argv_block args) <$> argv_from (length pre) args = args.
Proof.
  revert pre. induction args as [|a args IH]; intros pre; [done|].
  unfold argv_block. rewrite !fmap_cons. cbn [concat argv_from]. rewrite fmap_cons. f_equal.
  - cbn [read_string]. rewrite drop_app_length, <- (assoc_L (++)), <- length_chars, take_app_length.
    apply of_chars_chars.
  - specialize (IH (pre ++ chars a ++ [NUL])). rewrite !length_app, length_chars in IH. cbn [length] in IH.
    rewrite <- (assoc_L (++)), (Nat.add_assoc (length pre)) in IH. exact IH.
Qed.

Lemma read_argv args : read_string (argv_block args) <$> argv args = args.
Proof. apply (read_argv_from [] args). Qed.

Lemma read_slice block n v : read_string block (slice_from n v) = of_chars (drop n (chars (read_string block v))).
Proof.
  destruct v as [off len|s]; cbn [slice_from read_string]; [|done].
  rewrite chars_of_chars. f_equal. rewrite <- drop_drop, take_drop_commute.
  destruct (Nat.le_gt_cases n len); [by replace (n + (len - n)) with len by lia|].
  rewrite !drop_ge; [done|rewrite length_take; lia..].
Qed.

(** ** Printing and parsing values *)

Lemma digit_val_char d : (0 <= d < 10)%Z -> digit_val (digit_char d) = Some d.
Proof. intros Hd. unfold digit_val. destruct (is_digit_char d Hd) as [-> ->]. f_equal. lia. Qed.

Lemma digit_char_ne d c : (0 <= d < 10)%Z -> is_digit c = false -> digit_char d <> c.
Proof. intros Hd Hc <-. by rewrite (proj1 (is_digit_char d Hd)) in Hc. Qed.

Lemma uint_digits_go x t : (Z.of_N x < 2 ^ 64)%Z ->
  uint_digits 10 0 false (pretty_N_go x t) = uint_digits 10 (Z.of_N x) false t.
Proof.
  revert t. induction (N.lt_wf_0 x) as [x _ IH]. intros t Hx.
  destruct (decide (x = 0%N)) as [->|Hne]; [by rewrite pretty_N_go_0|].
  rewrite pretty_N_go_step by lia. destruct (div10 x) as (q & r & -> & -> & Hx' & Hr). subst x.
  rewrite IH by lia. rewrite pretty_digit by done. cbn [uint_digits].
  rewrite bool_decide_eq_false_2 by (apply digit_char_ne; [lia|reflexivity]).
  rewrite digit_val_char by lia. cbn [mbind option_bind].
  rewrite (proj2 (Z.leb_gt _ _)), (proj2 (Z.leb_gt _ _)) by lia. f_equal. lia.
Qed.

(** A positive number is not written with a leading zero. *)
Lemma pretty_go_first x t : (0 < x)%N ->
  exists d u, pretty_N_go x t = String (digit_char d) u /\ (0 < d < 10)%Z.
Proof.
  revert t. induction (N.lt_wf_0 x) as [x _ IH]. intros t Hx.
  rewrite pretty_N_go_step by lia. destruct (div10 x) as (q & r & -> & -> & -> & Hr).
  destruct (decide (q = 0)%N) as [->|Hne]; [|apply IH; lia].
  rewrite pretty_N_go_0, pretty_digit by done. exists (Z.of_N r), t. split; [done|lia].
Qed.

Lemma ParseUint0_pretty p : (Z.pos p < 2 ^ 64)%Z -> ParseUint0 (pretty (N.pos p)) = Some (Z.pos p).
Proof.
  intros Hp. unfold pretty, pretty_N. rewrite decide_False by done.
  pose proof (uint_digits_go (N.pos p) "" Hp) as Hd.
  destruct (pretty_go_first (N.pos p) "" ltac:(lia)) as (d & u & Hs & Hr). rewrite Hs in *.
  unfold ParseUint0. rewrite bool_decide_eq_false_2 by done. unfold base_of.
  rewrite bool_decide_eq_false_2; [by rewrite Hd|].
  intros Heq%(f_equal byteZ). rewrite (proj2 (is_digit_char d ltac:(lia))) in Heq. change (byteZ "0") with 48%Z in Heq. lia.
Qed.

Lemma ParseInt0_Itoa z : (- 2 ^ 63 <= z < 2 ^ 63)%Z -> ParseInt0 (Itoa z) = Some z.
Proof.
  intros Hz. unfold Itoa, pretty, pretty_Z. destruct z as [|p|p]; [reflexivity|..]; unfold pretty, pretty_positive.
  - pose proof (ParseUint0_pretty p ltac:(lia)) as Hu. unfold pretty, pretty_N in *. rewrite decide_False in * by done.
    destruct (pretty_go_first (N.pos p) "" ltac:(lia)) as (d & u & Hs & Hr). rewrite Hs in *. unfold ParseInt0.
    rewrite !bool_decide_eq_false_2 by (apply digit_char_ne; [lia|reflexivity]). rewrite Hu. cbn [mbind option_bind negb andb].
    by rewrite (proj2 (Z.leb_gt _ _)) by lia.
  - unfold ParseInt0. rewrite sapp_cons, sapp_nil_l, bool_decide_eq_false_2, bool_decide_eq_true_2 by done.
    rewrite ParseUint0_pretty by lia. cbn [mbind option_bind negb andb].
    by rewrite (proj2 (Z.ltb_ge _ _)) by lia.
Qed.

(** The numbers a flag holds are [int64]s. *)
Definition value_wf (v : value) : Prop :=
  match v with IntVal z | DurationVal z => (- 2 ^ 63 <= z < 2 ^ 63)%Z | _ => True end.

#[global] Instance value_wf_dec v : Decision (value_wf v).
Proof. destruct v; simpl; apply _. Defined.

(** Setting a value to its own text gives the value, its string copied. *)
Lemma Set_String block block' v : value_wf v ->
  Set_ block' v (Clone block (OnHeap (String_ block v))) =
  Some (match v with StringVal g => StringVal (Clone block g) | _ => v end).
Proof.
  destruct v as [g|b|z|d]; intros Hv; cbn; [done|by destruct b|by rewrite ParseInt0_Itoa|by rewrite ParseDuration_String].
Qed.

Lemma ParseUint0_nonneg s n : ParseUint0 s = Some n -> (0 <= n)%Z.
Proof.
  unfold ParseUint0. case_bool_decide; [done|]. destruct (base_of s) as [base digits] eqn:Eb.
  assert (Hbase : (0 <= base)%Z).
  { unfold base_of in Eb. repeat case_match; simplify_eq; lia. }
  assert (Hg : forall n b t r, (0 <= n)%Z -> uint_digits base n b t = Some r -> (0 <= r.1)%Z).
  { intros n' b t. revert n' b. induction t as [|c t IH]; intros n' b r Hn; cbn [uint_digits]; [by intros [= <-]|].
    case_bool_decide; [by apply IH|]. destruct (digit_val c) as [d|] eqn:Ed; [|done]. cbn [mbind option_bind].
    assert (0 <= d)%Z.
    { unfold digit_val, is_digit, between in Ed. destruct (_ && _)%bool eqn:E1 in Ed; [|destruct (_ && _)%bool eqn:E2 in Ed];
        simplify_eq; go_bool; lia. }
    destruct (_ <=? _)%Z; [done|]. destruct (_ <=? _)%Z; [done|]. apply IH. nia. }
  destruct (uint_digits base 0 false digits) as [[m u]|] eqn:Ed; [|done]. cbn [mbind option_bind].
  destruct (u && _); [done|]. intros [= <-]. by apply (Hg _ _ _ _ (Z.le_refl 0) Ed).
Qed.

Lemma ParseInt0_range s z : ParseInt0 s = Some z -> (- 2 ^ 63 <= z < 2 ^ 63)%Z.
Proof.
  unfold ParseInt0. destruct (match s with "" => _ | String _ _ => _ end) as [neg t].
  destruct (ParseUint0 t) as [un|] eqn:Eu; [|done]. apply ParseUint0_nonneg in Eu. cbn [mbind option_bind].
  destruct neg; cbn [negb andb].
  - destruct (Z.ltb_spec (2 ^ 63) un); [done|]. intros [= <-]. lia.
  - destruct (Z.leb_spec (2 ^ 63) un); [done|]. intros [= <-]. lia.
Qed.

Lemma Set_wf block v g v' : Set_ block v g = Some v' -> value_wf v'.
Proof.
  destruct v; cbn; [by intros [= <-]|by intros (b' & _ & ->)%fmap_Some|..]; intros (z' & Hz & ->)%fmap_Some.
  - by eapply ParseInt0_range.
  - by eapply ParseDuration_range.
Qed.

(** A well-formed flag set stays so. *)
Lemma Parse_wf block formal args formal' rest :
  map_Forall (fun _ v => value_wf v) formal -> Parse block formal args = Parsed formal' rest ->
  map_Forall (fun _ v => value_wf v) formal' /\ dom formal' = dom formal.
Proof.
  revert formal. induction args as [args IH] using (induction_ltof1 _ (@length _)). unfold ltof in IH.
  intros formal Hwf. destruct args as [|a args]; cbn [Parse]; [by intros [= <- <-]|].
  assert (Hins : forall name fl fl' g args', formal !! name = Some fl -> Set_ block fl g = Some fl' ->
    length args' < S (length args) -> Parse block (<[name := fl']> formal) args' = Parsed formal' rest ->
    map_Forall (fun _ v => value_wf v) formal' /\ dom formal' = dom formal).
  { intros name fl fl' g args' Hfl Hset Hl Hp. apply IH in Hp as [Hw Hd]; [|done|].
    - split; [done|]. rewrite Hd, dom_insert_L. apply elem_of_dom_2 in Hfl. set_solver.
    - apply map_Forall_insert_2; [by eapply Set_wf|done]. }
  repeat first [ case_match | progress simplify_eq ]; try done; intros Hp;
    try (eapply Hins; [eassumption|eassumption| |exact Hp]; simpl; lia); by simplify_eq.
Qed.

(** ** Parsing does not depend on where the strings lie *)

(** The value with its string in memory of its own. *)
Definition own (block : list ascii) (v : value) : value :=
  match v with StringVal g => StringVal (Clone block g) | _ => v end.

Definition own_parsed (block : list ascii) (p : parsed (V := value)) : parsed (V := value) :=
  match p with
  | Parsed formal args => Parsed (own block <$> formal) (Clone block <$> args)
  | ErrHelp => ErrHelp
  | ParseFailed what => ParseFailed what
  end.

Lemma Clone_slice block n a : slice_from n (Clone block a) = Clone block (slice_from n a).
Proof. unfold Clone at 2. by rewrite read_slice. Qed.

Lemma read_Clone block block' a : read_string block' (Clone block a) = read_string block a.
Proof. reflexivity. Qed.

Lemma name_value_own block a n body :
  name_value (Clone block a) n body = prod_map id (fmap (Clone block)) (name_value a n body).
Proof.
  unfold name_value. destruct (Cut body "="%char) as [[name ?] []]; [|done].
  by rewrite Clone_slice.
Qed.

Lemma Set_own block v g : Set_ [] (own block v) (Clone block g) = own block <$> Set_ block v g.
Proof.
  destruct v; cbn; [done|..]; rewrite <- option_fmap_compose; by apply option_fmap_ext.
Qed.

Lemma IsBoolFlag_own block v : IsBoolFlag (own block v) = IsBoolFlag v.
Proof. by destruct v. Qed.

Lemma Parse_own block formal args :
  own_parsed block (Parse block formal args) = Parse [] (own block <$> formal) (Clone block <$> args).
Proof.
  revert formal. induction args as [args IH] using (induction_ltof1 _ (@length _)). unfold ltof in IH.
  intros formal. destruct args as [|a args]; [done|]. rewrite fmap_cons. cbn [Parse]. rewrite read_Clone.
  destruct (read_string block a) as [|c0 [|c1 s2]]; [done..|].
  destruct (bool_decide (c0 <> "-"%char)); [done|]. destruct (_ && _); [done|].
  destruct (if bool_decide (c1 = "-"%char) then _ else _) as [minuses body].
  destruct body as [|b body]; [done|]. destruct (_ || _); [done|].
  rewrite name_value_own. destruct (name_value a minuses (String b body)) as [name val]. cbn [prod_map fst snd id].
  rewrite lookup_fmap. destruct (formal !! name) as [fl|]; [|by destruct (_ || _)].
  cbn [fmap option_fmap option_map]. rewrite IsBoolFlag_own.
  assert (Hset : forall what g args', length args' < S (length args) ->
    own_parsed block (match Set_ block fl g with
                      | Some fl' => Parse block (<[name := fl']> formal) args'
                      | None => ParseFailed what end) =
    match Set_ [] (own block fl) (Clone block g) with
    | Some fl' => Parse [] (<[name := fl']> (own block <$> formal)) (Clone block <$> args')
    | None => ParseFailed what end).
  { intros what g args' Hl. rewrite Set_own. destruct (Set_ block fl g) as [fl'|]; [|done].
    cbn [fmap option_fmap option_map]. rewrite IH by (simpl; lia). by rewrite fmap_insert. }
  destruct (IsBoolFlag fl).
  - destruct val as [v|]; apply Hset; lia.
  - destruct val as [v|]; [apply Hset; lia|]. destruct args as [|v args]; [done|]. apply Hset. simpl. lia.
Qed.

(** What a program reads from its flags. *)
Definition flag_string (formal : gmap string value) (block : list ascii) (name : string) : string :=
  match formal !! name with Some (StringVal g) => read_string block g | _ => "" end.
Definition flag_bool (formal : gmap string value) (name : string) : bool :=
  match formal !! name with Some (BoolVal b) => b | _ => false end.
Definition flag_int (formal : gmap string value) (name : string) : Z :=
  match formal !! name with Some (IntVal z) => z | _ => 0%Z end.
Definition flag_duration (formal : gmap string value) (name : string) : Z :=
  match formal !! name with Some (DurationVal z) => z | _ => 0%Z end.

Lemma flag_string_own block block' formal name :
  flag_string (own block <$> formal) block' name = flag_string formal block name.
Proof. unfold flag_string. rewrite lookup_fmap. by destruct (formal !! name) as [[]|]. Qed.
Lemma flag_bool_own block formal name : flag_bool (own block <$> formal) name = flag_bool formal name.
Proof. unfold flag_bool. rewrite lookup_fmap. by destruct (formal !! name) as [[]|]. Qed.
Lemma flag_int_own block formal name : flag_int (own block <$> formal) name = flag_int formal name.
Proof. unfold flag_int. rewrite lookup_fmap. by destruct (formal !! name) as [[]|]. Qed.
Lemma flag_duration_own block formal name : flag_duration (own block <$> formal) name = flag_duration formal name.
Proof. unfold flag_duration. rewrite lookup_fmap. by destruct (formal !! name) as [[]|]. Qed.

(** ** One argument *)

(** A name that a flag can be given by. *)
Definition flag_name (name : string) : bool :=
  match name with
  | String c _ => negb (bool_decide (c = "-"%char) || bool_decide (c = "="%char))
                  && negb (bool_decide ("="%char ∈ chars name))
  | "" => false
  end.

(** [--name=val], in memory of its own. *)
Lemma Parse_set {V} `{Value V} block formal name val fl fl' args :
  flag_name name = true -> formal !! name = Some fl -> Set_ block fl (OnHeap val) = Some fl' ->
  Parse block formal (OnHeap ("--" +:+ name +:+ "=" +:+ val) :: args) = Parse block (<[name := fl']> formal) args.
Proof.
  intros Hn Hfl Hset. destruct name as [|c name]; [done|]. unfold flag_name in Hn.
  apply andb_true_iff in Hn as [Hc Heq]. rewrite negb_true_iff in Hc, Heq. apply bool_decide_eq_false in Heq.
  rewrite !sapp_cons, !sapp_nil_l. cbn [Parse read_string].
  rewrite bool_decide_eq_false_2 by (intros Hx; by apply Hx). rewrite (bool_decide_eq_true_2 (_ = "-"%char)) by done.
  rewrite bool_decide_eq_false_2 by done. cbn [andb]. rewrite Hc.
  unfold name_value. rewrite <- (sapp_cons c name).
  rewrite (Cut_app (String c name) "="%char val) by exact Heq. rewrite Hfl.
  assert (Hs : slice_from (2 + String.length (String c name) + 1)
    (OnHeap (String "-" (String "-" (String c name +:+ String "=" val)))) = OnHeap val).
  { cbn [slice_from]. f_equal. set (nm := String c name).
    assert (Hch : chars (String "-" (String "-" (nm +:+ String "=" val))) =
      ("-"%char :: "-"%char :: chars nm ++ ["="%char]) ++ chars val).
    { change (chars (String "-" (String "-" ?s))) with ("-"%char :: "-"%char :: chars s).
      rewrite chars_app, <- !app_comm_cons, <- (assoc_L (++)). reflexivity. }
    rewrite Hch. replace (2 + String.length nm + 1) with (length ("-"%char :: "-"%char :: chars nm ++ ["="%char])).
    - rewrite drop_app_length. apply of_chars_chars.
    - simpl. rewrite length_app, length_chars. simpl. lia. }
  rewrite Hs. destruct (IsBoolFlag fl); cbn [from_option id]; by rewrite Hset.
Qed.

(** [--name], a boolean flag. *)
Lemma Parse_on {V} `{Value V} block formal name fl fl' args :
  flag_name name = true -> formal !! name = Some fl -> IsBoolFlag fl = true ->
  Set_ block fl (OnHeap "true") = Some fl' ->
  Parse block formal (OnHeap ("--" +:+ name) :: args) = Parse block (<[name := fl']> formal) args.
Proof.
  intros Hn Hfl Hb Hset. destruct name as [|c name]; [done|]. unfold flag_name in Hn.
  apply andb_true_iff in Hn as [Hc Heq]. rewrite negb_true_iff in Hc, Heq. apply bool_decide_eq_false in Heq.
  rewrite !sapp_cons, !sapp_nil_l. cbn [Parse read_string].
  rewrite bool_decide_eq_false_2 by (intros Hx; by apply Hx). rewrite (bool_decide_eq_true_2 (_ = "-"%char)) by done.
  rewrite bool_decide_eq_false_2 by done. cbn [andb]. rewrite Hc.
  unfold name_value. destruct (Cut (String c name) "="%char) as [[b a] f] eqn:E.
  destruct f; [by apply Cut_found in E as [E _]; exfalso; apply Heq; rewrite E, chars_app; set_solver|].
  apply Cut_not_found in E as (-> & _). rewrite Hfl, Hb. cbn [from_option id]. by rewrite Hset.
Qed.
