(* ===== verification/Manager.v ===== *)
(** * cmd/manager: what the operator does with a batch of audit events

    [main] hands the audit receiver one callback, in which the components
    meet: the metrics, the log, the activity tracker and the notifier. The
    world of the callback is the pair of the tracker (with the metrics it
    updates) and the host the rest acts on. *)

From S2P Require Import Prelude GoStrings Json KubeTypes ApiTypes Kube Host Metrics.
From S2P Require Import Activity AuditWebhook Notifier.
#[local] Open Scope string_scope.
#[local] Open Scope list_scope.

(** The flags of [main] the callback reads. *)
Record AuditFlags := {
  fl_logAuditEvents : bool; fl_logAllAuditEvents : bool; fl_auditLogFormat : string }.

(** [srcIP]: the first of the event's source addresses. *)
Definition first_source (ev : Event) : string := default "" (head (ev_SourceIPs ev)).

Definition notable (ev : Event) : bool := IsNotableAuditEvent ev default_filter.

Section Callback.
Context (is_print : Z -> bool) (rfc3339 : Time -> string) (flags : AuditFlags).
Context {V : Type} `{Vec V} {W : Type} `{Host W}.
Context (alerts : Client W Alert) (auditsinks : Client W AuditSink)
        (providers : Client W Provider) (secrets : Client W Secret).

(** One iteration of the logging loop. *)
Definition log_event (ns name : string) (ev : Event) : E (Tracker V * W) unit :=
  if negb (fl_logAllAuditEvents flags) && negb (IsNotableAuditEvent ev default_filter)
  then mret tt
  else if fl_auditLogFormat flags ==? "json" then LogEventJSON ns name ev
  else LogEvent is_print ns name ev.

(** One iteration of the recording loop. *)
Definition record_event (ns name : string) (ev : Event) : E (Tracker V * W) unit :=
  if IsNotableAuditEvent ev default_filter then
    now ← time_Now;
    on_state (Record_ ns name (first_source ev) now)
  else mret tt.

(** The callback [main] gives to [NewHandler].
    [src/cmd/manager/main.go:98-128, main] *)
Definition onAuditBatch : BatchFunc (Tracker V * W) := fun ns name events =>
  _ ← on_state (fun t => {| counters := counters t;
        registry := add_AuditEvents ns name (Z.of_nat (length events)) (registry t) |});
  _ ← (if fl_logAuditEvents flags then for_each (log_event ns name) events else mret tt);
  _ ← for_each (record_event ns name) events;
  let kt := {| dr_Namespace := ns; dr_Name := name |} in
  _ ← on_host (NotifyAuditActivity is_print rfc3339 alerts providers secrets kt events);
  on_host (ShipAuditLog is_print auditsinks providers secrets kt events).

(** The receiver as [main] starts it. *)
Definition receiver (decode : string -> error + list Event) :=
  NewHandler is_print decode (Some onAuditBatch).

End Callback.

(** ** What a batch leaves *)

Section Effects.
Context (is_print : Z -> bool) (rfc3339 : Time -> string) (flags : AuditFlags).
Context {V : Type} `{Vec V} {W : Type} `{HostLaws W}.

(** The lines the operator prints for a batch. *)
Definition audit_lines (ns name : string) (events : list Event) : list string :=
  if fl_logAuditEvents flags then
    (fun ev => if fl_auditLogFormat flags ==? "json" then Marshal (jsonLine ns name ev)
               else "[honeypod audit] honeypod=" +:+ ns +:+ "/" +:+ name +:+ " "
                    +:+ FormatLine is_print ev)
    <$> filterb (fun ev => fl_logAllAuditEvents flags || notable ev) events
  else [].

(** The calls of [Record] a batch makes, at the given times. *)
Definition record_calls (ns name : string) (events : list Event) (whens : list Time) : list call :=
  zip_with (fun ev t => {| cl_ns := ns; cl_name := name; cl_ip := first_source ev; cl_when := t |})
    (filterb notable events) whens.

Lemma log_event_effect ns name ev (t : Tracker V) (w : W) :
  exists w', log_event is_print flags ns name ev (t, w) = (inr tt, (t, w')) /\ sent w' = sent w /\
    logged w' = logged w ++
      (if fl_logAllAuditEvents flags || notable ev then
         [if fl_auditLogFormat flags ==? "json" then Marshal (jsonLine ns name ev)
          else "[honeypod audit] honeypod=" +:+ ns +:+ "/" +:+ name +:+ " " +:+ FormatLine is_print ev]
       else []).
Proof.
  unfold log_event, notable. rewrite <- negb_orb.
  destruct (_ || _); simpl; [|exists w; by rewrite app_nil_r].
  case_bool_decide; unfold LogEventJSON, LogEvent; simpl; unfold on_host; simpl;
    match goal with |- context [log_Print ?s w] => destruct (log_ok s w) as (w' & -> & ? & ?) end;
    by exists w'.
Qed.

Lemma log_events_effect ns name events (t : Tracker V) (w : W) :
  fl_logAuditEvents flags = true ->
  exists w', for_each (log_event is_print flags ns name) events (t, w) = (inr tt, (t, w')) /\
    sent w' = sent w /\ logged w' = logged w ++ audit_lines ns name events.
Proof.
  intros Hf. unfold audit_lines. rewrite Hf. revert w.
  induction events as [|ev events IH]; intros w.
  { exists w. by rewrite app_nil_r. }
  cbn [for_each]. unfold mbind, E_bind.
  destruct (log_event_effect ns name ev t w) as (w1 & -> & Hs & Hl).
  destruct (IH w1) as (w' & -> & Hs' & Hl'). exists w'. split; [done|]. split; [congruence|].
  rewrite Hl', Hl, <- (assoc_L (++)). f_equal. unfold filterb. simpl.
  by destruct (_ || _).
Qed.

Lemma record_events_effect ns name events (t : Tracker V) (w : W) :
  exists whens w',
    for_each (record_event ns name) events (t, w) =
      (inr tt, (foldl record_call t (record_calls ns name events whens), w')) /\
    length whens = length (filterb notable events) /\
    sent w' = sent w /\ logged w' = logged w.
Proof.
  revert t w. induction events as [|ev events IH]; intros t w.
  { by exists [], w. }
  cbn [for_each]. unfold mbind at 1, E_bind at 1. unfold record_event at 1, record_calls, filterb.
  simpl. change (IsNotableAuditEvent ev default_filter) with (notable ev).
  destruct (notable ev) eqn:En.
  - simpl. unfold mbind, E_bind, on_host, on_state. simpl.
    destruct (now_ok w) as (now & w1 & -> & Hs & Hl). simpl.
    destruct (IH (Record_ ns name (first_source ev) now t) w1) as (whens & w' & -> & Hw & Hs' & Hl').
    exists (now :: whens), w'. simpl. split; [done|]. split; [by rewrite Hw|]. split; congruence.
  - apply IH.
Qed.

(** The requests [Record] adds to one decoy, as an [int64]. *)
Lemma record_calls_count k (t : Tracker V) cs :
  Int.int64 (from_option count 0%Z (counters (foldl record_call t cs) !! k)) =
  Int.int64 (from_option count 0%Z (counters t !! k) + Z.of_nat (length (calls_for k cs))).
Proof.
  revert t. induction cs as [|c cs IH]; intros t; simpl.
  { f_equal. lia. }
  rewrite IH. unfold record_call, Record_, calls_for. simpl. rewrite filter_cons.
  destruct (decide (NN (cl_ns c) (cl_name c) = k)) as [Hk|Hk].
  - rewrite Hk, lookup_insert_eq. simpl.
    destruct (counters t !! k); simpl; autorewrite with go_rw; f_equal; lia.
  - by rewrite lookup_insert_ne.
Qed.

Lemma record_calls_other k (t : Tracker V) cs :
  calls_for k cs = [] -> counters (foldl record_call t cs) !! k = counters t !! k.
Proof.
  revert t. induction cs as [|c cs IH]; intros t; simpl; [done|].
  unfold calls_for. rewrite filter_cons. case_decide as Hk; [done|]. intros Hc.
  rewrite IH by done. unfold record_call, Record_. simpl. by rewrite lookup_insert_ne.
Qed.

Lemma record_calls_for ns name events whens k :
  length whens = length (filterb notable events) ->
  calls_for k (record_calls ns name events whens) =
  if decide (NN ns name = k) then record_calls ns name events whens else [].
Proof.
  unfold record_calls, calls_for. revert whens.
  induction (filterb notable events) as [|ev evs IH]; intros [|t whens]; simpl; try done.
  - by case_decide.
  - intros [= Hl]. rewrite filter_cons. simpl. rewrite IH by done. by case_decide.
Qed.
End Effects.

(** ** The audit path, end to end *)

Section EndToEnd.
Context (is_print : Z -> bool) (rfc3339 : Time -> string) (flags : AuditFlags).
Context {V : Type} `{Vec V} {W : Type} `{HostLaws W}.
Context (alerts : Client W Alert) (auditsinks : Client W AuditSink)
        (providers : Client W Provider) (secrets : Client W Secret) (api : Snapshot).
Context (Hreads : Reads alerts auditsinks providers secrets api).

(** The metrics after a batch of [events], before the requests are recorded. *)
Definition count_batch (ns name : string) (events : list Event) (t : Tracker V) : Tracker V :=
  if bool_decide (events = []) then t
  else {| counters := counters t;
          registry := add_AuditEvents ns name (Z.of_nat (length events)) (registry t) |}.

(** What the callback leaves of a batch: the tracker's state, the lines, then
    the alerts told and then the sinks, in this order. *)
Record batch_effect (ns name : string) (events : list Event)
    (t : Tracker V) (w : W) (t' : Tracker V) (w' : W) : Prop := {
  be_calls : exists whens, length whens = length (filterb notable events) /\
    t' = foldl record_call (count_batch ns name events t) (record_calls ns name events whens);
  be_out : exists w1 w2 alerted shipped,
    let kt := {| dr_Namespace := ns; dr_Name := name |} in
    sent w1 = sent w /\ logged w1 = logged w ++ audit_lines is_print flags ns name events /\
    alerts_told is_print rfc3339 alerts providers secrets api kt events w1 alerted w2 /\
    sinks_told is_print auditsinks providers secrets api kt events w2 shipped w' /\
    sent w' = sent w ++ concat (oc_sent <$> alerted) ++ concat (oc_sent <$> shipped) /\
    logged w' = logged w ++ audit_lines is_print flags ns name events
                         ++ concat (oc_logged <$> alerted) ++ concat (oc_logged <$> shipped) }.

Lemma onAuditBatch_effect ns name events (t : Tracker V) (w : W) :
  events <> [] ->
  exists t' w',
    onAuditBatch is_print rfc3339 flags alerts auditsinks providers secrets ns name events (t, w)
      = (inr tt, (t', w')) /\ batch_effect ns name events t w t' w'.
Proof.
  intros Hne. unfold onAuditBatch. unfold mbind at 1, E_bind at 1, on_state at 1. cbn [fst snd].
  set (t1 := {| counters := counters t; registry := _ |}).
  assert (exists w1, (if fl_logAuditEvents flags then for_each (log_event is_print flags ns name) events
            else mret tt) (t1, w) = (inr tt, (t1, w1)) /\ sent w1 = sent w /\
            logged w1 = logged w ++ audit_lines is_print flags ns name events)
    as (w1 & Hlog & Hs1 & Hl1).
  { destruct (fl_logAuditEvents flags) eqn:Hf; [by apply log_events_effect|].
    exists w. unfold audit_lines. by rewrite Hf, app_nil_r. }
  unfold mbind at 1, E_bind at 1. rewrite Hlog.
  destruct (record_events_effect ns name events t1 w1) as (whens & w2 & Hrec & Hlen & Hs2 & Hl2).
  unfold mbind at 1, E_bind at 1. rewrite Hrec. set (t2 := foldl _ _ _) in *.
  destruct (NotifyAuditActivity_exact is_print rfc3339 alerts auditsinks providers secrets api Hreads
    {| dr_Namespace := ns; dr_Name := name |} events w2) as (w3 & alerted & HN & Ha).
  destruct (ShipAuditLog_exact is_print alerts auditsinks providers secrets api Hreads
    {| dr_Namespace := ns; dr_Name := name |} events w3) as (w4 & shipped & HS & Hh).
  rewrite bool_decide_eq_false_2 in Hh by done.
  pose proof (alerts_told_after _ _ _ _ _ _ _ _ _ _ _ Ha) as (Hs3 & _ & Hl3).
  pose proof (sinks_told_after _ _ _ _ _ _ _ _ _ _ Hh) as (Hs4 & _ & Hl4).
  unfold mbind at 1, E_bind at 1, on_host. cbn [fst snd]. rewrite HN. cbn [fst snd]. rewrite HS.
  exists t2, w4. split; [done|]. split.
  - exists whens. split; [done|]. unfold count_batch. by rewrite bool_decide_eq_false_2.
  - exists w2, w3, alerted, shipped. cbn zeta. split_and!; [congruence|congruence|done|done|..].
    + by rewrite Hs4, Hs3, Hs2, Hs1, <- (assoc_L (++)).
    + by rewrite Hl4, Hl3, Hl2, Hl1, <- !(assoc_L (++)).
Qed.

Lemma count_batch_counters ns name events t : counters (count_batch ns name events t) = counters t.
Proof. unfold count_batch. by case_bool_decide. Qed.

(** C1: the audit path of the operator, end to end, while the alerts, sinks,
    providers and secrets do not change but any read of them may fail. A body
    that does not decode is answered 400 and changes nothing. Any other is
    answered 200, and with [events] its events at the ResponseComplete stage:
    the tracker is as if [Record] had been called once per notable event, in
    order and with the event's first source address, so that the decoy named in
    the path gains exactly the number of notable events and no other decoy's
    counter moves; and, if there are events, the log gets the lines the flags
    ask for, then every alert that selects the batch is posted the events
    notable to it, then every sink that targets the decoy is posted all of
    them. One that cannot be served because the API server did not say where
    to, because no provider is usable or because a post was answered badly gets
    a log line that names it, and does not keep the others from being served.
    If the alerts, or the sinks, cannot be listed, none of them is served and
    one line says so. *)
Theorem receiver_end_to_end decode ns name body (t : Tracker V) (w : W) :
  exists r t' w',
    receiver is_print rfc3339 flags alerts auditsinks providers secrets decode ns name body (t, w)
      = (inr r, (t', w')) /\
    match decode body with
    | inl _ => rs_StatusCode r = 400%Z /\ t' = t /\ w' = w
    | inr items =>
        let events := filterb complete items in
        rs_StatusCode r = 200%Z /\
        (if bool_decide (events = []) then t' = t /\ w' = w else batch_effect ns name events t w t' w') /\
        forall k, if decide (k = NN ns name)
          then Int.int64 (from_option count 0%Z (counters t' !! k)) =
               Int.int64 (from_option count 0%Z (counters t !! k)
                          + Z.of_nat (length (filterb notable events)))
          else counters t' !! k = counters t !! k
    end.
Proof.
  unfold receiver, NewHandler. cbn [default from_option].
  destruct (decode body) as [e|items]; [by eexists _, t, w|]. cbn zeta.
  set (events := filterb complete items).
  assert (Hl : bool_decide (0 < length events) = negb (bool_decide (events = []))).
  { destruct events; [done|]. rewrite (bool_decide_eq_false_2 (_ = [])) by done.
    apply bool_decide_eq_true_2. simpl. lia. }
  rewrite Hl. clear Hl. case_bool_decide as Hev; simpl.
  { eexists _, t, w. split_and!; [done|done|done|done|]. intros k. rewrite Hev. simpl.
    case_decide; [|done]. f_equal. lia. }
  destruct (onAuditBatch_effect ns name events t w Hev) as (t' & w' & Hrun & Heff).
  unfold mbind, E_bind, id. rewrite Hrun. eexists _, t', w'. split; [done|]. split; [done|]. split; [done|].
  destruct Heff as [(whens & Hlen & ->) _]. intros k.
  pose proof (count_batch_counters ns name events t) as Hcb.
  destruct (decide (k = NN ns name)) as [Hk|Hk].
  - subst k. rewrite record_calls_count, Hcb, record_calls_for by done.
    rewrite decide_True by done.
    unfold record_calls. rewrite length_zip_with, Hlen, Nat.min_id. done.
  - rewrite record_calls_other, Hcb; [done|]. rewrite record_calls_for by done. by rewrite decide_False.
Qed.
End EndToEnd.

(** ** A concrete batch *)

Module ManagerDemo.
Import Script Notifier.Demo.

Definition demo_flags : AuditFlags :=
  {| fl_logAuditEvents := true; fl_logAllAuditEvents := false; fl_auditLogFormat := "text" |}.

Definition tracker0 : Tracker (gmap (list string) Z) := New new_registry.

(** The batch holds a housekeeping event and one of the attacker's: the decoy
    gains one request and the reachable alert and the sink are served. *)
Lemma receiver_end_to_end_witness :
  exists r t' w',
    receiver (fun _ => true) Itoa demo_flags c_alerts c_sinks c_providers c_secrets
      (fun _ => inr batch) "ns" "trap" "" (tracker0, start []) = (inr r, (t', w')) /\
    rs_StatusCode r = 200%Z /\
    Int.int64 (from_option count 0%Z (counters t' !! NN "ns" "trap")) = 1%Z.
Proof.
  destruct (receiver_end_to_end (fun _ => true) Itoa demo_flags c_alerts c_sinks c_providers
    c_secrets api api_reads (fun _ => inr batch) "ns" "trap" "" tracker0 (start []))
    as (r & t' & w' & Hrun & Hcode & _ & Hk).
  exists r, t', w'. split; [exact Hrun|]. split; [exact Hcode|].
  specialize (Hk (NN "ns" "trap")). rewrite decide_True in Hk by reflexivity.
  rewrite Hk. vm_compute. reflexivity.
Defined.
End ManagerDemo.
