(* ===== verification/ManagerMain.v ===== *)
(** * cmd/manager: the whole command

    The manager's flags, its start up to the serving goroutines, the backoff
    that waits for the join webhook's certificate, and the end of the
    process. controller-runtime builds the API clients, the manager and its
    controllers; whether it succeeds is a parameter. *)

From Stdlib Require Import Ascii.
From S2P Require Import Prelude GoStrings Duration Flag KubeTypes ApiTypes Kube Server Host Certs.
From S2P Require Import WebhookCert Metrics Activity Manager.
#[local] Open Scope string_scope.
#[local] Open Scope list_scope.

(** ** The command line *)

(** [src/cmd/manager/main.go:50-58, main] *)
Definition manager_flags : gmap string value := list_to_map
  [("metrics-bind-address", StringVal (OnHeap ":8080"));
   ("audit-webhook-bind-address", StringVal (OnHeap ":9880"));
   ("manager-audit-webhook-url", StringVal (OnHeap ""));
   ("join-webhook-bind-address", StringVal (OnHeap ":9443"));
   ("join-webhook-dns-names",
    StringVal (OnHeap "honeypod-webhook.honeypod.svc,honeypod-webhook.honeypod.svc.cluster.local"));
   ("join-webhook-config-name", StringVal (OnHeap "honeypod-pod-join"));
   ("log-audit-events", BoolVal true);
   ("log-all-audit-events", BoolVal false);
   ("audit-log-format", StringVal (OnHeap "text"))].

(** The flags, as [main] reads them.
    [src/cmd/manager/main.go:50-58, main] *)
Record mgr_options := {
  mo_metricsAddr : string; mo_auditWebhookAddr : string; mo_managerAuditWebhookURL : string;
  mo_joinWebhookAddr : string; mo_joinWebhookDNSNames : string; mo_joinWebhookConfigName : string;
  mo_audit : AuditFlags }.

Definition read_mgr_options (block : list ascii) (formal : gmap string value) : mgr_options :=
  let str := flag_string formal block in
  {| mo_metricsAddr := str "metrics-bind-address"; mo_auditWebhookAddr := str "audit-webhook-bind-address";
     mo_managerAuditWebhookURL := str "manager-audit-webhook-url";
     mo_joinWebhookAddr := str "join-webhook-bind-address";
     mo_joinWebhookDNSNames := str "join-webhook-dns-names";
     mo_joinWebhookConfigName := str "join-webhook-config-name";
     mo_audit := {| fl_logAuditEvents := flag_bool formal "log-audit-events";
                    fl_logAllAuditEvents := flag_bool formal "log-all-audit-events";
                    fl_auditLogFormat := str "audit-log-format" |} |}.

Inductive mgr_request := MgrUsage (code : Z) | MgrFatal (msg : string) | MgrRun (o : mgr_options).

(** The packages linked in add flags of their own, [logOpts.BindFlags] among
    them.
    [src/cmd/manager/main.go:65-72, main] *)
Definition mgr_command {X} `{Value X} (is_print : Z -> bool) (extra : gmap string X) (args : list string) : mgr_request :=
  let block := argv_block args in
  match Parse block ((inl <$> manager_flags) ∪ (inr <$> extra)) (drop 1 (argv args)) with
  | ErrHelp => MgrUsage 0
  | ParseFailed _ => MgrUsage 2
  | Parsed formal _ =>
      let o := read_mgr_options block (omap (fun v => match v with inl v => Some v | inr _ => None end) formal) in
      if (fl_auditLogFormat (mo_audit o) !=? "text") && (fl_auditLogFormat (mo_audit o) !=? "json")
      then MgrFatal ("-audit-log-format must be " +:+ dq +:+ "text" +:+ dq +:+ " or " +:+ dq +:+ "json" +:+ dq
                     +:+ ", got " +:+ Quote is_print (fl_auditLogFormat (mo_audit o)))
      else MgrRun o
  end.

(** ** wait.ExponentialBackoff *)

(** [polls cond n w r w']: checking [cond] at most [n] times may end with
    [r]; a truncated sleep may end it early. *)
Inductive polls {W} (cond : E W bool) (timeout : error) : nat -> W -> error + unit -> W -> Prop :=
  | polls_true n w w' : cond w = (inr true, w') -> polls cond timeout (S n) w (inr tt) w'
  | polls_error n w e w' : cond w = (inl e, w') -> polls cond timeout (S n) w (inl e) w'
  | polls_again n w w1 r w' :
      cond w = (inr false, w1) -> polls cond timeout n w1 r w' -> polls cond timeout (S n) w r w'
  | polls_timeout n w : polls cond timeout n w (inl timeout) w.

Class Backoff := {
  ErrWaitTimeout : error;
  ExponentialBackoff : forall {W : Type}, nat -> E W bool -> E W unit }.

Class BackoffLaws `{Backoff} : Prop := {
  backoff_polls : forall W steps (cond : E W bool) w r w',
    ExponentialBackoff steps cond w = (r, w') -> polls cond ErrWaitTimeout steps w r w' }.

(** An invariant of the failing checks holds where the last one starts. *)
Lemma polls_last {W} (cond : E W bool) timeout n w w' (I : W -> Prop) :
  polls cond timeout n w (inr tt) w' -> I w ->
  (forall w1 w2, I w1 -> cond w1 = (inr false, w2) -> I w2) ->
  exists w1, I w1 /\ cond w1 = (inr true, w').
Proof.
  intros Hp Hw Hstep. remember (inr tt) as r eqn:Er. induction Hp; simplify_eq; [by eexists|].
  apply IHHp; [done|]. by eapply Hstep.
Qed.

(** The loop of k8s.io/apimachinery with the sleeps left out: [n] checks. *)
Fixpoint poll_n {W} (timeout : error) (n : nat) (cond : E W bool) : E W unit :=
  match n with
  | O => throw timeout
  | S n' => ok ← cond; if ok : bool then mret tt else poll_n timeout n' cond
  end.

Definition wait_timeout : error := Errorf "timed out waiting for the condition".

#[global] Instance poll_backoff : Backoff := {|
  ErrWaitTimeout := wait_timeout; ExponentialBackoff W := poll_n wait_timeout |}.

#[global] Instance poll_backoff_laws : BackoffLaws.
Proof.
  split. intros W steps cond w r w'. simpl. revert w. induction steps as [|n IH]; intros w; simpl.
  - intros [= <- <-]. constructor.
  - unfold mbind, E_bind. destruct (cond w) as [[e|ok] w1] eqn:E.
    + intros [= <- <-]. by apply polls_error.
    + destruct ok; [intros [= <- <-]; by apply polls_true|]. intros Hp. by eapply polls_again, IH.
Qed.

(** ** The start *)

(** [src/cmd/manager/main.go:38-38, webhookCertNamespace] *)
Definition webhookCertNamespace := "honeypod".
(** [src/cmd/manager/main.go:39-39, webhookCertSecretName] *)
Definition webhookCertSecretName := "honeypod-webhook-tls".

(** [certBackoff.Steps]; the sleeps have no part in what is computed.
    [src/cmd/manager/main.go:165-165, main] *)
Definition certBackoff_Steps : nat := 8.

Section Startup.
Context {W : Type} `{Host W} `{Crypto W} (secrets : Client W Secret).
Context {TLS : Type} (X509KeyPair : string -> string -> error + TLS).
Context `{Backoff} (Info : string -> error -> E W unit).
(** controller-runtime: the configuration, the clients and the manager, its
    controllers and its checks. *)
Context (GetConfig NewClient NewManager SetupDecoy AddHealthz AddReadyz : error + unit)
        (SetupCABundle : WebhookCABundleReconciler -> error + unit).

(** The variables the closure of the retry loop assigns. *)
Abbreviation captured := (option (TLS * string)).

(** [src/cmd/manager/main.go:162-162, main] *)
Definition webhook_names (o : mgr_options) : list string :=
  Split (mo_joinWebhookDNSNames o) ","%char ++ ["localhost"; "127.0.0.1"].

(** The check of the retry loop.
    [src/cmd/manager/main.go:166-174, main] *)
Definition cert_check (dnsNames : list string) : E (captured * W) bool :=
  r ← on_host (try_ (EnsureWebhookServingCert secrets X509KeyPair webhookCertNamespace
                       webhookCertSecretName dnsNames));
  match r with
  | inl err =>
      _ ← on_state (fun _ => None);
      _ ← on_host (Info "join-webhook serving cert not ready yet, retrying" err);
      mret false
  | inr res => _ ← on_state (fun _ => Some res); mret true
  end.

(** What runs once [main] has started everything: the audit receiver, the
    reconciler of the CA bundle, the admission webhook, the tracker's loop. *)
Record managing := {
  mg_audit_addr : string; mg_audit : AuditFlags; mg_url : string;
  mg_bundle : WebhookCABundleReconciler; mg_join_addr : string; mg_cert : captured;
  mg_flush : Z }.

(** [setupLog.Error] and [os.Exit(1)]: an error ends the process.
    [src/cmd/manager/main.go:82-87, main] *)
Definition build_clients : E (captured * W) unit :=
  _ ← lift GetConfig;
  wrap_err "unable to build direct API client" (lift NewClient).

(** [src/cmd/manager/main.go:134-148, main] *)
Definition build_manager : E (captured * W) unit :=
  _ ← wrap_err "unable to start manager" (lift NewManager);
  wrap_err "unable to create controller" (lift SetupDecoy).

(** Each listener is a goroutine, started where the field it serves with is
    set; an error of a listener is logged.
    [src/cmd/manager/main.go:162-225, main] *)
Definition start_manager (o : mgr_options) : E (captured * W) managing :=
  _ ← build_clients;
  _ ← build_manager;
  _ ← wrap_err "giving up ensuring join-webhook serving certificate"
        (ExponentialBackoff certBackoff_Steps (cert_check (webhook_names o)));
  '(cert, caPEM) ← (fun cw => (inr (cw.1, from_option snd "" cw.1), cw));
  let bundle := {| wr_ConfigName := mo_joinWebhookConfigName o; wr_CABundle := caPEM |} in
  _ ← wrap_err "unable to create controller" (lift (SetupCABundle bundle));
  _ ← wrap_err "unable to set up health check" (lift AddHealthz);
  _ ← wrap_err "unable to set up ready check" (lift AddReadyz);
  mret {| mg_audit_addr := mo_auditWebhookAddr o; mg_audit := mo_audit o;
          mg_url := mo_managerAuditWebhookURL o; mg_bundle := bundle;
          mg_join_addr := mo_joinWebhookAddr o; mg_cert := cert; mg_flush := 15 * Second |}.

(** *** What it serves with *)

Context (view : W -> gmap NamespacedName Secret) `{!Serves view secret_body secrets}.
Context `{!CryptoLaws W, !CryptoLeaves view} (now_keeps : keeps view time_Now) `{!BackoffLaws}.
Context (info_keeps : forall m e, keeps view (Info m e)).

#[local] Abbreviation key := (NN webhookCertNamespace webhookCertSecretName).

(** The Secret is still the one of [w0], or a fresh pair for the names. *)
Definition grown (names : list string) (w0 w : W) : Prop :=
  view w !! key = view w0 !! key \/ exists s, view w !! key = Some s /\ fresh_pair names s.

Lemma ensure_grown names w0 w r w' :
  grown names w0 w ->
  EnsureWebhookServingCert secrets X509KeyPair webhookCertNamespace webhookCertSecretName names w = (r, w') ->
  grown names w0 w'.
Proof using All.
  intros Hg He. apply (Ensure_writes secrets X509KeyPair view now_keeps) in He as [Hv|(s & Hv & Hs)].
  - unfold grown. by rewrite Hv.
  - right. exists s. rewrite Hv. split; [apply lookup_insert_eq|done].
Qed.
(** The successful check assigns what it serves with. *)
Lemma cert_check_true names c w c' w' :
  cert_check names (c, w) = (inr true, (c', w')) ->
  exists res, c' = Some res /\
    EnsureWebhookServingCert secrets X509KeyPair webhookCertNamespace webhookCertSecretName names w = (inr res, w').
Proof.
  unfold cert_check, mbind, E_bind, on_host, try_, on_state. simpl.
  destruct (EnsureWebhookServingCert _ _ _ _ names w) as [[e|res] w1]; simpl.
  - destruct (Info _ e w1) as [[]]; intros [=].
  - intros [= <- <-]. by eexists.
Qed.

Lemma cert_check_false names w0 c w cw' :
  grown names w0 w -> cert_check names (c, w) = (inr false, cw') -> grown names w0 cw'.2.
Proof using All.
  unfold cert_check, mbind, E_bind, on_host, try_, on_state. simpl. intros Hg.
  destruct (EnsureWebhookServingCert _ _ _ _ names w) as [[e|res] w1] eqn:E; simpl; [|intros [=]].
  apply (ensure_grown names w0) in E; [|done].
  pose proof (info_keeps "join-webhook serving cert not ready yet, retrying" e w1) as Hk.
  destruct (Info _ e w1) as [[] w2]; intros [= <-]. simpl in *. unfold grown in *. by rewrite Hk.
Qed.

Context (configs : Client W MutatingWebhookConfiguration) (note : Z -> string -> list (string * string) -> E W unit).
Context (cview : W -> gmap NamespacedName MutatingWebhookConfiguration) `{!Serves cview mwc_body configs}.
Context (note_keeps : forall v m kv, keeps cview (note v m kv)).

(** C38: the API server can trust the webhook the manager serves. When the
    start succeeds, however many checks it took and whatever they wrote, the
    key pair presented and the CA handed to the bundle's reconciler come from
    one Secret, which is stored: the one of before, or a fresh one whose
    certificate covers all names of the flag and the loopback ones, signed by
    its CA. And that CA is what every later pass of the reconciler, over a
    configuration of the name the flag gives that is not being deleted, leaves
    in each of its webhooks. *)
Theorem manager_webhook_trusted o w m c' w' :
  start_manager o (None, w) = (inr m, (c', w')) ->
  exists s res, view w' !! key = Some s /\ stored_pair X509KeyPair s res /\ mg_cert m = Some res /\
    (view w !! key = Some s \/ fresh_pair (webhook_names o) s) /\
    forall ns w2 w3 cfg,
      WebhookCABundle_Reconcile configs note (mg_bundle m) (NN ns (mo_joinWebhookConfigName o)) w2 = (inr tt, w3) ->
      cview w2 !! NN "" (mo_joinWebhookConfigName o) = Some cfg -> om_DeletionTimestamp (mwc_Meta cfg) = None ->
      exists cfg', cview w3 !! NN "" (mo_joinWebhookConfigName o) = Some cfg' /\
        Forall (fun wh => wh_CABundle wh = sec_get s "ca.crt") (mwc_Webhooks cfg').
Proof using All.
  intros Hrun. unfold start_manager in Hrun.
  apply E_bind_inr in Hrun as ([] & cw1 & Hcl & Hrun). apply E_bind_inr in Hrun as ([] & cw2 & Hm & Hrun).
  assert (cw2 = (None, w)) as ->.
  { unfold build_clients, build_manager, mbind, E_bind, wrap_err, lift in Hcl, Hm.
    repeat case_match; simplify_eq; done. }
  apply E_bind_inr in Hrun as ([] & [c3 w3] & Hb & Hrun). apply wrap_err_inr, backoff_polls in Hb.
  destruct (polls_last _ _ _ _ _ (fun cw => grown (webhook_names o) w cw.2) Hb) as ([c4 w4] & Hg & Hlast).
  { by left. }
  { intros [c5 w5] cw6 Hg Hc. by eapply cert_check_false. }
  apply cert_check_true in Hlast as (res & -> & He). simpl in Hg.
  apply E_bind_inr in Hrun as ([cert ca] & cw5 & Hget & Hrun). injection Hget as <- <- <-.
  apply E_bind_inr in Hrun as ([] & cw6 & Hs1 & Hrun). apply E_bind_inr in Hrun as ([] & cw7 & Hs2 & Hrun).
  apply E_bind_inr in Hrun as ([] & cw8 & Hs3 & Hrun). injection Hrun as <- ->.
  assert ((c', w') = (Some res, w3)) as [= -> ->].
  { unfold wrap_err, lift in Hs1, Hs2, Hs3. repeat case_match; simplify_eq; done. }
  destruct (EnsureWebhookServingCert_stored secrets X509KeyPair view now_keeps _ _ _ _ _ _ He)
    as (s & Hs & Hpair & Hfrom).
  exists s, res. split_and!; [done|done|done| |].
  - destruct Hfrom as [Hold|?]; [|by right]. destruct Hg as [Hg|(s' & Hs' & Hf)].
    + left. by rewrite <- Hg.
    + right. rewrite Hold in Hs'. by injection Hs' as ->.
  - intros ns w5 w6 cfg Hrec Hcfg Hdel. destruct Hpair as [_ Hca].
    destruct (WebhookCABundle_converges configs note cview note_keeps _ _ _ _ Hrec) as [_ Hc].
    specialize (Hc eq_refl). cbn [wr_ConfigName mg_bundle wr_CABundle from_option] in Hc.
    rewrite Hcfg in Hc. rewrite Hca. case_bool_decide as Hall.
    + exists cfg. by rewrite Hc.
    + destruct (Hc Hdel) as (cfg' & -> & Hf & _). exists cfg'. by rewrite lookup_insert_eq.
Qed.
End Startup.

(** ** The end of the process

    After the start the tracker's loop flushes on its ticks, and on the
    signal once more, while [mgr.Start] returns on the same signal and [main]
    with it. *)
Module Lifecycle.
Import Activity.Interleaving.

(** The goroutine of [activityTracker.Run]. *)
Inductive loop := Ticking | LastFlush | LoopDone.

Record mproc (V W : Type) := mkM {
  m_sys : Sys V W; m_signalled : bool; m_loop : loop; m_stopped : bool; m_exit : option Z }.
Arguments mkM {V W}.
Arguments m_sys {V W}.
Arguments m_signalled {V W}.
Arguments m_loop {V W}.
Arguments m_stopped {V W}.
Arguments m_exit {V W}.

Section Exit.
Context {V : Type} `{Vec V} {W : Type} (client : Client W Decoy).
Context `{Hretry : RetryOnConflict} `{!RetryLaws}.
Context (k : NamespacedName) `{!DecoyServer client k}.

(** One move. The requests recorded and the steps of a flush are those of the
    tracker, whose ticks start one while it is [Ticking]; the last flush starts
    on the signal. [mgr.Start] returns some time after the signal and [main]
    right after it; an error of [mgr.Start], and a second signal, exit with 1.
    [src/cmd/manager/main.go:220-231, main] *)
Inductive mstep : mproc V W -> event -> mproc V W -> Prop :=
  | m_track s l s' b lp st :
      step client k s l s' -> (s_f s = Idle -> s_f s' = Idle \/ lp = Ticking) ->
      mstep (mkM s b lp st None) l (mkM s' b lp st None)
  | m_signal s b lp st : mstep (mkM s b lp st None) Internal (mkM s true lp st None)
  | m_last t w order todo t' st :
      order ≡ₚ elements (dom (counters t)) -> snapshot order t = (todo, t') ->
      mstep (mkM (mkSys t w Idle) true Ticking st None) Internal (mkM (mkSys t' w (Writing todo)) true LastFlush st None)
  | m_loop_done t w b st :
      mstep (mkM (mkSys t w Idle) b LastFlush st None) Internal (mkM (mkSys t w Idle) b LoopDone st None)
  | m_stop s lp st : mstep (mkM s true lp st None) Internal (mkM s true lp true None)
  | m_return s b lp : mstep (mkM s b lp true None) Internal (mkM s b lp true (Some 0%Z))
  | m_fail s b lp st : mstep (mkM s b lp st None) Internal (mkM s b lp st (Some 1%Z)).

Inductive msteps : mproc V W -> list (event) -> mproc V W -> Prop :=
  | msteps_refl s : msteps s [] s
  | msteps_snoc s1 tr s2 l s3 : msteps s1 tr s2 -> mstep s2 l s3 -> msteps s1 (tr ++ [l]) s3.

Definition boot (t : Tracker V) (w : W) : mproc V W := mkM (mkSys t w Idle) false Ticking false None.

(** What the tracker does in a process is a run of the tracker. *)
Lemma msteps_steps t w tr p :
  msteps (boot t w) tr p ->
  exists tr', steps client k (mkSys t w Idle) tr' (m_sys p) /\
    recorded k tr' = recorded k tr /\ lost tr' = lost tr.
Proof.
  intros Hm. remember (boot t w) as p0 eqn:E. induction Hm as [|p1 tr p2 l p3 Hm IH Hs]; subst.
  { exists []. split; [constructor|done]. }
  destruct (IH eq_refl) as (tr' & Hst & Hr & Hl). rewrite recorded_snoc, lost_snoc.
  assert (Hmove : forall l', steps client k (mkSys t w Idle) (tr' ++ [l']) (m_sys p3) -> l' = l ->
    exists tr'', steps client k (mkSys t w Idle) tr'' (m_sys p3) /\
      recorded k tr'' = (recorded k tr + recorded_by k l)%Z /\ lost tr'' = lost tr ++ lost_by l).
  { intros l' Hst' ->. exists (tr' ++ [l]). by rewrite recorded_snoc, lost_snoc, Hr, Hl. }
  destruct Hs; simpl in *;
    try (exists tr'; split_and!; [done|rewrite Hr; lia|by rewrite app_nil_r]).
  - eapply Hmove; [|reflexivity]. by eapply steps_snoc.
  - eapply Hmove; [|reflexivity]. eapply steps_snoc; [done|]. by eapply step_snapshot.
Qed.

Lemma msteps_trans p1 tr1 p2 tr2 p3 : msteps p1 tr1 p2 -> msteps p2 tr2 p3 -> msteps p1 (tr1 ++ tr2) p3.
Proof.
  intros H1 H2. revert tr1 H1. induction H2 as [|p2 tr p l p' _ IH Hs]; intros tr1 H1.
  - by rewrite app_nil_r.
  - rewrite (assoc_L (++)). eapply msteps_snoc; eauto.
Qed.

(** Without an error only the signal ends the process. *)
Definition told (p : mproc V W) : Prop :=
  (m_stopped p = true -> m_signalled p = true) /\
  (forall c, m_exit p = Some c -> c = 1%Z \/ c = 0%Z /\ m_stopped p = true).

Lemma told_step p l p' : mstep p l p' -> told p -> told p'.
Proof. intros Hs [Ht He]. destruct Hs; unfold told in *; simpl in *; split; naive_solver. Qed.

Lemma told_run t w tr p : msteps (boot t w) tr p -> told p.
Proof.
  intros Hm. remember (boot t w) as p0 eqn:E. induction Hm; subst; [done|].
  eapply told_step; [done|]. by apply IHHm.
Qed.

(** C11: what the status of a decoy shows when the manager is gone. However
    requests, flushes, other API clients and the shutdown interleave, the
    process ends without an error only after the signal, and whenever no flush
    is in progress, at its end included, the status holds the requests recorded,
    less what memory still owes, plus what was written twice: the deltas of the
    writes the server took although their reply was lost, no more of them than
    errors the metric has counted. Memory may owe all of it: from every such
    state the process can end with the tracker and the cluster as they are,
    since [main] does not wait for the tracker's last flush. *)
Theorem manager_exit t w tr p kt0 :
  counters t = ∅ -> look w = Some kt0 -> msteps (boot t w) tr p ->
  (m_exit p = Some 0%Z -> m_signalled p = true) /\
  (s_f (m_sys p) = Idle ->
   exists kt, look (s_w (m_sys p)) = Some kt /\
     Int.int64 (hits kt + (mem_count k (s_t (m_sys p)) - mem_flushed k (s_t (m_sys p)))) =
       Int.int64 (hits kt0 + (recorded k tr + sumZ (lost tr))) /\
     (mem_dirty k (s_t (m_sys p)) = false ->
        Int.int64 (hits kt) = Int.int64 (hits kt0 + (recorded k tr + sumZ (lost tr)))) /\
     (Z.of_nat (length (lost tr)) <= errs (s_t (m_sys p)) - errs t)%Z) /\
  (m_exit p = None ->
   exists tr' p', msteps p tr' p' /\ recorded k tr' = 0%Z /\ m_exit p' = Some 0%Z /\ m_sys p' = m_sys p).
Proof.
  intros Hc Hk Hm. split_and!.
  - intros He. destruct (told_run _ _ _ _ Hm) as [Ht Hx]. destruct (Hx _ He) as [?|[_ ?]]; [done|auto].
  - intros Hidle. destruct (msteps_steps _ _ _ _ Hm) as (tr' & Hst & Hr & Hl).
    assert (Hf : fresh (mkSys t w Idle)) by done.
    pose proof (inv_fresh client k _ _ Hf Hk) as Hi0.
    pose proof (lost_le_errs client k _ _ _ _ _ Hst Hi0 eq_refl Hidle) as Hle.
    destruct (inv_steps client k _ _ _ _ _ Hst Hi0) as (kt & Hkt & Hq).
    rewrite Hidle, Hr, Hl in Hq. rewrite Hl in Hle. apply quiet_exact in Hq as [Hq1 Hq2].
    by exists kt.
  - intros He. destruct p as [s b lp st ex]. simpl in *. subst ex.
    exists [Internal; Internal; Internal], (mkM s true lp true (Some 0%Z)). split_and!; [|done|done|done].
    change [Internal; Internal; Internal] with (([] ++ [Internal]) ++ [Internal] ++ [Internal]).
    rewrite (assoc_L (++)). eapply msteps_snoc; [|apply m_return].
    eapply msteps_snoc; [|apply m_stop]. eapply msteps_snoc; [apply msteps_refl|apply m_signal].
Qed.
End Exit.

(** A request is recorded; the signal comes and [main] returns before the
    last flush: the status says none. *)
Definition one_request : mproc (gmap (list string) Z) store :=
  mkM (mkSys demo_t1 demo_store Idle) false Ticking false None.

Lemma one_request_run :
  @msteps _ _ _ store_client default_retry demo_key _ (boot demo_tracker demo_store) [Recorded demo_key] one_request.
Proof.
  change [Recorded demo_key] with ([] ++ [Recorded demo_key]).
  eapply msteps_snoc; [apply msteps_refl|]. apply m_track; [apply step_record|by left].
Qed.

Lemma manager_exit_witness :
  exists tr p kt, @msteps _ _ _ store_client default_retry demo_key _ one_request tr p /\
    m_exit p = Some 0%Z /\ sv_objects (s_w (m_sys p)) !! demo_key = Some kt /\ hits kt = 0%Z /\
    mem_count demo_key (s_t (m_sys p)) = 1%Z.
Proof.
  destruct (@manager_exit _ _ _ store_client default_retry default_retry_laws demo_key (store_server demo_key)
    demo_tracker demo_store _ _ (mk_decoy "traps" "web" empty_spec)
    eq_refl ltac:(vm_compute; reflexivity) one_request_run) as (_ & _ & Hend).
  destruct (Hend eq_refl) as (tr & p & Hrun & _ & Hexit & Hsys).
  exists tr, p, (mk_decoy "traps" "web" empty_spec). rewrite Hsys.
  split; [exact Hrun|]. split; [exact Hexit|]. vm_compute. repeat split.
Defined.

End Lifecycle.
