(* ===== verification/Hash.v ===== *)
(** * crypto/sha256 and hash/fnv

    The two hashes the source uses, as executable functions on bytes: SHA-256
    (FIPS 180-4) behind [checksum] and [hexBlob], and the 32-bit FNV-1a behind
    the shim's stable fake values. Words are [Z] reduced modulo 2^32. *)

From S2P Require Import Prelude GoStrings.
#[local] Open Scope Z_scope.
#[local] Open Scope list_scope.

Module SHA256.

Definition rotr (n x : Z) : Z := Z.lor (Z.shiftr x n) (Int.uint32 (Z.shiftl x (32 - n))).
Definition Ch (x y z : Z) : Z := Z.lxor (Z.land x y) (Z.land (Z.lxor x (2 ^ 32 - 1)) z).
Definition Maj (x y z : Z) : Z := Z.lxor (Z.lxor (Z.land x y) (Z.land x z)) (Z.land y z).
Definition S0 (x : Z) : Z := Z.lxor (Z.lxor (rotr 2 x) (rotr 13 x)) (rotr 22 x).
Definition S1 (x : Z) : Z := Z.lxor (Z.lxor (rotr 6 x) (rotr 11 x)) (rotr 25 x).
Definition s0 (x : Z) : Z := Z.lxor (Z.lxor (rotr 7 x) (rotr 18 x)) (Z.shiftr x 3).
Definition s1 (x : Z) : Z := Z.lxor (Z.lxor (rotr 17 x) (rotr 19 x)) (Z.shiftr x 10).

(** The largest [x] below [2 ^ bits] with [x ^ d <= n], bit by bit from the top. *)
Fixpoint root (bits : nat) (d n x : Z) : Z :=
  match bits with
  | O => x
  | S b => let y := x + 2 ^ Z.of_nat b in root b d n (if y ^ d <=? n then y else x)
  end.

(** The first 32 bits of the fractional part of the [d]-th root of [p]. *)
Definition root_bits (d p : Z) : Z := Int.uint32 (root 40 d (p * 2 ^ (32 * d)) 0).

(** The first [n] primes from [k] on, by trial division. *)
Fixpoint primes (fuel n : nat) (k : Z) : list Z :=
  match fuel, n with
  | S f, S n' =>
      if forallb (fun i => negb (k mod i =? 0)) (seqZ 2 (k - 2))
      then k :: primes f n' (k + 1) else primes f n (k + 1)
  | _, _ => []
  end.

(** The round constants come from the cube roots of the first 64 primes, the
    initial state from the square roots of the first eight. *)
Definition K : list Z := Eval vm_compute in root_bits 3 <$> primes 400 64 2.
Definition H0 : list Z := Eval vm_compute in root_bits 2 <$> primes 400 8 2.

(** The [n] low bytes of [z], most significant first. *)
Fixpoint be_bytes (n : nat) (z : Z) : list Z :=
  match n with
  | O => []
  | S n' => be_bytes n' (Z.shiftr z 8) ++ [Z.land z 255]
  end.

Definition of_be (l : list Z) : Z := foldl (fun acc b => acc * 256 + b) 0 l.

(** The message with its padding: a multiple of 64 bytes. *)
Definition pad (msg : list Z) : list Z :=
  let len := Z.of_nat (length msg) in
  let zeros := Z.to_nat ((55 - len) mod 64) in
  msg ++ [128] ++ replicate zeros 0 ++ be_bytes 8 (len * 8).

Fixpoint words (fuel : nat) (l : list Z) : list Z :=
  match fuel, l with
  | S f, _ :: _ => of_be (take 4 l) :: words f (drop 4 l)
  | _, _ => []
  end.

(** The message schedule, newest word first: [n] more words. *)
Fixpoint schedule (n : nat) (w : list Z) : list Z :=
  match n with
  | O => w
  | S n' =>
      let at_ i := nth i w 0 in
      schedule n' (Int.uint32 (s1 (at_ 1%nat) + at_ 6%nat + s0 (at_ 14%nat) + at_ 15%nat) :: w)
  end.

Definition round (st : list Z) (kw : Z * Z) : list Z :=
  match st with
  | [a; b; c; d; e; f; g; h] =>
      let T1 := h + S1 e + Ch e f g + kw.1 + kw.2 in
      let T2 := S0 a + Maj a b c in
      [Int.uint32 (T1 + T2); a; b; c; Int.uint32 (d + T1); e; f; g]
  | _ => st
  end.

Definition compress (h : list Z) (block : list Z) : list Z :=
  let w := reverse (schedule 48 (reverse (words 16 block))) in
  zip_with (fun x y => Int.uint32 (x + y)) h (foldl round h (zip K w)).

Fixpoint blocks (fuel : nat) (h : list Z) (l : list Z) : list Z :=
  match fuel, l with
  | S f, _ :: _ => blocks f (compress h (take 64 l)) (drop 64 l)
  | _, _ => h
  end.

(** [sha256.Sum256]: 32 bytes. *)
Definition Sum256 (msg : list Z) : list Z :=
  let p := pad msg in
  concat (be_bytes 4 <$> blocks (length p) H0 p).

Definition bytes (s : string) : list Z := byteZ <$> chars s.

Example abc : hex_encode (Sum256 (bytes "abc")) =
  "ba7816bf8f01cfea414140de5dae2223b00361a396177a9cb410ff61f20015ad"%string.
Proof. vm_compute. reflexivity. Qed.

Example two_blocks :
  hex_encode (Sum256 (bytes "abcdbcdecdefdefgefghfghighijhijkijkljklmklmnlmnomnopnopq")) =
  "248d6a61d20638b8e5c026930c3e6039a33ce45964ff2167f6ecedd419db06c1"%string.
Proof. vm_compute. reflexivity. Qed.

Lemma length_be_bytes n z : length (be_bytes n z) = n.
Proof.
  revert z. induction n as [|n IH]; intros z; [done|]. simpl. rewrite length_app, IH. simpl. lia.
Qed.

Lemma length_round st kw : length (round st kw) = length st.
Proof. unfold round. by do 9 (destruct st as [|? st]; [done|]). Qed.

Lemma length_rounds kws st : length (foldl round st kws) = length st.
Proof.
  revert st. induction kws as [|kw kws IH]; intros st; [done|]. simpl. by rewrite IH, length_round.
Qed.

Lemma length_compress h b : length (compress h b) = length h.
Proof. unfold compress. rewrite length_zip_with, length_rounds. lia. Qed.

Lemma length_blocks fuel h l : length (blocks fuel h l) = length h.
Proof.
  revert h l. induction fuel as [|f IH]; intros h [|x l]; try done. simpl.
  by rewrite IH, length_compress.
Qed.

Lemma length_concat_be (l : list Z) : length (concat (be_bytes 4 <$> l)) = (4 * length l)%nat.
Proof.
  induction l as [|x l IH]; [done|]. rewrite fmap_cons. cbn [concat]. rewrite length_app, length_be_bytes, IH. simpl. lia.
Qed.

(** A digest is 32 bytes. *)
Lemma length_Sum256 msg : length (Sum256 msg) = 32%nat.
Proof. unfold Sum256. by rewrite length_concat_be, length_blocks. Qed.

End SHA256.

Lemma length_hex_fixed n z : String.length (hex_fixed n z) = n.
Proof.
  revert z. induction n as [|n IH]; intros z; [done|]. simpl. rewrite length_sapp, IH. simpl. lia.
Qed.

Lemma length_hex_encode l : String.length (hex_encode l) = (2 * length l)%nat.
Proof.
  unfold hex_encode. induction l as [|x l IH]; [done|].
  rewrite fmap_cons, concat_all_cons, length_sapp, IH, length_hex_fixed. simpl. lia.
Qed.

(** [hex.EncodeToString(sha256.Sum256(b))].
    [src/internal/controller/render.go:131-134, checksum] *)
Definition checksum (s : string) : string := hex_encode (SHA256.Sum256 (SHA256.bytes s)).

Lemma length_checksum s : String.length (checksum s) = 64%nat.
Proof. unfold checksum. by rewrite length_hex_encode, SHA256.length_Sum256. Qed.

(** ** FNV-1a *)

(** [fnv.New32a], [Write], [Sum32]. *)
Definition fnv32a (s : string) : Z :=
  foldl (fun h b => Int.uint32 (Z.lxor h b * 16777619)) 2166136261 (SHA256.bytes s).

Lemma fnv32a_bounds s : 0 <= fnv32a s < 2 ^ 32.
Proof.
  unfold fnv32a. destruct (SHA256.bytes s) as [|b l] using rev_ind; [simpl; lia|].
  rewrite foldl_snoc. apply Int.uint32_bounds.
Qed.

Example fnv32a_ex : fnv32a "foobar" = 0xbf9cf968.
Proof. vm_compute. reflexivity. Qed.
