(* ===== verification/ShimIds.v ===== *)
(** * internal/kubeletshim: the identities the shim makes up

    helpers.go and the parts of kubeletshim.go and stats.go that derive a
    stable, believable value from a name: identifiers from SHA-256, addresses,
    restart counts and memory use from FNV-1a, and the status of a pod that
    never runs. *)

From Stdlib Require Import Ascii.
From S2P Require Import Prelude GoStrings KubeTypes ApiTypes Kube Host Hash.
#[local] Open Scope string_scope.
#[local] Open Scope list_scope.

(** ** helpers.go *)

(** [src/internal/kubeletshim/helpers.go:15-23, hexBlob] *)
Definition hexBlob (seed : string) (n : nat) : string :=
  hex_encode (take n (SHA256.Sum256 (SHA256.bytes seed))).

(** [s[i:j]] for indices in range. *)
Definition slice (s : string) (i j : nat) : string := String.substring i (j - i) s.

(** [src/internal/kubeletshim/helpers.go:25-29, uuidFrom] *)
Definition uuidFrom (seed : string) : string :=
  let h := hexBlob seed 16 in
  slice h 0 8 +:+ "-" +:+ slice h 8 12 +:+ "-" +:+ slice h 12 16 +:+ "-"
  +:+ slice h 16 20 +:+ "-" +:+ slice h 20 32.

(** [src/internal/kubeletshim/helpers.go:31-38, hash32] *)
Definition hash32 (s : string) : Z := fnv32a s.

(** [src/internal/kubeletshim/helpers.go:40-45, replicaSuffix] *)
Definition replicaSuffix (base : string) (n : Z) : string :=
  hexBlob (base +:+ "-" +:+ Itoa n) 5.

(** [src/internal/kubeletshim/helpers.go:47-54, fakeContainerID] *)
Definition fakeContainerID (podName containerName : string) : string :=
  "containerd://" +:+ hexBlob ("containerid/" +:+ podName +:+ "/" +:+ containerName) 32.

(** [src/internal/kubeletshim/helpers.go:56-61, fakeImageID] *)
Definition fakeImageID (image : string) : string :=
  image +:+ "@sha256:" +:+ hexBlob ("imageid/" +:+ image) 32.

(** [src/internal/kubeletshim/helpers.go:92-97, fakeUID] *)
Definition fakeUID (key : string) : string := uuidFrom ("uid/" +:+ key).

(** [src/internal/kubeletshim/helpers.go:63-90, resolveOwnerRefs] *)
Definition resolveOwnerRefs (objectUIDs : gmap string string) (refs : list seed.OwnerRef)
    : list OwnerReference :=
  (fun r =>
     let key := seed.sor_Kind r +:+ "/" +:+ seed.sor_Name r in
     {| or_APIVersion := seed.sor_APIVersion r; or_Kind := seed.sor_Kind r;
        or_Name := seed.sor_Name r; or_UID := default (fakeUID key) (objectUIDs !! key);
        or_Controller := Some true; or_BlockOwnerDeletion := Some true |}) <$> refs.

(** ** The machine identity of a node *)

(** [src/internal/kubeletshim/kubeletshim.go:936-943, fakeMachineID] *)
Definition fakeMachineID (nodeName : string) : string := hexBlob ("machine-id/" +:+ nodeName) 16.

(** [src/internal/kubeletshim/kubeletshim.go:945-947, fakeSystemUUID] *)
Definition fakeSystemUUID (nodeName : string) : string := uuidFrom ("system-uuid/" +:+ nodeName).

(** [src/internal/kubeletshim/kubeletshim.go:949-951, fakeBootID] *)
Definition fakeBootID (nodeName : string) : string := uuidFrom ("boot-id/" +:+ nodeName).

(** ** The status of a pod *)

(** [src/internal/kubeletshim/kubeletshim.go:1247-1263, stableRestartCount] *)
Definition stableRestartCount (podName containerName : string) : Z :=
  let b := (hash32 (podName +:+ "/" +:+ containerName) mod 32)%Z in
  if (b <? 24)%Z then 0 else if (b <? 30)%Z then 1 else 2.

(** [src/internal/kubeletshim/kubeletshim.go:1265-1282, runningContainerStatuses] *)
Definition runningContainerStatuses (podName : string) (containers : list Container)
    (startedAt : Time) : list ContainerStatus :=
  (fun c =>
     {| cs_Name := c_Name c; cs_Image := c_Image c; cs_Ready := true; cs_Started := Some true;
        cs_RestartCount := stableRestartCount podName (c_Name c);
        cs_ContainerID := fakeContainerID podName (c_Name c);
        cs_ImageID := fakeImageID (c_Image c); cs_StartedAt := Some startedAt |}) <$> containers.

(** [src/internal/kubeletshim/kubeletshim.go:1284-1299, fakePodIP] *)
Definition fakePodIP (nodeName podName : string) : string :=
  let third := (hash32 nodeName mod 200)%Z in
  let fourth := Int.uint32 (2 + hash32 (nodeName +:+ "/" +:+ podName) mod 250) in
  "10.244." +:+ Itoa third +:+ "." +:+ Itoa fourth.

(** [src/internal/kubeletshim/kubeletshim.go:1301-1325, podStatus] *)
Definition podStatus (startTime : Time) (podName nodeName hostIP : string)
    (statuses : list ContainerStatus) (hostNetwork : bool) : PodStatus :=
  let podIP := if hostNetwork then hostIP else fakePodIP nodeName podName in
  {| pst_Phase := "Running"; pst_StartTime := Some startTime;
     pst_Conditions := [{| pc_Type := "Ready"; pc_Status := "True";
                           pc_LastTransitionTime := startTime |}];
     pst_HostIP := hostIP; pst_PodIP := podIP; pst_PodIPs := [podIP];
     pst_ContainerStatuses := statuses |}.

(** [src/internal/kubeletshim/kubeletshim.go:1233-1245, podStartTime] *)
Definition podStartTime {W} `{Host W} (p : Pod) : E W Time :=
  if negb (time_is_zero (om_CreationTimestamp (p_Meta p)))
  then mret (om_CreationTimestamp (p_Meta p)) else time_Now.

(** [src/internal/kubeletshim/stats.go:27-30, containerMemBytes] *)
Definition containerMemBytes (key : string) : Z :=
  Int.int64 ((16 + hash32 key mod 240) * 1024 * 1024).

(** ** Their shape *)

(** A lowercase hexadecimal digit. *)
Definition is_hex (a : ascii) : bool :=
  let z := byteZ a in between 48 57 z || between 97 102 z.

Definition all_hex (s : string) : bool := forallb is_hex (chars s).

Lemma all_hex_app s t : all_hex (s +:+ t) = all_hex s && all_hex t.
Proof. unfold all_hex. by rewrite chars_app, forallb_app. Qed.

Lemma hex_digit_hex z : (0 <= z < 16)%Z -> is_hex (hex_digit z) = true.
Proof.
  intros Hz. assert (Hin : z ∈ seqZ 0 16) by (apply elem_of_seqZ; lia).
  assert (Hall : Forall (fun z => is_hex (hex_digit z) = true) (seqZ 0 16)) by (vm_compute; repeat constructor).
  rewrite Forall_forall in Hall. by apply Hall.
Qed.

Lemma hex_fixed_hex n z : all_hex (hex_fixed n z) = true.
Proof.
  revert z. induction n as [|n IH]; intros z; [done|]. simpl. rewrite all_hex_app, IH. simpl.
  unfold all_hex. simpl. rewrite hex_digit_hex; [done|].
  change 15%Z with (Z.ones 4). rewrite Z.land_ones by lia. apply Z.mod_pos_bound. lia.
Qed.

Lemma hex_encode_hex l : all_hex (hex_encode l) = true.
Proof.
  unfold hex_encode. induction l as [|x l IH]; [done|].
  by rewrite fmap_cons, concat_all_cons, all_hex_app, hex_fixed_hex, IH.
Qed.

Lemma hexBlob_shape s n :
  n <= 32 -> String.length (hexBlob s n) = 2 * n /\ all_hex (hexBlob s n) = true.
Proof.
  intros Hn. unfold hexBlob. split; [|apply hex_encode_hex].
  rewrite length_hex_encode, length_take, SHA256.length_Sum256. lia.
Qed.

Lemma substring_chars n m s : chars (String.substring n m s) = take m (drop n (chars s)).
Proof.
  revert n m. induction s as [|a s IH]; intros [|n] [|m]; simpl; try done; try by rewrite IH.
  all: by rewrite ?drop_0, ?IH.
Qed.

Lemma slice_shape s i j :
  i <= j <= String.length s -> String.length (slice s i j) = j - i /\
  (all_hex s = true -> all_hex (slice s i j) = true).
Proof.
  intros Hij. unfold slice. split.
  - rewrite <- length_chars, substring_chars, length_take, length_drop, length_chars. lia.
  - unfold all_hex. rewrite substring_chars, !forallb_forall. intros Hs a Ha. apply Hs.
    rewrite <- list_elem_of_In in *. eapply subseteq_drop, subseteq_take, Ha.
Qed.

(** A text in the form of a UUID. *)
Definition uuid_shaped (u : string) : Prop :=
  exists a b c d e, u = a +:+ "-" +:+ b +:+ "-" +:+ c +:+ "-" +:+ d +:+ "-" +:+ e /\
    (String.length <$> [a; b; c; d; e]) = [8; 4; 4; 4; 12] /\
    forallb all_hex [a; b; c; d; e] = true.

Lemma uuidFrom_shaped s : uuid_shaped (uuidFrom s).
Proof.
  destruct (hexBlob_shape s 16) as [Hl Hh]; [lia|]. unfold uuidFrom.
  eexists _, _, _, _, _. split; [reflexivity|].
  pose proof (slice_shape (hexBlob s 16) 0 8) as [L1 H1]; [lia|].
  pose proof (slice_shape (hexBlob s 16) 8 12) as [L2 H2]; [lia|].
  pose proof (slice_shape (hexBlob s 16) 12 16) as [L3 H3]; [lia|].
  pose proof (slice_shape (hexBlob s 16) 16 20) as [L4 H4]; [lia|].
  pose proof (slice_shape (hexBlob s 16) 20 32) as [L5 H5]; [lia|].
  split.
  - cbn [fmap list_fmap]. by rewrite L1, L2, L3, L4, L5.
  - cbn [forallb]. by rewrite H1, H2, H3, H4, H5 by exact Hh.
Qed.

(** ** Pod addresses *)

(** The addresses of a node's pods. *)
Definition pod_cidr (nodeName : string) : list string :=
  (fun i => "10.244." +:+ Itoa (hash32 nodeName mod 200) +:+ "." +:+ Itoa i) <$> seqZ 2 250.

Lemma fakePodIP_in_cidr nodeName podName : fakePodIP nodeName podName ∈ pod_cidr nodeName.
Proof.
  unfold fakePodIP, pod_cidr. apply list_elem_of_fmap.
  set (h := hash32 (nodeName +:+ "/" +:+ podName)).
  pose proof (Z.mod_pos_bound h 250 ltac:(lia)) as Hm.
  exists (2 + h mod 250)%Z. split; [|apply elem_of_seqZ; lia].
  unfold Int.uint32, Int.wrapU. by rewrite (Z.mod_small (2 + h mod 250)) by lia.
Qed.

Lemma length_pod_cidr nodeName : length (pod_cidr nodeName) = 250.
Proof. unfold pod_cidr. by rewrite length_fmap, length_seqZ. Qed.

(** C29: the address of a fabricated pod lies in its node's /24, away from the
    network, gateway and broadcast addresses, and does not depend on anything
    but the two names. The pool has 250 addresses, so pods that all report
    different addresses are at most 250 per node. *)
Theorem fakePodIP_bounds nodeName :
  exists third, (0 <= third < 200)%Z /\
    (forall podName, exists fourth, (2 <= fourth <= 251)%Z /\
       fakePodIP nodeName podName = "10.244." +:+ Itoa third +:+ "." +:+ Itoa fourth) /\
    (forall pods, NoDup (fakePodIP nodeName <$> pods) -> length pods <= 250).
Proof.
  exists (hash32 nodeName mod 200)%Z. split; [apply Z.mod_pos_bound; lia|]. split.
  - intros podName. pose proof (fakePodIP_in_cidr nodeName podName) as Hin.
    apply list_elem_of_fmap in Hin as (i & -> & Hi). apply elem_of_seqZ in Hi.
    exists i. split; [lia|done].
  - intros pods Hnd. rewrite <- (length_fmap (fakePodIP nodeName)), <- (length_pod_cidr nodeName).
    apply submseteq_length, NoDup_submseteq; [done|].
    intros ip (p & -> & _)%list_elem_of_fmap. apply fakePodIP_in_cidr.
Qed.

(** Two pods of a node may nevertheless report one address, which
    [kubectl get pods -o wide] shows: distinct names do not give distinct
    addresses. *)
Theorem fakePodIP_collision :
  exists nodeName p1 p2, p1 <> p2 /\ fakePodIP nodeName p1 = fakePodIP nodeName p2.
Proof. exists "worker-1", "kafka", "zookeeper". split; [done|vm_compute; reflexivity]. Qed.

(** ** The identities of nodes and containers *)

(** The identifiers the shim reports have the shape of real ones, for
    every name: a machine id of 32 hexadecimal digits, system, boot and owner
    ids in UUID form, container and image ids ending in 64 digits, a replica
    suffix of ten. *)
Theorem identities_shaped node pod container image key base n :
  (String.length (fakeMachineID node) = 32 /\ all_hex (fakeMachineID node) = true) /\
  uuid_shaped (fakeSystemUUID node) /\ uuid_shaped (fakeBootID node) /\ uuid_shaped (fakeUID key) /\
  (exists h, fakeContainerID pod container = "containerd://" +:+ h /\ String.length h = 64 /\ all_hex h = true) /\
  (exists h, fakeImageID image = image +:+ "@sha256:" +:+ h /\ String.length h = 64 /\ all_hex h = true) /\
  (String.length (replicaSuffix base n) = 10 /\ all_hex (replicaSuffix base n) = true).
Proof.
  split_and!; try apply uuidFrom_shaped; try (apply hexBlob_shape; lia);
    (eexists; split; [reflexivity|apply hexBlob_shape; lia]).
Qed.

(** The restart count and the memory a container reports. *)
Lemma stableRestartCount_bounds pod c : (0 <= stableRestartCount pod c <= 2)%Z.
Proof. unfold stableRestartCount. repeat case_match; lia. Qed.

Lemma containerMemBytes_bounds key :
  (16 * 1024 * 1024 <= containerMemBytes key <= 255 * 1024 * 1024)%Z.
Proof.
  unfold containerMemBytes. pose proof (Z.mod_pos_bound (hash32 key) 240 ltac:(lia)).
  rewrite Int.int64_small; lia.
Qed.
