(* ===== verification/ShimTypes.v ===== *)
(** * internal/kubeletshim: the objects of the inner cluster

    The kinds only kubelet-shim writes, the typed clients of the inner API
    server (client-go's clientset) and the shim's own state. A deletion
    closure of the source captures names only, so the map from keys to
    closures is a map from keys to a [Target], and [delete_target] is what
    the closures do. *)

From S2P Require Import Prelude GoStrings KubeTypes ApiTypes Kube Server.
#[local] Open Scope string_scope.
#[local] Open Scope list_scope.

(** ** Nodes and leases *)

Record Taint := { t_Key : string; t_Value : string; t_Effect : string }.

Record NodeSystemInfo := {
  ni_KubeletVersion : string; ni_KernelVersion : string; ni_OperatingSystem : string;
  ni_Architecture : string; ni_OSImage : string; ni_ContainerRuntimeVersion : string;
  ni_MachineID : string; ni_SystemUUID : string; ni_BootID : string }.

Record NodeCondition := {
  nc_Type : string; nc_Status : string; nc_Reason : string; nc_Message : string;
  nc_LastHeartbeatTime : Time; nc_LastTransitionTime : Time }.

Record ContainerImage := { ci_Names : list string; ci_SizeBytes : Z }.

Record NodeStatus := {
  nst_NodeInfo : NodeSystemInfo; nst_Addresses : list (string * string);
  nst_Conditions : list NodeCondition; nst_KubeletPort : Z;
  nst_Capacity : gmap string string; nst_Allocatable : gmap string string;
  nst_Images : list ContainerImage }.

Record Node := { n_Meta : ObjectMeta; n_Taints : list Taint; n_Status : NodeStatus }.

Definition no_node_info : NodeSystemInfo :=
  {| ni_KubeletVersion := ""; ni_KernelVersion := ""; ni_OperatingSystem := "";
     ni_Architecture := ""; ni_OSImage := ""; ni_ContainerRuntimeVersion := "";
     ni_MachineID := ""; ni_SystemUUID := ""; ni_BootID := "" |}.

Definition no_node_status : NodeStatus :=
  {| nst_NodeInfo := no_node_info; nst_Addresses := []; nst_Conditions := [];
     nst_KubeletPort := 0; nst_Capacity := ∅; nst_Allocatable := ∅; nst_Images := [] |}.

Record Lease := {
  l_Meta : ObjectMeta; l_HolderIdentity : option string;
  l_LeaseDurationSeconds : option Z; l_RenewTime : option Time }.

(** ** Namespaces, endpoint slices, custom resource definitions *)

(** [corev1.Namespace]; [ns_Finalizers] is [spec.finalizers]. *)
Record Namespace := { ns_Meta : ObjectMeta; ns_Finalizers : list string }.

Record EndpointSlice := {
  es_Meta : ObjectMeta; es_AddressType : string;
  es_Endpoints : list (list string * option bool);
  es_Ports : list (string * Z * string) }.

Record CRDVersion := {
  cv_Name : string; cv_Served : bool; cv_Storage : bool;
  cv_SchemaType : string; cv_PreserveUnknownFields : option bool }.

Record CustomResourceDefinition := {
  x_Meta : ObjectMeta; x_Group : string; x_Plural : string; x_Singular : string;
  x_Kind : string; x_ListKind : string; x_ShortNames : list string;
  x_Scope : string; x_Versions : list CRDVersion }.

(** ** The other controllers *)

Record ReplicaSetSpec := {
  rs_Replicas : option Z; rs_Selector : gmap string string; rs_Template : PodTemplateSpec }.
Record ReplicaSetStatus := {
  rss_Replicas : Z; rss_ReadyReplicas : Z; rss_AvailableReplicas : Z }.
Record ReplicaSet := { rs_Meta : ObjectMeta; rs_Spec : ReplicaSetSpec; rs_Status : ReplicaSetStatus }.

Record DaemonSetSpec := { dm_Selector : gmap string string; dm_Template : PodTemplateSpec }.
Record DaemonSetStatus := {
  dms_DesiredNumberScheduled : Z; dms_CurrentNumberScheduled : Z; dms_NumberReady : Z;
  dms_NumberAvailable : Z; dms_UpdatedNumberScheduled : Z }.
Record DaemonSet := { dm_Meta : ObjectMeta; dm_Spec : DaemonSetSpec; dm_Status : DaemonSetStatus }.

#[global] Instance ReplicaSet_object : Object ReplicaSet := {|
  meta := rs_Meta;
  with_meta r m := {| rs_Meta := m; rs_Spec := rs_Spec r; rs_Status := rs_Status r |} |}.
#[global] Instance DaemonSet_object : Object DaemonSet := {|
  meta := dm_Meta;
  with_meta r m := {| dm_Meta := m; dm_Spec := dm_Spec r; dm_Status := dm_Status r |} |}.
#[global] Instance Node_object : Object Node := {|
  meta := n_Meta; with_meta n m := {| n_Meta := m; n_Taints := n_Taints n; n_Status := n_Status n |} |}.
#[global] Instance Lease_object : Object Lease := {|
  meta := l_Meta;
  with_meta l m := {| l_Meta := m; l_HolderIdentity := l_HolderIdentity l;
                      l_LeaseDurationSeconds := l_LeaseDurationSeconds l; l_RenewTime := l_RenewTime l |} |}.
#[global] Instance Namespace_object : Object Namespace := {|
  meta := ns_Meta; with_meta n m := {| ns_Meta := m; ns_Finalizers := ns_Finalizers n |} |}.
#[global] Instance EndpointSlice_object : Object EndpointSlice := {|
  meta := es_Meta;
  with_meta e m := {| es_Meta := m; es_AddressType := es_AddressType e;
                      es_Endpoints := es_Endpoints e; es_Ports := es_Ports e |} |}.
#[global] Instance CRD_object : Object CustomResourceDefinition := {|
  meta := x_Meta;
  with_meta c m := {| x_Meta := m; x_Group := x_Group c; x_Plural := x_Plural c;
                      x_Singular := x_Singular c; x_Kind := x_Kind c; x_ListKind := x_ListKind c;
                      x_ShortNames := x_ShortNames c; x_Scope := x_Scope c; x_Versions := x_Versions c |} |}.

#[global] Instance ReplicaSet_object_laws : ObjectLaws ReplicaSet. Proof. object_laws. Qed.
#[global] Instance DaemonSet_object_laws : ObjectLaws DaemonSet. Proof. object_laws. Qed.
#[global] Instance Node_object_laws : ObjectLaws Node. Proof. object_laws. Qed.
#[global] Instance Lease_object_laws : ObjectLaws Lease. Proof. object_laws. Qed.
#[global] Instance Namespace_object_laws : ObjectLaws Namespace. Proof. object_laws. Qed.
#[global] Instance EndpointSlice_object_laws : ObjectLaws EndpointSlice. Proof. object_laws. Qed.
#[global] Instance CRD_object_laws : ObjectLaws CustomResourceDefinition. Proof. object_laws. Qed.

(** ** The clientset *)

(** [metav1.DeleteOptions]: the grace period and the UID precondition. *)
Record DeleteOptions := { dl_Grace : option Z; dl_UID : option string }.
Definition no_delete_options : DeleteOptions := {| dl_Grace := None; dl_UID := None |}.
Definition grace_zero : DeleteOptions := {| dl_Grace := Some 0%Z; dl_UID := None |}.

(** A typed client of client-go: deletion is by name, and of a whole
    namespace. *)
Record Typed (W O : Type) := {
  typed : Client W O;
  DeleteNamed : NamespacedName -> DeleteOptions -> E W unit;
  DeleteCollection : string -> E W unit }.
Arguments typed {W O}.
Arguments DeleteNamed {W O}.
Arguments DeleteCollection {W O}.

(** [kubernetes.Interface] and [apiextensionsclientset.Interface] against the
    inner API server; [None] is a nil [crdClient]. *)
Record Clientset (W : Type) := {
  k_nodes : Typed W Node; k_leases : Typed W Lease; k_namespaces : Typed W Namespace;
  k_Finalize : Namespace -> E W Namespace;
  k_pods : Typed W Pod; k_secrets : Typed W Secret; k_configmaps : Typed W ConfigMap;
  k_services : Typed W Service; k_endpointslices : Typed W EndpointSlice;
  k_deployments : Typed W Deployment; k_replicasets : Typed W ReplicaSet;
  k_daemonsets : Typed W DaemonSet;
  k_crds : option (Typed W CustomResourceDefinition) }.
Arguments k_nodes {W}.
Arguments k_leases {W}.
Arguments k_namespaces {W}.
Arguments k_Finalize {W}.
Arguments k_pods {W}.
Arguments k_secrets {W}.
Arguments k_configmaps {W}.
Arguments k_services {W}.
Arguments k_endpointslices {W}.
Arguments k_deployments {W}.
Arguments k_replicasets {W}.
Arguments k_daemonsets {W}.
Arguments k_crds {W}.

(** ** The shim *)

(** The configuration the modelled code reads.
    [src/internal/kubeletshim/kubeletshim.go:36-116, Config] *)
Record Config := {
  cfg_SeedPath : string; cfg_NodeInternalIP : string; cfg_KubeletPort : Z;
  cfg_KubernetesServicePort : Z; cfg_ExecProfile : string; cfg_ExecIsolation : bool;
  cfg_ServiceAccountToken : string; cfg_ServiceAccountDir : string; cfg_Namespace : string;
  cfg_CABundlePath : string; cfg_RecordExecSessions : bool }.

(** What a deletion closure deletes. *)
Inductive Target :=
  | TNode (name : string) | TLease (name : string) | TCRD (name : string)
  | TController (kind ns name : string) | TPod (ns name : string)
  | TSecret (ns name : string) | TConfigMap (ns name : string) | TService (ns name : string).

#[global] Instance Target_eq_dec : EqDecision Target.
Proof. solve_decision. Defined.

(** The mutable state of the shim; [sh_Seed] is [cfg.Seed], the one field of
    the configuration that changes.
    [src/internal/kubeletshim/kubeletshim.go:118-171, Shim] *)
Record Shim := {
  sh_Seed : seed.Seed; sh_logLines : gmap string (list string);
  sh_installedCRDs : gset string; sh_objectUIDs : gmap string string;
  sh_seededPrev : gmap string Target; sh_seededCur : option (gmap string Target) }.

(** ** A clientset that serves pods only *)

Definition refusing {W O} : Typed W O := {|
  typed := {| Get _ := throw (Errorf "refused"); List_ _ := throw (Errorf "refused");
    Create _ := throw (Errorf "refused"); Update _ := throw (Errorf "refused");
    StatusUpdate _ := throw (Errorf "refused"); Delete _ := throw (Errorf "refused") |};
  DeleteNamed _ _ := throw (Errorf "refused"); DeleteCollection _ := throw (Errorf "refused") |}.

Definition pods_only {W} (pods : Typed W Pod) : Clientset W := {|
  k_nodes := refusing; k_leases := refusing; k_namespaces := refusing;
  k_Finalize _ := throw (Errorf "refused"); k_pods := pods; k_secrets := refusing;
  k_configmaps := refusing; k_services := refusing; k_endpointslices := refusing;
  k_deployments := refusing; k_replicasets := refusing; k_daemonsets := refusing; k_crds := None |}.
