(* ===== verification/Names.v ===== *)
(** * internal/controller/render.go: names, constants and small renderings

    The names the operator gives its objects, the values it derives from a
    Decoy's spec, and the exec-session facade (hostname, namespace, resolv
    configuration). The Unicode lower-case table is a parameter of the
    functions that lower-case. *)

From S2P Require Import Prelude GoStrings KubeTypes ApiTypes.
From Stdlib Require Import Ascii.
#[local] Open Scope string_scope.
#[local] Open Scope list_scope.

(** [src/internal/controller/render.go:23-112, const] *)
Definition labelApp := "app.kubernetes.io/name".
Definition labelInstance := "app.kubernetes.io/instance".
Definition labelManagedBy := "app.kubernetes.io/managed-by".
Definition managedByValue := "honeypod-operator".
Definition innerAPIPort : Z := 8443.
Definition kineListenAddr := "127.0.0.1:2379".
Definition kubeletPort : Z := 10250.
Definition seedFileName := "seed.json".
Definition tokenAuthFileName := "token-auth.csv".
Definition auditPolicyFileName := "audit-policy.yaml".
Definition auditWebhookKubeconfigFileName := "audit-webhook-kubeconfig.yaml".
Definition kcmKubeconfigFileName := "kcm-kubeconfig.yaml".
Definition seedDirPath := "/etc/config".
Definition shimSecretDirPath := "/etc/ssl/app".
Definition shimBinaryPath := "/usr/local/bin/app".
Definition auditLogDir := "/var/log/kubernetes".
Definition auditLogPath := auditLogDir +:+ "/audit.log".
Definition managerNamespace := "honeypod".
Definition managerServiceName := "honeypod-controller-manager".
Definition auditWebhookPort : Z := 9880.
Definition joinAnnotation := "honeypod.io/join".
Definition joinAnnotationImplicit := "true".

(** [src/internal/controller/render.go:114-116, defaultManagerAuditWebhookURL] *)
Definition defaultManagerAuditWebhookURL : string :=
  "http://" +:+ managerServiceName +:+ "." +:+ managerNamespace +:+ ".svc:" +:+ Itoa auditWebhookPort.

(** [src/internal/controller/render.go:118-123, selectorLabels] *)
Definition selectorLabels (name : string) : gmap string string :=
  {[ labelApp := "honeypod"; labelInstance := name ]}.

(** [src/internal/controller/render.go:125-129, commonLabels] *)
Definition commonLabels (name : string) : gmap string string :=
  <[labelManagedBy := managedByValue]> (selectorLabels name).

(** [src/internal/controller/render.go:303-308, seedSystemComponents] *)
Definition seedSystemComponents (kt : Decoy) : bool :=
  match spec_SeedSystemComponents (kt_Spec kt) with None => true | Some b => b end.

(** [src/internal/controller/render.go:411-428, servedNamespace] *)
Definition servedNamespace (kt : Decoy) : string :=
  let from_secrets :=
    match spec_FakeSecrets (kt_Spec kt) with
    | s :: _ => if fs_Namespace s !=? "" then fs_Namespace s else "default"
    | [] => "default"
    end in
  match spec_FakePods (kt_Spec kt) with
  | p :: _ => if fp_Namespace p !=? "" then fp_Namespace p else from_secrets
  | [] => from_secrets
  end.

(** What the loop of [sanitizeDNSLabel] writes for one rune, and [prevDash]. *)
Definition sanitize_step (acc : list ascii * bool) (r : Z) : list ascii * bool :=
  let '(b, prevDash) := acc in
  if between 97 122 r || between 48 57 r then (b ++ [Zbyte r], false)
  else if bool_decide (r ∈ [45; 46; 95]%Z) then
    if prevDash then (b, prevDash) else (b ++ ["-"%char], true)
  else (b, prevDash).

(** [src/internal/controller/render.go:446-473, sanitizeDNSLabel] *)
Definition sanitizeDNSLabel (table : Z -> Z) (s : string) : string :=
  let s := ToLower table s in
  let '(b, _) := foldl sanitize_step ([], false) (fst <$> runes s) in
  let out := Trim (of_chars b) "-" in
  let out := if bool_decide (63 < String.length out)
             then Trim (of_chars (take 63 (chars out))) "-" else out in
  if out ==? "" then "worker" else out.

(** [src/internal/controller/render.go:430-444, decoyHostname] *)
Definition decoyHostname (table : Z -> Z) (kt : Decoy) : string :=
  let from_nodes :=
    match spec_FakeNodes (kt_Spec kt) with
    | n :: _ => if fn_Name n !=? "" then fn_Name n else "worker"
    | [] => "worker"
    end in
  let name :=
    match spec_FakePods (kt_Spec kt) with
    | p :: _ => if fp_Name p !=? "" then fp_Name p else from_nodes
    | [] => from_nodes
    end in
  sanitizeDNSLabel table name.

(** The identities of the inner cluster.
    [src/internal/controller/render.go:556-574, const] *)
Definition decoyUsername := "kubernetes-admin".
Definition decoyUID := "admin".
Definition decoyGroups := "system:masters".
Definition shimUID := "kubelet".
Definition shimGroups := "system:nodes,system:masters".
Definition kcmUsername := "system:kube-controller-manager".
Definition kcmUID := "kube-controller-manager".
Definition kcmGroups := "system:masters".

(** [src/internal/controller/render.go:576-590, shimUsername] *)
Definition shimUsername (kt : Decoy) : string :=
  let node := match spec_FakeNodes (kt_Spec kt) with
              | n :: _ => if fn_Name n !=? "" then fn_Name n else "worker-1"
              | [] => "worker-1"
              end in
  "system:node:" +:+ node.

(** [src/internal/controller/render.go:592-598, renderTokenAuthFile] *)
Definition renderTokenAuthFile (is_print : Z -> bool) (kt : Decoy)
    (decoyToken shimToken kcmToken : string) : string :=
  let line token user uid groups :=
    token +:+ "," +:+ user +:+ "," +:+ uid +:+ "," +:+ Quote is_print groups +:+ nl in
  line decoyToken decoyUsername decoyUID decoyGroups
  +:+ line shimToken (shimUsername kt) shimUID shimGroups
  +:+ line kcmToken kcmUsername kcmUID kcmGroups.

(** [src/internal/controller/render.go:600-611, renderAuditPolicy] *)
Definition renderAuditPolicy (kt : Decoy) : string :=
  let level := if spec_AuditLevel (kt_Spec kt) ==? "" then "RequestResponse"
               else spec_AuditLevel (kt_Spec kt) in
  "apiVersion: audit.k8s.io/v1" +:+ nl +:+ "kind: Policy" +:+ nl +:+ "rules:" +:+ nl
  +:+ "- level: " +:+ level +:+ nl.

(** [src/internal/controller/render.go:708-710, serviceDNSName] *)
Definition serviceDNSName (name namespace : string) : string :=
  name +:+ "." +:+ namespace +:+ ".svc".

(** [src/internal/controller/render.go:712-715, defaultKubernetesVersion] *)
Definition defaultKubernetesVersion := "v1.35.0".

(** [src/internal/controller/render.go:717-724, kubernetesVersion] *)
Definition kubernetesVersion (kt : Decoy) : string :=
  if spec_KubernetesVersion (kt_Spec kt) !=? "" then spec_KubernetesVersion (kt_Spec kt)
  else defaultKubernetesVersion.

(** [src/internal/controller/render.go:726-731, kubeAPIServerImage] *)
Definition kubeAPIServerImage (kt : Decoy) : string :=
  if spec_KubeAPIServerImage (kt_Spec kt) !=? "" then spec_KubeAPIServerImage (kt_Spec kt)
  else "registry.k8s.io/kube-apiserver:" +:+ kubernetesVersion kt.

(** [src/internal/controller/render.go:733-738, kineImage] *)
Definition kineImage (kt : Decoy) : string :=
  if spec_KineImage (kt_Spec kt) !=? "" then spec_KineImage (kt_Spec kt) else "rancher/kine:latest".

(** [src/internal/controller/render.go:740-745, kubeletShimImage] *)
Definition kubeletShimImage (kt : Decoy) : string :=
  if spec_KubeletShimImage (kt_Spec kt) !=? "" then spec_KubeletShimImage (kt_Spec kt)
  else "honeypod/kubelet-shim:latest".

(** [src/internal/controller/render.go:747-752, servicePort] *)
Definition servicePort (kt : Decoy) : Z :=
  if spec_Port (kt_Spec kt) !=? 0%Z then spec_Port (kt_Spec kt) else 6443.

(** [src/internal/controller/render.go:754-764, execProfile] *)
Definition execProfile (kt : Decoy) : string :=
  if bool_decide (spec_ExecProfile (kt_Spec kt) ∈ ["minimal"; "distroless"])
  then spec_ExecProfile (kt_Spec kt) else "shell".

(** [src/internal/controller/render.go:766-782, serviceAccountTokenMountPath] *)
Definition serviceAccountTokenMountPath := "/var/run/secrets/kubernetes.io/serviceaccount/".

(** [src/internal/controller/render.go:784-788, decoyVolumeName] *)
Definition decoyVolumeName := "kube-api-access-decoy".

(** [src/internal/controller/render.go:790-809, decoyDNSConfig] *)
Definition decoyDNSConfig (kt : Decoy) : PodDNSConfig :=
  let ns := servedNamespace kt in
  {| dns_Nameservers := ["10.96.0.10"];
     dns_Searches := [ns +:+ ".svc.cluster.local"; "svc.cluster.local"; "cluster.local"];
     dns_Options := [{| do_Name := "ndots"; do_Value := Some "5" |}] |}.

(** [src/internal/controller/render.go:811-837, decoyServiceAccountVolume] *)
Definition decoyServiceAccountVolume (secretName : string) : Volume :=
  {| v_Name := decoyVolumeName;
     v_Source := ProjectedSource
       [ProjSecret secretName [{| kp_Key := "token"; kp_Path := "token" |};
                               {| kp_Key := "ca.crt"; kp_Path := "ca.crt" |}];
        ProjDownwardAPI [("namespace", "metadata.namespace")]] |}.

(** [src/internal/controller/render.go:1558-1563, const] *)
Definition mirroredSecretLabelDecoyNamespace := "honeypod.io/honeypod-namespace".
Definition mirroredSecretLabelDecoyName := "honeypod.io/honeypod-name".
Definition mirroredSecretLabelRole := "honeypod.io/role".
Definition mirroredSecretRoleValue := "joined-pod-credentials".

(** [src/internal/controller/render.go:1565-1573, decoySecretName] *)
Definition decoySecretName (ktName : string) : string := ktName +:+ "-decoy".

(** [src/internal/controller/render.go:1575-1581, mirroredSecretName] *)
Definition mirroredSecretName (ktName : string) : string := ktName +:+ "-decoy-creds".

(** [src/internal/controller/render.go:1583-1606, buildMirroredSecret] *)
Definition buildMirroredSecret (kt : Decoy) (namespace token caCert : string) : Secret :=
  {| sec_Meta := object_meta (mirroredSecretName (kt_Name kt)) namespace
       {[ mirroredSecretLabelDecoyNamespace := kt_Namespace kt;
          mirroredSecretLabelDecoyName := kt_Name kt;
          mirroredSecretLabelRole := mirroredSecretRoleValue ]};
     sec_Type := "Opaque";
     sec_Data := {[ "token" := token; "ca.crt" := caCert ]} |}.

(** ** Host names are DNS labels *)

Definition label_char (a : ascii) : bool :=
  between 97 122 (byteZ a) || between 48 57 (byteZ a) || bool_decide (a = "-"%char).

(** An RFC 1123 label. *)
Definition dns_label (s : string) : Prop :=
  1 <= String.length s <= 63 /\ Forall (fun a => label_char a = true) (chars s) /\
  head (chars s) <> Some "-"%char /\ last (chars s) <> Some "-"%char.

Lemma sanitize_step_chars acc rs :
  Forall (fun a => label_char a = true) acc.1 ->
  Forall (fun a => label_char a = true) (foldl sanitize_step acc rs).1.
Proof.
  revert acc. induction rs as [|r rs IH]; intros [b p] Hb; simpl; [done|]. apply IH.
  destruct (between 97 122 r || between 48 57 r) eqn:E; simpl.
  - apply Forall_app. split; [done|]. constructor; [|constructor]. unfold label_char.
    rewrite byteZ_Zbyte; [by rewrite E|]. unfold between in E. lia.
  - case_bool_decide; [|done]. destruct p; [done|]. simpl. apply Forall_app. split; [done|].
    by constructor.
Qed.

Lemma TrimRight_l_prefix c l : TrimRight_l c l `prefix_of` l.
Proof.
  unfold TrimRight_l. destruct (drop_while_suffix (in_set c) (reverse l)) as (pre & Hl & _).
  exists (reverse pre). by rewrite <- reverse_app, <- Hl, reverse_involutive.
Qed.

(** What [Trim] leaves: part of the text, with no trimmed byte at the ends. *)
Lemma Trim_spec s c :
  (exists pre post, chars s = pre ++ chars (Trim s c) ++ post) /\
  (forall a, head (chars (Trim s c)) = Some a -> in_set c a = false) /\
  (forall a, last (chars (Trim s c)) = Some a -> in_set c a = false).
Proof.
  unfold Trim. rewrite chars_of_chars.
  destruct (drop_while_suffix (in_set c) (chars s)) as (pre & Hs & _).
  destruct (TrimRight_l_prefix c (TrimLeft_l c (chars s))) as (post & Hp). split_and!.
  - exists pre, post. by rewrite <- Hp.
  - intros a Ha. apply (drop_while_head (in_set c) (chars s)).
    change (head (TrimLeft_l c (chars s)) = Some a). rewrite Hp.
    by destruct (TrimRight_l _ _).
  - intros a. apply TrimRight_l_last.
Qed.

Lemma in_set_dash a : in_set "-" a = false -> a <> "-"%char.
Proof. intros H ->. by vm_compute in H. Qed.

Lemma Trim_label_chars s :
  Forall (fun a => label_char a = true) (chars s) ->
  Forall (fun a => label_char a = true) (chars (Trim s "-")) /\
  String.length (Trim s "-") <= String.length s /\
  head (chars (Trim s "-")) <> Some "-"%char /\ last (chars (Trim s "-")) <> Some "-"%char.
Proof.
  intros Hs. destruct (Trim_spec s "-") as ((pre & post & Heq) & Hh & Hl).
  rewrite Heq in Hs. rewrite !Forall_app in Hs. split_and!.
  - tauto.
  - rewrite <- !length_chars, Heq, !length_app. lia.
  - intros H. by apply Hh, in_set_dash in H.
  - intros H. by apply Hl, in_set_dash in H.
Qed.

(** Whatever a fake pod or node is called, the host name derived from it
    is a valid RFC 1123 label: 1 to 63 bytes, lower-case letters, digits and
    dashes only, no dash at either end, so the decoy's pod is always
    accepted. *)
Theorem sanitizeDNSLabel_valid table s : dns_label (sanitizeDNSLabel table s).
Proof.
  unfold sanitizeDNSLabel.
  pose proof (sanitize_step_chars ([], false) (fst <$> runes (ToLower table s)) (Forall_nil_2 _)) as Hb.
  destruct (foldl sanitize_step _ _) as [b p]. simpl in Hb.
  rewrite <- (chars_of_chars b) in Hb.
  destruct (Trim_label_chars _ Hb) as (Hc & _ & Hh & Hl).
  set (out := Trim (of_chars b) "-") in *.
  set (out2 := if bool_decide (63 < String.length out)
               then Trim (of_chars (take 63 (chars out))) "-" else out).
  assert (H2 : Forall (fun a => label_char a = true) (chars out2) /\ String.length out2 <= 63 /\
               head (chars out2) <> Some "-"%char /\ last (chars out2) <> Some "-"%char).
  { unfold out2. case_bool_decide as Hlen; [|split_and!; [done|lia|done|done]].
    destruct (Trim_label_chars (of_chars (take 63 (chars out)))) as (Hc' & Hn & Hh' & Hl').
    { rewrite chars_of_chars. by apply Forall_take. }
    split_and!; [done| |done|done]. etransitivity; [exact Hn|].
    rewrite <- length_chars, chars_of_chars, length_take. lia. }
  clearbody out2. destruct H2 as (Hc2 & Hn2 & Hh2 & Hl2). case_bool_decide as He.
  - split_and!; [simpl; lia|simpl; lia|by repeat constructor|by vm_compute|by vm_compute].
  - split_and!; [|done..]. destruct out2; [done|simpl; lia].
Qed.
