(* ===== verification/DecoySecret.v ===== *)
(** * internal/controller/decoy_controller.go: the decoy's identity

    The Secret "<name>-decoy" holds everything a decoy is recognised by: its
    CA and serving certificate, the three tokens, the ServiceAccount keys and
    the kubeconfig. [reconcileSecret] creates it once and afterwards only
    repairs it; [reconcileKubeconfig] keeps the kubeconfig current. *)

From S2P Require Import Prelude GoStrings NetIP Base64 KubeTypes ApiTypes Kube Server CtrlUtil Host Certs Names.
#[local] Open Scope string_scope.
#[local] Open Scope list_scope.

(** [secret.Data[k] = v]. *)
Definition sec_set (k v : string) (s : Secret) : Secret :=
  {| sec_Meta := sec_Meta s; sec_Type := sec_Type s; sec_Data := <[k := v]> (sec_Data s) |}.

Lemma sec_get_set k v k' s :
  sec_get (sec_set k v s) k' = if decide (k = k') then v else sec_get s k'.
Proof.
  unfold sec_get, sec_set. simpl. destruct (decide (k = k')) as [->|].
  - by rewrite lookup_insert_eq.
  - by rewrite lookup_insert_ne.
Qed.

Section DecoySecret.
Context {W : Type} `{Host W} `{Crypto W} `{ControllerUtil}.
Context (secrets : Client W Secret).

(** [src/internal/controller/render.go:131-142, generateToken] *)
Definition generateToken : E W string :=
  b ← rand_Read 32;
  mret (base64.RawURLEncoding b).

(** [src/internal/controller/decoy_controller.go:540-565, certCoversIP] *)
Definition certCoversIP (certPEM ip : string) : bool :=
  if (certPEM ==? "") || (ip ==? "") then false
  else match pem_Decode certPEM with
       | None => false
       | Some block =>
           match x509_ParseCertificate block with
           | inl _ => false
           | inr crt =>
               match net.ParseIP ip with
               | None => false
               | Some want => existsb (fun got => got ==? want) (x_IPAddresses crt)
               end
           end
       end.

Definition serving_names (kt : Decoy) (clusterIP : string) : list string :=
  [serviceDNSName (kt_Name kt) (kt_Namespace kt); kt_Name kt; "localhost"; "127.0.0.1"; clusterIP]
  ++ spec_SANs (kt_Spec kt).

(** The CA to sign with: the stored one, or a new one when it has no key. *)
Definition signing_ca (secret : Secret) : E W (string * string) :=
  let caCert := sec_get secret "ca.crt" in
  let caKey := sec_get secret "ca.key" in
  if (caCert ==? "") || (caKey ==? "")
  then wrap_err "regenerating CA to reissue serving cert" (GenerateCA "kubernetes")
  else mret (caCert, caKey).

(** [src/internal/controller/decoy_controller.go:567-596, reissueServingCert] *)
Definition reissueServingCert (kt : Decoy) (secret : Secret) (clusterIP : string) : E W Secret :=
  '(caCert, caKey) ← signing_ca secret;
  '(leafCert, leafKey) ← wrap_err "reissuing serving cert"
    (IssueServerCert caCert caKey (serving_names kt clusterIP));
  wrap_err "saving reissued serving cert"
    (Update secrets (sec_set "tls.key" leafKey (sec_set "tls.crt" leafCert
       (sec_set "ca.key" caKey (sec_set "ca.crt" caCert secret))))).

(** A Secret from before the decoy ran its own controller-manager. *)
Definition backfill_kcm (existing : Secret) : E W Secret :=
  if sec_get existing "kcm.token" ==? "" then
    kcmToken ← generateToken;
    wrap_err "backfilling kcm token" (Update secrets (sec_set "kcm.token" kcmToken existing))
  else mret existing.

(** The first reconcile: a whole new identity. *)
Definition create_secret (kt : Decoy) (name clusterIP : string) : E W Secret :=
  token ← generateToken;
  shimToken ← generateToken;
  kcmToken ← generateToken;
  '(caCert, caKey) ← GenerateCA "kubernetes";
  '(leafCert, leafKey) ← IssueServerCert caCert caKey (serving_names kt clusterIP);
  '(saPub, saKey) ← GenerateServiceAccountSigningKey;
  meta ← lift (SetControllerReference (kt_Meta kt)
                 (object_meta name (kt_Namespace kt) (commonLabels (kt_Name kt))));
  Create secrets
    {| sec_Meta := meta; sec_Type := "Opaque";
       sec_Data := {[ "token" := token; "shim.token" := shimToken; "kcm.token" := kcmToken;
                      "ca.crt" := caCert; "ca.key" := caKey; "tls.crt" := leafCert;
                      "tls.key" := leafKey; "sa.pub" := saPub; "sa.key" := saKey ]} |}.

(** [src/internal/controller/decoy_controller.go:598-708, reconcileSecret] *)
Definition reconcileSecret (kt : Decoy) (name clusterIP : string) : E W Secret :=
  g ← try_ (Get secrets (NN (kt_Namespace kt) name));
  match g with
  | inr existing =>
      existing ← backfill_kcm existing;
      if (clusterIP ==? "") || certCoversIP (sec_get existing "tls.crt") clusterIP
      then mret existing
      else reissueServingCert kt existing clusterIP
  | inl err => if negb (IsNotFound err) then throw err else create_secret kt name clusterIP
  end.

(** ** Facts *)

Context (view : W -> gmap NamespacedName Secret) `{!Serves view secret_body secrets}.
Context `{!CryptoLaws W, !CryptoLeaves view, !ControllerUtilLaws} (now_keeps : keeps view time_Now).

(** Nothing is left to repair in the Secret. *)
Definition settled (clusterIP : string) (s : Secret) : Prop :=
  sec_get s "kcm.token" <> "" /\
  (clusterIP = "" \/ certCoversIP (sec_get s "tls.crt") clusterIP = true).

(** The Secret is stored under the key and is not being deleted. *)
Definition stands (key : NamespacedName) (s : Secret) (w : W) : Prop :=
  view w !! key = Some s /\ om_DeletionTimestamp (sec_Meta s) = None.

Lemma generateToken_inv w t w' : generateToken w = (inr t, w') ->
  String.length t = 43 /\ Forall (fun a => a ∈ base64.url_alphabet) (chars t).
Proof.
  unfold generateToken. intros (b & w1 & Hb & He)%E_bind_inr. injection He as <- <-.
  apply rand_read_length in Hb. rewrite base64.length_RawURLEncoding, Hb. split; [done|].
  apply base64.RawURLEncoding_alphabet.
Qed.

Lemma generateToken_keeps : keeps view generateToken.
Proof. unfold generateToken. keep. Qed.

Lemma issued_covers caCert caKey names ip w cert key w' :
  IssueServerCert caCert caKey names w = (inr (cert, key), w') ->
  ip ∈ names -> is_Some (net.ParseIP ip) -> ip <> "" -> certCoversIP cert ip = true.
Proof.
  intros [(c & k & ca & der & Hc & _ & _ & _ & _ & _ & Hn) Hne]%IssueServerCert_inv Hin [i Hi] Hip.
  specialize (Hn _ Hin). rewrite Hi in Hn. unfold certCoversIP. unfold cert_of in Hc.
  rewrite !bool_decide_eq_false_2 by done. simpl.
  destruct (pem_Decode cert) as [b|]; [|done]. simpl in Hc.
  destruct (x509_ParseCertificate b); [done|]. injection Hc as ->. rewrite Hi.
  apply existsb_exists_dec. eauto.
Qed.

(** An update of a Secret that stands. *)
Lemma update_secret_inv s0 s w s' w' :
  stands (key_of s) s0 w -> Update secrets s w = (inr s', w') ->
  sec_Data s' = sec_Data s /\ key_of s' = key_of s /\ stands (key_of s) s' w'.
Proof using Serves0.
  intros [H0s H0d] Hu. apply (serves_update view _) in Hu as (old & Hold & (Hm & [_ Hd] & Hdel) & _ & Hw).
  rewrite H0s in Hold. injection Hold as <-. simpl in Hdel. rewrite H0d in Hdel.
  split_and!; [done|by apply meta_sent_key in Hm|].
  destruct Hw as [Hw|([? Hx] & _)]; [|simpl in Hx; congruence].
  split; [rewrite Hw; apply lookup_insert_eq|done].
Qed.

Lemma backfill_inv s w s' w' :
  stands (key_of s) s w -> backfill_kcm s w = (inr s', w') ->
  (forall k, k <> "kcm.token" -> sec_get s' k = sec_get s k) /\
  sec_get s' "kcm.token" <> "" /\ (sec_get s "kcm.token" <> "" -> s' = s) /\
  key_of s' = key_of s /\ stands (key_of s) s' w'.
Proof using All.
  intros Hs. unfold backfill_kcm. case_bool_decide as Hk.
  - intros (t & w1 & Ht & He)%E_bind_inr.
    pose proof (generateToken_keeps w) as Hv. rewrite Ht in Hv. simpl in Hv.
    apply generateToken_inv in Ht as [Hlen _].
    apply wrap_err_inr, (update_secret_inv s) in He as (Hd & Hkey & Hp).
    2:{ destruct Hs. split; [by rewrite Hv|done]. }
    assert (Hg : forall k, sec_get s' k = sec_get (sec_set "kcm.token" t s) k).
    { intros k. unfold sec_get. by rewrite Hd. }
    split_and!; [| |done|done|exact Hp].
    + intros k Hne. rewrite Hg, sec_get_set. by rewrite decide_False by done.
    + rewrite Hg, sec_get_set. rewrite decide_True by done. by intros ->.
  - intros [= <- <-]. by split_and!.
Qed.

Lemma signing_ca_inv s w caCert caKey w' :
  signing_ca s w = (inr (caCert, caKey), w') ->
  view w' = view w /\
  (sec_get s "ca.crt" <> "" -> sec_get s "ca.key" <> "" ->
   caCert = sec_get s "ca.crt" /\ caKey = sec_get s "ca.key").
Proof using All.
  unfold signing_ca. repeat case_bool_decide; simpl; try (intros [= <- <- <-]; done);
    intros Hg%wrap_err_inr; (split; [|done]);
    pose proof (GenerateCA_keeps view now_keeps "kubernetes" w) as Hk; by rewrite Hg in Hk.
Qed.

Definition cert_keys : list string := ["ca.crt"; "ca.key"; "tls.crt"; "tls.key"].

Lemma kcm_not_cert : "kcm.token" ∉ cert_keys.
Proof. unfold cert_keys. elem_lit. Qed.

Lemma reissue_inv kt s ip w s' w' :
  stands (key_of s) s w -> reissueServingCert kt s ip w = (inr s', w') ->
  (forall k, k ∉ cert_keys -> sec_get s' k = sec_get s k) /\
  (sec_get s "ca.crt" <> "" -> sec_get s "ca.key" <> "" ->
   sec_get s' "ca.crt" = sec_get s "ca.crt" /\ sec_get s' "ca.key" = sec_get s "ca.key") /\
  (ip <> "" -> is_Some (net.ParseIP ip) -> certCoversIP (sec_get s' "tls.crt") ip = true) /\
  key_of s' = key_of s /\ stands (key_of s) s' w'.
Proof using All.
  intros Hs. unfold reissueServingCert. intros ([ca key] & w1 & Hca & He)%E_bind_inr.
  apply signing_ca_inv in Hca as [Hv1 Hsame].
  apply E_bind_inr in He as ([leaf lkey] & w2 & Hi%wrap_err_inr & He).
  pose proof (IssueServerCert_keeps view now_keeps ca key (serving_names kt ip) w1) as Hv2.
  rewrite Hi in Hv2. simpl in Hv2. apply wrap_err_inr, (update_secret_inv s) in He as (Hd & Hkey & Hp).
  2:{ destruct Hs. split; [by rewrite Hv2, Hv1|done]. }
  set (s1 := sec_set "tls.key" lkey _) in *.
  assert (Hg : forall k, sec_get s' k = sec_get s1 k). { intros k. unfold sec_get. by rewrite Hd. }
  unfold s1 in Hg. split_and!.
  - intros k Hk. rewrite Hg, !sec_get_set. unfold cert_keys in Hk.
    rewrite !not_elem_of_cons in Hk. destruct Hk as (? & ? & ? & ? & _).
    by rewrite !decide_False by congruence.
  - intros H1' H2'. destruct (Hsame H1' H2') as [-> ->]. by rewrite !Hg, !sec_get_set.
  - intros Hne Hip. rewrite Hg, !sec_get_set. simpl.
    eapply issued_covers; [exact Hi| |done|done]. unfold serving_names.
    apply elem_of_app. left. do 4 right. apply list_elem_of_here.
  - exact Hkey.
  - exact Hp.
Qed.

Lemma create_secret_inv kt name ip w s' w' :
  create_secret kt name ip w = (inr s', w') ->
  sec_get s' "kcm.token" <> "" /\
  (ip <> "" -> is_Some (net.ParseIP ip) -> certCoversIP (sec_get s' "tls.crt") ip = true) /\
  view w' !! NN (kt_Namespace kt) name = Some s'.
Proof using All.
  unfold create_secret. intros (t1 & w1 & _ & He)%E_bind_inr.
  apply E_bind_inr in He as (t2 & w2 & _ & He). apply E_bind_inr in He as (t3 & w3 & Ht & He).
  apply E_bind_inr in He as ([ca key] & w4 & _ & He).
  apply E_bind_inr in He as ([leaf lkey] & w5 & Hi & He).
  apply E_bind_inr in He as ([pub priv] & w6 & _ & He).
  apply E_bind_inr in He as (m & w7 & Hm & He). injection Hm as Hm <-.
  apply set_controller in Hm as [Hm _].
  apply (serves_create view _) in He as (_ & (_ & [_ Hd] & _) & Hw).
  assert (Hkey : om_key m = NN (kt_Namespace kt) name) by (by rewrite Hm).
  unfold sec_get. rewrite Hd, Hw. split_and!.
  - apply generateToken_inv in Ht as [Hlen _]. intros Heq.
    change (t3 = "") in Heq. by subst t3.
  - intros Hne Hip. change (certCoversIP leaf ip = true).
    eapply issued_covers; [exact Hi| |done|done]. unfold serving_names.
    apply elem_of_app. left. do 4 right. apply list_elem_of_here.
  - unfold key_of. simpl. rewrite Hkey. apply lookup_insert_eq.
Qed.

(** An existing Secret: what was read, and what each repair did to it. *)
Lemma reconcileSecret_existing kt name ip w s s' w' :
  view w !! NN (kt_Namespace kt) name = Some s ->
  reconcileSecret kt name ip w = (inr s', w') ->
  exists w1 s1 w2, view w1 = view w /\ key_of s = NN (kt_Namespace kt) name /\
    backfill_kcm s w1 = (inr s1, w2) /\
    (if (ip ==? "") || certCoversIP (sec_get s1 "tls.crt") ip then s1 = s' /\ w2 = w'
     else reissueServingCert kt s1 ip w2 = (inr s', w')).
Proof using All.
  intros Hs. unfold reconcileSecret. intros (g & w1 & Hg%try_inr & He)%E_bind_inr.
  apply (serves_get view _) in Hg as [Hv Hg]. destruct g as [err|ex].
  - destruct (IsNotFound err); [|done]. rewrite Hg in Hs by done. done.
  - rewrite Hs in Hg. injection Hg as <-. apply E_bind_inr in He as (s1 & w2 & Hb & He).
    exists w1, s1, w2. apply (serves_key view _) in Hs as Hkey. split_and!; [done..|].
    destruct (_ || _); [by injection He as -> ->|done].
Qed.

(** C16: a decoy's identity is stable. When the Secret exists and is not
    being deleted, a reconcile that succeeds leaves the decoy and shim tokens, the ServiceAccount keys
    and every other entry as they are; it fills in the controller-manager's
    token only when there is none, keeps the CA whenever both its halves are
    stored, and touches the certificate entries at all only when the serving
    certificate does not cover the Service's address. What it returns is what
    is stored. *)
Theorem reconcileSecret_identity kt name ip w s s' w' :
  stands (NN (kt_Namespace kt) name) s w ->
  reconcileSecret kt name ip w = (inr s', w') ->
  (forall k, k ∉ "kcm.token" :: cert_keys -> sec_get s' k = sec_get s k) /\
  (sec_get s "kcm.token" <> "" -> sec_get s' "kcm.token" = sec_get s "kcm.token") /\
  (sec_get s "ca.crt" <> "" -> sec_get s "ca.key" <> "" ->
   sec_get s' "ca.crt" = sec_get s "ca.crt" /\ sec_get s' "ca.key" = sec_get s "ca.key") /\
  ((ip = "" \/ certCoversIP (sec_get s "tls.crt") ip = true) ->
   forall k, k ∈ cert_keys -> sec_get s' k = sec_get s k) /\
  stands (NN (kt_Namespace kt) name) s' w'.
Proof using All.
  intros Hs Hr.
  destruct (reconcileSecret_existing _ _ _ _ _ _ _ (proj1 Hs) Hr) as (w1 & s1 & w2 & Hv & Hkey & Hb & He).
  apply backfill_inv in Hb as (Hk1 & Hn1 & Hsame1 & Hkey1 & Hp1).
  2:{ destruct Hs. split; [by rewrite Hv, Hkey|done]. }
  rewrite Hkey in Hp1, Hkey1. rewrite (Hk1 "tls.crt") in He by done.
  destruct ((ip ==? "") || certCoversIP (sec_get s "tls.crt") ip) eqn:Hc.
  - destruct He as [<- <-]. split_and!; [..|exact Hp1].
    + intros k Hk. apply Hk1. by apply not_elem_of_cons in Hk as [? _].
    + intros Hne. by rewrite Hsame1.
    + intros _ _. by rewrite !Hk1.
    + intros _ k Hk. apply Hk1. unfold cert_keys in Hk. by elem_cases Hk.
  - apply reissue_inv in He as (Hk2 & Hca2 & _ & _ & Hp2); [|by rewrite Hkey1].
    rewrite Hkey1 in Hp2. split_and!; [..|exact Hp2].
    + intros k [Hne Hk]%not_elem_of_cons. by rewrite Hk2, Hk1.
    + intros Hne. rewrite (Hk2 _ kcm_not_cert). by rewrite Hsame1.
    + rewrite !Hk1 in Hca2 by done. exact Hca2.
    + intros Hor. apply orb_false_iff in Hc as [Hc1 Hc2]. apply bool_decide_eq_false in Hc1.
      destruct Hor; congruence.
Qed.

(** C17: repairing the identity settles. After one successful reconcile of the
    Secret, which was not being deleted if it existed, for a Service with an
    address or with none yet, and as long as no Secret was changed in between,
    a second one does nothing but read: it returns the stored Secret without issuing or writing
    anything, so the Secret's own watch does not wake the controller for
    ever. *)
Theorem reconcileSecret_settles kt name ip w s' w' w2 s2 w3 :
  (forall s, view w !! NN (kt_Namespace kt) name = Some s -> om_DeletionTimestamp (sec_Meta s) = None) ->
  ip = "" \/ is_Some (net.ParseIP ip) ->
  reconcileSecret kt name ip w = (inr s', w') ->
  view w2 = view w' -> Get secrets (NN (kt_Namespace kt) name) w2 = (inr s2, w3) ->
  s2 = s' /\ reconcileSecret kt name ip w2 = (inr s', w3).
Proof using All.
  intros Hdel Hip Hr Hw2 Hget.
  assert (Hst : view w' !! NN (kt_Namespace kt) name = Some s' /\ settled ip s').
  { destruct (view w !! NN (kt_Namespace kt) name) as [s|] eqn:Hs.
    - destruct (reconcileSecret_existing _ _ _ _ _ _ _ Hs Hr) as (w1 & s1 & w4 & Hv & Hkey & Hb & He).
      apply backfill_inv in Hb as (Hk1 & Hn1 & _ & Hkey1 & Hp1).
      2:{ split; [by rewrite Hv, Hkey|by apply Hdel]. }
      rewrite Hkey in Hp1, Hkey1. destruct (_ || _) eqn:Hc.
      + destruct He as [<- <-]. split; [by destruct Hp1|]. split; [done|].
        apply orb_true_iff in Hc as [Hc|Hc]; [left; by apply bool_decide_eq_true in Hc|by right].
      + apply reissue_inv in He as (Hk2 & _ & Hcov & _ & Hp2); [|by rewrite Hkey1].
        rewrite Hkey1 in Hp2. split; [by destruct Hp2|]. apply orb_false_iff in Hc as [Hc _].
        apply bool_decide_eq_false in Hc. split; [|right].
        * rewrite (Hk2 _ kcm_not_cert). done.
        * destruct Hip; [done|]. by apply Hcov.
    - unfold reconcileSecret in Hr. apply E_bind_inr in Hr as (g & w1 & Hg%try_inr & He).
      apply (serves_get view _) in Hg as [_ Hg]. destruct g as [err|ex]; [|congruence].
      destruct (IsNotFound err); [|done].
      apply create_secret_inv in He as (Hkcm & Hcov & Hw). split; [done|]. split; [done|].
      destruct (decide (ip = "")); [by left|]. right. destruct Hip; [done|]. by apply Hcov. }
  destruct Hst as [Hst [Hkcm Hcov]]. pose proof Hget as Hget'.
  apply (serves_get view _) in Hget as [_ Hget]. rewrite Hw2, Hst in Hget. injection Hget as <-.
  split; [done|]. unfold reconcileSecret, mbind, E_bind, try_. rewrite Hget'.
  unfold backfill_kcm. rewrite bool_decide_eq_false_2 by done. simpl.
  destruct Hcov as [->|Hcov]; [by rewrite bool_decide_eq_true_2|]. by rewrite Hcov, orb_true_r.
Qed.

(** A headless Service defeats that. Its ClusterIP is the text None, not
    the empty text the guard tests for: no certificate covers it, so every
    successful reconcile of an existing Secret issues a new certificate and
    writes the Secret again. *)
Theorem reconcileSecret_headless_rewrites kt name w s s' w' :
  view w !! NN (kt_Namespace kt) name = Some s ->
  reconcileSecret kt name "None" w = (inr s', w') ->
  exists s1 w2 cert key, replaced view secret_body s1 s' w2 w' /\
    sec_get s1 "tls.crt" = cert /\ sec_get s1 "tls.key" = key /\
    exists caCert caKey w3 w4, IssueServerCert caCert caKey (serving_names kt "None") w3 = (inr (cert, key), w4).
Proof using All.
  intros Hs Hr. destruct (reconcileSecret_existing _ _ _ _ _ _ _ Hs Hr) as (w1 & s1 & w2 & _ & _ & _ & He).
  assert (Hno : certCoversIP (sec_get s1 "tls.crt") "None" = false).
  { unfold certCoversIP. assert (Hp : net.ParseIP "None" = None) by reflexivity. rewrite Hp.
    by repeat case_match. }
  rewrite Hno in He. simpl in He. unfold reissueServingCert in He.
  apply E_bind_inr in He as ([ca key] & w3 & _ & He).
  apply E_bind_inr in He as ([leaf lkey] & w4 & Hi%wrap_err_inr & He%wrap_err_inr).
  apply (serves_update view _) in He. eexists _, w4, leaf, lkey. split; [exact He|].
  rewrite !sec_get_set. simpl. split_and!; [done|done|]. eauto.
Qed.
End DecoySecret.
