(* ===== verification/Mirrors.v ===== *)
(** * internal/controller/decoy_controller.go: mirrored credentials

    A pod that joins a decoy from another namespace mounts a copy of the
    decoy's credentials there, a mirror. Owner references cannot cross
    namespaces, so the operator cleans mirrors up itself, guarded by a
    finalizer on the Decoy. *)

From S2P Require Import Prelude GoStrings KubeTypes ApiTypes Kube Server CtrlUtil Apply Names.
#[local] Open Scope string_scope.
#[local] Open Scope list_scope.

(** [src/internal/controller/decoy_controller.go:41-43, mirroredSecretsFinalizer] *)
Definition mirroredSecretsFinalizer := "honeypod.io/mirrored-secrets".

(** [src/internal/controller/decoy_controller.go:64-74, isNamespaceTerminating] *)
Definition isNamespaceTerminating (err : error) : bool :=
  if HasStatusCause err "NamespaceTerminating" then true
  else IsForbidden err && Contains (e_Message err) "being terminated".

(** [src/internal/controller/decoy_controller.go:76-86, needsMirroredSecrets] *)
Definition needsMirroredSecrets (decoyNamespace : string) (joined : list Pod) : bool :=
  existsb (fun p => p_Namespace p !=? decoyNamespace) joined.

(** The listing of a decoy's mirrors. *)
Definition mirror_selector (kt : Decoy) : ListOptions :=
  {| lo_Namespace := None;
     lo_Labels := {[ mirroredSecretLabelDecoyNamespace := kt_Namespace kt;
                     mirroredSecretLabelDecoyName := kt_Name kt ]} |}.

Definition kt_with_finalizers (kt : Decoy) (l : list string) : Decoy :=
  with_meta kt (om_with_finalizers (kt_Meta kt) l).

(** The closure that overwrites the data. *)
Definition mutate_secret (live desired : Secret) : Secret :=
  {| sec_Meta := sec_Meta live; sec_Type := sec_Type live; sec_Data := sec_Data desired |}.

Section Mirrors.
Context {W : Type} `{RetryOnConflict} `{ControllerUtil}.
Context (secrets : Client W Secret) (decoys : Client W Decoy).

(** [if err := r.Delete(ctx, s); err != nil && !IsNotFound(err) { return ... }]. *)
Definition delete_mirror (prefix : string) (s : Secret) : E W unit :=
  r ← try_ (Delete secrets s);
  match r with
  | inr _ => mret tt
  | inl err =>
      if IsNotFound err then mret tt
      else throw (wrapf (prefix +:+ om_Namespace (sec_Meta s) +:+ "/" +:+ om_Name (sec_Meta s)) err)
  end.

(** [src/internal/controller/decoy_controller.go:45-62, deleteMirroredSecrets] *)
Definition deleteMirroredSecrets (kt : Decoy) : E W unit :=
  all ← wrap_err "listing mirrored credentials secrets" (List_ secrets (mirror_selector kt));
  for_each (delete_mirror "deleting mirrored credentials secret ") all.

(** The object in memory is the updated one afterwards.
    [src/internal/controller/decoy_controller.go:88-108, setMirroredSecretsFinalizer] *)
Definition setMirroredSecretsFinalizer (kt : Decoy) (want : bool) : E W Decoy :=
  let '(fs, changed) := if want then AddFinalizer mirroredSecretsFinalizer (om_Finalizers (kt_Meta kt))
                        else RemoveFinalizer mirroredSecretsFinalizer (om_Finalizers (kt_Meta kt)) in
  if negb changed then mret kt else Update decoys (kt_with_finalizers kt fs).

(** The namespaces of the joined pods other than the decoy's own. *)
Definition needed (kt : Decoy) (joined : list Pod) : gset string :=
  list_to_set (p_Namespace <$> filterb (fun p => p_Namespace p !=? kt_Namespace kt) joined).

(** The loop body over [needed]. *)
Definition apply_mirror (kt : Decoy) (secret : Secret) (ns : string) : E W unit :=
  let desired := buildMirroredSecret kt ns (sec_get secret "token") (sec_get secret "ca.crt") in
  r ← try_ (applyResource secrets mutate_secret desired);
  match r with
  | inr _ => mret tt
  | inl err =>
      if isNamespaceTerminating err then mret tt
      else throw (wrapf ("reconciling mirrored credentials secret in " +:+ ns) err)
  end.

(** [range_ns] is the order in which the runtime ranges over [needed].
    [src/internal/controller/decoy_controller.go:462-517, reconcileMirroredSecrets] *)
Definition reconcileMirroredSecrets (range_ns : gset string -> list string) (kt : Decoy)
    (secret : Secret) (joined : list Pod) : E W unit :=
  let needed := needed kt joined in
  _ ← for_each (apply_mirror kt secret) (range_ns needed);
  all ← wrap_err "listing mirrored credentials secrets" (List_ secrets (mirror_selector kt));
  for_each (fun s => if bool_decide (om_Namespace (sec_Meta s) ∈ needed) then mret tt
                     else delete_mirror "deleting stale mirrored credentials secret " s) all.

(** ** Facts *)

Context `{!RetryLaws, !ControllerUtilLaws}.
Context (sview : W -> gmap NamespacedName Secret) `{!Serves sview secret_body secrets}.
Context (dview : W -> gmap NamespacedName Decoy) `{!Serves dview decoy_body decoys}.
Context `{!Leaves secrets dview, !Leaves decoys sview}.

(** [s] is a mirror of the decoy [k], and not already being deleted. *)
Definition mirror_of (k : NamespacedName) (s : Secret) : Prop :=
  om_Labels (sec_Meta s) !! mirroredSecretLabelDecoyNamespace = Some (nn_Namespace k) /\
  om_Labels (sec_Meta s) !! mirroredSecretLabelDecoyName = Some (nn_Name k) /\
  om_DeletionTimestamp (sec_Meta s) = None.

(** The decoy is stored with its finalizer. *)
Definition guard (k : NamespacedName) (m : gmap NamespacedName Decoy) : Prop :=
  exists d, m !! k = Some d /\ mirroredSecretsFinalizer ∈ om_Finalizers (kt_Meta d).

Definition no_mirror (k : NamespacedName) (m : gmap NamespacedName Secret) : Prop :=
  forall key s, m !! key = Some s -> ~ mirror_of k s.

(** No mirror without its guard: whoever deletes a decoy that has a mirror
    finds the finalizer on it. *)
Definition guarded_in (ms : gmap NamespacedName Secret) (md : gmap NamespacedName Decoy) : Prop :=
  forall k key s, ms !! key = Some s -> mirror_of k s -> guard k md.

Definition guarded (w : W) : Prop := guarded_in (sview w) (dview w).

Lemma mirror_selector_match kt m :
  list_match (mirror_selector kt) m <->
  om_Labels m !! mirroredSecretLabelDecoyNamespace = Some (kt_Namespace kt) /\
  om_Labels m !! mirroredSecretLabelDecoyName = Some (kt_Name kt).
Proof.
  unfold list_match, mirror_selector. simpl. split.
  - intros [_ Hs]. split; (eapply lookup_weaken; [|exact Hs]);
      [apply lookup_insert_eq|rewrite lookup_insert_ne by done; apply lookup_singleton_eq].
  - intros [Hns Hn]. split; [done|]. apply insert_subseteq_l; [done|].
    by apply map_singleton_subseteq_l.
Qed.

(** ** Deleting *)

Lemma deleted_frame k0 w w' key : deleted sview k0 w w' -> key <> k0 -> sview w' !! key = sview w !! key.
Proof.
  intros [->|(o & o' & _ & -> & _)] Hne; [by rewrite lookup_delete_ne|by rewrite lookup_insert_ne].
Qed.

Lemma deleted_gone k0 w w' k s : deleted sview k0 w w' -> sview w' !! k0 = Some s -> ~ mirror_of k s.
Proof.
  intros [->|(o & o' & _ & -> & [t Ht] & _)]; [by rewrite lookup_delete_eq|].
  rewrite lookup_insert_eq. intros [= <-] (_ & _ & Hn). simpl in Ht. congruence.
Qed.

(** One deletion: [true] in the result position of the last clause means it
    was carried out. *)
Lemma delete_mirror_run prefix s w r w' :
  delete_mirror prefix s w = (r, w') ->
  dview w' = dview w /\
  (forall key, key <> key_of s -> sview w' !! key = sview w !! key) /\
  (forall k s', sview w' !! key_of s = Some s' -> mirror_of k s' ->
     sview w !! key_of s = Some s' /\ r <> inr tt).
Proof using All.
  unfold delete_mirror, mbind, E_bind, try_.
  pose proof (leaves_delete (c := secrets) (view := dview) s w) as Hk.
  destruct (Delete secrets s w) as [d w1] eqn:E. apply (serves_delete sview _) in E. simpl in Hk.
  intros Hr. assert (w' = w1) as ->.
  { destruct d as [e|u]; [destruct (IsNotFound e)|]; by injection Hr. }
  split; [done|]. destruct d as [e|u].
  - destruct E as [E Hnf]. split.
    + intros key Hne. destruct E as [->|E]; [done|]. by eapply deleted_frame.
    + intros k s' Hs' Hm. destruct E as [E|E]; [|by destruct (deleted_gone _ _ _ k _ E Hs')].
      split; [by rewrite <- E|]. intros ->. destruct (IsNotFound e) eqn:Hx; [|done].
      rewrite Hnf in Hs'; done.
  - split; [intros key Hne; by eapply deleted_frame|].
    intros k s' Hs' Hm. by destruct (deleted_gone _ _ _ k _ E Hs').
Qed.

(** Deleting a list of Secrets only takes mirrors away, and when it succeeds
    all of them are gone. *)
Lemma delete_mirrors_run prefix l w r w' :
  for_each (delete_mirror prefix) l w = (r, w') ->
  dview w' = dview w /\
  (forall key, key ∉ key_of <$> l -> sview w' !! key = sview w !! key) /\
  (forall k key s', sview w' !! key = Some s' -> mirror_of k s' ->
     sview w !! key = Some s' /\ (r = inr tt -> key ∉ key_of <$> l)).
Proof using All.
  revert w. induction l as [|s l IH]; intros w; simpl.
  { intros [= <- <-]. split_and!; [done|done|]. intros. split; [done|]. intros _. apply not_elem_of_nil. }
  unfold mbind, E_bind. destruct (delete_mirror prefix s w) as [d w1] eqn:E.
  apply delete_mirror_run in E as (Hd1 & Hf1 & Hm1). intros Hr.
  assert (Hstep : dview w' = dview w1 /\
    (forall key, key ∉ key_of <$> l -> sview w' !! key = sview w1 !! key) /\
    (forall k key s', sview w' !! key = Some s' -> mirror_of k s' ->
       sview w1 !! key = Some s' /\ (r = inr tt -> d = inr tt /\ key ∉ key_of <$> l))).
  { destruct d as [e|[]]; [|destruct (IH _ Hr) as (? & ? & Hm2); split_and!; [done|done|]; intros;
      edestruct Hm2; naive_solver].
    injection Hr as <- <-. split_and!; naive_solver. }
  destruct Hstep as (Hd2 & Hf2 & Hm2). split_and!; [congruence| |].
  - intros key [Hne Hk]%not_elem_of_cons. rewrite Hf2, Hf1; done.
  - intros k key s' Hs' Hm. destruct (Hm2 _ _ _ Hs' Hm) as [Hs1 Hok].
    destruct (decide (key = key_of s)) as [->|Hne].
    + destruct (Hm1 _ _ Hs1 Hm) as [Hs0 Hno]. split; [done|]. intros Hr'. by destruct (Hok Hr').
    + split; [by rewrite <- Hf1|]. intros Hr'. destruct (Hok Hr') as [_ Hk].
      apply not_elem_of_cons. done.
Qed.

(** ** Applying *)

Definition mirror_key (kt : Decoy) (ns : string) : NamespacedName :=
  NN ns (mirroredSecretName (kt_Name kt)).

(** [s] is a mirror of [kt] with exactly the two entries a joined pod needs. *)
Definition mirrors (kt : Decoy) (secret s : Secret) : Prop :=
  om_Labels (sec_Meta s) !! mirroredSecretLabelDecoyNamespace = Some (kt_Namespace kt) /\
  om_Labels (sec_Meta s) !! mirroredSecretLabelDecoyName = Some (kt_Name kt) /\
  sec_Data s = {[ "token" := sec_get secret "token"; "ca.crt" := sec_get secret "ca.crt" ]}.

Definition under_deletion (m : gmap NamespacedName Secret) (key : NamespacedName) : Prop :=
  exists s, m !! key = Some s /\ is_Some (om_DeletionTimestamp (sec_Meta s)).

(** From [m0], the Secret at [key] may have become a mirror, or, if it was
    being deleted, may have gone. *)
Definition mirrored_at (kt : Decoy) (secret : Secret) (key : NamespacedName)
    (m0 m : gmap NamespacedName Secret) : Prop :=
  m !! key = m0 !! key \/ (exists s, m !! key = Some s /\ mirrors kt secret s) \/
  (m !! key = None /\ under_deletion m0 key).

Lemma mirrors_labels kt secret ns :
  let d := buildMirroredSecret kt ns (sec_get secret "token") (sec_get secret "ca.crt") in
  om_Labels (sec_Meta d) !! mirroredSecretLabelDecoyNamespace = Some (kt_Namespace kt) /\
  om_Labels (sec_Meta d) !! mirroredSecretLabelDecoyName = Some (kt_Name kt).
Proof. by split. Qed.

(** A Secret stored by [applyResource] for the mirror is one. *)
Lemma overlay_mirrors kt secret ns live o' :
  let d := buildMirroredSecret kt ns (sec_get secret "token") (sec_get secret "ca.crt") in
  stored secret_body (Some live) (overlay mutate_secret live d) o' -> mirrors kt secret o'.
Proof.
  intros d Hst. pose proof (overlay_stored mutate_secret secret_body (fun _ _ => eq_refl) live d o' Hst) as (Hl & _).
  destruct Hst as (_ & [_ Hdata] & _). simpl in Hl. unfold mirrors. rewrite Hl.
  rewrite !lookup_mergedLabels. destruct (mirrors_labels kt secret ns) as [Hn1 Hn2]. fold d in Hn1, Hn2.
  simpl. simpl in Hn1, Hn2. rewrite Hn1, Hn2. by split_and!.
Qed.

Definition apply_mirror_inv (kt : Decoy) (secret : Secret) (K : NamespacedName)
    (m0 m : gmap NamespacedName Secret) : Prop :=
  (forall key, key <> K -> m !! key = m0 !! key) /\ mirrored_at kt secret K m0 m /\
  (forall s, m !! K = Some s -> is_Some (om_DeletionTimestamp (sec_Meta s)) -> under_deletion m0 K).

Lemma apply_mirror_triple kt secret ns m0 :
  let d := buildMirroredSecret kt ns (sec_get secret "token") (sec_get secret "ca.crt") in
  let K := mirror_key kt ns in
  triple (fun w => apply_mirror_inv kt secret K m0 (sview w)) (applyResource secrets mutate_secret d)
    (fun _ w => apply_mirror_inv kt secret K m0 (sview w) /\
       ((exists s, sview w !! K = Some s /\ mirrors kt secret s) \/ under_deletion m0 K))
    (fun w => apply_mirror_inv kt secret K m0 (sview w)).
Proof using All.
  intros d K. apply (triple_applyResource secrets mutate_secret sview secret_body d
    (apply_mirror_inv kt secret K m0)
    (fun _ m => (exists s, m !! K = Some s /\ mirrors kt secret s) \/ under_deletion m0 K)).
  - intros w o' w' (Hf & Hat & Hdel) (Hnone & (Hm & [_ Hdata] & Hd0) & Hw).
    change (key_of d) with K in *. assert (Ho : mirrors kt secret o').
    { destruct Hm as (_ & _ & Hl & _). unfold mirrors. simpl in Hl. rewrite Hl. by split_and!. }
    assert (Hin : sview w' !! K = Some o') by (rewrite Hw; apply lookup_insert_eq).
    split; [|left; eauto]. split_and!.
    + intros key Hne. rewrite Hw, lookup_insert_ne by done. by apply Hf.
    + right. left. eauto.
    + intros s. rewrite Hin. intros [= <-] [t Ht]. simpl in Hd0, Ht. congruence.
  - intros w live o' w' (Hf & Hat & Hdel) Hlive (old & Hold & Hst & _ & Hw).
    assert (HK : key_of (overlay mutate_secret live d) = K).
    { change (key_of (overlay mutate_secret live d)) with (key_of live).
      by apply (serves_key sview _) in Hlive. }
    change (key_of d) with K in Hlive. rewrite HK in *. rewrite Hlive in Hold. injection Hold as <-.
    pose proof (overlay_mirrors kt secret ns live o' Hst) as Ho.
    assert (Hd0 : om_DeletionTimestamp (sec_Meta o') = om_DeletionTimestamp (sec_Meta live)) by apply Hst.
    destruct Hw as [Hw|(Hdt & _ & Hw)].
    + assert (Hin : sview w' !! K = Some o') by (rewrite Hw; apply lookup_insert_eq).
      split; [|left; eauto]. split_and!.
      * intros key Hne. rewrite Hw, lookup_insert_ne by done. by apply Hf.
      * right. left. eauto.
      * intros s. rewrite Hin. intros [= <-]. rewrite Hd0. by apply Hdel.
    + specialize (Hdel _ Hlive Hdt). split; [|by right]. split_and!.
      * intros key Hne. rewrite Hw, lookup_delete_ne by done. by apply Hf.
      * right. right. by rewrite Hw, lookup_delete_eq.
      * intros s. rewrite Hw, lookup_delete_eq. done.
Qed.

(** The mirror of [ns] was refused because its namespace is going away. *)
Definition terminating (kt : Decoy) (secret : Secret) (ns : string) (w w' : W) : Prop :=
  exists e, applyResource secrets mutate_secret
      (buildMirroredSecret kt ns (sec_get secret "token") (sec_get secret "ca.crt")) w = (inl e, w') /\
    isNamespaceTerminating e = true.

(** In the loop over [l] from [w] to [w']: the attempt at [ns], made in the
    world the loop had reached by then, was answered so. *)
Definition refused (kt : Decoy) (secret : Secret) (l : list string) (ns : string) (w w' : W) : Prop :=
  exists l1 l2 w1 w2, l = l1 ++ ns :: l2 /\
    for_each (apply_mirror kt secret) l1 w = (inr tt, w1) /\
    terminating kt secret ns w1 w2 /\
    for_each (apply_mirror kt secret) l2 w2 = (inr tt, w').

Lemma refused_cons kt secret ns0 l ns w w1 w' :
  apply_mirror kt secret ns0 w = (inr tt, w1) ->
  refused kt secret l ns w1 w' -> refused kt secret (ns0 :: l) ns w w'.
Proof.
  intros Ha (l1 & l2 & w2 & w3 & -> & Hl1 & Ht & Hl2). exists (ns0 :: l1), l2, w2, w3.
  split_and!; [done| |done|done]. simpl. unfold mbind, E_bind. by rewrite Ha.
Qed.

Lemma apply_mirror_run kt secret ns w r w' :
  apply_mirror kt secret ns w = (r, w') ->
  dview w' = dview w /\ apply_mirror_inv kt secret (mirror_key kt ns) (sview w) (sview w') /\
  (r = inr tt -> (exists s, sview w' !! mirror_key kt ns = Some s /\ mirrors kt secret s) \/
                 under_deletion (sview w) (mirror_key kt ns) \/ terminating kt secret ns w w').
Proof using All.
  unfold apply_mirror, mbind, E_bind, try_. set (d := buildMirroredSecret _ _ _ _).
  assert (Hk : keeps dview (applyResource secrets mutate_secret d)) by (unfold applyResource; keep).
  specialize (Hk w). pose proof (apply_mirror_triple kt secret ns (sview w) w) as Ht.
  fold d in Ht. destruct (applyResource secrets mutate_secret d w) as [a w1] eqn:E. simpl in Hk.
  intros Hr. assert (w' = w1) as ->.
  { destruct a as [e|u]; [destruct (isNamespaceTerminating e)|]; by injection Hr. }
  assert (Hinit : apply_mirror_inv kt secret (mirror_key kt ns) (sview w) (sview w)).
  { split_and!; [done|by left|]. intros s Hs Hdel. by exists s. }
  specialize (Ht Hinit). split; [done|]. destruct a as [e|o].
  - split; [done|]. intros ->. right. right. exists e. split; [exact E|].
    by destruct (isNamespaceTerminating e).
  - destruct Ht as [Hinv Hpost]. split; [done|]. intros _. tauto.
Qed.

(** The loop over the namespaces. *)
Lemma apply_mirrors_run kt secret l w r w' :
  NoDup l -> for_each (apply_mirror kt secret) l w = (r, w') ->
  dview w' = dview w /\
  (forall key, (forall ns, ns ∈ l -> key <> mirror_key kt ns) -> sview w' !! key = sview w !! key) /\
  (forall ns, ns ∈ l -> mirrored_at kt secret (mirror_key kt ns) (sview w) (sview w')) /\
  (r = inr tt -> forall ns, ns ∈ l ->
     (exists s, sview w' !! mirror_key kt ns = Some s /\ mirrors kt secret s) \/
     under_deletion (sview w) (mirror_key kt ns) \/ refused kt secret l ns w w').
Proof using All.
  intros Hnd. revert w. induction Hnd as [|ns l Hns Hnd IH]; intros w; simpl.
  { intros [= <- <-]. split_and!; [done|done|..]; [|intros _]; intros ns Hx; by apply not_elem_of_nil in Hx. }
  unfold mbind, E_bind. destruct (apply_mirror kt secret ns w) as [a w1] eqn:E.
  pose proof E as E0. apply apply_mirror_run in E as (Hd & (Hf & Hat & _) & Hok). intros Hr.
  assert (Hne : forall ns', ns' ∈ l -> mirror_key kt ns' <> mirror_key kt ns) by (intros ns' Hin [= ->]; done).
  destruct a as [e|[]].
  - injection Hr as <- <-. split_and!; [done| | |done].
    + intros key Hk. apply Hf. apply Hk, list_elem_of_here.
    + intros ns' [->|Hin]%elem_of_cons; [done|]. left. by apply Hf, Hne.
  - destruct (IH _ Hr) as (Hd' & Hf' & Hat' & Hok'). 
    assert (Hsame : sview w' !! mirror_key kt ns = sview w1 !! mirror_key kt ns).
    { apply Hf'. intros ns' Hin Heq. by apply (Hne ns'). }
    split_and!; [congruence| | |].
    + intros key Hk. rewrite Hf', Hf; [done|apply Hk, list_elem_of_here|]. intros ns' Hin. apply Hk. by right.
    + intros ns' [->|Hin]%elem_of_cons; unfold mirrored_at in *; [by rewrite Hsame|].
      specialize (Hat' _ Hin). unfold under_deletion in *. by rewrite (Hf _ (Hne _ Hin)) in Hat'.
    + intros Hr' ns' [->|Hin]%elem_of_cons.
      * rewrite Hsame. destruct (Hok eq_refl) as [?|[?|Ht]]; [auto..|]. right. right. subst r.
        by exists [], l, w, w1.
      * destruct (Hok' Hr' _ Hin) as [?|[Hu|Hrf]]; [auto| |].
        -- right. left. unfold under_deletion in *. by rewrite (Hf _ (Hne _ Hin)) in Hu.
        -- right. right. by eapply refused_cons.
Qed.

(** ** The whole of reconcileMirroredSecrets *)

Context (range_ns : gset string -> list string) (range_perm : forall X, range_ns X ≡ₚ elements X).

Lemma elem_of_needed kt joined ns :
  ns ∈ needed kt joined <-> ns <> kt_Namespace kt /\ exists p, p ∈ joined /\ p_Namespace p = ns.
Proof.
  unfold needed. rewrite elem_of_list_to_set, list_elem_of_fmap. split.
  - intros (p & -> & [Hp Hn]%elem_of_filterb). rewrite negb_true_iff, bool_decide_eq_false in Hn. eauto.
  - intros (Hne & p & Hp & <-). exists p. split; [done|]. apply elem_of_filterb.
    rewrite negb_true_iff, bool_decide_eq_false. done.
Qed.

Lemma needsMirroredSecrets_needed kt joined :
  needsMirroredSecrets (kt_Namespace kt) joined = false <-> needed kt joined = ∅.
Proof.
  unfold needsMirroredSecrets. rewrite existsb_false. rewrite (elem_of_equiv_empty_L (needed kt joined)). split.
  - intros Hf ns [Hne (p & Hp & <-)]%elem_of_needed. specialize (Hf p Hp).
    rewrite negb_false_iff, bool_decide_eq_true in Hf. done.
  - intros Hn p Hp. rewrite negb_false_iff, bool_decide_eq_true.
    destruct (decide (p_Namespace p = kt_Namespace kt)); [done|]. destruct (Hn (p_Namespace p)).
    apply elem_of_needed. eauto.
Qed.

(** The deletion pass: the listing, and the stale mirrors deleted. *)
Lemma prune_run kt (keep_ns : gset string) w r w' :
  (all ← wrap_err "listing mirrored credentials secrets" (List_ secrets (mirror_selector kt));
   for_each (fun s => if bool_decide (om_Namespace (sec_Meta s) ∈ keep_ns) then mret tt
                      else delete_mirror "deleting stale mirrored credentials secret " s) all) w = (r, w') ->
  dview w' = dview w /\
  (forall key, (nn_Namespace key ∈ keep_ns \/ forall s, sview w !! key = Some s -> ~ list_match (mirror_selector kt) (sec_Meta s)) ->
     sview w' !! key = sview w !! key) /\
  (forall k key s', sview w' !! key = Some s' -> mirror_of k s' ->
     sview w !! key = Some s' /\ (r = inr tt -> k = kt_key kt -> nn_Namespace key ∈ keep_ns)).
Proof using All.
  unfold mbind at 1, E_bind, wrap_err.
  pose proof (leaves_list (c := secrets) (view := dview) (mirror_selector kt) w) as Hd.
  destruct (List_ secrets (mirror_selector kt) w) as [[e|all] w1] eqn:E; simpl in Hd;
    apply (serves_list sview _) in E as [Hv Hl].
  { intros [= <- <-]. rewrite Hv. by split_and!. }
  pose proof (for_each_skip (fun s => bool_decide (om_Namespace (sec_Meta s) ∈ keep_ns)) (fun s => s)
    (delete_mirror "deleting stale mirrored credentials secret ") all w1) as Hskip.
  cbv beta in Hskip. rewrite Hskip. clear Hskip. rewrite list_fmap_id. set (stale := filterb _ all).
  destruct Hl as [_ Hl]. intros (Hd' & Hf & Hm)%delete_mirrors_run. rewrite Hv in *.
  assert (Hstale : forall key s, sview w !! key = Some s ->
    key ∈ key_of <$> stale <-> list_match (mirror_selector kt) (sec_Meta s) /\ nn_Namespace key ∉ keep_ns).
  { intros key s Hs. pose proof (serves_key sview _ _ _ _ Hs) as Hkey. rewrite list_elem_of_fmap. split.
    - intros (s' & -> & [Hin Hn]%elem_of_filterb). apply Hl in Hin as [Hin Hmt].
      rewrite Hs in Hin. injection Hin as <-. split; [exact Hmt|].
      by rewrite negb_true_iff, bool_decide_eq_false in Hn.
    - intros [Hmt Hn]. exists s. split; [done|]. apply elem_of_filterb.
      rewrite negb_true_iff, bool_decide_eq_false. rewrite <- Hkey in Hn, Hs. split; [|exact Hn].
      apply Hl. by split. }
  split_and!; [congruence| |].
  - intros key Hk. destruct (decide (key ∈ key_of <$> stale)) as [Hin|]; [|by apply Hf].
    pose proof Hin as (s & -> & [Hs _]%elem_of_filterb)%list_elem_of_fmap. apply Hl in Hs as [Hs _].
    apply (Hstale _ _ Hs) in Hin as [Hmt Hn]. destruct Hk as [?|Hk]; [done|]. by destruct (Hk s Hs).
  - intros k key s' Hs' Hmir. destruct (Hm _ _ _ Hs' Hmir) as [Hs Hok]. split; [done|].
    intros Hr ->. destruct (decide (nn_Namespace key ∈ keep_ns)); [done|]. destruct (Hok Hr).
    apply (Hstale _ _ Hs). split; [|done]. apply mirror_selector_match. by destruct Hmir as (? & ? & _).
Qed.

(** Everything [reconcileMirroredSecrets] may have done, however it ended. *)
Lemma reconcileMirroredSecrets_run kt secret joined w r w' :
  reconcileMirroredSecrets range_ns kt secret joined w = (r, w') ->
  dview w' = dview w /\
  (forall k key s', sview w' !! key = Some s' -> mirror_of k s' ->
     sview w !! key = Some s' \/ (k = kt_key kt /\ needed kt joined <> ∅)) /\
  (r = inr tt -> forall key s', sview w' !! key = Some s' -> mirror_of (kt_key kt) s' ->
     nn_Namespace key ∈ needed kt joined) /\
  (forall key, (forall s, sview w !! key = Some s -> ~ list_match (mirror_selector kt) (sec_Meta s)) ->
     (nn_Name key <> mirroredSecretName (kt_Name kt) \/ nn_Namespace key ∉ needed kt joined) ->
     sview w' !! key = sview w !! key) /\
  (r = inr tt -> forall ns, ns ∈ needed kt joined ->
     (exists s, sview w' !! mirror_key kt ns = Some s /\ mirrors kt secret s) \/
     under_deletion (sview w) (mirror_key kt ns) \/
     exists w1, refused kt secret (range_ns (needed kt joined)) ns w w1).
Proof using All.
  unfold reconcileMirroredSecrets. set (nd := needed kt joined).
  assert (Hin : forall ns, ns ∈ range_ns nd <-> ns ∈ nd) by (intros; by rewrite range_perm, elem_of_elements).
  assert (Hnd : NoDup (range_ns nd)) by (rewrite range_perm; apply NoDup_elements).
  unfold mbind at 1, E_bind. destruct (for_each _ (range_ns nd) w) as [a w1] eqn:E.
  apply apply_mirrors_run in E as (Hd & Hf & Hat & Hok); [|done].
  assert (Hmir : forall k key s', sview w1 !! key = Some s' -> mirror_of k s' ->
    sview w !! key = Some s' \/ (k = kt_key kt /\ nd <> ∅)).
  { intros k [kns kname] s' Hs' Hm.
    destruct (decide (kns ∈ nd /\ kname = mirroredSecretName (kt_Name kt))) as [[Hns ->]|Hno].
    - change (NN kns _) with (mirror_key kt kns) in *.
      destruct (Hat _ (proj2 (Hin _) Hns)) as [Hx|[(s & Hs & (H1s & H2s & _))|[Hx _]]]; [left; congruence| |congruence].
      right. split; [|by intros Hx; rewrite Hx in Hns; apply not_elem_of_empty in Hns].
      rewrite Hs in Hs'. injection Hs' as ->. destruct Hm as (Hm1 & Hm2 & _). destruct k as [kn km].
      unfold kt_key. simpl in *. congruence.
    - left. rewrite <- Hf; [done|]. intros ns Hns [= -> ->]. apply Hno. split; [by apply Hin|done]. }
  assert (Hfr : forall key, (nn_Name key <> mirroredSecretName (kt_Name kt) \/ nn_Namespace key ∉ nd) ->
    sview w1 !! key = sview w !! key).
  { intros key Hk. apply Hf. intros ns Hns ->. simpl in Hk. destruct Hk; [done|]. by destruct (Hin ns); auto. }
  destruct a as [e|[]].
  { intros [= <- <-]. split_and!; [done|done|done| |done]. intros key _. apply Hfr. }
  intros (Hd' & Hf' & Hm')%prune_run. split_and!; [congruence| | | |].
  - intros k key s' Hs' Hm. destruct (Hm' _ _ _ Hs' Hm) as [Hs1 _]. by apply (Hmir _ _ _ Hs1 Hm).
  - intros Hr key s' Hs' Hm. destruct (Hm' _ _ _ Hs' Hm) as [_ Hx]. by apply Hx.
  - intros key Hno Hk. rewrite Hf', (Hfr _ Hk); [done|]. right. intros s. rewrite (Hfr _ Hk). apply Hno.
  - intros Hr ns Hns. rewrite Hf' by (by left).
    destruct (Hok eq_refl ns (proj2 (Hin ns) Hns)) as [?|[?|?]]; eauto.
Qed.

(** C13: after a reconcile of the mirrors that succeeds, the cluster holds
    exactly the copies the joined pods need. Every mirror of the decoy left
    is in a namespace, other than the decoy's, with a joined pod; every such
    namespace has one, with the token and the CA certificate and nothing else
    (unless this run tried to store it and was answered that the namespace is
    going away, or the Secret there was being deleted); and no Secret that is not a mirror of this decoy is
    touched, except under the mirrors' own name. *)
Theorem reconcileMirroredSecrets_exact kt secret joined w w' :
  reconcileMirroredSecrets range_ns kt secret joined w = (inr tt, w') ->
  (forall key s, sview w' !! key = Some s -> mirror_of (kt_key kt) s ->
     nn_Namespace key <> kt_Namespace kt /\ exists p, p ∈ joined /\ p_Namespace p = nn_Namespace key) /\
  (forall p, p ∈ joined -> p_Namespace p <> kt_Namespace kt ->
     (exists s, sview w' !! mirror_key kt (p_Namespace p) = Some s /\ mirrors kt secret s) \/
     under_deletion (sview w) (mirror_key kt (p_Namespace p)) \/
     exists w1, refused kt secret (range_ns (needed kt joined)) (p_Namespace p) w w1) /\
  (forall key, (forall s, sview w !! key = Some s -> ~ list_match (mirror_selector kt) (sec_Meta s)) ->
     nn_Name key <> mirroredSecretName (kt_Name kt) -> sview w' !! key = sview w !! key).
Proof using All.
  intros (_ & _ & Hex & Hfr & Hok)%reconcileMirroredSecrets_run. split_and!.
  - intros key s Hs Hm. apply elem_of_needed. by apply (Hex eq_refl key s).
  - intros p Hp Hne. apply Hok; [done|]. apply elem_of_needed. eauto.
  - intros key Hno Hk. apply Hfr; [done|by left].
Qed.
End Mirrors.

(** Two decoys of one name collide. The name of a mirror comes from the
    decoy's name alone, so two decoys of the same name in different
    namespaces, both joined from a third one, want the same Secret there with
    different labels: no state of the cluster holds the mirror of both, and
    each reconcile takes the other's credentials away. *)
Theorem mirror_collision kt1 kt2 secret1 secret2 ns (m : gmap NamespacedName Secret) :
  kt_Name kt1 = kt_Name kt2 -> kt_Namespace kt1 <> kt_Namespace kt2 ->
  key_of (buildMirroredSecret kt1 ns (sec_get secret1 "token") (sec_get secret1 "ca.crt")) =
  key_of (buildMirroredSecret kt2 ns (sec_get secret2 "token") (sec_get secret2 "ca.crt")) /\
  ~ ((exists s, m !! mirror_key kt1 ns = Some s /\ mirrors kt1 secret1 s) /\
     (exists s, m !! mirror_key kt2 ns = Some s /\ mirrors kt2 secret2 s)).
Proof.
  intros Hname Hns. split.
  - unfold key_of, om_key. simpl. by rewrite Hname.
  - intros [(s1 & Hs1 & H1 & _) (s2 & Hs2 & H2 & _)]. unfold mirror_key in *. rewrite Hname, Hs2 in Hs1.
    injection Hs1 as ->. congruence.
Qed.

Lemma mirror_collision_witness :
  mirror_key (mk_decoy "red" "web" empty_spec) "shop" = mirror_key (mk_decoy "blue" "web" empty_spec) "shop" /\
  ~ ((exists s, (∅ : gmap NamespacedName Secret) !! mirror_key (mk_decoy "red" "web" empty_spec) "shop" = Some s /\
        mirrors (mk_decoy "red" "web" empty_spec) (buildMirroredSecret (mk_decoy "red" "web" empty_spec) "red" "t1" "c1") s) /\
     (exists s, (∅ : gmap NamespacedName Secret) !! mirror_key (mk_decoy "blue" "web" empty_spec) "shop" = Some s /\
        mirrors (mk_decoy "blue" "web" empty_spec) (buildMirroredSecret (mk_decoy "blue" "web" empty_spec) "blue" "t2" "c2") s)).
Proof.
  split; [reflexivity|].
  apply (mirror_collision (mk_decoy "red" "web" empty_spec) (mk_decoy "blue" "web" empty_spec)); [reflexivity|discriminate].
Defined.
