(* ===== verification/Join.v ===== *)
(** * internal/controller/join_webhook.go: the admission webhook

    [MutatePod] redirects a real pod that carries the join annotation to its
    decoy: it replaces whatever is mounted at the ServiceAccount path by the
    decoy's credentials and overrides the KUBERNETES_* environment. Lookups go
    through the clients of Kube; JSON, the patch library and the AdmissionReview
    framing are parameters of [review]. *)

From S2P Require Import Prelude GoStrings KubeTypes ApiTypes Kube Host AuditWebhook Names.
From Stdlib Require Import Ascii.
#[local] Open Scope string_scope.
#[local] Open Scope list_scope.

(** ** Which decoy a pod joins *)

(** [src/internal/controller/join_webhook.go:243-256, parseJoinTarget] *)
Definition parseJoinTarget (value : string) : option (string * string) :=
  if value ==? "" then None
  else match SplitN2 value "/"%char with
       | [ns; name] => if (ns ==? "") || (name ==? "") then None else Some (ns, name)
       | _ => None
       end.

(** The part of [resolveJoinAnnotation] after the listing. *)
Definition resolve_implicit (podNamespace : string) (items : list Decoy) : option (string * string) :=
  match items with
  | [kt] => Some (kt_Namespace kt, kt_Name kt)
  | _ =>
      match filterb (fun kt => kt_Namespace kt ==? podNamespace) items with
      | [kt] => Some (podNamespace, kt_Name kt)
      | _ => None
      end
  end.

Section Resolve.
Context {W : Type} (decoys : Client W Decoy) (services : Client W Service).

(** [src/internal/controller/join_webhook.go:258-295, resolveJoinAnnotation] *)
Definition resolveJoinAnnotation (podNamespace value : string) : E W (option (string * string)) :=
  if value ==? joinAnnotationImplicit then
    r ← try_ (List_ decoys everything);
    match r with
    | inl _ => mret None
    | inr items => mret (resolve_implicit podNamespace items)
    end
  else mret (parseJoinTarget value).

(** [src/internal/controller/join_webhook.go:188-191, realKubernetesServicePortDefault] *)
Definition realKubernetesServicePortDefault : Z := 443.

(** The port the loop over the Service's ports returns, if any. *)
Definition https_port (ports : list ServicePort) : option Z :=
  sp_Port <$> List.find (fun p => (sp_Name p ==? "https") || bool_decide (length ports = 1)) ports.

(** [src/internal/controller/join_webhook.go:193-212, realKubernetesServicePort] *)
Definition realKubernetesServicePort : E W Z :=
  r ← try_ (Get services (NN "default" "kubernetes"));
  match r with
  | inr svc => mret (default realKubernetesServicePortDefault (https_port (ss_Ports (svc_Spec svc))))
  | inl _ => mret realKubernetesServicePortDefault
  end.
End Resolve.

(** ** The mutation *)

(** [src/internal/controller/join_webhook.go:214-241, kubernetesServiceEnv] *)
Definition kubernetesServiceEnv (clusterIP : string) (decoyPort realPort : Z) : list EnvVar :=
  let decoyPortStr := Itoa decoyPort in
  let realPortStr := Itoa realPort in
  let tcpAddr := "tcp://" +:+ clusterIP +:+ ":" +:+ decoyPortStr in
  [Env "KUBERNETES_SERVICE_HOST" clusterIP;
   Env "KUBERNETES_SERVICE_PORT" decoyPortStr;
   Env "KUBERNETES_SERVICE_PORT_HTTPS" decoyPortStr;
   Env "KUBERNETES_PORT" tcpAddr;
   Env ("KUBERNETES_PORT_" +:+ realPortStr +:+ "_TCP") tcpAddr;
   Env ("KUBERNETES_PORT_" +:+ realPortStr +:+ "_TCP_PROTO") "tcp";
   Env ("KUBERNETES_PORT_" +:+ realPortStr +:+ "_TCP_PORT") decoyPortStr;
   Env ("KUBERNETES_PORT_" +:+ realPortStr +:+ "_TCP_ADDR") clusterIP].

(** [strings.TrimSuffix(serviceAccountTokenMountPath, "/")]. *)
Definition wantPath : string := TrimSuffix serviceAccountTokenMountPath "/".

(** The mount is at the ServiceAccount path. *)
Definition at_sa_path (m : VolumeMount) : bool := TrimSuffix (vm_MountPath m) "/" ==? wantPath.

(** The closure [stripAutoMount]; [auto] is the captured [autoVolNames].
    [src/internal/controller/join_webhook.go:126-136, MutatePod] *)
Fixpoint stripAutoMount (auto : gset string) (mounts : list VolumeMount)
    : list VolumeMount * gset string :=
  match mounts with
  | [] => ([], auto)
  | m :: mounts' =>
      if bool_decide (vm_Name m ∈ auto) || at_sa_path m
      then stripAutoMount ({[vm_Name m]} ∪ auto) mounts'
      else let '(kept, auto') := stripAutoMount auto mounts' in (m :: kept, auto')
  end.

(** The loop over a list of containers, threading [autoVolNames]. *)
Fixpoint strip_containers (auto : gset string) (cs : list Container)
    : list Container * gset string :=
  match cs with
  | [] => ([], auto)
  | c :: cs' =>
      let '(mounts, auto1) := stripAutoMount auto (c_VolumeMounts c) in
      let '(rest, auto2) := strip_containers auto1 cs' in
      (c_with_mounts c mounts :: rest, auto2)
  end.

Definition autoVolNames0 (volumes : list Volume) : gset string :=
  list_to_set (v_Name <$> filterb (fun v => HasPrefix (v_Name v) "kube-api-access-") volumes).

Definition decoy_mount : VolumeMount :=
  {| vm_Name := decoyVolumeName; vm_MountPath := serviceAccountTokenMountPath;
     vm_SubPath := ""; vm_ReadOnly := true |}.

(** [Containers[i].VolumeMounts = append(..., mount)], [Env = append(..., svcEnv...)]. *)
Definition inject (svcEnv : list EnvVar) (c : Container) : Container :=
  c_with_env (c_with_mounts c (c_VolumeMounts c ++ [decoy_mount])) (c_Env c ++ svcEnv).

(** What [MutatePod] does to the copied pod's spec.
    [src/internal/controller/join_webhook.go:110-183, MutatePod] *)
Definition mutate_spec (secretName : string) (svcEnv : list EnvVar) (s : PodSpec) : PodSpec :=
  let '(containers, auto1) := strip_containers (autoVolNames0 (ps_Volumes s)) (ps_Containers s) in
  let '(inits, auto2) := strip_containers auto1 (ps_InitContainers s) in
  let keptVolumes := filterb (fun v => negb (bool_decide (v_Name v ∈ auto2))) (ps_Volumes s) in
  {| ps_InitContainers := inject svcEnv <$> inits;
     ps_Containers := inject svcEnv <$> containers;
     ps_Volumes := keptVolumes ++ [decoyServiceAccountVolume secretName];
     ps_NodeName := ps_NodeName s; ps_HostNetwork := ps_HostNetwork s;
     ps_Hostname := ps_Hostname s; ps_RuntimeClassName := ps_RuntimeClassName s;
     ps_TerminationGracePeriodSeconds := ps_TerminationGracePeriodSeconds s;
     ps_DNSPolicy := ps_DNSPolicy s; ps_DNSConfig := ps_DNSConfig s;
     ps_AutomountServiceAccountToken := Some false;
     ps_EnableServiceLinks := Some false |}.

Definition with_spec (p : Pod) (s : PodSpec) : Pod :=
  {| p_Meta := p_Meta p; p_Spec := s; p_Status := p_Status p |}.

Section Mutate.
Context {W : Type} (decoys : Client W Decoy) (services : Client W Service).

(** [if err := Get(...); err != nil { if IsNotFound(err) { return nil, nil };
    return nil, err }]. *)
Definition get_or_skip {O} (c : E W O) : E W (option O) :=
  r ← try_ c;
  match r with
  | inr o => mret (Some o)
  | inl err => if IsNotFound err then mret None else throw err
  end.

(** [src/internal/controller/join_webhook.go:60-186, MutatePod] *)
Definition MutatePod (pod : Pod) : E W (option Pod) :=
  target ← resolveJoinAnnotation decoys (p_Namespace pod) (annotation pod joinAnnotation);
  match target with
  | None => mret None
  | Some (ktNamespace, ktName) =>
      kt ← get_or_skip (Get decoys (NN ktNamespace ktName));
      match kt with
      | None => mret None
      | Some kt =>
          svc ← get_or_skip (Get services (NN ktNamespace ktName));
          match svc with
          | None => mret None
          | Some svc =>
              let clusterIP := ss_ClusterIP (svc_Spec svc) in
              if (clusterIP ==? "") || (clusterIP ==? "None") then mret None
              else
                let secretName := if p_Namespace pod !=? ktNamespace
                                  then mirroredSecretName ktName else decoySecretName ktName in
                realPort ← realKubernetesServicePort services;
                let svcEnv := kubernetesServiceEnv clusterIP (servicePort kt) realPort in
                mret (Some (with_spec pod (mutate_spec secretName svcEnv (p_Spec pod))))
          end
      end
  end.

(** ** The admission review *)

Record AdmissionRequest := { ar_UID : string; ar_Raw : string }.
Record AdmissionResponse := {
  rsp_UID : string; rsp_Allowed : bool; rsp_Patch : option string }.

(** [Unmarshal]/[Marshal] of a pod and [jsonpatch.CreatePatch] followed by
    [json.Marshal]; each may fail. *)
Context (Unmarshal : string -> error + Pod) (Marshal : Pod -> error + string)
        (CreatePatch : string -> string -> error + string).

(** [src/internal/controller/join_webhook.go:326-371, review] *)
Definition review (req : option AdmissionRequest) : E W AdmissionResponse :=
  match req with
  | None => mret {| rsp_UID := ""; rsp_Allowed := true; rsp_Patch := None |}
  | Some req =>
      let allow := {| rsp_UID := ar_UID req; rsp_Allowed := true; rsp_Patch := None |} in
      match Unmarshal (ar_Raw req) with
      | inl _ => mret allow
      | inr pod =>
          r ← try_ (MutatePod pod);
          match r with
          | inr (Some mutated) =>
              match Marshal mutated with
              | inl _ => mret allow
              | inr mutatedRaw =>
                  match CreatePatch (ar_Raw req) mutatedRaw with
                  | inl _ => mret allow
                  | inr patch =>
                      mret {| rsp_UID := ar_UID req; rsp_Allowed := true; rsp_Patch := Some patch |}
                  end
              end
          | _ => mret allow
          end
      end
  end.

(** The HTTP framing: a body that cannot be read or decoded is a 400, and
    every decoded review is answered.
    [src/internal/controller/join_webhook.go:297-324, NewPodMutationHandler] *)
Definition NewPodMutationHandler (body : error + string)
    (decode : string -> error + option AdmissionRequest)
    : E W (Response + AdmissionResponse) :=
  match body with
  | inl err => mret (inl (http_Error (e_Message err) 400))
  | inr body =>
      match decode body with
      | inl err => mret (inl (http_Error (e_Message err) 400))
      | inr req => r ← review req; mret (inr r)
      end
  end.
End Mutate.

(** ** Facts about the stripping *)

Lemma stripAutoMount_spec auto mounts kept auto' :
  stripAutoMount auto mounts = (kept, auto') ->
  kept `sublist_of` mounts /\
  Forall (fun m => at_sa_path m = false /\ vm_Name m ∉ auto) kept /\
  auto ⊆ auto' /\
  (forall n, n ∈ auto' -> n ∈ auto \/ exists m, m ∈ mounts /\ at_sa_path m = true /\ vm_Name m = n) /\
  (forall m, m ∈ mounts -> m ∈ kept \/ vm_Name m ∈ auto').
Proof.
  revert auto kept auto'. induction mounts as [|m mounts IH]; intros auto kept auto'; simpl.
  { intros [= <- <-]. split_and!; [constructor|constructor|done|by left|].
    intros m Hm. by apply not_elem_of_nil in Hm. }
  destruct (bool_decide (vm_Name m ∈ auto) || at_sa_path m) eqn:E.
  - intros Hs. destruct (IH _ _ _ Hs) as (Hsub & Hall & Hle & Hnew & Hkept). split_and!.
    + by apply sublist_cons.
    + eapply Forall_impl; [done|]. intros x [? ?]. set_solver.
    + set_solver.
    + intros n Hn. destruct (Hnew n Hn) as [Hin|(m' & ? & ? & ?)]; [|right; exists m'; set_solver].
      apply elem_of_union in Hin as [->%elem_of_singleton|?]; [|by left].
      apply orb_true_iff in E as [E|E]; [left; by apply bool_decide_eq_true in E|].
      right. exists m. set_solver.
    + intros x [->|Hx]%elem_of_cons; [right; set_solver|auto].
  - apply orb_false_iff in E as [Em Ep]. apply bool_decide_eq_false in Em.
    destruct (stripAutoMount auto mounts) as [kept1 auto1] eqn:Hs. intros [= <- <-].
    destruct (IH _ _ _ Hs) as (Hsub & Hall & Hle & Hnew & Hkept). split_and!.
    + by apply sublist_skip.
    + by constructor.
    + done.
    + intros n Hn. destruct (Hnew n Hn) as [?|(m' & ? & ?)]; [by left|right; exists m'; set_solver].
    + intros x [->|Hx]%elem_of_cons; [left; set_solver|]. destruct (Hkept x Hx); set_solver.
Qed.

(** A container and what the stripping leaves of it. *)
Definition stripped (auto : gset string) (c c' : Container) : Prop :=
  c' = c_with_mounts c (c_VolumeMounts c') /\
  c_VolumeMounts c' `sublist_of` c_VolumeMounts c /\
  Forall (fun m => at_sa_path m = false /\ vm_Name m ∉ auto) (c_VolumeMounts c').

Lemma strip_containers_spec auto cs cs' auto' :
  strip_containers auto cs = (cs', auto') ->
  Forall2 (stripped auto) cs cs' /\ auto ⊆ auto' /\
  (forall n, n ∈ auto' -> n ∈ auto \/
     exists c m, c ∈ cs /\ m ∈ c_VolumeMounts c /\ at_sa_path m = true /\ vm_Name m = n).
Proof.
  revert auto cs' auto'. induction cs as [|c cs IH]; intros auto cs' auto'; simpl.
  { intros [= <- <-]. split_and!; [constructor|done|by left]. }
  destruct (stripAutoMount auto (c_VolumeMounts c)) as [mounts auto1] eqn:Hm.
  destruct (strip_containers auto1 cs) as [rest auto2] eqn:Hr. intros [= <- <-].
  destruct (stripAutoMount_spec _ _ _ _ Hm) as (Hsub & Hall & Hle & Hnew & _).
  destruct (IH _ _ _ Hr) as (H2 & Hle2 & Hnew2). split_and!.
  - constructor; [by split_and!|]. eapply Forall2_impl; [done|].
    intros x y (? & ? & Hy). split_and!; [done|done|]. eapply Forall_impl; [done|].
    intros m [? ?]. split; [done|set_solver].
  - set_solver.
  - intros n Hn. destruct (Hnew2 n Hn) as [Hin|(c' & m & ? & ?)].
    + destruct (Hnew n Hin) as [?|(m & ? & ?)]; [by left|]. right. exists c, m. set_solver.
    + right. exists c', m. set_solver.
Qed.

(** All the containers of a pod: init containers and main ones. *)
Definition all_containers (s : PodSpec) : list Container := ps_InitContainers s ++ ps_Containers s.

Lemma at_sa_path_decoy : at_sa_path decoy_mount = true.
Proof. vm_compute. reflexivity. Qed.

Lemma inject_sole_mount auto svcEnv c c' :
  stripped auto c c' ->
  filterb at_sa_path (c_VolumeMounts (inject svcEnv c')) = [decoy_mount].
Proof.
  intros (_ & _ & Hall). unfold inject. simpl. rewrite filterb_app, filterb_none; [|].
  - unfold filterb. cbn [List.filter]. by rewrite at_sa_path_decoy.
  - intros m Hm. rewrite Forall_forall in Hall. by apply Hall in Hm as [? _].
Qed.

(** A container of the mutated pod, against the original one. *)
Definition redirected (svcEnv : list EnvVar) (c c' : Container) : Prop :=
  filterb at_sa_path (c_VolumeMounts c') = [decoy_mount] /\
  filterb (fun m => negb (at_sa_path m)) (c_VolumeMounts c') `sublist_of` c_VolumeMounts c /\
  c_Env c' = c_Env c ++ svcEnv /\
  c_with_env (c_with_mounts c' (c_VolumeMounts c)) (c_Env c) = c.

Lemma c_with_eta c ms : c_with_env (c_with_mounts c ms) (c_Env c) = c_with_mounts c ms.
Proof. by destruct c. Qed.

Lemma inject_redirected auto svcEnv c c' :
  stripped auto c c' -> redirected svcEnv c (inject svcEnv c').
Proof.
  intros Hs. split_and!.
  - by eapply inject_sole_mount.
  - destruct Hs as (_ & Hsub & Hall). unfold inject. simpl. rewrite filterb_app.
    rewrite filterb_all.
    + unfold filterb. cbn [List.filter]. rewrite at_sa_path_decoy. simpl. by rewrite app_nil_r.
    + intros m Hm. rewrite Forall_forall in Hall. apply Hall in Hm as [-> _]. done.
  - destruct Hs as (-> & _ & _). done.
  - destruct Hs as (-> & _ & _). by destruct c.
Qed.

Lemma mutate_spec_containers secretName svcEnv s :
  Forall2 (redirected svcEnv) (all_containers s) (all_containers (mutate_spec secretName svcEnv s)).
Proof.
  unfold mutate_spec, all_containers.
  destruct (strip_containers _ (ps_Containers s)) as [cs auto1] eqn:Hc.
  destruct (strip_containers auto1 (ps_InitContainers s)) as [inits auto2] eqn:Hi. simpl.
  destruct (strip_containers_spec _ _ _ _ Hc) as (Hc2 & _).
  destruct (strip_containers_spec _ _ _ _ Hi) as (Hi2 & _).
  apply Forall2_app; apply Forall2_fmap_r; (eapply Forall2_impl; [eassumption|]);
    intros c c'; apply inject_redirected.
Qed.

Lemma autoVolNames0_elem vols n :
  n ∈ autoVolNames0 vols <->
  exists v, v ∈ vols /\ v_Name v = n /\ HasPrefix n "kube-api-access-" = true.
Proof.
  unfold autoVolNames0. rewrite elem_of_list_to_set, list_elem_of_fmap. split.
  - intros (v & -> & [? ?]%elem_of_filterb). eauto.
  - intros (v & ? & <- & ?). exists v. rewrite elem_of_filterb. eauto.
Qed.

(** The volumes of the mutated pod: the decoy's one and the others. *)
Lemma mutate_spec_volumes secretName svcEnv s :
  exists kept,
    ps_Volumes (mutate_spec secretName svcEnv s) = kept ++ [decoyServiceAccountVolume secretName] /\
    kept `sublist_of` ps_Volumes s /\
    Forall (fun v => HasPrefix (v_Name v) "kube-api-access-" = false) kept /\
    (forall v, v ∈ ps_Volumes s -> v ∉ kept ->
       HasPrefix (v_Name v) "kube-api-access-" = true \/
       exists c m, c ∈ all_containers s /\ m ∈ c_VolumeMounts c /\ at_sa_path m = true /\
                   vm_Name m = v_Name v).
Proof.
  unfold mutate_spec, all_containers.
  destruct (strip_containers _ (ps_Containers s)) as [cs auto1] eqn:Hc.
  destruct (strip_containers auto1 (ps_InitContainers s)) as [inits auto2] eqn:Hi. simpl.
  destruct (strip_containers_spec _ _ _ _ Hc) as (_ & Hle1 & Hn1).
  destruct (strip_containers_spec _ _ _ _ Hi) as (_ & Hle2 & Hn2).
  eexists. split_and!; [done| | |].
  - clear. induction (ps_Volumes s) as [|v vs IH]; [done|]. unfold filterb in *. simpl.
    destruct (negb _); [by apply sublist_skip|by apply sublist_cons].
  - apply Forall_forall. intros v [Hv Hn]%elem_of_filterb.
    destruct (HasPrefix (v_Name v) "kube-api-access-") eqn:E; [|done].
    assert (v_Name v ∈ autoVolNames0 (ps_Volumes s)) by (apply autoVolNames0_elem; eauto).
    rewrite bool_decide_eq_true_2 in Hn; [done|set_solver].
  - intros v Hv Hnk. rewrite elem_of_filterb in Hnk.
    assert (Hin : v_Name v ∈ auto2) by (case_bool_decide; [done|naive_solver]).
    destruct (Hn2 _ Hin) as [Hin1|(c & m & ? & ?)]; [|right; exists c, m; set_solver].
    destruct (Hn1 _ Hin1) as [Hin0|(c & m & ? & ?)]; [|right; exists c, m; set_solver].
    left. by apply autoVolNames0_elem in Hin0 as (_ & _ & _ & ?).
Qed.

Lemma mutate_spec_mounts secretName svcEnv s c' m :
  c' ∈ all_containers (mutate_spec secretName svcEnv s) -> m ∈ c_VolumeMounts c' ->
  m = decoy_mount \/
  (exists c, c ∈ all_containers s /\ m ∈ c_VolumeMounts c) /\
  at_sa_path m = false /\ vm_Name m ∉ autoVolNames0 (ps_Volumes s).
Proof.
  unfold mutate_spec, all_containers.
  destruct (strip_containers _ (ps_Containers s)) as [cs auto1] eqn:Hc.
  destruct (strip_containers auto1 (ps_InitContainers s)) as [inits auto2] eqn:Hi. simpl.
  destruct (strip_containers_spec _ _ _ _ Hc) as (Hc2 & Hle & _).
  destruct (strip_containers_spec _ _ _ _ Hi) as (Hi2 & _ & _).
  assert (Hone : forall auto l l', autoVolNames0 (ps_Volumes s) ⊆ auto ->
    Forall2 (stripped auto) l l' -> c' ∈ inject svcEnv <$> l' -> m ∈ c_VolumeMounts c' ->
    m = decoy_mount \/ (exists c, c ∈ l /\ m ∈ c_VolumeMounts c) /\
      at_sa_path m = false /\ vm_Name m ∉ autoVolNames0 (ps_Volumes s)).
  { intros auto l l' Hsub H2 (c1 & -> & Hc1)%list_elem_of_fmap Hm. unfold inject in Hm. simpl in Hm.
    apply elem_of_app in Hm as [Hm|Hm%list_elem_of_singleton]; [right|by left].
    apply list_elem_of_lookup_1 in Hc1 as [i Hc1].
    destruct (Forall2_lookup_r _ _ _ _ _ H2 Hc1) as (c & Hci & _ & Hs & Hall).
    rewrite Forall_forall in Hall. destruct (Hall m Hm) as [Hsa Hn]. split_and!; [|done|set_solver].
    exists c. split; [by eapply list_elem_of_lookup_2|]. by eapply elem_of_sublist. }
  intros [Hin|Hin]%elem_of_app Hm.
  - destruct (Hone _ _ _ Hle Hi2 Hin Hm) as [?|[(c & ? & ?) ?]]; [by left|right; set_solver].
  - destruct (Hone _ _ _ (reflexivity _) Hc2 Hin Hm) as [?|[(c & ? & ?) ?]]; [by left|right; set_solver].
Qed.

Section MutateTheorems.
Context {W : Type} (decoys : Client W Decoy) (services : Client W Service).

Lemma get_or_skip_some {O} (c : E W O) w o w' :
  get_or_skip c w = (inr (Some o), w') -> c w = (inr o, w').
Proof.
  unfold get_or_skip, try_, mbind, E_bind. destruct (c w) as [[e|o'] w1]; [|by intros [= -> ->]].
  by destruct (IsNotFound e).
Qed.

(** The variables Kubernetes documents for a Service named "kubernetes" at
    address [ip] and port [port], the names of the per-port ones being those
    of port [named]. *)
Definition service_family (ip : string) (port named : Z) : list EnvVar :=
  let p := Itoa port in let url := "tcp://" +:+ ip +:+ ":" +:+ p in
  let of_port := "KUBERNETES_PORT_" +:+ Itoa named in
  [Env "KUBERNETES_SERVICE_HOST" ip; Env "KUBERNETES_SERVICE_PORT" p; Env "KUBERNETES_SERVICE_PORT_HTTPS" p;
   Env "KUBERNETES_PORT" url; Env (of_port +:+ "_TCP") url; Env (of_port +:+ "_TCP_PROTO") "tcp";
   Env (of_port +:+ "_TCP_PORT") p; Env (of_port +:+ "_TCP_ADDR") ip].

(** The port a reading of the Service default/kubernetes gives: its only one,
    or the first named https; 443 when it has none or cannot be read. *)
Definition real_port_of (kube : error + Service) (port : Z) : Prop :=
  let candidate ports sp := sp_Name sp = "https" \/ ports = [sp] in
  (exists svc before sp after, kube = inr svc /\ ss_Ports (svc_Spec svc) = before ++ sp :: after /\
     candidate (ss_Ports (svc_Spec svc)) sp /\ Forall (fun x => sp_Name x <> "https") before /\ port = sp_Port sp) \/
  (port = 443%Z /\ forall svc, kube = inr svc ->
     forall sp, sp ∈ ss_Ports (svc_Spec svc) -> ~ candidate (ss_Ports (svc_Spec svc)) sp).

Lemma https_port_spec ports :
  match https_port ports with
  | Some port => exists before sp after, ports = before ++ sp :: after /\
      (sp_Name sp = "https" \/ ports = [sp]) /\ Forall (fun x => sp_Name x <> "https") before /\ port = sp_Port sp
  | None => forall sp, sp ∈ ports -> ~ (sp_Name sp = "https" \/ ports = [sp])
  end.
Proof.
  unfold https_port. destruct (decide (length ports = 1)) as [Hlen|Hlen].
  { destruct ports as [|sp [|]]; try done. cbn [List.find]. rewrite orb_true_r. cbn.
    exists [], sp, []. split_and!; [done|by right|constructor|done]. }
  assert (forall l, (exists pre, ports = pre ++ l /\ Forall (fun x => sp_Name x <> "https") pre) ->
    match sp_Port <$> List.find (fun p => (sp_Name p ==? "https") || bool_decide (length ports = 1)) l with
    | Some port => exists before sp after, ports = before ++ sp :: after /\
        (sp_Name sp = "https" \/ ports = [sp]) /\ Forall (fun x => sp_Name x <> "https") before /\ port = sp_Port sp
    | None => Forall (fun x => sp_Name x <> "https") l
    end) as Hgen.
  { induction l as [|sp l IH]; intros (pre & Hp & Hpre); [constructor|]. cbn [List.find].
    rewrite (bool_decide_eq_false_2 (length ports = 1)) in * by done. rewrite orb_false_r in *.
    case_bool_decide as Hn; [exists pre, sp, l; auto|].
    assert (exists pre', ports = pre' ++ l /\ Forall (fun x => sp_Name x <> "https") pre') as Hpre'.
    { exists (pre ++ [sp]). rewrite <- app_assoc. split; [done|]. apply Forall_app. by repeat constructor. }
    specialize (IH Hpre'). destruct (_ <$> _); [done|by constructor]. }
  specialize (Hgen ports). destruct (_ <$> _); [apply Hgen; by exists []|].
  intros sp Hin [Hn| ->]; [|done]. assert (Forall (fun x => sp_Name x <> "https") ports) as Hall
    by (apply Hgen; by exists []).
  rewrite Forall_forall in Hall. by apply (Hall sp).
Qed.

Lemma realKubernetesServicePort_spec w port w' :
  realKubernetesServicePort services w = (inr port, w') ->
  exists kube, Get services (NN "default" "kubernetes") w = (kube, w') /\ real_port_of kube port.
Proof.
  unfold realKubernetesServicePort, try_, mbind, E_bind.
  destruct (Get services (NN "default" "kubernetes") w) as [[e|svc] w1]; intros [= <- <-]; eexists; (split; [done|]).
  - right. by split.
  - pose proof (https_port_spec (ss_Ports (svc_Spec svc))) as Hp. destruct (https_port _) as [port|]; simpl.
    + destruct Hp as (before & sp & after & ? & ? & ? & ?). left. exists svc, before, sp, after. auto.
    + right. split; [done|]. by intros ? [= <-].
Qed.

(** The readings of a run of [MutatePod] that redirects to decoy [kt] with
    Service [svc]: in this order, and no other. *)
Definition readings (pod : Pod) (w w' : W) (ns name : string) (kt : Decoy) (svc : Service) (port : Z) : Prop :=
  exists kube w1 w2 w3,
    resolveJoinAnnotation decoys (p_Namespace pod) (annotation pod joinAnnotation) w = (inr (Some (ns, name)), w1) /\
    Get decoys (NN ns name) w1 = (inr kt, w2) /\
    Get services (NN ns name) w2 = (inr svc, w3) /\
    Get services (NN "default" "kubernetes") w3 = (kube, w') /\ real_port_of kube port.

(** Every way a mutation comes about. *)
Lemma MutatePod_some pod w m w' :
  MutatePod decoys services pod w = (inr (Some m), w') ->
  exists ns name kt svc realPort,
    readings pod w w' ns name kt svc realPort /\
    (ss_ClusterIP (svc_Spec svc) ∉ [""; "None"]) /\
    m = with_spec pod (mutate_spec
          (if p_Namespace pod !=? ns then mirroredSecretName name else decoySecretName name)
          (kubernetesServiceEnv (ss_ClusterIP (svc_Spec svc)) (servicePort kt) realPort)
          (p_Spec pod)).
Proof.
  unfold MutatePod. rewrite E_bind_inr. intros (target & w1 & Hr & Hm).
  destruct target as [[ns name]|]; [|by inversion Hm].
  apply E_bind_inr in Hm as ([kt|] & w2 & Hk & Hm); [|by inversion Hm].
  apply E_bind_inr in Hm as ([svc|] & w3 & Hs & Hm); [|by inversion Hm].
  destruct ((ss_ClusterIP (svc_Spec svc) ==? "") || (ss_ClusterIP (svc_Spec svc) ==? "None")) eqn:Hip;
    [by inversion Hm|].
  apply E_bind_inr in Hm as (realPort & w4 & Hp & [= <- <-]).
  apply get_or_skip_some in Hk, Hs. apply orb_false_iff in Hip as [H1 H2]. go_bool.
  apply realKubernetesServicePort_spec in Hp as (kube & Hkube & Hreal).
  exists ns, name, kt, svc, realPort. split_and!; [by exists kube, w1, w2, w3| |done].
  rewrite !not_elem_of_cons. split_and!; [done|done|apply not_elem_of_nil].
Qed.

(** The address and port a pod is pointed at, and the name its per-port
    variables go by. *)
Definition decoy_family (kt : Decoy) (svc : Service) (realPort : Z) : list EnvVar :=
  service_family (ss_ClusterIP (svc_Spec svc))
    (if decide (spec_Port (kt_Spec kt) = 0%Z) then 6443%Z else spec_Port (kt_Spec kt)) realPort.

Lemma mutate_spec_redirected secretName kt svc realPort s :
  Forall2 (redirected (decoy_family kt svc realPort)) (all_containers s)
    (all_containers (mutate_spec secretName
       (kubernetesServiceEnv (ss_ClusterIP (svc_Spec svc)) (servicePort kt) realPort) s)).
Proof.
  unfold decoy_family. replace (if decide _ then _ else _) with (servicePort kt); [apply mutate_spec_containers|].
  unfold servicePort. by repeat case_bool_decide; repeat case_decide.
Qed.

(** C4: what the webhook does to a pod it redirects. The run reads the
    decoy, its Service and the cluster's Service default/kubernetes, once
    each. The pod's metadata and status are untouched; in every container,
    init containers included, the decoy's volume is the only thing mounted at
    the ServiceAccount path, the other mounts are original ones in their
    order, and everything else is as it was except for the environment: the
    original list followed by the variables of a "kubernetes" Service whose
    address is the cluster IP of the decoy's Service and whose port is the
    decoy's (6443 unless it sets one), the per-port ones named after the port
    of default/kubernetes, or 443 when that cannot be read. Of all
    kube-api-access volumes only the decoy's remains, and it projects the
    decoy's Secret (same namespace) or its mirror (another namespace);
    automatic token mounts and service links are off. *)
Theorem MutatePod_redirects pod w m w' :
  MutatePod decoys services pod w = (inr (Some m), w') ->
  exists ns name kt svc realPort,
    readings pod w w' ns name kt svc realPort /\
    (ss_ClusterIP (svc_Spec svc) ∉ [""; "None"]) /\
    p_Meta m = p_Meta pod /\ p_Status m = p_Status pod /\
    Forall2 (redirected (decoy_family kt svc realPort))
      (all_containers (p_Spec pod)) (all_containers (p_Spec m)) /\
    filterb (fun v => HasPrefix (v_Name v) "kube-api-access-") (ps_Volumes (p_Spec m)) =
      [decoyServiceAccountVolume (if decide (p_Namespace pod = ns) then decoySecretName name
                                  else mirroredSecretName name)] /\
    ps_AutomountServiceAccountToken (p_Spec m) = Some false /\
    ps_EnableServiceLinks (p_Spec m) = Some false.
Proof.
  intros H. apply MutatePod_some in H as (ns & name & kt & svc & realPort & Hrd & Hip & ->).
  exists ns, name, kt, svc, realPort. split_and!; try done.
  - apply mutate_spec_redirected.
  - simpl. set (env := kubernetesServiceEnv _ _ _). set (sn := if _ !=? _ then _ else _).
    destruct (mutate_spec_volumes sn env (p_Spec pod)) as (kept & -> & _ & Hk & _).
    rewrite filterb_app, filterb_none; [|by apply Forall_forall].
    unfold sn. by case_bool_decide; case_decide.
  - simpl. unfold mutate_spec. by repeat case_match.
  - simpl. unfold mutate_spec. by repeat case_match.
Qed.

End MutateTheorems.

(** Every mount of a pod names a volume of the pod, as the API server
    requires. *)
Definition mounts_resolve (s : PodSpec) : Prop :=
  forall c m, c ∈ all_containers s -> m ∈ c_VolumeMounts c ->
    exists v, v ∈ ps_Volumes s /\ v_Name v = vm_Name m.

(** No volume is mounted both at the ServiceAccount path and elsewhere. *)
Definition sa_volumes_private (s : PodSpec) : Prop :=
  forall c m c' m', c ∈ all_containers s -> m ∈ c_VolumeMounts c ->
    c' ∈ all_containers s -> m' ∈ c_VolumeMounts c' ->
    vm_Name m = vm_Name m' -> at_sa_path m = at_sa_path m'.

(** C39: when no volume is mounted both at the ServiceAccount path and
    elsewhere, the mutated pod is still well formed: every mount it declares
    names one of its volumes. *)
Theorem mutate_spec_mounts_resolve secretName svcEnv s :
  mounts_resolve s -> sa_volumes_private s -> mounts_resolve (mutate_spec secretName svcEnv s).
Proof.
  intros Hres Hpriv c' m Hc' Hm.
  destruct (mutate_spec_volumes secretName svcEnv s) as (kept & -> & _ & _ & Hdrop).
  destruct (mutate_spec_mounts _ _ _ _ _ Hc' Hm) as [->|((c & Hc & Hmc) & Hsa & Hauto)].
  { exists (decoyServiceAccountVolume secretName). split; [|done].
    apply elem_of_app. right. apply list_elem_of_here. }
  destruct (Hres c m Hc Hmc) as (v & Hv & Hvn). exists v. split; [|done]. apply elem_of_app. left.
  destruct (decide (v ∈ kept)) as [|Hnk]; [done|]. exfalso.
  destruct (Hdrop v Hv Hnk) as [Hp|(c2 & m2 & Hc2 & Hm2 & Hsa2 & Hn2)].
  - apply Hauto, autoVolNames0_elem. exists v. by rewrite <- Hvn.
  - rewrite (Hpriv c m c2 m2) in Hsa; congruence.
Qed.

(** ** Mutating twice *)

Lemma stripAutoMount_keep auto mounts :
  Forall (fun m => at_sa_path m = false /\ vm_Name m ∉ auto) mounts ->
  stripAutoMount auto (mounts ++ [decoy_mount]) = (mounts, {[decoyVolumeName]} ∪ auto).
Proof.
  induction 1 as [|m mounts [Hsa Hn] _ IH]; cbn [app stripAutoMount].
  - by rewrite at_sa_path_decoy, orb_true_r.
  - rewrite bool_decide_eq_false_2, Hsa by done. cbn [orb]. by rewrite IH.
Qed.

Lemma strip_containers_again svcEnv auto cs :
  decoyVolumeName ∈ auto ->
  Forall (fun c => Forall (fun m => at_sa_path m = false /\ vm_Name m ∉ auto) (c_VolumeMounts c)) cs ->
  strip_containers auto (inject svcEnv <$> cs) =
    ((fun c => c_with_env c (c_Env c ++ svcEnv)) <$> cs, auto).
Proof.
  intros Hin. induction 1 as [|c cs Hc _ IH]; [done|]. cbn [fmap list_fmap strip_containers].
  cbn [inject c_with_env c_with_mounts c_VolumeMounts]. rewrite stripAutoMount_keep by done.
  replace ({[decoyVolumeName]} ∪ auto) with auto by set_solver.
  fold (inject svcEnv <$> cs). change (list_fmap _ _ (inject svcEnv) cs) with (inject svcEnv <$> cs).
  rewrite IH. by destruct c.
Qed.

Lemma decoy_autoVolNames0 kept secretName :
  Forall (fun v => HasPrefix (v_Name v) "kube-api-access-" = false) kept ->
  autoVolNames0 (kept ++ [decoyServiceAccountVolume secretName]) = {[decoyVolumeName]}.
Proof.
  intros Hk. unfold autoVolNames0. rewrite filterb_app, filterb_none; [|by apply Forall_forall].
  cbn. set_solver.
Qed.

(** What a container of a valid pod keeps is neither at the ServiceAccount
    path nor the decoy's volume. *)
Definition clean (c : Container) : Prop :=
  Forall (fun m => at_sa_path m = false /\ vm_Name m ∉ ({[decoyVolumeName]} : gset string))
    (c_VolumeMounts c).

Lemma stripped_clean s auto cs cs' :
  mounts_resolve s -> (forall c, c ∈ cs -> c ∈ all_containers s) ->
  autoVolNames0 (ps_Volumes s) ⊆ auto -> Forall2 (stripped auto) cs cs' -> Forall clean cs'.
Proof.
  intros Hres Hcs Hle H2. induction H2 as [|c c' cs cs' (_ & Hsub & Hall) H2 IH]; constructor.
  - apply Forall_forall. intros m Hm. rewrite Forall_forall in Hall.
    destruct (Hall m Hm) as [Hsa Hn]. split; [done|]. rewrite elem_of_singleton. intros Heq.
    destruct (Hres c m) as (v & Hv & Hvn); [set_solver|by eapply elem_of_sublist|].
    apply Hn, Hle, autoVolNames0_elem. exists v. split_and!; [done|done|]. rewrite Heq.
    vm_compute. reflexivity.
  - apply IH. set_solver.
Qed.

Lemma mutate_spec_shape secretName svcEnv s :
  mounts_resolve s ->
  exists ics cs kept,
    Forall clean ics /\ Forall clean cs /\
    Forall (fun v => HasPrefix (v_Name v) "kube-api-access-" = false) kept /\
    ps_InitContainers (mutate_spec secretName svcEnv s) = inject svcEnv <$> ics /\
    ps_Containers (mutate_spec secretName svcEnv s) = inject svcEnv <$> cs /\
    ps_Volumes (mutate_spec secretName svcEnv s) = kept ++ [decoyServiceAccountVolume secretName].
Proof.
  intros Hres. destruct (mutate_spec_volumes secretName svcEnv s) as (kept & Hv & _ & Hk & _).
  rewrite Hv. clear Hv. unfold mutate_spec.
  destruct (strip_containers _ (ps_Containers s)) as [cs auto1] eqn:Hc.
  destruct (strip_containers auto1 (ps_InitContainers s)) as [inits auto2] eqn:Hi. simpl.
  destruct (strip_containers_spec _ _ _ _ Hc) as (Hc2 & Hle & _).
  destruct (strip_containers_spec _ _ _ _ Hi) as (Hi2 & _ & _).
  exists inits, cs, kept. split_and!; try done.
  - eapply (stripped_clean s); [done| |exact Hle|done]. unfold all_containers. set_solver.
  - eapply (stripped_clean s); [done| |reflexivity|done]. unfold all_containers. set_solver.
Qed.

Lemma inject_mounts_again env env' (cs : list Container) :
  c_VolumeMounts <$> (inject env' <$> ((fun c => c_with_env c (c_Env c ++ env)) <$> cs)) =
  c_VolumeMounts <$> (inject env <$> cs).
Proof. rewrite <- !list_fmap_compose. apply list_fmap_ext. by intros i []. Qed.

(** The webhook is idempotent on what it mounts. Mutating a mutated pod
    again, even with another override, changes neither the volumes nor any
    container's mounts: the decoy volume is never duplicated, and nothing
    else is stripped the second time. *)
Theorem mutate_spec_idempotent secretName svcEnv svcEnv' s :
  mounts_resolve s ->
  let once := mutate_spec secretName svcEnv s in
  let twice := mutate_spec secretName svcEnv' once in
  ps_Volumes twice = ps_Volumes once /\
  c_VolumeMounts <$> all_containers twice = c_VolumeMounts <$> all_containers once.
Proof.
  intros Hres once twice.
  destruct (mutate_spec_shape secretName svcEnv s Hres)
    as (ics & cs & kept & Hics & Hcs & Hk & Hi & Hc & Hv). fold once in Hi, Hc, Hv.
  unfold twice, mutate_spec at 1 2, all_containers. rewrite Hv, Hc, Hi, decoy_autoVolNames0 by done.
  rewrite !strip_containers_again by (done || set_solver). simpl. split.
  - f_equal. rewrite filterb_app, filterb_all.
    + cbn. by rewrite app_nil_r.
    + intros v Hvin. rewrite bool_decide_eq_false_2; [done|]. rewrite elem_of_singleton. intros Heq.
      rewrite Forall_forall in Hk. specialize (Hk v Hvin). rewrite Heq in Hk. by vm_compute in Hk.
  - by rewrite !fmap_app, !inject_mounts_again.
Qed.

(** ** The environment *)

(** The value a container sees: kubelet applies the list in order, so the
    last entry of a name wins. *)
Definition effective (env : list EnvVar) (name : string) : option string :=
  env_Value <$> last (filterb (fun e => env_Name e ==? name) env).

Lemma effective_app env env' name :
  effective (env ++ env') name =
  match effective env' name with Some v => Some v | None => effective env name end.
Proof.
  unfold effective. rewrite filterb_app, last_app. by destruct (last (filterb _ env')).
Qed.

Lemma service_family_names ip p rp :
  env_Name <$> service_family ip p rp =
  ["KUBERNETES_SERVICE_HOST"; "KUBERNETES_SERVICE_PORT"; "KUBERNETES_SERVICE_PORT_HTTPS";
   "KUBERNETES_PORT"; "KUBERNETES_PORT_" +:+ Itoa rp +:+ "_TCP";
   "KUBERNETES_PORT_" +:+ Itoa rp +:+ "_TCP_PROTO"; "KUBERNETES_PORT_" +:+ Itoa rp +:+ "_TCP_PORT";
   "KUBERNETES_PORT_" +:+ Itoa rp +:+ "_TCP_ADDR"].
Proof. unfold service_family. cbn [fmap list_fmap env_Name]. by rewrite !sapp_assoc. Qed.

Lemma service_family_NoDup ip p rp : NoDup (env_Name <$> service_family ip p rp).
Proof.
  rewrite service_family_names.
  assert (Hd : forall a b, a <> b -> ("KUBERNETES_PORT_" +:+ Itoa rp +:+ a) <> ("KUBERNETES_PORT_" +:+ Itoa rp +:+ b)).
  { intros a b Hab H. by do 2 apply sapp_inj_l in H. }
  repeat (apply NoDup_cons; split; [rewrite ?not_elem_of_cons; split_and?; try apply not_elem_of_nil|]);
    try apply NoDup_nil_2; try (apply Hd; discriminate); try discriminate.
Qed.

Lemma effective_in env e :
  NoDup (env_Name <$> env) -> e ∈ env -> effective env (env_Name e) = Some (env_Value e).
Proof.
  intros Hn Hin. unfold effective.
  assert (filterb (fun e' => env_Name e' ==? env_Name e) env = [e]) as ->; [|done].
  revert Hn Hin. induction env as [|x env IH]; intros Hn Hin; [by apply not_elem_of_nil in Hin|].
  rewrite fmap_cons in Hn. apply NoDup_cons in Hn as [Hx Hn].
  unfold filterb in *. simpl. apply elem_of_cons in Hin as [->|Hin].
  - rewrite bool_decide_eq_true_2 by done. f_equal. apply filterb_none. intros y Hy.
    apply bool_decide_eq_false. intros Heq. apply Hx. rewrite <- Heq. by apply list_elem_of_fmap_2.
  - rewrite bool_decide_eq_false_2; [by apply IH|]. intros Heq. apply Hx. rewrite Heq.
    by apply list_elem_of_fmap_2.
Qed.

Lemma effective_none env name : name ∉ env_Name <$> env -> effective env name = None.
Proof.
  intros Henv. unfold effective. rewrite filterb_none; [done|]. intros x Hx.
  apply bool_decide_eq_false. intros <-. apply Henv. by apply list_elem_of_fmap_2.
Qed.

(** What kubelet is documented to inject, under service links turned off:
    the variables of the Service "kubernetes" alone, which are these, when it
    has one TCP port, named https. *)
Definition kubelet_documented (injected : Service -> list EnvVar) : Prop :=
  forall svc sp, om_Name (svc_Meta svc) = "kubernetes" -> ss_Ports (svc_Spec svc) = [sp] ->
    sp_Name sp = "https" -> sp_Protocol sp = "TCP" ->
    forall e, e ∈ injected svc -> env_Name e ∈
      ["KUBERNETES_SERVICE_HOST"; "KUBERNETES_SERVICE_PORT"; "KUBERNETES_SERVICE_PORT_HTTPS";
       "KUBERNETES_PORT"; "KUBERNETES_PORT_" +:+ Itoa (sp_Port sp) +:+ "_TCP";
       "KUBERNETES_PORT_" +:+ Itoa (sp_Port sp) +:+ "_TCP_PROTO";
       "KUBERNETES_PORT_" +:+ Itoa (sp_Port sp) +:+ "_TCP_PORT";
       "KUBERNETES_PORT_" +:+ Itoa (sp_Port sp) +:+ "_TCP_ADDR"].

(** C31: the override leaves no variable of the real API server in a
    redirected pod. Kubelet starts a container from the variables it injects
    for the real Service "kubernetes" (one TCP port, named https, and the
    webhook's lookup of it succeeds) and applies the pod's own list over
    them. In every container of the mutated pod each injected variable then
    has the value the same variable would have for the decoy's address and
    port, whatever the pod declared itself, and every variable outside that
    family is as the pod declared it. Values are those of the lists, before
    $(NAME) references in them are expanded. *)
Theorem env_override_complete {W} (decoys : Client W Decoy) (services : Client W Service)
    (injected : Service -> list EnvVar) (real : Service) sp pod w m w' :
  kubelet_documented injected ->
  om_Name (svc_Meta real) = "kubernetes" -> ss_Ports (svc_Spec real) = [sp] ->
  sp_Name sp = "https" -> sp_Protocol sp = "TCP" ->
  (forall w1, (Get services (NN "default" "kubernetes") w1).1 = inr real) ->
  MutatePod decoys services pod w = (inr (Some m), w') ->
  exists ns name kt svc,
    readings decoys services pod w w' ns name kt svc (sp_Port sp) /\
    Forall2 (fun c c' =>
      let final := injected real ++ c_Env c' in
      (forall e, e ∈ injected real -> exists v, effective final (env_Name e) = Some v /\
         Env (env_Name e) v ∈ decoy_family kt svc (sp_Port sp)) /\
      (forall e, e ∈ decoy_family kt svc (sp_Port sp) -> effective final (env_Name e) = Some (env_Value e)) /\
      (forall x, x ∉ env_Name <$> decoy_family kt svc (sp_Port sp) -> effective final x = effective (c_Env c) x))
      (all_containers (p_Spec pod)) (all_containers (p_Spec m)).
Proof.
  intros Hdoc Hname Hports Hhttps Htcp Hreal H.
  apply MutatePod_some in H as (ns & name & kt & svc & port & Hrd & _ & ->).
  assert (port = sp_Port sp) as ->.
  { destruct Hrd as (kube & w1 & w2 & w3 & _ & _ & _ & Hkube & Hport).
    specialize (Hreal w3). rewrite Hkube in Hreal. simpl in Hreal. subst kube.
    destruct Hport as [(? & before & x & after & [= <-] & Hp & _ & _ & ->)|[_ Hno]].
    - rewrite Hports in Hp. by destruct before as [|? []]; simplify_eq/=.
    - destruct (Hno real eq_refl sp); [rewrite Hports; elem_lit|by left]. }
  exists ns, name, kt, svc. split; [done|]. simpl.
  eapply Forall2_impl; [apply mutate_spec_redirected|].
  intros c c' (_ & _ & Henv & _). rewrite Henv. clear Henv. cbv zeta.
  set (family := decoy_family kt svc (sp_Port sp)).
  assert (Hsome : forall e, e ∈ family ->
    effective (injected real ++ c_Env c ++ family) (env_Name e) = Some (env_Value e)).
  { intros e He. rewrite !effective_app. by rewrite (effective_in family e (service_family_NoDup _ _ _) He). }
  assert (Hin : forall e, e ∈ injected real -> env_Name e ∈ env_Name <$> family).
  { intros e He. unfold family, decoy_family. rewrite service_family_names. by eapply Hdoc. }
  split_and!; [|done|].
  - intros e He. apply Hin in He. apply list_elem_of_fmap in He as (x & Hx & Hxf).
    exists (env_Value x). rewrite Hx. split; [by apply Hsome|by destruct x].
  - intros x Hx. rewrite !effective_app, (effective_none family) by done.
    rewrite (effective_none (injected real)); [by destruct (effective (c_Env c) x)|].
    intros (e & -> & He)%list_elem_of_fmap. by apply Hx, Hin.
Qed.

(** ** The annotation *)

(** Exactly which explicit annotation values name a decoy: a non-empty
    namespace without a slash, one slash, and a non-empty rest. The two parts
    are the ones written, so printing and parsing are inverse. *)
Lemma parseJoinTarget_spec value ns name :
  (parseJoinTarget value = Some (ns, name)) <->
  (value = ns +:+ "/" +:+ name) /\ ns <> "" /\ name <> "" /\ ~ contains_byte "/"%char ns.
Proof.
  unfold parseJoinTarget, SplitN2.
  destruct (Cut value "/") as [[b a] found] eqn:HC. split.
  - case_bool_decide; [done|]. destruct found; [|done].
    apply Cut_found in HC as [-> Hb].
    destruct ((b ==? "") || (a ==? "")) eqn:E; [done|]. intros [= <- <-].
    apply orb_false_iff in E as [? ?]. go_bool. by split_and!.
  - intros (-> & Hns & Hname & Hs).
    change ("/" +:+ name) with (String "/" name) in *. rewrite Cut_app in HC by done. simplify_eq.
    rewrite !bool_decide_eq_false_2; [done|done|done|].
    destruct b; [done|]. rewrite sapp_cons. discriminate.
Qed.

(** ** Failing open *)

(** The webhook never rejects a pod. Whatever the request, the lookups,
    the serialisation and the patch computation do, the review is answered
    "allowed" under the request's own UID; and there is a patch only when
    [MutatePod] produced a pod. *)
Theorem review_fails_open {W} (decoys : Client W Decoy) (services : Client W Service)
    Unmarshal Marshal CreatePatch req w :
  exists r w', review decoys services Unmarshal Marshal CreatePatch req w = (inr r, w') /\
    rsp_Allowed r = true /\ rsp_UID r = from_option ar_UID "" req /\
    (forall patch, rsp_Patch r = Some patch ->
       exists q pod m raw, req = Some q /\ Unmarshal (ar_Raw q) = inr pod /\
         (MutatePod decoys services pod w).1 = inr (Some m) /\
         Marshal m = inr raw /\ CreatePatch (ar_Raw q) raw = inr patch).
Proof.
  unfold review. destruct req as [q|]; [|by eexists _, _].
  destruct (Unmarshal (ar_Raw q)) as [e|pod] eqn:Hu; [by eexists _, _|].
  unfold try_, mbind, E_bind.
  destruct (MutatePod decoys services pod w) as [[e|[m|]] w1] eqn:Hm; [by eexists _, _| |by eexists _, _].
  destruct (Marshal m) as [e|raw] eqn:Hr; [by eexists _, _|].
  destruct (CreatePatch (ar_Raw q) raw) as [e|p] eqn:Hp; [by eexists _, _|].
  eexists _, _. split_and!; [done|done|done|]. simpl. intros patch [= <-].
  exists q, pod, m, raw. split_and!; try done. by rewrite Hm.
Qed.

(** ** Concrete pods *)

Module JoinDemo.

Definition mnt (v p : string) : VolumeMount :=
  {| vm_Name := v; vm_MountPath := p; vm_SubPath := ""; vm_ReadOnly := false |}.

Definition vol (n : string) : Volume := {| v_Name := n; v_Source := OtherSource "emptyDir" |}.

Definition with_volumes (s : PodSpec) (l : list Volume) : PodSpec :=
  {| ps_InitContainers := ps_InitContainers s; ps_Containers := ps_Containers s; ps_Volumes := l;
     ps_NodeName := ps_NodeName s; ps_HostNetwork := ps_HostNetwork s;
     ps_Hostname := ps_Hostname s; ps_RuntimeClassName := ps_RuntimeClassName s;
     ps_TerminationGracePeriodSeconds := ps_TerminationGracePeriodSeconds s;
     ps_DNSPolicy := ps_DNSPolicy s; ps_DNSConfig := ps_DNSConfig s;
     ps_AutomountServiceAccountToken := ps_AutomountServiceAccountToken s;
     ps_EnableServiceLinks := ps_EnableServiceLinks s |}.

(** An ordinary pod: the automatic token volume, and one of its own. *)
Definition spec : PodSpec :=
  with_volumes (pod_spec
    [c_with_mounts (container "app" "img")
       [mnt "data" "/data"; mnt "kube-api-access-x7k2p" "/var/run/secrets/kubernetes.io/serviceaccount"]])
    [vol "data"; vol "kube-api-access-x7k2p"].

Definition pod : Pod :=
  {| p_Meta := {| om_Name := "app"; om_Namespace := "shop"; om_UID := "u"; om_ResourceVersion := "";
       om_Generation := 0; om_CreationTimestamp := 0; om_DeletionTimestamp := None;
       om_Labels := ∅; om_Annotations := {[ joinAnnotation := "traps/web" ]};
       om_OwnerReferences := []; om_Finalizers := [] |};
     p_Spec := spec; p_Status := no_pod_status |}.

Definition only {O} (o : O) : Client unit O := {|
  Get _ w := (inr o, w); List_ _ w := (inr [o], w); Create o w := (inr o, w);
  Update o w := (inr o, w); StatusUpdate o w := (inr o, w); Delete _ w := (inr tt, w) |}.

Definition decoys := only (mk_decoy "traps" "web" empty_spec).

Definition service (ns name ip port_name : string) (port : Z) : Service :=
  {| svc_Meta := object_meta name ns ∅;
     svc_Spec := {| ss_ClusterIP := ip; ss_Selector := ∅;
       ss_Ports := [{| sp_Name := port_name; sp_Port := port; sp_TargetPort := inl port_name;
                       sp_Protocol := "TCP" |}] |} |}.

Definition real_service : Service := service "default" "kubernetes" "10.96.0.1" "https" 443.

Definition services : Client unit Service := {|
  Get key w := (inr (if decide (key = NN "default" "kubernetes") then real_service
                     else service "traps" "web" "10.96.7.7" "decoy" 6443), w);
  List_ _ w := (inr [], w); Create o w := (inr o, w);
  Update o w := (inr o, w); StatusUpdate o w := (inr o, w); Delete _ w := (inr tt, w) |}.

(** A kubelet that injects the variables of a Service with one port. *)
Definition injected (svc : Service) : list EnvVar :=
  match ss_Ports (svc_Spec svc) with
  | [sp] => service_family (ss_ClusterIP (svc_Spec svc)) (sp_Port sp) (sp_Port sp)
  | _ => []
  end.

Lemma injected_documented : kubelet_documented injected.
Proof.
  intros svc sp _ Hsp _ _ e He. unfold injected in He. rewrite Hsp in He.
  rewrite <- (service_family_names (ss_ClusterIP (svc_Spec svc)) (sp_Port sp)). by apply list_elem_of_fmap_2.
Qed.

Definition mutated : Pod :=
  with_spec pod (mutate_spec (mirroredSecretName "web")
    (kubernetesServiceEnv "10.96.7.7" 6443 443) spec).

Lemma mutated_run : MutatePod decoys services pod tt = (inr (Some mutated), tt).
Proof. vm_compute. reflexivity. Qed.

Lemma MutatePod_redirects_witness :
  exists ns name,
    (exists w1, resolveJoinAnnotation decoys "shop" "traps/web" tt = (inr (Some (ns, name)), w1)) /\
    filterb (fun v => HasPrefix (v_Name v) "kube-api-access-") (ps_Volumes (p_Spec mutated)) =
      [decoyServiceAccountVolume (if decide ("shop" = ns) then decoySecretName name
                                  else mirroredSecretName name)].
Proof.
  destruct (MutatePod_redirects decoys services pod tt mutated tt mutated_run)
    as (ns & name & kt & svc & rp & (kube & w1 & w2 & w3 & Hres & _) & _ & _ & _ & _ & Hv & _).
  exists ns, name. split; [exists w1; exact Hres|exact Hv].
Defined.

Lemma env_override_complete_witness :
  exists kt svc, Forall2 (fun c c' => forall e, e ∈ injected real_service ->
      exists v, effective (injected real_service ++ c_Env c') (env_Name e) = Some v /\
        Env (env_Name e) v ∈ decoy_family kt svc 443)
    (all_containers spec) (all_containers (p_Spec mutated)).
Proof.
  destruct (env_override_complete decoys services injected real_service
    {| sp_Name := "https"; sp_Port := 443; sp_TargetPort := inl "https"; sp_Protocol := "TCP" |}
    pod tt mutated tt injected_documented eq_refl eq_refl eq_refl eq_refl (fun _ => eq_refl) mutated_run)
    as (ns & name & kt & svc & _ & H).
  exists kt, svc. eapply Forall2_impl; [exact H|]. intros c c' [Hc _]. exact Hc.
Defined.

Lemma spec_mounts_resolve : mounts_resolve spec.
Proof.
  intros c m Hc Hm. unfold all_containers, spec in Hc. simpl in Hc.
  apply list_elem_of_singleton in Hc as ->. simpl in Hm. elem_cases Hm.
  - exists (vol "data"). split; [elem_lit|reflexivity].
  - exists (vol "kube-api-access-x7k2p"). split; [elem_lit|reflexivity].
Qed.

Lemma mutate_spec_mounts_resolve_witness :
  mounts_resolve (mutate_spec "web-decoy" (kubernetesServiceEnv "10.96.7.7" 6443 443) spec).
Proof.
  apply (mutate_spec_mounts_resolve "web-decoy" _ spec spec_mounts_resolve).
  intros c m c' m' Hc Hm Hc' Hm'. unfold all_containers, spec in Hc, Hc'. simpl in Hc, Hc'.
  apply list_elem_of_singleton in Hc as ->. apply list_elem_of_singleton in Hc' as ->.
  simpl in Hm, Hm'. elem_cases Hm; elem_cases Hm'; intros Hn; try reflexivity; discriminate Hn.
Defined.

Lemma mutate_spec_idempotent_witness :
  ps_Volumes (mutate_spec "web-decoy" [] (mutate_spec "web-decoy" [] spec)) =
  ps_Volumes (mutate_spec "web-decoy" [] spec).
Proof. apply (mutate_spec_idempotent "web-decoy" [] [] spec spec_mounts_resolve). Defined.

(** A pod that mounts one volume of its own at the ServiceAccount path in one
    container and at another path in the container before it. *)
Definition shared_spec : PodSpec :=
  with_volumes (pod_spec
    [c_with_mounts (container "writer" "img") [mnt "tokens" "/tokens"];
     c_with_mounts (container "app" "img")
       [mnt "tokens" "/var/run/secrets/kubernetes.io/serviceaccount"]])
    [vol "tokens"].

(** The condition of [mutate_spec_mounts_resolve] is needed. A volume of
    the pod's own that one container mounts elsewhere and a later one at the
    ServiceAccount path is removed from the pod while the earlier mount
    stays: the valid pod becomes one the API server refuses, so the webhook
    blocks its creation. *)
Theorem mutate_spec_dangling_mount :
  mounts_resolve shared_spec /\
  ~ mounts_resolve (mutate_spec "web-decoy" (kubernetesServiceEnv "10.96.7.7" 6443 443) shared_spec).
Proof.
  split.
  - intros c m Hc Hm. unfold all_containers in Hc. simpl in Hc. exists (vol "tokens").
    split; [elem_lit|]. elem_cases Hc; simpl in Hm; elem_cases Hm; reflexivity.
  - intros H.
    set (env := kubernetesServiceEnv "10.96.7.7" 6443 443) in H.
    set (s := mutate_spec _ _ _) in H.
    assert (Hall : all_containers s =
      [inject env (c_with_mounts (container "writer" "img") [mnt "tokens" "/tokens"]);
       inject env (c_with_mounts (container "app" "img") [])]) by (vm_compute; reflexivity).
    assert (Hc : exists c, c ∈ all_containers s /\ mnt "tokens" "/tokens" ∈ c_VolumeMounts c).
    { eexists. rewrite Hall. split; [apply list_elem_of_here|apply list_elem_of_here]. }
    destruct Hc as (c & Hc & Hm). destruct (H c _ Hc Hm) as (v & Hv & Hn).
    assert (Hnames : v_Name <$> ps_Volumes s = [decoyVolumeName]) by (vm_compute; reflexivity).
    apply (list_elem_of_fmap_2 v_Name) in Hv. rewrite Hnames, Hn in Hv.
    apply list_elem_of_singleton in Hv. discriminate Hv.
Qed.

End JoinDemo.
