(* ===== verification/JoinedPods.v ===== *)
(** * internal/controller/decoy_controller.go: joined pods

    Which pods of the cluster have joined a decoy ([listJoinedPods]), what
    happens when one joins or leaves ([reconcileJoinTransitions]), and which
    pod events wake the reconciler. The iteration order of a Go map is an
    argument. *)

From stdpp Require Import sorting.
From S2P Require Import Prelude GoStrings KubeTypes ApiTypes Kube Server Host AuditWebhook Notifier Names Join.
From Stdlib Require Import Ascii.
#[local] Open Scope string_scope.
#[local] Open Scope list_scope.

Definition pod_key (p : Pod) : NamespacedName := NN (p_Namespace p) (p_Name p).
Definition jp_key (p : JoinedPod) : NamespacedName := NN (jp_Namespace p) (jp_Name p).

(** The order of [sort.Slice] in [listJoinedPods]. *)
Definition pod_less (a b : Pod) : bool :=
  if p_Namespace a !=? p_Namespace b then str_lt (p_Namespace a) (p_Namespace b)
  else str_lt (p_Name a) (p_Name b).

Definition pod_le (a b : Pod) : Prop := pod_less b a = false.
#[global] Instance pod_le_dec a b : Decision (pod_le a b) := decide (pod_less b a = false).

Lemma str_lt_asym a b : str_lt a b = true -> str_lt b a = false.
Proof.
  unfold str_lt, String.ltb. rewrite (String.compare_antisym b a). by destruct (String.compare a b).
Qed.

#[global] Instance pod_le_total : Total pod_le.
Proof.
  intros a b. unfold pod_le. destruct (pod_less b a) eqn:E; [right|by left].
  unfold pod_less in *. repeat case_bool_decide; simpl in *; try congruence; by apply str_lt_asym.
Qed.

(** [sort.Slice] on pods; keys are distinct, so that it is not stable does not
    show. *)
Definition sort_pods (l : list Pod) : list Pod := merge_sort pod_le l.

Section Joined.
Context {W : Type} (pods : Client W Pod) (decoys : Client W Decoy).

(** [soleInCluster] and [soleInOwnNS], from the listed decoys. *)
Definition implicit_flags (kt : Decoy) (items : list Decoy) : bool * bool :=
  match items with
  | [d] => ((kt_Namespace d ==? kt_Namespace kt) && (kt_Name d ==? kt_Name kt), false)
  | _ => (false,
      bool_decide (length (filterb (fun d => kt_Namespace d ==? kt_Namespace kt) items) = 1))
  end.

(** The closure [resolveImplicit], when it has not run before.
    [src/internal/controller/decoy_controller.go:372-399, resolveImplicit] *)
Definition resolveImplicit (kt : Decoy) : E W (bool * bool) :=
  r ← try_ (List_ decoys everything);
  match r with
  | inl _ => mret (false, false)
  | inr items => mret (implicit_flags kt items)
  end.

(** The loop over the pods; [memo] is what [resolveImplicit] found. *)
Fixpoint join_loop (kt : Decoy) (memo : option (bool * bool)) (l : list Pod) : E W (list Pod) :=
  match l with
  | [] => mret []
  | p :: rest =>
      let val := annotation p joinAnnotation in
      if val ==? kt_Namespace kt +:+ "/" +:+ kt_Name kt then
        joined ← join_loop kt memo rest; mret (p :: joined)
      else if val ==? joinAnnotationImplicit then
        flags ← match memo with Some f => mret f | None => resolveImplicit kt end;
        joined ← join_loop kt (Some flags) rest;
        let '(soleInCluster, soleInOwnNS) := flags in
        mret (if soleInCluster || (soleInOwnNS && (p_Namespace p ==? kt_Namespace kt))
              then p :: joined else joined)
      else join_loop kt memo rest
  end.

(** [src/internal/controller/decoy_controller.go:350-423, listJoinedPods] *)
Definition listJoinedPods (kt : Decoy) : E W (list Pod) :=
  podList ← List_ pods everything;
  joined ← join_loop kt None podList;
  mret (sort_pods joined).

(** [src/internal/controller/decoy_controller.go:519-538, mapJoinedPodToDecoy] *)
Definition mapJoinedPodToDecoy (pod : Pod) : E W (list NamespacedName) :=
  r ← resolveJoinAnnotation decoys (p_Namespace pod) (annotation pod joinAnnotation);
  match r with
  | None => mret []
  | Some (ns, name) => mret [NN ns name]
  end.

End Joined.

(** ** Which pod events wake the reconciler *)

Inductive pod_event :=
  | PodCreate (p : Pod) | PodDelete (p : Pod) | PodUpdate (old new : Pod) | PodGeneric (p : Pod).

Definition has_join (p : Pod) : bool :=
  bool_decide (is_Some (om_Annotations (p_Meta p) !! joinAnnotation)).

(** [src/internal/controller/decoy_controller.go:1017-1042, podJoinAnnotationPredicate] *)
Definition podJoinAnnotationPredicate (e : pod_event) : bool :=
  match e with
  | PodCreate p | PodDelete p | PodGeneric p => has_join p
  | PodUpdate old new => has_join old || has_join new
  end.

(** [src/internal/controller/decoy_controller.go:1044-1057, podIsRedirected] *)
Definition podIsRedirected (p : Pod) : bool :=
  existsb (fun v => v_Name v ==? decoyVolumeName) (ps_Volumes (p_Spec p)).

(** ** Transitions *)

Section Transitions.
Context {W : Type}.
(** [r.Recorder.Event] and [r.Notifier.NotifyPodJoin]; [None] is the nil
    dependency. *)
Context (Recorder : option (Decoy -> string -> string -> string -> E W unit)).
Context (notify : option (DecoyRef -> NamespacedName -> bool -> E W unit)).

(** [NamespacedName.String]. *)
Definition nn_String (k : NamespacedName) : string := nn_Namespace k +:+ "/" +:+ nn_Name k.

Definition opt_call {A} (f : option A) (k : A -> E W unit) : E W unit :=
  match f with Some f => k f | None => mret tt end.

(** The two side effects of one transition. *)
Definition transition (kt : Decoy) (t : NamespacedName * bool) : E W unit :=
  let '(key, joined) := t in
  _ ← opt_call Recorder (fun ev =>
        if joined then ev kt "Normal" "PodJoined" ("Pod " +:+ nn_String key +:+ " joined the decoy")
        else ev kt "Normal" "PodLeft" ("Pod " +:+ nn_String key +:+ " left the decoy"));
  opt_call notify (fun nt =>
        nt {| dr_Namespace := kt_Namespace kt; dr_Name := kt_Name kt |} key joined).

(** [order] is the order in which the runtime ranges over [wasJoined].
    [src/internal/controller/decoy_controller.go:425-460, reconcileJoinTransitions] *)
Definition reconcileJoinTransitions (order : list NamespacedName) (kt : Decoy)
    (previous : list JoinedPod) (current : list Pod) : E W unit :=
  let wasJoined : gset NamespacedName := list_to_set (jp_key <$> previous) in
  let isJoined : gset NamespacedName := list_to_set (pod_key <$> current) in
  _ ← for_each (fun p => if bool_decide (pod_key p ∈ wasJoined) then mret tt
                         else transition kt (pod_key p, true)) current;
  for_each (fun key => if bool_decide (key ∈ isJoined) then mret tt
                       else transition kt (key, false)) order.

End Transitions.

(** ** The webhook and the reconciler agree *)

(** [l] lists the decoys of [m]. *)
Definition lists (m : gmap NamespacedName Decoy) (l : list Decoy) : Prop :=
  NoDup (kt_key <$> l) /\ forall d, d ∈ l <-> m !! kt_key d = Some d.

Lemma lists_perm m l1 l2 : lists m l1 -> lists m l2 -> l1 ≡ₚ l2.
Proof.
  intros [Hn1 H1] [Hn2 H2]. apply NoDup_Permutation.
  - by eapply NoDup_fmap_1.
  - by eapply NoDup_fmap_1.
  - intros d. by rewrite H1, H2.
Qed.

(** The value of [l] when it is a singleton does not depend on its order. *)
Lemma singleton_perm {A B} (l1 l2 : list A) (f : A -> B) (g1 g2 : B) :
  l1 ≡ₚ l2 -> g1 = g2 ->
  match l1 with [x] => f x | _ => g1 end = match l2 with [x] => f x | _ => g2 end.
Proof.
  intros Hp <-. destruct l1 as [|x [|y l1]].
  - apply Permutation_nil in Hp as ->. done.
  - symmetry in Hp. apply Permutation_singleton_r in Hp as ->. done.
  - destruct l2 as [|x' [|y' l2]]; try done. apply Permutation_singleton_r in Hp. done.
Qed.

Lemma filterb_perm {A} (p : A -> bool) l1 l2 : l1 ≡ₚ l2 -> filterb p l1 ≡ₚ filterb p l2.
Proof.
  unfold filterb. induction 1 as [|x l1 l2 _ IH|x y l|l1 l2 l3 _ IH1 _ IH2]; simpl; [done|..].
  - destruct (p x); [by constructor|done].
  - destruct (p x), (p y); try done. constructor.
  - by etransitivity.
Qed.

Lemma implicit_flags_perm kt l1 l2 : l1 ≡ₚ l2 -> implicit_flags kt l1 = implicit_flags kt l2.
Proof.
  intros Hp. apply singleton_perm; [done|]. f_equal.
  apply bool_decide_ext. by rewrite (filterb_perm _ _ _ Hp).
Qed.

Lemma resolve_implicit_perm ns l1 l2 : l1 ≡ₚ l2 -> resolve_implicit ns l1 = resolve_implicit ns l2.
Proof.
  intros Hp. apply singleton_perm; [done|]. apply singleton_perm; [by apply filterb_perm|done].
Qed.

(** How an annotation resolves among the decoys [items]. *)
Definition resolves (items : list Decoy) (ns val : string) : option (string * string) :=
  if val ==? joinAnnotationImplicit then resolve_implicit ns items else parseJoinTarget val.

Lemma implicit_agrees kt d items ns :
  d ∈ items -> kt_key d = kt_key kt ->
  (let '(a, b) := implicit_flags kt items in a || (b && (ns ==? kt_Namespace kt))) =
  bool_decide (resolve_implicit ns items = Some (kt_Namespace kt, kt_Name kt)).
Proof.
  intros Hin Hk. injection Hk as Hns Hname.
  destruct items as [|x [|y rest]]; [by apply not_elem_of_nil in Hin|..].
  - apply list_elem_of_singleton in Hin as <-. unfold implicit_flags, resolve_implicit.
    rewrite Hns, Hname. simpl. rewrite orb_false_r. by rewrite !bool_decide_eq_true_2.
  - change (implicit_flags kt (x :: y :: rest)) with
      (false, bool_decide (length (filterb (fun d => kt_Namespace d ==? kt_Namespace kt) (x :: y :: rest)) = 1)).
    change (resolve_implicit ns (x :: y :: rest)) with
      (match filterb (fun kt => kt_Namespace kt ==? ns) (x :: y :: rest) with
       | [kt] => Some (ns, kt_Name kt) | _ => None end).
    set (items := x :: y :: rest) in *. clearbody items. cbn [orb].
    destruct (decide (ns = kt_Namespace kt)) as [->|Hne].
    + rewrite (bool_decide_eq_true_2 (kt_Namespace kt = _)) by done. rewrite andb_true_r.
      assert (Hd : d ∈ filterb (fun e => kt_Namespace e ==? kt_Namespace kt) items).
      { apply elem_of_filterb. split; [done|]. by apply bool_decide_eq_true. }
      destruct (filterb _ items) as [|e [|e' l]].
      * by apply not_elem_of_nil in Hd.
      * apply list_elem_of_singleton in Hd as <-. rewrite Hname. by rewrite !bool_decide_eq_true_2.
      * rewrite !bool_decide_eq_false_2; [done|done|simpl; lia].
    + rewrite (bool_decide_eq_false_2 (ns = _)) by done. rewrite andb_false_r.
      symmetry. apply bool_decide_eq_false. by destruct (filterb _ items) as [|? [|? ?]]; intros [= ].
Qed.

(** A decoy whose key can be written in an annotation. *)
Definition nameable (kt : Decoy) : Prop :=
  kt_Namespace kt <> "" /\ kt_Name kt <> "" /\ ~ contains_byte "/"%char (kt_Namespace kt).

Lemma explicit_agrees kt val :
  nameable kt -> (val = kt_Namespace kt +:+ "/" +:+ kt_Name kt) <->
  parseJoinTarget val = Some (kt_Namespace kt, kt_Name kt).
Proof. intros (H1 & H2 & H3). rewrite parseJoinTarget_spec. naive_solver. Qed.

Lemma parse_true : parseJoinTarget joinAnnotationImplicit = None.
Proof. reflexivity. Qed.

Section Agreement.
Context {W : Type} (pods : Client W Pod) (decoys : Client W Decoy).
Context (dview : W -> gmap NamespacedName Decoy) `{!Serves dview decoy_body decoys}.
Lemma list_decoys w l w' :
  List_ decoys everything w = (inr l, w') -> dview w' = dview w /\ lists (dview w) l.
Proof.
  intros H. apply (serves_list dview _) in H as [Hv [Hn Hl]]. split; [done|]. split; [exact Hn|].
  intros d. rewrite Hl. unfold list_match. simpl. pose proof (map_empty_subseteq (om_Labels (kt_Meta d))). tauto.
Qed.

(** What the webhook answers when it is asked about [p] in [w]. *)
Definition webhook_answer (w : W) (p : Pod) : option (string * string) :=
  match (resolveJoinAnnotation decoys (p_Namespace p) (annotation p joinAnnotation) w).1 with
  | inr r => r
  | inl _ => None
  end.

(** Either its own listing succeeds, or an implicit annotation resolves to
    nothing. *)
Lemma webhook_answer_resolves w p :
  webhook_answer w p =
  match (List_ decoys everything w).1 with
  | inr items => resolves items (p_Namespace p) (annotation p joinAnnotation)
  | inl _ => if annotation p joinAnnotation ==? joinAnnotationImplicit then None
             else parseJoinTarget (annotation p joinAnnotation)
  end.
Proof.
  unfold webhook_answer, resolveJoinAnnotation, resolves, mbind, E_bind, try_.
  destruct (bool_decide (annotation p joinAnnotation = joinAnnotationImplicit));
    by destruct (List_ decoys everything w) as [[e|items] w1].
Qed.

Lemma resolves_same m w1 w2 items1 items2 w1' w2' ns val :
  dview w1 = m -> dview w2 = m ->
  List_ decoys everything w1 = (inr items1, w1') -> List_ decoys everything w2 = (inr items2, w2') ->
  resolves items1 ns val = resolves items2 ns val.
Proof using All.
  intros Hm1 Hm2 [_ Hl1]%list_decoys [_ Hl2]%list_decoys. rewrite Hm1 in Hl1. rewrite Hm2 in Hl2.
  unfold resolves. case_bool_decide; [|done]. apply resolve_implicit_perm. by eapply lists_perm.
Qed.

(** What [resolveImplicit] finds is the webhook's answer for implicit
    annotations, whether its listing succeeds or not. *)
Lemma resolveImplicit_answers kt d p w f w' :
  dview w !! kt_key kt = Some d -> annotation p joinAnnotation = joinAnnotationImplicit ->
  resolveImplicit decoys kt w = (inr f, w') ->
  (f.1 || (f.2 && (p_Namespace p ==? kt_Namespace kt))) =
  bool_decide (webhook_answer w p = Some (kt_Namespace kt, kt_Name kt)).
Proof using All.
  intros Hkt Hp. rewrite webhook_answer_resolves, Hp.
  unfold resolveImplicit, resolves, mbind, E_bind, try_.
  rewrite (bool_decide_eq_true_2 (joinAnnotationImplicit = _)) by done.
  destruct (List_ decoys everything w) as [[e|items] w1] eqn:Hl; simpl; intros [= <- <-].
  - done.
  - apply list_decoys in Hl as [_ [_ Hin]].
    assert (Hdk : kt_key d = kt_key kt) by (by apply (serves_key dview _) in Hkt).
    pose proof (implicit_agrees kt d items (p_Namespace p)) as Ha.
    destruct (implicit_flags kt items) as [a b]. simpl. rewrite Ha; [|by rewrite Hin, Hdk|done].
    done.
Qed.

Lemma explicit_answers kt p w :
  nameable kt -> annotation p joinAnnotation <> joinAnnotationImplicit ->
  webhook_answer w p = Some (kt_Namespace kt, kt_Name kt) <->
  annotation p joinAnnotation = kt_Namespace kt +:+ "/" +:+ kt_Name kt.
Proof.
  intros Hn Hi. rewrite webhook_answer_resolves, (explicit_agrees kt _ Hn). unfold resolves.
  rewrite !(bool_decide_eq_false_2 (annotation p joinAnnotation = joinAnnotationImplicit)) by done.
  destruct (List_ decoys everything w).1; done.
Qed.

(** The loop keeps the pods the webhook, asked in the world where the loop
    began, sends to the decoy: its only call lists the decoys there. *)
Lemma join_loop_filters w0 kt d memo l w joined w' :
  dview w0 !! kt_key kt = Some d -> nameable kt ->
  match memo with None => w = w0 | Some f => (resolveImplicit decoys kt w0).1 = inr f end ->
  join_loop decoys kt memo l w = (inr joined, w') ->
  joined = filterb (fun p => bool_decide (webhook_answer w0 p = Some (kt_Namespace kt, kt_Name kt))) l.
Proof using All.
  intros Hd Hname. revert memo w joined w'. induction l as [|p l IH]; intros memo w joined w' Hmemo;
    simpl; [by intros [= <- <-]|].
  destruct (decide (annotation p joinAnnotation = joinAnnotationImplicit)) as [Hi|Hi].
  - rewrite (bool_decide_eq_false_2 (annotation p joinAnnotation = _ +:+ _)), Hi.
    2:{ rewrite Hi. intros Hx%(explicit_agrees kt); [|done]. by rewrite parse_true in Hx. }
    simpl. intros (f & w1 & Hf & He)%E_bind_inr. apply E_bind_inr in He as (rest & w2 & Hr & He).
    assert (Hf0 : (resolveImplicit decoys kt w0).1 = inr f).
    { destruct memo as [f0|]; [by injection Hf as -> _|]. subst w. by rewrite Hf. }
    apply (IH (Some f)) in Hr as ->; [|done].
    destruct (resolveImplicit decoys kt w0) as [r0 w3] eqn:Hri. simpl in Hf0. subst r0.
    rewrite <- (resolveImplicit_answers kt d p w0 f w3 Hd Hi Hri). destruct f as [a b]. simpl.
    injection He as <- _. by destruct (a || _).
  - destruct (decide (annotation p joinAnnotation = kt_Namespace kt +:+ "/" +:+ kt_Name kt)) as [Ht|Ht];
    [rewrite (bool_decide_eq_true_2 (annotation p joinAnnotation = _ +:+ _)) by done
    |rewrite (bool_decide_eq_false_2 (annotation p joinAnnotation = _ +:+ _)) by done].
    + intros (rest & w1 & Hr & He)%E_bind_inr. injection He as <- <-. apply IH in Hr as ->; [|done].
      rewrite bool_decide_eq_true_2; [done|]. by apply explicit_answers.
    + rewrite (bool_decide_eq_false_2 (annotation p joinAnnotation = joinAnnotationImplicit)) by done.
      intros Hr. apply IH in Hr as ->; [|done]. rewrite bool_decide_eq_false_2; [done|].
      by rewrite explicit_answers.
Qed.

Context (pview : W -> gmap NamespacedName Pod) (pbody : option Pod -> Pod -> Pod -> Prop).
Context `{!Serves pview pbody pods} `{!Leaves pods dview}.

End Agreement.

(** ** Transitions happen on the edges *)

Section Edges.
Context {W : Type}.
Context (Recorder : option (Decoy -> string -> string -> string -> E W unit)).
Context (notify : option (DecoyRef -> NamespacedName -> bool -> E W unit)).

(** C19: events and alerts fire on the edge only, and on every edge. In
    whatever order the runtime visits the old set, a reconcile runs the two
    side effects (record an Event, notify the alerts) once for each pod that
    is joined now and was not, and once for each that was and is not any
    more, and for no other pod. The pods joined now are distinct, as pods of
    one listing are. *)
Theorem reconcileJoinTransitions_edges order kt previous current :
  order ≡ₚ elements (list_to_set (jp_key <$> previous) : gset NamespacedName) ->
  NoDup (pod_key <$> current) ->
  exists ts, NoDup ts /\
    (forall k, (k, true) ∈ ts <-> (k ∈ pod_key <$> current) /\ k ∉ jp_key <$> previous) /\
    (forall k, (k, false) ∈ ts <-> (k ∈ jp_key <$> previous) /\ k ∉ pod_key <$> current) /\
    forall w, reconcileJoinTransitions Recorder notify order kt previous current w =
              for_each (transition Recorder notify kt) ts w.
Proof.
  intros Horder Hnd. set (was := list_to_set (jp_key <$> previous) : gset NamespacedName) in *.
  set (now := list_to_set (pod_key <$> current) : gset NamespacedName).
  set (ts1 := (fun p => (pod_key p, true)) <$> filterb (fun p => negb (bool_decide (pod_key p ∈ was))) current).
  set (ts2 := (fun k : NamespacedName => (k, false)) <$> filterb (fun k => negb (bool_decide (k ∈ now))) order).
  assert (H1 : forall k b, (k, b) ∈ ts1 <-> b = true /\ (k ∈ pod_key <$> current) /\ k ∉ jp_key <$> previous).
  { intros k b. unfold ts1. rewrite list_elem_of_fmap. split.
    - intros (p & [= -> ->] & [Hp Hn]%elem_of_filterb). split_and!; [done|by apply list_elem_of_fmap_2|].
      rewrite negb_true_iff, bool_decide_eq_false in Hn. unfold was in Hn. by rewrite elem_of_list_to_set in Hn.
    - intros (-> & (p & -> & Hp)%list_elem_of_fmap & Hn). exists p. split; [done|].
      apply elem_of_filterb. split; [done|]. rewrite negb_true_iff, bool_decide_eq_false.
      unfold was. by rewrite elem_of_list_to_set. }
  assert (H2 : forall k b, (k, b) ∈ ts2 <-> b = false /\ (k ∈ jp_key <$> previous) /\ k ∉ pod_key <$> current).
  { intros k b. unfold ts2. rewrite list_elem_of_fmap.
    assert (Hs : forall k, k ∈ order <-> k ∈ jp_key <$> previous).
    { intros k'. rewrite Horder, elem_of_elements. unfold was. by rewrite elem_of_list_to_set. }
    split.
    - intros (p & [= -> ->] & [Hp Hn]%elem_of_filterb). split_and!; [done|by apply Hs|].
      rewrite negb_true_iff, bool_decide_eq_false in Hn. unfold now in Hn. by rewrite elem_of_list_to_set in Hn.
    - intros (-> & Hp & Hn). exists k. split; [done|].
      apply elem_of_filterb. split; [by apply Hs|]. rewrite negb_true_iff, bool_decide_eq_false.
      unfold now. by rewrite elem_of_list_to_set. }
  exists (ts1 ++ ts2). split_and!.
  - apply NoDup_app. split_and!.
    + apply NoDup_fmap_1 with (f := fst). unfold ts1. rewrite <- list_fmap_compose.
      eapply sublist_NoDup; [exact Hnd|]. apply fmap_sublist. apply filterb_sublist.
    + intros [k b] Ha%H1 Hb%H2. naive_solver.
    + apply NoDup_fmap; [by intros ?? [= ]|]. eapply sublist_NoDup; [|apply filterb_sublist].
      rewrite Horder. apply NoDup_elements.
  - intros k. rewrite elem_of_app, H1, H2. naive_solver.
  - intros k. rewrite elem_of_app, H1, H2. naive_solver.
  - intros w. unfold reconcileJoinTransitions. rewrite <- for_each_app.
    unfold mbind, E_bind. fold was now.
    pose proof (for_each_skip (fun p => bool_decide (pod_key p ∈ was)) (fun p => (pod_key p, true))
      (transition Recorder notify kt) current w) as Hfst. cbv beta in Hfst. rewrite Hfst. fold ts1.
    destruct (for_each _ ts1 w) as [[e|u] w1]; [reflexivity|].
    apply (for_each_skip (fun k => bool_decide (k ∈ now)) (fun k => (k, false))).
Qed.
End Edges.

(** ** Pod events *)

Definition pods_of (e : pod_event) : list Pod :=
  match e with
  | PodCreate p | PodDelete p | PodGeneric p => [p]
  | PodUpdate old new => [old; new]
  end.

Lemma resolve_has_join {W} (decoys : Client W Decoy) p w t w' :
  resolveJoinAnnotation decoys (p_Namespace p) (annotation p joinAnnotation) w = (inr (Some t), w') ->
  has_join p = true.
Proof.
  unfold has_join, annotation. destruct (om_Annotations (p_Meta p) !! joinAnnotation) as [v|]; [by intros; apply bool_decide_eq_true; eexists|].
  done.
Qed.

(** No join goes unnoticed. For every pod event, if the old or the new
    state of the pod resolves to a decoy, the watch's predicate lets the
    event through and that state maps to a reconcile of exactly that decoy
    (so removing the annotation still wakes the decoy it pointed at). *)
Theorem pod_events_wake {W} (decoys : Client W Decoy) e p w ns name w' :
  p ∈ pods_of e ->
  resolveJoinAnnotation decoys (p_Namespace p) (annotation p joinAnnotation) w = (inr (Some (ns, name)), w') ->
  podJoinAnnotationPredicate e = true /\
  mapJoinedPodToDecoy decoys p w = (inr [NN ns name], w').
Proof.
  intros Hp Hr. split.
  - apply resolve_has_join in Hr. destruct e; simpl in *; elem_cases Hp; rewrite Hr; by rewrite ?orb_true_r.
  - unfold mapJoinedPodToDecoy, mbind, E_bind. by rewrite Hr.
Qed.

(** A pod the webhook rewrote is reported as redirected, and a pod
    without the decoy's volume (annotated only after it was created) is
    not. *)
Theorem podIsRedirected_mutated {W} (decoys : Client W Decoy) (services : Client W Service) pod w m w' :
  MutatePod decoys services pod w = (inr (Some m), w') ->
  podIsRedirected m = true /\
  ((forall v, v ∈ ps_Volumes (p_Spec pod) -> v_Name v <> decoyVolumeName) -> podIsRedirected pod = false).
Proof.
  intros Hm. split.
  - apply MutatePod_some in Hm as (ns & name & kt & svc & rp & _ & _ & ->).
    unfold podIsRedirected. apply existsb_true. exists (decoyServiceAccountVolume
      (if p_Namespace pod !=? ns then mirroredSecretName name else decoySecretName name)).
    split; [|done]. unfold with_spec, mutate_spec. simpl.
    destruct (strip_containers _ (ps_Containers _)) as [cs a1].
    destruct (strip_containers a1 _) as [ics a2]. simpl. apply elem_of_app. right. by apply list_elem_of_singleton.
  - intros Hv. unfold podIsRedirected. apply existsb_false. intros v Hin.
    apply bool_decide_eq_false. by apply Hv.
Qed.
