(* ===== verification/RenderSeed.v ===== *)
(** * internal/controller/render.go: the seed

    What the operator renders for kubelet-shim to load: the Decoy's own fake
    objects, the joined pods mirrored, and the synthesized kube-system
    fixtures, as a [seed.Seed] value ([renderSeed]), its JSON form, and the
    other files of the ConfigMap. The YAML library is a parameter. *)

From S2P Require Import Prelude GoStrings Json KubeTypes ApiTypes Kube Hash Names.
#[local] Open Scope string_scope.
#[local] Open Scope list_scope.

(** [src/internal/controller/render.go:638-670, mirrorJoinedPod] *)
Definition mirrorJoinedPod (p : Pod) : FakePod :=
  {| fp_Name := p_Name p; fp_Namespace := p_Namespace p; fp_Replicas := 1;
     fp_Containers := (fun c => {| fc_Name := c_Name c; fc_Image := c_Image c |})
                      <$> ps_Containers (p_Spec p);
     fp_NodeName := ""; fp_LogLines := []; fp_Labels := om_Labels (p_Meta p) |}.

Definition mk_crd (g k p : string) (short : list string) (scope : string) : seed.CRD :=
  {| seed.crd_Group := g; seed.crd_Kind := k; seed.crd_Plural := p; seed.crd_Singular := "";
     seed.crd_ShortNames := short; seed.crd_Versions := []; seed.crd_Scope := scope |}.

(** [src/internal/controller/render.go:193-205, defaultCRDs] *)
Definition defaultCRDs : list seed.CRD :=
  [mk_crd "cert-manager.io" "Certificate" "certificates" ["cert"; "certs"] "";
   mk_crd "cert-manager.io" "Issuer" "issuers" [] "";
   mk_crd "cert-manager.io" "ClusterIssuer" "clusterissuers" [] "Cluster";
   mk_crd "monitoring.coreos.com" "ServiceMonitor" "servicemonitors" ["smon"] "";
   mk_crd "monitoring.coreos.com" "PrometheusRule" "prometheusrules" ["promrule"] ""].

Definition crd_key (c : seed.CRD) : string := seed.crd_Plural c +:+ "." +:+ seed.crd_Group c.

(** The closure [add] of [renderCRDs], on [byName] and [order]. *)
Definition crd_add (acc : gmap string seed.CRD * list string) (c : seed.CRD)
    : gmap string seed.CRD * list string :=
  let '(byName, order) := acc in
  let key := crd_key c in
  (<[key := c]> byName,
   match byName !! key with Some _ => order | None => order ++ [key] end).

(** The author's entry in seed form. *)
Definition of_fakeCRD (fc : FakeCRD) : seed.CRD :=
  {| seed.crd_Group := fcrd_Group fc; seed.crd_Kind := fcrd_Kind fc;
     seed.crd_Plural := fcrd_Plural fc; seed.crd_Singular := fcrd_Singular fc;
     seed.crd_ShortNames := fcrd_ShortNames fc; seed.crd_Versions := fcrd_Versions fc;
     seed.crd_Scope := fcrd_Scope fc |}.

(** [src/internal/controller/render.go:207-245, renderCRDs] *)
Definition renderCRDs (kt : Decoy) : list seed.CRD :=
  let acc := (∅, []) in
  let acc := if seedSystemComponents kt then foldl crd_add acc defaultCRDs else acc in
  let '(byName, order) := foldl crd_add acc (of_fakeCRD <$> spec_FakeCRDs (kt_Spec kt)) in
  omap (fun key => byName !! key) order.

(** Lines of a text, each ended by a newline. *)
Definition text (l : list string) : string := concat_all ((fun s => s +:+ nl) <$> l).

Definition mk_cm (name ns : string) (labels data : gmap string string) : seed.ConfigMap :=
  {| seed.scm_Name := name; seed.scm_Namespace := ns; seed.scm_Labels := labels;
     seed.scm_Data := data |}.

(** [src/internal/controller/render.go:247-301, renderStandardObjects] *)
Definition renderStandardObjects (kt : Decoy) : list seed.Service * list seed.ConfigMap :=
  if negb (seedSystemComponents kt) || bool_decide (spec_FakeNodes (kt_Spec kt) = []) then ([], [])
  else
    let port name n proto :=
      {| seed.ssp_Name := name; seed.ssp_Port := n; seed.ssp_TargetPort := n;
         seed.ssp_Protocol := proto |} in
    ([{| seed.ssv_Name := "kube-dns"; seed.ssv_Namespace := "kube-system";
         seed.ssv_Labels := {[ "k8s-app" := "kube-dns"; "kubernetes.io/name" := "CoreDNS" ]};
         seed.ssv_ClusterIP := "10.96.0.10";
         seed.ssv_Ports := [port "dns" 53%Z "UDP"; port "dns-tcp" 53%Z "TCP"; port "metrics" 9153%Z "TCP"];
         seed.ssv_Selector := {[ "k8s-app" := "kube-dns" ]};
         seed.ssv_EndpointIPs := ["10.244.0.2"; "10.244.0.3"] |}],
     [mk_cm "kubeadm-config" "kube-system" ∅ {[ "ClusterConfiguration" := text
        ["apiServer: {}"; "apiVersion: kubeadm.k8s.io/v1beta4"; "certificatesDir: /etc/kubernetes/pki";
         "clusterName: kubernetes"; "controlPlaneEndpoint: " +:+ dq +:+ dq;
         "kind: ClusterConfiguration"; "kubernetesVersion: " +:+ kubernetesVersion kt;
         "networking:"; "  dnsDomain: cluster.local"; "  serviceSubnet: 10.96.0.0/12"] ]};
      mk_cm "kubelet-config" "kube-system" ∅ {[ "kubelet" := text
        ["apiVersion: kubelet.config.k8s.io/v1beta1"; "kind: KubeletConfiguration"; "clusterDNS:";
         "- 10.96.0.10"; "clusterDomain: cluster.local"; "cgroupDriver: systemd"] ]};
      mk_cm "kube-proxy" "kube-system" {[ "app" := "kube-proxy" ]} {[ "config.conf" := text
        ["apiVersion: kubeproxy.config.k8s.io/v1alpha1"; "kind: KubeProxyConfiguration";
         "clusterCIDR: 10.244.0.0/16"; "mode: iptables"] ]};
      mk_cm "coredns" "kube-system" ∅ {[ "Corefile" := text
        [".:53 {"; "    errors"; "    health {"; "       lameduck 5s"; "    }"; "    ready";
         "    kubernetes cluster.local in-addr.arpa ip6.arpa {"; "       pods insecure";
         "       fallthrough in-addr.arpa ip6.arpa"; "    }"; "    prometheus :9153";
         "    forward . /etc/resolv.conf"; "    cache 30"; "    loop"; "    reload";
         "    loadbalance"; "}"] ]};
      mk_cm "cluster-info" "kube-public" ∅ {[ "kubeconfig" := text
        ["apiVersion: v1"; "kind: Config"; "clusters:"; "- name: " +:+ dq +:+ dq; "  cluster:";
         "    server: https://kubernetes.default.svc:6443"] ]}]).

(** A synthesized host-networked kube-system pod. *)
Definition system_pod (name node cname image : string) (labels : gmap string string)
    (owner : seed.OwnerRef) (annotations : gmap string string) : seed.Pod :=
  {| seed.sp_FakePod := {| fp_Name := name; fp_Namespace := "kube-system"; fp_Replicas := 0;
       fp_Containers := [{| fc_Name := cname; fc_Image := image |}]; fp_NodeName := node;
       fp_LogLines := []; fp_Labels := labels |};
     seed.sp_OwnerRefs := [owner]; seed.sp_Annotations := annotations;
     seed.sp_HostNetwork := true; seed.sp_CPURequest := "100m"; seed.sp_MemoryRequest := "" |}.

Definition static_pod (node : string) (c : string * string) : seed.Pod :=
  let podName := c.1 +:+ "-" +:+ node in
  let hash := of_chars (take 32 (chars (checksum podName))) in
  system_pod podName node c.1 c.2 ∅
    {| seed.sor_APIVersion := "v1"; seed.sor_Kind := "Node"; seed.sor_Name := node;
       seed.sor_Controller := true |}
    {[ "kubernetes.io/config.source" := "file"; "kubernetes.io/config.hash" := hash;
       "kubernetes.io/config.mirror" := hash ]}.

Definition proxy_pod (image : string) (n : FakeNode) : seed.Pod :=
  system_pod ("kube-proxy-" +:+ fn_Name n) (fn_Name n) "kube-proxy" image
    {[ "k8s-app" := "kube-proxy" ]}
    {| seed.sor_APIVersion := "apps/v1"; seed.sor_Kind := "DaemonSet"; seed.sor_Name := "kube-proxy";
       seed.sor_Controller := true |} ∅.

Definition mk_ctl (kind name : string) (app : string) (replicas : Z) (image : string) : seed.Controller :=
  {| seed.ctl_APIVersion := "apps/v1"; seed.ctl_Kind := kind; seed.ctl_Name := name;
     seed.ctl_Namespace := "kube-system"; seed.ctl_Labels := {[ "k8s-app" := app ]};
     seed.ctl_Replicas := replicas; seed.ctl_Image := image; seed.ctl_OwnerRefs := [] |}.

(** The static control-plane components of a version. *)
Definition static_components (version : string) : list (string * string) :=
  [("etcd", "registry.k8s.io/etcd:3.5.16-0");
   ("kube-apiserver", "registry.k8s.io/kube-apiserver:" +:+ version);
   ("kube-controller-manager", "registry.k8s.io/kube-controller-manager:" +:+ version);
   ("kube-scheduler", "registry.k8s.io/kube-scheduler:" +:+ version)].

(** [src/internal/controller/render.go:310-409, defaultKubeSystemPods] *)
Definition defaultKubeSystemPods (kt : Decoy) (nodes : list FakeNode)
    : list seed.Pod * list seed.Controller :=
  if negb (seedSystemComponents kt) then ([], [])
  else match nodes with
  | [] => ([], [])
  | n0 :: _ =>
      let version := kubernetesVersion kt in
      let proxyImage := "registry.k8s.io/kube-proxy:" +:+ version in
      ((static_pod (fn_Name n0) <$> static_components version) ++ (proxy_pod proxyImage <$> nodes),
       [mk_ctl "Deployment" "coredns" "kube-dns" 2 "registry.k8s.io/coredns/coredns:v1.11.3";
        mk_ctl "DaemonSet" "kube-proxy" "kube-proxy" (Int.int32 (Z.of_nat (length nodes))) proxyImage])
  end.

(** [seed.Pod{FakePod: p}]. *)
Definition bare_pod (p : FakePod) : seed.Pod :=
  {| seed.sp_FakePod := p; seed.sp_OwnerRefs := []; seed.sp_Annotations := ∅;
     seed.sp_HostNetwork := false; seed.sp_CPURequest := ""; seed.sp_MemoryRequest := "" |}.

(** The nodes with their version filled in. *)
Definition versioned_node (kt : Decoy) (n : FakeNode) : FakeNode :=
  {| fn_Name := fn_Name n; fn_InternalIP := fn_InternalIP n;
     fn_KubeletVersion := if fn_KubeletVersion n ==? "" then kubernetesVersion kt
                          else fn_KubeletVersion n |}.

(** The value [renderSeedJSON] marshals.
    [src/internal/controller/render.go:144-191, renderSeedJSON] *)
Definition renderSeed (kt : Decoy) (joined : list Pod) : seed.Seed :=
  let nodes := versioned_node kt <$> spec_FakeNodes (kt_Spec kt) in
  let '(systemPods, controllers) := defaultKubeSystemPods kt nodes in
  let workloads := (bare_pod <$> spec_FakePods (kt_Spec kt))
                   ++ (bare_pod <$> (mirrorJoinedPod <$> joined)) ++ systemPods in
  let '(services, configMaps) := renderStandardObjects kt in
  {| seed.s_FakeNodes := nodes; seed.s_FakePods := workloads;
     seed.s_FakeSecrets := spec_FakeSecrets (kt_Spec kt); seed.s_Controllers := controllers;
     seed.s_CRDs := renderCRDs kt; seed.s_Services := services; seed.s_ConfigMaps := configMaps |}.

(** ** Custom resource definitions *)

(** The entries of a Decoy in the order they are added. *)
Definition crd_entries (kt : Decoy) : list seed.CRD :=
  (if seedSystemComponents kt then defaultCRDs else []) ++
  (of_fakeCRD <$> spec_FakeCRDs (kt_Spec kt)).

(** The last entry of a name. *)
Definition last_crd (key : string) (l : list seed.CRD) : option seed.CRD :=
  last (filterb (fun c => crd_key c ==? key) l).

Lemma crd_fold l :
  let '(m, order) := foldl crd_add (∅, []) l in
  NoDup order /\ (forall k, k ∈ order <-> is_Some (m !! k)) /\ (forall k, m !! k = last_crd k l).
Proof.
  induction l as [|c l IH] using rev_ind.
  { simpl. split_and!; [constructor| |]; intros k; rewrite lookup_empty; [|done].
    split; [by intros ?%not_elem_of_nil|by intros [? ?]]. }
  rewrite foldl_snoc. destruct (foldl crd_add (∅, []) l) as [m order]. destruct IH as (Hn & Ho & Hm).
  simpl. split_and!.
  - destruct (m !! crd_key c) as [c'|] eqn:E; [done|]. apply NoDup_app. split_and!; [done| |apply NoDup_singleton].
    intros k Hk ->%list_elem_of_singleton. apply Ho in Hk as [? ?]. congruence.
  - intros k. rewrite lookup_insert. destruct (decide (crd_key c = k)) as [<-|Hne].
    + destruct (m !! crd_key c) as [c'|] eqn:E; [|set_solver].
      split; [done|]. intros _. apply Ho. by rewrite E.
    + rewrite <- Ho. destruct (m !! crd_key c); [done|]. set_solver.
  - intros k. unfold last_crd. rewrite filterb_app, lookup_insert, last_app.
    unfold filterb at 1. simpl. by case_decide as Hk; case_bool_decide.
Qed.

Lemma renderCRDs_fold kt :
  renderCRDs kt =
  let '(m, order) := foldl crd_add (∅, []) (crd_entries kt) in omap (fun k => m !! k) order.
Proof.
  unfold renderCRDs, crd_entries. destruct (seedSystemComponents kt); [by rewrite foldl_app|done].
Qed.

Lemma last_crd_key k l c : last_crd k l = Some c -> crd_key c = k.
Proof.
  unfold last_crd. intros Hl%last_Some_elem_of. apply elem_of_filterb in Hl as [_ Hk].
  by apply bool_decide_eq_true in Hk.
Qed.

(** The CRDs seeded into a decoy. No two have the same full name, and for
    each name exactly the last entry written is installed: the author's own
    one wherever there is one (so it overrides a default), else the default,
    which is there only while system components are seeded. *)
Theorem renderCRDs_author_wins kt :
  NoDup (crd_key <$> renderCRDs kt) /\
  forall c, c ∈ renderCRDs kt <-> last_crd (crd_key c) (crd_entries kt) = Some c.
Proof.
  rewrite renderCRDs_fold. pose proof (crd_fold (crd_entries kt)) as Hf.
  destruct (foldl crd_add (∅, []) (crd_entries kt)) as [m order]. destruct Hf as (Hn & Ho & Hm).
  assert (Hkeys : crd_key <$> omap (fun k => m !! k) order = order).
  { assert (Hall : forall k, k ∈ order -> exists c, m !! k = Some c /\ crd_key c = k).
    { intros k Hk. apply Ho in Hk as [c Hc]. exists c. split; [done|].
      rewrite Hm in Hc. by eapply last_crd_key. }
    clear Ho Hn. induction order as [|k order IH]; [done|]. simpl.
    destruct (Hall k) as (c & -> & Hc); [left|]. rewrite fmap_cons, Hc. f_equal.
    apply IH. intros k' Hk'. apply Hall. by right. }
  split; [by rewrite Hkeys|]. intros c. rewrite list_elem_of_omap. split.
  - intros (k & _ & Hc). rewrite Hm in Hc. by rewrite (last_crd_key _ _ _ Hc).
  - intros Hc. exists (crd_key c). rewrite Hm. split; [|done]. apply Ho. rewrite Hm. by eexists.
Qed.

(** ** The pods *)

Lemma renderSeed_nodes kt joined :
  seed.s_FakeNodes (renderSeed kt joined) = versioned_node kt <$> spec_FakeNodes (kt_Spec kt).
Proof. unfold renderSeed. by repeat case_match. Qed.

Lemma renderSeed_pods kt joined :
  seed.s_FakePods (renderSeed kt joined) =
  (bare_pod <$> spec_FakePods (kt_Spec kt)) ++ (bare_pod <$> (mirrorJoinedPod <$> joined)) ++
  (defaultKubeSystemPods kt (seed.s_FakeNodes (renderSeed kt joined))).1.
Proof.
  rewrite renderSeed_nodes. unfold renderSeed.
  by destruct (defaultKubeSystemPods _ _), (renderStandardObjects _).
Qed.

Lemma system_pods_nodes kt nodes p :
  p ∈ (defaultKubeSystemPods kt nodes).1 ->
  exists n, n ∈ nodes /\ fp_NodeName (seed.sp_FakePod p) = fn_Name n.
Proof.
  unfold defaultKubeSystemPods. destruct (negb _); [by intros ?%not_elem_of_nil|].
  destruct nodes as [|n0 nodes]; [by intros ?%not_elem_of_nil|]. cbn [fst].
  intros [(c & -> & _)%list_elem_of_fmap|(n & -> & Hn)%list_elem_of_fmap]%elem_of_app.
  - exists n0. split; [left|done].
  - by exists n.
Qed.

(** C37: the seed is consistent. For a spec the CRD accepts, every pod of the
    seed names no node or one of the seed's own nodes, so none runs on a node
    that [kubectl get nodes] would not list; a mirrored real pod never
    carries its real node's name; and every node reports a version. *)
Theorem renderSeed_consistent kt joined :
  DecoySpec_XValidation (kt_Spec kt) = true ->
  let s := renderSeed kt joined in
  (forall p, p ∈ seed.s_FakePods s ->
     fp_NodeName (seed.sp_FakePod p) = "" \/
     exists n, n ∈ seed.s_FakeNodes s /\ fn_Name n = fp_NodeName (seed.sp_FakePod p)) /\
  (forall r, r ∈ joined -> bare_pod (mirrorJoinedPod r) ∈ seed.s_FakePods s /\
     fp_NodeName (mirrorJoinedPod r) = "") /\
  (forall n, n ∈ seed.s_FakeNodes s -> fn_KubeletVersion n <> "").
Proof.
  intros Hv s. subst s. rewrite renderSeed_pods, renderSeed_nodes. split_and!.
  - intros p [Hp|[Hp|Hp]%elem_of_app]%elem_of_app.
    + apply list_elem_of_fmap in Hp as (fp & -> & Hfp). simpl.
      apply andb_true_iff in Hv as [Hv _]. rewrite forallb_forall in Hv.
      specialize (Hv fp (proj1 (list_elem_of_In _ _) Hfp)).
      apply orb_true_iff in Hv as [Hv|Hv]; [left; by apply bool_decide_eq_true in Hv|right].
      apply (existsb_exists_dec (fun n => fn_Name n = fp_NodeName fp)) in Hv as (n & Hn & Hname).
      exists (versioned_node kt n). split; [by apply list_elem_of_fmap_2|done].
    + apply list_elem_of_fmap in Hp as (fp & -> & (r & -> & _)%list_elem_of_fmap). by left.
    + right. destruct (system_pods_nodes _ _ _ Hp) as (n & Hn & Heq). by exists n.
  - intros r Hr. split; [|done]. rewrite !elem_of_app. right. left. by do 2 apply list_elem_of_fmap_2.
  - intros n (n' & -> & _)%list_elem_of_fmap. simpl. unfold kubernetesVersion.
    repeat case_bool_decide; done.
Qed.
