(* ===== verification/SeedJson.v ===== *)
(** * internal/seed: the seed on disk

    The operator writes a seed with [json.Marshal] and kubelet-shim reads it
    back with [json.Unmarshal]. Here is the document each struct becomes, by
    its tags, and how a struct is filled from a document: a missing member or
    [null] leaves the zero value, a member of the wrong type is an error.
    [Codec] pairs the two directions with the law that reading inverts
    writing. A slice without elements is a nil slice unless the source makes
    it with [make]; member names are matched exactly. *)

From S2P Require Import Prelude GoStrings Base64 Json KubeTypes ApiTypes Kube Names RenderSeed.
From stdpp Require Import sorting.
#[local] Open Scope string_scope.
#[local] Open Scope list_scope.

(** A type that is written to and read from documents; [is_zero] is the test
    of [omitempty]. *)
Class Codec (A : Type) := {
  enc : A -> json;
  dec : json -> option A;
  zero : A;
  is_zero : A -> bool;
  codec_ok : A -> Prop;
  dec_null : dec JNull = Some zero;
  is_zero_true : forall a, is_zero a = true -> a = zero;
  dec_enc : forall a, codec_ok a -> dec (enc a) = Some a }.

Lemma dec_opt {A} `{Codec A} (a : A) :
  codec_ok a -> dec (if is_zero a then JNull else enc a) = Some a.
Proof.
  intros Ha. destruct (is_zero a) eqn:E; [|by apply dec_enc].
  rewrite dec_null. f_equal. symmetry. by apply is_zero_true.
Qed.

(** ** The members of a document *)

Abbreviation members := (list (string * json)).

Fixpoint member (name : string) (l : members) : json :=
  match l with
  | [] => JNull
  | (k, v) :: l' => if String.eqb k name then v else member name l'
  end.

Definition object (j : json) : option members :=
  match j with JObject l => Some l | JNull => Some [] | _ => None end.

Definition get {A} `{Codec A} (name : string) (l : members) : option A := dec (member name l).

(** A field of a struct: always written, or under [omitempty]. *)
Definition always {A} `{Codec A} (name : string) (a : A) : string * bool * json := (name, false, enc a).
Definition omitempty {A} `{Codec A} (name : string) (a : A) : string * bool * json :=
  (name, is_zero a, enc a).

Fixpoint render (fields : list (string * bool * json)) : members :=
  match fields with
  | [] => []
  | (n, e, j) :: fs => if e then render fs else (n, j) :: render fs
  end.

(** The member of a rendered struct, read off its fields. *)
Fixpoint find_field (n : string) (fields : list (string * bool * json)) : json :=
  match fields with
  | [] => JNull
  | (k, e, j) :: fs =>
      if String.eqb k n then (if e then find_field n fs else j) else find_field n fs
  end.

Lemma member_render n fs : member n (render fs) = find_field n fs.
Proof.
  induction fs as [|[[k e] j] fs IH]; [done|]. cbn [render find_field].
  destruct e; cbn [member]; rewrite IH; by destruct (String.eqb k n).
Qed.

(** ** Scalars, slices and maps *)

Definition dec_string (j : json) : option string :=
  match j with JNull => Some "" | JString s => Some s | _ => None end.

#[global] Program Instance string_codec : Codec string := {|
  enc := JString; dec := dec_string; zero := ""; is_zero s := s ==? ""; codec_ok _ := True |}.
Next Obligation. done. Qed.
Next Obligation. intros a. apply bool_decide_eq_true. Qed.
Next Obligation. done. Qed.

Definition dec_bool (j : json) : option bool :=
  match j with JNull => Some false | JBool b => Some b | _ => None end.

#[global] Program Instance bool_codec : Codec bool := {|
  enc := JBool; dec := dec_bool; zero := false; is_zero := negb; codec_ok _ := True |}.
Next Obligation. done. Qed.
Next Obligation. by intros []. Qed.
Next Obligation. done. Qed.

(** A number that does not fit the field's [int32] is an error. *)
Definition fits32 (z : Z) : Prop := (- 2 ^ 31 <= z < 2 ^ 31)%Z.

#[global] Instance fits32_dec z : Decision (fits32 z).
Proof. unfold fits32. apply _. Defined.

Definition dec_int32 (j : json) : option Z :=
  match j with
  | JNull => Some 0%Z
  | JInt z => if decide (fits32 z) then Some z else None
  | _ => None
  end.

#[global] Program Instance int32_codec : Codec Z := {|
  enc := JInt; dec := dec_int32; zero := 0%Z; is_zero z := z ==? 0%Z; codec_ok := fits32 |}.
Next Obligation. done. Qed.
Next Obligation. intros a. apply bool_decide_eq_true. Qed.
Next Obligation. intros z Hz. simpl. by rewrite decide_True. Qed.

Definition dec_list {A} (f : json -> option A) (j : json) : option (list A) :=
  match j with JNull => Some [] | JArray l => mapM f l | _ => None end.

Lemma mapM_dec_enc {A} (e : A -> json) (d : json -> option A) (P : A -> Prop) l :
  (forall a, P a -> d (e a) = Some a) -> Forall P l -> mapM d (e <$> l) = Some l.
Proof.
  intros Hd. induction 1 as [|x l Hx Hl IH]; [done|].
  cbn [fmap list_fmap mapM]. rewrite Hd by done. simpl. change (list_fmap _ _ e l) with (e <$> l).
  by rewrite IH.
Qed.

Definition is_nil {A} (l : list A) : bool := match l with [] => true | _ => false end.

(** A nil slice is [null]. *)
Definition enc_list {A} (f : A -> json) (l : list A) : json :=
  match l with [] => JNull | _ => JArray (f <$> l) end.

#[global] Program Instance list_codec A `{Codec A} : Codec (list A) := {|
  enc := enc_list enc; dec := dec_list dec; zero := []; is_zero := is_nil;
  codec_ok := Forall codec_ok |}.
Next Obligation. done. Qed.
Next Obligation. by intros A HA []. Qed.
Next Obligation.
  intros A HA [|x l] Hl; [done|]. by apply (mapM_dec_enc enc dec codec_ok); [apply dec_enc|].
Qed.

(** A slice the source made with [make] is an array, even when empty. *)
Definition enc_made {A} `{Codec A} (l : list A) : json := JArray (enc <$> l).

Lemma dec_enc_made {A} `{Codec A} (l : list A) : Forall codec_ok l -> dec (enc_made l) = Some l.
Proof. intros Hl. by apply (mapM_dec_enc enc dec codec_ok); [apply dec_enc|]. Qed.

(** A map is written with its keys in order. *)
Definition key_le (a b : string * string) : Prop := String.leb a.1 b.1 = true.

#[global] Instance key_le_dec : RelDecision key_le.
Proof. intros a b. unfold key_le. apply _. Defined.

Definition sorted_entries (m : gmap string string) : list (string * string) :=
  merge_sort key_le (map_to_list m).

Definition dec_entry (kv : string * json) : option (string * string) :=
  match kv.2 with JString s => Some (kv.1, s) | JNull => Some (kv.1, "") | _ => None end.

Definition enc_map (m : gmap string string) : json :=
  if decide (m = ∅) then JNull
  else JObject ((fun kv => (kv.1, JString kv.2)) <$> sorted_entries m).

Definition dec_map (j : json) : option (gmap string string) :=
  match j with
  | JNull => Some ∅
  | JObject l => list_to_map <$> mapM dec_entry l
  | _ => None
  end.

#[global] Program Instance map_codec : Codec (gmap string string) := {|
  enc := enc_map; dec := dec_map; zero := ∅; is_zero m := bool_decide (m = ∅);
  codec_ok _ := True |}.
Next Obligation. done. Qed.
Next Obligation. intros a. apply bool_decide_eq_true. Qed.
Next Obligation.
  intros m _. unfold enc_map. case_decide as Hm; [by subst|]. simpl.
  assert (Hd : forall l, mapM dec_entry ((fun kv : string * string => (kv.1, JString kv.2)) <$> l) = Some l).
  { induction l as [|[k v] l IH]; [done|]. cbn [fmap list_fmap mapM dec_entry].
    change (list_fmap _ _ ?f l) with (f <$> l). simpl. by rewrite IH. }
  rewrite Hd. simpl. f_equal. rewrite <- (list_to_map_to_list m) at 2.
  apply list_to_map_proper.
  - unfold sorted_entries. rewrite merge_sort_Permutation. apply NoDup_fst_map_to_list.
  - apply merge_sort_Permutation.
Qed.

(** ** The structs *)

Ltac codec_side :=
  solve [ exact I | assumption | apply Forall_true; intros; exact I
        | simpl in *; tauto | eapply Forall_impl; [eassumption|simpl; tauto] ].

(** Read the members of a rendered struct one by one. *)
Ltac codec_struct :=
  cbn [object mbind option_bind]; unfold get; rewrite ?member_render;
  unfold always, omitempty; cbn [find_field String.eqb Ascii.eqb Bool.eqb];
  repeat (first [rewrite dec_opt by codec_side | rewrite dec_enc by codec_side];
          cbn [mbind option_bind]).

(** A struct inside a slice is never omitted. *)
Definition struct_codec {A} (e : A -> list (string * bool * json)) (d : json -> option A)
    (z : A) (ok : A -> Prop) (Hnull : d JNull = Some z)
    (Hdec : forall a, ok a -> d (JObject (render (e a))) = Some a) : Codec A :=
  {| enc a := JObject (render (e a)); dec := d; zero := z; is_zero _ := false; codec_ok := ok;
     dec_null := Hnull; is_zero_true a (H : false = true) := match Bool.diff_false_true H with end;
     dec_enc := Hdec |}.

Definition node_fields (n : FakeNode) :=
  [always "name" (fn_Name n); omitempty "internalIP" (fn_InternalIP n);
   omitempty "kubeletVersion" (fn_KubeletVersion n)].

Definition dec_node (j : json) : option FakeNode :=
  l ← object j;
  name ← get "name" l; ip ← get "internalIP" l; v ← get "kubeletVersion" l;
  Some {| fn_Name := name; fn_InternalIP := ip; fn_KubeletVersion := v |}.

#[global] Instance node_codec : Codec FakeNode.
Proof.
  refine (struct_codec node_fields dec_node _ (fun _ => True) eq_refl _).
  intros n _. unfold dec_node, node_fields. codec_struct. by destruct n.
Defined.

Definition container_fields (c : FakeContainer) :=
  [always "name" (fc_Name c); always "image" (fc_Image c)].

Definition dec_container (j : json) : option FakeContainer :=
  l ← object j; name ← get "name" l; image ← get "image" l;
  Some {| fc_Name := name; fc_Image := image |}.

#[global] Instance container_codec : Codec FakeContainer.
Proof.
  refine (struct_codec container_fields dec_container _ (fun _ => True) eq_refl _).
  intros c _. unfold dec_container, container_fields. codec_struct. by destruct c.
Defined.

Definition fakepod_fields (p : FakePod) :=
  [always "name" (fp_Name p); always "namespace" (fp_Namespace p);
   omitempty "replicas" (fp_Replicas p); always "containers" (fp_Containers p);
   omitempty "nodeName" (fp_NodeName p); omitempty "logLines" (fp_LogLines p);
   omitempty "labels" (fp_Labels p)].

Definition get_fakepod (l : members) : option FakePod :=
  name ← get "name" l; ns ← get "namespace" l; replicas ← get "replicas" l;
  containers ← get "containers" l; node ← get "nodeName" l; logs ← get "logLines" l;
  labels ← get "labels" l;
  Some {| fp_Name := name; fp_Namespace := ns; fp_Replicas := replicas; fp_Containers := containers;
          fp_NodeName := node; fp_LogLines := logs; fp_Labels := labels |}.

Definition secret_fields (x : FakeSecret) :=
  [always "name" (fs_Name x); always "namespace" (fs_Namespace x); always "data" (fs_Data x)].

Definition dec_secret (j : json) : option FakeSecret :=
  l ← object j; name ← get "name" l; ns ← get "namespace" l; data ← get "data" l;
  Some {| fs_Name := name; fs_Namespace := ns; fs_Data := data |}.

#[global] Instance secret_codec : Codec FakeSecret.
Proof.
  refine (struct_codec secret_fields dec_secret _ (fun _ => True) eq_refl _).
  intros c _. unfold dec_secret, secret_fields. codec_struct. by destruct c.
Defined.

Definition owner_fields (o : seed.OwnerRef) :=
  [always "apiVersion" (seed.sor_APIVersion o); always "kind" (seed.sor_Kind o);
   always "name" (seed.sor_Name o); always "controller" (seed.sor_Controller o)].

Definition dec_owner (j : json) : option seed.OwnerRef :=
  l ← object j; v ← get "apiVersion" l; k ← get "kind" l; n ← get "name" l; c ← get "controller" l;
  Some {| seed.sor_APIVersion := v; seed.sor_Kind := k; seed.sor_Name := n; seed.sor_Controller := c |}.

#[global] Instance owner_codec : Codec seed.OwnerRef.
Proof.
  refine (struct_codec owner_fields dec_owner _ (fun _ => True) eq_refl _).
  intros c _. unfold dec_owner, owner_fields. codec_struct. by destruct c.
Defined.

Definition port_fields (p : seed.ServicePort) :=
  [omitempty "name" (seed.ssp_Name p); always "port" (seed.ssp_Port p);
   omitempty "targetPort" (seed.ssp_TargetPort p); omitempty "protocol" (seed.ssp_Protocol p)].

Definition dec_port (j : json) : option seed.ServicePort :=
  l ← object j; n ← get "name" l; p ← get "port" l; t ← get "targetPort" l; pr ← get "protocol" l;
  Some {| seed.ssp_Name := n; seed.ssp_Port := p; seed.ssp_TargetPort := t; seed.ssp_Protocol := pr |}.

#[global] Instance port_codec : Codec seed.ServicePort.
Proof.
  refine (struct_codec port_fields dec_port _
    (fun p => fits32 (seed.ssp_Port p) /\ fits32 (seed.ssp_TargetPort p)) eq_refl _).
  intros c [H1 H2]. unfold dec_port, port_fields. codec_struct. by destruct c.
Defined.

Definition service_fields (s : seed.Service) :=
  [always "name" (seed.ssv_Name s); always "namespace" (seed.ssv_Namespace s);
   omitempty "labels" (seed.ssv_Labels s); omitempty "clusterIP" (seed.ssv_ClusterIP s);
   omitempty "ports" (seed.ssv_Ports s); omitempty "selector" (seed.ssv_Selector s);
   omitempty "endpointIPs" (seed.ssv_EndpointIPs s)].

Definition dec_service (j : json) : option seed.Service :=
  l ← object j; n ← get "name" l; ns ← get "namespace" l; lb ← get "labels" l;
  ip ← get "clusterIP" l; ps ← get "ports" l; sel ← get "selector" l; eps ← get "endpointIPs" l;
  Some {| seed.ssv_Name := n; seed.ssv_Namespace := ns; seed.ssv_Labels := lb;
          seed.ssv_ClusterIP := ip; seed.ssv_Ports := ps; seed.ssv_Selector := sel;
          seed.ssv_EndpointIPs := eps |}.

#[global] Instance service_codec : Codec seed.Service.
Proof.
  refine (struct_codec service_fields dec_service _
    (fun s => Forall codec_ok (seed.ssv_Ports s)) eq_refl _).
  intros c H1. unfold dec_service, service_fields. codec_struct. by destruct c.
Defined.

Definition configmap_fields (c : seed.ConfigMap) :=
  [always "name" (seed.scm_Name c); always "namespace" (seed.scm_Namespace c);
   omitempty "labels" (seed.scm_Labels c); omitempty "data" (seed.scm_Data c)].

Definition dec_configmap (j : json) : option seed.ConfigMap :=
  l ← object j; n ← get "name" l; ns ← get "namespace" l; lb ← get "labels" l; d ← get "data" l;
  Some {| seed.scm_Name := n; seed.scm_Namespace := ns; seed.scm_Labels := lb; seed.scm_Data := d |}.

#[global] Instance configmap_codec : Codec seed.ConfigMap.
Proof.
  refine (struct_codec configmap_fields dec_configmap _ (fun _ => True) eq_refl _).
  intros c _. unfold dec_configmap, configmap_fields. codec_struct. by destruct c.
Defined.

Definition crd_fields (c : seed.CRD) :=
  [always "group" (seed.crd_Group c); always "kind" (seed.crd_Kind c);
   always "plural" (seed.crd_Plural c); omitempty "singular" (seed.crd_Singular c);
   omitempty "shortNames" (seed.crd_ShortNames c); omitempty "versions" (seed.crd_Versions c);
   omitempty "scope" (seed.crd_Scope c)].

Definition dec_crd (j : json) : option seed.CRD :=
  l ← object j; g ← get "group" l; k ← get "kind" l; p ← get "plural" l; s ← get "singular" l;
  sn ← get "shortNames" l; v ← get "versions" l; sc ← get "scope" l;
  Some {| seed.crd_Group := g; seed.crd_Kind := k; seed.crd_Plural := p; seed.crd_Singular := s;
          seed.crd_ShortNames := sn; seed.crd_Versions := v; seed.crd_Scope := sc |}.

#[global] Instance crd_codec : Codec seed.CRD.
Proof.
  refine (struct_codec crd_fields dec_crd _ (fun _ => True) eq_refl _).
  intros c _. unfold dec_crd, crd_fields. codec_struct. by destruct c.
Defined.

(** The embedded [FakePod]'s members come first. *)
Definition pod_fields (p : seed.Pod) :=
  fakepod_fields (seed.sp_FakePod p) ++
  [omitempty "ownerRefs" (seed.sp_OwnerRefs p); omitempty "annotations" (seed.sp_Annotations p);
   omitempty "hostNetwork" (seed.sp_HostNetwork p); omitempty "cpuRequest" (seed.sp_CPURequest p);
   omitempty "memoryRequest" (seed.sp_MemoryRequest p)].

Definition dec_pod (j : json) : option seed.Pod :=
  l ← object j; fp ← get_fakepod l; os ← get "ownerRefs" l; an ← get "annotations" l;
  h ← get "hostNetwork" l; c ← get "cpuRequest" l; m ← get "memoryRequest" l;
  Some {| seed.sp_FakePod := fp; seed.sp_OwnerRefs := os; seed.sp_Annotations := an;
          seed.sp_HostNetwork := h; seed.sp_CPURequest := c; seed.sp_MemoryRequest := m |}.

#[global] Instance pod_codec : Codec seed.Pod.
Proof.
  refine (struct_codec pod_fields dec_pod _
    (fun p => fits32 (fp_Replicas (seed.sp_FakePod p))) eq_refl _).
  intros p H1. unfold dec_pod, pod_fields, fakepod_fields, get_fakepod. cbn [app]. codec_struct.
  by destruct p as [[]].
Defined.

Definition controller_fields (c : seed.Controller) :=
  [always "apiVersion" (seed.ctl_APIVersion c); always "kind" (seed.ctl_Kind c);
   always "name" (seed.ctl_Name c); always "namespace" (seed.ctl_Namespace c);
   omitempty "labels" (seed.ctl_Labels c); omitempty "replicas" (seed.ctl_Replicas c);
   omitempty "image" (seed.ctl_Image c); omitempty "ownerRefs" (seed.ctl_OwnerRefs c)].

Definition dec_controller (j : json) : option seed.Controller :=
  l ← object j; v ← get "apiVersion" l; k ← get "kind" l; n ← get "name" l; ns ← get "namespace" l;
  lb ← get "labels" l; r ← get "replicas" l; i ← get "image" l; os ← get "ownerRefs" l;
  Some {| seed.ctl_APIVersion := v; seed.ctl_Kind := k; seed.ctl_Name := n; seed.ctl_Namespace := ns;
          seed.ctl_Labels := lb; seed.ctl_Replicas := r; seed.ctl_Image := i; seed.ctl_OwnerRefs := os |}.

#[global] Instance controller_codec : Codec seed.Controller.
Proof.
  refine (struct_codec controller_fields dec_controller _ (fun c => fits32 (seed.ctl_Replicas c)) eq_refl _).
  intros c H1. unfold dec_controller, controller_fields. codec_struct. by destruct c.
Defined.

(** [json.Marshal] of a [seed.Seed]; the operator makes the node and pod
    slices with [make]. *)
Definition seed_json (s : seed.Seed) : json :=
  JObject (render
    [("fakeNodes", false, enc_made (seed.s_FakeNodes s)); ("fakePods", false, enc_made (seed.s_FakePods s));
     always "fakeSecrets" (seed.s_FakeSecrets s); omitempty "controllers" (seed.s_Controllers s);
     omitempty "crds" (seed.s_CRDs s); omitempty "services" (seed.s_Services s);
     omitempty "configMaps" (seed.s_ConfigMaps s)]).

(** [json.Unmarshal] into a [seed.Seed]. *)
Definition dec_seed (j : json) : option seed.Seed :=
  l ← object j; n ← get "fakeNodes" l; p ← get "fakePods" l; s ← get "fakeSecrets" l;
  c ← get "controllers" l; crds ← get "crds" l; svc ← get "services" l; cm ← get "configMaps" l;
  Some {| seed.s_FakeNodes := n; seed.s_FakePods := p; seed.s_FakeSecrets := s;
          seed.s_Controllers := c; seed.s_CRDs := crds; seed.s_Services := svc; seed.s_ConfigMaps := cm |}.

(** The numbers of a seed fit the [int32] fields they are read into. *)
Definition seed_ok (s : seed.Seed) : Prop :=
  Forall codec_ok (seed.s_FakePods s) /\ Forall codec_ok (seed.s_Controllers s) /\
  Forall codec_ok (seed.s_Services s).

Lemma dec_seed_json s : seed_ok s -> dec_seed (seed_json s) = Some s.
Proof.
  intros (H1 & H2 & H3). unfold dec_seed, seed_json. codec_struct.
  rewrite (dec_enc_made (seed.s_FakeNodes s)) by (apply Forall_true; intros; exact I).
  cbn [mbind option_bind]. rewrite (dec_enc_made (seed.s_FakePods s)) by done. cbn [mbind option_bind]. codec_struct. by destruct s.
Qed.

(** [src/internal/seed/seed.go:162-173, Load], [ReadFile] and the JSON text
    parser being parameters. *)
Definition Load (ReadFile : string -> error + string) (parse : string -> error + json) (path : string)
    : error + seed.Seed :=
  match ReadFile path with
  | inl e => inl (wrapf "reading seed file" e)
  | inr b =>
      match parse b with
      | inl e => inl (wrapf "parsing seed file" e)
      | inr j => match dec_seed j with
                 | Some s => inr s
                 | None => inl (wrapf "parsing seed file" (Errorf "json: cannot unmarshal"))
                 end
      end
  end.

(** ** Rendering and loading *)

(** The bytes of seed.json.
    [src/internal/controller/render.go:144-191, renderSeedJSON] *)
Definition renderSeedJSON (kt : Decoy) (joined : list Pod) : string :=
  Marshal (seed_json (renderSeed kt joined)).

Lemma fits32_int32 z : fits32 (Int.int32 z).
Proof.
  unfold fits32, Int.int32, Int.wrapS.
  pose proof (Z.mod_pos_bound (z + 2 ^ (32 - 1)) (2 ^ 32)). lia.
Qed.

Lemma renderSeed_ok kt joined :
  Forall (fun p => fits32 (fp_Replicas p)) (spec_FakePods (kt_Spec kt)) ->
  seed_ok (renderSeed kt joined).
Proof.
  intros Hp. split_and!.
  - rewrite renderSeed_pods. rewrite !Forall_app. split_and!.
    + apply Forall_fmap. eapply Forall_impl; [done|]. by intros p.
    + do 2 apply Forall_fmap. apply Forall_true. by intros p.
    + unfold defaultKubeSystemPods. destruct (negb _); [constructor|].
      destruct (seed.s_FakeNodes _); [constructor|]. cbn [fst]. apply Forall_app.
      split; apply Forall_fmap, Forall_true; by intros x.
  - unfold renderSeed, defaultKubeSystemPods. destruct (renderStandardObjects kt).
    destruct (negb _); [constructor|]. destruct (versioned_node kt <$> _); [constructor|]. simpl.
    constructor; [done|]. constructor; [apply fits32_int32|constructor].
  - unfold renderSeed. destruct (defaultKubeSystemPods _ _). unfold renderStandardObjects.
    destruct (_ || _); [constructor|]. simpl. constructor; [|constructor].
    by repeat constructor.
Qed.

(** C36: what the operator renders is what the shim loads. For a Decoy whose
    replica counts are [int32]s, writing the seed to the ConfigMap and
    loading the file back gives the rendered seed itself: every node, pod,
    secret, controller, CRD, service and config map, with no field lost to
    [omitempty] and no default changed. *)
Theorem seed_round_trip ReadFile parse path kt joined :
  Forall (fun p => fits32 (fp_Replicas p)) (spec_FakePods (kt_Spec kt)) ->
  ReadFile path = inr (renderSeedJSON kt joined) ->
  parse (renderSeedJSON kt joined) = inr (seed_json (renderSeed kt joined)) ->
  Load ReadFile parse path = inr (renderSeed kt joined).
Proof.
  intros Hp Hr Hparse. unfold Load. rewrite Hr, Hparse, dec_seed_json; [done|].
  by apply renderSeed_ok.
Qed.

(** ** The other files of the ConfigMap *)

Section Config.
(** [sigs.k8s.io/yaml.Marshal]. *)
Context (yaml_Marshal : json -> error + string) (is_print : Z -> bool).

Definition context_json (name : string) (user : option string) (cluster : string) : json :=
  JObject [("name", JString name);
           ("context", JObject (("cluster", JString cluster) ::
              match user with Some u => [("user", JString u)] | None => [] end))].

(** [src/internal/controller/render.go:502-528, renderKCMKubeconfig] *)
Definition renderKCMKubeconfig (token : string) : error + string :=
  let server := "https://127.0.0.1:" +:+ Itoa innerAPIPort in
  yaml_Marshal (JObject
    [("apiVersion", JString "v1"); ("kind", JString "Config");
     ("clusters", JArray [JObject [("name", JString "decoy");
        ("cluster", JObject [("server", JString server); ("insecure-skip-tls-verify", JBool true)])]]);
     ("users", JArray [JObject [("name", JString "kube-controller-manager");
        ("user", JObject [("token", JString token)])]]);
     ("contexts", JArray [context_json "decoy" (Some "kube-controller-manager") "decoy"]);
     ("current-context", JString "decoy")]).

(** The URL the decoy's API server posts its audit events to. *)
Definition audit_url (kt : Decoy) (managerAuditWebhookURL : string) : string :=
  (if managerAuditWebhookURL ==? "" then defaultManagerAuditWebhookURL else managerAuditWebhookURL)
  +:+ "/audit/" +:+ kt_Namespace kt +:+ "/" +:+ kt_Name kt.

(** [src/internal/controller/render.go:613-636, renderAuditWebhookKubeconfig] *)
Definition renderAuditWebhookKubeconfig (kt : Decoy) (managerAuditWebhookURL : string) : error + string :=
  yaml_Marshal (JObject
    [("apiVersion", JString "v1"); ("kind", JString "Config");
     ("clusters", JArray [JObject [("name", JString "honeypod-audit");
        ("cluster", JObject [("server", JString (audit_url kt managerAuditWebhookURL))])]]);
     ("contexts", JArray [context_json "honeypod-audit" None "honeypod-audit"]);
     ("current-context", JString "honeypod-audit")]).

(** [src/internal/controller/render.go:672-706, renderKubeconfig] *)
Definition renderKubeconfig (clusterName server caPEM token : string)
    : error + string :=
  yaml_Marshal (JObject
    [("apiVersion", JString "v1"); ("kind", JString "Config");
     ("clusters", JArray [JObject [("name", JString clusterName);
        ("cluster", JObject [("server", JString server);
           ("certificate-authority-data", JString (base64.StdEncoding caPEM))])]]);
     ("users", JArray [JObject [("name", JString (clusterName +:+ "-admin"));
        ("user", JObject [("token", JString token)])]]);
     ("contexts", JArray [context_json clusterName (Some (clusterName +:+ "-admin")) clusterName]);
     ("current-context", JString clusterName)]).

(** [src/internal/controller/render.go:475-500, renderConfigData] *)
Definition renderConfigData (kt : Decoy) (joined : list Pod)
    (decoyToken shimToken kcmToken managerAuditWebhookURL : string) : error + gmap string string :=
  let seedJSON := renderSeedJSON kt joined in
  match renderAuditWebhookKubeconfig kt managerAuditWebhookURL with
  | inl e => inl e
  | inr auditWebhookKubeconfig =>
      match renderKCMKubeconfig kcmToken with
      | inl e => inl e
      | inr kcmKubeconfig =>
          inr {[ seedFileName := seedJSON;
                 tokenAuthFileName := renderTokenAuthFile is_print kt decoyToken shimToken kcmToken;
                 auditPolicyFileName := renderAuditPolicy kt;
                 auditWebhookKubeconfigFileName := auditWebhookKubeconfig;
                 kcmKubeconfigFileName := kcmKubeconfig ]}
      end
  end.
End Config.

Definition demo_spec : DecoySpec :=
  {| spec_KubeletShimImage := ""; spec_ExecProfile := ""; spec_ExecIsolation := false;
     spec_KubernetesVersion := ""; spec_KubeAPIServerImage := ""; spec_KineImage := "";
     spec_Port := 0; spec_SANs := []; spec_AuditLevel := "";
     spec_FakeNodes := [{| fn_Name := "cp-1"; fn_InternalIP := ""; fn_KubeletVersion := "" |}];
     spec_FakePods := [{| fp_Name := "api"; fp_Namespace := "shop"; fp_Replicas := 3;
       fp_Containers := [{| fc_Name := "api"; fc_Image := "nginx" |}]; fp_NodeName := "cp-1";
       fp_LogLines := ["started"]; fp_Labels := {[ "app" := "api" ]} |}];
     spec_FakeSecrets := []; spec_Resources := no_resources;
     spec_RuntimeClassName := None; spec_SeedSystemComponents := None;
     spec_FakeCRDs := []; spec_Persistence := None |}.

Definition demo_decoy : Decoy := mk_decoy "traps" "web" demo_spec.

Lemma seed_round_trip_witness :
  Load (fun _ => inr (renderSeedJSON demo_decoy []))
    (fun _ => inr (seed_json (renderSeed demo_decoy []))) "/etc/config/seed.json" =
  inr (renderSeed demo_decoy []).
Proof.
  apply (seed_round_trip _ _ "/etc/config/seed.json" demo_decoy []); [|reflexivity|reflexivity].
  repeat constructor; vm_compute; reflexivity || discriminate.
Defined.

Lemma renderSeed_consistent_witness :
  DecoySpec_XValidation (kt_Spec demo_decoy) = true /\
  length (seed.s_FakePods (renderSeed demo_decoy [])) = 6 /\
  (forall n, n ∈ seed.s_FakeNodes (renderSeed demo_decoy []) -> fn_KubeletVersion n <> "").
Proof.
  assert (H : DecoySpec_XValidation (kt_Spec demo_decoy) = true) by (vm_compute; reflexivity).
  split; [exact H|]. split; [vm_compute; reflexivity|].
  exact (proj2 (proj2 (renderSeed_consistent demo_decoy [] H))).
Defined.
