(* ===== verification/ShimSeed.v ===== *)
(** * internal/kubeletshim: the seed pass

    kubeletshim.go's [Seed] and everything it calls, and controllers.go: the
    shim upserts the objects of the seed into the inner API server, adopts
    what the inner scheduler placed, and prunes what earlier passes created
    and the seed no longer has. The computations run in the pair of the
    shim's state and the world; [range_targets] is the iteration order of the
    map [pruneSeeded] ranges over. *)

From S2P Require Import Prelude GoStrings KubeTypes ApiTypes Kube Server Host Hash.
From S2P Require Import ShimIds ShimTypes SeedJson.
#[local] Open Scope string_scope.
#[local] Open Scope list_scope.

(** ** Field updates of the shim *)

Definition sh_with_uids (sh : Shim) (m : gmap string string) : Shim :=
  {| sh_Seed := sh_Seed sh; sh_logLines := sh_logLines sh;
     sh_installedCRDs := sh_installedCRDs sh; sh_objectUIDs := m;
     sh_seededPrev := sh_seededPrev sh; sh_seededCur := sh_seededCur sh |}.

Definition sh_with_seeded (sh : Shim) (prev : gmap string Target) (cur : option (gmap string Target)) : Shim :=
  {| sh_Seed := sh_Seed sh; sh_logLines := sh_logLines sh;
     sh_installedCRDs := sh_installedCRDs sh; sh_objectUIDs := sh_objectUIDs sh;
     sh_seededPrev := prev; sh_seededCur := cur |}.

Definition sh_with_installed (sh : Shim) (s : gset string) : Shim :=
  {| sh_Seed := sh_Seed sh; sh_logLines := sh_logLines sh;
     sh_installedCRDs := s; sh_objectUIDs := sh_objectUIDs sh;
     sh_seededPrev := sh_seededPrev sh; sh_seededCur := sh_seededCur sh |}.

Definition sh_with_seed (sh : Shim) (s : seed.Seed) : Shim :=
  {| sh_Seed := s; sh_logLines := sh_logLines sh;
     sh_installedCRDs := sh_installedCRDs sh; sh_objectUIDs := sh_objectUIDs sh;
     sh_seededPrev := sh_seededPrev sh; sh_seededCur := sh_seededCur sh |}.

(** [src/internal/kubeletshim/kubeletshim.go:331-335, setLogLines] *)
Definition setLogLines (namespace name : string) (lines : list string) (sh : Shim) : Shim :=
  {| sh_Seed := sh_Seed sh;
     sh_logLines := <[namespace +:+ "/" +:+ name := lines]> (sh_logLines sh);
     sh_installedCRDs := sh_installedCRDs sh; sh_objectUIDs := sh_objectUIDs sh;
     sh_seededPrev := sh_seededPrev sh; sh_seededCur := sh_seededCur sh |}.

(** [src/internal/kubeletshim/kubeletshim.go:337-342, getLogLines] *)
Definition getLogLines (sh : Shim) (namespace name : string) : option (list string) :=
  sh_logLines sh !! (namespace +:+ "/" +:+ name).

(** [src/internal/kubeletshim/kubeletshim.go:173-180, markSeeded] *)
Definition markSeeded (key : string) (del : Target) (sh : Shim) : Shim :=
  match sh_seededCur sh with
  | None => sh
  | Some cur => sh_with_seeded sh (sh_seededPrev sh) (Some (<[key := del]> cur))
  end.

(** [src/internal/kubeletshim/controllers.go:128-134, recordUID] *)
Definition recordUID (kindName uid : string) (sh : Shim) : Shim :=
  sh_with_uids sh (<[kindName := uid]> (sh_objectUIDs sh)).

(** ** Pure parts *)

(** [src/internal/kubeletshim/kubeletshim.go:915-934, stripNotReadyTaints] *)
Definition stripNotReadyTaints (taints : list Taint) : list Taint :=
  filterb (fun t => negb ((t_Key t ==? "node.kubernetes.io/not-ready") ||
                          (t_Key t ==? "node.kubernetes.io/unreachable"))) taints.

(** [src/internal/kubeletshim/kubeletshim.go:601-617, nodeImages] *)
Definition nodeImages (version : string) : list ContainerImage :=
  let img name size := {| ci_Names := [name]; ci_SizeBytes := size |} in
  [img ("registry.k8s.io/kube-apiserver:" +:+ version) 91000000%Z;
   img ("registry.k8s.io/kube-controller-manager:" +:+ version) 88000000%Z;
   img ("registry.k8s.io/kube-scheduler:" +:+ version) 67000000%Z;
   img ("registry.k8s.io/kube-proxy:" +:+ version) 92000000%Z;
   img "registry.k8s.io/etcd:3.5.16-0" 151000000%Z;
   img "registry.k8s.io/coredns/coredns:v1.11.3" 61000000%Z;
   img "registry.k8s.io/pause:3.10" 736000%Z].

(** [src/internal/kubeletshim/kubeletshim.go:552-599, buildCRD], [lower] the
    runes [strings.ToLower] maps beyond ASCII. *)
Definition buildCRD (lower : Z -> Z) (c : seed.CRD) : CustomResourceDefinition :=
  let scope := if seed.crd_Scope c ==? "Cluster" then "Cluster" else "Namespaced" in
  let singular := if seed.crd_Singular c ==? "" then ToLower lower (seed.crd_Kind c)
                  else seed.crd_Singular c in
  let versions := match seed.crd_Versions c with [] => ["v1"] | vs => vs end in
  {| x_Meta := object_meta (seed.crd_Plural c +:+ "." +:+ seed.crd_Group c) "" ∅;
     x_Group := seed.crd_Group c; x_Plural := seed.crd_Plural c; x_Singular := singular;
     x_Kind := seed.crd_Kind c; x_ListKind := seed.crd_Kind c +:+ "List";
     x_ShortNames := seed.crd_ShortNames c; x_Scope := scope;
     x_Versions := range_map (fun i v =>
       {| cv_Name := v; cv_Served := true; cv_Storage := bool_decide (i = 0);
          cv_SchemaType := "object"; cv_PreserveUnknownFields := Some true |}) versions |}.

(** [src/internal/kubeletshim/exec.go:372-381, kernelRelease] *)
Definition kernelRelease : string := "6.8.0-45-generic".
Definition kernelVersionText : string :=
  "#45-Ubuntu SMP PREEMPT_DYNAMIC Mon Jul 15 12:00:00 UTC 2024".

Definition node_labels (n : FakeNode) (controlPlane : bool) (old : gmap string string)
    : gmap string string :=
  let m := <["node.kubernetes.io/instance-type" := "c2-m4"]>
          (<["kubernetes.io/arch" := "amd64"]>
          (<["kubernetes.io/os" := "linux"]>
          (<["kubernetes.io/hostname" := fn_Name n]> old))) in
  if controlPlane then
    <["node.kubernetes.io/exclude-from-external-load-balancers" := ""]>
    (<["node-role.kubernetes.io/control-plane" := ""]> m)
  else m.

(** The transition time of the Ready condition. *)
Definition ready_transition (now : Time) (node : Node) : Time :=
  foldl (fun t c => if (nc_Type c ==? "Ready") && negb (time_is_zero (nc_LastTransitionTime c))
                    then nc_LastTransitionTime c else t)
    (if time_is_zero (om_CreationTimestamp (n_Meta node)) then now
     else om_CreationTimestamp (n_Meta node))
    (nst_Conditions (n_Status node)).

(** The closure [build] of [upsertNode].
    [src/internal/kubeletshim/kubeletshim.go:960-1076, upsertNode] *)
Definition build_node (cfg : Config) (n : FakeNode) (controlPlane : bool) (now : Time)
    (existing : option Node) : Node :=
  let kubeletVersion := if fn_KubeletVersion n ==? "" then "v1.35.0" else fn_KubeletVersion n in
  let node := default {| n_Meta := object_meta (fn_Name n) "" ∅; n_Taints := [];
                         n_Status := no_node_status |} existing in
  {| n_Meta := om_with_labels (n_Meta node) (node_labels n controlPlane (om_Labels (n_Meta node)));
     n_Taints := stripNotReadyTaints (n_Taints node);
     n_Status :=
       {| nst_NodeInfo :=
            {| ni_KubeletVersion := kubeletVersion; ni_KernelVersion := kernelRelease;
               ni_OperatingSystem := "linux"; ni_Architecture := "amd64";
               ni_OSImage := "Ubuntu 24.04.3 LTS"; ni_ContainerRuntimeVersion := "containerd://2.2.0";
               ni_MachineID := fakeMachineID (fn_Name n); ni_SystemUUID := fakeSystemUUID (fn_Name n);
               ni_BootID := fakeBootID (fn_Name n) |};
          nst_Addresses := [("InternalIP", cfg_NodeInternalIP cfg); ("Hostname", fn_Name n)];
          nst_Conditions :=
            [{| nc_Type := "Ready"; nc_Status := "True"; nc_Reason := "KubeletReady";
                nc_Message := "kubelet is posting ready status"; nc_LastHeartbeatTime := now;
                nc_LastTransitionTime := ready_transition now node |}];
          nst_KubeletPort := cfg_KubeletPort cfg;
          nst_Capacity := list_to_map [("cpu", "2"); ("memory", "4Gi"); ("pods", "110");
                                       ("ephemeral-storage", "50620216Ki")];
          nst_Allocatable := list_to_map [("cpu", "2"); ("memory", "4093952Ki"); ("pods", "110");
                                          ("ephemeral-storage", "46663523866")];
          nst_Images := nodeImages kubeletVersion |} |}.

Definition n_with_status (n : Node) (s : NodeStatus) : Node :=
  {| n_Meta := n_Meta n; n_Taints := n_Taints n; n_Status := s |}.

Definition p_with_status (p : Pod) (s : PodStatus) : Pod :=
  {| p_Meta := p_Meta p; p_Spec := p_Spec p; p_Status := s |}.

Definition om_with_annotations (m : ObjectMeta) (a : gmap string string) : ObjectMeta :=
  {| om_Name := om_Name m; om_Namespace := om_Namespace m; om_UID := om_UID m;
     om_ResourceVersion := om_ResourceVersion m; om_Generation := om_Generation m;
     om_CreationTimestamp := om_CreationTimestamp m;
     om_DeletionTimestamp := om_DeletionTimestamp m; om_Labels := om_Labels m;
     om_Annotations := a; om_OwnerReferences := om_OwnerReferences m;
     om_Finalizers := om_Finalizers m |}.

(** [existing.Spec] with the three fields [upsertPod] sets. *)
Definition ps_seeded (s : PodSpec) (nodeName : string) (hostNetwork : bool)
    (containers : list Container) : PodSpec :=
  {| ps_InitContainers := ps_InitContainers s; ps_Containers := containers;
     ps_Volumes := ps_Volumes s; ps_NodeName := nodeName; ps_HostNetwork := hostNetwork;
     ps_Hostname := ps_Hostname s; ps_RuntimeClassName := ps_RuntimeClassName s;
     ps_TerminationGracePeriodSeconds := ps_TerminationGracePeriodSeconds s;
     ps_DNSPolicy := ps_DNSPolicy s; ps_DNSConfig := ps_DNSConfig s;
     ps_AutomountServiceAccountToken := ps_AutomountServiceAccountToken s;
     ps_EnableServiceLinks := ps_EnableServiceLinks s |}.

(** The containers of a seeded pod, with its resource requests. *)
Definition seeded_containers (w : seed.Pod) : list Container :=
  let requests : gmap string string :=
    (if seed.sp_MemoryRequest w !=? "" then <["memory" := seed.sp_MemoryRequest w]> else id)
    ((if seed.sp_CPURequest w !=? "" then <["cpu" := seed.sp_CPURequest w]> else id) ∅) in
  (fun c =>
     let k := container (fc_Name c) (fc_Image c) in
     {| c_Name := c_Name k; c_Image := c_Image k; c_ImagePullPolicy := c_ImagePullPolicy k;
        c_Command := c_Command k; c_Args := c_Args k; c_Env := c_Env k; c_Ports := c_Ports k;
        c_Resources := {| rr_Requests := requests; rr_Limits := ∅ |};
        c_VolumeMounts := c_VolumeMounts k; c_SecurityContext := c_SecurityContext k |})
  <$> fp_Containers (seed.sp_FakePod w).

Definition seeded_labels (w : seed.Pod) : gmap string string :=
  let fp := seed.sp_FakePod w in
  if bool_decide (fp_Labels fp = ∅) then {[ "app" := fp_Name fp ]} else fp_Labels fp.

(** [proto]: anything but UDP is TCP. *)
Definition service_proto (p : seed.ServicePort) : string :=
  if seed.ssp_Protocol p ==? "UDP" then "UDP" else "TCP".

Definition seeded_service (s : seed.Service) : Service :=
  {| svc_Meta := object_meta (seed.ssv_Name s) (seed.ssv_Namespace s) (seed.ssv_Labels s);
     svc_Spec :=
       {| ss_ClusterIP := seed.ssv_ClusterIP s; ss_Selector := seed.ssv_Selector s;
          ss_Ports := (fun p => {| sp_Name := seed.ssp_Name p; sp_Port := seed.ssp_Port p;
                                   sp_TargetPort := inr (seed.ssp_TargetPort p);
                                   sp_Protocol := service_proto p |}) <$> seed.ssv_Ports s |} |}.

Definition seeded_slice (s : seed.Service) : EndpointSlice :=
  {| es_Meta := object_meta (seed.ssv_Name s) (seed.ssv_Namespace s)
                  {[ "kubernetes.io/service-name" := seed.ssv_Name s ]};
     es_AddressType := "IPv4";
     es_Endpoints := (fun ip => ([ip], Some true)) <$> seed.ssv_EndpointIPs s;
     es_Ports := (fun p => (seed.ssp_Name p, seed.ssp_Port p, service_proto p)) <$> seed.ssv_Ports s |}.

(** ** The pass *)

Section Pass.
Context (cfg : Config) (is_print : Z -> bool) (lower : Z -> Z) (range_targets : gmap string Target -> list (string * Target)).
Context {W : Type} `{Host W} (k : Clientset W).

(** A call of the inner API server. *)
Abbreviation call := (on_host (T := Shim)).

(** [_ = c]: the error is dropped. *)
Definition ignore {A} (c : E W A) : E (Shim * W) unit := call (try_ c ≫= fun _ => mret tt).

Definition gets {A} (f : Shim -> A) : E (Shim * W) A := fun sw => (inr (f sw.1), sw).

(** The value of a call whose NotFound is an answer. *)
Definition find {A} (c : E W A) : E (Shim * W) (option A) :=
  r ← call (try_ c);
  match r with
  | inr a => mret (Some a)
  | inl e => if IsNotFound e then mret None else throw e
  end.

(** [if err != nil && !apierrors.IsAlreadyExists(err) { return err }]. *)
Definition or_exists {A} (c : E W A) : E (Shim * W) unit :=
  r ← call (try_ c);
  match r with
  | inr _ => mret tt
  | inl e => if IsAlreadyExists e then mret tt else throw e
  end.

(** [src/internal/kubeletshim/kubeletshim.go:899-913, ensureNamespace] *)
Definition ensureNamespace (name : string) : E (Shim * W) unit :=
  g ← find (Get (typed (k_namespaces k)) (NN "" name));
  match g with
  | Some _ => mret tt
  | None => or_exists (Create (typed (k_namespaces k))
                {| ns_Meta := object_meta name "" ∅; ns_Finalizers := [] |})
  end.

(** [src/internal/kubeletshim/kubeletshim.go:882-897, purgeNamespace] *)
Definition purgeNamespace (name : string) : E (Shim * W) unit :=
  _ ← ignore (DeleteCollection (k_pods k) name);
  _ ← ignore (DeleteCollection (k_secrets k) name);
  _ ← ignore (DeleteCollection (k_configmaps k) name);
  _ ← ignore (DeleteCollection (k_deployments k) name);
  _ ← ignore (DeleteCollection (k_replicasets k) name);
  ignore (DeleteCollection (k_daemonsets k) name).

(** [src/internal/kubeletshim/kubeletshim.go:842-880, finalizeTerminatingNamespaces] *)
Definition finalizeTerminatingNamespaces : E (Shim * W) unit :=
  items ← call (List_ (typed (k_namespaces k)) everything);
  for_each (fun ns =>
    match om_DeletionTimestamp (ns_Meta ns) with
    | None => mret tt
    | Some _ =>
        _ ← purgeNamespace (om_Name (ns_Meta ns));
        r ← call (try_ (k_Finalize k {| ns_Meta := ns_Meta ns; ns_Finalizers := [] |}));
        match r with
        | inr _ => mret tt
        | inl e => if IsNotFound e || IsConflict e then mret tt else throw e
        end
    end) items.

(** [src/internal/kubeletshim/kubeletshim.go:953-1110, upsertNode] *)
Definition upsertNode (n : FakeNode) (controlPlane : bool) : E (Shim * W) unit :=
  now ← call time_Now;
  let build := build_node cfg n controlPlane now in
  g ← find (Get (typed (k_nodes k)) (NN "" (fn_Name n)));
  match g with
  | None =>
      created ← call (Create (typed (k_nodes k)) (build None));
      _ ← on_state (recordUID ("Node/" +:+ fn_Name n) (om_UID (n_Meta created)));
      _ ← call (StatusUpdate (typed (k_nodes k)) (build (Some created)));
      mret tt
  | Some existing =>
      _ ← on_state (recordUID ("Node/" +:+ fn_Name n) (om_UID (n_Meta existing)));
      let updated := build (Some existing) in
      out ← call (Update (typed (k_nodes k)) updated);
      _ ← call (StatusUpdate (typed (k_nodes k)) (n_with_status out (n_Status updated)));
      mret tt
  end.

Definition kube_node_lease : string := "kube-node-lease".

(** One lease of [ensureNodeLeases]. *)
Definition ensure_lease (now : Time) (n : FakeNode) : E (Shim * W) unit :=
  uid ← gets (fun sh => sh_objectUIDs sh !! ("Node/" +:+ fn_Name n));
  let owners := match uid with
    | Some uid => [{| or_APIVersion := "v1"; or_Kind := "Node"; or_Name := fn_Name n; or_UID := uid;
                      or_Controller := None; or_BlockOwnerDeletion := None |}]
    | None => []
    end in
  g ← find (Get (typed (k_leases k)) (NN kube_node_lease (fn_Name n)));
  match g with
  | None =>
      or_exists (Create (typed (k_leases k))
        {| l_Meta := om_with_owners (object_meta (fn_Name n) kube_node_lease ∅) owners;
           l_HolderIdentity := Some (fn_Name n); l_LeaseDurationSeconds := Some 40%Z;
           l_RenewTime := Some now |})
  | Some l =>
      _ ← call (Update (typed (k_leases k))
        {| l_Meta := if bool_decide (om_OwnerReferences (l_Meta l) = []) && negb (bool_decide (owners = []))
                     then om_with_owners (l_Meta l) owners else l_Meta l;
           l_HolderIdentity := Some (default (fn_Name n) (l_HolderIdentity l));
           l_LeaseDurationSeconds := Some (default 40%Z (l_LeaseDurationSeconds l));
           l_RenewTime := Some now |});
      mret tt
  end.

(** [src/internal/kubeletshim/kubeletshim.go:787-840, ensureNodeLeases] *)
Definition ensureNodeLeases (nodes : list FakeNode) : E (Shim * W) unit :=
  match nodes with
  | [] => mret tt
  | _ =>
      _ ← ensureNamespace kube_node_lease;
      now ← call time_Now;
      for_each (ensure_lease now) nodes
  end.

(** [src/internal/kubeletshim/kubeletshim.go:515-550, createCRDs] *)
Definition createCRDs (crds : list seed.CRD) : E (Shim * W) unit :=
  match crds, k_crds k with
  | [], _ | _, None => mret tt
  | _, Some cl =>
      for_each (fun c =>
        let obj := buildCRD lower c in
        let name := om_Name (x_Meta obj) in
        let installed := on_state (fun sh => sh_with_installed sh ({[name]} ∪ sh_installedCRDs sh)) in
        known ← gets (fun sh => bool_decide (name ∈ sh_installedCRDs sh));
        if (known : bool) then mret tt else
        g ← wrap_err ("getting CRD " +:+ Quote is_print name) (find (Get (typed cl) (NN "" name)));
        match g with
        | Some _ => installed
        | None =>
            _ ← wrap_err ("creating CRD " +:+ Quote is_print name)
                  (or_exists (Create (typed cl) obj));
            installed
        end) crds
  end.

(** Create or overwrite an owning controller: [set] copies labels, owners and
    spec onto the live object. *)
Definition upsert {O} `{Object O} (c : Typed W O) (set : O -> O -> O) (d : O) : E (Shim * W) O :=
  g ← find (Get (typed c) (key_of d));
  match g with
  | None => call (Create (typed c) d)
  | Some existing => call (Update (typed c) (set existing d))
  end.

Definition copy_meta (live desired : ObjectMeta) : ObjectMeta :=
  om_with_owners (om_with_labels live (om_Labels desired)) (om_OwnerReferences desired).

(** [src/internal/kubeletshim/controllers.go:86-98, upsertDeployment] *)
Definition upsertDeployment : Deployment -> E (Shim * W) Deployment :=
  upsert (k_deployments k) (fun live d =>
    {| d_Meta := copy_meta (d_Meta live) (d_Meta d); d_Spec := d_Spec d; d_Status := d_Status live |}).

(** [src/internal/kubeletshim/controllers.go:100-112, upsertReplicaSet] *)
Definition upsertReplicaSet : ReplicaSet -> E (Shim * W) ReplicaSet :=
  upsert (k_replicasets k) (fun live d =>
    {| rs_Meta := copy_meta (rs_Meta live) (rs_Meta d); rs_Spec := rs_Spec d; rs_Status := rs_Status live |}).

(** [src/internal/kubeletshim/controllers.go:114-126, upsertDaemonSet] *)
Definition upsertDaemonSet : DaemonSet -> E (Shim * W) DaemonSet :=
  upsert (k_daemonsets k) (fun live d =>
    {| dm_Meta := copy_meta (dm_Meta live) (dm_Meta d); dm_Spec := dm_Spec d; dm_Status := dm_Status live |}).

(** The UID of the object a status update returns; the typed client returns
    an empty object beside an error, which the code drops. *)
Definition status_uid {O} `{Object O} (c : Typed W O) (o : O) : E (Shim * W) string :=
  r ← call (try_ (StatusUpdate (typed c) o));
  mret (match r with inr out => om_UID (meta out) | inl _ => "" end).

(** One iteration of [createControllers].
    [src/internal/kubeletshim/controllers.go:25-82, createControllers] *)
Definition create_controller (c : seed.Controller) : E (Shim * W) unit :=
  owners ← gets (fun sh => resolveOwnerRefs (sh_objectUIDs sh) (seed.ctl_OwnerRefs c));
  let m := om_with_owners (object_meta (seed.ctl_Name c) (seed.ctl_Namespace c) (seed.ctl_Labels c)) owners in
  let template := {| pt_Labels := seed.ctl_Labels c; pt_Annotations := ∅;
                     pt_Spec := pod_spec [container (seed.ctl_Name c) (seed.ctl_Image c)] |} in
  let replicas := seed.ctl_Replicas c in
  let kindName := seed.ctl_Kind c +:+ "/" +:+ seed.ctl_Name c in
  if seed.ctl_Kind c ==? "Deployment" then
    out ← upsertDeployment {| d_Meta := m;
      d_Spec := {| ds_Replicas := Some replicas; ds_Strategy := ""; ds_Selector := seed.ctl_Labels c;
                   ds_Template := template |};
      d_Status := no_deployment_status |};
    uid ← status_uid (k_deployments k) {| d_Meta := d_Meta out; d_Spec := d_Spec out;
      d_Status := {| dst_Replicas := replicas; dst_ReadyReplicas := replicas;
                     dst_AvailableReplicas := replicas; dst_UpdatedReplicas := replicas |} |};
    on_state (recordUID kindName uid)
  else if seed.ctl_Kind c ==? "ReplicaSet" then
    out ← upsertReplicaSet {| rs_Meta := m;
      rs_Spec := {| rs_Replicas := Some replicas; rs_Selector := seed.ctl_Labels c; rs_Template := template |};
      rs_Status := {| rss_Replicas := 0; rss_ReadyReplicas := 0; rss_AvailableReplicas := 0 |} |};
    uid ← status_uid (k_replicasets k) {| rs_Meta := rs_Meta out; rs_Spec := rs_Spec out;
      rs_Status := {| rss_Replicas := replicas; rss_ReadyReplicas := replicas;
                      rss_AvailableReplicas := replicas |} |};
    on_state (recordUID kindName uid)
  else if seed.ctl_Kind c ==? "DaemonSet" then
    out ← upsertDaemonSet {| dm_Meta := m;
      dm_Spec := {| dm_Selector := seed.ctl_Labels c; dm_Template := template |};
      dm_Status := {| dms_DesiredNumberScheduled := 0; dms_CurrentNumberScheduled := 0;
                      dms_NumberReady := 0; dms_NumberAvailable := 0; dms_UpdatedNumberScheduled := 0 |} |};
    uid ← status_uid (k_daemonsets k) {| dm_Meta := dm_Meta out; dm_Spec := dm_Spec out;
      dm_Status := {| dms_DesiredNumberScheduled := replicas; dms_CurrentNumberScheduled := replicas;
                      dms_NumberReady := replicas; dms_NumberAvailable := replicas;
                      dms_UpdatedNumberScheduled := replicas |} |};
    on_state (recordUID kindName uid)
  else mret tt.

(** [src/internal/kubeletshim/controllers.go:15-84, createControllers] *)
Definition createControllers (controllers : list seed.Controller) : E (Shim * W) unit :=
  for_each create_controller controllers.

(** [src/internal/kubeletshim/kubeletshim.go:619-649, createConfigMaps] *)
Definition createConfigMaps (cms : list seed.ConfigMap) : E (Shim * W) unit :=
  for_each (fun c =>
    _ ← ensureNamespace (seed.scm_Namespace c);
    g ← find (Get (typed (k_configmaps k)) (NN (seed.scm_Namespace c) (seed.scm_Name c)));
    match g with
    | None => or_exists (Create (typed (k_configmaps k))
        {| cm_Meta := object_meta (seed.scm_Name c) (seed.scm_Namespace c) (seed.scm_Labels c);
           cm_Data := seed.scm_Data c |})
    | Some existing =>
        _ ← call (Update (typed (k_configmaps k))
          {| cm_Meta := om_with_labels (cm_Meta existing) (seed.scm_Labels c);
             cm_Data := seed.scm_Data c |});
        mret tt
    end) cms.

(** [src/internal/kubeletshim/kubeletshim.go:708-749, ensureEndpointSlice] *)
Definition ensureEndpointSlice (s : seed.Service) : E (Shim * W) unit :=
  g ← find (Get (typed (k_endpointslices k)) (NN (seed.ssv_Namespace s) (seed.ssv_Name s)));
  match g with
  | None => or_exists (Create (typed (k_endpointslices k)) (seeded_slice s))
  | Some _ => mret tt
  end.

(** Creation, retried without the address when the server finds it invalid. *)
Definition create_service (desired : Service) : E (Shim * W) unit :=
  r ← call (try_ (Create (typed (k_services k)) desired));
  match r with
  | inr _ => mret tt
  | inl e =>
      if IsInvalid e then
        or_exists (Create (typed (k_services k))
          {| svc_Meta := svc_Meta desired;
             svc_Spec := {| ss_ClusterIP := ""; ss_Selector := ss_Selector (svc_Spec desired);
                            ss_Ports := ss_Ports (svc_Spec desired) |} |})
      else if IsAlreadyExists e then mret tt else throw e
  end.

(** [src/internal/kubeletshim/kubeletshim.go:651-706, createServices] *)
Definition createServices (svcs : list seed.Service) : E (Shim * W) unit :=
  for_each (fun s =>
    _ ← ensureNamespace (seed.ssv_Namespace s);
    g ← find (Get (typed (k_services k)) (NN (seed.ssv_Namespace s) (seed.ssv_Name s)));
    _ ← match g with None => create_service (seeded_service s) | Some _ => mret tt end;
    if (seed.ssv_ClusterIP s !=? "") && bool_decide (0 < length (seed.ssv_EndpointIPs s))
    then ensureEndpointSlice s else mret tt) svcs.

(** [src/internal/kubeletshim/kubeletshim.go:751-785, adoptScheduledPods] *)
Definition adoptScheduledPods (nodeNames : gset string) : E (Shim * W) unit :=
  if bool_decide (nodeNames = ∅) then mret tt else
  items ← call (List_ (typed (k_pods k)) everything);
  for_each (fun p =>
    if negb (bool_decide (ps_NodeName (p_Spec p) ∈ nodeNames)) then mret tt
    else if pst_Phase (p_Status p) ==? "Running" then mret tt
    else
      start ← call (podStartTime p);
      let statuses := runningContainerStatuses (p_Name p) (ps_Containers (p_Spec p)) start in
      ignore (StatusUpdate (typed (k_pods k))
        (p_with_status p (podStatus start (p_Name p) (ps_NodeName (p_Spec p))
           (cfg_NodeInternalIP cfg) statuses (ps_HostNetwork (p_Spec p)))))) items.

(** The status [upsertPod] gives a pod. *)
Definition seeded_status (w : seed.Pod) (name nodeName : string) (start : Time) : PodStatus :=
  podStatus start name nodeName (cfg_NodeInternalIP cfg)
    (runningContainerStatuses name (seeded_containers w) start) (seed.sp_HostNetwork w).

(** [src/internal/kubeletshim/kubeletshim.go:1137-1231, upsertPod] *)
Definition upsertPod (w : seed.Pod) (name nodeName : string) : E (Shim * W) unit :=
  let fp := seed.sp_FakePod w in
  let pods := typed (k_pods k) in
  _ ← (if bool_decide (0 < length (fp_LogLines fp))
       then on_state (setLogLines (fp_Namespace fp) name (fp_LogLines fp)) else mret tt);
  ownerRefs ← gets (fun sh => resolveOwnerRefs (sh_objectUIDs sh) (seed.sp_OwnerRefs w));
  g ← find (Get pods (NN (fp_Namespace fp) name));
  match g with
  | None =>
      created ← call (Create pods
        {| p_Meta := om_with_owners (om_with_annotations
             (object_meta name (fp_Namespace fp) (seeded_labels w)) (seed.sp_Annotations w)) ownerRefs;
           p_Spec := ps_seeded (pod_spec []) nodeName (seed.sp_HostNetwork w) (seeded_containers w);
           p_Status := no_pod_status |});
      start ← call (podStartTime created);
      _ ← call (StatusUpdate pods (p_with_status created (seeded_status w name nodeName start)));
      mret tt
  | Some existing =>
      match om_DeletionTimestamp (p_Meta existing) with
      | Some _ =>
          r ← call (try_ (DeleteNamed (k_pods k) (NN (fp_Namespace fp) name)
                {| dl_Grace := Some 0%Z; dl_UID := Some (om_UID (p_Meta existing)) |}));
          match r with
          | inr _ => mret tt
          | inl e => if IsNotFound e || IsConflict e then mret tt else throw e
          end
      | None =>
          let existing :=
            {| p_Meta := om_with_owners (om_with_annotations
                 (om_with_labels (p_Meta existing) (seeded_labels w)) (seed.sp_Annotations w)) ownerRefs;
               p_Spec := ps_seeded (p_Spec existing) nodeName (seed.sp_HostNetwork w) (seeded_containers w);
               p_Status := p_Status existing |} in
          _ ← call (Update pods existing);
          start ← call (podStartTime existing);
          _ ← call (StatusUpdate pods (p_with_status existing (seeded_status w name nodeName start)));
          mret tt
      end
  end.

Definition replicas_of (w : seed.Pod) : Z :=
  let r := fp_Replicas (seed.sp_FakePod w) in if (r <? 1)%Z then 1 else r.

(** The names of a workload's pods. *)
Definition replica_name (w : seed.Pod) (r : Z) : string :=
  let base := fp_Name (seed.sp_FakePod w) in
  if (1 <? replicas_of w)%Z then base +:+ "-" +:+ replicaSuffix base r else base.

Definition pod_target (ns name : string) : string * Target := ("Pod|" +:+ ns +:+ "|" +:+ name, TPod ns name).

(** [src/internal/kubeletshim/kubeletshim.go:1112-1135, upsertWorkload] *)
Definition upsertWorkload (w : seed.Pod) (nodeName : string) : E (Shim * W) unit :=
  for_each (fun r =>
    let name := replica_name w r in
    _ ← upsertPod w name nodeName;
    let '(key, del) := pod_target (fp_Namespace (seed.sp_FakePod w)) name in
    on_state (markSeeded key del)) (seqZ 0 (replicas_of w)).

(** [src/internal/kubeletshim/kubeletshim.go:1327-1348, upsertSecret] *)
Definition upsertSecret (s : FakeSecret) : E (Shim * W) unit :=
  g ← find (Get (typed (k_secrets k)) (NN (fs_Namespace s) (fs_Name s)));
  match g with
  | None =>
      _ ← call (Create (typed (k_secrets k))
        {| sec_Meta := object_meta (fs_Name s) (fs_Namespace s) ∅; sec_Type := "Opaque";
           sec_Data := fs_Data s |});
      mret tt
  | Some existing =>
      _ ← call (Update (typed (k_secrets k))
        {| sec_Meta := sec_Meta existing; sec_Type := sec_Type existing; sec_Data := fs_Data s |});
      mret tt
  end.

(** What the deletion closures of [Seed] do. *)
Definition delete_target (t : Target) : E W unit :=
  match t with
  | TNode name => DeleteNamed (k_nodes k) (NN "" name) no_delete_options
  | TLease name => DeleteNamed (k_leases k) (NN kube_node_lease name) no_delete_options
  | TCRD name => match k_crds k with
                 | None => mret tt
                 | Some cl => DeleteNamed cl (NN "" name) no_delete_options
                 end
  | TController kind ns name =>
      if kind ==? "Deployment" then DeleteNamed (k_deployments k) (NN ns name) no_delete_options
      else if kind ==? "ReplicaSet" then DeleteNamed (k_replicasets k) (NN ns name) no_delete_options
      else if kind ==? "DaemonSet" then DeleteNamed (k_daemonsets k) (NN ns name) no_delete_options
      else mret tt
  | TPod ns name => DeleteNamed (k_pods k) (NN ns name) grace_zero
  | TSecret ns name => DeleteNamed (k_secrets k) (NN ns name) no_delete_options
  | TConfigMap ns name => DeleteNamed (k_configmaps k) (NN ns name) no_delete_options
  | TService ns name =>
      try_ (DeleteNamed (k_endpointslices k) (NN ns name) no_delete_options) ≫= fun _ =>
      DeleteNamed (k_services k) (NN ns name) no_delete_options
  end.

(** One iteration of [pruneSeeded].
    [src/internal/kubeletshim/kubeletshim.go:188-199, pruneSeeded] *)
Definition prune_one (kt : string * Target) : E (Shim * W) unit :=
  let '(key, del) := kt in
  kept ← gets (fun sh => bool_decide (is_Some (default ∅ (sh_seededCur sh) !! key)));
  if (kept : bool) then mret tt else
  r ← call (try_ (delete_target del));
  match r with
  | inr _ => mret tt
  | inl e =>
      if IsNotFound e then mret tt else
      _ ← call (log_Print ("kubelet-shim: pruning stale seeded object " +:+ key +:+ ": " +:+ e_Message e));
      on_state (markSeeded key del)
  end.

(** [src/internal/kubeletshim/kubeletshim.go:182-201, pruneSeeded] *)
Definition pruneSeeded : E (Shim * W) unit :=
  prev ← gets sh_seededPrev;
  _ ← for_each prune_one (range_targets prev);
  on_state (fun sh => sh_with_seeded sh (default ∅ (sh_seededCur sh)) (sh_seededCur sh)).

Definition mark (kt : string * Target) : E (Shim * W) unit := on_state (markSeeded kt.1 kt.2).

Definition node_targets (n : FakeNode) : list (string * Target) :=
  [("Node|" +:+ fn_Name n, TNode (fn_Name n));
   ("Lease|kube-node-lease|" +:+ fn_Name n, TLease (fn_Name n))].
Definition crd_target (c : seed.CRD) : string * Target :=
  let name := seed.crd_Plural c +:+ "." +:+ seed.crd_Group c in ("CRD|" +:+ name, TCRD name).
Definition controller_target (c : seed.Controller) : string * Target :=
  (seed.ctl_Kind c +:+ "|" +:+ seed.ctl_Namespace c +:+ "|" +:+ seed.ctl_Name c,
   TController (seed.ctl_Kind c) (seed.ctl_Namespace c) (seed.ctl_Name c)).
Definition secret_target (s : FakeSecret) : string * Target :=
  ("Secret|" +:+ fs_Namespace s +:+ "|" +:+ fs_Name s, TSecret (fs_Namespace s) (fs_Name s)).
Definition configmap_target (c : seed.ConfigMap) : string * Target :=
  ("ConfigMap|" +:+ seed.scm_Namespace c +:+ "|" +:+ seed.scm_Name c,
   TConfigMap (seed.scm_Namespace c) (seed.scm_Name c)).
Definition service_target (s : seed.Service) : string * Target :=
  ("Service|" +:+ seed.ssv_Namespace s +:+ "|" +:+ seed.ssv_Name s,
   TService (seed.ssv_Namespace s) (seed.ssv_Name s)).

(** The loop over the nodes; the first is the control plane. *)
Definition seed_nodes (nodes : list FakeNode) : E (Shim * W) unit :=
  for_each (fun ni : nat * FakeNode =>
    let '(i, n) := ni in
    _ ← wrap_err ("seeding node " +:+ Quote is_print (fn_Name n)) (upsertNode n (bool_decide (i = 0)));
    for_each mark (node_targets n)) (imap pair nodes).

(** The loops over the pods and the secrets share [nsSeen]. *)
Fixpoint seed_pods (defaultNode : string) (nsSeen : gset string) (ps : list seed.Pod)
    : E (Shim * W) (gset string) :=
  match ps with
  | [] => mret nsSeen
  | w :: ps' =>
      let fp := seed.sp_FakePod w in
      _ ← (if bool_decide (fp_Namespace fp ∈ nsSeen) then mret tt else ensureNamespace (fp_Namespace fp));
      let nodeName := if fp_NodeName fp ==? "" then defaultNode else fp_NodeName fp in
      _ ← wrap_err ("seeding workload " +:+ Quote is_print (fp_Name fp)) (upsertWorkload w nodeName);
      seed_pods defaultNode ({[fp_Namespace fp]} ∪ nsSeen) ps'
  end.

Fixpoint seed_secrets (nsSeen : gset string) (ss : list FakeSecret) : E (Shim * W) unit :=
  match ss with
  | [] => mret tt
  | s :: ss' =>
      _ ← (if bool_decide (fs_Namespace s ∈ nsSeen) then mret tt else ensureNamespace (fs_Namespace s));
      _ ← wrap_err ("seeding secret " +:+ Quote is_print (fs_Name s)) (upsertSecret s);
      _ ← mark (secret_target s);
      seed_secrets ({[fs_Namespace s]} ∪ nsSeen) ss'
  end.

Definition seeded_line (s : seed.Seed) : string :=
  "kubelet-shim: seeded " +:+ Itoa (Z.of_nat (length (seed.s_FakeNodes s))) +:+ " node(s), "
  +:+ Itoa (Z.of_nat (length (seed.s_FakePods s))) +:+ " workload(s), "
  +:+ Itoa (Z.of_nat (length (seed.s_FakeSecrets s))) +:+ " secret(s)".

(** The pass up to the objects of the seed.
    [src/internal/kubeletshim/kubeletshim.go:376-487, Seed] *)
Definition seed_objects (current : seed.Seed) : E (Shim * W) unit :=
  let nodes := seed.s_FakeNodes current in
  _ ← seed_nodes nodes;
  _ ← wrap_err "seeding node leases" (ensureNodeLeases nodes);
  _ ← wrap_err "seeding CRDs" (createCRDs (seed.s_CRDs current));
  _ ← for_each (fun c => mark (crd_target c)) (seed.s_CRDs current);
  _ ← wrap_err "seeding controllers" (createControllers (seed.s_Controllers current));
  _ ← for_each (fun c => mark (controller_target c)) (seed.s_Controllers current);
  nsSeen ← seed_pods (from_option fn_Name "" (head nodes)) ∅ (seed.s_FakePods current);
  _ ← seed_secrets nsSeen (seed.s_FakeSecrets current);
  _ ← wrap_err "seeding configmaps" (createConfigMaps (seed.s_ConfigMaps current));
  _ ← for_each (fun c => mark (configmap_target c)) (seed.s_ConfigMaps current);
  _ ← wrap_err "seeding services" (createServices (seed.s_Services current));
  for_each (fun s => mark (service_target s)) (seed.s_Services current).

(** The pass up to the pruning, and the seed it used. *)
Definition seed_all : E (Shim * W) seed.Seed :=
  current ← gets sh_Seed;
  _ ← on_state (fun sh => sh_with_uids sh ∅);
  _ ← wrap_err "finalizing terminating namespaces" finalizeTerminatingNamespaces;
  _ ← on_state (fun sh => sh_with_seeded sh (sh_seededPrev sh) (Some ∅));
  _ ← seed_objects current;
  r ← try_ (adoptScheduledPods (list_to_set (fn_Name <$> seed.s_FakeNodes current)));
  _ ← match r with
      | inr _ => mret tt
      | inl e => call (log_Print ("kubelet-shim: adopting scheduled pods: " +:+ e_Message e))
      end;
  mret current.

(** [src/internal/kubeletshim/kubeletshim.go:352-513, Seed] *)
Definition Seed : E (Shim * W) unit :=
  current ← seed_all;
  _ ← pruneSeeded;
  call (log_Print (seeded_line current)).

(** [load] is [seed.Load].
    [src/internal/kubeletshim/kubeletshim.go:210-226, reloadSeed] *)
Definition reloadSeed (load : string -> E W seed.Seed) : E (Shim * W) unit :=
  if cfg_SeedPath cfg ==? "" then mret tt else
  r ← call (try_ (load (cfg_SeedPath cfg)));
  match r with
  | inl e => call (log_Print ("kubelet-shim: re-reading seed, keeping the previous one: " +:+ e_Message e))
  | inr next => on_state (fun sh => sh_with_seed sh next)
  end.

(** One tick of [RunHeartbeat].
    [src/internal/kubeletshim/kubeletshim.go:1355-1371, RunHeartbeat] *)
Definition heartbeat (load : string -> E W seed.Seed) : E (Shim * W) unit :=
  _ ← reloadSeed load;
  r ← try_ Seed;
  match r with
  | inr _ => mret tt
  | inl e => call (log_Print ("kubelet-shim: heartbeat re-seed failed: " +:+ e_Message e))
  end.

(** A tick logs what failed and returns. *)
Lemma heartbeat_returns `{!HostLaws W} (load : string -> E W seed.Seed) sh w :
  exists sh' w', heartbeat load (sh, w) = (inr tt, (sh', w')).
Proof.
  assert (forall s (x : Shim * W), exists y, call (log_Print s) x = (inr tt, y)) as Hlog.
  { intros s [sh1 w1]. unfold call, on_host. simpl. destruct (log_ok s w1) as (w2 & -> & _). eauto. }
  assert (exists x, reloadSeed load (sh, w) = (inr tt, x)) as [x Hx].
  { unfold reloadSeed. destruct (_ ==? _); [by eexists|].
    unfold mbind, E_bind, call at 1, on_host at 1, try_. simpl. destruct (load _ w) as [[e|s] w1]; [|by eexists].
    destruct (Hlog ("kubelet-shim: re-reading seed, keeping the previous one: " +:+ e_Message e) (sh, w1)) as [y Hy].
    exists y. exact Hy. }
  unfold heartbeat, mbind, E_bind at 1. rewrite Hx. unfold E_bind, try_. destruct (Seed x) as [[e|u] y].
  - destruct (Hlog ("kubelet-shim: heartbeat re-seed failed: " +:+ e_Message e) y) as [[sh' w'] Hy].
    exists sh', w'. exact Hy.
  - destruct y as [sh' w']. by exists sh', w'.
Qed.

(** The loop until the context is done: one [Seed] and reload per tick. *)
Definition RunHeartbeat (load : string -> E W seed.Seed) (ticks : nat) : E (Shim * W) unit :=
  for_each (fun _ => heartbeat load) (seq 0 ticks).

End Pass.
