(* ===== verification/ShimFacts.v ===== *)
(** * What a seed pass does to the inner cluster's secrets

    The secrets of a decoy are its bait. The theorems follow them and the
    shim's book-keeping through a whole pass of [Seed], against an inner API
    server of which only the documented behaviour is assumed. *)

From S2P Require Import Prelude GoStrings KubeTypes ApiTypes Kube Server Host Hash.
From S2P Require Import ShimIds ShimTypes SeedJson ShimSeed.
#[local] Open Scope string_scope.
#[local] Open Scope list_scope.

(** ** The laws of the clientset *)

(** Every call on one kind of object leaves a view alone. *)
Class TypedLeaves {W O X} (c : Typed W O) (view : W -> X) : Prop := {
  tl_client :: Leaves (typed c) view;
  tl_delete : forall key o, keeps view (DeleteNamed c key o);
  tl_collection : forall ns, keeps view (DeleteCollection c ns) }.

#[export] Hint Resolve tl_delete tl_collection : keeps.

Section TypedLaws.
Context {W O : Type} `{Object O} (view : W -> gmap NamespacedName O) (body : option O -> O -> O -> Prop).

(** A typed client serves a view; deletion by name removes or marks that one
    object, deletion of a collection stays in its namespace. *)
Class TypedServes (c : Typed W O) : Prop := {
  ts_client :: Serves view body (typed c);
  ts_delete : forall key o w r w', DeleteNamed c key o w = (r, w') ->
    match r with
    | inr _ => deleted view key w w'
    | inl e => (view w' = view w \/ deleted view key w w') /\
               (IsNotFound e = true -> view w' !! key = None)
    end;
  ts_collection : forall ns w r w' key, DeleteCollection c ns w = (r, w') ->
    nn_Namespace key <> ns -> view w' !! key = view w !! key }.
End TypedLaws.

(** ** Computations on the pair of shim and world *)

Section PairKeeps.
Context {W X : Type} (view : Shim * W -> X).

Lemma keeps_gets {A} (f : Shim -> A) : keeps view (gets f).
Proof. by intros sw. Qed.

Lemma keeps_on_state f : (forall sh w, view (f sh, w) = view (sh, w)) -> keeps view (on_state f).
Proof. intros Hf [sh w]. apply Hf. Qed.

Lemma keeps_call {A} (c : E W A) :
  (forall sh, keeps (fun w => view (sh, w)) c) -> keeps view (on_host c).
Proof. intros Hc [sh w]. unfold on_host. simpl. specialize (Hc sh w). by destruct (c w). Qed.
End PairKeeps.
#[export] Hint Resolve keeps_gets : keeps.

(** The keys under which the source tracks its targets. *)
Definition target_key (t : Target) : string :=
  match t with
  | TNode name => "Node|" +:+ name
  | TLease name => "Lease|kube-node-lease|" +:+ name
  | TCRD name => "CRD|" +:+ name
  | TController kind ns name => kind +:+ "|" +:+ ns +:+ "|" +:+ name
  | TPod ns name => "Pod|" +:+ ns +:+ "|" +:+ name
  | TSecret ns name => "Secret|" +:+ ns +:+ "|" +:+ name
  | TConfigMap ns name => "ConfigMap|" +:+ ns +:+ "|" +:+ name
  | TService ns name => "Service|" +:+ ns +:+ "|" +:+ name
  end.

(** Every tracked target sits under its own key. *)
Definition tracked_wf (m : gmap string Target) : Prop :=
  forall key t, m !! key = Some t -> key = target_key t.

(** Everything a seed asks for, in the order the pass marks it. *)
Definition pod_targets (w : seed.Pod) : list (string * Target) :=
  (fun r => pod_target (fp_Namespace (seed.sp_FakePod w)) (replica_name w r)) <$> seqZ 0 (replicas_of w).

Definition seed_targets (s : seed.Seed) : list (string * Target) :=
  concat (node_targets <$> seed.s_FakeNodes s) ++ (crd_target <$> seed.s_CRDs s)
  ++ (controller_target <$> seed.s_Controllers s) ++ concat (pod_targets <$> seed.s_FakePods s)
  ++ (secret_target <$> seed.s_FakeSecrets s) ++ (configmap_target <$> seed.s_ConfigMaps s)
  ++ (service_target <$> seed.s_Services s).

Definition marked (m : gmap string Target) (l : list (string * Target)) : gmap string Target :=
  foldl (fun m kt => <[kt.1 := kt.2]> m) m l.

Lemma marked_app m l l' : marked m (l ++ l') = marked (marked m l) l'.
Proof. apply foldl_app. Qed.

Lemma seed_targets_wf s kt : kt ∈ seed_targets s -> kt.1 = target_key kt.2.
Proof.
  unfold seed_targets. rewrite !elem_of_app, !list_elem_of_fmap, !elem_of_concat.
  setoid_rewrite list_elem_of_fmap.
  intros [(l & (n & -> & _) & Hl)|[(x & -> & _)|[(x & -> & _)|[(l & (w & -> & _) & Hl)|
          [(x & -> & _)|[(x & -> & _)|(x & -> & _)]]]]]]; try done.
  - elem_cases Hl; done.
  - apply list_elem_of_fmap in Hl as (r & -> & _). done.
Qed.

Lemma marked_wf m l :
  tracked_wf m -> (forall kt, kt ∈ l -> kt.1 = target_key kt.2) -> tracked_wf (marked m l).
Proof.
  revert m. induction l as [|[key t] l IH]; intros m Hm Hl; [done|]. apply IH.
  - intros key' t'. simpl. rewrite lookup_insert_Some. intros [[<- <-]|[_ ?]]; [|by apply Hm].
    apply (Hl (key, t)). left.
  - intros kt Hkt. apply Hl. by right.
Qed.

Lemma marked_dom m l key :
  is_Some (marked m l !! key) <-> is_Some (m !! key) \/ key ∈ l.*1.
Proof.
  revert m. induction l as [|[key' t] l IH]; intros m; simpl.
  - split; [by left|intros [?|?%elem_of_nil]; done].
  - rewrite IH. simpl. rewrite elem_of_cons. destruct (decide (key = key')) as [->|Hne].
    + rewrite lookup_insert_eq. split; [by right; left|eauto].
    + rewrite lookup_insert_ne by done. naive_solver.
Qed.

(** A computation that leaves a view alone when it fails. *)
Definition fails_keep {W A X} (view : W -> X) (c : E W A) : Prop :=
  forall w e w', c w = (inl e, w') -> view w' = view w.

Lemma fails_keep_bind {W A B X} (view : W -> X) (c : E W A) (f : A -> E W B) :
  keeps view c -> (forall a, fails_keep view (f a)) -> fails_keep view (c ≫= f).
Proof.
  intros Hc Hf w e w'. unfold mbind, E_bind. specialize (Hc w).
  destruct (c w) as [[e1|a] w1]; simpl in Hc.
  - by intros [= <- <-].
  - intros Hr. rewrite <- Hc. by eapply Hf.
Qed.

Lemma fails_keep_total {W A X} (view : W -> X) (c : E W A) :
  (forall w, exists a w', c w = (inr a, w')) -> fails_keep view c.
Proof. intros Ht w e w' Hc. destruct (Ht w) as (a & w1 & ?). congruence. Qed.

(** ** The set of the previous pass *)

Section Prev.
Context (cfg : Config) (is_print : Z -> bool) (lower : Z -> Z).
Context {W : Type} `{Host W} (k : Clientset W).

(** [seededPrev]; every phase before the pruning leaves it alone. *)
Definition prev_of (sw : Shim * W) : gmap string Target := sh_seededPrev sw.1.

Lemma call_prev {A} (c : E W A) : keeps prev_of (on_host c).
Proof. apply keeps_call. by intros sh w. Qed.

Lemma find_prev {A} (c : E W A) : keeps prev_of (find c).
Proof. unfold find. apply keeps_bind; [apply call_prev|]. keep. Qed.

Lemma or_exists_prev {A} (c : E W A) : keeps prev_of (or_exists c).
Proof. unfold or_exists. apply keeps_bind; [apply call_prev|]. keep. Qed.

Lemma markSeeded_prev key t : keeps prev_of (on_state (markSeeded key t)).
Proof. apply keeps_on_state. intros sh w. unfold prev_of, markSeeded. simpl. by destruct (sh_seededCur sh). Qed.

#[local] Hint Resolve call_prev find_prev or_exists_prev markSeeded_prev : keeps.
#[local] Hint Extern 5 (keeps prev_of (on_state _)) => by apply keeps_on_state : keeps.

Lemma ensureNamespace_prev name : keeps prev_of (ensureNamespace k name).
Proof. unfold ensureNamespace. keep. Qed.
#[local] Hint Resolve ensureNamespace_prev : keeps.

Lemma finalize_prev : keeps prev_of (finalizeTerminatingNamespaces k).
Proof. unfold finalizeTerminatingNamespaces, purgeNamespace, ignore. keep. Qed.

Lemma upsertNode_prev n cp : keeps prev_of (upsertNode cfg k n cp).
Proof. unfold upsertNode. keep. Qed.

Lemma createCRDs_prev crds : keeps prev_of (createCRDs is_print lower k crds).
Proof. unfold createCRDs. keep. Qed.

Lemma createControllers_prev cs : keeps prev_of (createControllers k cs).
Proof.
  unfold createControllers, create_controller, upsertDeployment, upsertReplicaSet, upsertDaemonSet,
    upsert, status_uid. keep.
Qed.

Lemma createServices_prev svcs : keeps prev_of (createServices k svcs).
Proof. unfold createServices, create_service, ensureEndpointSlice. keep. Qed.

Lemma upsertWorkload_prev w node : keeps prev_of (upsertWorkload cfg k w node).
Proof. unfold upsertWorkload, upsertPod, pod_target. keep. Qed.

Lemma upsertSecret_prev fs : keeps prev_of (upsertSecret k fs).
Proof. unfold upsertSecret. keep. Qed.
#[local] Hint Resolve upsertNode_prev createCRDs_prev createControllers_prev createServices_prev
  upsertWorkload_prev upsertSecret_prev : keeps.

Lemma seed_pods_prev node seen ps : keeps prev_of (seed_pods cfg is_print k node seen ps).
Proof. revert seen. induction ps as [|w ps IH]; intros seen; simpl; keep. Qed.

Lemma seed_secrets_prev seen ss : keeps prev_of (seed_secrets is_print k seen ss).
Proof. unfold mark. revert seen. induction ss as [|s ss IH]; intros seen; simpl; unfold mark; keep. Qed.
#[local] Hint Resolve seed_pods_prev seed_secrets_prev : keeps.

Lemma seed_objects_prev current : keeps prev_of (seed_objects cfg is_print lower k current).
Proof. unfold seed_objects, seed_nodes, ensureNodeLeases, ensure_lease, createConfigMaps, mark. keep. Qed.

Lemma adoptScheduledPods_prev names : keeps prev_of (adoptScheduledPods cfg k names).
Proof. unfold adoptScheduledPods, ignore. keep. Qed.

Lemma seed_all_prev : keeps prev_of (seed_all cfg is_print lower k).
Proof.
  unfold seed_all. apply keeps_bind; [apply keeps_gets|]. intros current.
  apply keeps_bind; [by apply keeps_on_state|]. intros _.
  apply keeps_bind; [apply keeps_wrap, finalize_prev|]. intros _.
  apply keeps_bind; [by apply keeps_on_state|]. intros _.
  apply keeps_bind; [apply seed_objects_prev|]. intros _.
  apply keeps_bind; [apply keeps_try, adoptScheduledPods_prev|]. intros r.
  apply keeps_bind; [destruct r; [apply call_prev|apply keeps_ret]|]. intros _. apply keeps_ret.
Qed.
End Prev.

Section Pass.
Context (cfg : Config) (is_print : Z -> bool) (lower : Z -> Z)
        (range_targets : gmap string Target -> list (string * Target)).
Context {W : Type} `{HostLaws W} (k : Clientset W).
Context (sview : W -> gmap NamespacedName Secret) (nview : W -> gmap NamespacedName Namespace)
        (nbody : option Namespace -> Namespace -> Namespace -> Prop).
Context `{!TypedServes sview secret_body (k_secrets k), !Serves nview nbody (typed (k_namespaces k))}.

(** Nothing but the client of the secrets writes secrets. *)
Context `{!TypedLeaves (k_nodes k) sview, !TypedLeaves (k_leases k) sview,
          !TypedLeaves (k_namespaces k) sview, !TypedLeaves (k_pods k) sview,
          !TypedLeaves (k_configmaps k) sview, !TypedLeaves (k_services k) sview,
          !TypedLeaves (k_endpointslices k) sview, !TypedLeaves (k_deployments k) sview,
          !TypedLeaves (k_replicasets k) sview, !TypedLeaves (k_daemonsets k) sview}.
Context (crds_leave : forall cl, k_crds k = Some cl -> TypedLeaves cl sview)
        (finalize_keeps : forall n, keeps sview (k_Finalize k n))
        (now_keeps : keeps sview time_Now) (log_keeps : forall s, keeps sview (log_Print s)).
Context (range_perm : forall m, range_targets m ≡ₚ map_to_list m).

(** The book-keeping and the secrets. *)
Definition bk (sw : Shim * W) : gmap string Target * option (gmap string Target) * gmap NamespacedName Secret :=
  (sh_seededPrev sw.1, sh_seededCur sw.1, sview sw.2).

Lemma call_bk {A} (c : E W A) : keeps sview c -> keeps bk (on_host c).
Proof. intros Hc. apply keeps_call. intros sh w. unfold bk. simpl. by rewrite Hc. Qed.

Lemma find_bk {A} (c : E W A) : keeps sview c -> keeps bk (find c).
Proof. intros Hc. unfold find. apply keeps_bind; [by apply call_bk, keeps_try|]. keep. Qed.

Lemma or_exists_bk {A} (c : E W A) : keeps sview c -> keeps bk (or_exists c).
Proof. intros Hc. unfold or_exists. apply keeps_bind; [by apply call_bk, keeps_try|]. keep. Qed.

Lemma ignore_bk {A} (c : E W A) : keeps sview c -> keeps bk (ignore c).
Proof. intros Hc. unfold ignore. apply call_bk. keep. Qed.

Lemma recordUID_bk n u : keeps bk (on_state (recordUID n u)).
Proof. by apply keeps_on_state. Qed.

#[local] Hint Resolve call_bk find_bk or_exists_bk ignore_bk recordUID_bk : keeps.
#[local] Hint Extern 1 (keeps _ (Get _ _)) => apply leaves_get : keeps.
#[local] Hint Extern 1 (keeps _ (List_ _ _)) => apply leaves_list : keeps.
#[local] Hint Extern 1 (keeps _ (Create _ _)) => apply leaves_create : keeps.
#[local] Hint Extern 1 (keeps _ (Update _ _)) => apply leaves_update : keeps.
#[local] Hint Extern 1 (keeps _ (StatusUpdate _ _)) => apply leaves_status : keeps.

Lemma ensureNamespace_bk name : keeps bk (ensureNamespace k name).
Proof. unfold ensureNamespace. keep. Qed.
#[local] Hint Resolve ensureNamespace_bk : keeps.

Lemma upsertNode_bk n cp : keeps bk (upsertNode cfg k n cp).
Proof. unfold upsertNode. keep. Qed.

Lemma ensureNodeLeases_bk nodes : keeps bk (ensureNodeLeases k nodes).
Proof. unfold ensureNodeLeases, ensure_lease. keep. Qed.

Lemma createCRDs_bk crds : keeps bk (createCRDs is_print lower k crds).
Proof.
  unfold createCRDs. destruct crds as [|c crds]; [apply keeps_ret|].
  destruct (k_crds k) as [cl|]; [|apply keeps_ret]. pose proof (crds_leave cl eq_refl).
  keep; by apply keeps_on_state.
Qed.

Lemma upsert_bk {O} `{Object O} (c : Typed W O) set d : TypedLeaves c sview -> keeps bk (upsert c set d).
Proof. intros Hc. unfold upsert. keep. Qed.

Lemma status_uid_bk {O} `{Object O} (c : Typed W O) o : TypedLeaves c sview -> keeps bk (status_uid c o).
Proof. intros Hc. unfold status_uid. keep. Qed.
#[local] Hint Resolve upsert_bk status_uid_bk : keeps.

Lemma createControllers_bk cs : keeps bk (createControllers k cs).
Proof.
  unfold createControllers. apply keeps_for_each. intros c.
  unfold create_controller, upsertDeployment, upsertReplicaSet, upsertDaemonSet. keep.
Qed.

Lemma createConfigMaps_bk cms : keeps bk (createConfigMaps k cms).
Proof. unfold createConfigMaps. keep. Qed.

Lemma createServices_bk svcs : keeps bk (createServices k svcs).
Proof. unfold createServices, create_service, ensureEndpointSlice. keep. Qed.

Lemma podStartTime_sv p : keeps sview (podStartTime p).
Proof. unfold podStartTime. keep. Qed.
#[local] Hint Resolve podStartTime_sv : keeps.

Lemma adoptScheduledPods_bk names : keeps bk (adoptScheduledPods cfg k names).
Proof. unfold adoptScheduledPods. keep. Qed.

Lemma upsertPod_bk w name node : keeps bk (upsertPod cfg k w name node).
Proof. unfold upsertPod. keep. by apply keeps_on_state. Qed.

(** *** Marking *)

(** A run of [c] that succeeds marks the targets [l] and touches no secret. *)
Definition marks {A} (c : E (Shim * W) A) (l : list (string * Target)) : Prop :=
  forall sw a sw' P m S, bk sw = (P, Some m, S) -> c sw = (inr a, sw') ->
  bk sw' = (P, Some (marked m l), S).

Lemma marks_keeps {A} (c : E (Shim * W) A) : keeps bk c -> marks c [].
Proof. intros Hk sw a sw' P m S Hsw Hc. specialize (Hk sw). rewrite Hc in Hk. simpl in *. congruence. Qed.

Lemma marks_bind {A B} (c : E (Shim * W) A) (f : A -> E (Shim * W) B) l l' :
  marks c l -> (forall a, marks (f a) l') -> marks (c ≫= f) (l ++ l').
Proof.
  intros Hc Hf sw b sw' P m S Hsw (a & sw1 & H1 & H2)%E_bind_inr. rewrite marked_app.
  eapply Hf; [|exact H2]. by eapply Hc.
Qed.

Lemma marks_wrap {A} p (c : E (Shim * W) A) l : marks c l -> marks (wrap_err p c) l.
Proof. intros Hc sw a sw' P m S Hsw Hw%wrap_err_inr. by eapply Hc. Qed.

Lemma marks_for_each {A} (f : A -> E (Shim * W) unit) (g : A -> list (string * Target)) xs :
  (forall x, marks (f x) (g x)) -> marks (for_each f xs) (concat (g <$> xs)).
Proof.
  intros Hf. induction xs as [|x xs IH]; simpl; [by apply marks_keeps, keeps_ret|].
  by apply marks_bind.
Qed.

Lemma marks_mark kt : marks (mark kt) [kt].
Proof.
  intros [sh w] a sw' P m S [= HP Hc HS] [= _ <-]. unfold bk, markSeeded. simpl in *.
  by rewrite Hc, HP, HS.
Qed.

Lemma marks_each {A} (f : A -> string * Target) xs :
  marks (for_each (fun x => mark (f x)) xs) (f <$> xs).
Proof.
  assert (Heq : f <$> xs = concat ((fun x => [f x]) <$> xs)).
  { induction xs as [|x xs IH]; [done|]. simpl. by f_equal. }
  rewrite Heq. apply marks_for_each. intros x. apply marks_mark.
Qed.

Lemma marks_list l : marks (for_each mark l) l.
Proof. rewrite <- (list_fmap_id l) at 2. apply (marks_each id). Qed.

(** A step that marks nothing before one that marks. *)
Lemma marks_then {A B} (c : E (Shim * W) A) (f : A -> E (Shim * W) B) l :
  keeps bk c -> (forall a, marks (f a) l) -> marks (c ≫= f) l.
Proof. intros Hc Hf. change l with ([] ++ l). apply marks_bind; [by apply marks_keeps|done]. Qed.

Lemma seed_nodes_marks nodes : marks (seed_nodes cfg is_print k nodes) (concat (node_targets <$> nodes)).
Proof.
  unfold seed_nodes.
  assert (Heq : node_targets <$> nodes = (fun ni : nat * FakeNode => node_targets ni.2) <$> imap pair nodes).
  { rewrite fmap_imap. apply list_eq. intros i. rewrite list_lookup_fmap, list_lookup_imap. done. }
  rewrite Heq. apply marks_for_each. intros [i n].
  apply marks_then; [by apply keeps_wrap, upsertNode_bk|]. intros _. apply marks_list.
Qed.

Lemma upsertWorkload_marks w node : marks (upsertWorkload cfg k w node) (pod_targets w).
Proof.
  unfold upsertWorkload, pod_targets. set (ns := fp_Namespace _).
  assert (Heq : (fun r => pod_target ns (replica_name w r)) <$> seqZ 0 (replicas_of w) =
    concat ((fun r => [pod_target ns (replica_name w r)]) <$> seqZ 0 (replicas_of w))).
  { induction (seqZ 0 (replicas_of w)) as [|x xs IH]; [done|]. simpl. by f_equal. }
  rewrite Heq. apply marks_for_each. intros r.
  apply marks_then; [apply upsertPod_bk|]. intros _. apply (marks_mark (pod_target ns (replica_name w r))).
Qed.

Lemma seed_pods_marks node seen ps :
  marks (seed_pods cfg is_print k node seen ps) (concat (pod_targets <$> ps)).
Proof.
  revert seen. induction ps as [|w ps IH]; intros seen; simpl; [by apply marks_keeps, keeps_ret|].
  apply marks_then; [keep|]. intros _. apply marks_bind; [by apply marks_wrap, upsertWorkload_marks|].
  intros _. apply IH.
Qed.

(** *** The secrets of the seed *)

(** What the seed wants, the last entry of a name counting. *)
Definition wanted_secrets (m : gmap NamespacedName (gmap string string)) (ss : list FakeSecret)
    : gmap NamespacedName (gmap string string) :=
  foldl (fun m s => <[NN (fs_Namespace s) (fs_Name s) := fs_Data s]> m) m ss.

Definition not_deleting (S : gmap NamespacedName Secret) (key : NamespacedName) : Prop :=
  forall s, S !! key = Some s -> om_DeletionTimestamp (sec_Meta s) = None.

(** [S] is [S0] with the wanted data written. *)
Definition written (m : gmap NamespacedName (gmap string string)) (S0 S : gmap NamespacedName Secret) : Prop :=
  forall key, not_deleting S0 key ->
  match m !! key with
  | Some d => exists s, S !! key = Some s /\ sec_Data s = d /\ om_DeletionTimestamp (sec_Meta s) = None
  | None => S !! key = S0 !! key
  end.

Lemma written_not_deleting m S0 S key : written m S0 S -> not_deleting S0 key -> not_deleting S key.
Proof.
  intros Hw Hn s Hs. specialize (Hw key Hn). destruct (m !! key) as [d|].
  - destruct Hw as (s' & Hs' & _ & Hd). congruence.
  - apply Hn. congruence.
Qed.

Lemma find_secret_inv key sw g sw' :
  find (Get (typed (k_secrets k)) key) sw = (inr g, sw') ->
  sw'.1 = sw.1 /\ sview sw'.2 = sview sw.2 /\ sview sw.2 !! key = g.
Proof.
  destruct sw as [sh w]. unfold find. intros (r & sw1 & H1 & H2)%E_bind_inr.
  unfold on_host, try_ in H1. simpl in *.
  destruct (Get (typed (k_secrets k)) key w) as [r0 w1] eqn:E. injection H1 as <- <-.
  apply (serves_get sview _) in E as [Hv E]. destruct r0 as [e|o]; simpl in *.
  - destruct (IsNotFound e) eqn:Hnf; [|done]. injection H2 as <- <-. simpl. rewrite Hv.
    split_and!; [done..|]. by apply E.
  - injection H2 as <- <-. done.
Qed.

Lemma upsertSecret_written fs m S0 sw sw' P cur S :
  bk sw = (P, cur, S) -> written m S0 S ->
  upsertSecret k fs sw = (inr tt, sw') ->
  exists S', bk sw' = (P, cur, S') /\
    written (<[NN (fs_Namespace fs) (fs_Name fs) := fs_Data fs]> m) S0 S'.
Proof.
  intros Hbk Hw Hrun. unfold upsertSecret in Hrun. set (kk := NN (fs_Namespace fs) (fs_Name fs)) in *.
  apply E_bind_inr in Hrun as (g & [sh1 w1] & Hg & Hrun). apply find_secret_inv in Hg as (Hsh & Hv & Hg).
  simpl in *. destruct sw as [sh w]. simpl in *. subst sh1. injection Hbk as HP Hc HS.
  assert (Hins : forall o' w2, sview w2 = <[kk := o']> (sview w1) -> sec_Data o' = fs_Data fs ->
    (not_deleting (sview w1) kk -> om_DeletionTimestamp (sec_Meta o') = None) ->
    written (<[kk := fs_Data fs]> m) S0 (sview w2)).
  { intros o' w2 Hv2 Hd Hdel key Hn. rewrite Hv2, Hv, HS. destruct (decide (key = kk)) as [->|Hne].
    - rewrite !lookup_insert_eq. exists o'. split_and!; [done..|]. apply Hdel. rewrite Hv, HS.
      by eapply written_not_deleting.
    - rewrite !lookup_insert_ne by done. by apply Hw. }
  destruct g as [existing|].
  - apply E_bind_inr in Hrun as (o & sw2 & Hu & [= <-]). unfold on_host in Hu. simpl in Hu.
    destruct (Update _ _ w1) as [[e|o'] w2] eqn:E; [done|]. injection Hu as <- <-.
    apply (serves_update sview _) in E as (old & Hold & Hst & _ & Hv2).
    assert (Hkey : key_of existing = kk) by (eapply (serves_key sview secret_body); exact Hg).
    assert (Hkk : key_of {| sec_Meta := sec_Meta existing; sec_Type := sec_Type existing; sec_Data := fs_Data fs |} = kk)
      by (unfold key_of in *; simpl in *; done).
    rewrite Hkk in *. destruct Hst as (_ & [_ Hd] & Hdel).
    exists (sview w2). split; [unfold bk; simpl; by rewrite HP, Hc|].
    destruct Hv2 as [Hv2|(Hsome & _ & Hv2)].
    + eapply Hins; [exact Hv2|done|]. intros Hn. simpl in Hdel. rewrite Hdel. simpl. by apply Hn.
    + intros key Hn. rewrite Hv2, Hv, HS. destruct (decide (key = kk)) as [->|Hne].
      * exfalso. destruct Hsome as [t Ht]. rewrite Hv, HS in Hold.
        pose proof (written_not_deleting _ _ _ _ Hw Hn _ Hold). simpl in Ht. congruence.
      * rewrite lookup_insert_ne, lookup_delete_ne by done. by apply Hw.
  - apply E_bind_inr in Hrun as (o & sw2 & Hu & [= <-]). unfold on_host in Hu. simpl in Hu.
    destruct (Create _ _ w1) as [[e|o'] w2] eqn:E; [done|]. injection Hu as <- <-.
    apply (serves_create sview _) in E as (_ & (_ & [_ Hd] & Hdel) & Hv2).
    exists (sview w2). split; [unfold bk; simpl; by rewrite HP, Hc|]. eapply Hins; [exact Hv2|done|done].
Qed.

Lemma seed_secrets_written seen ss m S0 sw sw' P cur S :
  bk sw = (P, Some cur, S) -> written m S0 S ->
  seed_secrets is_print k seen ss sw = (inr tt, sw') ->
  exists S', bk sw' = (P, Some (marked cur (secret_target <$> ss)), S') /\
    written (wanted_secrets m ss) S0 S'.
Proof.
  revert seen m sw cur S. induction ss as [|fs ss IH]; intros seen m sw cur S Hbk Hw Hrun; simpl in Hrun.
  { injection Hrun as <-. by exists S. }
  apply E_bind_inr in Hrun as (? & sw1 & H1 & Hrun).
  assert (Hbk1 : bk sw1 = (P, Some cur, S)).
  { rewrite <- Hbk. set (c := if bool_decide _ then _ else _) in H1.
    assert (Hk : keeps bk c) by (unfold c; keep). specialize (Hk sw). by rewrite H1 in Hk. }
  apply E_bind_inr in Hrun as ([] & sw2 & H2 & Hrun). apply wrap_err_inr in H2.
  destruct (upsertSecret_written fs m S0 sw1 sw2 P (Some cur) S Hbk1 Hw H2) as (S2 & Hbk2 & Hw2).
  apply E_bind_inr in Hrun as (? & sw3 & H3 & Hrun).
  pose proof (marks_mark _ _ _ _ _ _ _ Hbk2 H3) as Hbk3.
  destruct (IH _ _ _ _ _ Hbk3 Hw2 Hrun) as (S' & Hbk' & Hw'). by exists S'.
Qed.

(** Everything between the start of the pass and its last phase. *)
Lemma seed_objects_written current sw sw' P S :
  bk sw = (P, Some ∅, S) -> seed_objects cfg is_print lower k current sw = (inr tt, sw') ->
  exists S', bk sw' = (P, Some (marked ∅ (seed_targets current)), S') /\
    written (wanted_secrets ∅ (seed.s_FakeSecrets current)) S S'.
Proof.
  intros Hbk Hrun. unfold seed_objects in Hrun. unfold seed_targets.
  apply E_bind_inr in Hrun as (? & sw1 & H1 & Hrun).
  pose proof (seed_nodes_marks _ _ _ _ _ _ _ Hbk H1) as Hbk1.
  apply E_bind_inr in Hrun as (? & sw2 & H2 & Hrun).
  pose proof (marks_keeps _ (keeps_wrap bk _ _ (ensureNodeLeases_bk _)) _ _ _ _ _ _ Hbk1 H2) as Hbk2.
  apply E_bind_inr in Hrun as (? & sw3 & H3 & Hrun).
  pose proof (marks_keeps _ (keeps_wrap bk _ _ (createCRDs_bk _)) _ _ _ _ _ _ Hbk2 H3) as Hbk3.
  apply E_bind_inr in Hrun as (? & sw4 & H4 & Hrun).
  pose proof (marks_each _ _ _ _ _ _ _ _ Hbk3 H4) as Hbk4.
  apply E_bind_inr in Hrun as (? & sw5 & H5 & Hrun).
  pose proof (marks_keeps _ (keeps_wrap bk _ _ (createControllers_bk _)) _ _ _ _ _ _ Hbk4 H5) as Hbk5.
  apply E_bind_inr in Hrun as (? & sw6 & H6 & Hrun).
  pose proof (marks_each _ _ _ _ _ _ _ _ Hbk5 H6) as Hbk6.
  apply E_bind_inr in Hrun as (seen & sw7 & H7 & Hrun).
  pose proof (seed_pods_marks _ _ _ _ _ _ _ _ _ Hbk6 H7) as Hbk7.
  apply E_bind_inr in Hrun as ([] & sw8 & H8 & Hrun).
  destruct (seed_secrets_written _ _ ∅ S _ _ _ _ _ Hbk7 (fun key _ => ltac:(by rewrite lookup_empty)) H8)
    as (S' & Hbk8 & Hw).
  apply E_bind_inr in Hrun as (? & sw9 & H9 & Hrun).
  pose proof (marks_keeps _ (keeps_wrap bk _ _ (createConfigMaps_bk _)) _ _ _ _ _ _ Hbk8 H9) as Hbk9.
  apply E_bind_inr in Hrun as (? & sw10 & H10 & Hrun).
  pose proof (marks_each _ _ _ _ _ _ _ _ Hbk9 H10) as Hbk10.
  apply E_bind_inr in Hrun as (? & sw11 & H11 & Hrun).
  pose proof (marks_keeps _ (keeps_wrap bk _ _ (createServices_bk _)) _ _ _ _ _ _ Hbk10 H11) as Hbk11.
  pose proof (marks_each _ _ _ _ _ _ _ _ Hbk11 Hrun) as Hbk12.
  exists S'. split; [|done]. rewrite Hbk12, !marked_app. reflexivity.
Qed.

(** *** Terminating namespaces *)

(** One secret beside the book-keeping. *)
Definition bk_at (key : NamespacedName) (sw : Shim * W)
    : gmap string Target * option (gmap string Target) * option Secret :=
  (sh_seededPrev sw.1, sh_seededCur sw.1, sview sw.2 !! key).

Lemma bk_at_keeps {A} key (c : E (Shim * W) A) : keeps bk c -> keeps (bk_at key) c.
Proof.
  intros Hk sw. specialize (Hk sw). unfold bk in Hk. unfold bk_at. injection Hk as -> -> ->. done.
Qed.

Lemma purge_secrets_at key ns :
  nn_Namespace key <> ns -> keeps (bk_at key) (ignore (DeleteCollection (k_secrets k) ns)).
Proof.
  intros Hne [sh w]. unfold ignore, on_host, try_, mbind, E_bind, bk_at. simpl.
  destruct (DeleteCollection (k_secrets k) ns w) as [r w'] eqn:E. simpl.
  by rewrite (ts_collection sview secret_body ns w r w' key E Hne).
Qed.

Lemma purgeNamespace_at key ns :
  nn_Namespace key <> ns -> keeps (bk_at key) (purgeNamespace k ns).
Proof.
  intros Hne. unfold purgeNamespace.
  repeat (apply keeps_bind; [first [by apply purge_secrets_at | apply bk_at_keeps; keep]|intros _]).
  apply bk_at_keeps. keep.
Qed.

(** A namespace that is not being deleted. *)
Definition live_namespace (w : W) (ns : string) : Prop :=
  forall key o, nview w !! key = Some o -> om_Name (ns_Meta o) = ns ->
  om_DeletionTimestamp (ns_Meta o) = None.

Lemma finalize_at key sw :
  live_namespace sw.2 (nn_Namespace key) ->
  bk_at key (finalizeTerminatingNamespaces k sw).2 = bk_at key sw.
Proof.
  intros Hlive. destruct sw as [sh w]. unfold finalizeTerminatingNamespaces.
  unfold mbind at 1, E_bind at 1, on_host at 1. simpl.
  pose proof (leaves_list (c := typed (k_namespaces k)) (view := sview) everything w) as Hs.
  destruct (List_ _ everything w) as [[e|items] w1] eqn:E; simpl in Hs.
  { unfold bk_at. simpl. by rewrite Hs. }
  apply (serves_list nview _) in E as [_ [_ Hin]].
  transitivity (bk_at key (sh, w1)); [|unfold bk_at; simpl; by rewrite Hs].
  assert (Hall : forall o, o ∈ items -> om_DeletionTimestamp (ns_Meta o) = None \/
                                       nn_Namespace key <> om_Name (ns_Meta o)).
  { intros o Ho. apply Hin in Ho as [Ho _].
    destruct (decide (om_Name (ns_Meta o) = nn_Namespace key)) as [Heq|]; [left|right; congruence].
    by eapply Hlive. }
  clear Hin Hs Hlive. generalize (sh, w1). clear sh w1.
  match goal with |- forall p, bk_at key (for_each ?f items p).2 = _ =>
    change (keeps (bk_at key) (for_each f items)) end.
  induction items as [|o items IH]; simpl; [apply keeps_ret|].
  apply keeps_bind; [|intros _; apply IH; intros o' Ho'; apply Hall; by right].
  destruct (om_DeletionTimestamp (ns_Meta o)) eqn:Hd; [|apply keeps_ret].
  destruct (Hall o) as [?|Hne]; [left|congruence|].
  apply keeps_bind; [by apply purgeNamespace_at|]. intros _. apply bk_at_keeps. keep.
Qed.

(** *** Pruning *)

(** The secret is gone, or on its way. *)
Definition going (S : gmap NamespacedName Secret) (key : NamespacedName) : Prop :=
  forall s, S !! key = Some s -> is_Some (om_DeletionTimestamp (sec_Meta s)).

Definition secret_of (key : NamespacedName) : Target := TSecret (nn_Namespace key) (nn_Name key).

Lemma deleted_going key key' w w' :
  deleted sview key w w' ->
  going (sview w') key /\ (key' <> key -> sview w' !! key' = sview w !! key').
Proof.
  intros [Hv|(o & o' & _ & Hv & Hd & _)]; rewrite Hv; split.
  - intros s. by rewrite lookup_delete_eq.
  - intros ?. by rewrite lookup_delete_ne.
  - intros s. rewrite lookup_insert_eq. by intros [= <-].
  - intros ?. by rewrite lookup_insert_ne.
Qed.

Lemma deleted_going_mono key key' w w' :
  deleted sview key w w' -> going (sview w) key' -> going (sview w') key'.
Proof.
  intros Hd Hg. destruct (deleted_going key key' w w' Hd) as [Hk Hne].
  destruct (decide (key' = key)) as [->|Hn]; [done|]. intros s. rewrite Hne by done. apply Hg.
Qed.

Lemma delete_target_keeps t : (forall key, t <> secret_of key) -> keeps sview (delete_target k t).
Proof.
  intros Ht. destruct t; simpl; try (keep; fail). by destruct (Ht (NN ns name)).
Qed.

(** What the deletion of a target does to the secrets. *)
Lemma delete_target_effect t w r w' :
  delete_target k t w = (r, w') ->
  (forall key, t <> secret_of key -> sview w' !! key = sview w !! key) /\
  (forall key, going (sview w) key -> going (sview w') key) /\
  (forall key, t = secret_of key ->
     match r with inr _ => going (sview w') key | inl e => IsNotFound e = true -> going (sview w') key end).
Proof.
  intros E. assert ((exists ns name, t = TSecret ns name) \/ (forall ns name, t <> TSecret ns name))
    as [(ns & name & ->)|Ht] by (destruct t; eauto; right; congruence).
  - simpl in E. apply (ts_delete sview secret_body) in E.
    assert (Hother : forall key, TSecret ns name <> secret_of key -> key <> NN ns name)
      by (intros [ns' name'] Hne [= -> ->]; by apply Hne).
    assert (Hsame : forall key, TSecret ns name = secret_of key -> key = NN ns name)
      by (intros [ns' name'] [= -> ->]; done).
    destruct r as [e|u].
    + destruct E as [[Hv|Hd] Hnf].
      * rewrite Hv. split_and!; [done|done|]. intros key ->%Hsame He s.
        rewrite <- Hv, Hnf by done. done.
      * split_and!; [intros key Hne; by apply (deleted_going (NN ns name)), Hother| |].
        -- intros key. by apply (deleted_going_mono (NN ns name)).
        -- intros key ->%Hsame _. by eapply deleted_going.
    + split_and!; [intros key Hne; by apply (deleted_going (NN ns name)), Hother| |].
      * intros key. by apply (deleted_going_mono (NN ns name)).
      * intros key ->%Hsame. by eapply deleted_going.
  - assert (Hk : keeps sview (delete_target k t)).
    { apply delete_target_keeps. intros [ns name]. apply Ht. }
    specialize (Hk w). rewrite E in Hk. simpl in Hk. rewrite Hk. split_and!; [done|done|].
    intros [ns name] Heq. by destruct (Ht ns name).
Qed.

(** In the pruning of the targets [l] from [sw] the deletion of this one,
    tried when its turn came, failed, and not because it was gone. *)
Definition refused_in_turn (l : list (string * Target)) (sw : Shim * W) (ks : string) (t : Target) : Prop :=
  exists l1 l2 sw1 e w2, l = l1 ++ (ks, t) :: l2 /\
    for_each (prune_one k) l1 sw = (inr tt, sw1) /\
    delete_target k t sw1.2 = (inl e, w2) /\ IsNotFound e = false.

Lemma refused_later kt l sw sw1 ks t :
  prune_one k kt sw = (inr tt, sw1) -> refused_in_turn l sw1 ks t -> refused_in_turn (kt :: l) sw ks t.
Proof.
  intros Hp (l1 & l2 & sw2 & e & w2 & -> & Hl1 & Hd & He). exists (kt :: l1), l2, sw2, e, w2.
  split_and!; [done| |done|done]. cbn [for_each]. unfold mbind, E_bind. by rewrite Hp.
Qed.

Lemma refused_first ks' t' l sw ks t :
  refused_in_turn [(ks', t')] sw ks t -> refused_in_turn ((ks', t') :: l) sw ks t.
Proof.
  intros ([|? l1] & l2 & sw2 & e & w2 & Heq & Hl1 & Hd & He); [|by destruct l1].
  injection Heq as -> -> <-. by exists [], l, sw2, e, w2.
Qed.

(** Pruning the targets [l] turns the set [cur] into [cur'] and the secrets
    [S] into [S']; what stays tracked is what [R] says was refused. *)
Record pruned (R : string -> Target -> Prop) (l : list (string * Target)) (cur cur' : gmap string Target)
    (S S' : gmap NamespacedName Secret) : Prop := {
  pr_grows : cur ⊆ cur';
  pr_kept : forall key t, cur' !! key = Some t -> cur !! key = None -> (key, t) ∈ l /\ R key t;
  pr_frame : forall key, (forall ks, (ks, secret_of key) ∈ l -> is_Some (cur !! ks)) ->
    S' !! key = S !! key;
  pr_mono : forall key, going S key -> going S' key;
  pr_gone : forall ks key, (ks, secret_of key) ∈ l -> cur !! ks = None ->
    going S' key \/ cur' !! ks = Some (secret_of key) }.

Lemma prune_one_pruned kt sw P cur S :
  bk sw = (P, Some cur, S) ->
  exists sw' cur' S', prune_one k kt sw = (inr tt, sw') /\ bk sw' = (P, Some cur', S') /\
    pruned (refused_in_turn [kt] sw) [kt] cur cur' S S' /\ (forall key, key <> kt.1 -> cur' !! key = cur !! key).
Proof.
  destruct kt as [ks t], sw as [sh w]. intros Hbk. unfold bk in Hbk. simpl in Hbk.
  injection Hbk as HP Hc HS. unfold prune_one. unfold mbind at 1, E_bind at 1, gets. simpl.
  rewrite Hc. simpl. case_bool_decide as Hk.
  { exists (sh, w), cur, S. split_and!; [done|unfold bk; simpl; congruence| |done].
    split; try done; intros *.
    - congruence.
    - intros [= -> ->]%list_elem_of_singleton Hn. rewrite Hn in Hk. by destruct Hk. }
  assert (Hcur : cur !! ks = None) by (by apply eq_None_not_Some).
  unfold mbind at 1, E_bind at 1, on_host at 1, try_. simpl.
  destruct (delete_target k t w) as [r w1] eqn:E.
  destruct (delete_target_effect t w r w1 E) as (Hframe & Hmono & Hgone). rewrite HS in *.
  assert (Hfr : forall key, (forall ks', (ks', secret_of key) ∈ [(ks, t)] -> is_Some (cur !! ks')) ->
                sview w1 !! key = S !! key).
  { intros key Hall. apply Hframe. intros ->. destruct (Hall ks) as [x Hx]; [left|congruence]. }
  assert (Hdone : (forall key, t = secret_of key -> going (sview w1) key) ->
    pruned (refused_in_turn [(ks, t)] (sh, w)) [(ks, t)] cur cur S (sview w1)).
  { intros Hg. split; try done.
    - congruence.
    - intros ks' key [= -> <-]%list_elem_of_singleton _. left. by apply Hg. }
  destruct r as [e|u].
  2:{ exists (sh, w1), cur, (sview w1). split_and!; [done|unfold bk; simpl; congruence| |done].
      apply Hdone. intros key Hkey. by apply (Hgone key). }
  destruct (IsNotFound e) eqn:Hnf.
  { exists (sh, w1), cur, (sview w1). split_and!; [done|unfold bk; simpl; congruence| |done].
    apply Hdone. intros key Hkey. by apply (Hgone key). }
  set (line := "kubelet-shim: pruning stale seeded object " +:+ ks +:+ ": " +:+ e_Message e).
  destruct (log_ok line w1) as (w2 & Hlog & _).
  pose proof (log_keeps line w1) as Hv. rewrite Hlog in Hv. simpl in Hv.
  exists (markSeeded ks t sh, w2), (<[ks := t]> cur), (sview w1).
  split; [unfold mbind, E_bind, on_host; simpl; fold line; by rewrite Hlog|].
  split; [unfold bk, markSeeded; simpl; rewrite Hc; simpl; congruence|]. split.
  - split; try done.
    + by apply insert_subseteq.
    + intros key t'. rewrite lookup_insert_Some. intros [[<- <-]|[_ ?]] ?; [|congruence].
      split; [left|]. by exists [], [], (sh, w), e, w1.
    + intros ks' key [= -> <-]%list_elem_of_singleton _. right. by rewrite lookup_insert_eq.
  - simpl. intros key Hne. by rewrite lookup_insert_ne.
Qed.

Lemma prune_list_pruned l sw P cur S :
  NoDup l.*1 -> bk sw = (P, Some cur, S) ->
  exists sw' cur' S', for_each (prune_one k) l sw = (inr tt, sw') /\ bk sw' = (P, Some cur', S') /\
    pruned (refused_in_turn l sw) l cur cur' S S'.
Proof.
  revert sw cur S. induction l as [|[ks t] l IH]; intros sw cur S Hnd Hbk.
  { exists sw, cur, S. split_and!; [done|done|]. split; try done; intros *.
    - congruence.
    - by intros ?%elem_of_nil. }
  rewrite fmap_cons in Hnd. apply NoDup_cons in Hnd as [Hnin Hnd].
  destruct (prune_one_pruned (ks, t) sw P cur S Hbk) as (sw1 & cur1 & S1 & H1 & Hbk1 & Hp1 & Hother).
  destruct (IH sw1 cur1 S1 Hnd Hbk1) as (sw' & cur' & S' & H2 & Hbk' & Hp2).
  exists sw', cur', S'. split; [cbn [for_each]; unfold mbind, E_bind; by rewrite H1|].
  split; [done|]. simpl in Hother.
  assert (Hne : forall ks' t', (ks', t') ∈ l -> ks' <> ks).
  { intros ks' t' Hin ->. apply Hnin. apply list_elem_of_fmap. by exists (ks, t'). }
  split.
  - etrans; [apply Hp1|apply Hp2].
  - intros key t' Hc Hn. destruct (cur1 !! key) as [t1|] eqn:E.
    + pose proof (lookup_weaken _ _ _ _ E (pr_grows _ _ _ _ _ _ Hp2)). assert (t1 = t') as -> by congruence.
      destruct (pr_kept _ _ _ _ _ _ Hp1 _ _ E Hn) as [Hin Hr]. split; [|by apply refused_first].
      apply list_elem_of_singleton in Hin as ->. left.
    + destruct (pr_kept _ _ _ _ _ _ Hp2 _ _ Hc E). split; [by right|by eapply refused_later].
  - intros key Hall. rewrite (pr_frame _ _ _ _ _ _ Hp2), (pr_frame _ _ _ _ _ _ Hp1); [done|..].
    + intros ks' Hin%list_elem_of_singleton. apply Hall. rewrite Hin. left.
    + intros ks' Hin. rewrite Hother by (by eapply Hne). apply Hall. by right.
  - intros key Hg. by apply (pr_mono _ _ _ _ _ _ Hp2), (pr_mono _ _ _ _ _ _ Hp1).
  - intros ks' key [Heq|Hin]%elem_of_cons Hn.
    + injection Heq as -> <-. destruct (pr_gone _ _ _ _ _ _ Hp1 ks key) as [Hg|Hc]; [left|done|..].
      * left. by apply (pr_mono _ _ _ _ _ _ Hp2).
      * right. eapply lookup_weaken; [done|apply Hp2].
    + apply (pr_gone _ _ _ _ _ _ Hp2); [done|]. by rewrite Hother by (by eapply Hne).
Qed.

(** *** The whole pass *)

Lemma pruneSeeded_pruned sw P cur S :
  bk sw = (P, Some cur, S) ->
  exists sw' cur' S', pruneSeeded range_targets k sw = (inr tt, sw') /\
    sh_seededPrev sw'.1 = cur' /\ sview sw'.2 = S' /\
    pruned (refused_in_turn (range_targets P) sw) (map_to_list P) cur cur' S S'.
Proof.
  intros Hbk. unfold pruneSeeded. unfold mbind at 1, E_bind at 1, gets.
  assert (HP : sh_seededPrev sw.1 = P) by (unfold bk in Hbk; congruence). rewrite HP.
  destruct (prune_list_pruned (range_targets P) sw P cur S) as ([sh' w'] & cur' & S' & Hrun & Hbk' & Hp); [|done|].
  { rewrite (range_perm P). apply NoDup_fst_map_to_list. }
  exists (sh_with_seeded sh' (default ∅ (sh_seededCur sh')) (sh_seededCur sh'), w'), cur', S'.
  unfold bk in Hbk'. simpl in Hbk'. injection Hbk' as _ Hc HS.
  split; [unfold mbind, E_bind; by rewrite Hrun|]. simpl. rewrite Hc. split_and!; [done|done|].
  destruct Hp as [Hp1 Hp2 Hp3 Hp4 Hp5]. split; [done| | |done|].
  - intros key t Hc1 Hn. rewrite <- (range_perm P). by apply Hp2.
  - intros key Hall. apply Hp3. intros ks Hin. apply Hall. by rewrite <- (range_perm P).
  - intros ks key Hin. apply Hp5. by rewrite (range_perm P).
Qed.

Lemma wanted_in m ss key d :
  wanted_secrets m ss !! key = Some d ->
  m !! key = Some d \/ exists fs, fs ∈ ss /\ key = NN (fs_Namespace fs) (fs_Name fs).
Proof.
  revert m. induction ss as [|fs ss IH]; intros m; simpl; [by left|].
  intros [Hm|(fs' & Hin & ->)]%IH.
  - rewrite lookup_insert_Some in Hm. destruct Hm as [[<- _]|[_ Hm]]; [|by left].
    right. exists fs. split; [left|done].
  - right. exists fs'. split; [by right|done].
Qed.

Lemma wanted_tracked current key d :
  wanted_secrets ∅ (seed.s_FakeSecrets current) !! key = Some d ->
  is_Some (marked ∅ (seed_targets current) !! target_key (secret_of key)).
Proof.
  intros [Hm|(fs & Hin & ->)]%wanted_in; [by rewrite lookup_empty in Hm|].
  apply marked_dom. right. unfold seed_targets. rewrite !fmap_app, !elem_of_app.
  do 4 right. left. rewrite <- list_fmap_compose. apply list_elem_of_fmap. by exists fs.
Qed.

(** In the pass from [sw], when the pruning came, deleting this target was
    refused. *)
Definition undeleted (sw : Shim * W) (ks : string) (t : Target) : Prop :=
  exists current sw1, seed_all cfg is_print lower k sw = (inr current, sw1) /\
    refused_in_turn (range_targets (sh_seededPrev sw.1)) sw1 ks t.

Lemma pruned_impl R R' l cur cur' S S' :
  (forall ks t, R ks t -> R' ks t) -> pruned R l cur cur' S S' -> pruned R' l cur cur' S S'.
Proof.
  intros HR [H1' H2' H3' H4' H5']. split; try done.
  intros key t Hc Hn. destruct (H2' key t Hc Hn). auto.
Qed.

(** The phases of a successful pass. *)
Lemma Seed_phases sh w sh' w' :
  Seed cfg is_print lower range_targets k (sh, w) = (inr tt, (sh', w')) ->
  exists S0 S S',
    (forall key, live_namespace w (nn_Namespace key) -> S0 !! key = sview w !! key) /\
    written (wanted_secrets ∅ (seed.s_FakeSecrets (sh_Seed sh))) S0 S /\
    pruned (undeleted (sh, w)) (map_to_list (sh_seededPrev sh)) (marked ∅ (seed_targets (sh_Seed sh)))
      (sh_seededPrev sh') S S' /\ S' = sview w'.
Proof.
  intros Hrun. unfold Seed in Hrun. apply E_bind_inr in Hrun as (current & sw7 & Hall & Hend).
  pose proof Hall as Hrun. unfold seed_all in Hrun.
  apply E_bind_inr in Hrun as (current0 & sw1 & [= <- <-] & Hrun).
  apply E_bind_inr in Hrun as (? & sw2 & [= _ <-] & Hrun). cbn [fst snd] in Hrun.
  apply E_bind_inr in Hrun as (? & [sh3 w3] & H3 & Hrun). apply wrap_err_inr in H3.
  assert (Hv3 : forall key, live_namespace w (nn_Namespace key) -> sview w3 !! key = sview w !! key).
  { intros key Hlive. pose proof (finalize_at key (sh_with_uids sh ∅, w) Hlive) as Hfin.
    rewrite H3 in Hfin. unfold bk_at in Hfin. simpl in Hfin. congruence. }
  pose proof (finalize_prev k (sh_with_uids sh ∅, w)) as HP3. rewrite H3 in HP3.
  unfold prev_of in HP3. simpl in HP3.
  apply E_bind_inr in Hrun as (? & sw4 & [= _ <-] & Hrun). cbn [fst snd] in Hrun.
  apply E_bind_inr in Hrun as ([] & sw5 & H5 & Hrun).
  destruct (seed_objects_written (sh_Seed sh) (sh_with_seeded sh3 (sh_seededPrev sh3) (Some ∅), w3) sw5
    (sh_seededPrev sh) (sview w3)) as (S & Hbk5 & Hw); [unfold bk; simpl; by rewrite HP3|exact H5|].
  apply E_bind_inr in Hrun as (r & sw6 & H6 & Hrun).
  pose proof (keeps_try bk _ (adoptScheduledPods_bk (list_to_set (fn_Name <$> seed.s_FakeNodes (sh_Seed sh)))) sw5) as Hbk6.
  rewrite H6 in Hbk6. simpl in Hbk6. rewrite Hbk5 in Hbk6.
  apply E_bind_inr in Hrun as (? & sw7' & H7 & [= <- ->]).
  assert (Hbk7 : bk sw7 = bk sw6).
  { destruct r as [e|u]; [|by injection H7 as _ <-].
    pose proof (call_bk (log_Print ("kubelet-shim: adopting scheduled pods: " +:+ e_Message e)) (log_keeps _) sw6) as Hk.
    by rewrite H7 in Hk. }
  rewrite Hbk6 in Hbk7.
  destruct (pruneSeeded_pruned sw7 _ _ _ Hbk7) as (sw8 & cur' & S' & H8 & Hcur & HS & Hp).
  apply E_bind_inr in Hend as ([] & sw8' & H8' & Hend). rewrite H8 in H8'. injection H8' as <-.
  pose proof (call_bk (log_Print (seeded_line (sh_Seed sh))) (log_keeps _) sw8) as Hk.
  rewrite Hend in Hk. unfold bk in Hk. simpl in Hk. injection Hk as Hk1 _ Hk3.
  exists (sview w3), S, S'. split_and!; [done|done| |congruence]. rewrite Hk1, Hcur.
  eapply pruned_impl; [|exact Hp]. intros ks t Hr. by eexists _, _.
Qed.

Lemma tracked_after R cur prev prev' S S' :
  tracked_wf prev -> tracked_wf cur -> pruned R (map_to_list prev) cur prev' S S' -> tracked_wf prev'.
Proof.
  intros Hprev Hcur Hp key t Ht. destruct (cur !! key) as [t'|] eqn:E.
  - pose proof (lookup_weaken _ _ _ _ E (pr_grows _ _ _ _ _ _ Hp)). apply Hcur. congruence.
  - apply Hprev. apply elem_of_map_to_list. by eapply (pr_kept _ _ _ _ _ _ Hp).
Qed.

(** What becomes of one secret, [key] being live, in the pass from [sw]: the
    seed's data; if only an earlier pass made it, it goes, unless deleting it
    was refused, when it stays tracked; and otherwise nothing. *)
Definition delivered (sw : Shim * W) (s : seed.Seed) (prev prev' : gmap string Target)
    (S S' : gmap NamespacedName Secret) (key : NamespacedName) : Prop :=
  let ks := target_key (secret_of key) in
  match wanted_secrets ∅ (seed.s_FakeSecrets s) !! key with
  | Some d => exists o, S' !! key = Some o /\ sec_Data o = d
  | None =>
      if decide (prev !! ks = Some (secret_of key))
      then marked ∅ (seed_targets s) !! ks = None ->
           going S' key \/ undeleted sw ks (secret_of key) /\ prev' !! ks = Some (secret_of key)
      else S' !! key = S !! key
  end.

Lemma Seed_secrets sh w sh' w' key :
  tracked_wf (sh_seededPrev sh) ->
  Seed cfg is_print lower range_targets k (sh, w) = (inr tt, (sh', w')) ->
  live_namespace w (nn_Namespace key) -> not_deleting (sview w) key ->
  delivered (sh, w) (sh_Seed sh) (sh_seededPrev sh) (sh_seededPrev sh') (sview w) (sview w') key.
Proof.
  intros Hwf Hrun Hlive Hdel. destruct (Seed_phases _ _ _ _ Hrun) as (S0 & S & S' & HS0 & Hw & Hp & ->).
  specialize (Hw key). unfold delivered.
  assert (Hn0 : not_deleting S0 key) by (intros s; rewrite HS0 by done; apply Hdel).
  specialize (Hw Hn0). destruct (wanted_secrets _ _ !! key) as [d|] eqn:Hwant.
  - destruct Hw as (s & Hs & Hd & _). exists s. split; [|done].
    rewrite (pr_frame _ _ _ _ _ _ Hp); [done|]. intros ks' Hin%elem_of_map_to_list.
    apply Hwf in Hin as ->. by eapply wanted_tracked.
  - case_decide as Hks.
    + intros Hn. destruct (pr_gone _ _ _ _ _ _ Hp (target_key (secret_of key)) key) as [Hg|Hst];
        [by apply elem_of_map_to_list|done|by left|right].
      split; [|done]. by apply (pr_kept _ _ _ _ _ _ Hp).
    + rewrite (pr_frame _ _ _ _ _ _ Hp), Hw; [by apply HS0|].
      intros ks' Hin%elem_of_map_to_list. pose proof (Hwf _ _ Hin) as ->. done.
Qed.

(** C6: a seed pass makes the inner cluster's secrets what the seed says, and
    touches no others. After a pass that returns without error, for every
    secret that is not being deleted, in a namespace that is not either: one
    the seed names exists with exactly the seed's data; one this shim created
    earlier and the seed no longer names is deleted, or this pass asked for
    its deletion and was refused (by an error that is not NotFound) and it is
    still on the list of the next pass; and any other, be it the attacker's
    or a controller's, is as it was. The list then holds all the objects of
    the seed and, beyond them, only objects it held before whose deletion
    this pass asked for and was refused. *)
Theorem Seed_converges sh w sh' w' :
  tracked_wf (sh_seededPrev sh) ->
  Seed cfg is_print lower range_targets k (sh, w) = (inr tt, (sh', w')) ->
  let mine := marked ∅ (seed_targets (sh_Seed sh)) in
  tracked_wf (sh_seededPrev sh') /\ mine ⊆ sh_seededPrev sh' /\
  (forall ks t, sh_seededPrev sh' !! ks = Some t -> mine !! ks = None ->
     sh_seededPrev sh !! ks = Some t /\ undeleted (sh, w) ks t) /\
  forall key, live_namespace w (nn_Namespace key) -> not_deleting (sview w) key ->
    let ks := target_key (secret_of key) in
    match wanted_secrets ∅ (seed.s_FakeSecrets (sh_Seed sh)) !! key with
    | Some d => exists s, sview w' !! key = Some s /\ sec_Data s = d
    | None =>
        if decide (sh_seededPrev sh !! ks = Some (secret_of key))
        then mine !! ks = None ->
             going (sview w') key \/
             undeleted (sh, w) ks (secret_of key) /\ sh_seededPrev sh' !! ks = Some (secret_of key)
        else sview w' !! key = sview w !! key
    end.
Proof.
  intros Hwf Hrun mine. destruct (Seed_phases _ _ _ _ Hrun) as (S0 & S & S' & HS0 & Hw & Hp & ->).
  fold mine in Hp.
  assert (Hmine : tracked_wf mine) by (apply marked_wf; [by intros ??|apply seed_targets_wf]).
  split; [eapply tracked_after; [exact Hwf|exact Hmine|exact Hp]|]. split; [apply Hp|]. split.
  { intros ks t Hks Hn. rewrite <- elem_of_map_to_list. by apply (pr_kept _ _ _ _ _ _ Hp). }
  intros key Hlive Hdel ks. exact (Seed_secrets _ _ _ _ key Hwf Hrun Hlive Hdel).
Qed.

(** Neither pruning nor logging fails. *)
Lemma call_log_total s sw : exists sw', on_host (T := Shim) (log_Print s) sw = (inr tt, sw').
Proof. destruct sw as [sh w]. destruct (log_ok s w) as (w' & Hl & _). exists (sh, w'). unfold on_host. simpl. by rewrite Hl. Qed.

Lemma prune_one_total kt sw : exists sw', prune_one k kt sw = (inr tt, sw').
Proof.
  destruct kt as [key t], sw as [sh w]. unfold prune_one. unfold mbind at 1, E_bind at 1, gets. simpl.
  case_bool_decide; [by eexists|]. unfold mbind at 1, E_bind at 1, on_host at 1, try_. simpl.
  destruct (delete_target k t w) as [[e|u] w1]; [|by eexists]. destruct (IsNotFound e); [by eexists|].
  unfold mbind, E_bind.
  destruct (call_log_total ("kubelet-shim: pruning stale seeded object " +:+ key +:+ ": " +:+ e_Message e) (sh, w1))
    as (sw' & ->). by eexists.
Qed.

Lemma pruneSeeded_total sw : exists sw', pruneSeeded range_targets k sw = (inr tt, sw').
Proof.
  unfold pruneSeeded. unfold mbind at 1, E_bind at 1, gets. generalize (range_targets (sh_seededPrev sw.1)).
  intros l. assert (exists sw', for_each (prune_one k) l sw = (inr tt, sw')) as (sw' & Hl).
  { revert sw. induction l as [|kt l IH]; intros sw; [by eexists|]. simpl.
    destruct (prune_one_total kt sw) as (sw1 & H1). destruct (IH sw1) as (sw' & H2).
    exists sw'. unfold mbind, E_bind. by rewrite H1. }
  unfold mbind, E_bind. rewrite Hl. by eexists.
Qed.

(** C28: a pass that fails forgets what it created. The list of the objects to
    prune is still that of the last pass that succeeded. *)
Theorem Seed_failure sh w e sh' w' :
  Seed cfg is_print lower range_targets k (sh, w) = (inl e, (sh', w')) ->
  sh_seededPrev sh' = sh_seededPrev sh.
Proof.
  intros Hrun. change (prev_of (sh', w') = prev_of (sh, w)). revert Hrun.
  generalize (sh, w), (sh', w'). clear sh w sh' w'. intros sw sw'.
  enough (Hf : fails_keep prev_of (Seed cfg is_print lower range_targets k)) by apply Hf.
  unfold Seed. apply fails_keep_bind; [apply seed_all_prev|]. intros current.
  apply fails_keep_total. intros sw1. destruct (pruneSeeded_total sw1) as (sw2 & H2).
  destruct (call_log_total (seeded_line current) sw2) as (sw3 & H3).
  exists tt, sw3. unfold mbind, E_bind. by rewrite H2.
Qed.
End Pass.
