(* ===== verification/ShimDemo.v ===== *)
(** * The seed pass at concrete inputs

    An inner API server in memory: secrets, namespaces and pods are stored,
    the other kinds are accepted and forgotten, and the creation of config
    maps can be refused to make a pass fail. *)

From S2P Require Import Prelude GoStrings KubeTypes ApiTypes Kube Server Host Hash.
From S2P Require Import ShimIds ShimTypes SeedJson ShimSeed ShimFacts.
#[local] Open Scope string_scope.
#[local] Open Scope list_scope.

Record store := mkStore {
  o_secrets : gmap NamespacedName Secret; o_namespaces : gmap NamespacedName Namespace;
  o_pods : gmap NamespacedName Pod; o_refuse : bool }.

Abbreviation inner := (store * Script.script)%type.

Definition put_secrets m (w : inner) : inner :=
  (mkStore m (o_namespaces w.1) (o_pods w.1) (o_refuse w.1), w.2).
Definition put_namespaces m (w : inner) : inner :=
  (mkStore (o_secrets w.1) m (o_pods w.1) (o_refuse w.1), w.2).
Definition put_pods m (w : inner) : inner :=
  (mkStore (o_secrets w.1) (o_namespaces w.1) m (o_refuse w.1), w.2).

Definition not_found_error : error :=
  {| e_Reason := ReasonNotFound; e_Causes := []; e_Message := "not found" |}.

(** ** Typed clients *)

Section MemTyped.
Context {W O : Type} `{ObjectLaws O} (get : W -> gmap NamespacedName O) (set : gmap NamespacedName O -> W -> W)
        (status : O -> O -> O).

Definition mem_client : Client W O := Mem.client get set (fun _ o => o) status Mem.all_valid.

Definition mem_typed : Typed W O := {|
  typed := mem_client;
  DeleteNamed key _ := fun w => match Mem.objects get Mem.all_valid w !! key with
    | None => (inl not_found_error, w)
    | Some o => Delete mem_client o w
    end;
  DeleteCollection ns := fun w =>
    (inr tt, set (filter (fun ko : NamespacedName * O => nn_Namespace ko.1 <> ns) (get w)) w) |}.

Context (get_set : forall m w, get (set m w) = m).

Lemma mem_typed_serves (body : option O -> O -> O -> Prop) :
  (forall old o m, body old o (with_meta o m)) -> TypedServes (Mem.objects get Mem.all_valid) body mem_typed.
Proof.
  intros Hbody.
  assert (Hs : Serves (Mem.objects get Mem.all_valid) body mem_client) by (by apply Mem.client_serves).
  split; [exact Hs| |].
  - intros key o w r w'. unfold mem_typed. cbn [DeleteNamed].
    destruct (Mem.objects get Mem.all_valid w !! key) as [x|] eqn:E.
    + intros Hd. pose proof (Mem.objects_key get Mem.all_valid _ _ _ E) as Hk.
      apply (serves_delete (Mem.objects get Mem.all_valid) body) in Hd. by rewrite Hk in Hd.
    + intros [= <- <-]. split; [by left|done].
  - intros ns w r w' key [= <- <-] Hne. unfold Mem.objects. rewrite get_set.
    apply option_eq. intros o. rewrite !map_lookup_filter_Some. simpl. naive_solver.
Qed.

Lemma mem_typed_leaves {X} (view : W -> X) :
  (forall m w, view (set m w) = view w) -> TypedLeaves mem_typed view.
Proof.
  intros Hv. assert (Hl : Leaves mem_client view) by (by apply Mem.client_leaves).
  split; [exact Hl| |].
  - intros key o w. unfold mem_typed. cbn [DeleteNamed].
    destruct (Mem.objects get Mem.all_valid w !! key); [|done]. apply Hl.
  - intros ns w. apply Hv.
Qed.
End MemTyped.

(** A kind that is accepted and forgotten. *)
Definition null_client {O} (create : O -> E inner O) : Client inner O := {|
  Get _ := throw not_found_error; List_ _ := mret []; Create := create;
  Update o := mret o; StatusUpdate o := mret o; Delete _ := mret tt |}.

Definition null_typed {O} (create : O -> E inner O) : Typed inner O := {|
  typed := null_client create; DeleteNamed _ _ := mret tt; DeleteCollection _ := mret tt |}.

Lemma null_leaves {O X} (create : O -> E inner O) (view : inner -> X) :
  (forall o, keeps view (create o)) -> TypedLeaves (null_typed create) view.
Proof. intros Hc. split; [split|..]; intros; simpl; try by intros w. apply Hc. Qed.

Definition refuse_configmaps (c : ConfigMap) : E inner ConfigMap := fun w =>
  if o_refuse w.1 then (inl (Errorf "etcdserver: request timed out"), w) else (inr c, w).

Definition sec_get_ (w : inner) := o_secrets w.1.
Definition ns_get_ (w : inner) := o_namespaces w.1.
Definition pod_get_ (w : inner) := o_pods w.1.

Definition inner_clientset : Clientset inner := {|
  k_nodes := null_typed mret; k_leases := null_typed mret;
  k_namespaces := mem_typed ns_get_ put_namespaces (fun _ o => o);
  k_Finalize n := mret n;
  k_pods := mem_typed pod_get_ put_pods (fun old o => p_with_status old (p_Status o));
  k_secrets := mem_typed sec_get_ put_secrets (fun _ o => o);
  k_configmaps := null_typed refuse_configmaps; k_services := null_typed mret;
  k_endpointslices := null_typed mret; k_deployments := null_typed mret;
  k_replicasets := null_typed mret; k_daemonsets := null_typed mret; k_crds := None |}.

Definition secrets_of : inner -> gmap NamespacedName Secret := Mem.objects sec_get_ Mem.all_valid.
Definition namespaces_of : inner -> gmap NamespacedName Namespace := Mem.objects ns_get_ Mem.all_valid.

(** ** A seed and a cluster *)

Definition cfg : Config :=
  {| cfg_SeedPath := ""; cfg_NodeInternalIP := "10.96.7.7"; cfg_KubeletPort := 10250;
     cfg_KubernetesServicePort := 6443; cfg_ExecProfile := "shell"; cfg_ExecIsolation := false;
     cfg_ServiceAccountToken := "t"; cfg_ServiceAccountDir := ""; cfg_Namespace := "default";
     cfg_CABundlePath := ""; cfg_RecordExecSessions := true |}.

Definition fake_secret (name v : string) : FakeSecret :=
  {| fs_Name := name; fs_Namespace := "default"; fs_Data := {[ "password" := v ]} |}.

Definition seed_with (secrets : list FakeSecret) (cms : list seed.ConfigMap) : seed.Seed :=
  {| seed.s_FakeNodes := []; seed.s_FakePods := []; seed.s_FakeSecrets := secrets;
     seed.s_Controllers := []; seed.s_CRDs := []; seed.s_Services := []; seed.s_ConfigMaps := cms |}.

Definition one_configmap : seed.ConfigMap :=
  {| seed.scm_Name := "cluster-info"; seed.scm_Namespace := "default"; seed.scm_Labels := ∅; seed.scm_Data := ∅ |}.

Definition stored_secret (name v : string) : Secret :=
  {| sec_Meta := object_meta name "default" ∅; sec_Type := "Opaque"; sec_Data := {[ "password" := v ]} |}.

(** The attacker's own secret, and one an earlier pass created. *)
Definition w0 : inner :=
  (mkStore {[ NN "default" "mine" := stored_secret "mine" "x"; NN "default" "old" := stored_secret "old" "y" ]}
     {[ NN "" "default" := {| ns_Meta := object_meta "default" "" ∅; ns_Finalizers := ["kubernetes"] |} ]} ∅ false,
   Script.start []).

Definition shim_with (s : seed.Seed) (prev : gmap string Target) : Shim :=
  {| sh_Seed := s; sh_logLines := ∅; sh_installedCRDs := ∅; sh_objectUIDs := ∅;
     sh_seededPrev := prev; sh_seededCur := None |}.

Definition sh0 : Shim := shim_with (seed_with [fake_secret "db" "hunter2"] [])
  {[ "Secret|default|old" := TSecret "default" "old" ]}.

Definition run_pass : E (Shim * inner) unit :=
  Seed cfg (fun _ => true) id map_to_list inner_clientset.

Definition pass1 := run_pass (sh0, w0).

(** ** The laws hold *)

#[global] Instance secrets_served : TypedServes secrets_of secret_body (k_secrets inner_clientset).
Proof. apply mem_typed_serves; [done|]. by split. Qed.

#[global] Instance namespaces_served :
  Serves namespaces_of (fun _ _ _ => True) (typed (k_namespaces inner_clientset)).
Proof. apply (mem_typed_serves ns_get_ put_namespaces (fun _ o => o)); done. Qed.

#[global] Instance null_leaves_secrets {O} : TypedLeaves (null_typed (O := O) mret) secrets_of.
Proof. by apply null_leaves. Qed.

#[global] Instance configmaps_leave : TypedLeaves (null_typed refuse_configmaps) secrets_of.
Proof. apply null_leaves. intros o w. unfold refuse_configmaps. by destruct (o_refuse w.1). Qed.

#[global] Instance namespaces_leave : TypedLeaves (k_namespaces inner_clientset) secrets_of.
Proof. by apply mem_typed_leaves. Qed.

#[global] Instance pods_leave : TypedLeaves (k_pods inner_clientset) secrets_of.
Proof. by apply mem_typed_leaves. Qed.

Lemma default_live : live_namespace namespaces_of w0 "default".
Proof.
  intros key o Ho _.
  assert (Hk : namespaces_of w0 = {[ NN "" "default" :=
    {| ns_Meta := object_meta "default" "" ∅; ns_Finalizers := ["kubernetes"] |} ]}) by (vm_compute; reflexivity).
  rewrite Hk in Ho. apply lookup_singleton_Some in Ho as [_ <-]. reflexivity.
Qed.

Lemma w0_lives name : not_deleting (secrets_of w0) (NN "default" name).
Proof.
  intros s Hs. apply (map_lookup_filter_Some_1_1 _ _ _ _) in Hs.
  unfold sec_get_, w0 in Hs. cbn [fst o_secrets] in Hs.
  rewrite lookup_insert_Some in Hs. destruct Hs as [[_ <-]|[_ Hs]]; [reflexivity|].
  apply lookup_singleton_Some in Hs as [_ <-]. reflexivity.
Qed.

(** The pass creates the seed's secret, deletes the stale one and leaves the
    attacker's alone. *)
Lemma Seed_converges_witness :
  exists sh' w', pass1 = (inr tt, (sh', w')) /\ tracked_wf (sh_seededPrev sh') /\
    (exists s, secrets_of w' !! NN "default" "db" = Some s /\ sec_Data s = {[ "password" := "hunter2" ]}) /\
    secrets_of w' !! NN "default" "mine" = secrets_of w0 !! NN "default" "mine" /\
    going (secrets_of w') (NN "default" "old").
Proof.
  destruct pass1 as [r [sh' w']] eqn:E.
  assert (Hr : r = inr tt) by (apply (f_equal fst) in E; vm_compute in E; by symmetry).
  subst r. exists sh', w'. split; [reflexivity|].
  assert (Hwf : tracked_wf (sh_seededPrev sh0)).
  { intros ks t Hks. unfold sh0, shim_with in Hks. simpl in Hks.
    apply lookup_singleton_Some in Hks as [<- <-]. reflexivity. }
  destruct (Seed_converges cfg (fun _ => true) id map_to_list inner_clientset secrets_of namespaces_of
    (fun _ _ _ => True) (fun cl H => ltac:(discriminate H)) (fun n w => eq_refl) (fun w => eq_refl)
    (fun s w => eq_refl) (fun m => reflexivity _) sh0 w0 sh' w' Hwf E) as (Hwf' & _ & _ & Hkey).
  split; [exact Hwf'|].
  split; [exact (Hkey (NN "default" "db") default_live (w0_lives "db"))|].
  split; [exact (Hkey (NN "default" "mine") default_live (w0_lives "mine"))|].
  destruct (Hkey (NN "default" "old") default_live (w0_lives "old") eq_refl) as [Hg|[_ Hst]]; [exact Hg|].
  exfalso. assert (Hn : sh_seededPrev pass1.2.1 !! "Secret|default|old" = None) by (vm_compute; reflexivity).
  rewrite E in Hn. change (sh_seededPrev sh' !! "Secret|default|old" = Some (TSecret "default" "old")) in Hst.
  cbn [fst snd] in Hn. rewrite Hn in Hst. discriminate Hst.
Defined.

(** ** A pass that fails *)

(** The config maps are refused: the pass fails after it created the secret. *)
Definition w_refusing : inner := (mkStore ∅ (o_namespaces w0.1) ∅ true, Script.start []).
Definition sh_failing : Shim := shim_with (seed_with [fake_secret "db" "hunter2"] [one_configmap]) ∅.

Lemma Seed_failure_witness :
  exists e sh' w', run_pass (sh_failing, w_refusing) = (inl e, (sh', w')) /\
    sh_seededPrev sh' = sh_seededPrev sh_failing.
Proof.
  destruct (run_pass (sh_failing, w_refusing)) as [r [sh' w']] eqn:E.
  assert (Hr : exists e, r = inl e).
  { apply (f_equal fst) in E. vm_compute in E. exists (match r with inl e => e | inr _ => not_found_error end).
    by rewrite <- E. }
  destruct Hr as (e & ->). exists e, sh', w'. split; [reflexivity|].
  exact (Seed_failure cfg (fun _ => true) id map_to_list inner_clientset sh_failing w_refusing e sh' w' E).
Defined.

(** The server recovers and the seed is reloaded without the secret. *)
Definition recovered (sw : Shim * inner) : Shim * inner :=
  (shim_with (seed_with [] [one_configmap]) (sh_seededPrev sw.1),
   (mkStore (o_secrets sw.2.1) (o_namespaces sw.2.1) (o_pods sw.2.1) false, sw.2.2)).

Definition pass2 := run_pass (recovered (run_pass (sh_failing, w_refusing)).2).

Definition stranded (sw : Shim * inner) : bool :=
  bool_decide (is_Some (secrets_of sw.2 !! NN "default" "db"))
  && bool_decide (sh_seededPrev sw.1 !! "Secret|default|db" = None).

(** An object created by a pass that then fails can be stranded. The pass
    creates the secret, fails at the config maps and forgets it; once the
    seed is reloaded without that secret, the next pass succeeds and neither
    deletes it nor has it on its list, so no later pass will. *)
Theorem failed_pass_strands :
  (exists e, (run_pass (sh_failing, w_refusing)).1 = inl e) /\
  stranded (run_pass (sh_failing, w_refusing)).2 = true /\
  pass2.1 = inr tt /\ stranded pass2.2 = true.
Proof. split; [eexists; vm_compute; reflexivity|]. repeat split; vm_compute; reflexivity. Qed.

(** ** A pod the attacker relabelled *)

Definition fake_pod : seed.Pod :=
  {| seed.sp_FakePod := {| fp_Name := "web"; fp_Namespace := "default"; fp_Replicas := 1; fp_Containers := [];
       fp_NodeName := "n1"; fp_LogLines := []; fp_Labels := {[ "app" := "web" ]} |};
     seed.sp_OwnerRefs := []; seed.sp_Annotations := ∅; seed.sp_HostNetwork := false;
     seed.sp_CPURequest := ""; seed.sp_MemoryRequest := "" |}.

Definition relabelled : Pod :=
  {| p_Meta := object_meta "web" "default" {[ "app" := "pwned" ]}; p_Spec := pod_spec [];
     p_Status := no_pod_status |}.

Definition sh_pod : Shim := shim_with
  {| seed.s_FakeNodes := []; seed.s_FakePods := [fake_pod]; seed.s_FakeSecrets := [fake_secret "db" "hunter2"];
     seed.s_Controllers := []; seed.s_CRDs := []; seed.s_Services := []; seed.s_ConfigMaps := [] |} ∅.

Definition w_pod : inner :=
  (mkStore ∅ (o_namespaces w0.1) {[ NN "default" "web" := relabelled ]} false, Script.start []).

Definition conflicted := run_pass (sh_pod, w_pod).

(** Restoring a pod that was changed makes its own pass fail. [upsertPod]
    writes the pod, drops the object the server returns, and writes the
    status with the resource version from before: the server answers with a
    conflict, the pass ends there, and what comes after the pods, here a
    secret, is not seeded until a later pass finds the pod unchanged. *)
Theorem upsertPod_conflicts :
  (exists e, conflicted.1 = inl e /\ IsConflict e = true) /\
  om_Labels (p_Meta (default relabelled (o_pods conflicted.2.2.1 !! NN "default" "web"))) = {[ "app" := "web" ]} /\
  secrets_of conflicted.2.2 !! NN "default" "db" = None.
Proof.
  split; [eexists; split; vm_compute; reflexivity|]. split; vm_compute; reflexivity.
Qed.
