(* ===== verification/Fs.v ===== *)
(** * The file system the shim works in

    A path is the list of its components, its directories resolved. [fs] is
    the tree the kernel keeps; every call may fail, and the laws say what a
    call may have changed when it returns. *)

From S2P Require Import Prelude GoStrings Kube Server Host.
#[local] Open Scope string_scope.
#[local] Open Scope list_scope.

Abbreviation path := (list string).

Inductive node :=
  | Dir (mode : Z)
  | File (mode : Z) (content : string)
  | Link (target : path).

#[global] Instance node_eq_dec : EqDecision node.
Proof. solve_decision. Defined.

(** [filepath.Join] of a clean path and a plain name. *)
Definition fp_Join (dir : path) (name : string) : path := dir ++ [name].

(** A path as the text the program prints. *)
Definition path_string (p : path) : string := concat_all (String.append "/" <$> p).

Definition is_link (n : option node) : bool := match n with Some (Link _) => true | _ => false end.
Definition is_dir (n : option node) : bool := match n with Some (Dir _) => true | _ => false end.

(** The functions of package os that the shim calls. *)
Class FS (W : Type) := {
  fs : W -> gmap path node;
  os_MkdirAll : path -> Z -> E W unit;
  os_MkdirTemp : E W path;
  os_WriteFile : path -> string -> Z -> E W unit;
  os_ReadFile : path -> E W string;
  os_Lstat : path -> E W unit;
  os_Remove : path -> E W unit;
  os_RemoveAll : path -> E W unit;
  os_Symlink : path -> path -> E W unit;
  os_Rename : path -> path -> E W unit;
  os_Chmod : path -> Z -> E W unit }.

(** What they promise. A failed call may have done part of its work on the
    path it was given; it touches no other. *)
Class FSLaws (W : Type) `{FS W} : Prop := {
  mkdir_all_law : forall p m w r w', os_MkdirAll p m w = (r, w') ->
    (forall q, is_Some (fs w !! q) -> fs w' !! q = fs w !! q) /\
    (forall q, ~ q `prefix_of` p -> fs w' !! q = fs w !! q) /\
    (r = inr tt -> fs w !! p = None -> is_dir (fs w' !! p) = true);
  mkdir_temp_law : forall w r w', os_MkdirTemp w = (r, w') ->
    match r with
    | inr p => fs w !! p = None /\ fs w' = <[p := Dir 448]> (fs w)
    | inl _ => fs w' = fs w
    end;
  write_file_law : forall p c m w r w', os_WriteFile p c m w = (r, w') -> is_link (fs w !! p) = false ->
    (forall q, q <> p -> fs w' !! q = fs w !! q) /\
    (r = inr tt -> exists m', fs w' !! p = Some (File m' c));
  read_file_law : forall p, keeps fs (os_ReadFile p);
  lstat_law : forall p w, exists r, os_Lstat p w = (r, w) /\ (r = inr tt -> is_Some (fs w !! p));
  remove_law : forall p w r w', os_Remove p w = (r, w') ->
    (forall q, q <> p -> fs w' !! q = fs w !! q) /\ (r = inr tt -> fs w' !! p = None);
  remove_all_law : forall p w r w', os_RemoveAll p w = (r, w') ->
    (forall q, ~ p `prefix_of` q -> fs w' !! q = fs w !! q) /\
    (r = inr tt -> forall q, p `prefix_of` q -> fs w' !! q = None);
  symlink_law : forall t p w r w', os_Symlink t p w = (r, w') ->
    match r with
    | inr _ => fs w !! p = None /\ fs w' = <[p := Link t]> (fs w)
    | inl _ => fs w' = fs w
    end;
  rename_law : forall a b w r w', os_Rename a b w = (r, w') -> is_dir (fs w !! a) = false ->
    match r with
    | inr _ => exists n, fs w !! a = Some n /\ fs w' = <[b := n]> (delete a (fs w))
    | inl _ => fs w' = fs w
    end;
  chmod_law : forall p m w r w', os_Chmod p m w = (r, w') ->
    (forall q, q <> p -> fs w' !! q = fs w !! q) /\
    (r = inr tt -> is_dir (fs w !! p) = true -> fs w' !! p = Some (Dir m)) }.

(** A call whose error is dropped: [_ = c]. *)
Definition ignore_ {W A} (c : E W A) : E W unit := _ ← try_ c; mret tt.

Lemma ignore_run {W A} (c : E W A) w r w' : ignore_ c w = (r, w') -> r = inr tt /\ exists r0, c w = (r0, w').
Proof.
  unfold ignore_, try_, mbind, E_bind. destruct (c w) as [r0 w0]. intros [= <- <-]. eauto.
Qed.

(** ** Following links *)

(** Walk from a directory along the components; each link met costs one unit
    of fuel, as the kernel's limit on nested links does. *)
Fixpoint walk (fuel : nat) (t : gmap path node) (dir cs : path) : option path :=
  match fuel with
  | O => None
  | S f =>
      match cs with
      | [] => Some dir
      | c :: cs' =>
          match t !! (dir ++ [c]) with
          | Some (Link target) => walk f t dir (target ++ cs')
          | Some (Dir _) => walk f t (dir ++ [c]) cs'
          | Some (File _ _) => if bool_decide (cs' = []) then Some (dir ++ [c]) else None
          | None => None
          end
      end
  end.

(** What [cat dir/cs...] prints; Linux gives up after 40 links. *)
Definition cat (t : gmap path node) (dir cs : path) : option string :=
  match walk 40 t dir cs ≫= (t !!.) with
  | Some (File _ c) => Some c
  | _ => None
  end.

Lemma walk_link f t dir c cs target :
  t !! (dir ++ [c]) = Some (Link target) -> walk (S f) t dir (c :: cs) = walk f t dir (target ++ cs).
Proof. intros Ht. simpl. by rewrite Ht. Qed.

Lemma walk_dir f t dir c cs m :
  t !! (dir ++ [c]) = Some (Dir m) -> walk (S f) t dir (c :: cs) = walk f t (dir ++ [c]) cs.
Proof. intros Ht. simpl. by rewrite Ht. Qed.

Lemma walk_file f t dir c m x :
  t !! (dir ++ [c]) = Some (File m x) -> walk (S f) t dir [c] = Some (dir ++ [c]).
Proof. intros Ht. simpl. by rewrite Ht. Qed.

(** ** A file system in memory, inside a larger world *)

Section MemFs.
Context {W : Type} (get : W -> gmap path node) (set : gmap path node -> W -> W).

Definition no_such_file : error := Errorf "no such file or directory".
Definition file_exists : error := Errorf "file exists".

(** Create the directories of a path that do not exist. *)
Fixpoint mkdirs (t : gmap path node) (done_ todo : path) (m : Z) : gmap path node :=
  match todo with
  | [] => t
  | c :: todo' =>
      let p := done_ ++ [c] in
      mkdirs (match t !! p with None => <[p := Dir m]> t | Some _ => t end) p todo' m
  end.

Definition temp_dir : path := ["tmp"; "3141592653"].

Definition mem_fs : FS W := {|
  fs := get;
  os_MkdirAll p m := fun w => if bool_decide (p = []) then (inl file_exists, w)
    else (inr tt, set (mkdirs (get w) [] p m) w);
  os_MkdirTemp := fun w => match get w !! temp_dir with
    | None => (inr temp_dir, set (<[temp_dir := Dir 448]> (get w)) w)
    | Some _ => (inl file_exists, w)
    end;
  os_WriteFile p c m := fun w => match get w !! p with
    | None => (inr tt, set (<[p := File m c]> (get w)) w)
    | Some (File m' _) => (inr tt, set (<[p := File m' c]> (get w)) w)
    | Some _ => (inl file_exists, w)
    end;
  os_ReadFile p := fun w => match get w !! p with
    | Some (File _ c) => (inr c, w)
    | _ => (inl no_such_file, w)
    end;
  os_Lstat p := fun w => match get w !! p with
    | Some _ => (inr tt, w)
    | None => (inl no_such_file, w)
    end;
  os_Remove p := fun w => match get w !! p with
    | Some (Dir _) | None => (inl no_such_file, w)
    | Some _ => (inr tt, set (delete p (get w)) w)
    end;
  os_RemoveAll p := fun w => (inr tt, set (filter (fun kn : path * node => ~ p `prefix_of` kn.1) (get w)) w);
  os_Symlink t p := fun w => match get w !! p with
    | None => (inr tt, set (<[p := Link t]> (get w)) w)
    | Some _ => (inl file_exists, w)
    end;
  os_Rename a b := fun w => match get w !! a with
    | Some n => (inr tt, set (<[b := n]> (delete a (get w))) w)
    | None => (inl no_such_file, w)
    end;
  os_Chmod p m := fun w => match get w !! p with
    | Some (Dir _) => (inr tt, set (<[p := Dir m]> (get w)) w)
    | Some (File _ c) => (inr tt, set (<[p := File m c]> (get w)) w)
    | _ => (inl no_such_file, w)
    end |}.

Lemma mkdirs_spec todo t done_ m :
  (forall q, is_Some (t !! q) -> mkdirs t done_ todo m !! q = t !! q) /\
  (forall q, ~ q `prefix_of` done_ ++ todo -> mkdirs t done_ todo m !! q = t !! q) /\
  (todo <> [] -> t !! (done_ ++ todo) = None -> mkdirs t done_ todo m !! (done_ ++ todo) = Some (Dir m)).
Proof.
  revert t done_. induction todo as [|c todo IH]; intros t done_; [done|]. cbn [mkdirs].
  set (p := done_ ++ [c]).
  set (t' := match t !! p with None => <[p := Dir m]> t | Some _ => t end).
  assert (Hp : p ++ todo = done_ ++ c :: todo) by (unfold p; by rewrite <- (assoc_L (++))).
  assert (Ht' : forall q, q <> p \/ is_Some (t !! q) -> t' !! q = t !! q).
  { intros q Hq. unfold t'. destruct (t !! p) eqn:E; [done|].
    rewrite lookup_insert_ne; [done|]. intros <-. destruct Hq as [?|[x Hx]]; [done|congruence]. }
  destruct (IH t' p) as (IH1 & IH2 & IH3). rewrite Hp in *. split_and!.
  - intros q Hq. rewrite IH1; [apply Ht'; by right|]. rewrite Ht' by (by right). done.
  - intros q Hq. rewrite IH2 by done. apply Ht'. left. intros ->. apply Hq. rewrite <- Hp. by eexists.
  - intros _ Hn. destruct (decide (todo = [])) as [->|Hne].
    + simpl. rewrite <- Hp, app_nil_r in *. unfold t'. rewrite Hn. by rewrite lookup_insert_eq.
    + apply IH3; [done|]. rewrite Ht'; [done|]. left. rewrite <- Hp.
      intros Heq%(f_equal length). rewrite length_app in Heq. destruct todo; [done|]. simpl in Heq. lia.
Qed.

Context (get_set : forall t w, get (set t w) = t).

Lemma mem_fs_laws : @FSLaws W mem_fs.
Proof.
  split; cbn [fs os_MkdirAll os_MkdirTemp os_WriteFile os_ReadFile os_Lstat os_Remove
    os_RemoveAll os_Symlink os_Rename os_Chmod mem_fs].
  - intros p m w r w'. case_bool_decide as Hp; intros [= <- <-]; [done|].
    rewrite get_set. destruct (mkdirs_spec p (get w) [] m) as (Ha & Hb & Hc). simpl in Hb, Hc.
    split_and!; [done|done|]. intros _ Hn. by rewrite Hc.
  - intros w r w'. destruct (get w !! temp_dir) eqn:E; intros [= <- <-]; [done|]. by rewrite get_set.
  - intros p c m w r w'. destruct (get w !! p) as [[]|] eqn:E; intros [= <- <-] Hl; rewrite ?get_set; split; try done.
    + by intros q Hq; rewrite lookup_insert_ne.
    + intros _. rewrite lookup_insert_eq. by eexists.
    + by intros q Hq; rewrite lookup_insert_ne.
    + intros _. rewrite lookup_insert_eq. by eexists.
  - intros p w. by destruct (get w !! p) as [[]|].
  - intros p w. destruct (get w !! p) eqn:E; by eexists.
  - intros p w r w'. destruct (get w !! p) as [[]|] eqn:E; intros [= <- <-]; rewrite ?get_set; split; try done.
    all: try (by intros q Hq; rewrite lookup_delete_ne). all: by rewrite lookup_delete_eq.
  - intros p w r w' [= <- <-]. rewrite get_set. split.
    + intros q Hq. apply option_eq. intros x. rewrite map_lookup_filter_Some. naive_solver.
    + intros _ q Hq. apply map_lookup_filter_None. right. simpl. naive_solver.
  - intros t p w r w'. destruct (get w !! p) eqn:E; intros [= <- <-]; [done|]. by rewrite get_set.
  - intros a b w r w'. destruct (get w !! a) eqn:E; intros [= <- <-] _; [|done]. rewrite get_set. by eexists.
  - intros p m w r w'. destruct (get w !! p) as [[]|] eqn:E; intros [= <- <-]; rewrite ?get_set; split; try done.
    all: try (by intros q Hq; rewrite lookup_insert_ne). by rewrite lookup_insert_eq.
Qed.
End MemFs.
