(* ===== verification/SaLayout.v ===== *)
(** * The ServiceAccount files of an exec session

    internal/kubeletshim/kubeletshim.go: the files a process inside the decoy
    finds under /var/run/secrets/kubernetes.io/serviceaccount, in the layout
    of a projected volume: a time-stamped data directory, the link [..data] to
    it, and one link per file through [..data]. A [map[string][]byte] is
    ranged over in an order the runtime picks, differently for each loop. *)

From S2P Require Import Prelude GoStrings KubeTypes Kube Server Host ShimTypes Fs.
#[local] Open Scope string_scope.
#[local] Open Scope list_scope.

Section Layout.
(** [time.Format] with the layout of the data directory's name. *)
Context (stamp : Time -> string).
(** The orders of the two loops. *)
Context (range_write range_link : gmap string string -> list (string * string)).
Context {W : Type} `{Host W, FS W}.

(** [src/internal/kubeletshim/kubeletshim.go:304-308, WriteServiceAccountLayout] *)
Definition write_one (full : path) (nc : string * string) : E W unit :=
  os_WriteFile (fp_Join full nc.1) nc.2 420.

(** [src/internal/kubeletshim/kubeletshim.go:318-324, WriteServiceAccountLayout] *)
Definition link_one (dir : path) (nc : string * string) : E W unit :=
  let leaf := fp_Join dir nc.1 in
  _ ← ignore_ (os_Remove leaf);
  os_Symlink ["..data"; nc.1] leaf.

(** 0o777|os.ModeSticky, 0755 and 0644 in the kernel's octal are 1023, 493
    and 420.
    [src/internal/kubeletshim/kubeletshim.go:296-329, WriteServiceAccountLayout] *)
Definition WriteServiceAccountLayout (dir : path) (files : gmap string string) : E W unit :=
  now ← time_Now;
  let dataDir := ".." +:+ stamp now in
  let full := fp_Join dir dataDir in
  _ ← os_MkdirAll full 493;
  _ ← for_each (write_one full) (range_write files);
  let tmp := fp_Join dir "..data.tmp" in
  _ ← ignore_ (os_Remove tmp);
  _ ← os_Symlink [dataDir] tmp;
  _ ← os_Rename tmp (fp_Join dir "..data");
  _ ← for_each (link_one dir) (range_link files);
  os_Chmod dir 1023.

(** The files of the layout. *)
Definition sa_files (token namespace ca : string) : gmap string string :=
  {[ "token" := token; "namespace" := namespace; "ca.crt" := ca ]}.

(** The directory and the CA bundle of the configuration are paths; [None] is
    the empty string.
    [src/internal/kubeletshim/kubeletshim.go:266-289, writeServiceAccountFiles] *)
Definition writeServiceAccountFiles (cfg : Config) (dir : path) (ca_path : option path) : E W unit :=
  r ← try_ (os_Lstat (fp_Join dir "..data"));
  match r with
  | inr _ => mret tt
  | inl _ =>
      ca ← from_option os_ReadFile (mret "") ca_path;
      WriteServiceAccountLayout dir
        (sa_files (cfg_ServiceAccountToken cfg) (cfg_Namespace cfg) ca)
  end.
End Layout.

(** ** What the layout holds *)

(** The data directory [d] holds the files, and [..data] leads to it. *)
Definition layout_at (t : gmap path node) (dir : path) (d : string) (files : gmap string string) : Prop :=
  t !! (dir ++ ["..data"]) = Some (Link [d]) /\ is_dir (t !! (dir ++ [d])) = true /\
  forall n c, files !! n = Some c -> exists m, t !! (dir ++ [d; n]) = Some (File m c).

Lemma walk_data t dir d files n c f :
  layout_at t dir d files -> files !! n = Some c ->
  exists m, walk (S (S (S f))) t dir ["..data"; n] = Some (dir ++ [d; n]) /\
    t !! (dir ++ [d; n]) = Some (File m c).
Proof.
  intros (Hd & Hdir & Hf) Hn. destruct (Hf _ _ Hn) as (m & Hm). exists m. split; [|done].
  destruct (t !! (dir ++ [d])) as [[md| |]|] eqn:E; try done.
  rewrite (walk_link _ _ _ _ _ _ Hd). simpl app. rewrite (walk_dir _ _ _ _ _ _ E).
  change [d; n] with ([d] ++ [n]) in *. rewrite (assoc_L (++)) in *. apply (walk_file _ _ _ _ _ _ Hm).
Qed.

Lemma cat_data t dir d files n c :
  layout_at t dir d files -> files !! n = Some c -> cat t dir ["..data"; n] = Some c.
Proof.
  intros Hl Hn. destruct (walk_data t dir d files n c 37 Hl Hn) as (m & Hw & Hm).
  unfold cat. rewrite Hw. simpl. by rewrite Hm.
Qed.

Lemma cat_leaf t dir d files n c :
  layout_at t dir d files -> files !! n = Some c ->
  t !! (dir ++ [n]) = Some (Link ["..data"; n]) -> cat t dir [n] = Some c.
Proof.
  intros Hl Hn Hleaf. destruct (walk_data t dir d files n c 36 Hl Hn) as (m & Hw & Hm).
  unfold cat. rewrite (walk_link 39 _ _ _ _ _ Hleaf). simpl app. rewrite Hw. simpl. by rewrite Hm.
Qed.

(** Two entries of one directory. *)
Lemma entry_eq (dir : path) a b : dir ++ [a] = dir ++ [b] <-> a = b.
Proof. split; [intros [= ?]%app_inv_head; done|by intros ->]. Qed.

Lemma entry_deeper (dir : path) a b c : dir ++ [a] <> dir ++ [b; c].
Proof. by intros ?%app_inv_head. Qed.

Section Facts.
Context {W : Type} `{FSLaws W}.

(** Nothing below [p] is a link. *)
Definition plain (p : path) (t : gmap path node) : Prop :=
  forall q, p `prefix_of` q -> is_link (t !! q) = false.

Lemma write_all full l w r w' :
  plain full (fs w) -> for_each (write_one full) l w = (r, w') ->
  (forall q, (forall n, q <> full ++ [n]) -> fs w' !! q = fs w !! q) /\
  (r = inr tt -> NoDup l.*1 -> forall n c, (n, c) ∈ l -> exists m, fs w' !! (full ++ [n]) = Some (File m c)) /\
  (forall n, n ∉ l.*1 -> fs w' !! (full ++ [n]) = fs w !! (full ++ [n])).
Proof.
  revert w. induction l as [|[n c] l IH]; intros w Hp; simpl.
  { intros [= <- <-]. split_and!; try done. intros _ _ n c Hin. by apply elem_of_nil in Hin. }
  unfold mbind, E_bind. destruct (write_one full (n, c) w) as [r1 w1] eqn:E.
  unfold write_one in E. simpl in E.
  destruct (write_file_law _ _ _ _ _ _ E) as [Hfr Hok]; [apply Hp; by eexists|].
  destruct r1 as [e|[]].
  { intros [= <- <-]. split_and!; [|done|].
    - intros q Hq. apply Hfr, Hq.
    - intros n' [Hn _]%not_elem_of_cons. apply Hfr. unfold fp_Join. by rewrite entry_eq. }
  destruct (Hok eq_refl) as (m & Hm).
  assert (Hp1 : plain full (fs w1)).
  { intros q Hq. destruct (decide (q = fp_Join full n)) as [->|Hne]; [by rewrite Hm|].
    rewrite Hfr by done. by apply Hp. }
  intros Hrun. destruct (IH w1 Hp1 Hrun) as (IH1 & IH2 & IH3). split_and!.
  - intros q Hq. rewrite IH1 by done. apply Hfr, Hq.
  - intros -> [Hn Hnd]%NoDup_cons n' c' [[= -> ->]|Hin]%elem_of_cons; [|by eapply IH2].
    exists m. by rewrite IH3.
  - intros n' [Hn1 Hn2]%not_elem_of_cons. rewrite IH3 by done. apply Hfr.
    unfold fp_Join. by rewrite entry_eq.
Qed.

Lemma link_all dir l w r w' :
  for_each (link_one dir) l w = (r, w') ->
  (forall q, (forall n, n ∈ l.*1 -> q <> dir ++ [n]) -> fs w' !! q = fs w !! q) /\
  (r = inr tt -> NoDup l.*1 -> forall n c, (n, c) ∈ l -> fs w' !! (dir ++ [n]) = Some (Link ["..data"; n])).
Proof.
  revert w. induction l as [|[n c] l IH]; intros w; simpl.
  { intros [= <- <-]. split; [done|]. intros _ _ n c Hin. by apply elem_of_nil in Hin. }
  unfold mbind, E_bind. destruct (link_one dir (n, c) w) as [r1 w1] eqn:E. unfold link_one in E.
  unfold mbind at 1, E_bind at 1 in E. destruct (ignore_ _ w) as [r0 w0] eqn:Er in E.
  apply ignore_run in Er as (-> & r0' & Er). apply remove_law in Er as [Hrm _]. simpl in E.
  apply symlink_law in E. unfold fp_Join in *.
  destruct r1 as [e|[]].
  { intros [= <- <-]. split; [|done]. intros q Hq. rewrite E. apply Hrm, Hq. left. }
  destruct E as [_ E]. intros Hrun. destruct (IH w1 Hrun) as [IH1 IH2]. split.
  - intros q Hq. rewrite IH1 by (intros n' Hn'; apply Hq; by right).
    assert (q <> dir ++ [n]) by (apply Hq; left). rewrite E, lookup_insert_ne by done. by apply Hrm.
  - intros -> [Hn Hnd]%NoDup_cons n' c' [[= -> ->]|Hin]%elem_of_cons; [|by eapply IH2].
    rewrite IH1, E, lookup_insert_eq; [done|]. intros n' Hn'. rewrite entry_eq. by intros <-.
Qed.

Context (stamp : Time -> string) (range_write range_link : gmap string string -> list (string * string)).
Context `{HostLaws W}.
Context (write_perm : forall m, range_write m ≡ₚ map_to_list m)
        (link_perm : forall m, range_link m ≡ₚ map_to_list m)
        (now_keeps : keeps fs time_Now)
        (stamp_digits : forall t, stamp t <> "data" /\ stamp t <> "data.tmp").

(** The files have names of their own: kubelet's begin with two dots. *)
Definition plain_names (files : gmap string string) : Prop :=
  forall n, is_Some (files !! n) -> HasPrefix n ".." = false.

(** The data directory of this run does not exist yet. *)
Definition fresh (dir : path) (w : W) : Prop :=
  forall t w1 q, time_Now w = (inr t, w1) -> dir ++ [".." +:+ stamp t] `prefix_of` q -> fs w !! q = None.

(** The tree before the link is switched: only the new data directory and
    the temporary link may differ. *)
Definition before (dir : path) (d : string) (t t' : gmap path node) : Prop :=
  forall q, is_Some (t !! q) -> ~ dir ++ [d] `prefix_of` q -> q <> dir ++ ["..data.tmp"] -> t' !! q = t !! q.

(** The tree after it: the new files are there; the leaves may differ too. *)
Definition after (dir : path) (d : string) (files : gmap string string) (t t' : gmap path node) : Prop :=
  layout_at t' dir d files /\ forall q, ~ dir `prefix_of` q -> is_Some (t !! q) -> t' !! q = t !! q.

Lemma range_nodup (rng : gmap string string -> list (string * string)) m :
  rng m ≡ₚ map_to_list m -> NoDup (rng m).*1.
Proof. intros ->. apply NoDup_fst_map_to_list. Qed.

Lemma data_name t : ".." +:+ stamp t <> "..data" /\ ".." +:+ stamp t <> "..data.tmp".
Proof.
  destruct (stamp_digits t) as [Ha Hb].
  split; intros Heq; [apply Ha|apply Hb]; by injection Heq.
Qed.

(** The new data directory, filled. *)
Lemma fill_data dir d files w r w' :
  (forall q, dir ++ [d] `prefix_of` q -> fs w !! q = None) ->
  (_ ← os_MkdirAll (dir ++ [d]) 493; for_each (write_one (dir ++ [d])) (range_write files)) w = (r, w') ->
  (forall q, is_Some (fs w !! q) -> fs w' !! q = fs w !! q) /\
  (r = inr tt -> is_dir (fs w' !! (dir ++ [d])) = true /\
     forall n c, files !! n = Some c -> exists m, fs w' !! (dir ++ [d; n]) = Some (File m c)).
Proof.
  intros Hfresh Hrun. unfold mbind, E_bind in Hrun.
  destruct (os_MkdirAll (dir ++ [d]) 493 w) as [r1 w1] eqn:E1.
  destruct (mkdir_all_law _ _ _ _ _ E1) as (Hk1 & Hfr1 & Hd1).
  destruct r1 as [e|[]]; [by injection Hrun as <- <-|].
  specialize (Hd1 eq_refl (Hfresh _ (reflexivity _))).
  assert (Hp : plain (dir ++ [d]) (fs w1)).
  { intros q Hq. destruct (decide (q = dir ++ [d])) as [->|Hne].
    - destruct (fs w1 !! (dir ++ [d])) as [[]|]; done.
    - rewrite Hfr1, Hfresh; [done|done|]. intros Hq'. apply Hne.
      apply (anti_symm prefix); done. }
  destruct (write_all _ _ _ _ _ Hp Hrun) as (Hfr & Hok & _). split.
  - intros q Hq. rewrite Hfr, Hk1; [done|done|]. intros n ->. rewrite Hfresh in Hq; [by destruct Hq|].
    by eexists.
  - intros ->. split.
    + rewrite Hfr; [done|]. intros n Heq%(f_equal length). rewrite !length_app in Heq. simpl in Heq. lia.
    + intros n c Hn. destruct (Hok eq_refl (range_nodup _ _ (write_perm files)) n c) as (m & Hm).
      { rewrite (write_perm files). by apply elem_of_map_to_list. }
      exists m. rewrite <- (assoc_L (++)) in Hm. exact Hm.
Qed.

(** The switch of [..data]: all or nothing, and only the two links change. *)
Lemma switch_data dir d w r w' :
  d <> "..data" -> d <> "..data.tmp" ->
  (_ ← ignore_ (os_Remove (dir ++ ["..data.tmp"])); _ ← os_Symlink [d] (dir ++ ["..data.tmp"]);
   os_Rename (dir ++ ["..data.tmp"]) (dir ++ ["..data"])) w = (r, w') ->
  (forall q, q <> dir ++ ["..data"] -> q <> dir ++ ["..data.tmp"] -> fs w' !! q = fs w !! q) /\
  match r with
  | inr _ => fs w' !! (dir ++ ["..data"]) = Some (Link [d])
  | inl _ => fs w' !! (dir ++ ["..data"]) = fs w !! (dir ++ ["..data"])
  end.
Proof.
  intros Hd1 Hd2 Hrun. unfold mbind at 1, E_bind at 1 in Hrun.
  destruct (ignore_ _ w) as [r0 w0] eqn:E0 in Hrun. apply ignore_run in E0 as (-> & r0' & E0).
  apply remove_law in E0 as [Hrm _]. unfold mbind, E_bind in Hrun.
  destruct (os_Symlink _ _ w0) as [[e|[]] w1] eqn:E1; apply symlink_law in E1.
  { injection Hrun as <- <-. rewrite E1. split; [auto|]. apply Hrm. rewrite entry_eq. done. }
  destruct E1 as [_ E1]. apply rename_law in Hrun; [|by rewrite E1, lookup_insert_eq].
  destruct r as [e|[]].
  - rewrite Hrun, E1. split.
    + intros q Hq1 Hq2. rewrite lookup_insert_ne by done. by apply Hrm.
    + rewrite lookup_insert_ne by (by rewrite entry_eq). apply Hrm. by rewrite entry_eq.
  - destruct Hrun as (n & Hn & Hw'). rewrite E1, lookup_insert_eq in Hn. injection Hn as <-.
    rewrite Hw', E1. split; [|by rewrite lookup_insert_eq].
    intros q Hq1 Hq2. rewrite lookup_insert_ne, lookup_delete_ne, lookup_insert_ne by done. by apply Hrm.
Qed.

(** The leaves and the mode of the directory. *)
Lemma finish_layout dir files w r w' :
  (_ ← for_each (link_one dir) (range_link files); os_Chmod dir 1023) w = (r, w') ->
  (forall q, q <> dir -> (forall n, is_Some (files !! n) -> q <> dir ++ [n]) -> fs w' !! q = fs w !! q) /\
  (r = inr tt -> (forall n c, files !! n = Some c -> fs w' !! (dir ++ [n]) = Some (Link ["..data"; n])) /\
     (is_dir (fs w !! dir) = true -> fs w' !! dir = Some (Dir 1023))).
Proof.
  intros Hrun. unfold mbind, E_bind in Hrun.
  destruct (for_each _ _ w) as [r1 w1] eqn:E1. destruct (link_all _ _ _ _ _ E1) as [Hfr1 Hok1].
  assert (Hin : forall n, n ∈ (range_link files).*1 -> is_Some (files !! n)).
  { intros n. rewrite (link_perm files), list_elem_of_fmap.
    intros ([n' c] & -> & Hc%elem_of_map_to_list). by eexists. }
  assert (Hdir : forall n, dir <> dir ++ [n]).
  { intros n Heq%(f_equal length). rewrite length_app in Heq. simpl in Heq. lia. }
  destruct r1 as [e|[]].
  { injection Hrun as <- <-. split; [|done]. intros q _ Hq. apply Hfr1. eauto. }
  apply chmod_law in Hrun as [Hfr2 Hok2]. split.
  - intros q Hq1 Hq2. rewrite Hfr2 by done. apply Hfr1. eauto.
  - intros ->. split.
    + intros n c Hn. rewrite Hfr2 by (by intros Heq; eapply Hdir). apply (Hok1 eq_refl) with c.
      * by apply range_nodup.
      * rewrite (link_perm files). by apply elem_of_map_to_list.
    + intros Hd. apply (Hok2 eq_refl). rewrite Hfr1; [done|]. intros n _. apply Hdir.
Qed.

(** The run in three phases. *)
Lemma layout_phases dir files w :
  WriteServiceAccountLayout stamp range_write range_link dir files w =
  (now ← time_Now;
   let d := ".." +:+ stamp now in
   _ ← (_ ← os_MkdirAll (dir ++ [d]) 493; for_each (write_one (dir ++ [d])) (range_write files));
   _ ← (_ ← ignore_ (os_Remove (dir ++ ["..data.tmp"])); _ ← os_Symlink [d] (dir ++ ["..data.tmp"]);
        os_Rename (dir ++ ["..data.tmp"]) (dir ++ ["..data"]));
   (_ ← for_each (link_one dir) (range_link files); os_Chmod dir 1023)) w.
Proof.
  unfold WriteServiceAccountLayout, fp_Join, mbind, E_bind.
  destruct (time_Now w) as [[e|t] w1]; [done|].
  destruct (os_MkdirAll _ _ w1) as [[e|[]] w2]; [done|].
  destruct (for_each _ _ w2) as [[e|[]] w3]; [done|].
  destruct (ignore_ _ w3) as [[e|[]] w4]; [done|].
  by destruct (os_Symlink _ _ w4) as [[e|[]] w5].
Qed.

Lemma layout_run dir files w r w' :
  plain_names files -> fresh dir w ->
  WriteServiceAccountLayout stamp range_write range_link dir files w = (r, w') ->
  exists t w1, time_Now w = (inr t, w1) /\ let d := ".." +:+ stamp t in
    (r <> inr tt /\ before dir d (fs w) (fs w')) \/
    (after dir d files (fs w) (fs w') /\
     (r = inr tt -> (forall n c, files !! n = Some c -> fs w' !! (dir ++ [n]) = Some (Link ["..data"; n])) /\
        (is_dir (fs w !! dir) = true -> fs w' !! dir = Some (Dir 1023)))).
Proof.
  intros Hnames Hfresh. rewrite layout_phases. unfold mbind at 1, E_bind at 1.
  destruct (now_ok w) as (t & w0 & Hnow & _). pose proof (now_keeps w) as Hv.
  rewrite Hnow in Hv |- *. simpl in Hv. intros Hrun.
  exists t, w0. split; [done|]. cbn zeta in *.
  assert (Hpre : HasPrefix (".." +:+ stamp t) ".." = true) by (unfold HasPrefix; simpl; by destruct (stamp t)).
  set (d := ".." +:+ stamp t) in *. destruct (data_name t) as [Hd1 Hd2]. fold d in Hd1, Hd2.
  unfold mbind at 1, E_bind at 1 in Hrun.
  destruct ((_ ← os_MkdirAll _ _; _) w0) as [r1 w1] eqn:E1.
  destruct (fill_data dir d files w0 r1 w1) as [Hk1 Hok1]; [intros q; rewrite Hv; by eapply Hfresh|done|].
  rewrite Hv in *. destruct r1 as [e|[]].
  { injection Hrun as <- <-. left. split; [done|]. intros q Hq _ _. auto. }
  destruct (Hok1 eq_refl) as [Hdir Hfiles]. unfold mbind at 1, E_bind at 1 in Hrun.
  destruct ((_ ← ignore_ _; _) w1) as [r2 w2] eqn:E2.
  destruct (switch_data dir d w1 r2 w2 Hd1 Hd2 E2) as [Hk2 Hok2].
  destruct r2 as [e|[]].
  { injection Hrun as <- <-. left. split; [done|]. intros q Hq Hfull Htmp.
    destruct (decide (q = dir ++ ["..data"])) as [->|Hne]; [rewrite Hok2; auto|].
    rewrite Hk2 by done. auto. }
  destruct (finish_layout dir files w2 r w' Hrun) as [Hk3 Hok3]. right.
  assert (Hdot : forall x q, HasPrefix x ".." = true -> forall n, is_Some (files !! n) -> dir ++ x :: q <> dir ++ [n]).
  { intros x q Hx n Hn [= -> _]%app_inv_head. rewrite (Hnames _ Hn) in Hx. done. }
  assert (Hself : forall x q, dir ++ x :: q <> dir).
  { intros x q Heq%(f_equal length). rewrite length_app in Heq. simpl in Heq. lia. }
  split; [split; [split_and!|]|].
  - rewrite Hk3; [done|apply Hself|by apply Hdot].
  - rewrite Hk3; [|apply Hself|by apply Hdot]. rewrite Hk2; [done|by rewrite entry_eq..].
  - intros n c Hn. destruct (Hfiles n c Hn) as (m & Hm). exists m.
    rewrite Hk3; [|apply Hself|by apply Hdot]. by rewrite Hk2 by (intros Heq; by eapply entry_deeper).
  - intros q Hq Hs. assert (Hne : forall x, q <> dir ++ x) by (intros x ->; apply Hq; by eexists).
    rewrite Hk3, Hk2; auto. intros ->. apply Hq. done.
  - intros ->. destruct (Hok3 eq_refl) as [Hl Hm]. split; [done|]. intros Hd. apply Hm.
    assert (Hne : forall x, dir <> dir ++ [x]) by (intros x Heq; by eapply Hself).
    rewrite Hk2 by done. rewrite Hk1; [done|]. by destruct (fs w !! dir).
Qed.

(** The token, the namespace and the CA of a decoy are readable where a
    process in a pod expects them. When the layout is written without error,
    every file reads back as its contents, through its link and [..data], the
    directory has the mode of a projected volume, and nothing that existed
    outside it has changed. *)
Theorem layout_readable dir files w w' :
  plain_names files -> fresh dir w -> is_dir (fs w !! dir) = true ->
  WriteServiceAccountLayout stamp range_write range_link dir files w = (inr tt, w') ->
  (forall n c, files !! n = Some c -> cat (fs w') dir [n] = Some c) /\
  fs w' !! dir = Some (Dir 1023) /\
  forall q, ~ dir `prefix_of` q -> is_Some (fs w !! q) -> fs w' !! q = fs w !! q.
Proof.
  intros Hnames Hfresh Hdir Hrun.
  destruct (layout_run _ _ _ _ _ Hnames Hfresh Hrun) as (t & w1 & _ & [[Hr _]|[[Hl Hfr] Hok]]); [done|].
  destruct (Hok eq_refl) as [Hleaf Hmode]. split_and!; [|auto|done].
  intros n c Hn. eapply cat_leaf; eauto.
Qed.

(** C20: rewriting the layout is atomic. Whichever call fails, and also when
    none does, [..data] leads afterwards either to all of the files of
    before or to all of the new ones. The file names are plain, and the
    directory named after the time in nanoseconds is not there yet. *)
Theorem layout_atomic dir d old files w r w' :
  plain_names files -> fresh dir w -> layout_at (fs w) dir d old ->
  (forall t w1, time_Now w = (inr t, w1) -> d <> ".." +:+ stamp t) -> d <> "..data.tmp" ->
  WriteServiceAccountLayout stamp range_write range_link dir files w = (r, w') ->
  (forall n c, old !! n = Some c -> cat (fs w') dir ["..data"; n] = Some c) \/
  (forall n c, files !! n = Some c -> cat (fs w') dir ["..data"; n] = Some c).
Proof.
  intros Hnames Hfresh Hold Hd1 Hd2 Hrun.
  destruct (layout_run _ _ _ _ _ Hnames Hfresh Hrun) as (t & w1 & Hnow & [[_ Hb]|[[Hl _] _]]).
  2:{ right. intros n c Hn. by eapply cat_data. }
  left. intros n c Hn. apply (cat_data _ _ d old); [|done]. specialize (Hd1 _ _ Hnow).
  destruct Hold as (Hlink & Hdir & Hfiles). unfold before in Hb.
  assert (Hp : forall x l, x <> ".." +:+ stamp t -> ~ dir ++ [".." +:+ stamp t] `prefix_of` dir ++ x :: l).
  { intros x l Hx Hpre. apply prefix_app_inv in Hpre. apply Hx. by apply prefix_cons_inv_1 in Hpre. }
  split_and!.
  - rewrite Hb; [done|by rewrite Hlink|apply Hp; by destruct (data_name t)|by rewrite entry_eq].
  - rewrite Hb; [done|by destruct (fs w !! (dir ++ [d]))|by apply Hp|by rewrite entry_eq].
  - intros n' c' Hn'. destruct (Hfiles _ _ Hn') as (m & Hm). exists m.
    rewrite Hb; [done|by rewrite Hm|by apply Hp|]. intros Heq. by eapply entry_deeper.
Qed.
End Facts.

(** ** At concrete inputs *)

Module SaDemo.
Import Script.

Abbreviation world := (gmap path node * script)%type.

#[local] Instance world_fs : FS world := mem_fs fst (fun t w => (t, w.2)).
#[local] Instance world_fs_laws : FSLaws world.
Proof. by apply mem_fs_laws. Qed.

Definition stamp (t : Time) : string := "2" +:+ Itoa t.
Lemma stamp_digits t : stamp t <> "data" /\ stamp t <> "data.tmp".
Proof. done. Qed.

Definition dir : path := ["run"; "secrets"; "kubernetes.io"; "serviceaccount"].
Definition files1 := sa_files "tok1" "default" "CA".
Definition files2 := sa_files "tok2" "default" "CA".
Definition w0 : world := ({[ dir := Dir 493 ]}, start []).

Definition run (files : gmap string string) : E world unit :=
  WriteServiceAccountLayout stamp map_to_list map_to_list dir files.

Lemma now_fs : keeps (W := world) fs time_Now.
Proof. by intros [t s]. Qed.

(** The world the first run leaves. *)
Definition w1 : world := (run files1 w0).2.

Lemma sa_plain token ns ca : plain_names (sa_files token ns ca).
Proof.
  intros n [c Hn]. unfold sa_files in Hn.
  rewrite !lookup_insert_Some in Hn. destruct Hn as [[<- _]|[_ [[<- _]|[_ Hn]]]]; try done.
  by apply lookup_singleton_Some in Hn as [<- _].
Qed.

(** No path of a concrete tree lies below the directory. *)
Lemma fresh_by (w : world) :
  bool_decide (map_Forall (fun q _ => ~ dir ++ [".." +:+ stamp (sc_clock w.2)] `prefix_of` q) w.1) = true ->
  fresh stamp dir w.
Proof.
  intros Hb%bool_decide_eq_true t w' q [= <- _] Hq. change (w.1 !! q = None).
  destruct (w.1 !! q) eqn:E; [|done]. by apply Hb in E.
Qed.

Lemma layout_readable_witness :
  (run files1 w0).1 = inr tt /\
  cat (fs (run files1 w0).2) dir ["token"] = Some "tok1".
Proof.
  destruct (run files1 w0) as [r w'] eqn:E.
  assert (Hr : r = inr tt) by (apply (f_equal fst) in E; vm_compute in E; by symmetry).
  subst r. split; [reflexivity|].
  destruct (layout_readable (W := world) stamp map_to_list map_to_list (fun m => reflexivity _) (fun m => reflexivity _)
    now_fs stamp_digits dir files1 w0 w') as [Hcat _].
  - apply sa_plain.
  - apply fresh_by. vm_compute. reflexivity.
  - vm_compute. reflexivity.
  - exact E.
  - apply Hcat. reflexivity.
Defined.

(** A second run over the first: the token is the old one or the new one. *)
Lemma layout_atomic_witness :
  (forall n c, files1 !! n = Some c -> cat (fs (run files2 w1).2) dir ["..data"; n] = Some c) \/
  (forall n c, files2 !! n = Some c -> cat (fs (run files2 w1).2) dir ["..data"; n] = Some c).
Proof.
  destruct (run files2 w1) as [r w'] eqn:E.
  apply (layout_atomic (W := world) stamp map_to_list map_to_list (fun m => reflexivity _) (fun m => reflexivity _)
    now_fs stamp_digits dir "..21000" files1 files2 w1 r w').
  - apply sa_plain.
  - apply fresh_by. vm_compute. reflexivity.
  - split_and!; [vm_compute; reflexivity..|].
    intros n c Hn. exists 420%Z. unfold files1, sa_files in Hn.
    rewrite !lookup_insert_Some in Hn. destruct Hn as [[<- <-]|[_ [[<- <-]|[_ Hn]]]].
    + vm_compute. reflexivity.
    + vm_compute. reflexivity.
    + apply lookup_singleton_Some in Hn as [<- <-]. vm_compute. reflexivity.
  - intros t w2 Ht. assert (Hc : (time_Now w1).1 = inr 1001%Z) by (vm_compute; reflexivity).
    rewrite Ht in Hc. injection Hc as ->. discriminate.
  - discriminate.
  - exact E.
Defined.
End SaDemo.
