(* ===== verification/Http.v ===== *)
(** * net/http: the reply a handler writes

    [http.ResponseWriter] as the server implements it: the header map can be
    edited until the status line is written, which [WriteHeader] does, or the
    first [Write] with status 200; later edits of the map have no effect on
    the reply. *)

From S2P Require Import Prelude GoStrings Kube.
#[local] Open Scope string_scope.
#[local] Open Scope list_scope.

Record ResponseWriter := {
  rw_Header : gmap string string;
  rw_Wrote : option (Z * gmap string string);
  rw_Body : string }.

Definition new_writer : ResponseWriter := {| rw_Header := ∅; rw_Wrote := None; rw_Body := "" |}.

(** [w.Header().Set(k, v)]. *)
Definition Header_Set (k v : string) (w : ResponseWriter) : ResponseWriter :=
  {| rw_Header := <[k := v]> (rw_Header w); rw_Wrote := rw_Wrote w; rw_Body := rw_Body w |}.

(** A second call is ignored. *)
Definition WriteHeader (code : Z) (w : ResponseWriter) : ResponseWriter :=
  match rw_Wrote w with
  | Some _ => w
  | None => {| rw_Header := rw_Header w; rw_Wrote := Some (code, rw_Header w); rw_Body := rw_Body w |}
  end.

Definition rw_Write (p : string) (w : ResponseWriter) : ResponseWriter :=
  let w := WriteHeader 200 w in
  {| rw_Header := rw_Header w; rw_Wrote := rw_Wrote w; rw_Body := rw_Body w +:+ p |}.

(** The reply the client gets: its status, the [Content-Type] the handler
    gave it (absent, the server guesses one from the body), its body. *)
Definition reply_code (w : ResponseWriter) : Z := from_option fst 200%Z (rw_Wrote w).
Definition reply_type (w : ResponseWriter) : option string :=
  (from_option snd (rw_Header w) (rw_Wrote w)) !! "Content-Type".

(** [metav1.Status], the fields the shim fills. *)
Record Status := {
  st_Kind : string; st_APIVersion : string; st_Status : string; st_Message : string;
  st_Reason : string; st_Causes : list (string * string); st_Code : Z }.

Section Replies.
(** The JSON encoding of the API machinery's type. *)
Context (encode : Status -> string).

(** [src/internal/kubeletshim/exec.go:649-662, writeStatus] *)
Definition writeStatus (code : Z) (reason message : string) (w : ResponseWriter) : ResponseWriter :=
  let w := Header_Set "Content-Type" "application/json" w in
  let st := {| st_Kind := "Status"; st_APIVersion := "v1"; st_Status := "Failure";
               st_Message := if message ==? "" then reason else message;
               st_Reason := reason; st_Causes := []; st_Code := Int.int32 code |} in
  rw_Write (encode st +:+ nl) w.

(** [w.WriteHeader(code)] followed by [writeStatus], as every caller does. *)
Definition fail_with (code : Z) (reason message : string) : ResponseWriter :=
  writeStatus code reason message (WriteHeader code new_writer).

(** [src/internal/kubeletshim/kubeletserver.go:62-65, handlePortForward] *)
Definition handlePortForward : ResponseWriter :=
  fail_with 501 "MethodNotAllowed" "unable to do port forwarding: socat not found".

(** The error replies carry their status and the object that explains it, but
    not the content type [writeStatus] sets: the header has been written by
    then, and the reply goes out without one. *)
Lemma fail_with_reply code reason message :
  reply_code (fail_with code reason message) = code /\
  reply_type (fail_with code reason message) = None /\
  exists st, rw_Body (fail_with code reason message) = encode st +:+ nl /\
    st_Reason st = reason /\ st_Code st = Int.int32 code.
Proof. by eauto 10. Qed.
End Replies.
