(* ===== verification/Exec.v ===== *)
(** * internal/kubeletshim/exec.go: exec, attach and logs

    A session inside the decoy is a real process; what starts it, what
    environment it gets and what of it is recorded is decided here. The
    operating system's processes and the SPDY streams to the client are
    classes: [os_Run] runs a command and yields what the loops that copy its
    output do, in the order they are scheduled, and how it ended, if it did;
    [st_Write] hands bytes to the client and may fail at any time, a part of
    them delivered. *)

From Stdlib Require Import Ascii.
From S2P Require Import Prelude GoStrings KubeTypes Kube Server Host.
From S2P Require Import ApiTypes ShimTypes ShimSeed SessionLog Fs Http.
#[local] Open Scope string_scope.
#[local] Open Scope list_scope.

(** ** Processes and streams *)

(** An error of os/exec, by what [errors.As] finds in its chain: the exit
    code of an [*exec.ExitError], an [*exec.Error], an [*os.PathError]. *)
Record ExecErr := {
  xe_ExitCode : option Z; xe_ExecError : bool; xe_PathError : bool; xe_Text : string }.

(** [exec.Cmd]: the program, its arguments and environment, the error of the
    lookup, and the clone flags. *)
Record Cmd := {
  cmd_Path : string; cmd_Args : list string; cmd_Env : list string;
  cmd_Err : option ExecErr; cmd_Cloneflags : Z; cmd_Unshareflags : Z }.

Inductive fd := Stdout | Stderr.

#[global] Instance fd_eq_dec : EqDecision fd.
Proof. solve_decision. Defined.

(** A move of the loop that copies one descriptor to the client: it hands the
    client the next bytes, or the recorder the bytes it handed the client
    last. *)
Inductive move := Chunk (f : fd) (p : string) | Note (f : fd).

(** A write to a stream of the client: the bytes that arrived, and whether
    the call succeeded, so that they are all it was given. *)
Record delivery (S : Type) := Delivery { dl_stream : S; dl_bytes : string; dl_whole : bool }.
Arguments Delivery {S}. Arguments dl_stream {S}. Arguments dl_bytes {S}. Arguments dl_whole {S}.

Class Procs (W S : Type) := {
  (** [exec.LookPath] in the shim's own PATH: a path and an error *)
  exec_LookPath : string -> E W (string * option ExecErr);
  (** a command, on a pty or on pipes, with the client's input: the error of
      its start, or the moves of the copy loops and how it ended; [None] is a
      process that has not ended *)
  os_Run : bool -> Cmd -> option S -> option S ->
    E W (ExecErr + (list move * option (option ExecErr)));
  st_Write : S -> string -> E W unit;
  st_Close : S -> E W unit;
  (** the commands started so far, and what the streams were given *)
  started : W -> list Cmd;
  out : W -> list (delivery S) }.

(** ** Profiles *)

(** [src/internal/kubeletshim/exec.go:53-57, execProfileShell] *)
Definition execProfileShell := "shell".
Definition execProfileMinimal := "minimal".
Definition execProfileDistroless := "distroless".

(** [src/internal/kubeletshim/exec.go:61-71, shellPath] *)
Definition shellPath := "/bin/sh".
Definition busyboxBinDir := "/usr/lib/busybox".
Definition busyboxShellPath := busyboxBinDir +:+ "/sh".

(** [src/internal/kubeletshim/exec.go:74-79, shellFor] *)
Definition shellFor (cfg : Config) : string :=
  if cfg_ExecProfile cfg ==? execProfileMinimal then busyboxShellPath else shellPath.

(** [src/internal/kubeletshim/exec.go:222-232, shellLessImages] *)
Definition shellLessImages : list string :=
  ["registry.k8s.io/etcd"; "registry.k8s.io/kube-apiserver"; "registry.k8s.io/kube-controller-manager";
   "registry.k8s.io/kube-scheduler"; "registry.k8s.io/coredns"; "registry.k8s.io/pause";
   "registry.k8s.io/metrics-server"; "gcr.io/distroless/"; "coredns/coredns"].

(** [src/internal/kubeletshim/exec.go:237-250, containerLacksShell] *)
Fixpoint lacks_shell_loop (cs : list Container) (container : string) : bool :=
  match cs with
  | [] => false
  | c :: cs' =>
      if (container !=? "") && (c_Name c !=? container) then lacks_shell_loop cs' container
      else existsb (HasPrefix (c_Image c)) shellLessImages
  end.

(** [src/internal/kubeletshim/exec.go:234-250, containerLacksShell] *)
Definition containerLacksShell (p : Pod) (container : string) : bool :=
  lacks_shell_loop (ps_Containers (p_Spec p)) container.

(** [src/internal/kubeletshim/exec.go:591-598, hasContainer] *)
Definition hasContainer (p : Pod) (name : string) : bool :=
  existsb (fun c => c_Name c ==? name) (ps_Containers (p_Spec p)).

(** [src/internal/kubeletshim/exec.go:560-568, podLogLines] *)
Definition podLogLines (sh : Shim) (p : Pod) : list string :=
  match getLogLines sh (p_Namespace p) (p_Name p) with
  | Some (l :: ls) => l :: ls
  | _ =>
      match ps_Containers (p_Spec p) with
      | c :: _ => if c_Image c !=? "" then ["Starting " +:+ c_Image c +:+ "..."]
                  else [p_Name p +:+ ": no output produced"]
      | [] => [p_Name p +:+ ": no output produced"]
      end
  end.

(** ** Errors *)

(** [src/internal/kubeletshim/exec.go:534-538, isCommandNotFound] *)
Definition isCommandNotFound (e : ExecErr) : bool := xe_ExecError e || xe_PathError e.

(** [src/internal/kubeletshim/exec.go:516-528, exitCodeFor] *)
Definition exitCodeFor (err : option ExecErr) : Z :=
  match err with
  | None => 0
  | Some e => match xe_ExitCode e with
              | Some code => code
              | None => if isCommandNotFound e then 127 else 1
              end
  end.

(** [src/internal/kubeletshim/exec.go:543-548, execErrorMessage] *)
Definition execErrorMessage (e : ExecErr) : string :=
  if isCommandNotFound e then "command not found" else xe_Text e.

(** ** The environment of a session *)

(** [src/internal/kubeletshim/exec.go:464-497, decoyExecEnv] *)
Definition decoyExecEnv (cfg : Config) (sandboxDir podName : string) : list string :=
  let base := if cfg_ExecProfile cfg ==? execProfileMinimal then busyboxBinDir
              else "/usr/local/sbin:/usr/local/bin:/usr/sbin:/usr/bin:/sbin:/bin" in
  let path := if sandboxDir !=? "" then sandboxDir +:+ ":" +:+ base else base in
  let env := ["PATH=" +:+ path; "HOME=/root"; "HOSTNAME=" +:+ podName; "TERM=xterm";
              "KUBERNETES_SERVICE_HOST=" +:+ cfg_NodeInternalIP cfg] in
  if (0 <? cfg_KubernetesServicePort cfg)%Z then
    let port := Itoa (cfg_KubernetesServicePort cfg) in
    let tcpAddr := "tcp://" +:+ cfg_NodeInternalIP cfg +:+ ":" +:+ port in
    env ++ ["KUBERNETES_SERVICE_PORT=" +:+ port; "KUBERNETES_SERVICE_PORT_HTTPS=" +:+ port;
            "KUBERNETES_PORT=" +:+ tcpAddr; "KUBERNETES_PORT_" +:+ port +:+ "_TCP=" +:+ tcpAddr;
            "KUBERNETES_PORT_" +:+ port +:+ "_TCP_PROTO=tcp";
            "KUBERNETES_PORT_" +:+ port +:+ "_TCP_PORT=" +:+ port;
            "KUBERNETES_PORT_" +:+ port +:+ "_TCP_ADDR=" +:+ cfg_NodeInternalIP cfg]
  else env.

(** [src/internal/kubeletshim/exec.go:378-381, kernelRelease] *)
Definition kernelRelease := "6.8.0-45-generic".
Definition kernelVersionText := "#45-Ubuntu SMP PREEMPT_DYNAMIC Mon Jul 15 12:00:00 UTC 2024".

(** [src/internal/kubeletshim/exec.go:365-370, execSandbox] *)
Record execSandbox := { sb_env : list string; sb_dir : option path; sb_overrides : gset string }.

Definition sb_dir_string (sb : execSandbox) : string := from_option path_string "" (sb_dir sb).

(** The text of the shadow of [hostname].
    [src/internal/kubeletshim/exec.go:428-428, newExecSandbox] *)
Definition hostnameScript (is_print : Z -> bool) (podName : string) : string :=
  "#!/bin/sh" +:+ nl +:+ "printf '%s\n' " +:+ Quote is_print podName +:+ nl.

(** The text of the shadow of [uname].
    [src/internal/kubeletshim/exec.go:431-442, newExecSandbox] *)
Definition unameScript (is_print : Z -> bool) (podName : string) : string :=
  let arm pat body := pat +:+ ") echo " +:+ body +:+ " ;;" +:+ nl in
  "#!/bin/sh" +:+ nl +:+ "case " +:+ dq +:+ "$1" +:+ dq +:+ " in" +:+ nl
  +:+ arm (dq +:+ dq +:+ "|-s") "Linux"
  +:+ arm "-r" (Quote is_print kernelRelease)
  +:+ arm "-m|-p|-i" "x86_64"
  +:+ arm "-o" "GNU/Linux"
  +:+ arm "-n" (Quote is_print podName)
  +:+ arm "-v" (Quote is_print kernelVersionText)
  +:+ arm "-a" (dq +:+ "Linux " +:+ podName +:+ " " +:+ kernelRelease +:+ " " +:+ kernelVersionText
                +:+ " x86_64 x86_64 x86_64 GNU/Linux" +:+ dq)
  +:+ arm "*" "Linux"
  +:+ "esac" +:+ nl.

(** [src/internal/kubeletshim/exec_isolation_linux.go:53-59, alpineOSRelease] *)
Definition alpineOSRelease : string :=
  "NAME=" +:+ dq +:+ "Alpine Linux" +:+ dq +:+ nl +:+ "ID=alpine" +:+ nl
  +:+ "VERSION_ID=3.20.3" +:+ nl +:+ "PRETTY_NAME=" +:+ dq +:+ "Alpine Linux v3.20" +:+ dq +:+ nl
  +:+ "HOME_URL=" +:+ dq +:+ "https://alpinelinux.org/" +:+ dq +:+ nl
  +:+ "BUG_REPORT_URL=" +:+ dq +:+ "https://gitlab.alpinelinux.org/alpine/aports/-/issues" +:+ dq +:+ nl.

(** ** A session *)

Section Session.
Context (is_print : Z -> bool) (duration : Time -> Time -> string) (encode : Status -> string).
Context (cfg : Config).
Context {W S : Type} `{Host W, FS W, Procs W S}.

(** The sandbox and whether it was made without error.
    [src/internal/kubeletshim/exec.go:406-456, newExecSandbox] *)
Definition newExecSandbox (podName : string) : E W (execSandbox * bool) :=
  let bare := {| sb_env := decoyExecEnv cfg "" podName; sb_dir := None; sb_overrides := ∅ |} in
  r ← try_ os_MkdirTemp;
  match r with
  | inl _ => mret (bare, false)
  | inr dir =>
      _ ← ignore_ (os_Chmod dir 493);
      r ← try_ (os_WriteFile (fp_Join dir "hostname") (hostnameScript is_print podName) 493);
      match r with
      | inl _ => _ ← ignore_ (os_RemoveAll dir); mret (bare, false)
      | inr _ =>
          r ← try_ (os_WriteFile (fp_Join dir "uname") (unameScript is_print podName) 493);
          mret ({| sb_env := decoyExecEnv cfg (path_string dir) podName; sb_dir := Some dir;
                   sb_overrides := if r is inr _ then {[ "hostname"; "uname" ]} else {[ "hostname" ]} |}, true)
      end
  end.

(** [filepath.Base(name) == name]. *)
Definition is_base (name : string) : bool :=
  (name ==? "/") || ((name !=? "") && negb (bool_decide ("/"%char ∈ chars name))).

(** [exec.CommandContext]. *)
Definition CommandContext (name : string) (args : list string) : E W Cmd :=
  let cmd path err := {| cmd_Path := path; cmd_Args := name :: args; cmd_Env := [];
                         cmd_Err := err; cmd_Cloneflags := 0; cmd_Unshareflags := 0 |} in
  if is_base name then
    '(lp, err) ← exec_LookPath name;
    mret (cmd (if lp !=? "" then lp else name) err)
  else mret (cmd name None).

Definition cmd_with (cmd : Cmd) (path : string) (env : list string) (clone unshare : Z) : Cmd :=
  {| cmd_Path := path; cmd_Args := cmd_Args cmd; cmd_Env := env; cmd_Err := cmd_Err cmd;
     cmd_Cloneflags := clone; cmd_Unshareflags := unshare |}.

(** [filepath.Join(s.dir, name)]; a shadow exists only in a sandbox that has
    a directory. *)
Definition shadow_path (sb : execSandbox) (name : string) : string :=
  from_option (fun dir => path_string (fp_Join dir name)) name (sb_dir sb).

(** [src/internal/kubeletshim/exec.go:387-391, applyOverride] *)
Definition applyOverride (sb : execSandbox) (cmd : Cmd) (name : string) : Cmd :=
  if bool_decide (name ∈ sb_overrides sb)
  then cmd_with cmd (shadow_path sb name) (cmd_Env cmd) (cmd_Cloneflags cmd) (cmd_Unshareflags cmd)
  else cmd.

(** CLONE_NEWNS, CLONE_NEWPID and CLONE_NEWUTS. *)
Definition CLONE_NEWNS : Z := 131072.
Definition CLONE_NEWPID : Z := 536870912.
Definition CLONE_NEWUTS : Z := 67108864.

(** [src/internal/kubeletshim/exec_isolation_linux.go:21-51, isolatedCmd] *)
Definition isolatedCmd (args : list string) (sb : execSandbox) (podName : string) : E W Cmd :=
  let args := match args with
    | a :: rest => (if bool_decide (a ∈ sb_overrides sb) then shadow_path sb a else a) :: rest
    | [] => []
    end in
  cmd ← CommandContext "/proc/self/exe" ("--exec-init" :: args);
  let env := sb_env sb ++ ["HONEYPOD_EXEC_HOSTNAME=" +:+ podName] in
  env ← (match sb_dir sb with
         | Some dir =>
             if cfg_ExecProfile cfg ==? execProfileMinimal then
               r ← try_ (os_WriteFile (fp_Join dir "os-release") alpineOSRelease 420);
               mret (if r is inr _
                     then env ++ ["HONEYPOD_EXEC_OSRELEASE=" +:+ path_string (fp_Join dir "os-release")]
                     else env)
             else mret env
         | None => mret env
         end);
  mret (cmd_with cmd (cmd_Path cmd) env
          (Z.lor CLONE_NEWNS (Z.lor CLONE_NEWPID CLONE_NEWUTS)) CLONE_NEWNS).

(** [src/internal/kubeletshim/exec.go:295-303, buildExecCmd] *)
Definition buildExecCmd (args : list string) (sb : execSandbox) (podName : string) : E W Cmd :=
  if cfg_ExecIsolation cfg then isolatedCmd args sb podName
  else
    let name := default "" (head args) in
    cmd ← CommandContext name (tail args);
    mret (applyOverride sb (cmd_with cmd (cmd_Path cmd) (sb_env sb) 0 0) name).

(** The recorder is given what it is due.
    [src/internal/kubeletshim/sessionlog.go:47-52, tee] *)
Definition note (due : option string) (rec : option sessionLog) : E W (option sessionLog) :=
  match due, rec with
  | Some p, Some s => '(_, s') ← Write s p; mret (Some s')
  | _, _ => mret rec
  end.

(** A write through [rec.tee(st)]: [io.MultiWriter] hands the bytes to the
    client first and stops at an error, so the recorder gets what was written
    to the client without one. The flag says whether the write succeeded.
    [src/internal/kubeletshim/sessionlog.go:47-52, tee] *)
Definition tee_Write (rec : option sessionLog) (st : S) (p : string) : E W (bool * option sessionLog) :=
  r ← try_ (st_Write st p);
  match r with
  | inl _ => mret (false, rec)
  | inr _ => rec ← note (Some p) rec; mret (true, rec)
  end.

(** A copy loop: whether a failed write has ended it, and what it still owes
    the recorder. *)
Record loop := Loop { lp_dead : bool; lp_due : option string }.
Definition loops : Type := loop * loop.
Definition get_loop (f : fd) (l : loops) : loop := match f with Stdout => l.1 | Stderr => l.2 end.
Definition set_loop (f : fd) (x : loop) (l : loops) : loops :=
  match f with Stdout => (x, l.2) | Stderr => (l.1, x) end.
Definition fresh_loops : loops := (Loop false None, Loop false None).

(** The copy loops of a session, each a sequence of [tee_Write]s whose two
    halves the other loop's may come between: a descriptor's chunks go to its
    stream until a write to it fails; a nil stream discards them. *)
Fixpoint copy (stream : fd -> option S) (moves : list move) (l : loops) (rec : option sessionLog)
    : E W (loops * option sessionLog) :=
  match moves with
  | [] => mret (l, rec)
  | Note f :: moves' =>
      rec ← note (lp_due (get_loop f l)) rec;
      copy stream moves' (set_loop f (Loop (lp_dead (get_loop f l)) None) l) rec
  | Chunk f p :: moves' =>
      match stream f with
      | Some st =>
          if lp_dead (get_loop f l) then copy stream moves' l rec
          else
            rec ← note (lp_due (get_loop f l)) rec;
            r ← try_ (st_Write st p);
            copy stream moves'
              (set_loop f (if r is inr _ then Loop false (Some p) else Loop true None) l) rec
      | None => copy stream moves' l rec
      end
  end.

(** Both loops come to their end. *)
Definition finish (l : loops) (rec : option sessionLog) : E W (option sessionLog) :=
  rec ← note (lp_due l.1) rec; note (lp_due l.2) rec.

(** [cmd.Start]: an error of the lookup is returned before anything runs. *)
Definition cmd_Run (tty : bool) (cmd : Cmd) (stdin resize : option S)
    : E W (ExecErr + (list move * option (option ExecErr))) :=
  match cmd_Err cmd with
  | Some e => mret (inl e)
  | None => os_Run tty cmd stdin resize
  end.

(** A write the caller does not check, to a stream that may be nil. *)
Definition say (rec : option sessionLog) (st : option S) (p : string) : E W (bool * option sessionLog) :=
  match st with
  | Some st => tee_Write rec st p
  | None => mret (true, rec)
  end.

(** What a pty delivers is one stream, copied by one loop. *)
Definition merged (moves : list move) : list move :=
  (fun m => match m with Chunk _ p => Chunk Stdout p | Note _ => Note Stdout end) <$> moves.

(** Where a session's output goes. *)
Definition outputs (stdout stderr : option S) (f : fd) : option S :=
  match f with Stdout => stdout | Stderr => stderr end.

(** A session is a call that returns no error: this one stands for a session
    whose process has not ended, which has not returned. *)
Definition unfinished : error := Errorf "still running".

(** [src/internal/kubeletshim/exec.go:308-340, runPTYSession] *)
Definition runPTYSession (args : list string) (sb : execSandbox) (podName : string)
    (stdin stdout resize : option S) (rec : option sessionLog) : E W (Z * option sessionLog) :=
  cmd ← buildExecCmd args sb podName;
  r ← cmd_Run true cmd stdin resize;
  match r with
  | inl err =>
      '(_, rec) ← say rec stdout (default "" (head args) +:+ ": " +:+ execErrorMessage err +:+ CRLF);
      mret (exitCodeFor (Some err), rec)
  | inr (moves, ending) =>
      '(l, rec) ← copy (outputs stdout None) (merged moves) fresh_loops rec;
      match ending with
      | None => throw unfinished
      | Some err => rec ← finish l rec; mret (exitCodeFor err, rec)
      end
  end.

(** The error of a failed copy, which [cmd.Run] returns when the process
    itself did well. *)
Definition copy_error : ExecErr :=
  {| xe_ExitCode := None; xe_ExecError := false; xe_PathError := false; xe_Text := "write" |}.

(** [src/internal/kubeletshim/exec.go:344-355, runPipeSession] *)
Definition runPipeSession (args : list string) (sb : execSandbox) (podName : string)
    (stdin stdout stderr : option S) (rec : option sessionLog) : E W (Z * option sessionLog) :=
  cmd ← buildExecCmd args sb podName;
  r ← cmd_Run false cmd stdin None;
  '(err, rec) ← (match r with
    | inl err => mret (Some err, rec)
    | inr (moves, ending) =>
        '(l, rec) ← copy (outputs stdout stderr) moves fresh_loops rec;
        match ending with
        | None => throw unfinished
        | Some err =>
            rec ← finish l rec;
            mret (match err with
                  | Some e => Some e
                  | None => if lp_dead l.1 || lp_dead l.2 then Some copy_error else None
                  end, rec)
        end
    end);
  '(_, rec) ← (if from_option isCommandNotFound false err
               then say rec stderr (default "" (head args) +:+ ": command not found" +:+ nl)
               else mret (true, rec));
  mret (exitCodeFor err, rec).

(** [src/internal/kubeletshim/exec.go:254-290, runSession] *)
Definition runSession (sh : Shim) (p : Pod) (container mode : string) (command : list string)
    (tty : bool) (stdin stdout stderr resize : option S) : E W Z :=
  if mode ==? "attach" then
    _ ← (match stdout with
         | Some st => ignore_ (st_Write st (Join (podLogLines sh p) nl +:+ nl))
         | None => mret tt
         end);
    mret 0%Z
  else
    let args := if command ==? [] then [shellFor cfg] else command in
    '(sb, ok) ← newExecSandbox (p_Name p);
    rec ← (if cfg_RecordExecSessions cfg
           then s ← newSessionLog is_print (p_Namespace p) (p_Name p) container tty args; mret (Some s)
           else mret None);
    '(code, rec) ← (if tty then runPTYSession args sb (p_Name p) stdin stdout resize rec
                    else runPipeSession args sb (p_Name p) stdin stdout stderr rec);
    _ ← (match rec with Some s => done_ duration s code | None => mret tt end);
    _ ← (match sb_dir sb with Some dir => if ok : bool then ignore_ (os_RemoveAll dir) else mret tt | None => mret tt end);
    mret code.

(** ** The handlers *)

(** [src/internal/kubeletshim/exec.go:602-623, writeExecStatus] *)
Definition exec_status (exitCode : Z) : Status :=
  if exitCode ==? 0%Z
  then {| st_Kind := ""; st_APIVersion := ""; st_Status := "Success"; st_Message := "";
          st_Reason := ""; st_Causes := []; st_Code := 0 |}
  else {| st_Kind := ""; st_APIVersion := ""; st_Status := "Failure";
          st_Message := "command terminated with non-zero exit code: " +:+ Itoa exitCode;
          st_Reason := "NonZeroExitCode"; st_Causes := [("ExitCode", Itoa exitCode)]; st_Code := 0 |}.

(** [src/internal/kubeletshim/exec.go:602-623, writeExecStatus] *)
Definition writeExecStatus (errStream : option S) (exitCode : Z) : E W unit :=
  match errStream with
  | None => mret tt
  | Some st => ignore_ (st_Write st (encode (exec_status exitCode)))
  end.

(** [src/internal/kubeletshim/exec.go:629-647, writeExecNotFound] *)
Definition not_found_status (cmd : string) : Status :=
  {| st_Kind := ""; st_APIVersion := ""; st_Status := "Failure";
     st_Message := "error executing command in container: failed to exec in container: failed to start exec: OCI runtime exec failed: exec failed: unable to start container process: exec: "
       +:+ Quote is_print cmd +:+ ": executable file not found in $PATH: unknown";
     st_Reason := "InternalError"; st_Causes := []; st_Code := 0 |}.

(** [src/internal/kubeletshim/exec.go:629-647, writeExecNotFound] *)
Definition writeExecNotFound (errStream : option S) (cmd : string) : E W unit :=
  match errStream with
  | None => mret tt
  | Some st => ignore_ (st_Write st (encode (not_found_status cmd)))
  end.

(** The streams the client opens before the deadline, collected until as many
    kinds are there as the session needs.
    [src/internal/kubeletshim/exec.go:154-169, handleStream] *)
Fixpoint collect (expected : nat) (incoming : list (string * S)) (m : gmap string S) : gmap string S :=
  if bool_decide (size m < expected) then
    match incoming with
    | [] => m
    | (t, st) :: rest => collect expected rest (<[t := st]> m)
    end
  else m.

Definition close_all (l : list (option S)) : E W unit :=
  for_each (fun st => from_option (fun st => ignore_ (st_Close st)) (mret tt) st) l.

(** A request: its path values and the values of its query. *)
Record StreamRequest := {
  sr_ns : string; sr_pod : string; sr_container : string; sr_query : string -> list string }.

Definition q_Get (r : StreamRequest) (k : string) : string := default "" (head (sr_query r k)).

(** How a request ends: with an HTTP reply, without a connection, or with a
    session on the streams. *)
Inductive outcome := Replied (w : ResponseWriter) | NoConnection | Streamed.

Context (k : Clientset W).
(** [httpstream.Handshake], and [UpgradeResponse] with the streams that
    arrive in time; [None] is a failed upgrade. *)
Context (handshake : E W unit) (upgrade : E W (option (list (string * S)))).

(** [src/internal/kubeletshim/exec.go:93-203, handleStream] *)
Definition handleStream (sh : Shim) (r : StreamRequest) (mode : string) : E W outcome :=
  let fail code reason msg := mret (Replied (fail_with encode code reason msg)) in
  got ← try_ (Get (typed (k_pods k)) (NN (sr_ns r) (sr_pod r)));
  match got with
  | inl err =>
      if IsNotFound err then fail 404%Z "NotFound" ("pods " +:+ Quote is_print (sr_pod r) +:+ " not found")
      else fail 500%Z "InternalError" (e_Message err)
  | inr p =>
      let container := sr_container r in
      if (container !=? "") && negb (hasContainer p container) then
        fail 400%Z "BadRequest" ("container " +:+ Quote is_print container +:+ " not found in pod "
                               +:+ Quote is_print (sr_pod r))
      else
        let container := if container ==? "" then from_option c_Name "" (head (ps_Containers (p_Spec p)))
                         else container in
        h ← try_ handshake;
        match h with
        | inl _ => mret NoConnection
        | inr _ =>
            let wantStdin := (q_Get r "input" ==? "1") || (q_Get r "stdin" ==? "true") in
            let wantStdout := (q_Get r "output" ==? "1") || (q_Get r "stdout" ==? "true") in
            let wantStderr := (q_Get r "stderr" ==? "true") || (q_Get r "error" ==? "1") in
            let tty := (q_Get r "tty" ==? "1") || (q_Get r "tty" ==? "true") in
            let command := sr_query r "command" in
            let expected := 1 + Nat.b2n wantStdin + Nat.b2n wantStdout
                            + Nat.b2n (wantStderr && negb tty) + Nat.b2n tty in
            conn ← upgrade;
            match conn with
            | None => mret NoConnection
            | Some incoming =>
                let streams := collect expected incoming ∅ in
                let errStream := streams !! "error" in
                let stdoutStream := streams !! "stdout" in
                let stderrStream := streams !! "stderr" in
                _ ← (if (mode ==? "exec")
                        && ((cfg_ExecProfile cfg ==? execProfileDistroless) || containerLacksShell p container)
                     then writeExecNotFound errStream (default "sh" (head command))
                     else
                       code ← runSession sh p container mode command tty (streams !! "stdin")
                                stdoutStream stderrStream (streams !! "resize");
                       writeExecStatus errStream code);
                _ ← close_all [stdoutStream; stderrStream; errStream];
                mret Streamed
            end
        end
  end.

(** [src/internal/kubeletshim/exec.go:572-589, handleLogs] *)
Definition handleLogs (sh : Shim) (ns name : string) : E W ResponseWriter :=
  got ← try_ (Get (typed (k_pods k)) (NN ns name));
  mret match got with
  | inl err =>
      if IsNotFound err then fail_with encode 404 "NotFound" ("pods " +:+ Quote is_print name +:+ " not found")
      else fail_with encode 500 "InternalError" (e_Message err)
  | inr p => foldl (fun w l => rw_Write (l +:+ nl) w)
               (Header_Set "Content-Type" "text/plain" new_writer) (podLogLines sh p)
  end.
End Session.

(** ** Terminal sizes *)

(** [src/internal/kubeletshim/exec.go:30-33, terminalSize] *)
Record terminalSize := { ts_Width : Z; ts_Height : Z }.

(** [pty.Winsize]. *)
Record Winsize := { ws_Rows : Z; ws_Cols : Z }.

(** The sizes set on the pty, given what the decoder yields message by
    message; it stops at the first error.
    [src/internal/kubeletshim/exec.go:502-511, applyResizes] *)
Fixpoint applyResizes (messages : list (error + terminalSize)) : list Winsize :=
  match messages with
  | inr size :: rest => {| ws_Rows := ts_Height size; ws_Cols := ts_Width size |} :: applyResizes rest
  | _ => []
  end.

(** ** The child of an isolated session *)

Section ExecInit.
(** [exec.LookPath] in the child, whose PATH is the session's. *)
Context (child_LookPath : list string -> string -> option string).

Definition marker := "HONEYPOD_EXEC_".

(** The environment the target gets.
    [src/internal/kubeletshim/exec_isolation_linux.go:83-91, RunExecInit] *)
Definition strip_markers (environ : list string) : list string :=
  filterb (fun kv => negb (HasPrefix kv marker)) environ.

(** [os.Getenv]. *)
Definition Getenv (environ : list string) (key : string) : string :=
  default "" (list_find (fun kv => HasPrefix kv (key +:+ "=") = true) environ
              ≫= fun ikv => Some (String.substring (String.length key + 1) (String.length ikv.2) ikv.2)).

(** The system calls of the child, in order, whose errors it drops. *)
Inductive syscall :=
  | Sethostname (name : string)
  | MountPrivate
  | MountProc
  | BindMount (source target : string)
  | Setgroups (gid : Z)
  | Setgid (gid : Z)
  | Setuid (uid : Z)
  | ExecVE (path : string) (args env : list string).

(** What the child does: its system calls and the code it exits with when the
    last one fails.
    [src/internal/kubeletshim/exec_isolation_linux.go:67-109, RunExecInit] *)
Definition RunExecInit (args environ : list string) : list syscall * Z :=
  match args with
  | [] => ([], 1%Z)
  | path :: _ =>
      let hn := Getenv environ "HONEYPOD_EXEC_HOSTNAME" in
      let osrel := Getenv environ "HONEYPOD_EXEC_OSRELEASE" in
      ((if hn !=? "" then [Sethostname hn] else []) ++ [MountPrivate; MountProc]
       ++ (if osrel !=? "" then [BindMount osrel "/etc/os-release"] else [])
       ++ [Setgroups 1000; Setgid 1000; Setuid 1000;
           ExecVE (default path (child_LookPath environ path)) args (strip_markers environ)], 127%Z)
  end.

End ExecInit.
