(* ===== verification/ExecFacts.v ===== *)
(** * What an exec session may do

    The sessions of exec.go against any operating system and any client: which
    processes are started, in which environment, and what of them is written
    to the log. *)

From Stdlib Require Import Ascii.
From S2P Require Import Prelude GoStrings KubeTypes Kube Server Host.
From S2P Require Import ApiTypes ShimIds ShimTypes ShimSeed SessionLog Fs Http Exec.
#[local] Open Scope string_scope.
#[local] Open Scope list_scope.

(** The history of processes, stream writes and log lines: what each call may
    add to it. Commands and lookups report their errors as values; a started
    command may never end, and a write may fail with a part of it delivered. *)
Class ProcLaws (W S : Type) `{Host W, FS W, Procs W S} : Prop := {
  look_ok : forall name w, exists r w', exec_LookPath name w = (inr r, w') /\
    started w' = started w /\ out w' = out w /\ logged w' = logged w;
  run_ok : forall tty cmd i z w, exists r w', os_Run tty cmd i z w = (inr r, w') /\
    started w' = started w ++ (if r is inr _ then [cmd] else []) /\
    out w' = out w /\ logged w' = logged w;
  st_write_ok : forall st p w r w', st_Write st p w = (r, w') ->
    started w' = started w /\ logged w' = logged w /\
    exists p' rest, p = p' +:+ rest /\ out w' = out w ++ [Delivery st p' (if r is inr _ then true else false)] /\
      (r = inr tt -> rest = "");
  st_close_ok : forall st w, let w' := (st_Close st w).2 in
    started w' = started w /\ out w' = out w /\ logged w' = logged w;
  host_started : (forall s, keeps started (log_Print s)) /\ keeps started time_Now;
  host_out : (forall s, keeps out (log_Print s)) /\ keeps out time_Now;
  fs_started : (keeps started os_MkdirTemp /\ forall p m, keeps started (os_Chmod p m)) /\
    (forall p c m, keeps started (os_WriteFile p c m)) /\ (forall p, keeps started (os_RemoveAll p));
  fs_out : (keeps out os_MkdirTemp /\ forall p m, keeps out (os_Chmod p m)) /\
    (forall p c m, keeps out (os_WriteFile p c m)) /\ (forall p, keeps out (os_RemoveAll p));
  fs_logged : (keeps logged os_MkdirTemp /\ forall p m, keeps logged (os_Chmod p m)) /\
    (forall p c m, keeps logged (os_WriteFile p c m)) /\ (forall p, keeps logged (os_RemoveAll p)) }.

(** ** Runs and what they add *)

Section Steps.
Context {W S : Type} `{HostLaws W} `{!FS W, !Procs W S, !ProcLaws W S}.

(** [c] ends like this and adds exactly this to the history. *)
Definition ran {A} (c : E W A) (w : W) (r : error + A) (w' : W) (cs : list Cmd) (ds : list (delivery S))
    (ls : list string) : Prop :=
  c w = (r, w') /\ started w' = started w ++ cs /\ out w' = out w ++ ds /\ logged w' = logged w ++ ls.

(** It returns a value. *)
Definition steps {A} (c : E W A) (w : W) (a : A) := ran c w (inr a).

Lemma steps_ret {A} (a : A) w : steps (mret a) w a w [] [] [].
Proof. unfold steps, ran. by rewrite !app_nil_r. Qed.

Lemma ran_throw {A} e w : ran (throw e : E W A) w (inl e) w [] [] [].
Proof. unfold ran. by rewrite !app_nil_r. Qed.

Lemma ran_bind {A B} (c : E W A) (k : A -> E W B) w a w1 b w2 cs1 ds1 ls1 cs2 ds2 ls2 :
  steps c w a w1 cs1 ds1 ls1 -> ran (k a) w1 b w2 cs2 ds2 ls2 ->
  ran (c ≫= k) w b w2 (cs1 ++ cs2) (ds1 ++ ds2) (ls1 ++ ls2).
Proof.
  intros (Hc & Hs & Ho & Hl) (Hk & Hs2 & Ho2 & Hl2). split_and!.
  - unfold mbind, E_bind. by rewrite Hc.
  - by rewrite Hs2, Hs, (assoc_L (++)).
  - by rewrite Ho2, Ho, (assoc_L (++)).
  - by rewrite Hl2, Hl, (assoc_L (++)).
Qed.

Lemma ran_stop {A B} (c : E W A) (k : A -> E W B) w e w1 cs ds ls :
  ran c w (inl e) w1 cs ds ls -> ran (c ≫= k) w (inl e) w1 cs ds ls.
Proof. intros (Hc & ?). unfold ran, mbind, E_bind. by rewrite Hc. Qed.

Lemma steps_bind {A B} (c : E W A) (k : A -> E W B) w a w1 b w2 cs1 ds1 ls1 cs2 ds2 ls2 :
  steps c w a w1 cs1 ds1 ls1 -> steps (k a) w1 b w2 cs2 ds2 ls2 ->
  steps (c ≫= k) w b w2 (cs1 ++ cs2) (ds1 ++ ds2) (ls1 ++ ls2).
Proof. apply ran_bind. Qed.

(** A step that adds nothing, in front of another run. *)
Lemma ran_then {A B} (c : E W A) (k : A -> E W B) w a w1 r w2 cs ds ls :
  steps c w a w1 [] [] [] -> ran (k a) w1 r w2 cs ds ls -> ran (c ≫= k) w r w2 cs ds ls.
Proof. apply ran_bind. Qed.

Lemma steps_then {A B} (c : E W A) (k : A -> E W B) w a w1 b w2 cs ds ls :
  steps c w a w1 [] [] [] -> steps (k a) w1 b w2 cs ds ls -> steps (c ≫= k) w b w2 cs ds ls.
Proof. apply ran_bind. Qed.

(** A run followed by one that adds nothing. *)
Lemma ran_after {A B} (c : E W A) (k : A -> E W B) w a w1 r w2 cs ds ls :
  steps c w a w1 cs ds ls -> ran (k a) w1 r w2 [] [] [] -> ran (c ≫= k) w r w2 cs ds ls.
Proof. intros Hc Hk. pose proof (ran_bind _ _ _ _ _ _ _ _ _ _ _ _ _ Hc Hk) as Hb. by rewrite !app_nil_r in Hb. Qed.

(** A run followed by one that only logs. *)
Lemma steps_last {A B} (c : E W A) (k : A -> E W B) w a w1 b w2 cs ds ls ls' :
  steps c w a w1 cs ds ls -> steps (k a) w1 b w2 [] [] ls' -> steps (c ≫= k) w b w2 cs ds (ls ++ ls').
Proof. intros Hc Hk. pose proof (steps_bind _ _ _ _ _ _ _ _ _ _ _ _ _ Hc Hk) as Hb. by rewrite !app_nil_r in Hb. Qed.

(** A call that adds nothing. *)
Definition quiet {A} (c : E W A) : Prop :=
  forall w, started (c w).2 = started w /\ out (c w).2 = out w /\ logged (c w).2 = logged w.

Lemma steps_try {A} (c : E W A) w : quiet c -> exists r w', steps (try_ c) w r w' [] [] [].
Proof.
  intros Hq. destruct (Hq w) as (Hs & Ho & Hl). destruct (c w) as [r w'] eqn:E.
  exists r, w'. unfold steps, ran, try_. rewrite E, !app_nil_r. done.
Qed.

Lemma steps_ignore {A} (c : E W A) w : quiet c -> exists w', steps (ignore_ c) w tt w' [] [] [].
Proof.
  intros Hq. destruct (steps_try c w Hq) as (r & w' & Hr). exists w'.
  eapply steps_then; [exact Hr|apply steps_ret].
Qed.

Lemma quiet_fs :
  quiet os_MkdirTemp /\ (forall p m, quiet (os_Chmod p m)) /\
  (forall p c m, quiet (os_WriteFile p c m)) /\ (forall p, quiet (os_RemoveAll p)).
Proof.
  destruct fs_started as [[? ?] [? ?]], fs_out as [[? ?] [? ?]], fs_logged as [[? ?] [? ?]].
  unfold keeps in *. split_and!; intros; intros w; split_and!; auto.
Qed.

Lemma steps_log s w : exists w', steps (log_Print s) w tt w' [] [] [s].
Proof.
  destruct (log_ok s w) as (w' & Hl & _ & Hlog). exists w'.
  pose proof (proj1 host_started s w) as Hs. pose proof (proj1 host_out s w) as Ho.
  rewrite Hl in Hs, Ho. unfold steps, ran. rewrite !app_nil_r. done.
Qed.

Lemma steps_now w : exists t w', steps time_Now w t w' [] [] [].
Proof.
  destruct (now_ok w) as (t & w' & Hn & _ & Hlog). exists t, w'.
  pose proof (proj2 host_started w) as Hs. pose proof (proj2 host_out w) as Ho.
  rewrite Hn in Hs, Ho. unfold steps, ran. rewrite !app_nil_r. done.
Qed.

(** The calls of the recorder write only to the log. *)
Definition procs_of (w : W) : list Cmd * list (delivery S) := (started w, out w).

Lemma log_procs s : keeps procs_of (log_Print s).
Proof.
  intros w. unfold procs_of. by rewrite (proj1 host_started s w), (proj1 host_out s w).
Qed.
Lemma now_procs : keeps procs_of time_Now.
Proof. intros w. unfold procs_of. by rewrite (proj2 host_started w), (proj2 host_out w). Qed.
#[local] Hint Resolve log_procs now_procs : keeps.

Lemma Write_procs s p : keeps procs_of (Write s p).
Proof.
  assert (Hd : forall fuel prefix pending, keeps procs_of (drain fuel prefix pending)).
  { intros fuel prefix. induction fuel as [|f IH]; intros pending; simpl; [keep|].
    destruct (Cut pending LF) as [[b r] []]; keep. }
  unfold Write. keep.
Qed.

Lemma new_procs is_print ns pod container tty command :
  keeps procs_of (newSessionLog is_print ns pod container tty command).
Proof. unfold newSessionLog. keep. Qed.

Lemma done_procs duration s code : keeps procs_of (done_ duration s code).
Proof. unfold done_. keep. Qed.

Lemma logs_steps {A} (c : E W A) w a ls :
  keeps procs_of c -> logs c w a ls -> exists w', steps c w a w' [] [] ls.
Proof.
  intros Hk (w' & Hc & _ & Hl). exists w'. specialize (Hk w). rewrite Hc in Hk. unfold procs_of in Hk.
  simpl in Hk. injection Hk as Hs Ho. unfold steps, ran. rewrite !app_nil_r. done.
Qed.

(** ** Writes that are recorded *)

Lemma all_lines_app s a b :
  all_lines s (a ++ b) = all_lines s a ++ all_lines (after_writes s a) b.
Proof.
  revert s. induction a as [|p a IH]; intros s; [done|]. simpl. by rewrite IH, (assoc_L (++)).
Qed.

Lemma after_writes_prefix s chunks : sl_prefix (after_writes s chunks) = sl_prefix s.
Proof. revert s. induction chunks as [|p chunks IH]; intros s; [done|]. apply (IH (after_write s p)). Qed.

(** The recorder after these writes, and the lines they add to the log. *)
Definition after_rec (rec : option sessionLog) (ps : list string) : option sessionLog :=
  (fun s => after_writes s ps) <$> rec.
Definition rec_lines (rec : option sessionLog) (ps : list string) : list string :=
  from_option (fun s => String.append (sl_prefix s) <$> all_lines s ps) [] rec.

Lemma after_rec_nil rec : after_rec rec [] = rec.
Proof. by destruct rec. Qed.
Lemma rec_lines_nil rec : rec_lines rec [] = [].
Proof. by destruct rec. Qed.

Lemma after_rec_app rec ps ps' : after_rec rec (ps ++ ps') = after_rec (after_rec rec ps) ps'.
Proof. destruct rec as [s|]; [|done]. simpl. unfold after_writes. by rewrite foldl_app. Qed.

Lemma rec_lines_app rec ps ps' : rec_lines rec (ps ++ ps') = rec_lines rec ps ++ rec_lines (after_rec rec ps) ps'.
Proof.
  destruct rec as [s|]; [|done]. simpl. by rewrite all_lines_app, fmap_app, after_writes_prefix.
Qed.

(** What a loop owes, as the list of what it is about to record. *)
Definition owed (f : fd) (due : option string) : list (fd * string) := from_option (fun p => [(f, p)]) [] due.

Lemma note_steps f due rec w :
  exists w', steps (note (W := W) due rec) w (after_rec rec (owed f due).*2) w' [] [] (rec_lines rec (owed f due).*2).
Proof.
  destruct due as [p|]; [destruct rec as [s|]|]; simpl; rewrite ?after_rec_nil, ?rec_lines_nil;
    try (exists w; apply steps_ret).
  destruct (logs_steps _ _ _ _ (Write_procs s p) (Write_logs s p w)) as (w2 & Hw).
  exists w2. rewrite (app_nil_r (write_lines s p)), <- (app_nil_r (_ <$> _)).
  eapply steps_last; [exact Hw|apply steps_ret].
Qed.

(** The writes that succeeded, in order. *)
Definition whole (ds : list (delivery S)) : list (option S * string) :=
  omap (fun d => if dl_whole d then Some (Some (dl_stream d), dl_bytes d) else None) ds.

(** The chunks of one descriptor, and the streams the chunks went to. *)
Definition of_fd (f : fd) (l : list (fd * string)) : list string :=
  omap (fun x => if decide (x.1 = f) then Some x.2 else None) l.
Definition told (stream : fd -> option S) (l : list (fd * string)) : list (option S * string) :=
  (fun x => (stream x.1, x.2)) <$> l.

Lemma of_fd_app f l l' : of_fd f (l ++ l') = of_fd f l ++ of_fd f l'.
Proof. apply omap_app. Qed.
Lemma told_app stream l l' : told stream (l ++ l') = told stream l ++ told stream l'.
Proof. apply fmap_app. Qed.
Lemma whole_app l l' : whole (l ++ l') = whole l ++ whole l'.
Proof. apply omap_app. Qed.

Lemma write_steps (st : S) p w :
  exists r w' p' rest, steps (try_ (st_Write st p)) w r w' [] [Delivery st p' (if r is inr _ then true else false)] [] /\
    p = p' +:+ rest /\ (r = inr tt -> rest = "").
Proof.
  destruct (st_Write st p w) as [r w'] eqn:E.
  destruct (st_write_ok _ _ _ _ _ E) as (Hs & Hl & p' & rest & Hp & Ho & Hr).
  exists r, w', p', rest. split; [|done]. unfold steps, ran, try_. rewrite E, Hs, Hl, Ho, !app_nil_r. done.
Qed.

(** A run that hands the client [seen] and the recorder [noted]; each loop
    goes from owing [l] to owing [l']. *)
Definition copied (stream : fd -> option S) (rec : option sessionLog) (w : W) (l : loops)
    (c : E W (loops * option sessionLog)) : Prop :=
  exists l' w' ds seen noted,
    steps c w (l', after_rec rec noted.*2) w' [] ds (rec_lines rec noted.*2) /\
    whole ds = told stream seen /\
    forall f, of_fd f (owed f (lp_due (get_loop f l))) ++ of_fd f seen =
              of_fd f noted ++ of_fd f (owed f (lp_due (get_loop f l'))).

Lemma get_set_loop f x l : get_loop f (set_loop f x l) = x.
Proof. by destruct f. Qed.
Lemma get_set_other f g x l : f <> g -> get_loop f (set_loop g x l) = get_loop f l.
Proof. by destruct f, g. Qed.
Lemma of_fd_owed f due : of_fd f (owed f due) = option_list due.
Proof. by destruct f, due. Qed.
Lemma of_fd_other f g due : f <> g -> of_fd f (owed g due) = [].
Proof. by destruct f, g, due. Qed.

(** The loop of [g] settles what it owes, and goes on owing [due]. *)
Lemma copied_step stream rec w l g ds seen due dead (k : option sessionLog -> E W (loops * option sessionLog)) w1 :
  steps (note (W := W) (lp_due (get_loop g l)) rec) w (after_rec rec (owed g (lp_due (get_loop g l))).*2) w1 [] []
    (rec_lines rec (owed g (lp_due (get_loop g l))).*2) ->
  whole ds = told stream seen -> seen = owed g due ->
  (forall rec', exists w2 c, (forall w3 r cs d ls, ran c w2 r w3 cs d ls -> ran (k rec') w1 r w3 cs (ds ++ d) ls) /\
     copied stream rec' w2 (set_loop g (Loop dead due) l) c) ->
  copied stream rec w l (rec' ← note (lp_due (get_loop g l)) rec; k rec').
Proof.
  intros Hn Hds -> Hk. set (q := lp_due (get_loop g l)) in *.
  destruct (Hk (after_rec rec (owed g q).*2)) as (w2 & c & Hrun & l' & w' & ds' & seen & noted & Hc & Hw & Hf).
  exists l', w', (ds ++ ds'), (owed g due ++ seen), (owed g q ++ noted). split_and!.
  - rewrite fmap_app, after_rec_app, rec_lines_app. eapply (ran_bind _ _ _ _ _ _ _ [] []); [exact Hn|].
    by apply Hrun.
  - by rewrite whole_app, told_app, Hds, Hw.
  - intros f. specialize (Hf f). rewrite !of_fd_app. destruct (decide (f = g)) as [->|Hne].
    + rewrite get_set_loop in Hf. cbn [lp_due] in Hf. rewrite <- (assoc_L (++)), <- Hf, !of_fd_owed. fold q.
      by rewrite !(assoc_L (++)).
    + rewrite get_set_other in Hf by done. by rewrite (of_fd_other f g due Hne), (of_fd_other f g q Hne).
Qed.

Lemma copy_copied stream moves l rec w : copied stream rec w l (copy stream moves l rec).
Proof.
  revert l rec w. induction moves as [|[f p|f] moves IH]; intros l rec w; cbn [copy].
  - exists l, w, [], [], []. split_and!; [rewrite after_rec_nil, rec_lines_nil; apply steps_ret|done|].
    intros f. simpl. by rewrite app_nil_r.
  - destruct (stream f) as [st|] eqn:Hst; [|apply IH]. destruct (lp_dead (get_loop f l)); [apply IH|].
    destruct (note_steps f (lp_due (get_loop f l)) rec w) as (w1 & Hn).
    destruct (write_steps st p w1) as (r & w2 & p' & rest & Hw & Hp & Hr).
    eapply (copied_step _ _ _ _ _ [Delivery st p' (if r is inr _ then true else false)] _
      (if r is inr _ then Some p else None) (if r is inr _ then false else true)); [exact Hn| |reflexivity|].
    + destruct r as [e|[]]; [done|]. simpl. rewrite Hst, Hp, (Hr eq_refl). by rewrite sapp_nil_r.
    + intros rec'. exists w2. eexists. split; [|apply IH]. intros w3 x cs d ls Hx.
      eapply (ran_bind _ _ _ _ _ _ _ [] _ []); [exact Hw|]. by destruct r.
  - destruct (note_steps f (lp_due (get_loop f l)) rec w) as (w1 & Hn).
    eapply (copied_step _ _ _ _ _ [] [] None); [exact Hn|done|done|].
    intros rec'. exists w1. eexists. split; [|apply IH]. intros w3 x cs d ls Hx. exact Hx.
Qed.

(** Once both loops are at their end, nothing is owed. *)
Lemma finish_steps l rec w :
  exists w', let noted := owed Stdout (lp_due l.1) ++ owed Stderr (lp_due l.2) in
    steps (finish (W := W) l rec) w (after_rec rec noted.*2) w' [] [] (rec_lines rec noted.*2) /\
    forall f, of_fd f noted = of_fd f (owed f (lp_due (get_loop f l))).
Proof.
  destruct (note_steps Stdout (lp_due l.1) rec w) as (w1 & H1).
  destruct (note_steps Stderr (lp_due l.2) (after_rec rec (owed Stdout (lp_due l.1)).*2) w1) as (w2 & H2).
  exists w2. cbv zeta. split.
  - rewrite fmap_app, after_rec_app, rec_lines_app. eapply steps_last; [exact H1|exact H2].
  - intros f. rewrite of_fd_app. destruct f; cbn [get_loop]; destruct (lp_due l.1), (lp_due l.2); done.
Qed.

(** A write outside the loops. *)
Lemma say_steps (stream : fd -> option S) f rec p w :
  exists b w' ds seen, steps (say rec (stream f) p) w (b, after_rec rec seen.*2) w' [] ds (rec_lines rec seen.*2) /\
    whole ds = told stream seen.
Proof.
  unfold say. destruct (stream f) as [st|] eqn:Hst.
  2:{ exists true, w, [], []. simpl. rewrite after_rec_nil, rec_lines_nil. split; [apply steps_ret|done]. }
  unfold tee_Write. destruct (write_steps st p w) as (r & w1 & p' & rest & Hw & Hp & Hr). destruct r as [e|[]].
  - exists false, w1, [Delivery st p' false], []. simpl. rewrite after_rec_nil, rec_lines_nil. split; [|done].
    eapply (steps_bind _ _ _ _ _ _ _ [] [_] [] [] [] []); [exact Hw|apply steps_ret].
  - destruct (note_steps f (Some p) rec w1) as (w2 & Hn).
    exists true, w2, [Delivery st p' true], [(f, p)]. split.
    + eapply (steps_bind _ _ _ _ _ _ _ [] [_] [] [] [] (rec_lines rec [p] ++ [])) in Hw.
      * rewrite !app_nil_r in Hw. exact Hw.
      * eapply steps_last; [exact Hn|apply steps_ret].
    + simpl. rewrite Hst, Hp, (Hr eq_refl). by rewrite sapp_nil_r.
Qed.
End Steps.

(** ** The environment *)

Lemma Getenv_cons kv env key :
  Getenv (kv :: env) key =
  if HasPrefix kv (key +:+ "=") then String.substring (String.length key + 1) (String.length kv) kv
  else Getenv env key.
Proof.
  unfold Getenv. simpl. destruct (HasPrefix kv (key +:+ "=")) eqn:E.
  - by rewrite decide_True.
  - rewrite decide_False by done. by destruct (list_find _ env) as [[]|].
Qed.

Lemma substring_after k t : String.substring (String.length k) (String.length (k +:+ t)) (k +:+ t) = t.
Proof.
  rewrite <- (of_chars_chars t) at 3. rewrite <- (of_chars_chars (String.substring _ _ _)).
  rewrite substring_chars, chars_app, length_sapp, <- !length_chars, drop_app_length.
  rewrite take_ge; [done|lia].
Qed.

Lemma Getenv_hit key v env : Getenv ((key +:+ "=" +:+ v) :: env) key = v.
Proof.
  rewrite Getenv_cons. rewrite <- sapp_assoc, HasPrefix_app.
  replace (String.length key + 1) with (String.length (key +:+ "=")) by (by rewrite length_sapp).
  apply substring_after.
Qed.

Lemma Getenv_miss kv env key : HasPrefix kv (key +:+ "=") = false -> Getenv (kv :: env) key = Getenv env key.
Proof. intros Hp. by rewrite Getenv_cons, Hp. Qed.

Lemma Getenv_app env env' key :
  (forall kv, kv ∈ env -> HasPrefix kv (key +:+ "=") = false) -> Getenv (env ++ env') key = Getenv env' key.
Proof.
  induction env as [|kv env IH]; intros Hall; [done|]. simpl. rewrite Getenv_miss by (apply Hall; left).
  apply IH. intros kv' Hin. apply Hall. by right.
Qed.

Section Env.
Context (cfg : Config).

(** Case analysis on the variables of a session. *)
Lemma decoy_env_all d pod (P : string -> Prop) :
  (forall v, P ("PATH=" +:+ v)) -> P "HOME=/root" -> (forall v, P ("HOSTNAME=" +:+ v)) -> P "TERM=xterm" ->
  (forall v, P ("KUBERNETES_" +:+ v)) -> forall kv, kv ∈ decoyExecEnv cfg d pod -> P kv.
Proof.
  intros H1 H2 H3 H4 H5 kv. unfold decoyExecEnv.
  destruct (0 <? _)%Z; intros Hin; [apply elem_of_app in Hin as [Hin|Hin]|]; elem_cases Hin; auto; apply H5.
Qed.

Lemma decoy_env_no_marker d pod kv : kv ∈ decoyExecEnv cfg d pod -> HasPrefix kv marker = false.
Proof. revert kv. by apply (decoy_env_all d pod (fun kv => HasPrefix kv marker = false)). Qed.

Lemma strip_markers_env d pod l :
  (forall kv, kv ∈ l -> HasPrefix kv marker = true) ->
  strip_markers (decoyExecEnv cfg d pod ++ l) = decoyExecEnv cfg d pod.
Proof.
  intros Hl. unfold strip_markers. rewrite filterb_app, (filterb_none _ l), app_nil_r.
  - assert (Hall : forall kv, kv ∈ decoyExecEnv cfg d pod -> negb (HasPrefix kv marker) = true)
      by (intros kv Hin; by rewrite (decoy_env_no_marker _ _ _ Hin)).
    induction (decoyExecEnv cfg d pod) as [|kv env IH]; [done|]. unfold filterb in *. simpl.
    rewrite Hall by left. f_equal. apply IH. intros kv' Hin. apply Hall. by right.
  - intros kv Hin. by rewrite Hl.
Qed.

(** A session is told that the API server is the decoy. *)
Lemma decoy_env_home d pod :
  Getenv (decoyExecEnv cfg d pod) "KUBERNETES_SERVICE_HOST" = cfg_NodeInternalIP cfg /\
  ((0 < cfg_KubernetesServicePort cfg)%Z ->
   Getenv (decoyExecEnv cfg d pod) "KUBERNETES_SERVICE_PORT" = Itoa (cfg_KubernetesServicePort cfg)).
Proof.
  unfold decoyExecEnv. set (path := if _ !=? _ then _ else _).
  assert (Hhost : forall env, Getenv (["PATH=" +:+ path; "HOME=/root"; "HOSTNAME=" +:+ pod; "TERM=xterm";
    "KUBERNETES_SERVICE_HOST=" +:+ cfg_NodeInternalIP cfg] ++ env) "KUBERNETES_SERVICE_HOST" = cfg_NodeInternalIP cfg).
  { intros env. simpl. do 4 rewrite Getenv_miss by done. apply (Getenv_hit "KUBERNETES_SERVICE_HOST"). }
  destruct (Z.ltb_spec 0 (cfg_KubernetesServicePort cfg)) as [Hp|Hp]; (split; [|intros Hpos; try lia]).
  - apply Hhost.
  - rewrite Getenv_app; [apply (Getenv_hit "KUBERNETES_SERVICE_PORT")|].
    intros kv Hin. elem_cases Hin; done.
  - rewrite <- (app_nil_r [_; _; _; _; _]). apply Hhost.
Qed.
End Env.

(** ** The process of a session *)

Definition dir_string (dir : option path) : string := from_option path_string "" dir.

(** The program a session's command name stands for, when it is one of the
    two the sandbox shadows: its own script in the session's directory. *)
Definition shadowed (dir : option path) (name program : string) : Prop :=
  exists d, dir = Some d /\ name ∈ ["hostname"; "uname"] /\ program = path_string (fp_Join d name).

(** An isolated session is the shim again, in namespaces of its own, given
    the command that was asked for; the child takes the pod's name as its host
    name, gives up root, and only then executes that command, with its own
    arguments, found in the session's PATH; the target sees none of the
    markers. *)
Definition isolated_child (cfg : Config) (dir : option path) (podName : string) (args : list string) (cmd : Cmd) : Prop :=
  cmd_Path cmd = "/proc/self/exe" /\
  Z.land (cmd_Cloneflags cmd) CLONE_NEWPID = CLONE_NEWPID /\
  Z.land (cmd_Cloneflags cmd) CLONE_NEWNS = CLONE_NEWNS /\
  exists name rest program, args = name :: rest /\ (program = name \/ shadowed dir name program) /\
    cmd_Args cmd = "/proc/self/exe" :: "--exec-init" :: program :: rest /\
    forall lp, exists pre,
      (RunExecInit lp (drop 2 (cmd_Args cmd)) (cmd_Env cmd)).1 =
        pre ++ [Setuid 1000; ExecVE (default program (lp (cmd_Env cmd) program)) (program :: rest)
                               (decoyExecEnv cfg (dir_string dir) podName)] /\
      (podName <> "" -> head pre = Some (Sethostname podName)).

(** What [exec.Command] makes of a name: the name itself when it is a path,
    else what the lookup finds, or the error of the lookup. *)
Definition looked_up (W S : Type) `{Procs W S} (name program : string) (err : option ExecErr) : Prop :=
  (is_base name = false /\ program = name /\ err = None) \/
  (is_base name = true /\ exists w found w', exec_LookPath (W := W) (S := S) name w = (inr (found, err), w') /\
     program = if decide (found = "") then name else found).

(** The command a session starts is the one asked for, with all its
    arguments, in the decoy's environment, whatever the shim's own is. *)
Definition session_cmd (W S : Type) `{Procs W S} (cfg : Config) (podName : string) (args : list string) (cmd : Cmd) : Prop :=
  exists dir,
    if cfg_ExecIsolation cfg then isolated_child cfg dir podName args cmd
    else cmd_Env cmd = decoyExecEnv cfg (dir_string dir) podName /\ cmd_Args cmd = args /\
      exists name found, head args = Some name /\ looked_up W S name found (cmd_Err cmd) /\
        (cmd_Path cmd = found \/ shadowed dir name (cmd_Path cmd)).

Section Commands.
Context (is_print : Z -> bool) (cfg : Config).
Context {W S : Type} `{HostLaws W} `{!FS W, !Procs W S, !ProcLaws W S}.

(** A sandbox: its environment is the decoy's, with its directory in front of
    the PATH if it has one, and it shadows at most two commands there. *)
Definition sandbox_ok (sb : execSandbox) (podName : string) : Prop :=
  sb_env sb = decoyExecEnv cfg (dir_string (sb_dir sb)) podName /\
  forall name, name ∈ sb_overrides sb -> shadowed (sb_dir sb) name (shadow_path sb name).

Lemma sandbox_steps podName w :
  exists sb ok w', steps (newExecSandbox is_print cfg podName) w (sb, ok) w' [] [] [] /\ sandbox_ok sb podName.
Proof.
  destruct quiet_fs as (Hmk & Hch & Hwr & Hrm). unfold newExecSandbox.
  destruct (steps_try os_MkdirTemp w Hmk) as (r & w1 & H1).
  destruct r as [e|dir].
  { eexists _, _, w1. split; [eapply steps_then; [exact H1|apply steps_ret]|]. by split. }
  destruct (steps_ignore (os_Chmod dir 493) w1 (Hch _ _)) as (w2 & H2).
  destruct (steps_try (os_WriteFile (fp_Join dir "hostname") (hostnameScript is_print podName) 493) w2 (Hwr _ _ _))
    as (r2 & w3 & H3).
  destruct r2 as [e|[]].
  - destruct (steps_ignore (os_RemoveAll dir) w3 (Hrm _)) as (w4 & H4).
    eexists _, _, w4. split.
    + do 4 (eapply steps_then; [eassumption|]; cbn beta iota). apply steps_ret.
    + by split.
  - destruct (steps_try (os_WriteFile (fp_Join dir "uname") (unameScript is_print podName) 493) w3 (Hwr _ _ _))
      as (r3 & w4 & H4).
    eexists _, _, w4. split.
    + do 4 (eapply steps_then; [eassumption|]; cbn beta iota). apply steps_ret.
    + split; [done|]. intros name Hin. exists dir. split_and!; [done| |done].
      simpl in Hin. rewrite !elem_of_cons. destruct r3; set_solver.
Qed.

Lemma command_steps name args w :
  exists cmd w', steps (CommandContext (W := W) (S := S) name args) w cmd w' [] [] [] /\
    cmd_Args cmd = name :: args /\ looked_up W S name (cmd_Path cmd) (cmd_Err cmd).
Proof.
  unfold CommandContext. destruct (is_base name) eqn:Hbase.
  - destruct (look_ok name w) as ([lp err] & w1 & Hl & Hs & Ho & Hlog).
    eexists _, w1. split_and!.
    + eapply (steps_then _ _ _ (lp, err) w1); [|apply steps_ret].
      unfold steps, ran. by rewrite !app_nil_r.
    + done.
    + right. split; [done|]. exists w, lp, w1. simpl. split; [done|]. by case_bool_decide; case_decide.
  - eexists _, w. split; [apply steps_ret|]. split; [done|]. by left.
Qed.

(** The child of an isolated session, given the session's variables and the
    markers of the parent. *)
Lemma exec_init_target lp a rest d podName extra :
  (forall kv, kv ∈ extra -> HasPrefix kv marker = true) ->
  let env := decoyExecEnv cfg d podName ++ ("HONEYPOD_EXEC_HOSTNAME=" +:+ podName) :: extra in
  exists pre,
    (RunExecInit lp (a :: rest) env).1 =
      pre ++ [Setuid 1000; ExecVE (default a (lp env a)) (a :: rest) (decoyExecEnv cfg d podName)] /\
    (podName <> "" -> head pre = Some (Sethostname podName)).
Proof.
  intros Hex env. unfold RunExecInit.
  assert (strip_markers env = decoyExecEnv cfg d podName) as ->.
  { apply strip_markers_env. intros kv [->|Hin]%elem_of_cons; [done|auto]. }
  assert (Hhn : Getenv env "HONEYPOD_EXEC_HOSTNAME" = podName).
  { unfold env. rewrite Getenv_app; [apply (Getenv_hit "HONEYPOD_EXEC_HOSTNAME")|]. intros kv Hin.
    revert kv Hin. by apply (decoy_env_all cfg d podName (fun kv => HasPrefix kv _ = false)). }
  rewrite Hhn. set (osrel := Getenv env _).
  exists ((if podName !=? "" then [Sethostname podName] else []) ++ [MountPrivate; MountProc]
    ++ (if osrel !=? "" then [BindMount osrel "/etc/os-release"] else []) ++ [Setgroups 1000; Setgid 1000]).
  split.
  - cbn [fst]. rewrite <- !(assoc_L (++)). reflexivity.
  - intros Hne. by rewrite bool_decide_eq_false_2.
Qed.

Lemma isolated_child_ok name rest program dir podName cmd extra :
  (program = name \/ shadowed dir name program) -> cmd_Path cmd = "/proc/self/exe" ->
  cmd_Args cmd = "/proc/self/exe" :: "--exec-init" :: program :: rest ->
  (forall kv, kv ∈ extra -> HasPrefix kv marker = true) ->
  isolated_child cfg dir podName (name :: rest) (cmd_with cmd (cmd_Path cmd)
    (decoyExecEnv cfg (dir_string dir) podName ++ ("HONEYPOD_EXEC_HOSTNAME=" +:+ podName) :: extra)
    (Z.lor CLONE_NEWNS (Z.lor CLONE_NEWPID CLONE_NEWUTS)) CLONE_NEWNS).
Proof.
  intros Hprog Hpath Ha Hex. unfold isolated_child, cmd_with.
  cbn [cmd_Path cmd_Cloneflags cmd_Args cmd_Env]. rewrite Ha.
  split_and!; [done..|]. exists name, rest, program. split_and!; [done|done|done|].
  intros lp. by apply exec_init_target.
Qed.

Lemma isolated_steps name rest podName sb w :
  cfg_ExecIsolation cfg = true -> sandbox_ok sb podName ->
  exists cmd w', steps (isolatedCmd cfg (name :: rest) sb podName) w cmd w' [] [] [] /\
    session_cmd W S cfg podName (name :: rest) cmd.
Proof.
  intros Hiso [Henv Hover]. unfold isolatedCmd.
  set (program := if bool_decide _ then _ else _).
  assert (Hprog : program = name \/ shadowed (sb_dir sb) name program).
  { unfold program. case_bool_decide; [right; auto|by left]. }
  destruct (command_steps "/proc/self/exe" ("--exec-init" :: program :: rest) w) as (cmd & w1 & H1 & Ha & Hlk).
  assert (Hpath : cmd_Path cmd = "/proc/self/exe") by (destruct Hlk as [(_ & ? & _)|(? & _)]; done).
  assert (Hdone : forall extra, (forall kv, kv ∈ extra -> HasPrefix kv marker = true) ->
    session_cmd W S cfg podName (name :: rest) (cmd_with cmd (cmd_Path cmd)
      (sb_env sb ++ ("HONEYPOD_EXEC_HOSTNAME=" +:+ podName) :: extra)
      (Z.lor CLONE_NEWNS (Z.lor CLONE_NEWPID CLONE_NEWUTS)) CLONE_NEWNS)).
  { intros extra Hex. unfold session_cmd. rewrite Hiso, Henv. exists (sb_dir sb).
    by apply isolated_child_ok with program. }
  destruct (sb_dir sb) as [dir|] eqn:Hdir; [case_bool_decide as Hmin|].
  - destruct quiet_fs as (_ & _ & Hwr & _).
    destruct (steps_try (os_WriteFile (fp_Join dir "os-release") alpineOSRelease 420) w1 (Hwr _ _ _)) as (r & w2 & H2).
    set (extra := if r is inr _ then ["HONEYPOD_EXEC_OSRELEASE=" +:+ path_string (fp_Join dir "os-release")] else []).
    eexists _, w2. split; [|apply (Hdone extra)].
    2:{ unfold extra. destruct r; intros kv Hin; elem_cases Hin; done. }
    eapply steps_then; [exact H1|].
    eapply steps_then; [|apply steps_ret]. eapply steps_then; [exact H2|].
    replace (_ ++ _ :: extra) with (if r is inr _
      then (sb_env sb ++ ["HONEYPOD_EXEC_HOSTNAME=" +:+ podName])
           ++ ["HONEYPOD_EXEC_OSRELEASE=" +:+ path_string (fp_Join dir "os-release")]
      else sb_env sb ++ ["HONEYPOD_EXEC_HOSTNAME=" +:+ podName]); [apply steps_ret|].
    unfold extra. destruct r; [done|]. by rewrite <- (assoc_L (++)).
  - eexists _, w1. split; [|apply (Hdone []); by intros kv ?%elem_of_nil].
    eapply steps_then; [exact H1|]. eapply steps_then; apply steps_ret.
  - eexists _, w1. split; [|apply (Hdone []); by intros kv ?%elem_of_nil].
    eapply steps_then; [exact H1|]. eapply steps_then; apply steps_ret.
Qed.

Lemma build_steps args podName sb w :
  args <> [] -> sandbox_ok sb podName ->
  exists cmd w', steps (buildExecCmd cfg args sb podName) w cmd w' [] [] [] /\
    session_cmd W S cfg podName args cmd.
Proof.
  intros Hargs Hsb. destruct args as [|name rest]; [done|]. unfold buildExecCmd.
  destruct (cfg_ExecIsolation cfg) eqn:Hiso; [by apply isolated_steps|].
  simpl. destruct (command_steps name rest w) as (cmd & w1 & H1 & Ha & Hlk).
  eexists _, w1. split; [eapply steps_then; [exact H1|apply steps_ret]|].
  unfold session_cmd. rewrite Hiso. exists (sb_dir sb). destruct Hsb as [Henv Hover].
  unfold applyOverride. case_bool_decide as Hin; simpl; rewrite Ha.
  - split_and!; [done|done|]. exists name, (cmd_Path cmd). split_and!; [done|done|right; auto].
  - split_and!; [done|done|]. exists name, (cmd_Path cmd). auto.
Qed.
End Commands.

(** ** Whole sessions *)

(** At most one process, found, and it is the session's. *)
Definition one_session (W S : Type) `{Procs W S} (cfg : Config) (podName : string) (args : list string)
    (cs : list Cmd) : Prop :=
  length cs <= 1 /\ forall c, c ∈ cs -> cmd_Err c = None /\ session_cmd W S cfg podName args c.

Section Sessions.
Context (is_print : Z -> bool) (duration : Time -> Time -> string) (encode : Status -> string) (cfg : Config).
Context {W S : Type} `{HostLaws W} `{!FS W, !Procs W S, !ProcLaws W S}.

Lemma one_session_nil podName args : one_session W S cfg podName args [].
Proof. split; [simpl; lia|]. by intros c ?%elem_of_nil. Qed.

(** The process of a session is still running. *)
Definition running (tty : bool) (i z : option S) (cs : list Cmd) : Prop :=
  exists cmd w moves w', cs = [cmd] /\ os_Run tty cmd i z w = (inr (inr (moves, None)), w').

Lemma cmd_run_steps tty cmd i z w podName args :
  session_cmd W S cfg podName args cmd ->
  exists r w' cs, steps (cmd_Run (W := W) (S := S) tty cmd i z) w r w' cs [] [] /\ one_session W S cfg podName args cs /\
    forall moves, r = inr (moves, None) -> running tty i z cs.
Proof.
  intros Hcmd. unfold cmd_Run. destruct (cmd_Err cmd) as [e|] eqn:He.
  { exists (inl e), w, []. split_and!; [apply steps_ret|apply one_session_nil|done]. }
  destruct (run_ok tty cmd i z w) as (r & w' & Hr & Hs & Ho & Hl).
  exists r, w', (if r is inr _ then [cmd] else []). split_and!.
  - unfold steps, ran. rewrite !app_nil_r. done.
  - destruct r; [apply one_session_nil|]. split; [done|]. intros c Hc. by apply list_elem_of_singleton in Hc as ->.
  - intros moves ->. by exists cmd, w, moves, w'.
Qed.

(** What a session's run leaves: the client was handed [seen], the recorder
    [noted]. They agree, stream by stream, when it has returned; till then the
    recorder may be behind. *)
Definition session_run (stream : fd -> option S) (podName : string) (args : list string) (tty : bool) (i z : option S)
    (rec : option sessionLog) (w : W) (c : E W (Z * option sessionLog)) : Prop :=
  exists r w' cs ds seen noted,
    ran c w r w' cs ds (rec_lines rec noted.*2) /\ one_session W S cfg podName args cs /\
    whole ds = told stream seen /\
    match r with
    | inr (code, rec') => rec' = after_rec rec noted.*2 /\ forall f, of_fd f noted = of_fd f seen
    | inl _ => running tty i z cs /\ forall f, of_fd f noted `prefix_of` of_fd f seen
    end.

(** A command that is built and started, and its output dealt with. *)
Lemma session_run_start stream podName args sb tty i z rec w
    (k : ExecErr + (list move * option (option ExecErr)) -> E W (Z * option sessionLog)) :
  args <> [] -> sandbox_ok cfg sb podName ->
  (forall r w' cs, one_session W S cfg podName args cs -> (forall moves, r = inr (moves, None) -> running tty i z cs) ->
     exists res w2 ds seen noted, ran (k r) w' res w2 [] ds (rec_lines rec noted.*2) /\ whole ds = told stream seen /\
       match res with
       | inr (code, rec') => rec' = after_rec rec noted.*2 /\ forall f, of_fd f noted = of_fd f seen
       | inl _ => running tty i z cs /\ forall f, of_fd f noted `prefix_of` of_fd f seen
       end) ->
  session_run stream podName args tty i z rec w
    (cmd ← buildExecCmd cfg args sb podName; r ← cmd_Run tty cmd i z; k r).
Proof.
  intros Hargs Hsb Hk. destruct (build_steps cfg args podName sb w Hargs Hsb) as (cmd & w1 & Hb & Hcmd).
  destruct (cmd_run_steps tty cmd i z w1 podName args Hcmd) as (r & w2 & cs & Hr & Hcs & Hrun).
  destruct (Hk r w2 cs Hcs Hrun) as (res & w3 & ds & seen & noted & Hres & Hw & Hf).
  exists res, w3, cs, ds, seen, noted. split_and!; [|done|done|done].
  eapply ran_then; [exact Hb|].
  pose proof (ran_bind _ _ _ _ _ _ _ _ _ _ _ _ _ Hr Hres) as H2. by rewrite app_nil_r in H2.
Qed.

(** The copy loops, and what comes after them. *)
Lemma copy_then {B} stream moves (k : loops * option sessionLog -> E W B) rec w :
  exists l w1 ds seen noted,
    (forall r w2 cs ds' ls, ran (k (l, after_rec rec noted.*2)) w1 r w2 cs ds' ls ->
       ran (lr ← copy stream moves fresh_loops rec; k lr) w r w2 cs (ds ++ ds') (rec_lines rec noted.*2 ++ ls)) /\
    whole ds = told stream seen /\
    forall f, of_fd f seen = of_fd f noted ++ of_fd f (owed f (lp_due (get_loop f l))).
Proof.
  destruct (copy_copied stream moves fresh_loops rec w) as (l & w1 & ds & seen & noted & Hc & Hw & Hf).
  exists l, w1, ds, seen, noted. split_and!; [|done|].
  - intros r w2 cs ds' ls Hk. exact (ran_bind _ _ _ _ _ _ _ [] _ _ _ _ _ Hc Hk).
  - intros f. specialize (Hf f). by destruct f.
Qed.

(** Both copy loops to their end. *)
Lemma copy_finished {B} stream moves (k : loops -> option sessionLog -> E W B) rec w :
  exists l w1 ds seen noted,
    (forall r w2 cs ds' ls, ran (k l (after_rec rec noted.*2)) w1 r w2 cs ds' ls ->
       ran (lr ← copy stream moves fresh_loops rec; let '(l, rec) := lr in rec ← finish l rec; k l rec)
         w r w2 cs (ds ++ ds') (rec_lines rec noted.*2 ++ ls)) /\
    whole ds = told stream seen /\ forall f, of_fd f noted = of_fd f seen.
Proof.
  destruct (copy_then stream moves (fun lr => let '(l, rec) := lr in rec ← finish l rec; k l rec) rec w)
    as (l & w1 & ds & seen & noted & Hc & Hw & Hf).
  destruct (finish_steps l (after_rec rec noted.*2) w1) as (w2 & Hfin & Howed). cbv zeta in *.
  set (tail := owed Stdout _ ++ owed Stderr _) in *.
  exists l, w2, ds, seen, (noted ++ tail). split_and!; [|done|].
  - intros r w3 cs ds' ls Hk. rewrite fmap_app, rec_lines_app, <- (assoc_L (++)).
    rewrite fmap_app, after_rec_app in Hk.
    apply Hc. exact (ran_bind _ _ _ _ _ _ _ [] [] _ _ _ _ Hfin Hk).
  - intros f. by rewrite of_fd_app, Howed, Hf.
Qed.

Lemma unfinished_run {B} stream moves (k : loops -> option sessionLog -> E W B) rec w :
  exists w1 ds seen noted,
    ran (lr ← copy stream moves fresh_loops rec; (let '(l, rec) := lr in throw unfinished : E W B))
      w (inl unfinished) w1 [] ds (rec_lines rec noted.*2) /\
    whole ds = told stream seen /\ forall f, of_fd f noted `prefix_of` of_fd f seen.
Proof.
  destruct (copy_then stream moves (fun lr => (let '(l, rec) := lr in throw unfinished : E W B)) rec w)
    as (l & w1 & ds & seen & noted & Hc & Hw & Hf).
  specialize (Hc _ _ _ _ _ (ran_throw _ _)). rewrite !app_nil_r in Hc.
  exists w1, ds, seen, noted. split_and!; [done|done|]. intros f. rewrite Hf. by eexists.
Qed.

Lemma pty_run args podName sb i o z rec w :
  args <> [] -> sandbox_ok cfg sb podName ->
  session_run (outputs o None) podName args true i z rec w (runPTYSession cfg args sb podName i o z rec).
Proof.
  intros Hargs Hsb. unfold runPTYSession. apply session_run_start; [done|done|].
  intros [e|[moves [err|]]] w1 cs Hone Hrun.
  - destruct (say_steps (outputs o None) Stdout rec (default "" (head args) +:+ ": " +:+ execErrorMessage e +:+ CRLF) w1)
      as (b & w2 & ds & seen & Hsay & Hw).
    exists (inr (exitCodeFor (Some e), after_rec rec seen.*2)), w2, ds, seen, seen. split_and!; [|done|done|done].
    eapply ran_after; [exact Hsay|apply steps_ret].
  - destruct (copy_finished (outputs o None) (merged moves) (fun _ rec => mret (exitCodeFor err, rec)) rec w1)
      as (l & w2 & ds & seen & noted & Hc & Hw & Hf).
    exists (inr (exitCodeFor err, after_rec rec noted.*2)), w2, ds, seen, noted. split_and!; [|done|done|done].
    specialize (Hc _ _ _ _ _ (steps_ret _ _)). by rewrite !app_nil_r in Hc.
  - destruct (unfinished_run (B := Z * option sessionLog) (outputs o None) (merged moves) (fun _ rec => mret (0%Z, rec)) rec w1)
      as (w2 & ds & seen & noted & Hc & Hw & Hf).
    exists (inl unfinished), w2, ds, seen, noted. split_and!; [exact Hc|done|by eapply Hrun|done].
Qed.

(** The message for a command that was not found, and the exit code. *)
Lemma pipe_end (stream : fd -> option S) args err rec w :
  exists w' ds seen,
    steps ('(_, rec) ← (if from_option isCommandNotFound false err
                       then say rec (stream Stderr) (default "" (head args) +:+ ": command not found" +:+ nl)
                       else mret (true, rec));
           mret (exitCodeFor err, rec)) w (exitCodeFor err, after_rec rec seen.*2) w' [] ds (rec_lines rec seen.*2) /\
    whole ds = told stream seen.
Proof.
  destruct (from_option isCommandNotFound false err).
  - destruct (say_steps stream Stderr rec (default "" (head args) +:+ ": command not found" +:+ nl) w)
      as (b & w2 & ds & seen & Hsay & Hw).
    exists w2, ds, seen. split; [|done].
    eapply ran_after; [exact Hsay|apply steps_ret].
  - exists w, [], []. simpl. rewrite after_rec_nil, rec_lines_nil. split; [|done].
    eapply (steps_bind _ _ _ _ _ _ _ [] [] [] [] [] []); apply steps_ret.
Qed.

Lemma pipe_run args podName sb i o e rec w :
  args <> [] -> sandbox_ok cfg sb podName ->
  session_run (outputs o e) podName args false i None rec w (runPipeSession cfg args sb podName i o e rec).
Proof.
  intros Hargs Hsb. unfold runPipeSession. apply session_run_start; [done|done|].
  intros [x|[moves [err|]]] w1 cs Hone Hrun.
  - destruct (pipe_end (outputs o e) args (Some x) rec w1) as (w2 & ds & seen & Hend & Hw).
    exists (inr (exitCodeFor (Some x), after_rec rec seen.*2)), w2, ds, seen, seen. split_and!; [|done|done|done].
    eapply ran_then; [apply steps_ret|exact Hend].
  - destruct (copy_finished (outputs o e) moves (fun l rec => mret (match err with
      | Some e => Some e | None => if lp_dead l.1 || lp_dead l.2 then Some copy_error else None end, rec)) rec w1)
      as (l & w2 & ds & seen & noted & Hc & Hw & Hf).
    specialize (Hc _ _ _ _ _ (steps_ret _ _)). rewrite !app_nil_r in Hc.
    set (err' := match err with Some _ => _ | None => _ end) in Hc.
    destruct (pipe_end (outputs o e) args err' (after_rec rec noted.*2) w2) as (w3 & ds2 & seen2 & Hend & Hw2).
    exists (inr (exitCodeFor err', after_rec rec (noted ++ seen2).*2)), w3, (ds ++ ds2), (seen ++ seen2), (noted ++ seen2).
    split_and!.
    + rewrite fmap_app, after_rec_app, rec_lines_app. exact (ran_bind _ _ _ _ _ _ _ [] _ _ _ _ _ Hc Hend).
    + by rewrite whole_app, told_app, Hw, Hw2.
    + done.
    + intros f. by rewrite !of_fd_app, Hf.
  - destruct (unfinished_run (B := option ExecErr * option sessionLog) (outputs o e) moves (fun _ rec => mret (None, rec)) rec w1)
      as (w2 & ds & seen & noted & Hc & Hw & Hf).
    exists (inl unfinished), w2, ds, seen, noted. split_and!; [|done|by eapply Hrun|done].
    eapply ran_stop. exact Hc.
Qed.

Definition session_args (command : list string) : list string :=
  if command ==? [] then [shellFor cfg] else command.

(** The log entry of a session that was shown [text] and ended with [code]. *)
Definition entry (target container : string) (tty : bool) (args : list string) (code : Z) (text : string)
    (ls : list string) : Prop :=
  exists lines fin,
    ls = [start_line is_print target container (if tty then "exec-tty" else "exec") (Join args " ")]
      ++ (String.append ("[honeypod exec] " +:+ target +:+ " | ") <$> lines) ++ [fin] /\
    faithful lines text /\ ends_with target code text fin.

(** The recorder's part of a session, around its run. *)
Lemma start_steps ns pod container tty args w :
  exists rec w' ls,
    steps (if cfg_RecordExecSessions cfg
           then s ← newSessionLog is_print ns pod container tty args; mret (Some s)
           else mret None) w rec w' [] [] ls /\
    if cfg_RecordExecSessions cfg
    then (exists now, rec = Some (fresh_log (ns +:+ "/" +:+ pod) now)) /\
      ls = [start_line is_print (ns +:+ "/" +:+ pod) container (if tty then "exec-tty" else "exec") (Join args " ")]
    else rec = None /\ ls = [].
Proof.
  destruct (cfg_RecordExecSessions cfg).
  - destruct (new_logs is_print ns pod container tty args w) as (now & Hn).
    destruct (logs_steps _ _ _ _ (new_procs is_print ns pod container tty args) Hn) as (w' & Hs).
    eexists _, w', _. split; [eapply (steps_bind _ _ _ _ _ _ _ [] []); [exact Hs|apply steps_ret]|eauto].
  - exists None, w, []. split; [apply steps_ret|done].
Qed.

Lemma end_steps rec code ps w :
  (rec = None \/ exists target now, rec = Some (fresh_log target now)) ->
  exists w' ls,
    steps (match after_rec rec ps with Some s => done_ duration s code | None => mret tt end) w tt w' [] [] ls /\
    match rec with
    | None => ls = []
    | Some s => exists e, ends_with (sl_target s) code (concat_all ps) e /\
        ls = (String.append (sl_prefix s) <$> shown [sl_pending (after_writes s ps)]) ++ [e]
    end.
Proof.
  intros [->|(target & now & ->)]; simpl.
  - exists w, []. split; [apply steps_ret|done].
  - destruct (done_ends duration target now ps code w) as (e & He & Hd).
    destruct (logs_steps _ _ _ _ (done_procs duration _ code) Hd) as (w' & Hs).
    eexists w', _. split; [exact Hs|]. by exists e.
Qed.

(** The log entry of a session that has not returned: what was recorded so
    far, without a line that is not complete yet. *)
Definition open_entry (target container : string) (tty : bool) (args : list string) (text : string)
    (ls : list string) : Prop :=
  exists lines rest,
    ls = [start_line is_print target container (if tty then "exec-tty" else "exec") (Join args " ")]
      ++ (String.append ("[honeypod exec] " +:+ target +:+ " | ") <$> lines) /\
    length rest <= 1 /\ faithful (lines ++ rest) text.

Lemma session_open_faithful target now chunks :
  exists rest, length rest <= 1 /\ faithful (all_lines (fresh_log target now) chunks ++ rest) (concat_all chunks).
Proof.
  exists (shown [sl_pending (after_writes (fresh_log target now) chunks)]). split.
  - unfold shown, filterb. simpl. by case_match; simpl; lia.
  - apply session_lines_faithful.
Qed.

(** On a terminal there is one stream, and its order is the order. *)
Lemma terminal_order (o : option S) ds seen noted :
  whole ds = told (outputs o None) seen -> (forall f, of_fd f noted `prefix_of` of_fd f seen) ->
  noted.*2 `prefix_of` seen.*2 /\ ((forall f, of_fd f noted = of_fd f seen) -> noted.*2 = seen.*2).
Proof.
  intros Hw Hpre.
  assert (Hone : forall l, of_fd Stderr l = [] -> l.*2 = of_fd Stdout l).
  { induction l as [|[[] p] l IH]; simpl; [done| |done]. intros Hl. f_equal. by apply IH. }
  assert (Herr : of_fd Stderr seen = []).
  { assert (Hsome : forall x, x ∈ told (outputs o None) seen -> is_Some x.1).
    { rewrite <- Hw. intros x (d & _ & Hd)%list_elem_of_omap. destruct (dl_whole d); [|done]. by injection Hd as <-. }
    clear -Hsome. induction seen as [|[[] p] seen IH]; simpl; [done| |].
    - apply IH. intros x Hx. apply Hsome. by right.
    - destruct (Hsome (None, p)) as [? Hs]; [left|done]. }
  assert (Hnone : of_fd Stderr noted = []).
  { specialize (Hpre Stderr). rewrite Herr in Hpre. by apply prefix_nil_inv in Hpre. }
  rewrite (Hone seen Herr), (Hone noted Hnone). split; [apply Hpre|]. intros Hf. apply Hf.
Qed.

(** A session that is not an attach. *)
Lemma session_ran sh p container mode command tty i o e z w :
  mode <> "attach" ->
  let args := session_args command in let target := p_Namespace p +:+ "/" +:+ p_Name p in
  exists r w' cs ds ls seen noted,
    ran (runSession is_print duration cfg sh p container mode command tty i o e z) w r w' cs ds ls /\
    one_session W S cfg (p_Name p) args cs /\
    whole ds = told (outputs o (if tty then None else e)) seen /\
    match r with
    | inr code => (forall f, of_fd f noted = of_fd f seen) /\
        if cfg_RecordExecSessions cfg then entry target container tty args code (concat_all noted.*2) ls else ls = []
    | inl _ => running tty i (if tty then z else None) cs /\ (forall f, of_fd f noted `prefix_of` of_fd f seen) /\
        if cfg_RecordExecSessions cfg then open_entry target container tty args (concat_all noted.*2) ls else ls = []
    end.
Proof.
  intros Hmode args target. unfold runSession. rewrite (bool_decide_eq_false_2 (mode = "attach")) by done.
  fold (session_args command). fold args.
  assert (Hargs : args <> []) by (unfold args, session_args; by case_bool_decide).
  destruct (sandbox_steps is_print cfg (p_Name p) w) as (sb & ok & w1 & Hsb & Hok).
  destruct (start_steps (p_Namespace p) (p_Name p) container tty args w1) as (rec & w2 & ls1 & Hrec & Hls1).
  fold target in Hls1.
  assert (session_run (outputs o (if tty then None else e)) (p_Name p) args tty i (if tty then z else None) rec w2
    (if tty then runPTYSession cfg args sb (p_Name p) i o z rec else runPipeSession cfg args sb (p_Name p) i o e rec))
    as (r & w3 & cs & ds & seen & noted & Hrun & Hone & Hw & Hend)
    by (destruct tty; [by apply pty_run|by apply pipe_run]).
  destruct r as [x|[code rec']].
  - exists (inl x), w3, cs, ds, (ls1 ++ rec_lines rec noted.*2), seen, noted. destruct Hend as [Hrunning Hf].
    split_and!; [|done|done|done|done|].
    + eapply ran_then; [exact Hsb|]. cbn beta iota. eapply (ran_bind _ _ _ _ _ _ _ [] []); [exact Hrec|].
      eapply ran_stop. exact Hrun.
    + destruct (cfg_RecordExecSessions cfg).
      * destruct Hls1 as [(now & ->) ->]. destruct (session_open_faithful target now noted.*2) as (rest & ? & ?).
        by exists (all_lines (fresh_log target now) noted.*2), rest.
      * by destruct Hls1 as [-> ->].
  - destruct Hend as [-> Hf].
    destruct (end_steps rec code noted.*2 w3) as (w4 & ls2 & Hfin & Hls2).
    { destruct (cfg_RecordExecSessions cfg); destruct Hls1 as [Hrec1 _]; [right|by left].
      destruct Hrec1 as (now & ->). by eexists _, _. }
    assert (exists w5, steps (match sb_dir sb with
      | Some dir => if ok : bool then ignore_ (os_RemoveAll dir) else mret tt | None => mret tt end) w4 tt w5 [] [] [])
      as (w5 & Hclean).
    { destruct quiet_fs as (_ & _ & _ & Hrm). destruct (sb_dir sb); [destruct ok|];
        [by apply steps_ignore|exists w4; apply steps_ret..]. }
    exists (inr code), w5, cs, ds, (ls1 ++ rec_lines rec noted.*2 ++ ls2), seen, noted.
    split_and!; [|done|done|done|].
    + eapply steps_then; [exact Hsb|]. cbn beta iota.
      eapply (steps_bind _ _ _ _ _ _ _ [] []); [exact Hrec|].
      eapply steps_last; [exact Hrun|]. cbn beta iota. rewrite <- (app_nil_r ls2).
      eapply steps_last; [exact Hfin|]. eapply steps_then; [exact Hclean|apply steps_ret].
    + destruct (cfg_RecordExecSessions cfg).
      * destruct Hls1 as [(now & ->) ->]. destruct Hls2 as (fin & Hfin' & ->).
        exists (session_lines (fresh_log target now) noted.*2), fin.
        split_and!; [|apply session_lines_faithful|done].
        unfold session_lines, rec_lines. simpl. by rewrite fmap_app, <- !(assoc_L (++)).
      * by destruct Hls1 as [-> ->]; subst ls2.
Qed.


(** *** The handler *)

(** Text handed to a stream outside a session: all of it or a part. *)
Definition only_text (text : string) (ds : list (delivery S)) : Prop :=
  forall d, d ∈ ds -> HasPrefix text (dl_bytes d) = true /\ (dl_whole d = true -> dl_bytes d = text).

Lemma ignore_write_steps (st : S) text w :
  exists w' ds, steps (ignore_ (st_Write st text)) w tt w' [] ds [] /\ only_text text ds.
Proof.
  destruct (write_steps st text w) as (r & w' & p' & rest & Hw & Hp & Hr).
  exists w', [Delivery st p' (if r is inr _ then true else false)]. split.
  - eapply ran_after; [exact Hw|apply steps_ret].
  - intros d Hd. apply list_elem_of_singleton in Hd as ->. simpl. rewrite Hp, HasPrefix_app. split; [done|].
    destruct r as [|[]]; [done|]. intros _. by rewrite (Hr eq_refl), sapp_nil_r.
Qed.

(** The status written to an error stream that may not be there. *)
Definition status_write (st : option S) (text : string) : E W unit :=
  match st with None => mret tt | Some st => ignore_ (st_Write st text) end.

Lemma status_steps st text w :
  exists w' ds, steps (status_write st text) w tt w' [] ds [] /\ only_text text ds.
Proof.
  destruct st as [st|]; [apply ignore_write_steps|]. exists w, []. split; [apply steps_ret|].
  by intros x ?%elem_of_nil.
Qed.

Lemma close_steps l w : exists w', steps (close_all (W := W) (S := S) l) w tt w' [] [] [].
Proof.
  revert w. induction l as [|st l IH]; intros w; [exists w; apply steps_ret|].
  assert (exists w1, steps (from_option (fun st => ignore_ (st_Close st)) (mret tt) st) w tt w1 [] [] []) as (w1 & Hc).
  { destruct st as [st|]; [|exists w; apply steps_ret]. apply steps_ignore. intros w'. apply st_close_ok. }
  destruct (IH w1) as (w2 & Hl). exists w2. eapply steps_then; [exact Hc|exact Hl].
Qed.

Context (k : Clientset W) (handshake : E W unit) (upgrade : E W (option (list (string * S)))).
Context (get_quiet : forall key, quiet (Get (typed (k_pods k)) key))
        (handshake_quiet : quiet handshake) (upgrade_quiet : quiet upgrade).

(** The container a request means. *)
Definition chosen (p : Pod) (container : string) : string :=
  if container ==? "" then from_option c_Name "" (head (ps_Containers (p_Spec p))) else container.

(** Whether an exec into it is refused as one without a shell. *)
Definition shell_less (p : Pod) (container : string) : bool :=
  (cfg_ExecProfile cfg ==? execProfileDistroless) || containerLacksShell p (chosen p container).

(** What the two branches of the handler do on the streams. *)
Lemma serve_ran sh p container mode command tty i o e z err w :
  exists r w' cs ds ls,
    ran (if (mode ==? "exec") && shell_less p container
         then writeExecNotFound is_print encode err (default "sh" (head command))
         else code ← runSession is_print duration cfg sh p (chosen p container) mode command tty i o e z;
              writeExecStatus encode err code) w r w' cs ds ls /\
    (forall c, c ∈ cs -> mode <> "attach") /\ one_session W S cfg (p_Name p) (session_args command) cs /\
    (mode = "exec" -> shell_less p container = true -> cs = [] /\ ls = [] /\
       only_text (encode (not_found_status is_print (default "sh" (head command)))) ds).
Proof.
  destruct (decide (mode = "exec" /\ shell_less p container = true)) as [[-> Hless]|Hno].
  { rewrite Hless. simpl. destruct (status_steps err (encode (not_found_status is_print (default "sh" (head command)))) w)
      as (w' & ds & Hst & Hds).
    exists (inr tt), w', [], ds, []. split_and!; [exact Hst|by intros c ?%elem_of_nil|apply one_session_nil|done]. }
  assert (Hb : (mode ==? "exec") && shell_less p container = false).
  { apply not_true_is_false. intros [Hm%bool_decide_eq_true ?]%andb_true_iff. by apply Hno. }
  rewrite Hb. clear Hb.
  destruct (decide (mode = "attach")) as [->|Hatt].
  - unfold runSession. simpl.
    assert (exists w1 ds, steps (match o with Some st => ignore_ (st_Write st (Join (podLogLines sh p) nl +:+ nl))
      | None => mret tt end) w tt w1 [] ds []) as (w1 & ds & Hw).
    { destruct o as [st|]; [|exists w, []; apply steps_ret].
      destruct (ignore_write_steps st (Join (podLogLines sh p) nl +:+ nl) w) as (w1 & ds & ? & _). eauto. }
    destruct (status_steps err (encode (exec_status 0)) w1) as (w2 & ds2 & Hst & _).
    exists (inr tt), w2, [], (ds ++ ds2), [].
    split_and!; [|by intros c ?%elem_of_nil|apply one_session_nil|by intros ? ?].
    eapply (steps_bind _ _ _ _ _ _ _ [] _ [] []); [|exact Hst].
    eapply ran_after; [exact Hw|apply steps_ret].
  - destruct (session_ran sh p (chosen p container) mode command tty i o e z w Hatt)
      as (r & w1 & cs & ds & ls & seen & noted & Hrun & Hone & _).
    destruct r as [x|code].
    { exists (inl x), w1, cs, ds, ls. split_and!; [by apply ran_stop|done|done|]. intros -> Hless. by destruct Hno. }
    destruct (status_steps err (encode (exec_status code)) w1) as (w2 & ds2 & Hst & _).
    exists (inr tt), w2, (cs ++ []), (ds ++ ds2), (ls ++ []).
    split; [eapply steps_bind; [exact Hrun|exact Hst]|]. rewrite !app_nil_r. split_and!; [done|done|].
    intros -> Hless. by destruct Hno.
Qed.

(** What a request can have added to the history: nothing, or a session in
    the pod it names. *)
Definition request_effect (r : StreamRequest) (mode : string) (w : W) (cs : list Cmd) (ds : list (delivery S))
    (ls : list string) : Prop :=
  (cs = [] /\ ds = [] /\ ls = []) \/
  exists p w1, Get (typed (k_pods k)) (NN (sr_ns r) (sr_pod r)) w = (inr p, w1) /\
    (forall c, c ∈ cs -> mode <> "attach") /\
    one_session W S cfg (p_Name p) (session_args (sr_query r "command")) cs /\
    (mode = "exec" -> shell_less p (sr_container r) = true -> cs = [] /\ ls = [] /\
       only_text (encode (not_found_status is_print (default "sh" (head (sr_query r "command"))))) ds).

Lemma ran_run {A} (c : E W A) w a w' cs ds ls r w'' :
  ran c w a w' cs ds ls -> c w = (r, w'') ->
  r = a /\ started w'' = started w ++ cs /\ out w'' = out w ++ ds /\ logged w'' = logged w ++ ls.
Proof. intros (Hc & ? & ? & ?) Hr. rewrite Hc in Hr. by injection Hr as <- <-. Qed.

Lemma handle_effect sh r mode w res w' :
  handleStream is_print duration encode cfg k handshake upgrade sh r mode w = (res, w') ->
  exists cs ds ls, started w' = started w ++ cs /\ out w' = out w ++ ds /\ logged w' = logged w ++ ls /\
    request_effect r mode w cs ds ls.
Proof.
  unfold handleStream.
  assert (Hnone : forall w1, started w1 = started w -> out w1 = out w -> logged w1 = logged w ->
    exists cs ds ls, started w1 = started w ++ cs /\ out w1 = out w ++ ds /\ logged w1 = logged w ++ ls /\
      request_effect r mode w cs ds ls).
  { intros w1 Hs Ho Hl. exists [], [], []. rewrite !app_nil_r. split_and!; [done..|]. by left. }
  destruct (get_quiet (NN (sr_ns r) (sr_pod r)) w) as (Hs0 & Ho0 & Hl0).
  unfold mbind at 1, E_bind at 1, try_ at 1.
  destruct (Get (typed (k_pods k)) (NN (sr_ns r) (sr_pod r)) w) as [[err|p] w1] eqn:Eg; simpl in Hs0, Ho0, Hl0.
  { destruct (IsNotFound err); intros [= <- <-]; by apply Hnone. }
  destruct (_ && _); [intros [= <- <-]; by apply Hnone|]. fold (chosen p (sr_container r)).
  fold (shell_less p (sr_container r)).
  destruct (handshake_quiet w1) as (Hs1 & Ho1 & Hl1). unfold mbind at 1, E_bind at 1, try_ at 1.
  destruct (handshake w1) as [[e|[]] w2]; simpl in Hs1, Ho1, Hl1.
  { intros [= <- <-]. apply Hnone; congruence. }
  destruct (upgrade_quiet w2) as (Hs2 & Ho2 & Hl2). unfold mbind at 1, E_bind at 1.
  destruct (upgrade w2) as [[e|[incoming|]] w3]; simpl in Hs2, Ho2, Hl2;
    [intros [= <- <-]; apply Hnone; congruence| |intros [= <- <-]; apply Hnone; congruence].
  set (streams := collect _ incoming ∅). set (tty := _ || _).
  destruct (serve_ran sh p (sr_container r) mode (sr_query r "command") tty (streams !! "stdin")
    (streams !! "stdout") (streams !! "stderr") (streams !! "resize") (streams !! "error") w3)
    as (res1 & w4 & cs & ds & ls & Hserve & Hprop).
  intros Hrun.
  match type of Hrun with ?c w3 = _ => assert (exists r2 w5, ran c w3 r2 w5 cs ds ls) as (r2 & w5 & Hall) end.
  { destruct res1 as [x|[]]; [eexists _, _; by eapply ran_stop|].
    destruct (close_steps [streams !! "stdout"; streams !! "stderr"; streams !! "error"] w4) as (w5 & Hclose).
    eexists _, w5. eapply ran_after; [exact Hserve|]. eapply ran_then; [exact Hclose|apply steps_ret]. }
  destruct (ran_run _ _ _ _ _ _ _ _ _ Hall Hrun) as (_ & Hs & Ho & Hl).
  exists cs, ds, ls. rewrite Hs, Ho, Hl. split_and!; [congruence..|]. right. by exists p, w1.
Qed.

(** A request to the kubelet's streaming endpoints starts at most one
    process, and never one for an attach, for a pod that does not exist, or
    for an exec into an image without a shell. The process runs in the
    environment of the decoy, whose KUBERNETES_ variables name the decoy's own
    API server; with isolation, in fresh namespaces and without root. *)
Theorem handleStream_processes sh r mode w res w' :
  handleStream is_print duration encode cfg k handshake upgrade sh r mode w = (res, w') ->
  exists cs, started w' = started w ++ cs /\ length cs <= 1 /\
    forall c, c ∈ cs ->
      mode <> "attach" /\
      exists p w1, Get (typed (k_pods k)) (NN (sr_ns r) (sr_pod r)) w = (inr p, w1) /\
        (mode = "exec" -> shell_less p (sr_container r) = false) /\
        cmd_Err c = None /\ session_cmd W S cfg (p_Name p) (session_args (sr_query r "command")) c.
Proof.
  intros Hrun. destruct (handle_effect _ _ _ _ _ _ Hrun) as (cs & ds & ls & Hs & _ & _ & Heff).
  exists cs. split; [done|]. destruct Heff as [(-> & _ & _)|(p & w1 & Hg & Hm & [Hlen Hcs] & Hless)].
  { split; [simpl; lia|]. by intros c ?%elem_of_nil. }
  split; [done|]. intros c Hc. destruct (Hcs c Hc) as [Hce Hsc]. split; [by apply (Hm c)|]. exists p, w1.
  split_and!; [done| |done|done]. intros Hexec. destruct (shell_less p (sr_container r)) eqn:E; [|done].
  destruct (Hless Hexec eq_refl) as (-> & _). by apply elem_of_nil in Hc.
Qed.

(** An exec into an image without a shell, or under the distroless
    profile, does nothing but report, as the runtime would, that the
    executable was not found. *)
Theorem shell_less_refused sh r w res w' p w1 :
  Get (typed (k_pods k)) (NN (sr_ns r) (sr_pod r)) w = (inr p, w1) -> shell_less p (sr_container r) = true ->
  handleStream is_print duration encode cfg k handshake upgrade sh r "exec" w = (res, w') ->
  started w' = started w /\ logged w' = logged w /\
  exists ds, out w' = out w ++ ds /\
    only_text (encode (not_found_status is_print (default "sh" (head (sr_query r "command"))))) ds.
Proof.
  intros Hg Hless Hrun. destruct (handle_effect _ _ _ _ _ _ Hrun) as (cs & ds & ls & -> & -> & -> & Heff).
  destruct Heff as [(-> & -> & ->)|(p' & w1' & Hg' & _ & _ & Hprop)].
  - rewrite !app_nil_r. split_and!; [done..|]. exists []. rewrite app_nil_r. split; [done|]. by intros x ?%elem_of_nil.
  - rewrite Hg in Hg'. injection Hg' as <- <-. destruct (Hprop eq_refl Hless) as (-> & -> & Hds).
    rewrite !app_nil_r. split_and!; [done..|]. by exists ds.
Qed.

(** The reply that refuses a request, before anything is started, logged or
    sent on a stream: the code, and the status with its reason and text,
    without the JSON content type [writeStatus] sets, because the header has
    been written by then. *)
Definition refusal (code : Z) (reason message : string) (res : error + outcome) (w w' : W) : Prop :=
  started w' = started w /\ out w' = out w /\ logged w' = logged w /\
  exists rw, res = inr (Replied rw) /\ reply_code rw = code /\ reply_type rw = None /\
    rw_Body rw = encode {| st_Kind := "Status"; st_APIVersion := "v1"; st_Status := "Failure";
                           st_Message := message; st_Reason := reason; st_Causes := []; st_Code := code |} +:+ nl.

(** C27: which requests to the streaming endpoints are refused, and how: with
    404 and the reason NotFound exactly when the inner API server has no such
    pod, with 500 and InternalError when the lookup fails otherwise, and with
    400 and BadRequest when the request names a container the pod does not
    have; the status says so in words, and nothing was started, logged or
    sent. Every other request goes on to the handshake and gets no such
    reply. The reply goes out without the JSON content type [writeStatus]
    sets, because the header has been written by then. *)
Theorem handleStream_replies sh r mode w res w' :
  handleStream is_print duration encode cfg k handshake upgrade sh r mode w = (res, w') ->
  match (Get (typed (k_pods k)) (NN (sr_ns r) (sr_pod r)) w).1 with
  | inl e =>
      if IsNotFound e
      then refusal 404 "NotFound" ("pods " +:+ Quote is_print (sr_pod r) +:+ " not found") res w w'
      else refusal 500 "InternalError" (if decide (e_Message e = "") then "InternalError" else e_Message e) res w w'
  | inr p =>
      let unknown := sr_container r <> "" /\ forall c, c ∈ ps_Containers (p_Spec p) -> c_Name c <> sr_container r in
      (unknown -> refusal 400 "BadRequest" ("container " +:+ Quote is_print (sr_container r)
                    +:+ " not found in pod " +:+ Quote is_print (sr_pod r)) res w w') /\
      (~ unknown -> forall rw, res <> inr (Replied rw))
  end.
Proof.
  unfold handleStream. destruct (get_quiet (NN (sr_ns r) (sr_pod r)) w) as (Hs0 & Ho0 & Hl0).
  unfold mbind at 1, E_bind at 1, try_ at 1.
  destruct (Get (typed (k_pods k)) (NN (sr_ns r) (sr_pod r)) w) as [[err|p] w1]; simpl in Hs0, Ho0, Hl0.
  { simpl. destruct (IsNotFound err) eqn:Hnf; intros [= <- <-]; (split_and!; [done..|]); eexists;
      (split_and!; [reflexivity|reflexivity|reflexivity|]); [reflexivity|].
    unfold fail_with, writeStatus. by case_bool_decide; case_decide. }
  cbn [fst]. assert (Hunknown : (sr_container r !=? "") && negb (hasContainer p (sr_container r)) = true <->
    sr_container r <> "" /\ forall c, c ∈ ps_Containers (p_Spec p) -> c_Name c <> sr_container r).
  { rewrite andb_true_iff, !negb_true_iff, bool_decide_eq_false. unfold hasContainer. rewrite existsb_false.
    split; intros [? Hc]; (split; [done|]); intros c Hin; specialize (Hc c Hin); by apply bool_decide_eq_false in Hc
      || by apply bool_decide_eq_false. }
  destruct (_ && negb _); intros Hrun; split; intros Hun.
  - injection Hrun as <- <-. split_and!; [done..|]. by eexists.
  - intros rw. exfalso. by apply Hun, Hunknown.
  - by apply Hunknown in Hun.
  - intros rw ->. apply E_bind_inr in Hrun as ([e|[]] & w2 & _ & Hrun); [done|].
    apply E_bind_inr in Hrun as ([incoming|] & w3 & _ & Hrun); [|done].
    apply E_bind_inr in Hrun as (? & w4 & _ & Hrun). by apply E_bind_inr in Hrun as (? & w5 & _ & Hrun).
Qed.
End Sessions.
