(* ===== verification/ExecDemo.v ===== *)
(** * Exec sessions at concrete inputs

    A container with a file system in memory, a shell that prints two lines, a
    command that never ends, and a client whose streams accept everything but
    for one that takes a byte and breaks. *)

From S2P Require Import Prelude GoStrings KubeTypes Kube Server Host.
From S2P Require Import ApiTypes ShimIds ShimTypes ShimSeed SessionLog Fs Http Exec ExecFacts.
#[local] Open Scope string_scope.
#[local] Open Scope list_scope.

Record box := {
  bx_fs : gmap path node; bx_pods : gmap NamespacedName Pod;
  bx_started : list Cmd; bx_out : list (delivery string) }.

Abbreviation world := (box * Script.script)%type.

Definition put_fs t (w : world) : world :=
  ({| bx_fs := t; bx_pods := bx_pods w.1; bx_started := bx_started w.1; bx_out := bx_out w.1 |}, w.2).

#[global] Instance world_fs : FS world := mem_fs (fun w => bx_fs w.1) put_fs.

(** What the commands of the box print. *)
Definition prints (cmd : Cmd) : list move :=
  if bool_decide (cmd_Args cmd = ["/bin/sh"])
  then [Chunk Stdout ("$ id" +:+ CRLF +:+ "uid="); Note Stdout; Chunk Stdout ("1000" +:+ CRLF)]
  else [Chunk Stdout ("6.8.0" +:+ nl); Chunk Stderr ("done" +:+ nl); Note Stderr; Note Stdout].

Definition ends (cmd : Cmd) : option (option ExecErr) :=
  if bool_decide (head (cmd_Args cmd) = Some "sleep") then None else Some None.

(** A stream is its name. The image has every command under /usr/bin. *)
#[global] Instance world_procs : Procs world string := {|
  exec_LookPath name := fun w => (inr ("/usr/bin/" +:+ name, None), w);
  os_Run _ cmd _ _ := fun w => (inr (inr (prints cmd, ends cmd)),
    ({| bx_fs := bx_fs w.1; bx_pods := bx_pods w.1; bx_started := bx_started w.1 ++ [cmd];
        bx_out := bx_out w.1 |}, w.2));
  st_Write st p := fun w =>
    let broken := bool_decide (st = "broken") in
    (if broken then inl (Errorf "broken pipe") else inr tt,
     ({| bx_fs := bx_fs w.1; bx_pods := bx_pods w.1; bx_started := bx_started w.1;
         bx_out := bx_out w.1 ++ [Delivery st (if broken then of_chars (take 1 (chars p)) else p) (negb broken)] |}, w.2));
  st_Close _ := mret tt;
  started w := bx_started w.1;
  out w := bx_out w.1 |}.

#[global] Instance world_proc_laws : ProcLaws world string.
Proof.
  assert (Hfs : forall X (view : world -> X), (forall t w, view (put_fs t w) = view w) ->
    (keeps view os_MkdirTemp /\ forall p m, keeps view (os_Chmod p m)) /\
    (forall p c m, keeps view (os_WriteFile p c m)) /\ (forall p, keeps view (os_RemoveAll p))).
  { intros X view Hv. split_and!; intros; intros w; simpl; repeat case_match; simpl; by rewrite ?Hv. }
  split; try (by apply Hfs).
  - intros name w. by eexists _, _.
  - intros tty cmd i z w. eexists (inr _), _. split_and!; [reflexivity|done|by rewrite ?app_nil_r..].
  - intros st p w r w' [= <- <-]. split_and!; [done|done|].
    destruct (bool_decide (st = "broken")); simpl.
    + exists (of_chars (take 1 (chars p))), (of_chars (drop 1 (chars p))). split_and!; [|done|done].
      by rewrite <- of_chars_app, take_drop, of_chars_chars.
    + exists p, "". split_and!; [by rewrite sapp_nil_r|done|done].
  - by intros st w.
  - split; [intros s|]; by intros [b sc].
  - split; [intros s|]; by intros [b sc].
Qed.

(** ** Requests *)

Definition pod_client : Typed world Pod := {|
  typed := {| Get key := fun w => match bx_pods w.1 !! key with
      | Some p => (inr p, w)
      | None => (inl {| e_Reason := ReasonNotFound; e_Causes := []; e_Message := "not found" |}, w)
      end;
    List_ _ := throw (Errorf "refused"); Create _ := throw (Errorf "refused");
    Update _ := throw (Errorf "refused"); StatusUpdate _ := throw (Errorf "refused");
    Delete _ := throw (Errorf "refused") |};
  DeleteNamed _ _ := throw (Errorf "refused"); DeleteCollection _ := throw (Errorf "refused") |}.

Definition clients : Clientset world := pods_only pod_client.

Definition cfg_of (profile : string) (isolation : bool) : Config :=
  {| cfg_SeedPath := ""; cfg_NodeInternalIP := "10.96.7.7"; cfg_KubeletPort := 10250;
     cfg_KubernetesServicePort := 6443; cfg_ExecProfile := profile; cfg_ExecIsolation := isolation;
     cfg_ServiceAccountToken := "t"; cfg_ServiceAccountDir := ""; cfg_Namespace := "default";
     cfg_CABundlePath := ""; cfg_RecordExecSessions := true |}.

Definition pod_of (name image : string) : Pod :=
  {| p_Meta := object_meta name "default" ∅;
     p_Spec := {| ps_InitContainers := []; ps_Containers := [container "main" image]; ps_Volumes := [];
       ps_NodeName := "n1"; ps_HostNetwork := false; ps_Hostname := ""; ps_RuntimeClassName := None;
       ps_TerminationGracePeriodSeconds := None; ps_DNSPolicy := ""; ps_DNSConfig := None;
       ps_AutomountServiceAccountToken := None; ps_EnableServiceLinks := None |};
     p_Status := no_pod_status |}.

Definition w0 : world :=
  ({| bx_fs := ∅; bx_pods := {[ NN "default" "web" := pod_of "web" "nginx:1.27";
                                NN "default" "etcd" := pod_of "etcd" "registry.k8s.io/etcd:3.5" ]};
      bx_started := []; bx_out := [] |}, Script.start []).

Definition shim0 : Shim :=
  {| sh_Seed := {| seed.s_FakeNodes := []; seed.s_FakePods := []; seed.s_FakeSecrets := [];
       seed.s_Controllers := []; seed.s_CRDs := []; seed.s_Services := []; seed.s_ConfigMaps := [] |};
     sh_logLines := ∅; sh_installedCRDs := ∅; sh_objectUIDs := ∅; sh_seededPrev := ∅; sh_seededCur := None |}.

(** [kubectl exec -it <pod>] with the given command. *)
Definition request (pod : string) (command : list string) : StreamRequest :=
  {| sr_ns := "default"; sr_pod := pod; sr_container := "";
     sr_query k := if bool_decide (k = "command") then command
                   else if bool_decide (k ∈ ["stdin"; "stdout"; "tty"]) then ["true"] else [] |}.

Definition streams : list (string * string) :=
  [("error", "err"); ("stdin", "in"); ("stdout", "out"); ("resize", "size")].

Definition encode (s : Status) : string := st_Status s +:+ " " +:+ st_Reason s.

Definition handle (cfg : Config) (r : StreamRequest) (mode : string) : E world outcome :=
  handleStream (fun _ => true) (fun _ _ => "0s") encode cfg clients (mret tt) (mret (Some streams)) shim0 r mode.

Definition web : Pod := pod_of "web" "nginx:1.27".

Definition session_with (o : option string) : E world Z :=
  runSession (fun _ => true) (fun _ _ => "0s") (cfg_of "shell" false) shim0 web "main" "exec" [] true
    (Some "in") o None (Some "size").

Lemma get_quiet key : quiet (W := world) (S := string) (Get (typed (k_pods clients)) key).
Proof. intros w. simpl. by destruct (bx_pods w.1 !! key). Qed.

Lemma mret_quiet {A} (a : A) : quiet (W := world) (S := string) (mret a).
Proof. by intros w. Qed.

(** ** Witnesses *)


Lemma handleStream_processes_witness :
  exists w', handle (cfg_of "shell" true) (request "web" []) "exec" w0 = (inr Streamed, w') /\
    exists c, started w' = [c] /\ session_cmd world string (cfg_of "shell" true) "web" ["/bin/sh"] c.
Proof.
  destruct (handle (cfg_of "shell" true) (request "web" []) "exec" w0) as [res w'] eqn:E.
  destruct (handleStream_processes (S := string) (fun _ => true) (fun _ _ => "0s") encode (cfg_of "shell" true) clients (mret tt)
    (mret (Some streams)) get_quiet (mret_quiet tt) (mret_quiet _) shim0 (request "web" []) "exec" w0 res w' E)
    as (cs & Hs & Hlen & Hcs).
  exists w'. split; [f_equal; apply (f_equal fst) in E; vm_compute in E; by symmetry|].
  assert (Hn : length (started w') = 1).
  { apply (f_equal (fun x => length (started x.2))) in E. vm_compute in E. by symmetry. }
  change (started w') with (bx_started w'.1) in *. simpl in Hs. rewrite Hs in *.
  destruct cs as [|c [|]]; [discriminate Hn| |discriminate Hn]. exists c. split; [reflexivity|].
  destruct (Hcs c) as (_ & p & w1 & Hg & _ & _ & Hc); [left|]. injection Hg as <- _. exact Hc.
Defined.

Lemma shell_less_refused_witness :
  exists w', handle (cfg_of "shell" false) (request "etcd" ["sh"]) "exec" w0 = (inr Streamed, w') /\
    started w' = [] /\ out w' = [Delivery "err" "Failure InternalError" true].
Proof.
  destruct (handle (cfg_of "shell" false) (request "etcd" ["sh"]) "exec" w0) as [res w'] eqn:E.
  destruct (shell_less_refused (S := string) (fun _ => true) (fun _ _ => "0s") encode (cfg_of "shell" false) clients (mret tt)
    (mret (Some streams)) get_quiet (mret_quiet tt) (mret_quiet _) shim0 (request "etcd" ["sh"]) w0 res w'
    (pod_of "etcd" "registry.k8s.io/etcd:3.5") w0 eq_refl eq_refl E) as (Hs & _ & _).
  exists w'. split; [f_equal; apply (f_equal fst) in E; vm_compute in E; by symmetry|].
  split; [exact Hs|]. apply (f_equal (fun x => out x.2)) in E. vm_compute in E. by symmetry.
Defined.

Lemma handleStream_replies_witness :
  exists res w', handle (cfg_of "shell" false) (request "nope" ["sh"]) "exec" w0 = (res, w') /\
    refusal (S := string) encode 404 "NotFound" ("pods " +:+ Quote (fun _ => true) "nope" +:+ " not found") res w0 w'.
Proof.
  destruct (handle (cfg_of "shell" false) (request "nope" ["sh"]) "exec" w0) as [res w'] eqn:E.
  exists res, w'. split; [reflexivity|].
  exact (handleStream_replies (S := string) (fun _ => true) (fun _ _ => "0s") encode (cfg_of "shell" false) clients (mret tt)
    (mret (Some streams)) get_quiet shim0 (request "nope" ["sh"]) "exec" w0 res w' E).
Defined.

(** Without a terminal the log may have the streams in another order than
    the client. *)
Lemma recorded_out_of_order :
  let w' := (runSession (fun _ => true) (fun _ _ => "0s") (cfg_of "shell" false) shim0 web "main" "exec" ["uname"] false
    None (Some "out") (Some "err") None w0).2 in
  out w' = [Delivery "out" ("6.8.0" +:+ nl) true; Delivery "err" ("done" +:+ nl) true] /\
  take 2 (tail (logged w')) = ["[honeypod exec] default/web | done"; "[honeypod exec] default/web | 6.8.0"].
Proof. split; vm_compute; reflexivity. Qed.

(** A command that never ends keeps its session open: the log has no end. *)
Lemma never_ends :
  let '(r, w') := runSession (fun _ => true) (fun _ _ => "0s") (cfg_of "shell" false) shim0 web "main" "exec"
    ["sleep"; "infinity"] false None (Some "broken") None None w0 in
  r = inl unfinished /\ out w' = [Delivery "broken" "6" false] /\ length (logged w') = 1.
Proof. vm_compute. by split_and!. Qed.

(** ** What a session can hide *)

Definition quiet_session := session_with None w0.

(** A session whose client opens no stdout stream leaves no transcript:
    the shell runs and prints, and the log has only the start and the end of
    the session, with a count of zero bytes. *)
Theorem unrecorded_without_stdout :
  length (started quiet_session.2) = 1 /\
  length (prints (hd {| cmd_Path := ""; cmd_Args := []; cmd_Env := []; cmd_Err := None;
                        cmd_Cloneflags := 0; cmd_Unshareflags := 0 |} (started quiet_session.2))) = 3 /\
  logged quiet_session.2 =
    ["[honeypod exec] session start default/web (main) exec-tty command=" +:+ dq +:+ "/bin/sh" +:+ dq;
     "[honeypod exec] session end default/web exit=0 bytes=0 duration=0s"].
Proof. repeat split; vm_compute; reflexivity. Qed.

(** Under the minimal profile a command that is not a busybox applet runs
    all the same when it is named on the command line of the exec: it is
    looked up in the shim's own PATH, not in the session's. *)
Theorem minimal_profile_ambient_path :
  (fun c => (cmd_Path c, Getenv (cmd_Env c) "PATH")) <$>
    started (handle (cfg_of "minimal" false) (request "web" ["python3"]) "exec" w0).2 =
  [("/usr/bin/python3", "/tmp/3141592653:/usr/lib/busybox")].
Proof. vm_compute. reflexivity. Qed.
