(* ===== verification/Stats.v ===== *)
(** * internal/kubeletshim/stats.go: the kubelet's stats API

    The endpoints metrics-server scrapes: the pods bound to a node, with
    usage figures made from the hash of each container's name. *)

From S2P Require Import Prelude GoStrings Json KubeTypes Kube Server Host.
From S2P Require Import ApiTypes ShimIds ShimTypes Http Float64.
From Corelib Require Import SpecFloat.
#[local] Open Scope string_scope.
#[local] Open Scope list_scope.

(** [src/internal/kubeletshim/stats.go:23-25, containerCPUCores] *)
Definition containerCPUCores (key : string) : float64 :=
  fadd (flit 5 1000) (fdiv (f64 (hash32 key mod 20)) (f64 1000)).

(** The key of a container. *)
Definition container_key (p : Pod) (c : Container) : string :=
  p_Namespace p +:+ "/" +:+ p_Name p +:+ "/" +:+ c_Name c.

Section Stats.
Context (is_print : Z -> bool) (rfc3339 : Time -> string) (encode_pods : list Pod -> string).
Context {W : Type} `{Host W} (k : Clientset W).

(** [src/internal/kubeletshim/stats.go:34-42, podStartOrNow] *)
Definition podStartOrNow (p : Pod) : E W Time :=
  match pst_StartTime (p_Status p) with
  | Some t => if negb (time_is_zero t) then mret t
              else if negb (time_is_zero (om_CreationTimestamp (p_Meta p)))
                   then mret (om_CreationTimestamp (p_Meta p)) else time_Now
  | None => if negb (time_is_zero (om_CreationTimestamp (p_Meta p)))
            then mret (om_CreationTimestamp (p_Meta p)) else time_Now
  end.

(** [src/internal/kubeletshim/stats.go:48-60, listNodePods] *)
Definition listNodePods : E W (list Pod) :=
  all ← List_ (typed (k_pods k)) everything;
  mret (filterb (fun p => ps_NodeName (p_Spec p) !=? "") all).

(** [now.UnixMilli()]. *)
Definition UnixMilli (t : Time) : Z := (t - 62135596800000000000) / 1000000.

(** The accumulators of [handleResourceMetrics]: the node's CPU seconds and
    memory, and the lines of the two container metrics. *)
Record usage := { u_cpu : float64; u_mem : Z; u_cpuLines : string; u_memLines : string }.

Definition labels (p : Pod) (c : Container) : string :=
  "{container=" +:+ Quote is_print (c_Name c) +:+ ",namespace=" +:+ Quote is_print (p_Namespace p)
  +:+ ",pod=" +:+ Quote is_print (p_Name p) +:+ "} ".

(** One round of the inner loop.
    [src/internal/kubeletshim/stats.go:85-96, handleResourceMetrics] *)
Definition add_container (now since : Time) (p : Pod) (u : usage) (c : Container) : usage :=
  let key := container_key p c in
  let cpuSec := fmul (Seconds (time_Sub now since)) (containerCPUCores key) in
  let mem := containerMemBytes key in
  let ts := " " +:+ Itoa (UnixMilli now) +:+ nl in
  {| u_cpu := fadd (u_cpu u) cpuSec; u_mem := Int.int64 (u_mem u + mem);
     u_cpuLines := u_cpuLines u +:+ "container_cpu_usage_seconds_total" +:+ labels p c +:+ format6 cpuSec +:+ ts;
     u_memLines := u_memLines u +:+ "container_memory_working_set_bytes" +:+ labels p c +:+ Itoa mem +:+ ts |}.

(** [src/internal/kubeletshim/stats.go:82-97, handleResourceMetrics] *)
Fixpoint add_pods (now : Time) (pods : list Pod) (u : usage) : E W usage :=
  match pods with
  | [] => mret u
  | p :: pods' =>
      since ← podStartOrNow p;
      add_pods now pods' (foldl (add_container now since p) u (ps_Containers (p_Spec p)))
  end.

(** [src/internal/kubeletshim/stats.go:66-107, handleResourceMetrics] *)
Definition handleResourceMetrics : E W ResponseWriter :=
  r ← try_ listNodePods;
  match r with
  | inl _ => mret (WriteHeader 500 new_writer)
  | inr pods =>
      now ← time_Now;
      u ← add_pods now pods
            {| u_cpu := f64 0; u_mem := 0; u_cpuLines := "";
               u_memLines := "# TYPE container_memory_working_set_bytes gauge" +:+ nl |};
      let nodeCPU := fadd (u_cpu u) (flit 15 100) in
      let nodeMem := Int.int64 (u_mem u + 1500 * 1024 * 1024) in
      let ts := " " +:+ Itoa (UnixMilli now) +:+ nl in
      let b := "# TYPE container_cpu_usage_seconds_total counter" +:+ nl +:+ u_cpuLines u +:+ u_memLines u
        +:+ "# TYPE node_cpu_usage_seconds_total counter" +:+ nl
        +:+ "node_cpu_usage_seconds_total " +:+ format6 nodeCPU +:+ ts
        +:+ "# TYPE node_memory_working_set_bytes gauge" +:+ nl
        +:+ "node_memory_working_set_bytes " +:+ Itoa nodeMem +:+ ts in
      mret (rw_Write b (Header_Set "Content-Type" "text/plain; version=0.0.4" new_writer))
  end.

(** [src/internal/kubeletshim/stats.go:181-186, firstNodeName] *)
Definition firstNodeName (sh : Shim) : string :=
  from_option fn_Name "" (head (seed.s_FakeNodes (sh_Seed sh))).

(** [int64(cores * 1e9)]. *)
Definition nano_cores (key : string) : Z := to_int64 (fmul (containerCPUCores key) (f64 1000000000)).

(** The entry of one container; an object literal is sorted by key when it is
    encoded.
    [src/internal/kubeletshim/stats.go:135-143, handleStatsSummary] *)
Definition container_stats (now since : Time) (p : Pod) (c : Container) : json :=
  let key := container_key p c in
  JObject [("cpu", JObject [("time", JString (rfc3339 now));
      ("usageCoreNanoSeconds", JInt (to_int64 (fmul (fmul (Seconds (time_Sub now since)) (containerCPUCores key))
                                                     (f64 1000000000))));
      ("usageNanoCores", JInt (nano_cores key))]);
    ("memory", JObject [("time", JString (rfc3339 now)); ("workingSetBytes", JInt (containerMemBytes key))]);
    ("name", JString (c_Name c))].

(** [src/internal/kubeletshim/stats.go:145-149, handleStatsSummary] *)
Definition pod_stats (now since : Time) (p : Pod) : json :=
  JObject [("containers", JArray (container_stats now since p <$> ps_Containers (p_Spec p)));
    ("podRef", JObject [("name", JString (p_Name p)); ("namespace", JString (p_Namespace p));
                        ("uid", JString (om_UID (p_Meta p)))]);
    ("startTime", JString (rfc3339 since))].

(** The two sums over the containers of a pod. *)
Definition add_usage (p : Pod) (u : Z * Z) (c : Container) : Z * Z :=
  let key := container_key p c in
  (Int.int64 (u.1 + nano_cores key), Int.int64 (u.2 + containerMemBytes key)).

(** [src/internal/kubeletshim/stats.go:124-150, handleStatsSummary] *)
Fixpoint summarize (now : Time) (pods : list Pod) (u : Z * Z) (acc : list json) : E W (Z * Z * list json) :=
  match pods with
  | [] => mret (u, acc)
  | p :: pods' =>
      since ← podStartOrNow p;
      summarize now pods' (foldl (add_usage p) u (ps_Containers (p_Spec p))) (acc ++ [pod_stats now since p])
  end.

Definition summary_json (sh : Shim) (now : Time) (cpu mem : Z) (podStats : list json) : json :=
  JObject [("node", JObject [
      ("cpu", JObject [("time", JString (rfc3339 now)); ("usageNanoCores", JInt cpu)]);
      ("memory", JObject [("time", JString (rfc3339 now)); ("workingSetBytes", JInt mem)]);
      ("nodeName", JString (firstNodeName sh))]);
    ("pods", JArray podStats)].

(** [src/internal/kubeletshim/stats.go:112-164, handleStatsSummary] *)
Definition handleStatsSummary (sh : Shim) : E W ResponseWriter :=
  r ← try_ listNodePods;
  match r with
  | inl _ => mret (WriteHeader 500 new_writer)
  | inr pods =>
      now ← time_Now;
      '(cpu, mem, podStats) ← summarize now pods (0%Z, 0%Z) [];
      let cpu := Int.int64 (cpu + 150000000) in
      let mem := Int.int64 (mem + 1500 * 1024 * 1024) in
      mret (rw_Write (Marshal (summary_json sh now cpu mem podStats) +:+ nl)
              (Header_Set "Content-Type" "application/json" new_writer))
  end.

(** [src/internal/kubeletshim/stats.go:168-178, handlePodsEndpoint] *)
Definition handlePodsEndpoint : E W ResponseWriter :=
  r ← try_ listNodePods;
  mret match r with
  | inl _ => WriteHeader 500 new_writer
  | inr pods => rw_Write (encode_pods pods +:+ nl) (Header_Set "Content-Type" "application/json" new_writer)
  end.
End Stats.

(** ** The figures *)

#[local] Open Scope Z_scope.

(** The containers of a list of pods, by key. *)
Definition keys (pods : list Pod) : list string :=
  concat ((fun p => container_key p <$> ps_Containers (p_Spec p)) <$> pods).

Definition sum_with (f : string -> Z) (l : list string) : Z := foldr (fun k n => f k + n) 0 l.

(** What a node reports: its own overhead and its containers. *)
Definition node_cpu (pods : list Pod) : Z := 150000000 + sum_with nano_cores (keys pods).
Definition node_mem (pods : list Pod) : Z := 1500 * 1024 * 1024 + sum_with containerMemBytes (keys pods).

Lemma sum_with_app f l l' : sum_with f (l ++ l') = sum_with f l + sum_with f l'.
Proof. induction l as [|x l IH]; [done|]. cbn [sum_with foldr app] in *. unfold sum_with in *. simpl. rewrite IH. lia. Qed.

Lemma sum_with_bounds f lo hi l :
  (forall x, lo <= f x <= hi) -> lo * Z.of_nat (length l) <= sum_with f l <= hi * Z.of_nat (length l).
Proof.
  intros Hf. induction l as [|x l IH]; [simpl; lia|]. specialize (Hf x). unfold sum_with in *. simpl length. simpl foldr. lia.
Qed.

Lemma mem_bounds key : 16777216 <= containerMemBytes key <= 267386880.
Proof.
  unfold containerMemBytes. pose proof (Z.mod_pos_bound (hash32 key) 240 eq_refl).
  rewrite Int.int64_small; lia.
Qed.

(** The fractions of a core a container can be given. *)
Definition nano_of (h : Z) : Z :=
  to_int64 (fmul (fadd (flit 5 1000) (fdiv (f64 h) (f64 1000))) (f64 1000000000)).

Lemma nano_table :
  forallb (fun h => (5000000 <=? nano_of h) && (nano_of h <=? 24000000)) (seqZ 0 20) = true.
Proof. vm_compute. reflexivity. Qed.

Lemma nano_bounds key : 5000000 <= nano_cores key <= 24000000.
Proof.
  change (nano_cores key) with (nano_of (hash32 key mod 20)).
  pose proof (Z.mod_pos_bound (hash32 key) 20 eq_refl) as Hh.
  pose proof (proj1 (forallb_forall _ _) nano_table (hash32 key mod 20)) as Ht. cbv beta in Ht.
  rewrite andb_true_iff, !Z.leb_le in Ht. apply Ht. apply list_elem_of_In, elem_of_seqZ. lia.
Qed.

(** When a pod started, as both endpoints take it: the time in its status,
    else its creation, else the time of the request. *)
Definition starts (p : Pod) (t : Time) : Prop :=
  let unset o := match o with Some t0 => time_is_zero t0 = true | None => True end in
  (pst_StartTime (p_Status p) = Some t /\ time_is_zero t = false) \/
  (unset (pst_StartTime (p_Status p)) /\ om_CreationTimestamp (p_Meta p) = t /\ time_is_zero t = false) \/
  (unset (pst_StartTime (p_Status p)) /\ time_is_zero (om_CreationTimestamp (p_Meta p)) = true).

(** The containers of the pods, each with its pod and the pod's start. *)
Definition entry : Type := Pod * Time * Container.
Definition of_pod (p : Pod) (since : Time) : list entry := (fun c => (p, since, c)) <$> ps_Containers (p_Spec p).
Definition entries (pods : list Pod) (sinces : list Time) : list entry := concat (zip_with of_pod pods sinces).

(** The CPU seconds of a container up to [now]. *)
Definition cpu_seconds (now : Time) (e : entry) : float64 :=
  fmul (Seconds (time_Sub now e.1.2)) (containerCPUCores (container_key e.1.1 e.2)).

(** Lines of text. *)
Definition text (ls : list string) : string := foldr (fun l r => l +:+ nl +:+ r)%string "" ls.

Lemma text_app ls ls' : text (ls ++ ls')%list = (text ls +:+ text ls')%string.
Proof. induction ls as [|l ls IH]; simpl; [done|]. by rewrite IH, !sapp_assoc. Qed.

Section Facts.
Context (is_print : Z -> bool) (rfc3339 : Time -> string).
Context {W : Type} `{HostLaws W} (k : Clientset W).
#[local] Open Scope list_scope.

(** The line of a metric of a container: its labels, the value, the time in
    milliseconds. *)
Definition metric (name : string) (e : entry) (value : string) (now : Time) : string :=
  name +:+ "{container=" +:+ Quote is_print (c_Name e.2) +:+ ",namespace=" +:+ Quote is_print (p_Namespace e.1.1)
  +:+ ",pod=" +:+ Quote is_print (p_Name e.1.1) +:+ "} " +:+ value +:+ " " +:+ Itoa (UnixMilli now).

(** The body of /metrics/resource. *)
Definition metrics_text (now : Time) (es : list entry) (memory : Z) : string := text
  (["# TYPE container_cpu_usage_seconds_total counter"]
   ++ ((fun e => metric "container_cpu_usage_seconds_total" e (format6 (cpu_seconds now e)) now) <$> es)
   ++ ["# TYPE container_memory_working_set_bytes gauge"]
   ++ ((fun e => metric "container_memory_working_set_bytes" e
                   (Itoa (containerMemBytes (container_key e.1.1 e.2))) now) <$> es)
   ++ ["# TYPE node_cpu_usage_seconds_total counter";
       "node_cpu_usage_seconds_total "
         +:+ format6 (fadd (foldl (fun x e => fadd x (cpu_seconds now e)) (f64 0) es) (flit 15 100))
         +:+ " " +:+ Itoa (UnixMilli now);
       "# TYPE node_memory_working_set_bytes gauge";
       "node_memory_working_set_bytes " +:+ Itoa memory +:+ " " +:+ Itoa (UnixMilli now)]).

(** The entry of a container, and that of a pod, in /stats/summary. *)
Definition container_entry (now since : Time) (p : Pod) (c : Container) : json :=
  let key := p_Namespace p +:+ "/" +:+ p_Name p +:+ "/" +:+ c_Name c in
  JObject [("cpu", JObject [("time", JString (rfc3339 now));
      ("usageCoreNanoSeconds", JInt (to_int64 (fmul (cpu_seconds now (p, since, c)) (f64 1000000000))));
      ("usageNanoCores", JInt (nano_cores key))]);
    ("memory", JObject [("time", JString (rfc3339 now)); ("workingSetBytes", JInt (containerMemBytes key))]);
    ("name", JString (c_Name c))].

Definition pod_entry (now : Time) (p : Pod) (since : Time) : json :=
  JObject [("containers", JArray (container_entry now since p <$> ps_Containers (p_Spec p)));
    ("podRef", JObject [("name", JString (p_Name p)); ("namespace", JString (p_Namespace p));
                        ("uid", JString (om_UID (p_Meta p)))]);
    ("startTime", JString (rfc3339 since))].

(** The body of /stats/summary. *)
Definition summary_text (sh : Shim) (now : Time) (pods : list Pod) (sinces : list Time) (cpu memory : Z) : string :=
  Marshal (JObject [("node", JObject [
      ("cpu", JObject [("time", JString (rfc3339 now)); ("usageNanoCores", JInt cpu)]);
      ("memory", JObject [("time", JString (rfc3339 now)); ("workingSetBytes", JInt memory)]);
      ("nodeName", JString (from_option fn_Name "" (head (seed.s_FakeNodes (sh_Seed sh)))))]);
    ("pods", JArray (zip_with (pod_entry now) pods sinces))]) +:+ nl.

Lemma start_total p w : exists t w', podStartOrNow (W := W) p w = (inr t, w') /\ starts p t.
Proof.
  unfold podStartOrNow, starts. destruct (now_ok w) as (t & w' & Hn & _). simpl.
  destruct (pst_StartTime (p_Status p)) as [t0|]; [destruct (time_is_zero t0) eqn:E0|];
    try (destruct (time_is_zero (om_CreationTimestamp (p_Meta p))) eqn:E1); simpl; eauto 10.
Qed.

Lemma fold_usage p cs a b :
  foldl (add_usage p) (Int.int64 a, Int.int64 b) cs =
  (Int.int64 (a + sum_with nano_cores (container_key p <$> cs)),
   Int.int64 (b + sum_with containerMemBytes (container_key p <$> cs))).
Proof.
  revert a b. induction cs as [|c cs IH]; intros a b; simpl.
  - by rewrite !Z.add_0_r.
  - unfold add_usage at 2. simpl fst. simpl snd. autorewrite with go_rw. rewrite IH. by rewrite !Z.add_assoc.
Qed.

Lemma summarize_spec now pods a b acc w :
  exists sinces w', summarize rfc3339 now pods (Int.int64 a, Int.int64 b) acc w =
    (inr (Int.int64 (a + sum_with nano_cores (keys pods)),
          Int.int64 (b + sum_with containerMemBytes (keys pods)), 
          acc ++ zip_with (pod_entry now) pods sinces), w') /\
    Forall2 starts pods sinces.
Proof.
  revert a b acc w. induction pods as [|p pods IH]; intros a b acc w.
  { exists [], w. simpl. rewrite !Z.add_0_r, app_nil_r. by split; [|constructor]. }
  cbn [summarize]. unfold mbind, E_bind. destruct (start_total p w) as (t & w1 & -> & Hst). rewrite fold_usage.
  set (cs := container_key p <$> ps_Containers (p_Spec p)).
  destruct (IH (a + sum_with nano_cores cs) (b + sum_with containerMemBytes cs)
    (acc ++ [pod_stats rfc3339 now t p]) w1) as (stats & w2 & Hs & Hlen).
  exists (t :: stats), w2. rewrite Hs. split; [|by constructor].
  rewrite <- (assoc_L (++)). unfold keys. simpl. fold (keys pods) cs.
  by rewrite !sum_with_app, !Z.add_assoc.
Qed.

(** What the loops over the containers accumulate. *)
Definition accumulated (now : Time) (u : usage) (es : list entry) (u' : usage) : Prop :=
  u_cpu u' = foldl (fun x e => fadd x (cpu_seconds now e)) (u_cpu u) es /\
  u_cpuLines u' = u_cpuLines u +:+ text ((fun e =>
    metric "container_cpu_usage_seconds_total" e (format6 (cpu_seconds now e)) now) <$> es) /\
  u_memLines u' = u_memLines u +:+ text ((fun e =>
    metric "container_memory_working_set_bytes" e (Itoa (containerMemBytes (container_key e.1.1 e.2))) now) <$> es) /\
  forall m, u_mem u = Int.int64 m ->
    u_mem u' = Int.int64 (m + sum_with containerMemBytes ((fun e => container_key e.1.1 e.2) <$> es)).

Lemma accumulated_nil now u : accumulated now u [] u.
Proof. split_and!; simpl; [done|by rewrite sapp_nil_r..|]. intros m ->. by rewrite Z.add_0_r. Qed.

Lemma accumulated_app now u es u1 es' u2 :
  accumulated now u es u1 -> accumulated now u1 es' u2 -> accumulated now u (es ++ es') u2.
Proof.
  intros (Hc & Hl & Hm & Hn) (Hc2 & Hl2 & Hm2 & Hn2). split_and!.
  - by rewrite foldl_app, <- Hc.
  - by rewrite fmap_app, text_app, <- sapp_assoc, <- Hl.
  - by rewrite fmap_app, text_app, <- sapp_assoc, <- Hm.
  - intros m Hu. by rewrite (Hn2 _ (Hn m Hu)), fmap_app, sum_with_app, Z.add_assoc.
Qed.

Lemma accumulated_one now since p u c :
  accumulated now u [(p, since, c)] (add_container is_print now since p u c).
Proof.
  split_and!; simpl; [done| | |].
  - unfold labels, metric. by rewrite sapp_nil_r, ?sapp_assoc.
  - unfold labels, metric. by rewrite sapp_nil_r, ?sapp_assoc.
  - intros m ->. unfold sum_with. simpl. rewrite Z.add_0_r. by autorewrite with go_rw.
Qed.

Lemma accumulated_pod now since p u :
  accumulated now u (of_pod p since) (foldl (add_container is_print now since p) u (ps_Containers (p_Spec p))).
Proof.
  unfold of_pod. revert u. induction (ps_Containers (p_Spec p)) as [|c cs IH]; intros u; [apply accumulated_nil|].
  exact (accumulated_app now u [(p, since, c)] _ _ _ (accumulated_one now since p u c) (IH _)).
Qed.

Lemma add_pods_spec now pods u w :
  exists sinces u' w', add_pods is_print now pods u w = (inr u', w') /\
    Forall2 starts pods sinces /\ accumulated now u (entries pods sinces) u'.
Proof.
  revert u w. induction pods as [|p pods IH]; intros u w.
  { exists [], u, w. split_and!; [done|constructor|apply accumulated_nil]. }
  cbn [add_pods]. unfold mbind, E_bind. destruct (start_total p w) as (t & w1 & -> & Hst).
  destruct (IH (foldl (add_container is_print now t p) u (ps_Containers (p_Spec p))) w1)
    as (sinces & u' & w2 & Hrun & Hss & Hacc).
  exists (t :: sinces), u', w2. split_and!; [done|by constructor|].
  exact (accumulated_app now u (of_pod p t) _ _ _ (accumulated_pod now t p u) Hacc).
Qed.

Lemma entries_keys pods sinces :
  length pods = length sinces -> (fun e => container_key e.1.1 e.2) <$> entries pods sinces = keys pods.
Proof.
  revert sinces. induction pods as [|p pods IH]; intros [|t sinces]; try done. intros [= Hl].
  unfold entries, keys in *. simpl. rewrite fmap_app, IH by done. f_equal.
  unfold of_pod. by rewrite <- list_fmap_compose.
Qed.

(** With at most this many containers the sums of the node do not overflow. *)
Lemma node_bounds pods :
  Z.of_nat (length (keys pods)) <= 2 ^ 24 ->
  Int.int64 (node_cpu pods) = node_cpu pods /\ Int.int64 (node_mem pods) = node_mem pods.
Proof.
  intros Hn. pose proof (sum_with_bounds nano_cores _ _ (keys pods) nano_bounds).
  pose proof (sum_with_bounds containerMemBytes _ _ (keys pods) mem_bounds).
  unfold node_cpu, node_mem. rewrite !Int.int64_small; lia.
Qed.

(** C25: the two stats endpoints tell one story, of the pods bound to a node,
    however many (up to sixteen million containers). The summary has an entry
    for each of these pods, with its name, namespace, uid and start and one
    entry for each of its containers; the metrics have a CPU and a memory
    line for each of these containers. Both bodies are given in full: a
    container has the same memory in both, and CPU figures that are its cores
    times the time since its pod's start; both report the same memory for the node, its overhead and exactly the sum of its containers'
    figures, without overflow, and the summary's CPU figure is the overhead
    and the sum of the containers' cores. A container's figures lie between 5
    and 24 thousandths of a core and between 16 and 255 MiB. *)
Theorem stats_consistent sh all w w1 :
  List_ (typed (k_pods k)) everything w = (inr all, w1) ->
  let pods := filterb (fun p => ps_NodeName (p_Spec p) !=? "") all in
  Z.of_nat (length (keys pods)) <= 2 ^ 24 ->
  (exists now sinces rw w2, handleStatsSummary rfc3339 k sh w = (inr rw, w2) /\ reply_code rw = 200 /\
     Forall2 starts pods sinces /\
     rw_Body rw = summary_text sh now pods sinces (node_cpu pods) (node_mem pods)) /\
  (exists now sinces rw w2, handleResourceMetrics is_print k w = (inr rw, w2) /\ reply_code rw = 200 /\
     Forall2 starts pods sinces /\
     rw_Body rw = metrics_text now (entries pods sinces) (node_mem pods)) /\
  (forall key, 5000000 <= nano_cores key <= 24000000) /\
  (forall key, 16 * 2 ^ 20 <= containerMemBytes key <= 255 * 2 ^ 20).
Proof.
  intros Hlist pods Hn. destruct (node_bounds pods Hn) as [Hcpu Hmem].
  assert (Hpods : listNodePods k w = (inr pods, w1)) by (unfold listNodePods, mbind, E_bind; by rewrite Hlist).
  destruct (now_ok w1) as (now & w2 & Hnow & _).
  split_and!; [| |apply nano_bounds|apply mem_bounds].
  - unfold handleStatsSummary. unfold mbind at 1, E_bind at 1, try_. rewrite Hpods. cbn beta iota.
    unfold mbind, E_bind. rewrite Hnow.
    destruct (summarize_spec now pods 0 0 [] w2) as (sinces & w3 & Hs & Hst).
    change (Int.int64 0) with 0 in Hs. rewrite Hs. exists now, sinces. eexists _, w3.
    split; [reflexivity|]. split; [reflexivity|]. split; [done|].
    autorewrite with go_rw. unfold node_cpu, node_mem in *.
    rewrite !(Z.add_comm (0 + _)), !Z.add_0_l. by rewrite Hcpu, Hmem.
  - unfold handleResourceMetrics. unfold mbind at 1, E_bind at 1, try_. rewrite Hpods. cbn beta iota.
    unfold mbind, E_bind. rewrite Hnow.
    match goal with |- context [add_pods is_print now pods ?u w2] =>
      destruct (add_pods_spec now pods u w2) as (sinces & u' & w3 & Hs & Hst & Hc & Hcl & Hml & Hm) end.
    rewrite Hs. exists now, sinces. eexists _, w3.
    split; [reflexivity|]. split; [reflexivity|]. split; [done|].
    specialize (Hm 0 eq_refl). rewrite entries_keys in Hm by (by eapply Forall2_length).
    cbn [rw_Body rw_Write WriteHeader Header_Set new_writer rw_Wrote rw_Header].
    rewrite sapp_nil_l, Hm, Hc, Hcl, Hml. unfold metrics_text. rewrite !text_app. simpl.
    autorewrite with go_rw. rewrite (Z.add_comm (0 + _)), Z.add_0_l. fold (node_mem pods).
    rewrite Hmem, !sapp_assoc, ?sapp_nil_r. reflexivity.
Qed.
End Facts.

Module StatsDemo.

Definition pod_of (name node : string) : Pod :=
  {| p_Meta := object_meta name "default" ∅;
     p_Spec := {| ps_InitContainers := []; ps_Containers := [container "main" "nginx"]; ps_Volumes := [];
       ps_NodeName := node; ps_HostNetwork := false; ps_Hostname := ""; ps_RuntimeClassName := None;
       ps_TerminationGracePeriodSeconds := None; ps_DNSPolicy := ""; ps_DNSConfig := None;
       ps_AutomountServiceAccountToken := None; ps_EnableServiceLinks := None |};
     p_Status := no_pod_status |}.

(** Two pods, of which one is bound to a node. *)
Definition all : list Pod := [pod_of "web" "n1"; pod_of "pending" ""].

Definition clients : Clientset Script.script := pods_only {|
  typed := {| Get _ := throw (Errorf "refused"); List_ _ := mret all; Create _ := throw (Errorf "refused");
    Update _ := throw (Errorf "refused"); StatusUpdate _ := throw (Errorf "refused");
    Delete _ := throw (Errorf "refused") |};
  DeleteNamed _ _ := throw (Errorf "refused"); DeleteCollection _ := throw (Errorf "refused") |}.

Definition shim0 : Shim :=
  {| sh_Seed := {| seed.s_FakeNodes := []; seed.s_FakePods := []; seed.s_FakeSecrets := [];
       seed.s_Controllers := []; seed.s_CRDs := []; seed.s_Services := []; seed.s_ConfigMaps := [] |};
     sh_logLines := ∅; sh_installedCRDs := ∅; sh_objectUIDs := ∅; sh_seededPrev := ∅; sh_seededCur := None |}.

(** The pod without a node is not in the figures. *)
Lemma stats_consistent_witness :
  exists rw w2 now sinces, handleStatsSummary (fun _ => "t") clients shim0 (Script.start []) = (inr rw, w2) /\
    reply_code rw = 200 /\ length sinces = 1%nat /\
    rw_Body rw = summary_text (fun _ => "t") shim0 now [pod_of "web" "n1"] sinces
      (node_cpu [pod_of "web" "n1"]) (node_mem [pod_of "web" "n1"]).
Proof.
  destruct (stats_consistent (fun _ => true) (fun _ => "t") clients shim0 all (Script.start []) (Script.start [])
    eq_refl) as [(now & sinces & rw & w2 & Hrun & Hcode & Hst & Hbody) _].
  - simpl. lia.
  - exists rw, w2, now, sinces. split; [exact Hrun|]. split; [exact Hcode|]. split; [|exact Hbody].
    symmetry. exact (Forall2_length _ _ _ Hst).
Defined.
End StatsDemo.
