(* ===== verification/KubeletServer.v ===== *)
(** * internal/kubeletshim/kubeletserver.go: the kubelet's HTTP endpoints

    The routing table of the server the inner API server proxies exec,
    attach, logs and stats to, and the handler each route leads to. A path is
    the list of its decoded segments, as [http.ServeMux] matches them. *)

From S2P Require Import Prelude GoStrings KubeTypes Kube Server Host.
From S2P Require Import ApiTypes ShimTypes Fs Http Exec ExecFacts Stats ExecDemo.
#[local] Open Scope string_scope.
#[local] Open Scope list_scope.

Inductive endpoint :=
  | ContainerLogs (ns pod container : string)
  | Exec_ (ns pod container : string)
  | Attach (ns pod container : string)
  | PortForward (ns pod : string)
  | StatsSummary | ResourceMetrics | Pods | Healthz.

(** A pattern of method GET also matches HEAD. *)
Definition is_get (method : string) : bool := bool_decide (method ∈ ["GET"; "HEAD"]).
Definition get_or_post (method : string) : bool := bool_decide (method ∈ ["GET"; "HEAD"; "POST"]).

(** The table; [None] is the server's own 404 or 405.
    [src/internal/kubeletshim/kubeletserver.go:33-50, NewServer] *)
Definition route (method : string) (path : list string) : option endpoint :=
  match path with
  | [a] =>
      if (a ==? "pods") && is_get method then Some Pods
      else if (a ==? "healthz") && is_get method then Some Healthz else None
  | [a; b] =>
      if (a ==? "stats") && (b ==? "summary") && get_or_post method then Some StatsSummary
      else if (a ==? "metrics") && (b ==? "resource") && is_get method then Some ResourceMetrics else None
  | [a; ns; pod] =>
      if (a ==? "portForward") && get_or_post method then Some (PortForward ns pod) else None
  | [a; ns; pod; container] =>
      if (a ==? "containerLogs") && is_get method then Some (ContainerLogs ns pod container)
      else if (a ==? "exec") && get_or_post method then Some (Exec_ ns pod container)
      else if (a ==? "attach") && get_or_post method then Some (Attach ns pod container) else None
  | _ => None
  end.

Section Serve.
Context (is_print : Z -> bool) (duration : Time -> Time -> string) (rfc3339 : Time -> string)
        (encode : Status -> string) (encode_pods : list Pod -> string) (cfg : Config).
Context {W S : Type} `{Host W, FS W, Procs W S} (k : Clientset W).
Context (handshake : E W unit) (upgrade : E W (option (list (string * S)))).

(** The handler of an endpoint; [query] is the parsed query string.
    [src/internal/kubeletshim/exec.go:81-87, handleExec] *)
Definition serve (sh : Shim) (query : string -> list string) (e : endpoint) : E W outcome :=
  let stream ns pod container mode :=
    handleStream is_print duration encode cfg k handshake upgrade sh
      {| sr_ns := ns; sr_pod := pod; sr_container := container; sr_query := query |} mode in
  let reply (c : E W ResponseWriter) := w ← c; mret (Replied w) in
  match e with
  | Exec_ ns pod container => stream ns pod container "exec"
  | Attach ns pod container => stream ns pod container "attach"
  | ContainerLogs ns pod _ => reply (handleLogs is_print encode k sh ns pod)
  | PortForward _ _ => reply (mret (handlePortForward encode))
  | StatsSummary => reply (handleStatsSummary rfc3339 k sh)
  | ResourceMetrics => reply (handleResourceMetrics is_print k)
  | Pods => reply (handlePodsEndpoint encode_pods k)
  | Healthz => reply (mret (WriteHeader 200 new_writer))
  end.
End Serve.

(** Only the two streaming routes can reach a process, with the names the
    path gives them. *)
Lemma route_exec method path ns pod container :
  route method path = Some (Exec_ ns pod container) <->
  path = ["exec"; ns; pod; container] /\ method ∈ ["GET"; "HEAD"; "POST"].
Proof.
  unfold route, is_get, get_or_post. split.
  - destruct path as [|a [|b [|c [|d [|]]]]]; try done; repeat case_bool_decide; simpl; naive_solver.
  - intros [-> Hm]. simpl. by rewrite bool_decide_eq_true_2.
Qed.

Section Processes.
Context (is_print : Z -> bool) (duration : Time -> Time -> string) (rfc3339 : Time -> string)
        (encode : Status -> string) (encode_pods : list Pod -> string) (cfg : Config).
Context {W S : Type} `{HostLaws W} `{!FS W, !Procs W S, !ProcLaws W S} (k : Clientset W).
Context (handshake : E W unit) (upgrade : E W (option (list (string * S)))).
Context (get_quiet : forall key, quiet (Get (typed (k_pods k)) key))
        (list_keeps : keeps started (List_ (typed (k_pods k)) everything))
        (handshake_quiet : quiet handshake) (upgrade_quiet : quiet upgrade).

Lemma get_keeps key : keeps started (Get (typed (k_pods k)) key).
Proof. intros w. apply get_quiet. Qed.

Lemma now_keeps_started : keeps started (time_Now : E W Time).
Proof. apply host_started. Qed.
#[local] Hint Resolve list_keeps get_keeps now_keeps_started : keeps.

Lemma start_keeps p : keeps started (podStartOrNow (W := W) p).
Proof. unfold podStartOrNow. repeat case_match; keep. Qed.
#[local] Hint Resolve start_keeps : keeps.

(** The stats endpoints start nothing. *)
Lemma list_pods_keeps : keeps started (listNodePods k).
Proof. unfold listNodePods. keep. Qed.
#[local] Hint Resolve list_pods_keeps : keeps.

Lemma metrics_keeps : keeps started (handleResourceMetrics is_print k).
Proof.
  assert (Ha : forall now pods u, keeps started (add_pods (W := W) is_print now pods u)).
  { intros now pods. induction pods as [|p pods IH]; intros u; simpl; keep. }
  unfold handleResourceMetrics. keep.
Qed.

Lemma summary_keeps sh : keeps started (handleStatsSummary rfc3339 k sh).
Proof.
  assert (Ha : forall now pods u acc, keeps started (summarize (W := W) rfc3339 now pods u acc)).
  { intros now pods. induction pods as [|p pods IH]; intros u acc; simpl; keep. }
  unfold handleStatsSummary. keep.
Qed.

Lemma pods_keeps : keeps started (handlePodsEndpoint encode_pods k).
Proof. unfold handlePodsEndpoint. keep. Qed.

Lemma logs_keeps sh ns pod : keeps started (handleLogs is_print encode k sh ns pod).
Proof. unfold handleLogs. keep. Qed.
#[local] Hint Resolve metrics_keeps summary_keeps pods_keeps logs_keeps : keeps.

(** [handle_effect] for this server. *)
Lemma stream_effect sh r mode w res w' :
  handleStream is_print duration encode cfg k handshake upgrade sh r mode w = (res, w') ->
  exists cs ds ls, started w' = started w ++ cs /\ out w' = out w ++ ds /\ logged w' = logged w ++ ls /\
    request_effect is_print encode cfg k r mode w cs ds ls.
Proof. by apply handle_effect. Qed.

End Processes.

