(* ===== verification/Process.v ===== *)
(** * The kubelet-shim process: its flags, its title, its start

    internal/kubeletshim/proctitle.go and cmd/kubelet-shim/main.go. The
    arguments of a process lie one after the other in one block of memory,
    each with its NUL, and are what /proc/self/cmdline shows; a string flag's
    value is a part of that block until it is copied. *)

From Stdlib Require Import Ascii.
From S2P Require Import Prelude GoStrings Duration Flag KubeTypes Kube Server Host.
From S2P Require Import ApiTypes ShimTypes Fs SaLayout.
#[local] Open Scope string_scope.
#[local] Open Scope list_scope.

(** ** The title *)

(** Zero the buffer, then copy what fits of the title into it.
    [src/internal/kubeletshim/proctitle.go:7-12, writeTitle] *)
Definition writeTitle (buf : list ascii) (title : string) : list ascii :=
  let zeroed := replicate (length buf) NUL in
  let t := take (length buf) (chars title) in
  t ++ drop (length t) zeroed.

(** [src/internal/kubeletshim/proctitle.go:20-20, procTitle] *)
Definition procTitle := "/pause".

(** The part of the title after its last slash.
    [src/internal/kubeletshim/proctitle_linux.go:34-43, MaskProcessTitle] *)
Fixpoint after_last_slash (s : string) : option string :=
  match s with
  | "" => None
  | String a s' =>
      match after_last_slash s' with
      | Some t => Some t
      | None => if bool_decide (a = "/"%char) then Some s' else None
      end
  end.

Definition comm_of (title : string) : string :=
  String.substring 0 15 (default title (after_last_slash title)).

(** The block and the process name after masking.
    [src/internal/kubeletshim/proctitle_linux.go:22-45, MaskProcessTitle] *)
Definition MaskProcessTitle (args : list string) (block : list ascii) (comm : string) : list ascii * string :=
  if args ==? [] then (block, comm)
  else
    let total := foldr (fun a n => String.length a + 1 + n) 0 args in
    (writeTitle (take total block) procTitle ++ drop total block, comm_of procTitle).

(** ** The flags *)

Definition string_flag (default : string) : value := StringVal (OnHeap default).

(** [src/cmd/kubelet-shim/main.go:42-60, main] *)
Definition shim_flags : gmap string value := list_to_map
  [("apiserver", string_flag "https://127.0.0.1:8443");
   ("ca-file", string_flag "/etc/kubernetes/pki/ca.crt");
   ("token-file", string_flag "/etc/kubernetes/pki/token");
   ("client-token-file", string_flag "");
   ("seed", string_flag "/etc/kubernetes/seed.json");
   ("node-internal-ip", string_flag "");
   ("kubelet-port", IntVal 10250);
   ("kubernetes-service-port", IntVal 6443);
   ("exec-profile", string_flag "shell");
   ("exec-isolation", BoolVal false);
   ("listen", string_flag ":10250");
   ("tls-cert-file", string_flag "/etc/kubernetes/pki/tls.crt");
   ("tls-key-file", string_flag "/etc/kubernetes/pki/tls.key");
   ("heartbeat-interval", DurationVal (20 * Second));
   ("sa-dir", string_flag "/var/run/secrets/kubernetes.io/serviceaccount");
   ("namespace", string_flag "");
   ("kubernetes-version", string_flag "v1.35.0");
   ("record-exec-sessions", BoolVal true);
   ("write-sa-layout", BoolVal false)].

(** [flag.VisitAll] with [f.Value.Set(strings.Clone(f.Value.String()))], the
    error dropped.
    [src/cmd/kubelet-shim/main.go:96-98, main] *)
Definition clone_flags (block : list ascii) (formal : gmap string value) : gmap string value :=
  (fun v => default v (Set_ block v (Clone block (OnHeap (String_ block v))))) <$> formal.

(** The flags and the memory once the process has masked itself.
    [src/cmd/kubelet-shim/main.go:96-104, main] *)
Definition mask_startup (args : list string) (formal : gmap string value) (comm : string)
    : gmap string value * (list ascii * string) :=
  let block := argv_block args in
  let formal := clone_flags block formal in
  (formal, MaskProcessTitle args block comm).

Lemma length_argv args :
  foldr (fun a n => String.length a + 1 + n) 0 args = length (argv_block args).
Proof.
  unfold argv_block. induction args as [|a args IH]; [done|].
  rewrite fmap_cons. cbn [foldr concat]. rewrite IH, !length_app, length_chars. simpl. lia.
Qed.

Lemma writeTitle_spec buf title :
  writeTitle buf title = take (length buf) (chars title)
    ++ replicate (length buf - String.length title) NUL.
Proof.
  unfold writeTitle. rewrite drop_replicate, length_take, length_chars. f_equal. f_equal. lia.
Qed.

(** Copying the flags one by one, through their text, copies them. *)
Lemma clone_own block formal :
  map_Forall (fun _ v => value_wf v) formal -> clone_flags block formal = own block <$> formal.
Proof.
  intros Hwf. apply map_eq. intros name. unfold clone_flags. rewrite !lookup_fmap.
  destruct (formal !! name) as [v|] eqn:E; [|done]. cbn [fmap option_fmap option_map]. f_equal.
  rewrite Set_String by (by apply (Hwf name)). by destruct v.
Qed.

Lemma shim_flags_wf : map_Forall (fun _ v => value_wf v) shim_flags.
Proof.
  apply (bool_decide_eq_true_1 _). vm_compute. reflexivity.
Qed.

(** C26: nothing of the shim's command line can be read back from inside an
    exec session, and the shim itself loses nothing of it. Whatever arguments
    the flags were parsed from, after the start /proc/1/cmdline is "/pause"
    followed by zeros (cut short if the arguments were shorter) and the
    process name is "pause"; and every flag, of every type, still reads as
    the value parsed, whatever the memory it lay in holds by then: setting a
    flag to its own text is the identity also for the numbers and the
    durations. *)
Theorem masked_startup args comm formal rest :
  args <> [] ->
  let block := argv_block args in
  Parse block shim_flags (drop 1 (argv args)) = Parsed formal rest ->
  let '(formal', (block', comm')) := mask_startup args formal comm in
  block' = take (length block) (chars "/pause") ++ replicate (length block - 6) NUL /\
  comm' = "pause" /\
  forall memory name,
    flag_string formal' memory name = flag_string formal block name /\
    flag_bool formal' name = flag_bool formal name /\
    flag_int formal' name = flag_int formal name /\
    flag_duration formal' name = flag_duration formal name.
Proof.
  intros Hargs block Hparse. unfold mask_startup, MaskProcessTitle. rewrite bool_decide_eq_false_2 by done.
  rewrite length_argv. fold block. rewrite take_ge, drop_ge, app_nil_r by lia.
  apply Parse_wf in Hparse as [Hwf _]; [|apply shim_flags_wf]. rewrite clone_own by done. split_and!.
  - apply writeTitle_spec.
  - reflexivity.
  - intros memory name. by rewrite flag_string_own, flag_bool_own, flag_int_own, flag_duration_own.
Qed.

(** A flag that is not copied does not survive. *)
Module TitleDemo.

Definition args : list string :=
  ["/kubelet-shim"; "--seed=/etc/seed.json"; "--kubelet-port=0x280a"; "-heartbeat-interval"; "1m30s"].

Definition parsed_flags : gmap string value :=
  match Parse (argv_block args) shim_flags (drop 1 (argv args)) with Parsed f _ => f | _ => shim_flags end.

Lemma masked_startup_witness :
  flag_string parsed_flags (argv_block args) "seed" = "/etc/seed.json" /\
  let '(formal', (block', comm')) := mask_startup args parsed_flags "app" in
  comm' = "pause" /\ flag_string formal' block' "seed" = "/etc/seed.json" /\
  flag_int formal' "kubelet-port" = 10250%Z /\ flag_duration formal' "heartbeat-interval" = (90 * Second)%Z /\
  flag_string parsed_flags block' "seed" <> "/etc/seed.json".
Proof.
  split; [vm_compute; reflexivity|].
  assert (Hparse : Parse (argv_block args) shim_flags (drop 1 (argv args)) = Parsed parsed_flags [])
    by (vm_compute; reflexivity).
  pose proof (masked_startup args "app" parsed_flags [] ltac:(discriminate) Hparse) as Hm. cbv zeta in Hm.
  assert (Hblock : (mask_startup args parsed_flags "app").2.1 =
    take (length (argv_block args)) (chars "/pause") ++ replicate (length (argv_block args) - 6) NUL)
    by (vm_compute; reflexivity).
  destruct (mask_startup args parsed_flags "app") as [formal' [block' comm']]. simpl in Hblock.
  destruct Hm as (_ & -> & Hf). split; [reflexivity|].
  destruct (Hf block' "seed") as (-> & _). destruct (Hf [] "kubelet-port") as (_ & _ & -> & _).
  destruct (Hf [] "heartbeat-interval") as (_ & _ & _ & ->).
  split; [vm_compute; reflexivity|]. split; [vm_compute; reflexivity|]. split; [vm_compute; reflexivity|].
  rewrite Hblock. vm_compute. discriminate.
Defined.
End TitleDemo.

(** ** The start of the shim *)

Section Start.
Context (stamp : Time -> string) (range_write range_link : gmap string string -> list (string * string)).
Context {W : Type} `{Host W, FS W} (k : Clientset W).

(** The init container: write the ServiceAccount layout and exit. An error is
    fatal.
    [src/cmd/kubelet-shim/main.go:67-87, main] *)
Definition write_sa_layout (tokenFile saDir : path) (caFile : option path) (namespace : string) : E W unit :=
  tok ← wrap_err "loading decoy token" (os_ReadFile tokenFile);
  let files : gmap string string := {[ "token" := TrimSpace tok; "namespace" := namespace ]} in
  files ← (match caFile with
           | Some p => ca ← wrap_err "loading ca" (os_ReadFile p); mret (<["ca.crt" := ca]> files)
           | None => mret files
           end);
  wrap_err "writing serviceaccount layout"
    (WriteServiceAccountLayout stamp range_write range_link saDir files).

(** The decoy token that sessions read, and the one the shim uses itself.
    [src/cmd/kubelet-shim/main.go:111-127, main] *)
Definition load_tokens (tokenFile : path) (clientTokenFile : option path) : E W (string * string) :=
  tok ← wrap_err "loading decoy token" (os_ReadFile tokenFile);
  let token := TrimSpace tok in
  clientToken ← (match clientTokenFile with
                 | Some p => b ← wrap_err "loading client token" (os_ReadFile p); mret (TrimSpace b)
                 | None => mret token
                 end);
  mret (token, clientToken).

(** The clients are built elsewhere; a directory of [None] is the empty flag.
    [src/internal/kubeletshim/kubeletshim.go:228-243, New] *)
Definition New (cfg : Config) (s : seed.Seed) (client crdClient : error + unit) (sa_dir : option path)
    (ca_path : option path) : E W Shim :=
  _ ← wrap_err "building inner apiserver client" (lift client);
  _ ← wrap_err "building inner apiserver CRD client" (lift crdClient);
  _ ← (match sa_dir with
       | Some dir => wrap_err "writing serviceaccount files"
                       (writeServiceAccountFiles stamp range_write range_link cfg dir ca_path)
       | None => mret tt
       end);
  mret {| sh_Seed := s; sh_logLines := ∅; sh_installedCRDs := ∅; sh_objectUIDs := ∅;
          sh_seededPrev := ∅; sh_seededCur := None |}.

(** [src/internal/kubeletshim/kubeletshim.go:347-350, APIServerReachable] *)
Definition APIServerReachable : E W bool :=
  r ← try_ (List_ (typed (k_namespaces k)) everything);
  mret (if r is inr _ then true else false).

(** What the select of the loop below can wake up for. *)
Inductive wake := Cancelled | Deadline | Tick.
Inductive wait_result := Ready | WaitFailed (cause : string) | Waiting.

(** [src/cmd/kubelet-shim/main.go:209-225, waitForAPIServer] *)
Fixpoint waitForAPIServer (wakes : list wake) : E W wait_result :=
  ok ← APIServerReachable;
  if ok : bool then mret Ready
  else match wakes with
       | Cancelled :: _ => mret (WaitFailed "context canceled")
       | Deadline :: _ => mret (WaitFailed "context deadline exceeded")
       | Tick :: wakes' => waitForAPIServer wakes'
       | [] => mret Waiting
       end.
End Start.
