(* ===== verification/Deploy.v ===== *)
(** * internal/controller/render.go: the inner control plane's objects

    [buildDeployment] with each of its containers and volumes, the security
    contexts, the Service and the NetworkPolicy. *)

From S2P Require Import Prelude GoStrings KubeTypes ApiTypes Kube Names Host AuditWebhook Join.
#[local] Open Scope string_scope.
#[local] Open Scope list_scope.

(** ** Security contexts *)

(** [src/internal/controller/render.go:1359-1370, hardenedSecurityContext] *)
Definition hardenedSecurityContext : SecurityContext :=
  {| sc_RunAsNonRoot := Some true; sc_RunAsUser := Some 65532%Z;
     sc_AllowPrivilegeEscalation := Some false;
     sc_Capabilities := Some {| cap_Drop := ["ALL"]; cap_Add := [] |};
     sc_SeccompProfile := Some "RuntimeDefault" |}.

(** [src/internal/controller/render.go:1372-1396, kubeAPIServerSecurityContext] *)
Definition kubeAPIServerSecurityContext : SecurityContext :=
  {| sc_RunAsNonRoot := Some true; sc_RunAsUser := Some 65532%Z;
     sc_AllowPrivilegeEscalation := Some false; sc_Capabilities := None;
     sc_SeccompProfile := Some "RuntimeDefault" |}.

(** [src/internal/controller/render.go:1398-1441, execSandboxSecurityContext] *)
Definition execSandboxSecurityContext (execIsolation : bool) : SecurityContext :=
  if execIsolation then
    {| sc_RunAsNonRoot := Some false; sc_RunAsUser := Some 0%Z;
       sc_AllowPrivilegeEscalation := Some true;
       sc_Capabilities := Some {| cap_Drop := ["ALL"]; cap_Add := ["SYS_ADMIN"] |};
       sc_SeccompProfile := Some "Unconfined" |}
  else
    {| sc_RunAsNonRoot := Some true; sc_RunAsUser := None;
       sc_AllowPrivilegeEscalation := Some false;
       sc_Capabilities := Some {| cap_Drop := ["ALL"]; cap_Add := [] |};
       sc_SeccompProfile := Some "RuntimeDefault" |}.

(** [src/internal/controller/render.go:1443-1458, saSetupSecurityContext] *)
Definition saSetupSecurityContext : SecurityContext :=
  {| sc_RunAsNonRoot := None; sc_RunAsUser := Some 0%Z;
     sc_AllowPrivilegeEscalation := Some false;
     sc_Capabilities := Some {| cap_Drop := ["ALL"]; cap_Add := [] |};
     sc_SeccompProfile := Some "RuntimeDefault" |}.

(** ** The containers *)

Definition mount (name path sub : string) (ro : bool) : VolumeMount :=
  {| vm_Name := name; vm_MountPath := path; vm_SubPath := sub; vm_ReadOnly := ro |}.

Definition secretMount : VolumeMount := mount "decoy-secret" "/etc/kubernetes/pki" "" true.
Definition shimSecretMount : VolumeMount := mount "decoy-shim-secret" shimSecretDirPath "" true.
Definition configMount (file : string) : VolumeMount :=
  mount "config" ("/etc/kubernetes/" +:+ file) file true.
Definition seedMount : VolumeMount := mount "seed" seedDirPath "" true.
Definition saTokenMount : VolumeMount :=
  mount "sa-token" (TrimSuffix serviceAccountTokenMountPath "/") "" false.

(** Where kine's database and the audit log live, and the rollout strategy.
    [src/internal/controller/render.go:850-872, buildDeployment] *)
Definition storage (kt : Decoy) : VolumeMount * VolumeMount * list Volume * string :=
  match spec_Persistence (kt_Spec kt) with
  | Some _ =>
      (mount "data" "/var/lib/kine" "kine" false, mount "data" auditLogDir "audit" false,
       [{| v_Name := "data"; v_Source := PVCSource (kt_Name kt +:+ "-data") |}], "Recreate")
  | None =>
      (mount "kine-data" "/var/lib/kine" "" false, mount "audit-logs" auditLogDir "" false,
       [{| v_Name := "kine-data"; v_Source := EmptyDirSource "" |};
        {| v_Name := "audit-logs"; v_Source := EmptyDirSource "" |}], "")
  end.

(** A container of the decoy's pod; every one has the spec's resources. *)
Definition decoy_container (kt : Decoy) (name image : string) (command args : list string)
    (env : list EnvVar) (ports : list ContainerPort) (mounts : list VolumeMount)
    (sc : SecurityContext) : Container :=
  {| c_Name := name; c_Image := image; c_ImagePullPolicy := "IfNotPresent"; c_Command := command;
     c_Args := args; c_Env := env; c_Ports := ports; c_Resources := spec_Resources (kt_Spec kt);
     c_VolumeMounts := mounts; c_SecurityContext := Some sc |}.

(** [src/internal/controller/render.go:943-987, buildDeployment] *)
Definition saSetupContainer (kt : Decoy) : Container :=
  decoy_container kt "sa-setup" (kubeletShimImage kt) [shimBinaryPath]
    ["--write-sa-layout"; "--token-file=/etc/kubernetes/pki/token";
     "--ca-file=/etc/kubernetes/pki/ca.crt"; "--namespace=" +:+ servedNamespace kt;
     "--sa-dir=" +:+ TrimSuffix serviceAccountTokenMountPath "/"]
    [] [] [secretMount; saTokenMount] saSetupSecurityContext.

(** [src/internal/controller/render.go:988-1008, buildDeployment] *)
Definition kineContainer (kt : Decoy) (kineVolMount : VolumeMount) : Container :=
  decoy_container kt "kine" (kineImage kt) []
    ["--endpoint=sqlite:///var/lib/kine/kine.db"; "--listen-address=" +:+ kineListenAddr]
    [] [] [kineVolMount] hardenedSecurityContext.

(** [src/internal/controller/render.go:1009-1101, buildDeployment] *)
Definition apiserverContainer (kt : Decoy) (auditVolMount : VolumeMount) : Container :=
  decoy_container kt "kube-apiserver" (kubeAPIServerImage kt) ["/usr/local/bin/kube-apiserver"]
    ["--etcd-servers=http://" +:+ kineListenAddr; "--secure-port=" +:+ Itoa innerAPIPort;
     "--bind-address=0.0.0.0"; "--tls-cert-file=/etc/kubernetes/pki/tls.crt";
     "--tls-private-key-file=/etc/kubernetes/pki/tls.key";
     "--token-auth-file=/etc/kubernetes/" +:+ tokenAuthFileName; "--authorization-mode=RBAC";
     "--disable-admission-plugins=ServiceAccount"; "--service-cluster-ip-range=10.96.0.0/16";
     "--service-account-issuer=https://kubernetes.default.svc.cluster.local";
     "--service-account-key-file=/etc/kubernetes/pki/sa.pub";
     "--service-account-signing-key-file=/etc/kubernetes/pki/sa.key";
     "--kubelet-preferred-address-types=InternalIP";
     "--kubelet-certificate-authority=/etc/kubernetes/pki/ca.crt";
     "--audit-policy-file=/etc/kubernetes/" +:+ auditPolicyFileName;
     "--audit-webhook-config-file=/etc/kubernetes/" +:+ auditWebhookKubeconfigFileName;
     "--audit-webhook-mode=blocking"; "--audit-log-path=" +:+ auditLogPath;
     "--audit-log-maxage=30"; "--audit-log-maxbackup=10"; "--audit-log-maxsize=100"]
    [] [{| cp_Name := "decoy"; cp_ContainerPort := innerAPIPort |}]
    [configMount tokenAuthFileName; configMount auditPolicyFileName;
     configMount auditWebhookKubeconfigFileName; secretMount; auditVolMount]
    kubeAPIServerSecurityContext.

(** [src/internal/controller/render.go:1198-1200, kcmImage] *)
Definition kcmImage (kt : Decoy) : string :=
  "registry.k8s.io/kube-controller-manager:" +:+ kubernetesVersion kt.

(** [src/internal/controller/render.go:1202-1258, kcmDisabledControllers] *)
Definition kcmDisabledControllers : list string :=
  ["node-lifecycle-controller"; "pod-garbage-collector-controller"; "taint-eviction-controller";
   "device-taint-eviction-controller"; "node-ipam-controller"; "node-route-controller";
   "cloud-node-lifecycle-controller"; "daemonset-controller";
   "persistentvolume-attach-detach-controller"; "persistentvolume-binder-controller";
   "persistentvolume-expander-controller"; "persistentvolume-protection-controller";
   "persistentvolumeclaim-protection-controller"; "ephemeral-volume-controller";
   "resourceclaim-controller"; "ttl-controller"].

(** [src/internal/controller/render.go:1260-1319, kcmContainer] *)
Definition kcmContainer (kt : Decoy) : Container :=
  let controllers := foldl (fun s c => s +:+ ",-" +:+ c) "*" kcmDisabledControllers in
  decoy_container kt "kube-controller-manager" (kcmImage kt) ["/usr/local/bin/kube-controller-manager"]
    ["--kubeconfig=/etc/kubernetes/" +:+ kcmKubeconfigFileName;
     "--authentication-kubeconfig=/etc/kubernetes/" +:+ kcmKubeconfigFileName;
     "--authorization-kubeconfig=/etc/kubernetes/" +:+ kcmKubeconfigFileName;
     "--service-account-private-key-file=/etc/kubernetes/pki/sa.key";
     "--root-ca-file=/etc/kubernetes/pki/ca.crt"; "--use-service-account-credentials=false";
     "--controllers=" +:+ controllers; "--leader-elect=true"; "--secure-port=10257";
     "--bind-address=127.0.0.1"]
    [] [] [configMount kcmKubeconfigFileName; secretMount] kubeAPIServerSecurityContext.

(** [src/internal/controller/render.go:1321-1323, schedulerImage] *)
Definition schedulerImage (kt : Decoy) : string :=
  "registry.k8s.io/kube-scheduler:" +:+ kubernetesVersion kt.

(** [src/internal/controller/render.go:1325-1357, schedulerContainer] *)
Definition schedulerContainer (kt : Decoy) : Container :=
  decoy_container kt "kube-scheduler" (schedulerImage kt) ["/usr/local/bin/kube-scheduler"]
    ["--kubeconfig=/etc/kubernetes/" +:+ kcmKubeconfigFileName;
     "--authentication-kubeconfig=/etc/kubernetes/" +:+ kcmKubeconfigFileName;
     "--authorization-kubeconfig=/etc/kubernetes/" +:+ kcmKubeconfigFileName;
     "--leader-elect=true"; "--secure-port=10259"; "--bind-address=127.0.0.1"]
    [] [] [configMount kcmKubeconfigFileName; secretMount] kubeAPIServerSecurityContext.

Definition bool_text (b : bool) : string := if b then "true" else "false".

(** [src/internal/controller/render.go:1104-1157, buildDeployment] *)
Definition shimContainer (kt : Decoy) (nodeInternalIP : string) : Container :=
  decoy_container kt "kubelet-shim" (kubeletShimImage kt) []
    ["--apiserver=https://127.0.0.1:" +:+ Itoa innerAPIPort;
     "--ca-file=" +:+ shimSecretDirPath +:+ "/ca.crt"; "--token-file=" +:+ shimSecretDirPath +:+ "/token";
     "--client-token-file=" +:+ shimSecretDirPath +:+ "/shim.token";
     "--seed=" +:+ seedDirPath +:+ "/" +:+ seedFileName; "--node-internal-ip=" +:+ nodeInternalIP;
     "--kubelet-port=" +:+ Itoa kubeletPort; "--listen=:" +:+ Itoa kubeletPort;
     "--tls-cert-file=" +:+ shimSecretDirPath +:+ "/tls.crt";
     "--tls-key-file=" +:+ shimSecretDirPath +:+ "/tls.key"; "--namespace=" +:+ servedNamespace kt;
     "--sa-dir=" +:+ TrimSuffix serviceAccountTokenMountPath "/";
     "--kubernetes-version=" +:+ kubernetesVersion kt;
     "--kubernetes-service-port=" +:+ Itoa (servicePort kt); "--exec-profile=" +:+ execProfile kt;
     "--exec-isolation=" +:+ bool_text (spec_ExecIsolation (kt_Spec kt))]
    (kubernetesServiceEnv nodeInternalIP (servicePort kt) realKubernetesServicePortDefault)
    [{| cp_Name := "kubelet"; cp_ContainerPort := kubeletPort |}]
    [seedMount; shimSecretMount; saTokenMount]
    (execSandboxSecurityContext (spec_ExecIsolation (kt_Spec kt))).

(** [{Key: k, Path: k}]. *)
Definition same_path (k : string) : KeyToPath := {| kp_Key := k; kp_Path := k |}.

(** [src/internal/controller/render.go:1158-1191, buildDeployment] *)
Definition decoy_volumes (secretName configMapName : string) (storageVolumes : list Volume) : list Volume :=
  [{| v_Name := "config"; v_Source := ConfigMapSource configMapName [] |};
   {| v_Name := "seed"; v_Source := ConfigMapSource configMapName [same_path seedFileName] |};
   {| v_Name := "decoy-secret"; v_Source := SecretSource secretName [] |};
   {| v_Name := "decoy-shim-secret";
      v_Source := SecretSource secretName
        (same_path <$> ["ca.crt"; "token"; "shim.token"; "tls.crt"; "tls.key"]) |};
   {| v_Name := "sa-token"; v_Source := EmptyDirSource "Memory" |}] ++ storageVolumes.

(** [src/internal/controller/render.go:839-942, buildDeployment] *)
Definition buildDeployment (table : Z -> Z) (kt : Decoy)
    (secretName configMapName configChecksum certChecksum nodeInternalIP : string) : Deployment :=
  let '(kineVolMount, auditVolMount, storageVolumes, strategy) := storage kt in
  {| d_Meta := object_meta (kt_Name kt) (kt_Namespace kt) (commonLabels (kt_Name kt));
     d_Spec :=
       {| ds_Replicas := Some 1%Z; ds_Strategy := strategy;
          ds_Selector := selectorLabels (kt_Name kt);
          ds_Template :=
            {| pt_Labels := selectorLabels (kt_Name kt);
               pt_Annotations := {[ "honeypod.io/config-checksum" := configChecksum;
                                    "honeypod.io/cert-checksum" := certChecksum ]};
               pt_Spec :=
                 {| ps_InitContainers := [saSetupContainer kt];
                    ps_Containers := [kineContainer kt kineVolMount; apiserverContainer kt auditVolMount;
                                      kcmContainer kt; schedulerContainer kt;
                                      shimContainer kt nodeInternalIP];
                    ps_Volumes := decoy_volumes secretName configMapName storageVolumes;
                    ps_NodeName := ""; ps_HostNetwork := false;
                    ps_Hostname := decoyHostname table kt;
                    ps_RuntimeClassName := spec_RuntimeClassName (kt_Spec kt);
                    ps_TerminationGracePeriodSeconds := Some 5%Z;
                    ps_DNSPolicy := "None"; ps_DNSConfig := Some (decoyDNSConfig kt);
                    ps_AutomountServiceAccountToken := Some false;
                    ps_EnableServiceLinks := Some false |} |} |};
     d_Status := no_deployment_status |}.

(** ** The Service and the NetworkPolicy *)

(** [src/internal/controller/render.go:1462-1480, buildService] *)
Definition buildService (kt : Decoy) : Service :=
  {| svc_Meta := object_meta (kt_Name kt) (kt_Namespace kt) (commonLabels (kt_Name kt));
     svc_Spec := {| ss_ClusterIP := ""; ss_Selector := selectorLabels (kt_Name kt);
       ss_Ports := [{| sp_Name := "decoy"; sp_Port := servicePort kt; sp_TargetPort := inl "decoy";
                       sp_Protocol := "" |};
                    {| sp_Name := "kubelet"; sp_Port := kubeletPort; sp_TargetPort := inl "kubelet";
                       sp_Protocol := "" |}] |} |}.

(** [src/internal/controller/render.go:1482-1540, buildNetworkPolicy] *)
Definition buildNetworkPolicy (kt : Decoy) : NetworkPolicy :=
  let port proto n := {| npp_Protocol := proto; npp_Port := n |} in
  {| np_Meta := object_meta (kt_Name kt +:+ "-egress") (kt_Namespace kt) (commonLabels (kt_Name kt));
     np_Spec :=
       {| nps_PodSelector := selectorLabels (kt_Name kt); nps_PolicyTypes := ["Egress"];
          nps_Egress :=
            [{| ner_To := []; ner_Ports := [port "UDP" 53%Z; port "TCP" 53%Z] |};
             {| ner_To := [{| npr_NamespaceSelector := {[ "kubernetes.io/metadata.name" := managerNamespace ]} |}];
                ner_Ports := [port "TCP" auditWebhookPort] |}] |} |}.

(** ** What a container can read *)

Inductive object_kind := KSecret | KConfigMap.

#[global] Instance object_kind_eq_dec : EqDecision object_kind.
Proof. solve_decision. Defined.

(** The keys of an object a volume source projects: all of them when it lists
    no items. *)
Definition projects (items : list KeyToPath) (key : string) : Prop :=
  items = [] \/ key ∈ kp_Key <$> items.

(** The volume shows [key] of the object [kind]/[name]. *)
Definition shows (v : VolumeSource) (kind : object_kind) (name key : string) : Prop :=
  match v with
  | SecretSource n items => kind = KSecret /\ name = n /\ projects items key
  | ConfigMapSource n items => kind = KConfigMap /\ name = n /\ projects items key
  | ProjectedSource l => kind = KSecret /\ exists items, ProjSecret name items ∈ l /\ projects items key
  | _ => False
  end.

(** A process in container [c] of a pod can read [key] of the object: through
    some mount, of the whole volume or of the key's own sub-path. *)
Definition can_read (s : PodSpec) (c : Container) (kind : object_kind) (name key : string) : Prop :=
  exists m v, m ∈ c_VolumeMounts c /\ v ∈ ps_Volumes s /\ v_Name v = vm_Name m /\
    (vm_SubPath m = "" \/ vm_SubPath m = key) /\ shows (v_Source v) kind name key.

Definition the_spec (table : Z -> Z) (kt : Decoy) (sn cm cc ce ip : string) : PodSpec :=
  pt_Spec (ds_Template (d_Spec (buildDeployment table kt sn cm cc ce ip))).

Lemma the_spec_unfold table kt sn cm cc ce ip :
  exists km am vs st, storage kt = (km, am, vs, st) /\
    ps_Volumes (the_spec table kt sn cm cc ce ip) = decoy_volumes sn cm vs /\
    ps_InitContainers (the_spec table kt sn cm cc ce ip) = [saSetupContainer kt] /\
    ps_Containers (the_spec table kt sn cm cc ce ip) =
      [kineContainer kt km; apiserverContainer kt am; kcmContainer kt; schedulerContainer kt;
       shimContainer kt ip].
Proof.
  unfold the_spec, buildDeployment. destruct (storage kt) as [[[km am] vs] st] eqn:E.
  by exists km, am, vs, st.
Qed.

(** The storage volumes are named apart from the others and show no object. *)
Lemma storage_cases kt km am vs st :
  storage kt = (km, am, vs, st) ->
  (km = mount "data" "/var/lib/kine" "kine" false /\ am = mount "data" auditLogDir "audit" false /\
   v_Name <$> vs = ["data"] /\ st = "Recreate" \/
   km = mount "kine-data" "/var/lib/kine" "" false /\ am = mount "audit-logs" auditLogDir "" false /\
   v_Name <$> vs = ["kine-data"; "audit-logs"] /\ st = "") /\
  Forall (fun v => forall kind name key, ~ shows (v_Source v) kind name key) vs.
Proof.
  unfold storage. destruct (spec_Persistence (kt_Spec kt)); intros [= <- <- <- <-]; split.
  - left. by split_and!.
  - apply Forall_forall. intros v Hv kind name key. elem_cases Hv. exact id.
  - right. by split_and!.
  - apply Forall_forall. intros v Hv kind name key. elem_cases Hv; exact id.
Qed.

(** C33: what an attacker in an exec session can reach. Of all the keys of
    all the Secrets and ConfigMaps mounted into the decoy's pod, the
    kubelet-shim container (the one [kubectl exec] runs a shell in) can read
    exactly ca.crt, the two tokens it serves with and the serving pair, and
    seed.json: never the CA's private key, the ServiceAccount signing key,
    the controller-manager's token or the token file with all identities. *)
Theorem exec_container_reads table kt sn cm cc ce ip kind name key :
  can_read (the_spec table kt sn cm cc ce ip) (shimContainer kt ip) kind name key <->
  (kind = KSecret /\ name = sn /\ key ∈ ["ca.crt"; "token"; "shim.token"; "tls.crt"; "tls.key"]) \/
  (kind = KConfigMap /\ name = cm /\ key = "seed.json").
Proof.
  destruct (the_spec_unfold table kt sn cm cc ce ip) as (km & am & vs & st & Hst & Hv & _ & _).
  destruct (storage_cases _ _ _ _ _ Hst) as [Hcases Hno].
  unfold can_read. rewrite Hv. unfold decoy_volumes. split.
  - intros (m & v & Hm & Hvin & Hn & _ & Hs). simpl in Hm.
    apply elem_of_app in Hvin as [Hvin|Hvin].
    2:{ rewrite Forall_forall in Hno. by apply Hno in Hs. }
    elem_cases Hvin; elem_cases Hm; simpl in Hn; try discriminate Hn; simpl in Hs.
    + destruct Hs as (-> & -> & [Hs|Hs]); [done|]. right.
      split_and!; [done|done|]. by apply list_elem_of_singleton in Hs.
    + destruct Hs as (-> & -> & [Hs|Hs]); [done|]. left. split_and!; [done|done|exact Hs].
    + done.
  - intros [(-> & -> & Hk)|(-> & -> & ->)].
    + exists shimSecretMount, {| v_Name := "decoy-shim-secret"; v_Source := SecretSource sn
        (same_path <$> ["ca.crt"; "token"; "shim.token"; "tls.crt"; "tls.key"]) |}. split_and!; [elem_lit| |done|by left|].
      * apply elem_of_app. left. do 3 apply list_elem_of_further. apply list_elem_of_here.
      * simpl. split_and!; [done|done|]. by right.
    + exists seedMount, {| v_Name := "seed"; v_Source := ConfigMapSource cm [same_path seedFileName] |}.
      split_and!; [elem_lit| |done|by left|].
      * apply elem_of_app. left. do 1 apply list_elem_of_further. apply list_elem_of_here.
      * simpl. split_and!; [done|done|]. right. apply list_elem_of_here.
Qed.

(** C34: the decoy's pod is well formed, with and without persistence: every
    mount names a declared volume, no two volumes and no two containers share
    a name, and no container mounts two things at one path. *)
Theorem deployment_well_formed table kt sn cm cc ce ip :
  let s := the_spec table kt sn cm cc ce ip in
  mounts_resolve s /\ NoDup (v_Name <$> ps_Volumes s) /\ NoDup (c_Name <$> all_containers s) /\
  Forall (fun c => NoDup (vm_MountPath <$> c_VolumeMounts c)) (all_containers s).
Proof.
  intros s. destruct (the_spec_unfold table kt sn cm cc ce ip) as (km & am & vs & st & Hst & Hv & Hi & Hc).
  fold s in Hv, Hi, Hc. destruct (storage_cases _ _ _ _ _ Hst) as [Hcases _].
  assert (Hnames : v_Name <$> ps_Volumes s =
    ["config"; "seed"; "decoy-secret"; "decoy-shim-secret"; "sa-token"] ++ (v_Name <$> vs)).
  { rewrite Hv. unfold decoy_volumes. by rewrite fmap_app. }
  assert (Hall : all_containers s = [saSetupContainer kt; kineContainer kt km; apiserverContainer kt am;
    kcmContainer kt; schedulerContainer kt; shimContainer kt ip]).
  { unfold all_containers. by rewrite Hi, Hc. }
  split_and!.
  - intros c m Hcin Hm. rewrite Hall in Hcin.
    assert (vm_Name m ∈ v_Name <$> ps_Volumes s) as (v & Heq & Hvin)%list_elem_of_fmap; [|eauto].
    rewrite Hnames. destruct Hcases as [(-> & -> & -> & _)|(-> & -> & -> & _)];
      elem_cases Hcin; simpl in Hm; elem_cases Hm; apply (bool_decide_eq_true_1 _); vm_compute; reflexivity.
  - rewrite Hnames. destruct Hcases as [(_ & _ & -> & _)|(_ & _ & -> & _)];
      apply (bool_decide_eq_true_1 _); vm_compute; reflexivity.
  - rewrite Hall. apply (bool_decide_eq_true_1 _). vm_compute. reflexivity.
  - rewrite Hall. destruct Hcases as [(-> & -> & _ & _)|(-> & -> & _ & _)];
      repeat constructor; apply (bool_decide_eq_true_1 _); vm_compute; reflexivity.
Qed.

(** ** Privileges *)

Definition added_capabilities (sc : SecurityContext) : list string :=
  from_option cap_Add [] (sc_Capabilities sc).

(** Runs without privileges: no escalation, no added capability, and the
    default seccomp profile. *)
Definition confined (c : Container) : Prop :=
  exists sc, c_SecurityContext c = Some sc /\ sc_AllowPrivilegeEscalation sc = Some false /\
    added_capabilities sc = [] /\ sc_SeccompProfile sc = Some "RuntimeDefault".

Definition non_root (c : Container) : Prop :=
  exists sc, c_SecurityContext c = Some sc /\ sc_RunAsNonRoot sc = Some true.

(** C32: the privileges of the decoy's pod, for every spec the CRD accepts.
    Without exec isolation every long-running container is non-root, cannot
    escalate, has no added capability and the default seccomp profile. With
    it, only the container exec sessions run in is privileged, and then the
    pod runs under a runtime class (a sandbox). In both cases the root init
    container is confined, and no ServiceAccount token or service link of the
    real cluster is injected. *)
Theorem privileges_bounded table kt sn cm cc ce ip :
  DecoySpec_XValidation (kt_Spec kt) = true ->
  let s := the_spec table kt sn cm cc ce ip in
  (forall c, c ∈ all_containers s -> c_Name c <> "kubelet-shim" -> confined c) /\
  (forall c, c ∈ ps_Containers s -> c_Name c <> "kubelet-shim" -> non_root c) /\
  (spec_ExecIsolation (kt_Spec kt) = false -> forall c, c ∈ ps_Containers s -> confined c /\ non_root c) /\
  (spec_ExecIsolation (kt_Spec kt) = true ->
     exists rc, ps_RuntimeClassName s = Some rc /\ rc <> "") /\
  ps_AutomountServiceAccountToken s = Some false /\ ps_EnableServiceLinks s = Some false.
Proof.
  intros Hv s. destruct (the_spec_unfold table kt sn cm cc ce ip) as (km & am & vs & st & _ & _ & Hi & Hc).
  fold s in Hi, Hc.
  assert (Hmain : forall c, c ∈ ps_Containers s ->
    c = shimContainer kt ip \/ (confined c /\ non_root c)).
  { rewrite Hc. intros c Hin. elem_cases Hin; [right..|by left];
      (split; eexists; (split; [reflexivity|]); by split_and?). }
  assert (Hrc : ps_RuntimeClassName s = spec_RuntimeClassName (kt_Spec kt) /\
    ps_AutomountServiceAccountToken s = Some false /\ ps_EnableServiceLinks s = Some false).
  { unfold s, the_spec, buildDeployment. by destruct (storage kt) as [[[? ?] ?] ?]. }
  destruct Hrc as (Hrc & Hauto & Hlinks). split_and!; [| | | |done|done].
  - intros c Hin Hname. unfold all_containers in Hin. apply elem_of_app in Hin as [Hin|Hin].
    + rewrite Hi in Hin. apply list_elem_of_singleton in Hin as ->.
      eexists. split; [reflexivity|]. by split_and!.
    + destruct (Hmain c Hin) as [->|[? _]]; done.
  - intros c Hin Hname. destruct (Hmain c Hin) as [->|[_ ?]]; done.
  - intros Hiso c Hin. destruct (Hmain c Hin) as [->|?]; [|done].
    unfold confined, non_root, shimContainer, execSandboxSecurityContext. rewrite Hiso.
    split; eexists; (split; [reflexivity|]); by split_and?.
  - intros Hiso. rewrite Hrc. unfold DecoySpec_XValidation in Hv. rewrite Hiso in Hv.
    apply andb_true_iff in Hv as [_ Hv]. simpl in Hv.
    destruct (spec_RuntimeClassName (kt_Spec kt)) as [rc|]; [|done]. exists rc. split; [done|].
    by case_bool_decide.
Qed.

(** ** The Service and the policy select the pod *)

(** Where a Service port leads in a pod. *)
Definition target_ports (s : PodSpec) (p : ServicePort) : list Z :=
  match sp_TargetPort p with
  | inl name => cp_ContainerPort <$> filterb (fun cp => cp_Name cp ==? name) (ps_Containers s ≫= c_Ports)
  | inr n => [n]
  end.

(** The Service fronts the pod. It selects the labels the pod carries and
    the Deployment selects, its API port leads to the inner API server's
    secure port and its kubelet port to the shim's, each by a name that one
    container port has. *)
Theorem service_targets table kt sn cm cc ce ip :
  let d := buildDeployment table kt sn cm cc ce ip in
  let svc := buildService kt in
  ss_Selector (svc_Spec svc) = pt_Labels (ds_Template (d_Spec d)) /\
  ds_Selector (d_Spec d) = pt_Labels (ds_Template (d_Spec d)) /\
  (fun p => (sp_Port p, target_ports (pt_Spec (ds_Template (d_Spec d))) p)) <$> ss_Ports (svc_Spec svc) =
    [(servicePort kt, [innerAPIPort]); (kubeletPort, [kubeletPort])].
Proof.
  intros d svc. destruct (the_spec_unfold table kt sn cm cc ce ip) as (km & am & vs & st & _ & _ & _ & Hc).
  unfold the_spec in Hc. fold d in Hc. split_and!.
  - unfold d, buildDeployment. by destruct (storage kt) as [[[? ?] ?] ?].
  - unfold d, buildDeployment. by destruct (storage kt) as [[[? ?] ?] ?].
  - simpl. unfold target_ports. simpl. rewrite Hc. reflexivity.
Qed.

(** Whether a policy lets a connection out, to a pod in a namespace with the
    given labels or, for [None], to an address outside the cluster. *)
Definition egress_allowed (np : NetworkPolicy) (ns : option (gmap string string))
    (proto : string) (port : Z) : Prop :=
  exists r, r ∈ nps_Egress (np_Spec np) /\
    (ner_To r = [] \/
     exists peer labels, peer ∈ ner_To r /\ ns = Some labels /\ npr_NamespaceSelector peer ⊆ labels) /\
    (ner_Ports r = [] \/ {| npp_Protocol := proto; npp_Port := port |} ∈ ner_Ports r).

(** C35: the decoy's egress. The policy applies to exactly the labels of the
    decoy's pod, and what it lets out is DNS, to anywhere, and TCP to the
    audit receiver's port in the manager's namespace; in particular no
    connection to the real API server. *)
Theorem egress_bounded table kt sn cm cc ce ip ns proto port :
  nps_PodSelector (np_Spec (buildNetworkPolicy kt)) =
    pt_Labels (ds_Template (d_Spec (buildDeployment table kt sn cm cc ce ip))) /\
  nps_PolicyTypes (np_Spec (buildNetworkPolicy kt)) = ["Egress"] /\
  (egress_allowed (buildNetworkPolicy kt) ns proto port <->
   (port = 53%Z /\ proto ∈ ["UDP"; "TCP"]) \/
   (port = auditWebhookPort /\ proto = "TCP" /\
    exists labels, ns = Some labels /\ labels !! "kubernetes.io/metadata.name" = Some managerNamespace)).
Proof.
  split_and!.
  - unfold buildDeployment. by destruct (storage kt) as [[[? ?] ?] ?].
  - done.
  - unfold egress_allowed. simpl. split.
    + intros (r & Hr & Hto & Hp). rewrite !elem_of_cons, elem_of_nil in Hr.
      destruct Hr as [->|[->|[]]]; simpl in *; (destruct Hp as [Hp|Hp]; [done|]);
        rewrite !elem_of_cons, elem_of_nil in Hp.
      * left. destruct Hp as [[= -> ->]|[[= -> ->]|[]]]; (split; [done|elem_lit]).
      * right. destruct Hp as [[= -> ->]|[]]. split_and!; [done|done|].
        destruct Hto as [Hto|(peer & labels & ->%list_elem_of_singleton & -> & Hsub)]; [done|].
        exists labels. split; [done|]. eapply lookup_weaken; [|exact Hsub].
        apply lookup_singleton_eq.
    + intros [(-> & Hproto)|(-> & -> & labels & -> & Hl)].
      * eexists. split_and!; [apply list_elem_of_here|by left|]. right. simpl.
        elem_cases Hproto; elem_lit.
      * eexists. split_and!; [apply list_elem_of_further, list_elem_of_here| |right; apply list_elem_of_here].
        right. eexists _, labels. split_and!; [apply list_elem_of_here|done|]. simpl.
        by apply map_singleton_subseteq_l.
Qed.

(** A spec with exec isolation and the runtime class the CRD then demands. *)
Definition isolated_spec : DecoySpec :=
  {| spec_KubeletShimImage := ""; spec_ExecProfile := ""; spec_ExecIsolation := true;
     spec_KubernetesVersion := ""; spec_KubeAPIServerImage := ""; spec_KineImage := "";
     spec_Port := 0; spec_SANs := []; spec_AuditLevel := ""; spec_FakeNodes := [];
     spec_FakePods := []; spec_FakeSecrets := []; spec_Resources := no_resources;
     spec_RuntimeClassName := Some "gvisor"; spec_SeedSystemComponents := None;
     spec_FakeCRDs := []; spec_Persistence := None |}.

Lemma privileges_bounded_witness :
  exists rc, ps_RuntimeClassName (the_spec id (mk_decoy "traps" "web" isolated_spec)
    "web-decoy" "web-config" "" "" "10.96.7.7") = Some rc /\ rc <> "".
Proof.
  apply (privileges_bounded id (mk_decoy "traps" "web" isolated_spec)
    "web-decoy" "web-config" "" "" "10.96.7.7"); vm_compute; reflexivity.
Defined.
