(* ===== verification/ShimMain.v ===== *)
(** * cmd/kubelet-shim: the whole command

    [main] in three parts: what its command line asks for ([command]), the
    start of the serving process ([serve_main]), and, once it serves, its
    goroutines ([pstep]). *)

From Stdlib Require Import Ascii.
From S2P Require Import Prelude GoStrings Duration Flag KubeTypes ApiTypes Kube Server Host.
From S2P Require Import Json Names Join ShimTypes SeedJson Fs SaLayout Process Deploy.
#[local] Open Scope string_scope.
#[local] Open Scope list_scope.

(** ** The command line *)

(** The flags, as [main] reads them.
    [src/cmd/kubelet-shim/main.go:42-60, main] *)
Record options := {
  o_apiserver : string; o_caFile : string; o_tokenFile : string; o_clientTokenFile : string;
  o_seed : string; o_nodeInternalIP : string; o_kubeletPort : Z; o_kubernetesServicePort : Z;
  o_execProfile : string; o_execIsolation : bool; o_listen : string; o_tlsCertFile : string;
  o_tlsKeyFile : string; o_heartbeatInterval : Z; o_saDir : string; o_namespace : string;
  o_kubernetesVersion : string; o_recordExec : bool; o_writeSALayout : bool }.

Definition read_options (memory : list ascii) (formal : gmap string value) : options :=
  let str := flag_string formal memory in
  {| o_apiserver := str "apiserver"; o_caFile := str "ca-file"; o_tokenFile := str "token-file";
     o_clientTokenFile := str "client-token-file"; o_seed := str "seed";
     o_nodeInternalIP := str "node-internal-ip"; o_kubeletPort := flag_int formal "kubelet-port";
     o_kubernetesServicePort := flag_int formal "kubernetes-service-port";
     o_execProfile := str "exec-profile"; o_execIsolation := flag_bool formal "exec-isolation";
     o_listen := str "listen"; o_tlsCertFile := str "tls-cert-file"; o_tlsKeyFile := str "tls-key-file";
     o_heartbeatInterval := flag_duration formal "heartbeat-interval"; o_saDir := str "sa-dir";
     o_namespace := str "namespace"; o_kubernetesVersion := str "kubernetes-version";
     o_recordExec := flag_bool formal "record-exec-sessions";
     o_writeSALayout := flag_bool formal "write-sa-layout" |}.

(** What a command line asks for. *)
Inductive request_ :=
  | ExecInit (args : list string)
  | Usage (code : Z)
  | SetupLayout (o : options)
  | Fatal (msg : string)
  | Serve (o : options) (block : list ascii) (comm : string).

(** [flag.CommandLine] exits on errors; the process has the name [comm].
    [src/cmd/kubelet-shim/main.go:32-104, main] *)
Definition command (args : list string) (comm : string) : request_ :=
  if bool_decide (args !! 1 = Some "--exec-init") then ExecInit (drop 2 args)
  else
    let block := argv_block args in
    match Parse block shim_flags (drop 1 (argv args)) with
    | ErrHelp => Usage 0
    | ParseFailed _ => Usage 2
    | Parsed formal _ =>
        let o := read_options block formal in
        if o_writeSALayout o then SetupLayout o
        else if o_nodeInternalIP o ==? ""
        then Fatal "--node-internal-ip is required (the fronting Service's stable ClusterIP)"
        else
          let '(formal, (block, comm)) := mask_startup args formal comm in
          Serve (read_options block formal) block comm
    end.

(** ** The start *)

(** The fields of [rest.Config] that are set. *)
Record RestConfig := {
  rc_Host : string; rc_BearerToken : string; rc_UserAgent : string; rc_CAFile : string }.

(** The empty string stands for no file. *)
Definition optional (path_of : string -> path) (file : string) : option path :=
  if file ==? "" then None else Some (path_of file).

Section Start.
Context (stamp : Time -> string) (range_write range_link : gmap string string -> list (string * string)).
Context (parse : string -> error + json) (GOOS GOARCH : string).
(** Where the kernel finds a file by its name. *)
Context (path_of : string -> path).
Context {W : Type} `{Host W, FS W}.
(** [kubernetes.NewForConfig] and [apiextensionsclientset.NewForConfig]. *)
Context (NewForConfig : RestConfig -> error + Clientset W) (NewCRDs : RestConfig -> error + unit).
(** [tls.LoadX509KeyPair]. *)
Context {TLS : Type} (LoadX509KeyPair : string -> string -> E W TLS).

(** [seed.Load] of a file of the world. *)
Definition load_seed (file : string) : E W seed.Seed :=
  r ← try_ (os_ReadFile (path_of file)); lift (Load (fun _ => r) parse file).

(** The init container.
    [src/cmd/kubelet-shim/main.go:67-87, main] *)
Definition setup_layout (o : options) : E W unit :=
  write_sa_layout stamp range_write range_link (path_of (o_tokenFile o)) (path_of (o_saDir o))
    (optional path_of (o_caFile o)) (o_namespace o).

(** [src/cmd/kubelet-shim/main.go:134-141, main] *)
Definition rest_config (o : options) (clientToken : string) : RestConfig :=
  {| rc_Host := o_apiserver o; rc_BearerToken := clientToken;
     rc_UserAgent := "kubelet/" +:+ o_kubernetesVersion o +:+ " (" +:+ GOOS +:+ "/" +:+ GOARCH
       +:+ ") kubernetes/$Format";
     rc_CAFile := o_caFile o |}.

(** [src/cmd/kubelet-shim/main.go:143-157, main] *)
Definition shim_config (o : options) (token : string) : Config :=
  {| cfg_SeedPath := o_seed o; cfg_NodeInternalIP := o_nodeInternalIP o;
     cfg_KubeletPort := Int.int32 (o_kubeletPort o);
     cfg_KubernetesServicePort := Int.int32 (o_kubernetesServicePort o);
     cfg_ExecProfile := o_execProfile o; cfg_ExecIsolation := o_execIsolation o;
     cfg_ServiceAccountToken := token; cfg_ServiceAccountDir := o_saDir o;
     cfg_Namespace := o_namespace o; cfg_CABundlePath := o_caFile o;
     cfg_RecordExecSessions := o_recordExec o |}.

(** What the goroutines start from. *)
Record serving := {
  sv_cfg : Config; sv_rest : RestConfig; sv_clients : Clientset W; sv_shim : Shim; sv_cert : TLS;
  sv_addr : string; sv_interval : Z }.

(** [log.Fatalf] ends the process with code 1; its message is the error.
    [src/cmd/kubelet-shim/main.go:106-173, main] *)
Definition serve_main (o : options) (wakes : list wake) : E W serving :=
  s ← wrap_err "loading seed" (load_seed (o_seed o));
  '(token, clientToken) ← load_tokens (path_of (o_tokenFile o)) (optional path_of (o_clientTokenFile o));
  let rc := rest_config o clientToken in
  let cfg := shim_config o token in
  sh ← wrap_err "building kubelet-shim"
    (New stamp range_write range_link cfg s (sum_map id (fun _ => tt) (NewForConfig rc)) (NewCRDs rc)
       (optional path_of (o_saDir o)) (optional path_of (o_caFile o)));
  k ← lift (NewForConfig rc);
  r ← waitForAPIServer k wakes;
  _ ← (match r with
       | Ready => mret tt
       | WaitFailed cause => throw (wrapf "inner apiserver never became reachable" (Errorf cause))
       | Waiting => throw (Errorf "still waiting")
       end);
  cert ← wrap_err "building kubelet-endpoint server" (LoadX509KeyPair (o_tlsCertFile o) (o_tlsKeyFile o));
  mret {| sv_cfg := cfg; sv_rest := rc; sv_clients := k; sv_shim := sh; sv_cert := cert;
          sv_addr := o_listen o; sv_interval := o_heartbeatInterval o |}.
End Start.

(** ** The command lines the operator renders *)

Lemma shim_flags_own block : own block <$> shim_flags = shim_flags.
Proof.
  assert (Hf : map_Forall (fun _ v => (match v with StringVal (InArgv _ _) => false | _ => true end) = true) shim_flags).
  { apply (bool_decide_eq_true_1 _). vm_compute. reflexivity. }
  apply map_eq. intros name. rewrite lookup_fmap. destruct (shim_flags !! name) as [v|] eqn:E; [|done].
  specialize (Hf _ _ E). by destruct v as [[]| | |].
Qed.

(** What is read from flags does not depend on where they lie. *)
Lemma read_options_own memory block formal :
  read_options memory (own block <$> formal) = read_options block formal.
Proof. unfold read_options. by rewrite !flag_string_own, !flag_bool_own, !flag_int_own, !flag_duration_own. Qed.

(** The block after masking. *)
Definition masked (args : list string) : list ascii :=
  let block := argv_block args in
  take (length block) (chars procTitle) ++ replicate (length block - String.length procTitle) NUL.

(** A command line that parses, its strings taken as they are. *)
Lemma command_parsed args comm formal rest :
  args !! 1 <> Some "--exec-init" -> args <> [] ->
  Parse [] shim_flags (OnHeap <$> drop 1 args) = Parsed formal rest ->
  let o := read_options [] formal in
  command args comm =
    if o_writeSALayout o then SetupLayout o
    else if o_nodeInternalIP o ==? ""
    then Fatal "--node-internal-ip is required (the fronting Service's stable ClusterIP)"
    else Serve o (masked args) "pause".
Proof.
  intros Hinit Hne Hp o. unfold command. rewrite bool_decide_eq_false_2 by done.
  set (block := argv_block args).
  assert (Hargs : Clone block <$> drop 1 (argv args) = OnHeap <$> drop 1 args).
  { unfold Clone. rewrite <- (read_argv args) at 2. fold block.
    rewrite !fmap_drop, <- list_fmap_compose. reflexivity. }
  pose proof (Parse_own block shim_flags (drop 1 (argv args))) as Hown.
  rewrite shim_flags_own, Hargs, Hp in Hown.
  destruct (Parse block shim_flags (drop 1 (argv args))) as [f r| |] eqn:E; [|done..].
  cbn [own_parsed] in Hown. injection Hown as Hf _.
  assert (Ho : read_options block f = o) by (unfold o; by rewrite <- Hf, read_options_own).
  rewrite Ho. unfold o in *. destruct (o_writeSALayout _); [done|]. case_bool_decide; [done|].
  apply Parse_wf in E as [Hwf _]; [|apply shim_flags_wf].
  unfold mask_startup, MaskProcessTitle. rewrite bool_decide_eq_false_2 by done.
  rewrite clone_own by done. fold block. rewrite read_options_own, Ho, length_argv. fold block.
  rewrite take_ge, drop_ge, app_nil_r by lia. f_equal. apply writeTitle_spec.
Qed.

(** [main]'s options in the pod the operator renders. *)
Definition rendered_options (kt : Decoy) (ip : string) : options :=
  let pki := shimSecretDirPath in
  {| o_apiserver := "https://127.0.0.1:" +:+ Itoa innerAPIPort; o_caFile := pki +:+ "/ca.crt"; o_tokenFile := pki +:+ "/token";
     o_clientTokenFile := pki +:+ "/shim.token"; o_seed := seedDirPath +:+ "/" +:+ seedFileName;
     o_nodeInternalIP := ip; o_kubeletPort := kubeletPort; o_kubernetesServicePort := servicePort kt;
     o_execProfile := execProfile kt; o_execIsolation := spec_ExecIsolation (kt_Spec kt);
     o_listen := ":" +:+ Itoa kubeletPort; o_tlsCertFile := pki +:+ "/tls.crt";
     o_tlsKeyFile := pki +:+ "/tls.key"; o_heartbeatInterval := 20 * Second; o_saDir := wantPath; o_namespace := servedNamespace kt;
     o_kubernetesVersion := kubernetesVersion kt; o_recordExec := true; o_writeSALayout := false |}.

(** The init container's. *)
Definition rendered_setup (kt : Decoy) : options :=
  let pki := "/etc/kubernetes/pki" in
  {| o_apiserver := "https://127.0.0.1:8443"; o_caFile := pki +:+ "/ca.crt"; o_tokenFile := pki +:+ "/token";
     o_clientTokenFile := ""; o_seed := "/etc/kubernetes/seed.json"; o_nodeInternalIP := "";
     o_kubeletPort := 10250; o_kubernetesServicePort := 6443; o_execProfile := "shell";
     o_execIsolation := false; o_listen := ":10250"; o_tlsCertFile := pki +:+ "/tls.crt";
     o_tlsKeyFile := pki +:+ "/tls.key"; o_heartbeatInterval := 20 * Second; o_saDir := wantPath;
     o_namespace := servedNamespace kt; o_kubernetesVersion := "v1.35.0"; o_recordExec := true;
     o_writeSALayout := true |}.

(** Parse the next argument [--name=val]; the value is set by [tac]. *)
Ltac parse_arg name tac :=
  etransitivity;
  [ eapply (Parse_set _ _ name);
    [ reflexivity
    | rewrite ?lookup_insert_ne by discriminate; reflexivity
    | tac ]
  | ].

Ltac read_flag :=
  unfold flag_string, flag_int, flag_bool, flag_duration;
  rewrite ?lookup_insert_ne by discriminate; rewrite ?lookup_insert_eq; reflexivity.

Lemma parse_shim_args kt ip :
  (- 2 ^ 63 <= servicePort kt < 2 ^ 63)%Z ->
  exists formal, Parse [] shim_flags (OnHeap <$> c_Args (shimContainer kt ip)) = Parsed formal [] /\
    read_options [] formal = rendered_options kt ip.
Proof.
  intros Hport. eexists. split.
  - unfold shimContainer, decoy_container. cbn [c_Args fmap list_fmap].
    parse_arg "apiserver" ltac:(reflexivity). parse_arg "ca-file" ltac:(reflexivity). parse_arg "token-file" ltac:(reflexivity).
    parse_arg "client-token-file" ltac:(reflexivity). parse_arg "seed" ltac:(reflexivity).
    parse_arg "node-internal-ip" ltac:(reflexivity). parse_arg "kubelet-port"
      ltac:(cbn [Set_ value_Value read_string]; rewrite ParseInt0_Itoa by (vm_compute; intuition discriminate); reflexivity).
    parse_arg "listen" ltac:(reflexivity). parse_arg "tls-cert-file" ltac:(reflexivity). parse_arg "tls-key-file" ltac:(reflexivity).
    parse_arg "namespace" ltac:(reflexivity). parse_arg "sa-dir" ltac:(reflexivity). parse_arg "kubernetes-version" ltac:(reflexivity).
    parse_arg "kubernetes-service-port"
      ltac:(cbn [Set_ value_Value read_string]; rewrite ParseInt0_Itoa by exact Hport; reflexivity).
    parse_arg "exec-profile" ltac:(reflexivity).
    parse_arg "exec-isolation" ltac:(instantiate (1 := BoolVal (spec_ExecIsolation (kt_Spec kt)));
      by destruct (spec_ExecIsolation (kt_Spec kt))).
    reflexivity.
  - unfold read_options, rendered_options. f_equal; read_flag.
Qed.

Lemma parse_setup_args kt :
  exists formal, Parse [] shim_flags (OnHeap <$> c_Args (saSetupContainer kt)) = Parsed formal [] /\
    read_options [] formal = rendered_setup kt.
Proof.
  eexists. split.
  - unfold saSetupContainer, decoy_container. cbn [c_Args fmap list_fmap].
    etransitivity; [eapply (Parse_on _ _ "write-sa-layout"); reflexivity|].
    parse_arg "token-file" ltac:(reflexivity). parse_arg "ca-file" ltac:(reflexivity).
    parse_arg "namespace" ltac:(reflexivity). parse_arg "sa-dir" ltac:(reflexivity).
    reflexivity.
  - unfold read_options, rendered_setup. f_equal; read_flag.
Qed.

(** [file] is the key of an object that the pod mounts into the container. *)
Definition mounted (s : PodSpec) (c : Container) (file : string) (kind : object_kind) (name key : string) : Prop :=
  exists m v, m ∈ c_VolumeMounts c /\ v ∈ ps_Volumes s /\ v_Name v = vm_Name m /\ vm_SubPath m = "" /\
    file = vm_MountPath m +:+ "/" +:+ key /\ shows (v_Source v) kind name key.

(** A directory of the container is a volume that holds nothing at first. *)
Definition scratch (s : PodSpec) (c : Container) (dir volume : string) : Prop :=
  exists m v, m ∈ c_VolumeMounts c /\ v ∈ ps_Volumes s /\ v_Name v = volume /\ vm_Name m = volume /\
    vm_SubPath m = "" /\ vm_ReadOnly m = false /\ dir = vm_MountPath m /\
    exists medium, v_Source v = EmptyDirSource medium.

Section Rendered.
Context (table : Z -> Z) (kt : Decoy) (sn cm cc ce ip : string).
#[local] Abbreviation spec := (the_spec table kt sn cm cc ce ip).

(** The volumes the two containers mount. *)
Lemma spec_volumes :
  {| v_Name := "seed"; v_Source := ConfigMapSource cm [same_path seedFileName] |} ∈ ps_Volumes spec /\
  {| v_Name := "decoy-secret"; v_Source := SecretSource sn [] |} ∈ ps_Volumes spec /\
  {| v_Name := "decoy-shim-secret";
     v_Source := SecretSource sn (same_path <$> ["ca.crt"; "token"; "shim.token"; "tls.crt"; "tls.key"]) |}
    ∈ ps_Volumes spec /\
  {| v_Name := "sa-token"; v_Source := EmptyDirSource "Memory" |} ∈ ps_Volumes spec.
Proof.
  destruct (the_spec_unfold table kt sn cm cc ce ip) as (km & am & vs & st & _ & -> & _ & _).
  unfold decoy_volumes. split_and!; apply elem_of_app; left; elem_lit.
Qed.

Lemma shim_secret_mounted key :
  key ∈ ["ca.crt"; "token"; "shim.token"; "tls.crt"; "tls.key"] ->
  mounted spec (shimContainer kt ip) (shimSecretDirPath +:+ "/" +:+ key) KSecret sn key.
Proof.
  intros Hk. destruct spec_volumes as (_ & _ & Hv & _).
  eexists shimSecretMount, _. split_and!; [elem_lit|exact Hv|done|done|done|].
  simpl. split_and!; [done|done|]. right. exact Hk.
Qed.

Lemma setup_secret_mounted key :
  mounted spec (saSetupContainer kt) ("/etc/kubernetes/pki/" +:+ key) KSecret sn key.
Proof.
  destruct spec_volumes as (_ & Hv & _).
  eexists secretMount, _. split_and!; [elem_lit|exact Hv|done|done|done|]. simpl. split_and!; [done|done|by left].
Qed.

Lemma seed_mounted :
  mounted spec (shimContainer kt ip) (seedDirPath +:+ "/" +:+ seedFileName) KConfigMap cm seedFileName.
Proof.
  destruct spec_volumes as (Hv & _).
  eexists seedMount, _. split_and!; [elem_lit|exact Hv|done|done|done|]. simpl. split_and!; [done|done|].
  right. apply list_elem_of_here.
Qed.

Lemma sa_dir_scratch c : saTokenMount ∈ c_VolumeMounts c -> scratch spec c wantPath "sa-token".
Proof.
  intros Hm. destruct spec_volumes as (_ & _ & _ & Hv).
  eexists saTokenMount, _. split_and!; [done|exact Hv|done|done|done|done|done|by eexists].
Qed.

(** C8: the operator and the shim agree on the command line. In the pod
    [buildDeployment] renders for a Decoy with a 32-bit port and a Service
    address, the kubelet-shim container parses its arguments and goes on to
    serve, with the options listed, its arguments wiped; and the init
    container parses its own as a request to write the ServiceAccount layout.
    Every file either is told to read is a key of the decoy's Secret or
    ConfigMap mounted at that path in that container, the directory one
    writes and the other serves is one shared, initially empty volume. The
    decoy's Service selects the pod, its two ports lead to one container port
    each: the one the shim tells sessions of to the API server the shim talks
    to, and the kubelet port it announces on its nodes, with the Service's
    address, to the port the shim itself listens on. *)
Theorem rendered_command prog comm :
  ip <> "" -> Int.int32 (servicePort kt) = servicePort kt ->
  let o := rendered_options kt ip in
  let i := rendered_setup kt in
  let shim := shimContainer kt ip in
  let setup := saSetupContainer kt in
  command (prog :: c_Args shim) comm = Serve o (masked (prog :: c_Args shim)) "pause" /\
  command (c_Command setup ++ c_Args setup) comm = SetupLayout i /\
  (forall file key, (file, key) ∈ [(o_caFile o, "ca.crt"); (o_tokenFile o, "token");
       (o_clientTokenFile o, "shim.token"); (o_tlsCertFile o, "tls.crt"); (o_tlsKeyFile o, "tls.key")] ->
     mounted spec shim file KSecret sn key) /\
  mounted spec shim (o_seed o) KConfigMap cm "seed.json" /\
  mounted spec setup (o_caFile i) KSecret sn "ca.crt" /\ mounted spec setup (o_tokenFile i) KSecret sn "token" /\
  scratch spec setup (o_saDir i) "sa-token" /\ scratch spec shim (o_saDir o) "sa-token" /\
  cp_ContainerPort <$> c_Ports shim = [o_kubeletPort o] /\ o_listen o = ":" +:+ Itoa (o_kubeletPort o) /\
  (let svc := svc_Spec (buildService kt) in
   let template := ds_Template (d_Spec (buildDeployment table kt sn cm cc ce ip)) in
   ss_Selector svc = pt_Labels template /\
   exists api, (fun p => (sp_Port p, target_ports (pt_Spec template) p)) <$> ss_Ports svc =
       [(cfg_KubernetesServicePort (shim_config o ""), [api]); (cfg_KubeletPort (shim_config o ""), [o_kubeletPort o])] /\
     o_apiserver o = "https://127.0.0.1:" +:+ Itoa api) /\
  cfg_NodeInternalIP (shim_config o "") = ip.
Proof.
  intros Hip Hport o i shim setup.
  assert (Hfit : (- 2 ^ 63 <= servicePort kt < 2 ^ 63)%Z).
  { rewrite <- Hport. unfold Int.int32, Int.wrapS.
    pose proof (Z.mod_pos_bound (servicePort kt + 2 ^ (32 - 1)) (2 ^ 32) ltac:(lia)). lia. }
  destruct (parse_shim_args kt ip Hfit) as (f & Hf & Ho). destruct (parse_setup_args kt) as (g & Hg & Hi).
  split_and!.
  - rewrite (command_parsed _ comm f []); [|done..]. rewrite Ho. cbn [o_writeSALayout rendered_options].
    by rewrite bool_decide_eq_false_2.
  - rewrite (command_parsed _ comm g []); [|done..]. by rewrite Hi.
  - intros file key Hin.
    assert (file = shimSecretDirPath +:+ "/" +:+ key /\
      key ∈ ["ca.crt"; "token"; "shim.token"; "tls.crt"; "tls.key"]) as [-> Hk]; [|by apply shim_secret_mounted].
    rewrite !elem_of_cons, elem_of_nil in Hin.
    destruct Hin as [[= -> ->]|[[= -> ->]|[[= -> ->]|[[= -> ->]|[[= -> ->]|[]]]]]]; (split; [done|elem_lit]).
  - apply seed_mounted.
  - apply (setup_secret_mounted "ca.crt").
  - apply (setup_secret_mounted "token").
  - apply sa_dir_scratch. elem_lit.
  - apply sa_dir_scratch. elem_lit.
  - done.
  - done.
  - destruct (service_targets table kt sn cm cc ce ip) as (Hsel & _ & Hports). split; [exact Hsel|].
    exists innerAPIPort. split; [|done]. etransitivity; [exact Hports|].
    cbn [o rendered_options shim_config cfg_KubernetesServicePort cfg_KubeletPort o_kubernetesServicePort o_kubeletPort].
    by rewrite Hport.
  - done.
Qed.
End Rendered.

(** ** What a session finds where a pod's credentials are *)

(** Following links below a directory depends on what is below it. *)
Lemma walk_agree f t t' dir cs :
  (forall q, dir `prefix_of` q -> t !! q = t' !! q) -> walk f t dir cs = walk f t' dir cs.
Proof.
  revert dir cs. induction f as [|f IH]; intros dir cs Ht; [done|]. destruct cs as [|c cs]; [done|]. cbn [walk].
  rewrite <- Ht by (by eexists). destruct (t !! (dir ++ [c])) as [[]|]; [|done| |done].
  - apply IH. intros q Hq. apply Ht. etransitivity; [|exact Hq]. by eexists.
  - by apply IH.
Qed.

Lemma walk_below f t dir cs q : walk f t dir cs = Some q -> dir `prefix_of` q.
Proof.
  revert dir cs. induction f as [|f IH]; intros dir cs; [done|]. destruct cs as [|c cs]; cbn [walk].
  { by intros [= <-]. }
  destruct (t !! (dir ++ [c])) as [[m|m x|target]|]; [|case_bool_decide| |].
  - intros Hw%IH. etransitivity; [|exact Hw]. by eexists.
  - intros [= <-]. by eexists.
  - done.
  - apply IH.
  - done.
Qed.

Lemma cat_agree t t' dir cs :
  (forall q, dir `prefix_of` q -> t !! q = t' !! q) -> cat t dir cs = cat t' dir cs.
Proof.
  intros Ht. unfold cat. rewrite (walk_agree 40 t t') by done.
  destruct (walk 40 t' dir cs) as [q|] eqn:E; [|done]. cbn [mbind option_bind].
  rewrite Ht; [done|]. by eapply walk_below.
Qed.

Section Credentials.
Context (stamp : Time -> string) (range_write range_link : gmap string string -> list (string * string)).
Context (parse : string -> error + json) (GOOS GOARCH : string) (path_of : string -> path).
Context {W : Type} `{HostLaws W} `{FSLaws W}.
Context (NewForConfig : RestConfig -> error + Clientset W) (NewCRDs : RestConfig -> error + unit).
Context {TLS : Type} (LoadX509KeyPair : string -> string -> E W TLS).
Context (write_perm : forall m, range_write m ≡ₚ map_to_list m)
        (link_perm : forall m, range_link m ≡ₚ map_to_list m)
        (now_keeps : keeps fs time_Now)
        (stamp_digits : forall t, stamp t <> "data" /\ stamp t <> "data.tmp").
(** The API and the key pair are read without touching files; [lstat] sees
    what is there. *)
Context (list_keeps : forall rc k, NewForConfig rc = inr k -> keeps fs (List_ (typed (k_namespaces k)) everything))
        (pair_keeps : forall c k, keeps fs (LoadX509KeyPair c k))
        (lstat_sees : forall p w, is_Some (fs w !! p) -> (os_Lstat p w).1 = inr tt).

(** The computation leaves the tree [t] as it is. *)
Definition stays {A : Type} (t : gmap path node) (c : E W A) : Prop := forall w, fs w = t -> fs (c w).2 = t.

Lemma keeps_stays {A : Type} t (c : E W A) : keeps fs c -> stays t c.
Proof. intros Hk w <-. apply Hk. Qed.

Lemma stays_bind {A B : Type} t (c : E W A) (k : A -> E W B) : stays t c -> (forall a, stays t (k a)) -> stays t (c ≫= k).
Proof.
  intros Hc Hk w Hw. unfold mbind, E_bind. specialize (Hc w Hw).
  destruct (c w) as [[e|a] w1]; [done|]. by apply Hk.
Qed.

Lemma stays_lift {A B : Type} t (r : error + A) (k : A -> E W B) :
  (forall a, r = inr a -> stays t (k a)) -> stays t (lift r ≫= k).
Proof. intros Hk w Hw. unfold mbind, E_bind, lift. destruct r as [e|a]; [done|]. by apply Hk. Qed.

Lemma stays_wrap {A : Type} t p (c : E W A) : stays t c -> stays t (wrap_err p c).
Proof. intros Hc w Hw. unfold wrap_err. specialize (Hc w Hw). by destruct (c w) as [[]]. Qed.

Lemma wait_keeps k wakes :
  keeps fs (List_ (typed (k_namespaces k)) everything) -> keeps fs (waitForAPIServer k wakes).
Proof.
  intros Hl. induction wakes as [|x wakes IH]; simpl; unfold APIServerReachable; keep.
  all: try by destruct x; keep.
Qed.

(** A start over a layout that is there writes nothing. *)
Lemma serve_main_keeps o wakes w sv w' :
  o_saDir o = "" \/ is_Some (fs w !! fp_Join (path_of (o_saDir o)) "..data") ->
  serve_main stamp range_write range_link parse GOOS GOARCH path_of NewForConfig NewCRDs LoadX509KeyPair
    o wakes w = (inr sv, w') -> fs w' = fs w.
Proof using All.
  intros Hdata Hrun.
  assert (Hsa : forall cfg ca, stays (fs w)
    (match optional path_of (o_saDir o) with
     | Some dir => wrap_err "writing serviceaccount files"
         (writeServiceAccountFiles stamp range_write range_link cfg dir ca)
     | None => mret tt end : E W unit)).
  { intros cfg ca. unfold optional. case_bool_decide; [apply keeps_stays; keep|].
    destruct Hdata as [?|Hdata]; [done|]. apply stays_wrap. intros w0 Hw0. rewrite <- Hw0 in Hdata.
    unfold writeServiceAccountFiles, mbind, E_bind, try_. pose proof (lstat_sees _ _ Hdata) as Hl.
    destruct (lstat_law (fp_Join (path_of (o_saDir o)) "..data") w0) as (r & Hr & _).
    rewrite Hr in *. simpl in Hl. by subst r. }
  enough (Hs : stays (fs w) (serve_main stamp range_write range_link parse GOOS GOARCH path_of
    NewForConfig NewCRDs LoadX509KeyPair o wakes)).
  { specialize (Hs w eq_refl). by rewrite Hrun in Hs. }
  pose proof read_file_law as Hread. unfold serve_main, load_seed, load_tokens, New.
  repeat first
    [ apply Hsa
    | apply stays_lift; intros ? ?
    | apply stays_bind; [|intros ?]
    | match goal with |- stays _ (match ?x with _ => _ end) => destruct x eqn:? end
    | apply stays_wrap
    | apply keeps_stays; solve [keep] ].
  apply keeps_stays, wait_keeps. by eapply list_keeps.
Qed.

Definition empty_volume (dir : path) (w : W) : Prop :=
  is_dir (fs w !! dir) = true /\ forall q, dir `prefix_of` q -> q <> dir -> fs w !! q = None.

Lemma setup_layout_spec i w w' :
  empty_volume (path_of (o_saDir i)) w -> o_caFile i <> "" ->
  setup_layout stamp range_write range_link path_of i w = (inr tt, w') ->
  let dir := path_of (o_saDir i) in
  exists tok ca wa wb, os_ReadFile (path_of (o_tokenFile i)) w = (inr tok, wa) /\
    os_ReadFile (path_of (o_caFile i)) wa = (inr ca, wb) /\
    (forall n c, sa_files (TrimSpace tok) (o_namespace i) ca !! n = Some c -> cat (fs w') dir [n] = Some c) /\
    fs w' !! dir = Some (Dir 1023) /\ is_Some (fs w' !! fp_Join dir "..data").
Proof using All.
  intros [Hdir Hempty] Hca Hrun dir. unfold setup_layout, write_sa_layout in Hrun. fold dir in Hrun.
  apply E_bind_inr in Hrun as (tok & wa & Htok & Hrun). apply wrap_err_inr in Htok.
  unfold optional in Hrun. rewrite bool_decide_eq_false_2 in Hrun by done.
  apply E_bind_inr in Hrun as (files & wb & Hfiles & Hrun).
  apply E_bind_inr in Hfiles as (ca & wb' & Hread & Hfiles). apply wrap_err_inr in Hread.
  injection Hfiles as <- <-. apply wrap_err_inr in Hrun.
  assert (Hf : fs wb' = fs w).
  { pose proof (read_file_law (path_of (o_tokenFile i)) w) as H1'. rewrite Htok in H1'.
    pose proof (read_file_law (path_of (o_caFile i)) wa) as H2'. rewrite Hread in H2'. simpl in *. congruence. }
  assert (Heq : <["ca.crt" := ca]> {[ "token" := TrimSpace tok; "namespace" := o_namespace i ]} =
    sa_files (TrimSpace tok) (o_namespace i) ca).
  { unfold sa_files. apply map_eq. intros n. rewrite !lookup_insert. repeat case_decide; simplify_eq; try done.
    by rewrite !lookup_singleton_ne. }
  rewrite Heq in Hrun.
  assert (Hplain : plain_names (sa_files (TrimSpace tok) (o_namespace i) ca)).
  { intros n [c Hn]. unfold sa_files in Hn. rewrite !lookup_insert_Some in Hn.
    destruct Hn as [[<- _]|[_ [[<- _]|[_ Hn]]]]; try done. by apply lookup_singleton_Some in Hn as [<- _]. }
  assert (Hfresh : fresh stamp dir wb').
  { intros t w1 q _ Hq. rewrite Hf. apply Hempty.
    - etransitivity; [|exact Hq]. by eexists.
    - intros ->. apply prefix_length in Hq. rewrite length_app, Nat.add_comm in Hq. by apply Nat.nle_succ_diag_l in Hq. }
  destruct (layout_run stamp range_write range_link write_perm link_perm now_keeps stamp_digits
    _ _ _ _ _ Hplain Hfresh Hrun) as (t & w1 & _ & [[Hr _]|[[Hl Hfr] Hok]]); [done|].
  destruct (Hok eq_refl) as [Hleaf Hmode]. rewrite Hf in *.
  exists tok, ca, wa, wb'. split_and!; [done|done| |by apply Hmode|by eexists; apply Hl].
  intros n c Hn. eapply cat_leaf; eauto.
Qed.

(** C9: what an attacker reads where a pod keeps its credentials. When the
    init container has written its layout into the empty shared volume, and
    the shim then starts on whatever world shows it that volume, a process in
    a session finds there, through the links of a projected volume, exactly
    the decoy's token (trimmed), namespace and CA certificate as the init
    container read them from the mounted Secret, in a directory with the mode
    of a projected volume. The start of the shim, over the files of root,
    writes no file at all. It is taken that the shim can stat the paths that
    exist, and that reading a file or listing the namespaces changes none. *)
Theorem session_credentials i o w w1 w2 wakes sv w3 :
  let dir := path_of (o_saDir i) in
  empty_volume dir w -> o_caFile i <> "" -> o_saDir o = o_saDir i ->
  setup_layout stamp range_write range_link path_of i w = (inr tt, w1) ->
  (forall q, dir `prefix_of` q -> fs w2 !! q = fs w1 !! q) ->
  serve_main stamp range_write range_link parse GOOS GOARCH path_of NewForConfig NewCRDs LoadX509KeyPair
    o wakes w2 = (inr sv, w3) ->
  exists tok ca wa wb, os_ReadFile (path_of (o_tokenFile i)) w = (inr tok, wa) /\
    os_ReadFile (path_of (o_caFile i)) wa = (inr ca, wb) /\
    cat (fs w3) dir ["token"] = Some (TrimSpace tok) /\ cat (fs w3) dir ["namespace"] = Some (o_namespace i) /\
    cat (fs w3) dir ["ca.crt"] = Some ca /\ fs w3 !! dir = Some (Dir 1023) /\ fs w3 = fs w2.
Proof using All.
  intros dir Hvol Hca Hsame Hsetup Hshare Hserve.
  destruct (setup_layout_spec i w w1 Hvol Hca Hsetup) as (tok & ca & wa & wb & Ht & Hc & Hcat & Hmode & Hdata).
  fold dir in Hcat, Hmode, Hdata.
  assert (Hkeep : fs w3 = fs w2).
  { eapply serve_main_keeps; [|exact Hserve]. right. rewrite Hsame. fold dir.
    rewrite Hshare by (by eexists). done. }
  exists tok, ca, wa, wb. rewrite Hkeep.
  rewrite !(cat_agree (fs w2) (fs w1)) by done. rewrite Hshare by done. split_and!; try done; by apply Hcat.
Qed.
End Credentials.

(** ** One pod *)
Module MainDemo.
Import Script.

Abbreviation world := (gmap path node * script)%type.

#[local] Existing Instances SaDemo.world_fs SaDemo.world_fs_laws.

Definition kt : Decoy := mk_decoy "traps" "web" isolated_spec.

Definition path_of (file : string) : path := filterb (fun c => c !=? "") (Split file "/"%char).

Lemma rendered_command_witness :
  command ("/usr/local/bin/app" :: c_Args (shimContainer kt "10.96.7.7")) "app" =
    Serve (rendered_options kt "10.96.7.7")
      (masked ("/usr/local/bin/app" :: c_Args (shimContainer kt "10.96.7.7"))) "pause".
Proof.
  apply (rendered_command id kt "web-decoy" "web-config" "" "" "10.96.7.7" "/usr/local/bin/app" "app");
    [discriminate|vm_compute; reflexivity].
Defined.

(** The clients answer the list of namespaces. *)
Definition namespaces : Typed world Namespace := {|
  typed := {| Get _ := throw (Errorf "refused"); List_ _ := mret []; Create o := mret o; Update o := mret o;
    StatusUpdate o := mret o; Delete _ := mret tt |};
  DeleteNamed _ _ := mret tt; DeleteCollection _ := mret tt |}.

Definition clients (rc : RestConfig) : error + Clientset world :=
  inr {| k_nodes := refusing; k_leases := refusing; k_namespaces := namespaces;
         k_Finalize _ := throw (Errorf "refused"); k_pods := refusing; k_secrets := refusing;
         k_configmaps := refusing; k_services := refusing; k_endpointslices := refusing;
         k_deployments := refusing; k_replicasets := refusing; k_daemonsets := refusing; k_crds := None |}.

Definition empty_seed : seed.Seed :=
  {| seed.s_FakeNodes := []; seed.s_FakePods := []; seed.s_FakeSecrets := []; seed.s_CRDs := [];
     seed.s_Controllers := []; seed.s_ConfigMaps := []; seed.s_Services := [] |}.

(** The volumes of the two containers: the Secret where each mounts it, the
    seed, and the shared directory. *)
#[local] Abbreviation dir := (path_of (o_saDir (rendered_setup kt))).
Definition volume0 : gmap path node :=
  {[ dir := Dir 511; path_of "/etc/kubernetes/pki/token" := File 420 ("tok" +:+ nl);
     path_of "/etc/kubernetes/pki/ca.crt" := File 420 "CA" ]}.
Definition w0 : world := (volume0, start []).
Definition w1 : world := (setup_layout SaDemo.stamp map_to_list map_to_list path_of (rendered_setup kt) w0).2.
Definition w2 : world :=
  (list_to_map [(path_of "/etc/ssl/app/token", File 420 ("tok" +:+ nl));
                (path_of "/etc/ssl/app/shim.token", File 420 "shim");
                (path_of "/etc/config/seed.json", File 420 "{}")] ∪ w1.1, w1.2).
Definition run2 :=
  serve_main SaDemo.stamp map_to_list map_to_list (fun _ => inr (seed_json empty_seed)) "linux" "amd64" path_of
    clients (fun _ => inr tt) (fun _ _ => mret tt) (rendered_options kt "10.96.7.7") [] w2.

Lemma list_keeps rc k : clients rc = inr k -> keeps fs (List_ (typed (k_namespaces k)) everything).
Proof. by intros [= <-] w. Qed.

Lemma pair_keeps (c k : string) : keeps fs (mret tt : E world unit).
Proof. by intros w. Qed.

Lemma lstat_sees (p : path) (w : world) : is_Some (fs w !! p) -> (os_Lstat p w).1 = inr tt.
Proof. intros [n Hn]. simpl in *. by rewrite Hn. Qed.

(** The shared directory is empty, and what the shim sees of it is what the
    init container left. *)
Lemma dir_empty : empty_volume dir w0.
Proof.
  split; [vm_compute; reflexivity|]. intros q Hq Hne. change (volume0 !! q = None).
  destruct (volume0 !! q) eqn:Eq; [|done].
  assert (Hb : map_Forall (fun q _ => q = dir \/ ~ dir `prefix_of` q) volume0).
  { apply (bool_decide_eq_true_1 _). vm_compute. reflexivity. }
  apply Hb in Eq. naive_solver.
Qed.

Lemma dir_shared (q : path) : dir `prefix_of` q -> fs w2 !! q = fs w1 !! q.
Proof.
  intros Hq. change ((w2.1) !! q = w1.1 !! q). unfold w2. cbn [fst]. apply lookup_union_r.
  apply not_elem_of_list_to_map_1. intros Hin.
  assert (Hb : Forall (fun q => ~ dir `prefix_of` q)
    [path_of "/etc/ssl/app/token"; path_of "/etc/ssl/app/shim.token"; path_of "/etc/config/seed.json"]).
  { apply (bool_decide_eq_true_1 _). vm_compute. reflexivity. }
  rewrite Forall_forall in Hb. exact (Hb q Hin Hq).
Qed.

Lemma ca_named : o_caFile (rendered_setup kt) <> "".
Proof. discriminate. Qed.

Lemma setup_runs : setup_layout SaDemo.stamp map_to_list map_to_list path_of (rendered_setup kt) w0 = (inr tt, w1).
Proof. unfold w1. apply injective_projections; [vm_compute; reflexivity|reflexivity]. Qed.

Lemma session_credentials_witness :
  exists sv w3, run2 = (inr sv, w3) /\ cat (fs w3) dir ["token"] = Some "tok" /\
    rc_BearerToken (sv_rest sv) = "shim".
Proof.
  destruct run2 as [r w3] eqn:E.
  assert (Hr : match r with inr sv => rc_BearerToken (sv_rest sv) = "shim" | inl _ => False end).
  { apply (f_equal (fun x => match x.1 with inr sv => rc_BearerToken (sv_rest sv) | inl _ => "" end)) in E.
    vm_compute in E. destruct r as [e|sv]; [discriminate E|by symmetry]. }
  destruct r as [e|sv]; [destruct Hr|]. exists sv, w3. split; [reflexivity|]. split; [|exact Hr].
  pose proof (session_credentials (W := world) SaDemo.stamp map_to_list map_to_list
    (fun _ => inr (seed_json empty_seed)) "linux" "amd64" path_of clients (fun _ => inr tt) (fun _ _ => mret tt)
    (fun m => reflexivity _) (fun m => reflexivity _) SaDemo.now_fs SaDemo.stamp_digits
    list_keeps pair_keeps lstat_sees (rendered_setup kt) (rendered_options kt "10.96.7.7") w0 w1 w2 [] sv w3
    dir_empty ca_named eq_refl
    setup_runs dir_shared E) as Hs.
  clear E Hr. destruct Hs as (tok & ca & wa & wb & Ht & _ & Hc & _).
  rewrite Hc. f_equal. assert (Htok : tok = "tok" +:+ nl); [|by rewrite Htok].
  apply (f_equal fst) in Ht. vm_compute in Ht. injection Ht as <-. reflexivity.
Defined.
End MainDemo.
