(* ===== verification/ShimProc.v ===== *)
(** * cmd/kubelet-shim: the goroutines of the serving process

    What [main] runs once the shim is built: the listener, the goroutine that
    seeds and then beats, and the one that waits for the signal to shut the
    listener down. A step is one pass of the seeder, one request, or one move
    of a goroutine; the theorems hold for every order of them. *)

From S2P Require Import Prelude GoStrings KubeTypes Kube Server Host ShimTypes ShimSeed Fs Http.
From S2P Require Import ApiTypes Exec KubeletServer.
#[local] Open Scope string_scope.
#[local] Open Scope list_scope.

(** [srv.ListenAndServeTLS] is accepting, has been shut down, or has returned
    an error of its own (it could not bind, or could not accept). *)
Inductive listener := Listening | ShutDown | Broken (e : error).
(** [shim.Seed], then [shim.RunHeartbeat], which returns when told. *)
Inductive seeder := Seeding | Beating | Stopped.
(** The goroutine that waits for the signal and then calls [srv.Shutdown],
    which returns when no request is left or after five seconds. *)
Inductive drainer := AwaitSignal | Draining | Drained.

(** A request in progress: whether its handler has been called, which may
    not have returned, as that of a session whose process is running. *)
Record pending := { rq_endpoint : endpoint; rq_query : string -> list string; rq_called : bool }.
Definition called (rq : pending) : pending :=
  {| rq_endpoint := rq_endpoint rq; rq_query := rq_query rq; rq_called := true |}.

Section Process.
Context (is_print : Z -> bool) (lower : Z -> Z) (range_targets : gmap string Target -> list (string * Target)).
Context (duration : Time -> Time -> string) (rfc3339 : Time -> string)
        (encode : Status -> string) (encode_pods : list Pod -> string).
Context (cfg : Config) (interval : Z).
Context {W S : Type} `{HostLaws W, FS W, Procs W S} (k : Clientset W).
Context (handshake : E W unit) (upgrade : E W (option (list (string * S)))).
Context (load : string -> E W seed.Seed).

Record proc := mkProc {
  p_listener : listener; p_seeder : seeder; p_drainer : drainer;
  p_signalled : bool; p_requests : gmap nat pending;
  p_exit : option Z; p_shim : Shim; p_world : W }.

(** The state the goroutines start in.
    [src/cmd/kubelet-shim/main.go:186-201, main] *)
Definition launch (sh : Shim) (w : W) : proc := mkProc Listening Seeding AwaitSignal false ∅ None sh w.

(** The initial pass; its error is logged.
    [src/cmd/kubelet-shim/main.go:188-190, main] *)
Definition initial_seed : E (Shim * W) unit :=
  r ← try_ (Seed cfg is_print lower range_targets k);
  match r with
  | inr _ => mret tt
  | inl e => on_host (log_Print ("initial seed incomplete, continuing and retrying on the next heartbeat: "
                              +:+ e_Message e))
  end.

(** A turn of the seeding goroutine: where it is then, and the code it ends
    the process with, if it does. [time.NewTicker] panics on an interval that
    is not positive.
    [src/cmd/kubelet-shim/main.go:187-192, main]
    [src/internal/kubeletshim/kubeletshim.go:1355-1371, RunHeartbeat] *)
Definition seed_goroutine (s : seeder) : E (Shim * W) (seeder * option Z) :=
  match s with
  | Seeding =>
      _ ← initial_seed;
      mret (if (interval <=? 0)%Z then (Stopped, Some 2%Z) else (Beating, None))
  | Beating => _ ← heartbeat cfg is_print lower range_targets k load; mret (Beating, None)
  | Stopped => mret (Stopped, None)
  end.

(** What [main] does when [ListenAndServeTLS] returns: [log.Fatalf] ends the
    process with code 1, the end of [main] with code 0.
    [src/cmd/kubelet-shim/main.go:202-204, main] *)
Definition main_return (l : listener) : E W (option Z) :=
  match l with
  | Listening => mret None
  | ShutDown => mret (Some 0%Z)
  | Broken e => _ ← log_Print ("serve: " +:+ e_Message e); mret (Some 1%Z)
  end.

(** One move of the process: a turn of the seeder, a tick that finds the
    context done, the signal, a connection, a request served, an error of the
    listener, [srv.Shutdown] called, its return, the return of [main].
    [src/cmd/kubelet-shim/main.go:186-204, main] *)
Inductive pstep : proc -> proc -> Prop :=
  | step_seeder l s d b rs sh w s' ex sh' w' :
      seed_goroutine s (sh, w) = (inr (s', ex), (sh', w')) ->
      pstep (mkProc l s d b rs None sh w) (mkProc l s' d b rs ex sh' w')
  | step_stop l d rs sh w :
      pstep (mkProc l Beating d true rs None sh w) (mkProc l Stopped d true rs None sh w)
  | step_signal l s d b rs sh w :
      pstep (mkProc l s d b rs None sh w) (mkProc l s d true rs None sh w)
  | step_accept s d b rs n rq sh w :
      rs !! n = None -> rq_called rq = false ->
      pstep (mkProc Listening s d b rs None sh w) (mkProc Listening s d b (<[n := rq]> rs) None sh w)
  | step_serve l s d b rs n rq sh w res w' :
      rs !! n = Some rq -> rq_called rq = false ->
      serve is_print duration rfc3339 encode encode_pods cfg k handshake upgrade sh (rq_query rq) (rq_endpoint rq) w
        = (res, w') ->
      pstep (mkProc l s d b rs None sh w) (mkProc l s d b (if res is inr _ then delete n rs else <[n := called rq]> rs) None sh w')
  | step_broken s d b rs e sh w :
      pstep (mkProc Listening s d b rs None sh w) (mkProc (Broken e) s d b rs None sh w)
  | step_shutdown l s rs sh w :
      pstep (mkProc l s AwaitSignal true rs None sh w)
            (mkProc (match l with Listening => ShutDown | _ => l end) s Draining true rs None sh w)
  | step_drained l s b rs sh w :
      pstep (mkProc l s Draining b rs None sh w) (mkProc l s Drained b rs None sh w)
  | step_return l s d b rs sh w c w' :
      main_return l w = (inr (Some c), w') ->
      pstep (mkProc l s d b rs None sh w) (mkProc l s d b rs (Some c) sh w').

(** Why the process ended: [ListenAndServeTLS] returned, after
    [srv.Shutdown] or with an error, or the ticker could not be made. *)
Definition ended (p : proc) (c : Z) : Prop :=
  (c = 0%Z /\ p_listener p = ShutDown) \/ (c = 1%Z /\ exists e, p_listener p = Broken e) \/
  (c = 2%Z /\ (interval <= 0)%Z /\ p_seeder p = Stopped).

(** What every order of the moves preserves. *)
Definition lifecycle (p : proc) : Prop :=
  (p_listener p = ShutDown -> p_drainer p <> AwaitSignal) /\
  (p_listener p = Listening -> p_drainer p = AwaitSignal) /\
  (p_drainer p <> AwaitSignal -> p_signalled p = true) /\
  (p_seeder p = Beating -> (0 < interval)%Z) /\
  (forall c, p_exit p = Some c -> ended p c).

Lemma lifecycle_launch sh w : lifecycle (launch sh w).
Proof. by split_and!. Qed.

(** Whatever the seed, the inner API server and the log do, a turn returns,
    and only the ticker ends the process. *)
Lemma seed_goroutine_returns s sh w :
  exists r ex sh' w', seed_goroutine s (sh, w) = (inr (r, ex), (sh', w')) /\
    (ex = None /\ r = match s with Seeding => Beating | _ => s end /\ (s = Seeding -> 0 < interval)%Z \/
     ex = Some 2%Z /\ r = Stopped /\ s = Seeding /\ (interval <= 0)%Z).
Proof.
  destruct s; simpl.
  - assert (exists sh' w', initial_seed (sh, w) = (inr tt, (sh', w'))) as (sh' & w' & Hi).
    { unfold initial_seed, try_, mbind, E_bind, on_host.
      destruct (Seed _ _ _ _ _ _) as [[e|[]] [sh' w']]; [|eauto]. simpl.
      destruct (log_ok ("initial seed incomplete, continuing and retrying on the next heartbeat: "
        +:+ e_Message e) w') as (w2 & -> & _). eauto. }
    unfold mbind, E_bind. rewrite Hi.
    destruct (Z.leb_spec interval 0); eexists _, _, _, _; (split; [reflexivity|]); [by right|by left].
  - assert (exists sh' w', heartbeat cfg is_print lower range_targets k load (sh, w) = (inr tt, (sh', w')))
      as (sh' & w' & Hb) by (eapply heartbeat_returns; apply _).
    unfold mbind, E_bind. rewrite Hb. eexists _, _, _, _. split; [reflexivity|]. by left.
  - eexists _, _, _, _. split; [reflexivity|]. by left.
Qed.

Lemma main_return_code l w c w' :
  main_return l w = (inr (Some c), w') -> (c = 0%Z /\ l = ShutDown) \/ (c = 1%Z /\ exists e, l = Broken e).
Proof.
  destruct l as [| |e]; simpl; [done| |].
  - intros [= <- <-]. by left.
  - unfold mbind, E_bind. destruct (log_ok ("serve: " +:+ e_Message e) w) as (w2 & -> & _). intros [= <- <-]. eauto.
Qed.

Lemma lifecycle_step p p' : pstep p p' -> lifecycle p -> lifecycle p'.
Proof.
  intros Hs (Hl & Hl' & Hd & Hb & He). unfold lifecycle, ended in *. destruct Hs; simpl in *.
  - destruct (seed_goroutine_returns s sh w) as (? & ? & ? & ? & ? & Hc).
    match goal with H1 : seed_goroutine _ _ = _, H2 : seed_goroutine _ _ = _ |- _ => rewrite H1 in H2; simplify_eq end.
    split_and!; try done.
    + intros ->. destruct Hc as [(_ & Hr & Hpos)|(_ & Hr & _)]; [|discriminate Hr].
      destruct s; [by apply Hpos|by apply Hb|discriminate Hr].
    + intros c ->. destruct Hc as [(? & _)|(? & -> & _ & ?)]; simplify_eq. auto.
  - by split_and!.
  - by split_and!.
  - by split_and!.
  - by split_and!.
  - by split_and!.
  - destruct l; split_and!; done.
  - split_and!; try done; [intros Hq; by specialize (Hl' Hq)|intros _; by apply Hd].
  - split_and!; try done. intros c' [= <-].
    match goal with Hm : main_return _ _ = _ |- _ => apply main_return_code in Hm as [[-> ->]|[-> Hbr]]; auto end.
Qed.

Lemma lifecycle_run sh w p : rtc pstep (launch sh w) p -> lifecycle p.
Proof.
  intros Hr. apply (rtc_ind_r lifecycle) in Hr; [done|apply lifecycle_launch|].
  intros x y _ Hs. by apply lifecycle_step.
Qed.

(** What a turn of the seeder runs. *)
Definition turn (s : seeder) : E (Shim * W) unit :=
  match s with
  | Seeding => initial_seed
  | Beating => heartbeat cfg is_print lower range_targets k load
  | Stopped => mret tt
  end.

Lemma turn_step p :
  lifecycle p -> p_exit p = None -> p_seeder p <> Stopped -> (p_seeder p = Seeding -> 0 < interval)%Z ->
  pstep p {| p_listener := p_listener p; p_seeder := Beating; p_drainer := p_drainer p;
             p_signalled := p_signalled p; p_requests := p_requests p; p_exit := None;
             p_shim := (turn (p_seeder p) (p_shim p, p_world p)).2.1;
             p_world := (turn (p_seeder p) (p_shim p, p_world p)).2.2 |}.
Proof.
  destruct p as [l s d b rs ex sh w]. simpl. intros _ -> Hne Hpos. apply step_seeder.
  destruct (seed_goroutine_returns s sh w) as (r & ex & sh' & w' & Hg & Hc). rewrite Hg.
  destruct s; simpl in *; [| |done].
  - destruct Hc as [(-> & -> & _)|(_ & _ & _ & ?)]; [|specialize (Hpos eq_refl); lia].
    unfold mbind, E_bind in Hg. destruct (initial_seed _) as [[] [? ?]]; simplify_eq/=.
    by destruct (interval <=? 0)%Z; simplify_eq.
  - destruct Hc as [(-> & -> & _)|(_ & _ & ? & _)]; [|done].
    unfold mbind, E_bind in Hg. by destruct (heartbeat _ _ _ _ _ _ _) as [[] [? ?]]; simplify_eq/=.
Qed.

Lemma exit_only p p' c :
  lifecycle p -> pstep p p' -> p_exit p = None -> p_exit p' = Some c ->
  (c = 0%Z /\ p_listener p = ShutDown) \/ (c = 1%Z /\ exists e, p_listener p = Broken e) \/
  (c = 2%Z /\ p_seeder p = Seeding /\ (interval <= 0)%Z).
Proof.
  intros _ Hs _ He. destruct Hs; simpl in *; try done.
  - destruct (seed_goroutine_returns s sh w) as (? & ? & ? & ? & ? & Hc).
    match goal with H1 : seed_goroutine _ _ = _, H2 : seed_goroutine _ _ = _ |- _ => rewrite H1 in H2; simplify_eq end.
    destruct Hc as [(? & _)|(? & _ & ? & ?)]; simplify_eq. auto.
  - simplify_eq. 
    match goal with Hm : main_return _ _ = _ |- _ => apply main_return_code in Hm as [[-> ->]|[-> Hbr]]; auto end.
Qed.

(** C12: the life of the serving process, in every order its goroutines can
    run. Until the signal, and unless the listener itself fails, the kubelet
    endpoint accepts connections, however far the seeder is and whatever its
    passes returned, and for every request it has taken the handler can be
    called; a session whose process goes on is in progress until it ends. A pass
    never ends the process: whatever it meets, the seeder goes on to its
    next beat with the state the pass left, the listener and the requests
    being what they were. The process ends in three ways only: with 0 once the
    listener was shut down, which takes the signal, with 1 once the listener
    failed, and with 2 when the first pass is over and the heartbeat interval
    is not positive. After the signal it can end within two moves, the
    requests in progress being what they were: [main] does not wait for
    [srv.Shutdown], so the five seconds it grants to open sessions are not
    guaranteed to them. *)
Theorem shim_lifecycle sh w p :
  rtc pstep (launch sh w) p ->
  (p_signalled p = false ->
     p_listener p = Listening \/ exists e, p_listener p = Broken e) /\
  (p_exit p = None -> p_listener p = Listening -> forall n rq, p_requests p !! n = None ->
     rq_called rq = false -> exists p', pstep p p' /\ p_requests p' = <[n := rq]> (p_requests p)) /\
  (p_exit p = None -> forall n rq, p_requests p !! n = Some rq -> rq_called rq = false ->
     let '(res, w') := serve is_print duration rfc3339 encode encode_pods cfg k handshake upgrade (p_shim p)
                         (rq_query rq) (rq_endpoint rq) (p_world p) in
     exists p', pstep p p' /\ p_world p' = w' /\
       p_requests p' = if res is inr _ then delete n (p_requests p) else <[n := called rq]> (p_requests p)) /\
  (p_exit p = None -> p_seeder p <> Stopped -> (p_seeder p = Seeding -> 0 < interval)%Z ->
     pstep p {| p_listener := p_listener p; p_seeder := Beating; p_drainer := p_drainer p;
                p_signalled := p_signalled p; p_requests := p_requests p; p_exit := None;
                p_shim := (turn (p_seeder p) (p_shim p, p_world p)).2.1;
                p_world := (turn (p_seeder p) (p_shim p, p_world p)).2.2 |}) /\
  (forall p' c, pstep p p' -> p_exit p = None -> p_exit p' = Some c ->
     (c = 0%Z /\ p_listener p = ShutDown) \/ (c = 1%Z /\ exists e, p_listener p = Broken e) \/
     (c = 2%Z /\ p_seeder p = Seeding /\ (interval <= 0)%Z)) /\
  (forall c, p_exit p = Some c -> ended p c) /\
  (p_listener p = ShutDown -> p_signalled p = true) /\
  (p_exit p = None -> p_signalled p = true -> (forall e, p_listener p <> Broken e) ->
     exists p1 p2, rtc pstep p p1 /\ pstep p1 p2 /\ p_exit p2 = Some 0%Z /\ p_requests p2 = p_requests p).
Proof.
  intros Hr. pose proof (lifecycle_run _ _ _ Hr) as Hlc. pose proof Hlc as (Hl & Hl' & Hd & Hb & He).
  destruct p as [l s d b rs ex sh1 w1]. simpl in *. split_and!.
  - intros ->. destruct l; [by left| |eauto]. by specialize (Hd (Hl eq_refl)).
  - intros -> -> n rq Hn Hc. eexists. split; [by apply step_accept|done].
  - intros -> n rq Hn Hc. destruct (serve _ _ _ _ _ _ _ _ _ _ _ _ w1) as [res w'] eqn:Hsv.
    eexists. split; [by eapply step_serve|done].
  - intros Hx Hne Hp. exact (turn_step (mkProc l s d b rs ex sh1 w1) Hlc Hx Hne Hp).
  - intros p' c Hs Hx. exact (exit_only (mkProc l s d b rs ex sh1 w1) p' c Hlc Hs Hx).
  - done.
  - intros ->. by apply Hd, Hl.
  - intros -> -> Hnb. destruct l as [| |e]; [| |by destruct (Hnb e)].
    + rewrite (Hl' eq_refl). eexists _, _. split; [apply rtc_once, step_shutdown|].
      split; [by apply step_return|done].
    + eexists _, _. split; [apply rtc_refl|]. split; [by apply step_return|done].
Qed.
End Process.

(** The demo container of ExecDemo is asked for a shell and then told to
    stop: it can be gone with the session still open. *)
Module ProcDemo.
Import ExecDemo.

Definition step_ := pstep (S := string) (fun _ => true) id map_to_list (fun _ _ => "0s") (fun _ => "t") encode
  (fun _ => "") (cfg_of "shell" true) 20000000000 clients (mret tt) (mret (Some streams))
  (fun _ => throw (Errorf "no seed")).

Definition shell : pending :=
  {| rq_endpoint := Exec_ "default" "web" "main"; rq_query := sr_query (request "web" []);
     rq_called := false |}.

Definition before_stop : proc := mkProc Listening Seeding AwaitSignal true {[ 0 := shell ]} None shim0 w0.

Lemma reaches_stop : rtc step_ (launch shim0 w0) before_stop.
Proof.
  eapply rtc_l; [by apply (step_accept _ _ _ _ _ _ _ _ _ _ _ _ _ Seeding AwaitSignal false ∅ 0 shell)|].
  eapply rtc_l; [apply step_signal|]. apply rtc_refl.
Qed.

Lemma shim_lifecycle_witness :
  exists p, rtc step_ (launch shim0 w0) p /\ p_exit p = Some 0%Z /\ p_requests p = {[ 0 := shell ]}.
Proof.
  destruct (shim_lifecycle (S := string) (fun _ => true) id map_to_list (fun _ _ => "0s") (fun _ => "t") encode
    (fun _ => "") (cfg_of "shell" true) 20000000000 clients (mret tt) (mret (Some streams))
    (fun _ => throw (Errorf "no seed")) shim0 w0 before_stop reaches_stop) as (_ & _ & _ & _ & _ & _ & _ & Hstop).
  destruct (Hstop eq_refl eq_refl ltac:(done)) as (p1 & p2 & Hr & Hs & He & Hq). exists p2.
  split; [|split; [exact He|exact Hq]].
  etransitivity; [apply reaches_stop|]. eapply rtc_r; [exact Hr|exact Hs].
Defined.
End ProcDemo.
