(* ===== verification/Reconcile.v ===== *)
(** * internal/controller/decoy_controller.go: the reconciler

    [Reconcile] drives one Decoy to its desired state: Service, identity,
    joined pods and their mirrors, ConfigMap, claim, Deployment, network
    policy, kubeconfig, status. Every step of the Go function is here, in its
    order, with its error wrapping; the pieces are those of the other
    files. *)

From S2P Require Import Prelude GoStrings Json KubeTypes ApiTypes Kube Server.
From S2P Require Import CtrlUtil Host Certs Apply Metrics Notifier Hash Names.
From S2P Require Import DecoySecret Mirrors Join JoinedPods RenderSeed SeedJson.
From S2P Require Import Deploy.
#[local] Open Scope string_scope.
#[local] Open Scope list_scope.

(** The embedded client, one typed client per kind, and the other fields.
    [src/internal/controller/decoy_controller.go:110-133, DecoyReconciler] *)
Record DecoyReconciler (W : Type) := {
  r_decoys : Client W Decoy; r_services : Client W Service; r_secrets : Client W Secret;
  r_configmaps : Client W ConfigMap; r_deployments : Client W Deployment;
  r_networkpolicies : Client W NetworkPolicy; r_pvcs : Client W PersistentVolumeClaim;
  r_pods : Client W Pod;
  r_ManagerAuditWebhookURL : string;
  r_Notifier : option (DecoyRef -> NamespacedName -> bool -> E W unit);
  r_Recorder : option (Decoy -> string -> string -> string -> E W unit) }.
Arguments r_decoys {W}.
Arguments r_services {W}.
Arguments r_secrets {W}.
Arguments r_configmaps {W}.
Arguments r_deployments {W}.
Arguments r_networkpolicies {W}.
Arguments r_pvcs {W}.
Arguments r_pods {W}.
Arguments r_ManagerAuditWebhookURL {W}.
Arguments r_Notifier {W}.
Arguments r_Recorder {W}.

(** A computation on a world next to a local variable. *)
Definition beside {W S A} (c : E W A) : E (W * S) A := fun ws =>
  let '(r, w') := c ws.1 in (r, (w', ws.2)).

Definition current {W S} : E (W * S) S := fun ws => (inr ws.2, ws).

Definition assign {W S} (s : S) : E (W * S) unit := fun ws => (inr tt, (ws.1, s)).

Definition with_status (kt : Decoy) (st : DecoyStatus) : Decoy :=
  {| kt_Meta := kt_Meta kt; kt_Spec := kt_Spec kt; kt_Status := st |}.

(** The closures passed to [applyResource]. *)
Definition mutate_configmap (live desired : ConfigMap) : ConfigMap :=
  {| cm_Meta := cm_Meta live; cm_Data := cm_Data desired |}.
Definition mutate_deployment (live desired : Deployment) : Deployment :=
  {| d_Meta := d_Meta live; d_Spec := d_Spec desired; d_Status := d_Status live |}.
Definition mutate_service (live desired : Service) : Service :=
  {| svc_Meta := svc_Meta live;
     svc_Spec := {| ss_ClusterIP := ss_ClusterIP (svc_Spec live);
                    ss_Selector := ss_Selector (svc_Spec desired);
                    ss_Ports := ss_Ports (svc_Spec desired) |} |}.
Definition mutate_networkpolicy (live desired : NetworkPolicy) : NetworkPolicy :=
  {| np_Meta := np_Meta live; np_Spec := np_Spec desired |}.

Section Reconciler.
Context {W V : Type} `{Host W} `{Crypto W} `{RetryOnConflict} `{ControllerUtil} `{Vec V}.
(** The libraries of the renderings, and the process-wide metrics and log. *)
Context (yaml_Marshal : json -> error + string) (is_print : Z -> bool) (lower : Z -> Z).
Context (Quantity_IsZero : string -> bool).
Context (metrics : (@Registry V -> @Registry V) -> E W unit).
Context (Info : Z -> string -> list (string * string) -> E W unit).
(** The orders in which the runtime ranges over two maps. *)
Context (range_ns : gset string -> list string) (range_nn : gset NamespacedName -> list NamespacedName).
Context (r : DecoyReconciler W).

(** [src/internal/controller/decoy_controller.go:859-864, applyConfigMap] *)
Definition applyConfigMap (cm : ConfigMap) : E W unit :=
  _ ← applyResource (r_configmaps r) mutate_configmap cm; mret tt.

(** [src/internal/controller/decoy_controller.go:866-871, applyDeployment] *)
Definition applyDeployment (dep : Deployment) : E W unit :=
  _ ← applyResource (r_deployments r) mutate_deployment dep; mret tt.

(** [src/internal/controller/decoy_controller.go:873-886, applyService] *)
Definition applyService (svc : Service) : E W string :=
  live ← applyResource (r_services r) mutate_service svc;
  mret (ss_ClusterIP (svc_Spec live)).

(** [src/internal/controller/decoy_controller.go:922-927, applyNetworkPolicy] *)
Definition applyNetworkPolicy (np : NetworkPolicy) : E W unit :=
  _ ← applyResource (r_networkpolicies r) mutate_networkpolicy np; mret tt.

(** [src/internal/controller/decoy_controller.go:888-920, ensureDataPVC], for
    the persistence settings of the decoy. *)
Definition ensureDataPVC (kt : Decoy) (per : PersistenceSpec) : E W unit :=
  let name := kt_Name kt +:+ "-data" in
  g ← try_ (Get (r_pvcs r) (NN (kt_Namespace kt) name));
  match g with
  | inr _ => mret tt
  | inl err =>
      if negb (IsNotFound err) then throw err
      else
        let size := if Quantity_IsZero (per_Size per) then "1Gi" else per_Size per in
        m ← lift (SetControllerReference (kt_Meta kt)
                    (object_meta name (kt_Namespace kt) (commonLabels (kt_Name kt))));
        _ ← Create (r_pvcs r)
              {| pvc_Meta := m; pvc_AccessModes := ["ReadWriteOnce"];
                 pvc_StorageClassName := per_StorageClassName per; pvc_Storage := size |};
        mret tt
  end.

(** What the pod-template checksum covers: every file but the seed. *)
Definition rollout (data : gmap string string) : gmap string string := delete seedFileName data.

(** [src/internal/controller/decoy_controller.go:737-785, reconcileConfigMap] *)
Definition reconcileConfigMap (kt : Decoy) (name : string) (joined : list Pod)
    (decoyToken shimToken kcmToken : string) : E W string :=
  let managerURL := if r_ManagerAuditWebhookURL r ==? "" then defaultManagerAuditWebhookURL
                    else r_ManagerAuditWebhookURL r in
  data ← lift (renderConfigData yaml_Marshal is_print kt joined decoyToken shimToken kcmToken managerURL);
  m ← lift (SetControllerReference (kt_Meta kt)
              (object_meta name (kt_Namespace kt) (commonLabels (kt_Name kt))));
  _ ← applyConfigMap {| cm_Meta := m; cm_Data := data |};
  mret (checksum (Marshal (enc_map (rollout data)))).

(** [src/internal/controller/decoy_controller.go:710-735, reconcileKubeconfig] *)
Definition reconcileKubeconfig (kt : Decoy) (name : string) (secret : Secret) (server : string) : E W unit :=
  kubeconfig ← lift (renderKubeconfig yaml_Marshal (kt_Name kt) server
                       (sec_get secret "ca.crt") (sec_get secret "token"));
  if sec_get secret "kubeconfig" ==? kubeconfig then mret tt
  else
    _ ← retry_on_conflict (
          latest ← Get (r_secrets r) (NN (kt_Namespace kt) name);
          Update (r_secrets r) (sec_set "kubeconfig" kubeconfig latest));
    mret tt.

(** The NetworkPolicy of before the rename, when this decoy owns it.
    [src/internal/controller/decoy_controller.go:323-338, reconcile] *)
Definition prune_legacy_np (kt : Decoy) : E W unit :=
  g ← try_ (Get (r_networkpolicies r) (NN (kt_Namespace kt) (kt_Name kt)));
  match g with
  | inr legacyNP =>
      if IsControlledBy (np_Meta legacyNP) (kt_Meta kt) then
        d ← try_ (Delete (r_networkpolicies r) legacyNP);
        match d with
        | inr _ => mret tt
        | inl err => if IsNotFound err then mret tt
                     else throw (wrapf "pruning legacy network policy" err)
        end
      else mret tt
  | inl err => if IsNotFound err then mret tt
               else throw (wrapf "checking for legacy network policy" err)
  end.

Definition joined_status (p : Pod) : JoinedPod :=
  {| jp_Name := p_Name p; jp_Namespace := p_Namespace p; jp_Redirected := podIsRedirected p |}.

(** The phase, from the Deployment that was read. *)
Definition observed_phase (g : error + Deployment) : DecoyPhase :=
  match g with
  | inr dep => if bool_decide (0 < dst_ReadyReplicas (d_Status dep))%Z
               then DecoyPhaseReady else DecoyPhasePending
  | inl _ => DecoyPhasePending
  end.

(** The status [updateStatus] writes over the one it has fetched.
    [src/internal/controller/decoy_controller.go:979-992, updateStatus] *)
Definition reconciled_status (phase : DecoyPhase) (secretName server : string) (joined : list Pod)
    (now : Time) (kt : Decoy) : DecoyStatus :=
  {| st_Phase := phase; st_Endpoint := server; st_CredentialsSecret := secretName;
     st_ObservedGeneration := om_Generation (kt_Meta kt);
     st_JoinedPods := joined_status <$> joined;
     st_IntrusionActivity := st_IntrusionActivity (kt_Status kt);
     st_Conditions := SetStatusCondition now
       {| cond_Type := "Ready"; cond_Status := if phase ==? DecoyPhaseReady then "True" else "False";
          cond_Reason := phase; cond_Message := "Decoy is " +:+ phase;
          cond_ObservedGeneration := om_Generation (kt_Meta kt); cond_LastTransitionTime := 0 |}
       (st_Conditions (kt_Status kt)) |}.

(** [src/internal/controller/decoy_controller.go:929-997, updateStatus] *)
Definition updateStatus (kt : Decoy) (secretName server : string) (joined : list Pod) : E W unit :=
  let key := NN (kt_Namespace kt) (kt_Name kt) in
  g ← try_ (Get (r_deployments r) key);
  let phase := observed_phase g in
  _ ← (if phase !=? st_Phase (kt_Status kt)
       then Info 0%Z "Decoy phase changed" [("phase", phase); ("endpoint", server)]
       else Info 1%Z "reconciled Decoy" [("phase", phase); ("endpoint", server)]);
  let becameReady := (phase ==? DecoyPhaseReady) && (st_Phase (kt_Status kt) !=? DecoyPhaseReady) in
  _ ← metrics (SetPhase (kt_Namespace kt) (kt_Name kt) phase);
  _ ← metrics (set_JoinedPods (kt_Namespace kt) (kt_Name kt) (Z.of_nat (length joined)));
  kt' ← retry_on_conflict (
          kt ← Get (r_decoys r) key;
          now ← time_Now;
          StatusUpdate (r_decoys r)
            (with_status kt (reconciled_status phase secretName server joined now kt)));
  if becameReady then opt_call (r_Recorder r) (fun ev => ev kt' "Normal" "Ready" "Decoy is ready")
  else mret tt.

(** The status [markFailed] writes. *)
Definition failed_status (msg : string) (now : Time) (kt : Decoy) : DecoyStatus :=
  let st := kt_Status kt in
  {| st_Phase := DecoyPhaseFailed; st_Endpoint := st_Endpoint st;
     st_CredentialsSecret := st_CredentialsSecret st; st_ObservedGeneration := st_ObservedGeneration st;
     st_JoinedPods := st_JoinedPods st; st_IntrusionActivity := st_IntrusionActivity st;
     st_Conditions := SetStatusCondition now
       {| cond_Type := "Ready"; cond_Status := "False"; cond_Reason := "ReconcileFailed";
          cond_Message := msg; cond_ObservedGeneration := om_Generation (kt_Meta kt);
          cond_LastTransitionTime := 0 |} (st_Conditions st) |}.

(** One attempt of the closure in [markFailed]; [entered] and [kt] are
    variables outside it, which keep what an earlier attempt gave them. *)
Definition mark_attempt (name : NamespacedName) (reconcileErr : error)
    : E (W * (bool * option Decoy)) unit :=
  kt ← beside (Get (r_decoys r) name);
  if negb (bool_decide (om_DeletionTimestamp (kt_Meta kt) = None))
  then s ← current; assign (s.1, Some kt)
  else
    let entered := st_Phase (kt_Status kt) !=? DecoyPhaseFailed in
    _ ← beside (metrics (SetPhase (kt_Namespace kt) (kt_Name kt) DecoyPhaseFailed));
    now ← beside time_Now;
    let kt' := with_status kt (failed_status (e_Message reconcileErr) now kt) in
    _ ← assign (entered, Some kt');
    kt'' ← beside (StatusUpdate (r_decoys r) kt');
    assign (entered, Some kt'').

(** The closure retried, from [entered = false] and an empty [kt]. *)
Definition mark_retried (name : NamespacedName) (reconcileErr : error) : E W (bool * option Decoy) :=
  fun w =>
    let '(res, (w', s)) := retry_on_conflict (mark_attempt name reconcileErr) (w, (false, None)) in
    (match res with inl e => inl e | inr _ => inr s end, w').

(** [src/internal/controller/decoy_controller.go:160-195, markFailed] *)
Definition markFailed (name : NamespacedName) (reconcileErr : error) : E W unit :=
  res ← try_ (mark_retried name reconcileErr);
  match res with
  | inr (true, Some kt) =>
      opt_call (r_Recorder r) (fun ev => ev kt "Warning" "ReconcileFailed" (e_Message reconcileErr))
  | _ => mret tt
  end.

(** The part of [reconcile] for a Decoy that is being deleted.
    [src/internal/controller/decoy_controller.go:211-220, reconcile] *)
Definition reconcile_deleted (kt : Decoy) : E W unit :=
  if negb (ContainsFinalizer mirroredSecretsFinalizer (om_Finalizers (kt_Meta kt))) then mret tt
  else
    _ ← deleteMirroredSecrets (r_secrets r) kt;
    let '(fs, _) := RemoveFinalizer mirroredSecretsFinalizer (om_Finalizers (kt_Meta kt)) in
    _ ← Update (r_decoys r) (kt_with_finalizers kt fs);
    mret tt.

(** What follows the mirrors: ConfigMap, claim, Deployment, network policy,
    kubeconfig and status.
    [src/internal/controller/decoy_controller.go:292-348, reconcile] *)
Definition reconcile_children (kt : Decoy) (clusterIP : string) (secret : Secret) (joined : list Pod) : E W unit :=
  let secretName := decoySecretName (kt_Name kt) in
  let configCMName := kt_Name kt +:+ "-config" in
  configChecksum ← wrap_err "reconciling config configmap"
    (reconcileConfigMap kt configCMName joined (sec_get secret "token")
       (sec_get secret "shim.token") (sec_get secret "kcm.token"));
  _ ← match spec_Persistence (kt_Spec kt) with
      | Some per => wrap_err "reconciling data PVC" (ensureDataPVC kt per)
      | None => mret tt
      end;
  let dep := buildDeployment lower kt secretName configCMName configChecksum
               (checksum (sec_get secret "tls.crt")) clusterIP in
  dep_meta ← lift (SetControllerReference (kt_Meta kt) (d_Meta dep));
  _ ← wrap_err "reconciling deployment" (applyDeployment (with_meta dep dep_meta));
  let np := buildNetworkPolicy kt in
  np_meta ← lift (SetControllerReference (kt_Meta kt) (np_Meta np));
  _ ← wrap_err "reconciling network policy" (applyNetworkPolicy (with_meta np np_meta));
  _ ← (if om_Name (np_Meta np) !=? kt_Name kt then prune_legacy_np kt else mret tt);
  let server := "https://" +:+ serviceDNSName (kt_Name kt) (kt_Namespace kt) +:+ ":" +:+ Itoa (servicePort kt) in
  _ ← wrap_err "reconciling kubeconfig" (reconcileKubeconfig kt secretName secret server);
  updateStatus kt secretName server joined.

(** The part for a Decoy that is not.
    [src/internal/controller/decoy_controller.go:222-290, reconcile] *)
Definition reconcile_live (kt : Decoy) : E W unit :=
  svc_meta ← lift (SetControllerReference (kt_Meta kt) (svc_Meta (buildService kt)));
  clusterIP ← wrap_err "reconciling service" (applyService (with_meta (buildService kt) svc_meta));
  secret ← wrap_err "reconciling decoy secret"
    (reconcileSecret (r_secrets r) kt (decoySecretName (kt_Name kt)) clusterIP);
  let previousJoined := st_JoinedPods (kt_Status kt) in
  joined ← wrap_err "listing joined pods" (listJoinedPods (r_pods r) (r_decoys r) kt);
  _ ← reconcileJoinTransitions (r_Recorder r) (r_Notifier r)
        (range_nn (list_to_set (jp_key <$> previousJoined))) kt previousJoined joined;
  let wantMirrors := needsMirroredSecrets (kt_Namespace kt) joined in
  kt ← (if wantMirrors then wrap_err "adding mirrored-secrets finalizer"
          (setMirroredSecretsFinalizer (r_decoys r) kt true) else mret kt);
  _ ← wrap_err "reconciling joined-pod credentials secrets"
        (reconcileMirroredSecrets (r_secrets r) range_ns kt secret joined);
  kt ← (if negb wantMirrors then wrap_err "removing mirrored-secrets finalizer"
          (setMirroredSecretsFinalizer (r_decoys r) kt false) else mret kt);
  reconcile_children kt clusterIP secret joined.

(** [src/internal/controller/decoy_controller.go:197-348, reconcile] *)
Definition reconcile (req : NamespacedName) : E W unit :=
  g ← try_ (Get (r_decoys r) req);
  match g with
  | inl err =>
      if IsNotFound err then metrics (DeleteDecoy (nn_Namespace req) (nn_Name req)) else throw err
  | inr kt =>
      if negb (bool_decide (om_DeletionTimestamp (kt_Meta kt) = None))
      then reconcile_deleted kt else reconcile_live kt
  end.

(** [src/internal/controller/decoy_controller.go:146-158, Reconcile] *)
Definition Reconcile (req : NamespacedName) : E W unit :=
  res ← try_ (reconcile req);
  match res with
  | inl err =>
      _ ← metrics (inc_ReconcileErrors (nn_Namespace req) (nn_Name req));
      _ ← markFailed req err;
      throw err
  | inr _ => mret tt
  end.
End Reconciler.
