(* ===== verification/Guards.v ===== *)
(** * Mirrors are always guarded

    The safety of the cross-namespace clean-up, over the whole of
    [Reconcile]: in every world it can leave behind, on success and after
    any failed call, a decoy that has a mirror somewhere carries the
    finalizer that makes its deletion wait for the clean-up. *)

From S2P Require Import Prelude GoStrings Json KubeTypes ApiTypes Kube Server.
From S2P Require Import CtrlUtil Host NetIP Certs Apply Metrics Notifier Hash Names.
From S2P Require Import DecoySecret Mirrors Join JoinedPods RenderSeed SeedJson.
From S2P Require Import Deploy Reconcile.
#[local] Open Scope string_scope.
#[local] Open Scope list_scope.

(** A status update of a decoy changes its status only. *)
Definition status_updated {W} (dview : W -> gmap NamespacedName Decoy) (d : Decoy) (w w' : W) : Prop :=
  exists old d', dview w !! kt_key d = Some old /\ meta_sent (kt_Meta old) (kt_Meta d') /\
    om_DeletionTimestamp (kt_Meta d') = om_DeletionTimestamp (kt_Meta old) /\
    om_Generation (kt_Meta d') = om_Generation (kt_Meta old) /\
    kt_Spec d' = kt_Spec old /\ kt_Status d' = kt_Status d /\
    om_ResourceVersion (kt_Meta old) = om_ResourceVersion (kt_Meta d) /\
    dview w' = <[kt_key d := d']> (dview w).

(** The conditions of a stored decoy have distinct types: the CRD declares
    them a map with the key [type]
    (src/config/crd/bases/honeypod.io_decoys.yaml). *)
Class ServesStatus {W} (c : Client W Decoy) (dview : W -> gmap NamespacedName Decoy) : Prop := {
  serves_status : forall d w r w', StatusUpdate c d w = (r, w') ->
    (match r with inr _ => False | inl _ => dview w' = dview w end) \/ status_updated dview d w w';
  served_conditions : forall w k d, dview w !! k = Some d ->
    NoDup (cond_Type <$> st_Conditions (kt_Status d)) }.

Section Guards.
Context {W V : Type} `{Host W} `{Crypto W} `{RetryOnConflict} `{ControllerUtil} `{Vec V}.
Context (yaml_Marshal : json -> error + string) (is_print : Z -> bool) (lower : Z -> Z).
Context (Quantity_IsZero : string -> bool).
Context (metrics : (@Registry V -> @Registry V) -> E W unit).
Context (Info : Z -> string -> list (string * string) -> E W unit).
Context (range_ns : gset string -> list string) (range_nn : gset NamespacedName -> list NamespacedName).
Context (r : DecoyReconciler W).

Context `{!RetryLaws, !ControllerUtilLaws}.
Context (sview : W -> gmap NamespacedName Secret) `{!Serves sview secret_body (r_secrets r)}.
Context (dview : W -> gmap NamespacedName Decoy) `{!Serves dview decoy_body (r_decoys r)}.
Context `{!ServesStatus (r_decoys r) dview, !Leaves (r_secrets r) dview, !Leaves (r_decoys r) sview}.

(** The Secrets and the Decoys of a world. *)
Definition both (w : W) : gmap NamespacedName Secret * gmap NamespacedName Decoy := (sview w, dview w).

(** Nothing but the two clients writes Secrets and Decoys. *)
Context `{!Leaves (r_services r) both, !Leaves (r_configmaps r) both, !Leaves (r_deployments r) both,
          !Leaves (r_networkpolicies r) both, !Leaves (r_pvcs r) both, !Leaves (r_pods r) both,
          !CryptoLeaves both}.
Context (now_keeps : keeps both time_Now) (metrics_keeps : forall f, keeps both (metrics f))
        (info_keeps : forall v m kv, keeps both (Info v m kv)).
Context (recorder_keeps : forall f, r_Recorder r = Some f -> forall a b c d, keeps both (f a b c d))
        (notifier_keeps : forall f, r_Notifier r = Some f -> forall a b c, keeps both (f a b c)).
Context (range_perm : forall X, range_ns X ≡ₚ elements X).

Abbreviation guarded := (Mirrors.guarded sview dview).

Lemma keeps_both {A} (c : E W A) : keeps sview c -> keeps dview c -> keeps both c.
Proof. intros Hs Hd w. unfold both. by rewrite (Hs w), (Hd w). Qed.

Lemma keeps_both_inv {A} (c : E W A) : keeps both c -> keeps sview c /\ keeps dview c.
Proof. intros Hk. split; intros w; specialize (Hk w); unfold both in Hk; congruence. Qed.

Lemma secrets_get_keeps k : keeps both (Get (r_secrets r) k).
Proof using All.
  apply keeps_both; [|apply leaves_get]. intros w. destruct (Get _ k w) eqn:E. by apply (serves_get sview _) in E as [? _].
Qed.

Lemma secrets_list_keeps lo : keeps both (List_ (r_secrets r) lo).
Proof using All.
  apply keeps_both; [|apply leaves_list]. intros w. destruct (List_ _ lo w) eqn:E. by apply (serves_list sview _) in E as [? _].
Qed.

Lemma decoys_get_keeps k : keeps both (Get (r_decoys r) k).
Proof using All.
  apply keeps_both; [apply leaves_get|]. intros w. destruct (Get _ k w) eqn:E. by apply (serves_get dview _) in E as [? _].
Qed.

Lemma decoys_list_keeps lo : keeps both (List_ (r_decoys r) lo).
Proof using All.
  apply keeps_both; [apply leaves_list|]. intros w. destruct (List_ _ lo w) eqn:E. by apply (serves_list dview _) in E as [? _].
Qed.

#[local] Hint Resolve secrets_get_keeps secrets_list_keeps decoys_get_keeps decoys_list_keeps
  now_keeps metrics_keeps info_keeps : keeps.

Lemma opt_call_recorder_keeps k :
  (forall f, r_Recorder r = Some f -> keeps both (k f)) -> keeps both (opt_call (r_Recorder r) k).
Proof. intros Hk. unfold opt_call. destruct (r_Recorder r) eqn:E; [by apply Hk|]. apply keeps_ret. Qed.

Lemma opt_call_notifier_keeps k :
  (forall f, r_Notifier r = Some f -> keeps both (k f)) -> keeps both (opt_call (r_Notifier r) k).
Proof. intros Hk. unfold opt_call. destruct (r_Notifier r) eqn:E; [by apply Hk|]. apply keeps_ret. Qed.

Lemma applyResource_keeps {O} `{Object O} (c : Client W O) mutate o :
  Leaves c both -> keeps both (applyResource c mutate o).
Proof using All. intros. unfold applyResource. keep. Qed.

Lemma transition_keeps kt t : keeps both (transition (r_Recorder r) (r_Notifier r) kt t).
Proof using All.
  unfold transition. destruct t as [key []]; apply keeps_bind.
  - apply opt_call_recorder_keeps. eauto.
  - intros _. apply opt_call_notifier_keeps. eauto.
  - apply opt_call_recorder_keeps. eauto.
  - intros _. apply opt_call_notifier_keeps. eauto.
Qed.

Lemma transitions_keep order kt prev cur :
  keeps both (reconcileJoinTransitions (r_Recorder r) (r_Notifier r) order kt prev cur).
Proof using All. pose proof transition_keeps. unfold reconcileJoinTransitions. keep. Qed.

Lemma join_loop_keeps kt memo l : keeps both (join_loop (r_decoys r) kt memo l).
Proof using All.
  revert memo. induction l as [|p l IH]; intros memo; simpl; [apply keeps_ret|].
  unfold resolveImplicit. keep.
Qed.

Lemma listJoinedPods_keeps kt : keeps both (listJoinedPods (r_pods r) (r_decoys r) kt).
Proof using All. pose proof join_loop_keeps. unfold listJoinedPods. keep. Qed.

(** What a computation keeps, it may be given as a pre- and postcondition. *)
Lemma triple_keep {A} (c : E W A) (P : gmap NamespacedName Secret -> gmap NamespacedName Decoy -> Prop) :
  keeps both c ->
  triple (fun w => P (sview w) (dview w)) c (fun _ w => P (sview w) (dview w)) (fun w => P (sview w) (dview w)).
Proof. intros Hk. by apply (triple_keeps both c (fun p => P p.1 p.2)). Qed.

(** The assertion carried through a step that does not concern Decoys. *)
Definition safe (md : gmap NamespacedName Decoy) (w : W) : Prop :=
  guarded_in (sview w) md /\ dview w = md.

Lemma triple_safe {A} (c : E W A) md : keeps both c -> triple (safe md) c (fun _ => safe md) (safe md).
Proof. intros Hk. by apply (triple_keep c (fun ms md' => guarded_in ms md /\ md' = md)). Qed.

(** The stored Secret, if there is one, has the labels of [s]. *)
Definition at_rest (s : Secret) (ms : gmap NamespacedName Secret) : Prop :=
  ms !! key_of s = None \/
  exists s0, ms !! key_of s = Some s0 /\ om_Labels (sec_Meta s0) = om_Labels (sec_Meta s).

(** Overwriting a Secret without touching its labels makes no mirror. *)
Lemma replaced_safe md s s' w w' :
  safe md w -> at_rest s (sview w) -> replaced sview secret_body s s' w w' ->
  guarded_in (sview w') md /\ at_rest s' (sview w').
Proof.
  intros [Hg Hd] Hr (old & Hold & (Hm & _ & Hdel) & _ & Hw).
  destruct Hr as [Hr|(s0 & Hs0 & Hl)]; [congruence|]. rewrite Hs0 in Hold. injection Hold as <-.
  simpl in Hdel. assert (Hk : key_of s' = key_of s) by (by apply meta_sent_key in Hm).
  destruct Hm as (_ & _ & Hlab & _). simpl in Hlab. split.
  - intros k key x Hx Hmir. destruct Hw as [Hw|(_ & _ & Hw)]; rewrite Hw in Hx.
    + apply lookup_insert_Some in Hx as [[<- <-]|[_ Hx]]; [|by eapply Hg].
      apply (Hg k (key_of s) s0 Hs0). destruct Hmir as (H1m & H2m & H3m). rewrite Hlab in H1m, H2m.
      split_and!; congruence.
    + apply lookup_delete_Some in Hx as [_ Hx]. by eapply Hg.
  - unfold at_rest. rewrite Hk. destruct Hw as [->|(_ & _ & ->)]; [right|left; apply lookup_delete_eq].
    exists s'. split; [apply lookup_insert_eq|done].
Qed.

Lemma update_secret_safe md s :
  triple (fun w => safe md w /\ at_rest s (sview w)) (Update (r_secrets r) s)
    (fun s' w => safe md w /\ at_rest s' (sview w)) (safe md).
Proof using All.
  intros w [Hs Hr]. pose proof (leaves_update (c := r_secrets r) (view := dview) s w) as Hd.
  destruct (Update (r_secrets r) s w) as [[e|s'] w'] eqn:E; simpl in Hd;
    apply (serves_update sview _) in E; unfold safe in *; rewrite Hd.
  - destruct E as [->|(s' & E)]; [tauto|]. split; [|tauto]. by eapply replaced_safe.
  - destruct (replaced_safe md s s' w w') as [? ?]; try done. tauto.
Qed.

(** Reading a Secret before writing it. *)
Lemma get_secret_safe md key :
  triple (safe md) (Get (r_secrets r) key) (fun s w => safe md w /\ at_rest s (sview w)) (safe md).
Proof using All.
  intros w Hs. pose proof (leaves_get (c := r_secrets r) (view := dview) key w) as Hd.
  destruct (Get (r_secrets r) key w) as [[e|s] w'] eqn:E; simpl in Hd;
    apply (serves_get sview _) in E as [Hv Hg]; unfold safe in *; rewrite Hd, Hv; [done|].
  split; [done|]. right. exists s. by rewrite (serves_key sview _ _ _ _ Hg).
Qed.

Lemma GenerateCA_both cn : keeps both (GenerateCA cn).
Proof using All. by apply GenerateCA_keeps. Qed.
Lemma IssueServerCert_both a b l : keeps both (IssueServerCert a b l).
Proof using All. by apply IssueServerCert_keeps. Qed.
Lemma sakey_both : keeps both GenerateServiceAccountSigningKey.
Proof using All. by apply GenerateServiceAccountSigningKey_keeps. Qed.
Lemma generateToken_both : keeps both generateToken.
Proof using All. unfold generateToken. keep. Qed.

#[local] Hint Resolve GenerateCA_both IssueServerCert_both sakey_both generateToken_both : keeps.

Lemma triple_rest {A} (c : E W A) md s : keeps both c ->
  triple (fun w => safe md w /\ at_rest s (sview w)) c (fun _ w => safe md w /\ at_rest s (sview w)) (safe md).
Proof.
  intros Hk. eapply triple_conseq;
    [apply (triple_keep c (fun ms md' => (guarded_in ms md /\ md' = md) /\ at_rest s ms) Hk)|done|done|].
  by intros w [Hx _].
Qed.

Lemma backfill_safe md s :
  triple (fun w => safe md w /\ at_rest s (sview w)) (backfill_kcm (r_secrets r) s)
    (fun s' w => safe md w /\ at_rest s' (sview w)) (safe md).
Proof using All.
  unfold backfill_kcm. case_bool_decide; [|by apply triple_ret].
  eapply triple_bind; [apply triple_rest; keep|]. intros t. apply triple_wrap.
  apply (update_secret_safe md (sec_set "kcm.token" t s)).
Qed.

Lemma reissue_safe md kt s ip :
  triple (fun w => safe md w /\ at_rest s (sview w)) (reissueServingCert (r_secrets r) kt s ip)
    (fun _ => safe md) (safe md).
Proof using All.
  unfold reissueServingCert. eapply triple_bind; [apply triple_rest; unfold signing_ca; keep|].
  intros [ca key]. eapply triple_bind; [apply triple_rest; keep|]. intros [leaf lkey]. apply triple_wrap.
  eapply triple_conseq; [apply update_secret_safe|intros w Hx; exact Hx|by intros a w [Hx _]|done].
Qed.

(** Creating a Secret with the operator's common labels makes no mirror. *)
Lemma create_secret_safe md kt name ip :
  triple (safe md) (create_secret (r_secrets r) kt name ip) (fun _ => safe md) (safe md).
Proof using All.
  unfold create_secret.
  do 3 (eapply triple_bind; [apply triple_safe; keep|intros ?]).
  eapply triple_bind; [apply triple_safe; keep|intros [ca key]].
  eapply triple_bind; [apply triple_safe; keep|intros [leaf lkey]].
  eapply triple_bind; [apply triple_safe; keep|intros [pub priv]].
  eapply triple_bind with (R := fun m w => safe md w /\ om_Labels m = commonLabels (kt_Name kt)).
  { apply triple_lift; [|done]. intros m w Hm Hs. split; [done|]. apply set_controller in Hm as [-> _]. done. }
  intros m w [Hs Hl]. set (s := {| sec_Meta := m |}).
  pose proof (leaves_create (c := r_secrets r) (view := dview) s w) as Hd.
  assert (Hc : forall s' w', created sview secret_body s s' w w' -> guarded_in (sview w') md).
  { intros s' w' (_ & (Hm & _) & Hw) k key0 x Hx Hmir. rewrite Hw in Hx.
    apply lookup_insert_Some in Hx as [[_ <-]|[_ Hx]]; [|by eapply (proj1 Hs)].
    destruct Hm as (_ & _ & Hlab & _). simpl in Hlab. destruct Hmir as (Hmir & _). rewrite Hlab, Hl in Hmir. done. }
  destruct (Create (r_secrets r) s w) as [[e|s'] w'] eqn:E; simpl in Hd;
    apply (serves_create sview _) in E; destruct Hs as [Hg Hdv]; unfold safe; rewrite Hd.
  - destruct E as [->|(s' & E)]; [done|]. split; [by eapply Hc|done].
  - split; [by eapply Hc|done].
Qed.

Lemma reconcileSecret_safe md kt name ip :
  triple (safe md) (reconcileSecret (r_secrets r) kt name ip) (fun _ => safe md) (safe md).
Proof using All.
  unfold reconcileSecret.
  eapply triple_bind with (R := fun g w => safe md w /\ match g with inr s => at_rest s (sview w) | inl _ => True end).
  { apply triple_try with (X := fun _ => True). eapply triple_conseq; [apply get_secret_safe|done|done|]. by intros w Hx e. }
  intros [err|s].
  - destruct (negb (IsNotFound err)); [apply triple_throw; by intros w []|].
    eapply triple_conseq; [apply create_secret_safe|by intros w []|done|done].
  - eapply triple_bind; [apply backfill_safe|]. intros s1. destruct (_ || _).
    + apply triple_ret. by intros w [].
    + apply reissue_safe.
Qed.

Lemma reconcileKubeconfig_safe md kt name secret server :
  triple (safe md) (reconcileKubeconfig yaml_Marshal r kt name secret server) (fun _ => safe md) (safe md).
Proof using All.
  unfold reconcileKubeconfig. eapply triple_bind; [apply triple_safe; keep|]. intros kc.
  case_bool_decide; [by apply triple_ret|]. eapply triple_bind with (R := fun _ => safe md); [|intros ?; by apply triple_ret].
  apply triple_retry. eapply triple_bind; [apply get_secret_safe|]. intros latest.
  eapply triple_conseq; [apply (update_secret_safe md (sec_set "kubeconfig" kc latest))|intros w Hx; exact Hx|by intros a w []|done].
Qed.

(** ** The finalizer *)

(** The Decoy in memory is the stored one. *)
Definition fresh (kt : Decoy) (w : W) : Prop := guarded w /\ dview w !! kt_key kt = Some kt.

Lemma fresh_safe kt w : fresh kt w <-> exists md, safe md w /\ md !! kt_key kt = Some kt.
Proof.
  unfold fresh, safe, Mirrors.guarded. split; [|naive_solver]. intros [Hg Hd]. by exists (dview w).
Qed.

(** A step that is safe for every map of Decoys keeps [fresh]. *)
Lemma triple_fresh {A} (c : E W A) kt :
  (forall md, triple (safe md) c (fun _ => safe md) (safe md)) ->
  triple (fresh kt) c (fun _ => fresh kt) guarded.
Proof.
  intros Hc w (md & Hs & Hk)%fresh_safe. specialize (Hc md w Hs). destruct (c w) as [[e|a] w'].
  - destruct Hc as [Hg Hd]. unfold Mirrors.guarded. by rewrite Hd.
  - apply fresh_safe. eauto.
Qed.

Lemma triple_guarded {A} (c : E W A) :
  (forall md, triple (safe md) c (fun _ => safe md) (safe md)) ->
  triple guarded c (fun _ => guarded) guarded.
Proof.
  intros Hc w Hg. specialize (Hc (dview w) w (conj Hg eq_refl)). unfold Mirrors.guarded.
  destruct (c w) as [[e|a] w']; destruct Hc as [Hg' Hd]; by rewrite Hd.
Qed.

(** An update of the decoy [kt] with other finalizers: the others keep
    their guards, and its own mirrors need [fs] to hold the finalizer. *)
Lemma update_finalizers_guarded kt fs :
  triple (fun w => fresh kt w /\ (mirroredSecretsFinalizer ∈ fs \/ no_mirror (kt_key kt) (sview w)))
    (Update (r_decoys r) (kt_with_finalizers kt fs))
    (fun kt' w => guarded w /\ kt_key kt' = kt_key kt /\
       (mirroredSecretsFinalizer ∈ fs -> guard (kt_key kt) (dview w))) guarded.
Proof using All.
  intros w [[Hg Hk] Hor]. pose proof (leaves_update (c := r_decoys r) (view := sview) (kt_with_finalizers kt fs) w) as Hs.
  set (kt1 := kt_with_finalizers kt fs) in *.
  assert (Hrep : forall kt' w', sview w' = sview w -> replaced dview decoy_body kt1 kt' w w' ->
    guarded w' /\ kt_key kt' = kt_key kt /\ (mirroredSecretsFinalizer ∈ fs -> guard (kt_key kt) (dview w'))).
  { intros kt' w' Hs' (old & Hold & (Hm & _) & _ & Hw).
    assert (Hkey : key_of kt1 = kt_key kt) by done. rewrite Hkey in *.
    assert (Hfin : om_Finalizers (kt_Meta kt') = fs).
    { destruct Hm as (_ & _ & _ & _ & _ & Hf). exact Hf. }
    assert (Hgd : mirroredSecretsFinalizer ∈ fs -> guard (kt_key kt) (dview w')).
    { intros Hin. destruct Hw as [Hw|(_ & Hnil & _)].
      - exists kt'. rewrite Hw, lookup_insert_eq, Hfin. done.
      - simpl in Hnil. rewrite Hnil in Hin. by apply not_elem_of_nil in Hin. }
    split_and!; [|by apply meta_sent_key in Hm|done].
    intros k key x Hx Hmir. rewrite Hs' in Hx. destruct (decide (k = kt_key kt)) as [->|Hne].
    - destruct Hor as [Hin|Hno]; [by apply Hgd|]. by destruct (Hno _ _ Hx).
    - destruct (Hg _ _ _ Hx Hmir) as (d & Hd & Hin). exists d. split; [|done].
      destruct Hw as [->|(_ & _ & ->)]; [by rewrite lookup_insert_ne|by rewrite lookup_delete_ne]. }
  destruct (Update (r_decoys r) kt1 w) as [[e|kt'] w'] eqn:E; simpl in Hs;
    apply (serves_update dview _) in E; [|by apply Hrep].
  destruct E as [Hd|(kt' & E)]; [|by destruct (Hrep kt' w' Hs E)].
  unfold Mirrors.guarded. by rewrite Hs, Hd.
Qed.

Lemma add_finalizer_guarded kt :
  triple (fresh kt) (setMirroredSecretsFinalizer (r_decoys r) kt true)
    (fun kt' w => guarded w /\ kt_key kt' = kt_key kt /\ guard (kt_key kt) (dview w)) guarded.
Proof using All.
  unfold setMirroredSecretsFinalizer.
  destruct (add_finalizer mirroredSecretsFinalizer (om_Finalizers (kt_Meta kt))) as (Hch & Hin & Hsame).
  destruct (AddFinalizer _ _) as [fs ch]. simpl in *.
  assert (Hf : mirroredSecretsFinalizer ∈ fs) by (apply Hin; by left).
  destruct ch; simpl.
  - eapply triple_conseq; [apply update_finalizers_guarded|by intros w Hw; split; [|left]| |done].
    intros a w (? & ? & ?). auto.
  - apply triple_ret. intros w [Hg Hk]. split_and!; [done|done|]. exists kt. split; [done|].
    rewrite <- (Hsame eq_refl). done.
Qed.

Lemma remove_finalizer_guarded kt :
  triple (fun w => fresh kt w /\ no_mirror (kt_key kt) (sview w))
    (setMirroredSecretsFinalizer (r_decoys r) kt false) (fun _ => guarded) guarded.
Proof using All.
  unfold setMirroredSecretsFinalizer. destruct (RemoveFinalizer _ _) as [fs ch]. destruct ch; simpl.
  - eapply triple_conseq; [apply (update_finalizers_guarded kt fs)|by intros w []; split; [|right]| |done].
    by intros a w (? & _).
  - apply triple_ret. by intros w [[? _] _].
Qed.

(** ** Deletion *)

Lemma deleteMirroredSecrets_guarded kt :
  triple (fresh kt) (deleteMirroredSecrets (r_secrets r) kt)
    (fun _ w => fresh kt w /\ no_mirror (kt_key kt) (sview w)) guarded.
Proof using All.
  intros w [Hg Hk]. unfold deleteMirroredSecrets, mbind, E_bind, wrap_err.
  pose proof (secrets_list_keeps (mirror_selector kt) w) as Hb.
  destruct (List_ (r_secrets r) (mirror_selector kt) w) as [[e|all] w1] eqn:E; simpl in Hb; unfold both in Hb;
    injection Hb as Hs Hd; [unfold Mirrors.guarded; by rewrite Hs, Hd|].
  apply (serves_list sview _) in E as [_ [_ Hall]].
  destruct (for_each _ all w1) as [res w2] eqn:E2.
  apply (delete_mirrors_run (r_secrets r) (r_decoys r) sview dview) in E2 as (Hd2 & _ & Hm2).
  assert (Hg2 : guarded w2).
  { intros k key x Hx Hmir. destruct (Hm2 _ _ _ Hx Hmir) as [Hx1 _]. rewrite Hs in Hx1. rewrite Hd2, Hd. by eapply Hg. }
  destruct res as [e|[]]; [done|]. split; [split; [done|by rewrite Hd2, Hd]|].
  intros key x Hx Hmir. destruct (Hm2 _ _ _ Hx Hmir) as [Hx1 Hn]. apply (Hn eq_refl).
  rewrite Hs in Hx1. apply list_elem_of_fmap. exists x. pose proof (serves_key sview _ _ _ _ Hx1) as Hkx.
  split; [done|]. apply Hall. rewrite Hkx. split; [done|]. apply mirror_selector_match.
  by destruct Hmir as (? & ? & _).
Qed.

Lemma reconcile_deleted_guarded kt :
  triple (fresh kt) (reconcile_deleted r kt) (fun _ => guarded) guarded.
Proof using All.
  unfold reconcile_deleted. destruct (negb _); [apply triple_ret; by intros w []|].
  eapply triple_bind; [apply deleteMirroredSecrets_guarded|]. intros ?.
  destruct (RemoveFinalizer _ _) as [fs ch].
  eapply triple_bind with (R := fun _ => guarded); [|intros ?; by apply triple_ret].
  eapply triple_conseq; [apply (update_finalizers_guarded kt fs)|by intros w []; split; [|right]| |done].
  by intros ? w (? & _).
Qed.

(** ** The status *)

Lemma status_update_guarded d :
  triple guarded (StatusUpdate (r_decoys r) d) (fun _ => guarded) guarded.
Proof using All.
  intros w Hg. pose proof (leaves_status (c := r_decoys r) (view := sview) d w) as Hs.
  assert (Hu : forall w', sview w' = sview w -> status_updated dview d w w' -> guarded w').
  { intros w' Hs' (old & d' & Hold & Hm & _ & _ & _ & _ & _ & Hw) k key x Hx Hmir. rewrite Hs' in Hx.
    destruct (Hg _ _ _ Hx Hmir) as (e & He & Hin). destruct (decide (k = kt_key d)) as [->|Hne].
    - exists d'. rewrite Hw, lookup_insert_eq. split; [done|]. rewrite Hold in He. injection He as <-.
      by destruct Hm as (_ & _ & _ & _ & _ & ->).
    - exists e. by rewrite Hw, lookup_insert_ne. }
  destruct (StatusUpdate (r_decoys r) d w) as [res w'] eqn:E; simpl in Hs.
  apply serves_status in E as [E|E]; destruct res; try done; try by apply Hu.
  unfold Mirrors.guarded. by rewrite Hs, E.
Qed.

Lemma updateStatus_guarded kt sn server joined :
  triple guarded (updateStatus metrics Info r kt sn server joined) (fun _ => guarded) guarded.
Proof using All.
  unfold updateStatus.
  eapply triple_bind with (R := fun _ => guarded); [apply triple_guarded; intros; apply triple_safe; keep|]. intros g.
  eapply triple_bind with (R := fun _ => guarded); [apply triple_guarded; intros; apply triple_safe; keep|]. intros ?.
  do 2 (eapply triple_bind with (R := fun _ => guarded); [apply triple_guarded; intros; apply triple_safe; keep|]; intros ?).
  eapply triple_bind with (R := fun _ => guarded).
  - apply triple_retry.
    do 2 (eapply triple_bind with (R := fun _ => guarded); [apply triple_guarded; intros; apply triple_safe; keep|]; intros ?).
    apply status_update_guarded.
  - intros kt'. destruct (_ && _); [|by apply triple_ret].
    apply triple_guarded; intros; apply triple_safe. apply opt_call_recorder_keeps. eauto.
Qed.

(** The same next to a local variable. *)
Lemma triple_beside {S A} (c : E W A) (I : W -> Prop) (Q : A -> W -> Prop) :
  triple I c Q I -> triple (fun ws : W * S => I ws.1) (beside c) (fun a ws => Q a ws.1) (fun ws => I ws.1).
Proof.
  intros Hc [w s] HI. unfold beside. specialize (Hc w HI). simpl. by destruct (c w) as [[e|a] w'].
Qed.

Lemma mark_attempt_guarded name e :
  triple (fun ws => guarded ws.1) (mark_attempt metrics r name e) (fun _ ws => guarded ws.1)
    (fun ws => guarded ws.1).
Proof using All.
  unfold mark_attempt.
  eapply triple_bind with (R := fun _ ws => guarded ws.1).
  { apply (triple_beside _ guarded (fun _ => guarded)). apply triple_guarded; intros; apply triple_safe; keep. }
  intros kt. case_bool_decide; simpl.
  - eapply triple_bind with (R := fun _ ws => guarded ws.1).
    { apply (triple_beside _ guarded (fun _ => guarded)). apply triple_guarded; intros; apply triple_safe; keep. }
    intros ?. eapply triple_bind with (R := fun _ ws => guarded ws.1).
    { apply (triple_beside _ guarded (fun _ => guarded)). apply triple_guarded; intros; apply triple_safe; keep. }
    intros now. eapply triple_bind with (R := fun _ ws => guarded ws.1); [by intros [w s]|].
    intros ?. eapply triple_bind with (R := fun _ ws => guarded ws.1); [|by intros ? [w s]].
    apply (triple_beside _ guarded (fun _ => guarded)), status_update_guarded.
  - eapply triple_bind with (R := fun _ ws => guarded ws.1); [by intros [w s]|]. by intros ? [w s].
Qed.

Lemma markFailed_guarded name e :
  triple guarded (markFailed metrics r name e) (fun _ => guarded) guarded.
Proof using All.
  unfold markFailed. eapply triple_bind with (R := fun _ => guarded).
  - apply triple_try with (X := fun _ => True). intros w Hg. unfold mark_retried.
    pose proof (triple_retry _ _ _ (mark_attempt_guarded name e) (w, (false, None)) Hg) as Ht.
    destruct (retry_on_conflict _ _) as [[e'|u] [w' s]]; done.
  - intros [err|[[] [kt|]]]; try by apply triple_ret.
    apply triple_guarded; intros; apply triple_safe. apply opt_call_recorder_keeps. eauto.
Qed.

(** ** The whole reconcile *)

Lemma mirrors_guarded kt secret joined :
  triple (fun w => guarded w /\ guard (kt_key kt) (dview w))
    (reconcileMirroredSecrets (r_secrets r) range_ns kt secret joined) (fun _ => guarded) guarded.
Proof using All.
  intros w [Hg Hgd]. destruct (reconcileMirroredSecrets _ _ _ _ _ w) as [res w'] eqn:E.
  apply (reconcileMirroredSecrets_run (r_secrets r) (r_decoys r) sview dview) in E as (Hd & Hm & _); [|done].
  assert (Hg' : guarded w').
  { intros k key x Hx Hmir. rewrite Hd. destruct (Hm _ _ _ Hx Hmir) as [Hx0|[-> _]]; [by eapply Hg|done]. }
  by destruct res.
Qed.

Lemma no_mirrors_guarded kt secret joined :
  needsMirroredSecrets (kt_Namespace kt) joined = false ->
  triple (fresh kt) (reconcileMirroredSecrets (r_secrets r) range_ns kt secret joined)
    (fun _ w => fresh kt w /\ no_mirror (kt_key kt) (sview w)) guarded.
Proof using All.
  intros Hn w [Hg Hk]. apply needsMirroredSecrets_needed in Hn.
  destruct (reconcileMirroredSecrets _ _ _ _ _ w) as [res w'] eqn:E.
  apply (reconcileMirroredSecrets_run (r_secrets r) (r_decoys r) sview dview) in E as (Hd & Hm & Hex & _); [|done].
  assert (Hg' : guarded w').
  { intros k key x Hx Hmir. rewrite Hd. destruct (Hm _ _ _ Hx Hmir) as [Hx0|[_ Hne]]; [by eapply Hg|]. by rewrite Hn in Hne. }
  destruct res as [e|[]]; [done|]. split; [split; [done|by rewrite Hd]|].
  intros key x Hx Hmir. specialize (Hex eq_refl _ _ Hx Hmir). rewrite Hn in Hex. by apply not_elem_of_empty in Hex.
Qed.

Lemma keep_guarded {A} (c : E W A) : keeps both c -> triple guarded c (fun _ => guarded) guarded.
Proof. intros Hk. apply triple_guarded. intros. by apply triple_safe. Qed.

Lemma reconcile_children_guarded kt ip secret joined :
  triple guarded (reconcile_children yaml_Marshal is_print lower Quantity_IsZero metrics Info r kt ip secret joined)
    (fun _ => guarded) guarded.
Proof using All.
  assert (Hcm : forall cm, keeps both (applyConfigMap r cm)).
  { intros. unfold applyConfigMap. apply keeps_bind; [by apply applyResource_keeps|keep]. }
  assert (Hdep : forall d, keeps both (applyDeployment r d)).
  { intros. unfold applyDeployment. apply keeps_bind; [by apply applyResource_keeps|keep]. }
  assert (Hnp : forall n, keeps both (applyNetworkPolicy r n)).
  { intros. unfold applyNetworkPolicy. apply keeps_bind; [by apply applyResource_keeps|keep]. }
  unfold reconcile_children.
  eapply triple_bind; [apply keep_guarded; unfold reconcileConfigMap; keep|]. intros cc.
  eapply triple_bind; [apply keep_guarded; unfold ensureDataPVC; keep|]. intros ?.
  eapply triple_bind; [apply keep_guarded; keep|]. intros dm.
  eapply triple_bind; [apply keep_guarded; keep|]. intros ?.
  eapply triple_bind; [apply keep_guarded; keep|]. intros nm.
  eapply triple_bind; [apply keep_guarded; keep|]. intros ?.
  eapply triple_bind; [apply keep_guarded; unfold prune_legacy_np; keep|]. intros ?.
  eapply triple_bind; [apply triple_wrap, triple_guarded; intros; apply reconcileKubeconfig_safe|]. intros ?.
  apply updateStatus_guarded.
Qed.

Lemma reconcile_live_guarded kt :
  triple (fresh kt) (reconcile_live yaml_Marshal is_print lower Quantity_IsZero metrics Info range_ns range_nn r kt)
    (fun _ => guarded) guarded.
Proof using All.
  pose proof listJoinedPods_keeps as Hlist. pose proof transitions_keep as Htr.
  unfold reconcile_live.
  eapply triple_bind; [apply triple_fresh; intros; apply triple_safe; keep|]. intros svc_meta.
  eapply triple_bind.
  { apply triple_fresh; intros; apply triple_safe. apply keeps_wrap. unfold applyService.
    apply keeps_bind; [by apply applyResource_keeps|keep]. }
  intros clusterIP. eapply triple_bind; [apply triple_fresh; intros; apply triple_wrap, reconcileSecret_safe|].
  intros secret. eapply triple_bind; [apply triple_fresh; intros; apply triple_safe; keep|].
  intros joined. eapply triple_bind; [apply triple_fresh; intros; apply triple_safe; keep|]. intros ?.
  destruct (needsMirroredSecrets (kt_Namespace kt) joined) eqn:Hwant; cbn [negb].
  - eapply triple_bind; [apply triple_wrap, add_finalizer_guarded|]. intros kt1.
    eapply triple_bind with (R := fun _ => guarded).
    { apply triple_wrap. intros w (Hg & Hk & Hgd). apply (mirrors_guarded kt1 secret joined w). by rewrite Hk. }
    intros ?. eapply triple_bind with (R := fun _ => guarded); [by apply triple_ret|].
    intros ?. apply reconcile_children_guarded.
  - eapply triple_bind with (R := fun kt1 w => kt1 = kt /\ fresh kt w); [by apply triple_ret|].
    intros kt1 w [-> Hf]. revert w Hf. change (triple (fresh kt) (_ ← wrap_err "reconciling joined-pod credentials secrets"
      (reconcileMirroredSecrets (r_secrets r) range_ns kt secret joined);
      kt0 ← wrap_err "removing mirrored-secrets finalizer" (setMirroredSecretsFinalizer (r_decoys r) kt false);
      reconcile_children yaml_Marshal is_print lower Quantity_IsZero metrics Info r kt0 clusterIP secret joined)
      (fun _ => guarded) guarded).
    eapply triple_bind; [by apply triple_wrap, no_mirrors_guarded|]. intros ?.
    eapply triple_bind; [apply triple_wrap, remove_finalizer_guarded|].
    intros ?. apply reconcile_children_guarded.
Qed.

(** C5: no mirror is ever left without its guard. Start from any cluster in
    which every decoy with a mirrored Secret somewhere carries the clean-up
    finalizer. Then the same holds after a reconcile of any decoy, deleted or
    not, however it ends: the finalizer goes on before the first mirror and
    comes off after the last one is gone, so a reconcile cut short by a
    failing call at any point leaves nothing that a later deletion of the
    decoy would strand. *)
Theorem Reconcile_guards_mirrors req w :
  guarded w ->
  guarded (Reconcile yaml_Marshal is_print lower Quantity_IsZero metrics Info range_ns range_nn r req w).2.
Proof using All.
  assert (Hrec : triple guarded (reconcile yaml_Marshal is_print lower Quantity_IsZero metrics Info range_ns range_nn r req)
    (fun _ => guarded) guarded).
  { unfold reconcile.
    eapply triple_bind with (R := fun g w => guarded w /\ match g with inr kt => dview w !! kt_key kt = Some kt | _ => True end).
    - apply triple_try with (X := fun _ => True). intros w0 Hg. pose proof (decoys_get_keeps req w0) as Hb.
      destruct (Get (r_decoys r) req w0) as [[e|kt] w1] eqn:E; simpl in Hb; unfold both in Hb; injection Hb as Hs Hd;
        unfold Mirrors.guarded; rewrite Hs, Hd; [done|].
      apply (serves_get dview _) in E as [_ E]. split; [done|]. pose proof (serves_key dview _ _ _ _ E) as Hk.
      change (kt_key kt) with (key_of kt). by rewrite Hk.
    - intros [err|kt].
      + destruct (IsNotFound err); [|apply triple_throw; by intros w0 []].
        eapply triple_conseq; [by apply keep_guarded|by intros w0 []|done|done].
      + destruct (negb _).
        * eapply triple_conseq; [apply reconcile_deleted_guarded|done|done|done].
        * eapply triple_conseq; [apply reconcile_live_guarded|done|done|done]. }
  intros Hg. assert (Ht : triple guarded
    (Reconcile yaml_Marshal is_print lower Quantity_IsZero metrics Info range_ns range_nn r req) (fun _ => guarded) guarded).
  { unfold Reconcile. eapply triple_bind with (R := fun _ => guarded).
    { apply triple_try with (X := fun _ => True). eapply triple_conseq; [exact Hrec|done|done|done]. }
    intros [err|u]; [|by apply triple_ret].
    eapply triple_bind; [by apply keep_guarded|]. intros ?.
    eapply triple_bind; [apply markFailed_guarded|]. intros ?. by apply triple_throw. }
  specialize (Ht w Hg). by destruct (Reconcile _ _ _ _ _ _ _ _ _ _ w) as [[e|u] w'].
Qed.
End Guards.
