(* ===== verification/StatusFacts.v ===== *)
(** * What a reconcile does to the Decoys themselves

    The Decoy objects are shared: users own the spec, the activity tracker
    owns status.intrusionActivity, other controllers may own labels and
    annotations. The theorems here say that a reconcile writes only its own
    part, what status it writes, and that the rollout checksum does not
    depend on what is seeded. *)

From S2P Require Import Prelude GoStrings Json KubeTypes ApiTypes Kube Server.
From S2P Require Import CtrlUtil Host NetIP Certs Apply Metrics Notifier Hash Names.
From S2P Require Import DecoySecret Mirrors Join JoinedPods RenderSeed SeedJson.
From S2P Require Import Deploy Reconcile Guards.
#[local] Open Scope string_scope.
#[local] Open Scope list_scope.

(** [d'] differs from [d] at most in what the reconciler owns: the finalizers
    and the status other than the recorded activity. *)
Definition respects (d d' : Decoy) : Prop :=
  kt_key d' = kt_key d /\ kt_Spec d' = kt_Spec d /\
  om_Labels (kt_Meta d') = om_Labels (kt_Meta d) /\
  om_Annotations (kt_Meta d') = om_Annotations (kt_Meta d) /\
  om_OwnerReferences (kt_Meta d') = om_OwnerReferences (kt_Meta d) /\
  st_IntrusionActivity (kt_Status d') = st_IntrusionActivity (kt_Status d) /\
  (forall f, f <> mirroredSecretsFinalizer ->
     f ∈ om_Finalizers (kt_Meta d') <-> f ∈ om_Finalizers (kt_Meta d)).

#[global] Instance respects_preorder : PreOrder respects.
Proof.
  unfold respects. split.
  - intros d. split_and!; done.
  - intros d1 d2 d3 (? & ? & ? & ? & ? & ? & Hf) (? & ? & ? & ? & ? & ? & Hf'). split_and!; try congruence.
    intros f Hne. by rewrite Hf', Hf.
Qed.

(** Every decoy of [m'] was there before, and was respected. *)
Definition all_respected (m m' : gmap NamespacedName Decoy) : Prop :=
  forall k d', m' !! k = Some d' -> exists d, m !! k = Some d /\ respects d d'.

Section StatusFacts.
Context {W V : Type} `{Host W} `{Crypto W} `{RetryOnConflict} `{ControllerUtil} `{Vec V}.
Context (yaml_Marshal : json -> error + string) (is_print : Z -> bool) (lower : Z -> Z).
Context (Quantity_IsZero : string -> bool).
Context (metrics : (@Registry V -> @Registry V) -> E W unit).
Context (Info : Z -> string -> list (string * string) -> E W unit).
Context (range_ns : gset string -> list string) (range_nn : gset NamespacedName -> list NamespacedName).
Context (r : DecoyReconciler W).
Context `{!RetryLaws, !ControllerUtilLaws}.
Context (dview : W -> gmap NamespacedName Decoy) `{!Serves dview decoy_body (r_decoys r)}.
Context `{!ServesStatus (r_decoys r) dview}.

(** Nothing but the client of Decoys writes Decoys. *)
Context `{!Leaves (r_secrets r) dview, !Leaves (r_services r) dview, !Leaves (r_configmaps r) dview,
          !Leaves (r_deployments r) dview, !Leaves (r_networkpolicies r) dview, !Leaves (r_pvcs r) dview,
          !Leaves (r_pods r) dview, !CryptoLeaves dview}.
Context (now_keeps : keeps dview time_Now) (metrics_keeps : forall f, keeps dview (metrics f))
        (info_keeps : forall v m kv, keeps dview (Info v m kv)).
Context (recorder_keeps : forall f, r_Recorder r = Some f -> forall a b c d, keeps dview (f a b c d))
        (notifier_keeps : forall f, r_Notifier r = Some f -> forall a b c, keeps dview (f a b c)).

Lemma decoys_get_keeps_dview k : keeps dview (Get (r_decoys r) k).
Proof using All. intros w. destruct (Get _ k w) eqn:E. by apply (serves_get dview _) in E as [? _]. Qed.

Lemma decoys_list_keeps_dview lo : keeps dview (List_ (r_decoys r) lo).
Proof using All. intros w. destruct (List_ _ lo w) eqn:E. by apply (serves_list dview _) in E as [? _]. Qed.

Lemma recorder_call_keeps k :
  (forall f, r_Recorder r = Some f -> keeps dview (k f)) -> keeps dview (opt_call (r_Recorder r) k).
Proof. intros Hk. unfold opt_call. destruct (r_Recorder r) eqn:E; [by apply Hk|]. apply keeps_ret. Qed.

Lemma notifier_call_keeps k :
  (forall f, r_Notifier r = Some f -> keeps dview (k f)) -> keeps dview (opt_call (r_Notifier r) k).
Proof. intros Hk. unfold opt_call. destruct (r_Notifier r) eqn:E; [by apply Hk|]. apply keeps_ret. Qed.

#[local] Hint Resolve decoys_get_keeps_dview decoys_list_keeps_dview now_keeps metrics_keeps info_keeps : keeps.

Lemma apply_keeps_dview {O} `{Object O} (c : Client W O) mutate o :
  Leaves c dview -> keeps dview (applyResource c mutate o).
Proof using All. intros. unfold applyResource. keep. Qed.

Lemma transitions_keep_dview order kt prev cur :
  keeps dview (reconcileJoinTransitions (r_Recorder r) (r_Notifier r) order kt prev cur).
Proof using All.
  assert (Ht : forall t, keeps dview (transition (r_Recorder r) (r_Notifier r) kt t)).
  { intros [key []]; unfold transition; apply keeps_bind;
      [apply recorder_call_keeps; eauto|intros ?; apply notifier_call_keeps; eauto
      |apply recorder_call_keeps; eauto|intros ?; apply notifier_call_keeps; eauto]. }
  unfold reconcileJoinTransitions. keep.
Qed.

Lemma listJoined_keeps_dview kt : keeps dview (listJoinedPods (r_pods r) (r_decoys r) kt).
Proof using All.
  assert (Hl : forall l memo, keeps dview (join_loop (r_decoys r) kt memo l)).
  { induction l as [|p l IH]; intros memo; simpl; [apply keeps_ret|]. unfold resolveImplicit. keep. }
  unfold listJoinedPods. keep.
Qed.

Lemma reconcileSecret_keeps_dview kt name ip : keeps dview (reconcileSecret (r_secrets r) kt name ip).
Proof using All.
  pose proof (GenerateCA_keeps dview now_keeps). pose proof (IssueServerCert_keeps dview now_keeps).
  pose proof (GenerateServiceAccountSigningKey_keeps dview now_keeps).
  assert (keeps dview generateToken) by (unfold generateToken; keep).
  unfold reconcileSecret, backfill_kcm, reissueServingCert, signing_ca, create_secret. keep.
Qed.

Lemma mirrors_keep_dview kt secret joined :
  keeps dview (reconcileMirroredSecrets (r_secrets r) range_ns kt secret joined).
Proof using All.
  assert (Ha : forall o, keeps dview (applyResource (r_secrets r) mutate_secret o)) by (intros; by apply apply_keeps_dview).
  unfold reconcileMirroredSecrets, apply_mirror, delete_mirror. keep.
Qed.

(** ** Only the reconciler's own part is written *)

Section Respects.
Context (m0 : gmap NamespacedName Decoy).

Definition kept (w : W) : Prop := all_respected m0 (dview w).

(** The Decoy in memory is the stored one. *)
Definition read (kt : Decoy) (w : W) : Prop := kept w /\ dview w !! kt_key kt = Some kt.

Lemma keep_kept {A} (c : E W A) : keeps dview c -> triple kept c (fun _ => kept) kept.
Proof. intros Hk. by apply (triple_keeps dview c (all_respected m0)). Qed.

Lemma keep_read {A} (c : E W A) kt : keeps dview c -> triple (read kt) c (fun _ => read kt) kept.
Proof.
  intros Hk. eapply triple_conseq;
    [apply (triple_keeps dview c (fun m => all_respected m0 m /\ m !! kt_key kt = Some kt) (read kt) Hk)|done|done|];
    [done|by intros w []].
Qed.

Lemma insert_kept kt kt' w w' :
  read kt w -> respects kt kt' ->
  dview w' = <[kt_key kt := kt']> (dview w) \/ dview w' = delete (kt_key kt) (dview w) -> kept w'.
Proof.
  intros [Hk Hr] Hresp Hw k d' Hd'. destruct Hw as [Hw|Hw]; rewrite Hw in Hd'.
  - apply lookup_insert_Some in Hd' as [[<- <-]|[_ Hd']]; [|by apply Hk].
    destruct (Hk _ _ Hr) as (d & Hd & Hdk). exists d. split; [done|]. by etransitivity.
  - apply lookup_delete_Some in Hd' as [_ Hd']. by apply Hk.
Qed.

Lemma update_finalizers_kept kt fs :
  (forall f, f <> mirroredSecretsFinalizer -> f ∈ fs <-> f ∈ om_Finalizers (kt_Meta kt)) ->
  triple (read kt) (Update (r_decoys r) (kt_with_finalizers kt fs)) (fun _ => kept) kept.
Proof using All.
  intros Hfs w Hr. assert (Hrep : forall kt' w', replaced dview decoy_body (kt_with_finalizers kt fs) kt' w w' -> kept w').
  { intros kt' w' (old & Hold & (Hm & [Hspec Hst] & _) & _ & Hw). destruct Hr as [Hk Hr].
    change (key_of (kt_with_finalizers kt fs)) with (kt_key kt) in *. rewrite Hr in Hold. injection Hold as <-.
    apply (insert_kept kt kt' w); [done| |naive_solver].
    pose proof (meta_sent_key _ _ Hm) as Hkey. destruct Hm as (_ & _ & Hl & Ha & Ho & Hf). simpl in *.
    unfold respects. split_and!; try done.
    - by rewrite Hst.
    - intros f Hne. rewrite Hf. by apply Hfs. }
  destruct (Update _ _ w) as [[e|kt'] w'] eqn:E; apply (serves_update dview _) in E; [|by eapply Hrep].
  destruct E as [E|[kt' E]]; [|by eapply Hrep]. destruct Hr as [Hk _]. unfold kept. by rewrite E.
Qed.

Lemma status_update_kept kt st :
  st_IntrusionActivity st = st_IntrusionActivity (kt_Status kt) ->
  triple (read kt) (StatusUpdate (r_decoys r) (with_status kt st)) (fun _ => kept) kept.
Proof using All.
  intros Hact w Hr.
  assert (Hup : forall w', status_updated dview (with_status kt st) w w' -> kept w').
  { intros w' (old & d' & Hold & Hm & _ & _ & Hspec & Hst & _ & Hw). destruct Hr as [Hk Hr].
    change (kt_key (with_status kt st)) with (kt_key kt) in *. rewrite Hr in Hold. injection Hold as <-.
    apply (insert_kept kt d' w); [done| |by left].
    pose proof (meta_sent_key _ _ Hm) as Hkey. destruct Hm as (_ & _ & Hl & Ha & Ho & Hf).
    unfold respects. split_and!; try done.
    - by rewrite Hst.
    - intros f _. by rewrite Hf. }
  destruct (StatusUpdate _ _ w) as [res w'] eqn:E. apply serves_status in E as [E|E]; destruct res; try done; try by apply Hup.
  destruct Hr as [Hk _]. unfold kept. by rewrite E.
Qed.

Lemma get_read key : triple kept (Get (r_decoys r) key) read kept.
Proof using All.
  intros w Hk. destruct (Get (r_decoys r) key w) as [res w'] eqn:E.
  apply (serves_get dview _) in E as [Hv E]. unfold read, kept. destruct res as [e|kt]; rewrite Hv; [done|].
  split; [done|]. pose proof (serves_key dview _ _ _ _ E) as Hkey. change (kt_key kt) with (key_of kt). by rewrite Hkey.
Qed.

Lemma setFinalizer_kept kt want :
  triple (read kt) (setMirroredSecretsFinalizer (r_decoys r) kt want)
    (fun kt' w => kept w) kept.
Proof using All.
  unfold setMirroredSecretsFinalizer.
  set (res := if want then _ else _).
  assert (Hfs : forall f, f <> mirroredSecretsFinalizer -> f ∈ res.1 <-> f ∈ om_Finalizers (kt_Meta kt)).
  { intros f Hne. unfold res. destruct want.
    - destruct (add_finalizer mirroredSecretsFinalizer (om_Finalizers (kt_Meta kt))) as (_ & Hin & _).
      rewrite Hin. naive_solver.
    - destruct (remove_finalizer mirroredSecretsFinalizer (om_Finalizers (kt_Meta kt))) as (_ & Hin & _).
      rewrite Hin. naive_solver. }
  destruct res as [fs ch]. destruct ch; simpl in *; [by apply update_finalizers_kept|].
  apply triple_ret. by intros w [].
Qed.

Lemma updateStatus_kept kt sn server joined :
  triple kept (updateStatus metrics Info r kt sn server joined) (fun _ => kept) kept.
Proof using All.
  unfold updateStatus.
  do 4 (eapply triple_bind with (R := fun _ => kept); [apply keep_kept; keep|]; intros ?).
  eapply triple_bind with (R := fun _ => kept).
  - apply triple_retry. eapply triple_bind; [apply get_read|]. intros kt1.
    eapply triple_bind; [apply keep_read; keep|]. intros now. by apply status_update_kept.
  - intros kt'. destruct (_ && _); [|by apply triple_ret].
    apply keep_kept, recorder_call_keeps. eauto.
Qed.

Lemma mark_attempt_kept name e :
  triple (fun ws => kept ws.1) (mark_attempt metrics r name e) (fun _ ws => kept ws.1) (fun ws => kept ws.1).
Proof using All.
  unfold mark_attempt. eapply triple_bind with (R := fun kt ws => read kt ws.1).
  { apply (triple_beside _ kept read), get_read. }
  intros kt. case_bool_decide; simpl.
  - eapply triple_bind with (R := fun _ ws => read kt ws.1).
    { intros [w s] Hw. pose proof (keep_read (metrics (SetPhase (kt_Namespace kt) (kt_Name kt) DecoyPhaseFailed)) kt (metrics_keeps _) w Hw) as Hx.
      unfold beside. simpl. by destruct (metrics _ w) as [[] ?]. }
    intros ?. eapply triple_bind with (R := fun _ ws => read kt ws.1).
    { intros [w s] Hw. pose proof (keep_read time_Now kt now_keeps w Hw) as Hx.
      unfold beside. simpl. by destruct (time_Now w) as [[] ?]. }
    intros now. eapply triple_bind with (R := fun _ ws => read kt ws.1); [by intros [w s]|].
    intros ?. eapply triple_bind with (R := fun _ ws => kept ws.1); [|by intros ? [w s]].
    intros [w s] Hw.
    pose proof (status_update_kept kt (failed_status (e_Message e) now kt) eq_refl w Hw) as Hx.
    unfold beside. simpl. by destruct (StatusUpdate _ _ w) as [[] ?].
  - eapply triple_bind with (R := fun _ ws => kept ws.1); [by intros [w s] [Hw _]|]. by intros ? [w s].
Qed.

Lemma markFailed_kept name e : triple kept (markFailed metrics r name e) (fun _ => kept) kept.
Proof using All.
  unfold markFailed. eapply triple_bind with (R := fun _ => kept).
  - apply triple_try with (X := fun _ => True). intros w Hg. unfold mark_retried.
    pose proof (triple_retry _ _ _ (mark_attempt_kept name e) (w, (false, None)) Hg) as Ht.
    destruct (retry_on_conflict _ _) as [[e'|u] [w' s]]; done.
  - intros [err|[[] [kt|]]]; try by apply triple_ret.
    apply keep_kept, recorder_call_keeps. eauto.
Qed.

Lemma children_kept kt ip secret joined :
  triple kept (reconcile_children yaml_Marshal is_print lower Quantity_IsZero metrics Info r kt ip secret joined)
    (fun _ => kept) kept.
Proof using All.
  assert (Hcm : forall cm, keeps dview (applyConfigMap r cm)).
  { intros. unfold applyConfigMap. apply keeps_bind; [by apply apply_keeps_dview|keep]. }
  assert (Hdep : forall d, keeps dview (applyDeployment r d)).
  { intros. unfold applyDeployment. apply keeps_bind; [by apply apply_keeps_dview|keep]. }
  assert (Hnp : forall n, keeps dview (applyNetworkPolicy r n)).
  { intros. unfold applyNetworkPolicy. apply keeps_bind; [by apply apply_keeps_dview|keep]. }
  unfold reconcile_children, reconcileConfigMap, ensureDataPVC, prune_legacy_np, reconcileKubeconfig.
  do 8 (eapply triple_bind with (R := fun _ => kept); [apply keep_kept; keep|]; intros ?).
  apply updateStatus_kept.
Qed.

Lemma live_kept kt :
  triple (read kt) (reconcile_live yaml_Marshal is_print lower Quantity_IsZero metrics Info range_ns range_nn r kt)
    (fun _ => kept) kept.
Proof using All.
  pose proof listJoined_keeps_dview. pose proof transitions_keep_dview. pose proof reconcileSecret_keeps_dview.
  pose proof mirrors_keep_dview as Hmir.
  unfold reconcile_live. eapply triple_bind; [apply keep_read; keep|]. intros sm.
  eapply triple_bind.
  { apply keep_read, keeps_wrap. unfold applyService. apply keeps_bind; [by apply apply_keeps_dview|keep]. }
  intros ip. eapply triple_bind; [apply keep_read; keep|]. intros secret.
  eapply triple_bind; [apply keep_read; keep|]. intros joined.
  eapply triple_bind; [apply keep_read; keep|]. intros ?.
  destruct (needsMirroredSecrets _ joined); cbn [negb].
  - eapply triple_bind; [apply triple_wrap, setFinalizer_kept|]. intros kt1.
    eapply triple_bind; [apply keep_kept; keep|]. intros ?.
    eapply triple_bind; [apply keep_kept; keep|]. intros ?. apply children_kept.
  - eapply triple_bind with (R := fun kt1 w => kt1 = kt /\ read kt w); [by apply triple_ret|].
    intros kt1. eapply triple_bind with (R := fun _ w => kt1 = kt /\ read kt w).
    { intros w [-> Hr]. pose proof (keep_read (wrap_err "reconciling joined-pod credentials secrets"
        (reconcileMirroredSecrets (r_secrets r) range_ns kt secret joined)) kt (keeps_wrap _ _ _ (Hmir _ _ _)) w Hr) as Hx.
      by destruct (wrap_err _ _ w) as [[] ?]. }
    intros ?. eapply triple_bind with (R := fun _ => kept); [|intros ?; apply children_kept].
    intros w [-> Hr]. exact (triple_wrap _ _ _ _ _ (setFinalizer_kept kt false) w Hr).
Qed.

Lemma Reconcile_kept req :
  triple kept (Reconcile yaml_Marshal is_print lower Quantity_IsZero metrics Info range_ns range_nn r req)
    (fun _ => kept) kept.
Proof using All.
  unfold Reconcile. eapply triple_bind with (R := fun _ => kept).
  - apply triple_try with (X := fun _ => True). unfold reconcile.
    eapply triple_bind with (R := fun g w => match g with inr kt => read kt w | inl _ => kept w end).
    { apply triple_try with (X := fun _ => True). eapply triple_conseq; [apply get_read|done|done|done]. }
    intros [err|kt].
    + destruct (IsNotFound err); [|by apply triple_throw].
      eapply triple_conseq; [by apply keep_kept|by intros ? Hx|by intros ? ? Hx|by intros ? Hx].
    + destruct (negb _); [|eapply triple_conseq; [apply live_kept|by intros ? Hx|by intros ? ? Hx|by intros ? Hx]].
      unfold reconcile_deleted. destruct (negb _); [apply triple_ret; by intros w []|].
      eapply triple_conseq with (P := read kt) (Q := fun _ => kept) (X := kept); [|by intros ? Hx|by intros ? ? Hx|by intros ? Hx].
      eapply triple_bind; [apply keep_read; unfold deleteMirroredSecrets, delete_mirror; keep|]. intros ?.
      destruct (remove_finalizer mirroredSecretsFinalizer (om_Finalizers (kt_Meta kt))) as (_ & Hin & _).
      destruct (RemoveFinalizer _ _) as [fs ch]. simpl in Hin.
      eapply triple_bind with (R := fun _ => kept); [apply update_finalizers_kept|intros ?; by apply triple_ret].
      intros f Hne. rewrite Hin. naive_solver.
  - intros [err|u]; [|by apply triple_ret].
    eapply triple_bind; [by apply keep_kept|]. intros ?.
    eapply triple_bind; [apply markFailed_kept|]. intros ?. by apply triple_throw.
Qed.
End Respects.

(** C21: a reconcile writes only its own part of a Decoy. After a reconcile of
    any decoy, whether it succeeds or fails, every Decoy in the cluster was
    there before with the same spec, labels, annotations, owners and foreign
    finalizers, and with the attacker activity the tracker recorded: the
    status updates of the reconciler never lose it. *)
Theorem Reconcile_respects_decoys req w :
  all_respected (dview w)
    (dview (Reconcile yaml_Marshal is_print lower Quantity_IsZero metrics Info range_ns range_nn r req w).2).
Proof using All.
  assert (Hk : kept (dview w) w) by (intros k d Hd; exists d; split; [done|reflexivity]).
  pose proof (Reconcile_kept (dview w) req w Hk) as Ht. by destruct (Reconcile _ _ _ _ _ _ _ _ _ _ w) as [[]].
Qed.

(** ** The status that is written *)

(** The status has one verdict on readiness: every Ready condition says [b]
    for [reason] and [msg], and there is one. *)
Definition ready_condition (st : DecoyStatus) (b reason msg : string) : Prop :=
  (exists c, c ∈ st_Conditions st /\ cond_Type c = "Ready") /\
  forall c, c ∈ st_Conditions st -> cond_Type c = "Ready" ->
    cond_Status c = b /\ cond_Reason c = reason /\ cond_Message c = msg.

(** The only Ready condition of the status, and what it says. *)
Definition sole_ready (st : DecoyStatus) (b reason msg : string) (gen : Z) : Prop :=
  exists c, filterb (fun c => cond_Type c ==? "Ready") (st_Conditions st) = [c] /\
    cond_Status c = b /\ cond_Reason c = reason /\ cond_Message c = msg /\
    cond_ObservedGeneration c = gen.

Lemma sole_by_type (l : list Condition) d :
  NoDup (cond_Type <$> l) -> d ∈ l -> filterb (fun c => cond_Type c ==? cond_Type d) l = [d].
Proof.
  induction l as [|x l IH]; intros Hn Hd; [by apply not_elem_of_nil in Hd|].
  rewrite fmap_cons in Hn. apply NoDup_cons in Hn as [Hx Hn]. unfold filterb in *. simpl.
  apply elem_of_cons in Hd as [->|Hd].
  - rewrite bool_decide_eq_true_2 by done. f_equal. apply (filterb_none).
    intros y Hy. apply bool_decide_eq_false. intros Heq. apply Hx, list_elem_of_fmap. by exists y.
  - rewrite bool_decide_eq_false_2; [by apply IH|]. intros Heq. apply Hx, list_elem_of_fmap. by exists d.
Qed.

Lemma set_ready now b reason msg gen st l :
  NoDup (cond_Type <$> l) ->
  st_Conditions st = SetStatusCondition now
    {| cond_Type := "Ready"; cond_Status := b; cond_Reason := reason; cond_Message := msg;
       cond_ObservedGeneration := gen; cond_LastTransitionTime := 0 |} l ->
  sole_ready st b reason msg gen.
Proof using All.
  intros Hl Hst. unfold sole_ready. rewrite Hst. set (c := {| cond_Type := "Ready" |}).
  destruct (set_condition now c l) as (Hn & (d & Hd & Ht & Hrest) & _).
  exists d. split; [|done]. pose proof (sole_by_type _ d (Hn Hl) Hd) as Hs. by rewrite Ht in Hs.
Qed.

Lemma sole_ready_condition st b reason msg gen :
  sole_ready st b reason msg gen -> ready_condition st b reason msg.
Proof.
  intros (c & Hf & Hb & Hr & Hm & _).
  assert (Hin : forall d, (d ∈ st_Conditions st /\ cond_Type d = "Ready") <-> d = c).
  { intros d. rewrite <- (list_elem_of_singleton d c), <- Hf, elem_of_filterb, bool_decide_eq_true. done. }
  split; [exists c; by apply Hin|]. intros d Hd Ht. by rewrite (proj1 (Hin d)).
Qed.

(** A status that was written is the stored one; the generation of a decoy
    that was current stays. *)
Lemma status_update_inv d w d' w' :
  StatusUpdate (r_decoys r) d w = (inr d', w') ->
  exists d1, dview w' !! kt_key d = Some d1 /\ kt_Status d1 = kt_Status d /\
    forall old st, d = with_status old st -> dview w !! kt_key old = Some old ->
      om_Generation (kt_Meta d1) = om_Generation (kt_Meta old).
Proof using All.
  intros E. apply serves_status in E as [[]|(old & d1 & Hold & _ & _ & Hg & _ & Hst & _ & Hw)].
  exists d1. split_and!; [|done|].
  - rewrite Hw. apply lookup_insert_eq.
  - intros o st -> Ho. change (kt_key (with_status o st)) with (kt_key o) in Hold.
    rewrite Hg. by simplify_eq.
Qed.

Lemma get_key key w kt w' : Get (r_decoys r) key w = (inr kt, w') -> kt_key kt = key.
Proof using All. intros E. apply (serves_get dview _) in E as [_ E]. by apply (serves_key dview _) in E. Qed.

(** The phase is Ready on a ready replica, and Pending otherwise. *)
Lemma observed_cases (g : error + Deployment) :
  let serving := exists dep, g = inr dep /\ (0 < dst_ReadyReplicas (d_Status dep))%Z in
  (serving /\ observed_phase g = "Ready") \/ (~ serving /\ observed_phase g = "Pending").
Proof.
  destruct g as [e|dep]; simpl; [right; split; [|done]; by intros (? & ? & _)|].
  case_bool_decide as Hp; [left|right]; (split; [|done]); [by exists dep|].
  by intros (? & [= <-] & ?).
Qed.

Lemma retry_last {A} (fn : E W A) w a w' :
  retry_on_conflict fn w = (inr a, w') -> exists w1, fn w1 = (inr a, w').
Proof using All.
  intros E. apply retry_attempts in E. remember (inr a) as res eqn:Hres.
  induction E as [w r0 w' E|]; [subst; eauto|auto].
Qed.

(** C22: the status a successful reconcile ends with. The stored Decoy says
    Ready when the Deployment could be read and has a ready replica, and
    Pending in every other case; it has exactly one Ready condition, which says
    the same, at the decoy's generation; and it names the endpoint, the
    credentials Secret, the generation as observed, and exactly the joined
    pods, each marked redirected or not. *)
Theorem updateStatus_outcome kt secretName server joined w w' :
  updateStatus metrics Info r kt secretName server joined w = (inr tt, w') ->
  let read := (Get (r_deployments r) (kt_key kt) w).1 in
  let serving := exists dep, read = inr dep /\ (0 < dst_ReadyReplicas (d_Status dep))%Z in
  exists d, dview w' !! kt_key kt = Some d /\
    let gen := om_Generation (kt_Meta d) in
    (serving /\ st_Phase (kt_Status d) = "Ready" /\
       sole_ready (kt_Status d) "True" "Ready" "Decoy is Ready" gen \/
     ~ serving /\ st_Phase (kt_Status d) = "Pending" /\
       sole_ready (kt_Status d) "False" "Pending" "Decoy is Pending" gen) /\
    st_ObservedGeneration (kt_Status d) = gen /\
    st_Endpoint (kt_Status d) = server /\ st_CredentialsSecret (kt_Status d) = secretName /\
    st_JoinedPods (kt_Status d) =
      (fun p => {| jp_Name := p_Name p; jp_Namespace := p_Namespace p; jp_Redirected := podIsRedirected p |})
        <$> joined.
Proof using All.
  unfold updateStatus. intros (g & w1 & Hg%try_inr & He)%E_bind_inr.
  change (NN (kt_Namespace kt) (kt_Name kt)) with (kt_key kt) in *. rewrite Hg. cbn [fst].
  set (phase := observed_phase g) in *.
  do 3 apply E_bind_inr in He as (? & ? & _ & He). apply E_bind_inr in He as (kt' & w2 & Hr & He).
  apply retry_last in Hr as (w3 & Hr). apply E_bind_inr in Hr as (kt1 & w4 & Hget & Hr).
  apply E_bind_inr in Hr as (now & w5 & Hnow & Hr).
  pose proof (now_keeps w4) as Hv4. rewrite Hnow in Hv4. simpl in Hv4.
  pose proof (get_key _ _ _ _ Hget) as Hkey. apply (serves_get dview _) in Hget as [Hv3 Hget].
  assert (Hcur : dview w5 !! kt_key kt1 = Some kt1) by (by rewrite Hv4, Hv3, Hkey).
  apply served_conditions in Hget as Hcond.
  apply status_update_inv in Hr as (d & Hd & Hst & Hgen). specialize (Hgen _ _ eq_refl Hcur).
  change (kt_key (with_status kt1 _)) with (kt_key kt1) in Hd. rewrite Hkey in Hd.
  assert (Hv : dview w' = dview w2).
  { destruct (_ && _); [|by injection He as <-].
    assert (Hk : keeps dview (opt_call (r_Recorder r) (fun ev => ev kt' "Normal" "Ready" "Decoy is ready")))
      by (apply recorder_call_keeps; eauto).
    specialize (Hk w2). by rewrite He in Hk. }
  exists d. rewrite Hv, Hst, Hgen. simpl. split_and!; [done| |done..].
  destruct (observed_cases g) as [[Hs Hp]|[Hs Hp]]; [left|right]; fold phase in Hp;
    (split; [exact Hs|]; split; [exact Hp|]; eapply set_ready; [exact Hcond|]; simpl; by rewrite Hp).
Qed.

(** ** Failures *)

Context (metrics_total : forall f w, exists w', metrics f w = (inr tt, w')).
Context (recorder_total : forall f, r_Recorder r = Some f ->
           forall a b c d w, exists w', f a b c d w = (inr tt, w')).

Lemma markFailed_total name e w : exists w', markFailed metrics r name e w = (inr tt, w').
Proof using All.
  unfold markFailed, mbind, E_bind, try_.
  destruct (mark_retried metrics r name e w) as [[err|[[] [kt|]]] w1]; try by eexists.
  unfold opt_call. destruct (r_Recorder r) as [f|] eqn:Hf; [|by eexists]. by apply recorder_total.
Qed.

(** The status of a marked Decoy. *)
Lemma mark_attempt_inv name e ws u ws' :
  mark_attempt metrics r name e ws = (inr u, ws') ->
  (exists d, ws'.2.2 = Some d /\ om_DeletionTimestamp (kt_Meta d) <> None) \/
  exists d, dview ws'.1 !! name = Some d /\ st_Phase (kt_Status d) = DecoyPhaseFailed /\
    ready_condition (kt_Status d) "False" "ReconcileFailed" (e_Message e).
Proof using All.
  unfold mark_attempt. intros (kt & ws1 & Hg & He)%E_bind_inr.
  assert (Hkey : kt_key kt = name /\ dview ws1.1 !! name = Some kt).
  { unfold beside in Hg. destruct (Get (r_decoys r) name ws.1) as [g w1] eqn:E. injection Hg as -> <-.
    split; [by apply get_key in E|]. simpl. by apply (serves_get dview _) in E as [-> ?]. }
  destruct Hkey as [Hkey Hread]. apply served_conditions in Hread as Hcond.
  case_bool_decide as Hdel; simpl in He.
  2:{ left. apply E_bind_inr in He as (s & ws2 & _ & He). injection He as _ <-. by exists kt. }
  right. apply E_bind_inr in He as (? & ws2 & _ & He). apply E_bind_inr in He as (now & ws3 & _ & He).
  apply E_bind_inr in He as (? & ws4 & _ & He). apply E_bind_inr in He as (kt'' & ws5 & Hs & He).
  injection He as _ <-. unfold beside in Hs. set (kt' := with_status kt _) in *.
  destruct (StatusUpdate (r_decoys r) kt' ws4.1) as [su w1] eqn:E. injection Hs as -> <-.
  apply status_update_inv in E as (d & Hd & Hst & _).
  change (kt_key kt') with (kt_key kt) in Hd. rewrite Hkey in Hd.
  exists d. split; [exact Hd|]. rewrite Hst. split; [done|].
  eapply sole_ready_condition, set_ready; [exact Hcond|]. reflexivity.
Qed.

(** C23: a failure is neither lost nor masked. When a reconcile fails,
    [Reconcile] returns that very error whatever the attempt to record it
    does; and if recording did not fail, then the Decoy is being deleted or
    its stored status says Failed, with a Ready=False condition that carries
    the error's text. *)
Theorem Reconcile_failure req w e w1 :
  reconcile yaml_Marshal is_print lower Quantity_IsZero metrics Info range_ns range_nn r req w = (inl e, w1) ->
  (Reconcile yaml_Marshal is_print lower Quantity_IsZero metrics Info range_ns range_nn r req w).1 = inl e /\
  forall w2 s w3, metrics (inc_ReconcileErrors (nn_Namespace req) (nn_Name req)) w1 = (inr tt, w2) ->
    mark_retried metrics r req e w2 = (inr s, w3) ->
    (exists d, s.2 = Some d /\ om_DeletionTimestamp (kt_Meta d) <> None) \/
    exists d, dview w3 !! req = Some d /\ st_Phase (kt_Status d) = DecoyPhaseFailed /\
      ready_condition (kt_Status d) "False" "ReconcileFailed" (e_Message e).
Proof using All.
  intros Hr. split.
  - unfold Reconcile, mbind, E_bind, try_. rewrite Hr.
    destruct (metrics_total (inc_ReconcileErrors (nn_Namespace req) (nn_Name req)) w1) as [w2 ->].
    destruct (markFailed_total req e w2) as [w3 ->]. done.
  - intros w2 s w3 _ Hm. unfold mark_retried in Hm.
    destruct (retry_on_conflict _ _) as [res [w4 s4]] eqn:E. destruct res as [err|u]; [done|].
    injection Hm as -> ->. apply retry_attempts in E. remember (inr u) as res eqn:Hres.
    remember (w3, s) as ws' eqn:Hws. induction E as [ws0 r0 ws' E|]; [|by auto].
    subst. by apply mark_attempt_inv in E.
Qed.
End StatusFacts.

(** ** The rollout checksum *)

Section Checksum.
Context {W : Type} `{RetryOnConflict} `{ControllerUtil}.
Context (yaml_Marshal : json -> error + string) (is_print : Z -> bool) (r : DecoyReconciler W).

(** What is seeded does not restart the decoy. The checksum that forces a
    rollout is the same for any two lists of joined pods, and for any two
    versions of a Decoy that differ only in what seed.json holds (fake pods,
    secrets, CRDs, further nodes): it depends only on the decoy's name, the
    audit level, the shim's identity and the tokens. *)
Theorem reconcileConfigMap_checksum kt kt' name joined joined' t1 t2 t3 w c w1 w' c' w1' :
  kt_key kt' = kt_key kt -> spec_AuditLevel (kt_Spec kt') = spec_AuditLevel (kt_Spec kt) ->
  shimUsername kt' = shimUsername kt ->
  reconcileConfigMap yaml_Marshal is_print r kt name joined t1 t2 t3 w = (inr c, w1) ->
  reconcileConfigMap yaml_Marshal is_print r kt' name joined' t1 t2 t3 w' = (inr c', w1') ->
  c' = c.
Proof.
  intros Hkey Hlevel Hshim. injection Hkey as Hns Hname. unfold reconcileConfigMap.
  set (url := if _ ==? _ then _ else _).
  intros (data & ? & Hd & He)%E_bind_inr (data' & ? & Hd' & He')%E_bind_inr.
  apply E_bind_inr in He as (? & ? & _ & He). apply E_bind_inr in He as (? & ? & _ & He).
  apply E_bind_inr in He' as (? & ? & _ & He'). apply E_bind_inr in He' as (? & ? & _ & He').
  injection He as <- _. injection He' as <- _. f_equal. f_equal. f_equal.
  injection Hd as Hd _. injection Hd' as Hd' _. revert Hd Hd'. unfold renderConfigData, renderAuditWebhookKubeconfig, audit_url.
  rewrite Hns, Hname. destruct (yaml_Marshal _) as [|ak]; [done|]. destruct (renderKCMKubeconfig yaml_Marshal t3) as [|kk]; [done|].
  intros [= <-] [= <-]. unfold renderAuditPolicy, renderTokenAuthFile. rewrite Hlevel, Hshim.
  unfold rollout. rewrite !delete_insert_eq. done.
Qed.
End Checksum.
