(* ===== verification/Delivery.v ===== *)
(** * From a Decoy to its inner cluster

    The two programs composed: the reconciler writes seed.json into the
    Decoy's ConfigMap, the kubelet of the real cluster shows it to the pod as
    a file, and the shim's next beat reads the file and makes the inner
    cluster's secrets what the Decoy says. *)

From S2P Require Import Prelude GoStrings Json KubeTypes ApiTypes Kube Server.
From S2P Require Import CtrlUtil Host Apply RenderSeed SeedJson ShimTypes ShimSeed ShimFacts Names Reconcile.
#[local] Open Scope string_scope.
#[local] Open Scope list_scope.

(** ** The operator's half *)

(** The API server stores the data of a ConfigMap as sent. *)
Definition cm_body (_ : option ConfigMap) (c c' : ConfigMap) : Prop := cm_Data c' = cm_Data c.

Section Operator.
Context {W : Type} `{RetryOnConflict, !RetryLaws} `{ControllerUtil, !ControllerUtilLaws}.
Context (yaml_Marshal : json -> error + string) (is_print : Z -> bool) (r : DecoyReconciler W).
Context (cmview : W -> gmap NamespacedName ConfigMap) `{!Serves cmview cm_body (r_configmaps r)}.

(** What [applyConfigMap] leaves of an object that is not being deleted. *)
Lemma applyConfigMap_data cm w w' :
  (forall x, cmview w !! key_of cm = Some x -> om_DeletionTimestamp (cm_Meta x) = None) ->
  applyConfigMap r cm w = (inr tt, w') ->
  exists x, cmview w' !! key_of cm = Some x /\ cm_Data x = cm_Data cm.
Proof.
  intros Hlive (x & w1 & Ha & [= <-])%E_bind_inr.
  assert (Hkey : forall w0 live, cmview w0 !! key_of cm = Some live ->
    key_of (overlay mutate_configmap live cm) = key_of cm).
  { intros w0 live Hl. rewrite key_of_overlay by done. by apply (serves_key cmview _) in Hl. }
  pose proof (triple_applyResource (r_configmaps r) mutate_configmap cmview cm_body cm
    (fun m => forall x, m !! key_of cm = Some x -> om_DeletionTimestamp (cm_Meta x) = None)
    (fun o m => m !! key_of cm = Some o /\ cm_Data o = cm_Data cm)) as Ht.
  unfold triple in Ht. specialize (fun Hc Hu => Ht Hc Hu w Hlive). rewrite Ha in Ht.
  destruct Ht as [_ Hq]; [..|by exists x].
  - intros w0 o' w2 _ (_ & (_ & Hb & Hd) & ->). rewrite lookup_insert_eq. split; [by intros ? [= <-]|done].
  - intros w0 live o' w2 HI Hl (old & Hold & (_ & Hb & Hd) & _ & Hw). rewrite (Hkey _ _ Hl) in *.
    simplify_eq. destruct Hw as [->|(Hdel & _ & _)].
    + rewrite lookup_insert_eq. split; [|done]. intros ? [= <-]. change (om_DeletionTimestamp (meta o') = None). rewrite Hd. by apply HI.
    + exfalso. specialize (HI _ Hl). simpl in Hdel. rewrite HI in Hdel. by destruct Hdel.
Qed.

(** The stored ConfigMap holds the rendered seed. *)
Lemma reconcileConfigMap_seed kt name joined t1 t2 t3 w c w' :
  (forall x, cmview w !! NN (kt_Namespace kt) name = Some x -> om_DeletionTimestamp (cm_Meta x) = None) ->
  reconcileConfigMap yaml_Marshal is_print r kt name joined t1 t2 t3 w = (inr c, w') ->
  exists x, cmview w' !! NN (kt_Namespace kt) name = Some x /\
    cm_Data x !! seedFileName = Some (renderSeedJSON kt joined).
Proof.
  intros Hlive Hrun. unfold reconcileConfigMap in Hrun.
  apply E_bind_inr in Hrun as (data & w1 & Hd & Hrun). injection Hd as Hd <-.
  apply E_bind_inr in Hrun as (m & w2 & Hm & Hrun). injection Hm as Hm <-.
  apply E_bind_inr in Hrun as ([] & w3 & Ha & Hrun). injection Hrun as _ <-.
  apply set_controller in Hm as [Hm _].
  assert (Hk : key_of {| cm_Meta := m; cm_Data := data |} = NN (kt_Namespace kt) name) by (by rewrite Hm).
  apply applyConfigMap_data in Ha as (x & Hx & Hxd); [|by rewrite Hk]. rewrite Hk in Hx.
  exists x. split; [done|]. rewrite Hxd. simpl.
  revert Hd. unfold renderConfigData. destruct (renderAuditWebhookKubeconfig _ _ _) as [|ak]; [done|].
  destruct (renderKCMKubeconfig _ _) as [|kk]; [done|]. intros [= <-]. apply lookup_insert_eq.
Qed.
End Operator.

(** ** The shim's half *)

Section Delivery.
Context (cfg : Config) (is_print : Z -> bool) (lower : Z -> Z)
        (range_targets : gmap string Target -> list (string * Target)).
Context {W : Type} `{HostLaws W} (k : Clientset W).
Context (sview : W -> gmap NamespacedName Secret) (nview : W -> gmap NamespacedName Namespace)
        (nbody : option Namespace -> Namespace -> Namespace -> Prop).
Context `{!TypedServes sview secret_body (k_secrets k), !Serves nview nbody (typed (k_namespaces k))}.
Context `{!TypedLeaves (k_nodes k) sview, !TypedLeaves (k_leases k) sview,
          !TypedLeaves (k_namespaces k) sview, !TypedLeaves (k_pods k) sview,
          !TypedLeaves (k_configmaps k) sview, !TypedLeaves (k_services k) sview,
          !TypedLeaves (k_endpointslices k) sview, !TypedLeaves (k_deployments k) sview,
          !TypedLeaves (k_replicasets k) sview, !TypedLeaves (k_daemonsets k) sview}.
Context (crds_leave : forall cl, k_crds k = Some cl -> TypedLeaves cl sview)
        (finalize_keeps : forall n, keeps sview (k_Finalize k n))
        (now_keeps : keeps sview time_Now) (log_keeps : forall s, keeps sview (log_Print s)).
Context (range_perm : forall m, range_targets m ≡ₚ map_to_list m).
(** Reading a file leaves the inner cluster alone. *)
Context (parse : string -> error + json) (read_file : string -> E W string).
Context (read_secrets : forall p, keeps sview (read_file p)) (read_spaces : forall p, keeps nview (read_file p)).

(** [seed.Load] of a file. *)
Definition load_file (path : string) : E W seed.Seed :=
  content ← try_ (read_file path); lift (Load (fun _ => content) parse path).

(** A reload of a file with a rendered seed. *)
Lemma reload_rendered sh w kt joined :
  Forall (fun p => fits32 (fp_Replicas p)) (spec_FakePods (kt_Spec kt)) -> cfg_SeedPath cfg <> "" ->
  (read_file (cfg_SeedPath cfg) w).1 = inr (renderSeedJSON kt joined) ->
  parse (renderSeedJSON kt joined) = inr (seed_json (renderSeed kt joined)) ->
  reloadSeed cfg load_file (sh, w) =
    (inr tt, (sh_with_seed sh (renderSeed kt joined), (read_file (cfg_SeedPath cfg) w).2)).
Proof.
  intros Hfit Hpath Hread Hparse. unfold reloadSeed. rewrite bool_decide_eq_false_2 by done.
  unfold mbind, E_bind, on_host, try_, load_file, lift, on_state. simpl.
  unfold mbind, E_bind, try_. destruct (read_file (cfg_SeedPath cfg) w) as [rd w1]. simpl in Hread. subst rd.
  unfold lift, Load. rewrite Hparse, dec_seed_json; [done|]. by apply renderSeed_ok.
Qed.

(** The operator's world and its interface. *)
Context {WO : Type} `{RetryOnConflict, !RetryLaws} `{ControllerUtil, !ControllerUtilLaws}.
Context (yaml_Marshal : json -> error + string) (r : DecoyReconciler WO).
Context (cmview : WO -> gmap NamespacedName ConfigMap) `{!Serves cmview cm_body (r_configmaps r)}.

(** C2: what a Decoy's spec says about secrets is what its inner cluster
    serves. When the reconciler has written the ConfigMap of a Decoy (not being
    deleted), the shim's seed file shows that ConfigMap, and the pass of the
    shim's next beat ends without an error, then in every inner namespace that
    is not being deleted, for the secrets that are not either: each secret of
    [spec.fakeSecrets] exists with exactly the data of the spec; a secret the
    shim had created for an earlier spec that this one no longer names is gone
    or being deleted, unless this pass asked for its deletion and was refused,
    when it stays on the list of the next pass; and no other secret has
    changed. No restart of the shim is needed, and what an attacker wrote into
    a fake secret is gone. *)
Theorem decoy_secrets_delivered kt name joined t1 t2 t3 wo c wo' sh w sh' w' :
  (forall x, cmview wo !! NN (kt_Namespace kt) name = Some x -> om_DeletionTimestamp (cm_Meta x) = None) ->
  reconcileConfigMap yaml_Marshal is_print r kt name joined t1 t2 t3 wo = (inr c, wo') ->
  (forall x, cmview wo' !! NN (kt_Namespace kt) name = Some x ->
     (read_file (cfg_SeedPath cfg) w).1 = inr (default "" (cm_Data x !! seedFileName))) ->
  Forall (fun p => fits32 (fp_Replicas p)) (spec_FakePods (kt_Spec kt)) -> cfg_SeedPath cfg <> "" ->
  parse (renderSeedJSON kt joined) = inr (seed_json (renderSeed kt joined)) ->
  tracked_wf (sh_seededPrev sh) ->
  (_ ← reloadSeed cfg load_file; Seed cfg is_print lower range_targets k) (sh, w) = (inr tt, (sh', w')) ->
  heartbeat cfg is_print lower range_targets k load_file (sh, w) = (inr tt, (sh', w')) /\
  forall key, live_namespace nview w (nn_Namespace key) -> not_deleting (sview w) key ->
    let ks := target_key (secret_of key) in
    match wanted_secrets ∅ (spec_FakeSecrets (kt_Spec kt)) !! key with
    | Some d => exists s, sview w' !! key = Some s /\ sec_Data s = d
    | None =>
        if decide (sh_seededPrev sh !! ks = Some (secret_of key))
        then marked ∅ (seed_targets (renderSeed kt joined)) !! ks = None ->
             going (sview w') key \/
             undeleted cfg is_print lower range_targets k
               (sh_with_seed sh (renderSeed kt joined), (read_file (cfg_SeedPath cfg) w).2) ks (secret_of key) /\
             sh_seededPrev sh' !! ks = Some (secret_of key)
        else sview w' !! key = sview w !! key
    end.
Proof using All.
  intros Hlive Hcm Hmount Hfit Hpath Hparse Hwf Hrun.
  destruct (reconcileConfigMap_seed _ _ _ _ _ _ _ _ _ _ _ _ _ Hlive Hcm) as (x & Hx & Hdata).
  specialize (Hmount x Hx). rewrite Hdata in Hmount. simpl in Hmount.
  pose proof (reload_rendered sh w kt joined Hfit Hpath Hmount Hparse) as Hre.
  apply E_bind_inr in Hrun as ([] & sw1 & Hr1 & Hseed). rewrite Hre in Hr1. injection Hr1 as <-.
  split.
  { unfold heartbeat. unfold mbind at 1, E_bind at 1. rewrite Hre. unfold mbind, E_bind, try_. by rewrite Hseed. }
  intros key Hns Hdel.
  pose proof (Seed_secrets cfg is_print lower range_targets k sview nview nbody crds_leave finalize_keeps now_keeps
    log_keeps range_perm (sh_with_seed sh (renderSeed kt joined)) _ sh' w' key Hwf Hseed) as Hsec.
  pose proof (read_secrets (cfg_SeedPath cfg) w) as Hs. pose proof (read_spaces (cfg_SeedPath cfg) w) as Hn.
  unfold live_namespace in *. rewrite Hs, Hn in Hsec. specialize (Hsec Hns Hdel).
  unfold delivered in Hsec. cbn [sh_Seed sh_with_seed sh_seededPrev] in Hsec.
  assert (seed.s_FakeSecrets (renderSeed kt joined) = spec_FakeSecrets (kt_Spec kt)) as Hfs.
  { unfold renderSeed. by destruct (defaultKubeSystemPods _ _), (renderStandardObjects _). }
  by rewrite Hfs in Hsec.
Qed.
End Delivery.
