(* ===== verification/Testbed.v ===== *)
(** * A concrete cluster

    An in-memory API server for every kind the operator uses, a toy
    cryptography, a recorder and a scripted host: one world in which all the
    interfaces hold at once, for the concrete instances of the theorems. *)

From S2P Require Import Prelude GoStrings Json NetIP KubeTypes ApiTypes Kube Server.
From S2P Require Import CtrlUtil Host Certs WebhookCert Apply Metrics Notifier Hash.
From S2P Require Import Names DecoySecret Mirrors Join JoinedPods RenderSeed.
From S2P Require Import SeedJson Deploy Reconcile Guards StatusFacts.
From Stdlib Require Import Ascii.
#[local] Open Scope string_scope.
#[local] Open Scope list_scope.

Abbreviation registry := (@Registry (gmap (list string) Z)).

Record cluster := mkCluster {
  k_decoys : gmap NamespacedName Decoy;
  k_services : gmap NamespacedName Service;
  k_secrets : gmap NamespacedName Secret;
  k_configmaps : gmap NamespacedName ConfigMap;
  k_deployments : gmap NamespacedName Deployment;
  k_networkpolicies : gmap NamespacedName NetworkPolicy;
  k_pvcs : gmap NamespacedName PersistentVolumeClaim;
  k_pods : gmap NamespacedName Pod;
  k_webhooks : gmap NamespacedName MutatingWebhookConfiguration;
  k_registry : registry; k_host : Script.script; k_random : Z;
  k_events : list (string * string) }.

Definition set_decoys x (k : cluster) : cluster :=
  mkCluster x (k_services k) (k_secrets k) (k_configmaps k) (k_deployments k) (k_networkpolicies k) (k_pvcs k) (k_pods k) (k_webhooks k) (k_registry k) (k_host k) (k_random k) (k_events k).
Definition set_services x (k : cluster) : cluster :=
  mkCluster (k_decoys k) x (k_secrets k) (k_configmaps k) (k_deployments k) (k_networkpolicies k) (k_pvcs k) (k_pods k) (k_webhooks k) (k_registry k) (k_host k) (k_random k) (k_events k).
Definition set_secrets x (k : cluster) : cluster :=
  mkCluster (k_decoys k) (k_services k) x (k_configmaps k) (k_deployments k) (k_networkpolicies k) (k_pvcs k) (k_pods k) (k_webhooks k) (k_registry k) (k_host k) (k_random k) (k_events k).
Definition set_configmaps x (k : cluster) : cluster :=
  mkCluster (k_decoys k) (k_services k) (k_secrets k) x (k_deployments k) (k_networkpolicies k) (k_pvcs k) (k_pods k) (k_webhooks k) (k_registry k) (k_host k) (k_random k) (k_events k).
Definition set_deployments x (k : cluster) : cluster :=
  mkCluster (k_decoys k) (k_services k) (k_secrets k) (k_configmaps k) x (k_networkpolicies k) (k_pvcs k) (k_pods k) (k_webhooks k) (k_registry k) (k_host k) (k_random k) (k_events k).
Definition set_networkpolicies x (k : cluster) : cluster :=
  mkCluster (k_decoys k) (k_services k) (k_secrets k) (k_configmaps k) (k_deployments k) x (k_pvcs k) (k_pods k) (k_webhooks k) (k_registry k) (k_host k) (k_random k) (k_events k).
Definition set_pvcs x (k : cluster) : cluster :=
  mkCluster (k_decoys k) (k_services k) (k_secrets k) (k_configmaps k) (k_deployments k) (k_networkpolicies k) x (k_pods k) (k_webhooks k) (k_registry k) (k_host k) (k_random k) (k_events k).
Definition set_pods x (k : cluster) : cluster :=
  mkCluster (k_decoys k) (k_services k) (k_secrets k) (k_configmaps k) (k_deployments k) (k_networkpolicies k) (k_pvcs k) x (k_webhooks k) (k_registry k) (k_host k) (k_random k) (k_events k).
Definition set_webhooks x (k : cluster) : cluster :=
  mkCluster (k_decoys k) (k_services k) (k_secrets k) (k_configmaps k) (k_deployments k) (k_networkpolicies k) (k_pvcs k) (k_pods k) x (k_registry k) (k_host k) (k_random k) (k_events k).
Definition set_registry x (k : cluster) : cluster :=
  mkCluster (k_decoys k) (k_services k) (k_secrets k) (k_configmaps k) (k_deployments k) (k_networkpolicies k) (k_pvcs k) (k_pods k) (k_webhooks k) x (k_host k) (k_random k) (k_events k).
Definition set_host x (k : cluster) : cluster :=
  mkCluster (k_decoys k) (k_services k) (k_secrets k) (k_configmaps k) (k_deployments k) (k_networkpolicies k) (k_pvcs k) (k_pods k) (k_webhooks k) (k_registry k) x (k_random k) (k_events k).
Definition set_random x (k : cluster) : cluster :=
  mkCluster (k_decoys k) (k_services k) (k_secrets k) (k_configmaps k) (k_deployments k) (k_networkpolicies k) (k_pvcs k) (k_pods k) (k_webhooks k) (k_registry k) (k_host k) x (k_events k).
Definition set_events x (k : cluster) : cluster :=
  mkCluster (k_decoys k) (k_services k) (k_secrets k) (k_configmaps k) (k_deployments k) (k_networkpolicies k) (k_pvcs k) (k_pods k) (k_webhooks k) (k_registry k) (k_host k) (k_random k) x.

Definition empty_cluster : cluster :=
  mkCluster ∅ ∅ ∅ ∅ ∅ ∅ ∅ ∅ ∅ new_registry (Script.start []) 1 [].

(** ** The host *)

Definition on_host {A} (c : E Script.script A) : E cluster A := fun k =>
  let '(r, h) := c (k_host k) in (r, set_host h k).

#[global] Instance cluster_host : Host cluster := {|
  time_Now := on_host time_Now;
  log_Print s := on_host (log_Print s);
  http_NewRequest := @http_NewRequest Script.script _;
  http_Do q := on_host (http_Do q);
  sent k := sent (k_host k);
  answered k := answered (k_host k);
  logged k := logged (k_host k) |}.

(** ** The toy cryptography: a certificate's bytes are its code, with the key
    that signed it. *)

Definition cert_tuple (c : Certificate Z) :=
  (x_SerialNumber c, x_CommonName c, x_NotBefore c, x_NotAfter c, x_KeyUsage c, x_ExtKeyUsage c, x_IsCA c,
   x_DNSNames c, x_IPAddresses c, x_PublicKey c).

#[global] Instance Certificate_eq_dec : EqDecision (Certificate Z).
Proof. solve_decision. Defined.

#[global] Instance Certificate_countable : Countable (Certificate Z).
Proof.
  refine (inj_countable' cert_tuple
    (fun '(a, b, c, d, e, f, g, h, i, j) => mkCertificate a b c d e f g h i j) _).
  by intros [].
Defined.

Fixpoint pos_string (p : positive) : string :=
  match p with
  | xI p => String "1" (pos_string p)
  | xO p => String "0" (pos_string p)
  | xH => ""
  end.

Fixpoint string_pos (s : string) : positive :=
  match s with
  | String "1" s => xI (string_pos s)
  | String _ s => xO (string_pos s)
  | "" => xH
  end.

Lemma string_pos_string p : string_pos (pos_string p) = p.
Proof. induction p; simpl; congruence. Qed.

Definition toy_bytes {A} `{Countable A} (a : A) : string := pos_string (encode a).
Definition toy_parse {A} `{Countable A} (s : string) : option A := decode (string_pos s).

Lemma toy_parse_bytes {A} `{Countable A} (a : A) : toy_parse (toy_bytes a) = Some a.
Proof. unfold toy_parse, toy_bytes. by rewrite string_pos_string, decode_encode. Qed.

Arguments toy_bytes : simpl never.
Arguments toy_parse : simpl never.

Definition draw : E cluster Z := fun k => (inr (k_random k), set_random (k_random k + 1)%Z k).

Definition with_key (c : Certificate Z) (pub : Z) : Certificate Z :=
  mkCertificate (x_SerialNumber c) (x_CommonName c) (x509_time (x_NotBefore c))
    (x509_time (x_NotAfter c)) (x_KeyUsage c)
    (x_ExtKeyUsage c) (x_IsCA c) (x_DNSNames c) (x_IPAddresses c) (Some pub).

#[global] Instance toy_crypto : Crypto cluster := {|
  PrivateKey := Z; PublicKey := Z; Public k := k;
  rand_Read n := _ ← draw; mret (of_chars (replicate n "r"%char));
  rand_Int n := z ← draw; mret (z mod n)%Z;
  ecdsa_GenerateKey := draw;
  x509_CreateCertificate tmpl _ pub priv := mret (toy_bytes (priv, with_key tmpl pub));
  x509_ParseCertificate b :=
    match (toy_parse b : option (Z * Certificate Z)) with
    | Some p => inr p.2 | None => inl (Errorf "x509: malformed certificate") end;
  x509_MarshalECPrivateKey k := inr (toy_bytes k);
  x509_ParseECPrivateKey b :=
    match toy_parse b with Some k => inr k | None => inl (Errorf "x509: malformed key") end;
  x509_MarshalPKIXPublicKey k := inr (toy_bytes k);
  pem_EncodeToMemory _ b := String "P" b;
  pem_Decode s := match s with String "P" b => Some b | _ => None end;
  signed_by b pub := exists c : Certificate Z, toy_parse b = Some (pub, c) |}.

#[global] Instance toy_crypto_laws : CryptoLaws cluster.
Proof.
  split.
  - intros n w b w' (z & w1 & _ & He)%E_bind_inr. injection He as <- _.
    by rewrite <- length_chars, chars_of_chars, length_replicate.
  - done.
  - done.
  - intros k b Hb. injection Hb as <-. cbn. by rewrite toy_parse_bytes.
  - intros tmpl parent pub priv w der w' Hc. injection Hc as <- <-.
    split; [exists (with_key tmpl pub); apply toy_parse_bytes|].
    exists (with_key tmpl pub). split; [cbn; by rewrite toy_parse_bytes|]. by split_and!.
Qed.

(** ** The clients *)

Definition keep_new {O} (_ : option O) (o : O) : O := o.

Definition decoy_merge (old : option Decoy) (d : Decoy) : Decoy :=
  {| kt_Meta := kt_Meta d; kt_Spec := kt_Spec d; kt_Status := from_option kt_Status empty_status old |}.
(** The conditions are a map keyed by type. *)
Definition decoy_valid (d : Decoy) : bool :=
  bool_decide (NoDup (cond_Type <$> st_Conditions (kt_Status d))).
Definition decoy_status (old d : Decoy) : Decoy := with_status old (kt_Status d).

(** The server assigns an address to a new Service. *)
Definition service_merge (old : option Service) (s : Service) : Service :=
  {| svc_Meta := svc_Meta s;
     svc_Spec := {| ss_ClusterIP := match old with
                                    | Some o => ss_ClusterIP (svc_Spec o)
                                    | None => if ss_ClusterIP (svc_Spec s) ==? "" then "10.96.7.7"
                                              else ss_ClusterIP (svc_Spec s)
                                    end;
                    ss_Selector := ss_Selector (svc_Spec s); ss_Ports := ss_Ports (svc_Spec s) |} |}.

Definition decoys_client : Client cluster Decoy := Mem.client k_decoys set_decoys decoy_merge decoy_status decoy_valid.
Definition services_client : Client cluster Service := Mem.client k_services set_services service_merge (fun _ o => o) Mem.all_valid.
Definition secrets_client : Client cluster Secret := Mem.client k_secrets set_secrets keep_new (fun _ o => o) Mem.all_valid.
Definition configmaps_client : Client cluster ConfigMap := Mem.client k_configmaps set_configmaps keep_new (fun _ o => o) Mem.all_valid.
Definition deployments_client : Client cluster Deployment := Mem.client k_deployments set_deployments keep_new (fun _ o => o) Mem.all_valid.
Definition networkpolicies_client : Client cluster NetworkPolicy := Mem.client k_networkpolicies set_networkpolicies keep_new (fun _ o => o) Mem.all_valid.
Definition pvcs_client : Client cluster PersistentVolumeClaim := Mem.client k_pvcs set_pvcs keep_new (fun _ o => o) Mem.all_valid.
Definition pods_client : Client cluster Pod := Mem.client k_pods set_pods keep_new (fun _ o => o) Mem.all_valid.
Definition webhooks_client : Client cluster MutatingWebhookConfiguration := Mem.client k_webhooks set_webhooks keep_new (fun _ o => o) Mem.all_valid.
Definition decoys_view : cluster -> gmap NamespacedName Decoy := Mem.objects k_decoys decoy_valid.
Definition services_view : cluster -> gmap NamespacedName Service := Mem.objects k_services Mem.all_valid.
Definition secrets_view : cluster -> gmap NamespacedName Secret := Mem.objects k_secrets Mem.all_valid.
Definition configmaps_view : cluster -> gmap NamespacedName ConfigMap := Mem.objects k_configmaps Mem.all_valid.
Definition deployments_view : cluster -> gmap NamespacedName Deployment := Mem.objects k_deployments Mem.all_valid.
Definition networkpolicies_view : cluster -> gmap NamespacedName NetworkPolicy := Mem.objects k_networkpolicies Mem.all_valid.
Definition pvcs_view : cluster -> gmap NamespacedName PersistentVolumeClaim := Mem.objects k_pvcs Mem.all_valid.
Definition pods_view : cluster -> gmap NamespacedName Pod := Mem.objects k_pods Mem.all_valid.
Definition webhooks_view : cluster -> gmap NamespacedName MutatingWebhookConfiguration := Mem.objects k_webhooks Mem.all_valid.

#[global] Instance secrets_served : Serves secrets_view secret_body secrets_client.
Proof. apply Mem.client_serves; [done|done|done|]. intros. by split. Qed.

#[global] Instance decoys_served : Serves decoys_view decoy_body decoys_client.
Proof. apply Mem.client_serves; [done|done|done|]. intros. by split. Qed.

#[global] Instance webhooks_served : Serves webhooks_view mwc_body webhooks_client.
Proof. apply Mem.client_serves; [done|done|done|]. done. Qed.

Definition pod_body (_ : option Pod) (p p' : Pod) : Prop := p_Spec p' = p_Spec p.

#[global] Instance pods_served : Serves pods_view pod_body pods_client.
Proof. apply Mem.client_serves; [done|done|done|]. done. Qed.

#[global] Instance decoys_served_status : ServesStatus decoys_client decoys_view.
Proof.
  split.
  2:{ intros w k d Hd. apply (bool_decide_eq_true_1 _), (Mem.objects_valid k_decoys decoy_valid w k d Hd). }
  intros d w r w'. unfold decoys_client. simpl. unfold Mem.write.
  change (key_of d) with (kt_key d). fold (decoys_view w).
  destruct (decoys_view w !! kt_key d) as [old|] eqn:Hold; [|intros [= <- <-]; by left].
  case_bool_decide as Hrv; [|intros [= <- <-]; by left]. simpl.
  destruct (decoy_valid _) eqn:Hval; intros Hw; injection Hw as <- <-; [right|by left].
  exists old, (Mem.bump (Some old) (decoy_status old d)). split_and!; [done|by split_and!|done..|].
  apply Mem.objects_put; [done| |exact Hval]. apply (Mem.objects_key k_decoys) in Hold. exact Hold.
Qed.

(** Every client leaves the other kinds alone. *)
Ltac leaves := intros; apply Mem.client_leaves; intros; reflexivity.

Abbreviation kview := (both secrets_view decoys_view).

#[global] Instance services_leave : Leaves services_client kview. Proof. leaves. Qed.
#[global] Instance configmaps_leave : Leaves configmaps_client kview. Proof. leaves. Qed.
#[global] Instance deployments_leave : Leaves deployments_client kview. Proof. leaves. Qed.
#[global] Instance networkpolicies_leave : Leaves networkpolicies_client kview. Proof. leaves. Qed.
#[global] Instance pvcs_leave : Leaves pvcs_client kview. Proof. leaves. Qed.
#[global] Instance pods_leave : Leaves pods_client kview. Proof. leaves. Qed.
#[global] Instance secrets_leave_decoys : Leaves secrets_client decoys_view. Proof. leaves. Qed.
#[global] Instance decoys_leave_secrets : Leaves decoys_client secrets_view. Proof. leaves. Qed.
#[global] Instance services_leave_decoys : Leaves services_client decoys_view. Proof. leaves. Qed.
#[global] Instance configmaps_leave_decoys : Leaves configmaps_client decoys_view. Proof. leaves. Qed.
#[global] Instance deployments_leave_decoys : Leaves deployments_client decoys_view. Proof. leaves. Qed.
#[global] Instance networkpolicies_leave_decoys : Leaves networkpolicies_client decoys_view. Proof. leaves. Qed.
#[global] Instance pvcs_leave_decoys : Leaves pvcs_client decoys_view. Proof. leaves. Qed.
#[global] Instance pods_leave_decoys : Leaves pods_client decoys_view. Proof. leaves. Qed.

Lemma toy_leaves {X} (view : cluster -> X) :
  (forall z k, view (set_random z k) = view k) -> CryptoLeaves view.
Proof. intros Hv. split; intros; intros w; try apply Hv; reflexivity. Qed.

#[global] Instance toy_leaves_both : CryptoLeaves kview. Proof. by apply toy_leaves. Qed.
#[global] Instance toy_leaves_decoys : CryptoLeaves decoys_view. Proof. by apply toy_leaves. Qed.
#[global] Instance toy_leaves_secrets : CryptoLeaves secrets_view. Proof. by apply toy_leaves. Qed.

(** ** The manager's other dependencies *)

Definition k_metrics (f : registry -> registry) : E cluster unit := fun k =>
  (inr tt, set_registry (f (k_registry k)) k).
Definition k_Info (v : Z) (msg : string) (kv : list (string * string)) : E cluster unit := mret tt.
Definition k_record (d : Decoy) (ty reason msg : string) : E cluster unit := fun k =>
  (inr tt, set_events (k_events k ++ [(reason, msg)]) k).
Definition k_yaml (j : json) : error + string := inr (Marshal j).
Definition k_zero (q : string) : bool := (q ==? "") || (q ==? "0").
Definition k_range_ns (X : gset string) : list string := elements X.
Definition k_range_nn (X : gset NamespacedName) : list NamespacedName := elements X.

Definition manager : DecoyReconciler cluster :=
  {| r_decoys := decoys_client; r_services := services_client; r_secrets := secrets_client;
     r_configmaps := configmaps_client; r_deployments := deployments_client;
     r_networkpolicies := networkpolicies_client; r_pvcs := pvcs_client; r_pods := pods_client;
     r_ManagerAuditWebhookURL := ""; r_Notifier := None; r_Recorder := Some k_record |}.

Definition run_reconcile (req : NamespacedName) : E cluster unit :=
  @Reconcile cluster (gmap (list string) Z) _ _ default_retry _ _ k_yaml (fun _ => true) id k_zero k_metrics
    k_Info k_range_ns k_range_nn manager req.

(** ** A cluster with a decoy and pods that join it *)

Definition demo_pod (ns name join : string) : Pod :=
  {| p_Meta := {| om_Name := name; om_Namespace := ns; om_UID := ""; om_ResourceVersion := "";
       om_Generation := 0; om_CreationTimestamp := 0; om_DeletionTimestamp := None; om_Labels := ∅;
       om_Annotations := {[ joinAnnotation := join ]}; om_OwnerReferences := []; om_Finalizers := [] |};
     p_Spec := pod_spec [container "app" "nginx"]; p_Status := no_pod_status |}.

Definition demo_pods : list Pod := [demo_pod "shop" "api" "traps/web"; demo_pod "traps" "sidecar" "true"; demo_pod "shop" "other" "traps/db"].

(** Decoy traps/web, the pods, and nothing else. *)
Definition demo_cluster : cluster :=
  set_decoys {[ NN "traps" "web" := mk_decoy "traps" "web" empty_spec ]}
    (set_pods (list_to_map ((fun p => (pod_key p, p)) <$> demo_pods)) empty_cluster).

Definition demo_after : cluster := (run_reconcile (NN "traps" "web") demo_cluster).2.
