(* ===== verification/DeliveryDemo.v ===== *)
(** * One spec, delivered

    The cluster of file Testbed and the inner cluster of file ShimDemo, with
    a Decoy that names one secret. *)

From S2P Require Import Prelude GoStrings Json KubeTypes ApiTypes Kube Server.
From S2P Require Import CtrlUtil Host RenderSeed SeedJson ShimTypes ShimSeed ShimFacts ShimDemo Reconcile Delivery Testbed.
#[local] Open Scope string_scope.
#[local] Open Scope list_scope.

#[local] Existing Instances default_retry default_retry_laws.

#[global] Instance configmaps_served : Serves configmaps_view cm_body configmaps_client.
Proof. apply Mem.client_serves; [done|done|done|]. done. Qed.

Definition spec_with (secrets : list FakeSecret) : DecoySpec :=
  {| spec_KubeletShimImage := ""; spec_ExecProfile := ""; spec_ExecIsolation := false;
     spec_KubernetesVersion := ""; spec_KubeAPIServerImage := ""; spec_KineImage := "";
     spec_Port := 0; spec_SANs := []; spec_AuditLevel := ""; spec_FakeNodes := [];
     spec_FakePods := []; spec_FakeSecrets := secrets; spec_Resources := no_resources;
     spec_RuntimeClassName := None; spec_SeedSystemComponents := Some false;
     spec_FakeCRDs := []; spec_Persistence := None |}.

Definition shop : Decoy := mk_decoy "traps" "shop" (spec_with [fake_secret "db" "hunter2"]).

(** The operator's pass over its ConfigMap. *)
Definition config_run := reconcileConfigMap k_yaml (fun _ => true) manager shop "shop-config" [] "t1" "t2" "t3" empty_cluster.

Definition inner_cfg : Config :=
  {| cfg_SeedPath := "/etc/config/seed.json"; cfg_NodeInternalIP := "10.96.7.7"; cfg_KubeletPort := 10250;
     cfg_KubernetesServicePort := 6443; cfg_ExecProfile := "shell"; cfg_ExecIsolation := false;
     cfg_ServiceAccountToken := "t"; cfg_ServiceAccountDir := ""; cfg_Namespace := "traps";
     cfg_CABundlePath := ""; cfg_RecordExecSessions := true |}.

(** The mounted file, and the JSON decoder on it. *)
Definition mounted_seed (path : string) : E inner string := mret (renderSeedJSON shop []).
Definition decode (text : string) : error + json := inr (seed_json (renderSeed shop [])).

(** A shim that runs on an earlier spec, whose secret was [old]. *)
Definition sh_before : Shim := shim_with (seed_with [fake_secret "old" "y"] [])
  {[ "Secret|default|old" := TSecret "default" "old" ]}.

Definition beat :=
  (_ ← reloadSeed inner_cfg (load_file decode mounted_seed);
   Seed inner_cfg (fun _ => true) id map_to_list inner_clientset) (sh_before, w0).

Lemma decoy_secrets_delivered_witness :
  exists c wo' sh' w', config_run = (inr c, wo') /\ beat = (inr tt, (sh', w')) /\
    (exists s, secrets_of w' !! NN "default" "db" = Some s /\ sec_Data s = {[ "password" := "hunter2" ]}) /\
    secrets_of w' !! NN "default" "mine" = secrets_of w0 !! NN "default" "mine".
Proof.
  destruct config_run as [[e|c] wo'] eqn:Ec.
  { exfalso. apply (f_equal (fun x => match x.1 with inl _ => true | inr _ => false end)) in Ec.
    vm_compute in Ec. discriminate Ec. }
  destruct beat as [r [sh' w']] eqn:Eb.
  assert (Hr : r = inr tt) by (apply (f_equal fst) in Eb; vm_compute in Eb; by symmetry). subst r.
  exists c, wo', sh', w'. split; [reflexivity|]. split; [reflexivity|].
  assert (Hwf : tracked_wf (sh_seededPrev sh_before)).
  { intros ks t Hks. unfold sh_before, shim_with in Hks. simpl in Hks.
    apply lookup_singleton_Some in Hks as [<- <-]. reflexivity. }
  assert (Hcm : forall x, configmaps_view wo' !! NN "traps" "shop-config" = Some x ->
    cm_Data x !! "seed.json" = Some (renderSeedJSON shop [])).
  { intros x Hx. assert (Hw : wo' = config_run.2) by (by rewrite Ec). rewrite Hw in Hx.
    assert (Hv : (x0 ← configmaps_view config_run.2 !! NN "traps" "shop-config"; cm_Data x0 !! "seed.json")
      = Some (renderSeedJSON shop [])) by (vm_compute; reflexivity).
    by rewrite Hx in Hv. }
  destruct (decoy_secrets_delivered inner_cfg (fun _ => true) id map_to_list inner_clientset secrets_of namespaces_of
    (fun _ _ _ => True) (fun cl H => ltac:(discriminate H)) (fun n w => eq_refl) (fun w => eq_refl)
    (fun s w => eq_refl) (fun m => reflexivity _) decode mounted_seed (fun p w => eq_refl) (fun p w => eq_refl)
    k_yaml manager configmaps_view shop "shop-config" [] "t1" "t2" "t3" empty_cluster c wo' sh_before w0 sh' w')
    as [_ Hkey].
  - intros x Hx. vm_compute in Hx. discriminate Hx.
  - exact Ec.
  - intros x Hx. change Names.seedFileName with "seed.json". rewrite (Hcm x Hx). reflexivity.
  - constructor.
  - discriminate.
  - reflexivity.
  - exact Hwf.
  - exact Eb.
  - split; [exact (Hkey (NN "default" "db") default_live (w0_lives "db"))|].
    exact (Hkey (NN "default" "mine") default_live (w0_lives "mine")).
Defined.
