(* ===== verification/Witnesses.v ===== *)
(** * The reconciler's theorems at concrete inputs

    Each property of the controller files applied to the cluster of file
    Testbed, with its hypotheses discharged there by evaluation. *)

From S2P Require Import Prelude GoStrings Json NetIP KubeTypes ApiTypes Kube Server.
From S2P Require Import CtrlUtil Host Certs WebhookCert Apply Metrics Notifier Hash.
From S2P Require Import Names DecoySecret Mirrors Join JoinedPods RenderSeed.
From S2P Require Import SeedJson Deploy Reconcile Guards StatusFacts Testbed Duration Flag ManagerMain.
#[local] Open Scope string_scope.
#[local] Open Scope list_scope.

#[local] Existing Instance default_retry.
#[local] Existing Instance default_retry_laws.

Lemma now_keeps_secrets : keeps secrets_view time_Now. Proof. by intros k. Qed.
Lemma now_keeps_decoys : keeps decoys_view time_Now. Proof. by intros k. Qed.
Lemma now_keeps_both : keeps (both secrets_view decoys_view) time_Now. Proof. by intros k. Qed.

(** ** Certificates *)

Definition key_pair (c k : string) : error + (string * string) := inr (c, k).

Definition ensured : (error + (string * string) * string) * cluster :=
  EnsureWebhookServingCert secrets_client key_pair "honeypod" "tls" ["hook.svc"; "127.0.0.1"] empty_cluster.

Lemma EnsureWebhookServingCert_stored_witness :
  exists res w', ensured = (inr res, w') /\
  exists s, secrets_view w' !! NN "honeypod" "tls" = Some s /\ stored_pair key_pair s res /\
    (secrets_view empty_cluster !! NN "honeypod" "tls" = Some s \/ fresh_pair ["hook.svc"; "127.0.0.1"] s).
Proof.
  destruct ensured as [[e|res] w'] eqn:E.
  - exfalso. apply (f_equal (fun x => match x.1 with inl _ => true | inr _ => false end)) in E.
    vm_compute in E. discriminate E.
  - exists res, w'. split; [reflexivity|].
    exact (EnsureWebhookServingCert_stored secrets_client key_pair secrets_view now_keeps_secrets
             "honeypod" "tls" ["hook.svc"; "127.0.0.1"] empty_cluster res w' E).
Defined.

Definition hook_config : MutatingWebhookConfiguration :=
  {| mwc_Meta := object_meta "join" "" ∅; mwc_Webhooks := [{| wh_Name := "a"; wh_CABundle := "" |}] |}.

Definition hook_cluster : cluster := set_webhooks {[ NN "" "join" := hook_config ]} empty_cluster.

Definition bundler : WebhookCABundleReconciler := {| wr_ConfigName := "join"; wr_CABundle := "CA" |}.

Definition patched : cluster := (WebhookCABundle_Reconcile webhooks_client k_Info bundler (NN "" "join") hook_cluster).2.

Lemma WebhookCABundle_converges_witness :
  exists cfg', webhooks_view patched = <[NN "" "join" := cfg']> (webhooks_view hook_cluster) /\
    Forall (fun wh => wh_CABundle wh = "CA") (mwc_Webhooks cfg').
Proof.
  destruct (WebhookCABundle_converges webhooks_client k_Info webhooks_view (fun _ _ _ _ => eq_refl) bundler
    (NN "" "join") hook_cluster patched ltac:(vm_compute; reflexivity)) as [_ Hc].
  specialize (Hc eq_refl). cbn [wr_ConfigName bundler wr_CABundle] in Hc.
  change (webhooks_view hook_cluster !! NN "" "join") with (Some hook_config) in Hc. cbv beta iota in Hc.
  rewrite bool_decide_eq_false_2 in Hc.
  - destruct (Hc eq_refl) as (cfg' & H1 & H2 & _). exists cfg'. split; [exact H1|exact H2].
  - intros Hf. apply Forall_inv in Hf. discriminate Hf.
Defined.

(** A manager of the default flags over an empty cluster: it creates the
    Secret, and its reconciler installs the CA in the configuration. *)
Definition default_mgr : mgr_options := read_mgr_options [] manager_flags.

Definition quiet_Info (msg : string) (err : error) : E cluster unit := mret tt.

Definition started :=
  start_manager secrets_client key_pair quiet_Info (inr tt) (inr tt) (inr tt) (inr tt) (inr tt) (inr tt)
    (fun _ => inr tt) default_mgr (None, empty_cluster).

Definition started_ok : bool := match started with (inr _, (Some _, _)) => true | _ => false end.

Lemma manager_webhook_trusted_witness :
  exists m c' w' s res, started = (inr m, (c', w')) /\
    secrets_view w' !! NN "honeypod" "honeypod-webhook-tls" = Some s /\
    stored_pair key_pair s res /\ mg_cert m = Some res /\
    fresh_pair ["honeypod-webhook.honeypod.svc"; "honeypod-webhook.honeypod.svc.cluster.local";
                "localhost"; "127.0.0.1"] s.
Proof.
  assert (Hok : started_ok = true) by (vm_compute; reflexivity). unfold started_ok in Hok.
  destruct started as [[e|m] [c' w']] eqn:E; [discriminate|]. exists m, c', w'.
  destruct (manager_webhook_trusted secrets_client key_pair quiet_Info (inr tt) (inr tt) (inr tt) (inr tt)
    (inr tt) (inr tt) (fun _ => inr tt) secrets_view now_keeps_secrets (fun _ _ _ => eq_refl)
    webhooks_client k_Info webhooks_view (fun _ _ _ _ => eq_refl) default_mgr empty_cluster m c' w' E)
    as (s & res & Hs & Hp & Hm & Hold & _).
  exists s, res. split; [reflexivity|]. split; [exact Hs|]. split; [exact Hp|]. split; [exact Hm|].
  destruct Hold as [Hold|Hf]; [discriminate Hold|exact Hf].
Defined.

(** ** The identity *)

Definition web : Decoy := mk_decoy "traps" "web" empty_spec.

(** A Secret of an old version: no controller-manager token, no CA key. *)
Definition old_secret : Secret :=
  {| sec_Meta := object_meta "web-decoy" "traps" ∅; sec_Type := "Opaque";
     sec_Data := {[ "token" := "decoy-token"; "shim.token" := "shim-token"; "sa.key" := "sa" ]} |}.

Definition old_cluster : cluster := set_secrets {[ NN "traps" "web-decoy" := old_secret ]} demo_cluster.

Definition identity_run (ip : string) (k : cluster) : (error + Secret) * cluster :=
  reconcileSecret secrets_client web "web-decoy" ip k.

Ltac ok_run E :=
  exfalso; apply (f_equal (fun x => match x.1 with inl _ => true | inr _ => false end)) in E;
  vm_compute in E; discriminate E.

Lemma reconcileSecret_identity_witness :
  exists s' w', identity_run "10.96.7.7" old_cluster = (inr s', w') /\
    sec_get s' "token" = "decoy-token" /\ sec_get s' "shim.token" = "shim-token" /\
    stands secrets_view (NN "traps" "web-decoy") s' w'.
Proof.
  destruct (identity_run "10.96.7.7" old_cluster) as [[e|s'] w'] eqn:E; [ok_run E|].
  exists s', w'. split; [reflexivity|].
  destruct (reconcileSecret_identity secrets_client secrets_view now_keeps_secrets web "web-decoy" "10.96.7.7"
    old_cluster old_secret s' w' ltac:(split; vm_compute; reflexivity) E) as (Hk & _ & _ & _ & Hs).
  split_and!; [apply (Hk "token")|apply (Hk "shim.token")|exact Hs]; unfold cert_keys; elem_lit.
Defined.

Lemma reconcileSecret_settles_witness :
  exists s' w', identity_run "10.96.7.7" old_cluster = (inr s', w') /\
    match Get secrets_client (NN "traps" "web-decoy") w' with
    | (inr s2, w3) => s2 = s' /\ identity_run "10.96.7.7" w' = (inr s', w3)
    | (inl _, _) => True
    end.
Proof.
  destruct (identity_run "10.96.7.7" old_cluster) as [[e|s'] w'] eqn:E; [ok_run E|].
  exists s', w'. split; [reflexivity|].
  destruct (Get secrets_client (NN "traps" "web-decoy") w') as [[e2|s2] w3] eqn:G; [exact I|].
  apply (reconcileSecret_settles secrets_client secrets_view now_keeps_secrets web "web-decoy" "10.96.7.7"
    old_cluster s' w' w' s2 w3); [|right; eexists; reflexivity|exact E|reflexivity|exact G].
  intros s Hs. change (secrets_view old_cluster !! NN "traps" "web-decoy") with (Some old_secret) in Hs.
  apply (inj Some) in Hs. rewrite <- Hs. reflexivity.
Defined.

Lemma reconcileSecret_headless_rewrites_witness :
  exists s' w', identity_run "None" old_cluster = (inr s', w') /\
    exists s1 w2, replaced secrets_view secret_body s1 s' w2 w'.
Proof.
  destruct (identity_run "None" old_cluster) as [[e|s'] w'] eqn:E; [ok_run E|].
  exists s', w'. split; [reflexivity|].
  destruct (reconcileSecret_headless_rewrites secrets_client secrets_view now_keeps_secrets web "web-decoy"
    old_cluster old_secret s' w' ltac:(vm_compute; reflexivity) E) as (s1 & w2 & c & k & Hr & _).
  exists s1, w2. exact Hr.
Defined.

(** ** Create or update *)

Lemma mutate_secret_meta live desired : meta (mutate_secret live desired) = meta live.
Proof. reflexivity. Qed.

Definition mirror : Secret := buildMirroredSecret web "shop" "decoy-token" "CA".

(** Someone stripped the operator's labels and added one. *)
Definition stripped : Secret :=
  {| sec_Meta := object_meta "web-decoy-creds" "shop" {[ "team" := "red" ]}; sec_Type := "Opaque"; sec_Data := ∅ |}.

Definition stripped_cluster : cluster := set_secrets {[ NN "shop" "web-decoy-creds" := stripped ]} demo_cluster.

Lemma applyResource_outcome_witness :
  exists o' w', applyResource secrets_client mutate_secret mirror stripped_cluster = (inr o', w') /\
    om_Labels (sec_Meta o') !! "team" = Some "red" /\
    om_Labels (sec_Meta o') !! mirroredSecretLabelDecoyName = Some "web".
Proof.
  destruct (applyResource secrets_client mutate_secret mirror stripped_cluster) as [[e|o'] w'] eqn:E; [ok_run E|].
  exists o', w'. split; [reflexivity|].
  destruct (applyResource_outcome secrets_client mutate_secret secrets_view secret_body mutate_secret_meta
    mirror stripped_cluster o' w' E) as (_ & Hm & _).
  change (secrets_view stripped_cluster !! key_of mirror) with (Some stripped) in Hm.
  destruct Hm as (Hl & _). split; rewrite Hl; vm_compute; reflexivity.
Defined.

(** ** Mirrors *)

Definition shop_pods : list Pod := [demo_pod "shop" "api" "traps/web"].

Lemma reconcileMirroredSecrets_exact_witness :
  exists w', reconcileMirroredSecrets secrets_client k_range_ns web old_secret shop_pods old_cluster = (inr tt, w') /\
    forall key s, secrets_view w' !! key = Some s -> mirror_of (NN "traps" "web") s -> nn_Namespace key <> "traps".
Proof.
  destruct (reconcileMirroredSecrets secrets_client k_range_ns web old_secret shop_pods old_cluster)
    as [[e|[]] w'] eqn:E; [ok_run E|].
  exists w'. split; [reflexivity|]. intros key s Hs Hm.
  destruct (reconcileMirroredSecrets_exact secrets_client decoys_client secrets_view decoys_view k_range_ns
    (fun X => reflexivity _) web old_secret shop_pods old_cluster w' E) as (Hex & _).
  exact (proj1 (Hex key s Hs Hm)).
Defined.

(** ** Joined pods *)


(** The same reconcile when the decoys cannot be listed: it succeeds, and the
    pod that says true is not joined any more. *)
Definition unlistable : Client cluster Decoy := {|
  Get := Get decoys_client; List_ _ := throw (Errorf "connection refused");
  Create := Create decoys_client; Update := Update decoys_client;
  StatusUpdate := StatusUpdate decoys_client; Delete := Delete decoys_client |}.

Lemma listJoinedPods_swallows :
  let names r := match r : (error + list Pod) with inr l => Some (pod_key <$> l) | inl _ => None end in
  names (listJoinedPods pods_client decoys_client web demo_cluster).1 =
    Some [NN "shop" "api"; NN "traps" "sidecar"] /\
  names (listJoinedPods pods_client unlistable web demo_cluster).1 = Some [NN "shop" "api"].
Proof. split; vm_compute; reflexivity. Qed.

Definition was_joined : list JoinedPod := [{| jp_Name := "old"; jp_Namespace := "shop"; jp_Redirected := true |}].

Lemma reconcileJoinTransitions_edges_witness :
  exists ts, (NN "shop" "api", true) ∈ ts /\ (NN "shop" "old", false) ∈ ts /\
    forall w, reconcileJoinTransitions (Some k_record) None
      (elements (list_to_set (jp_key <$> was_joined) : gset NamespacedName)) web was_joined shop_pods w =
      for_each (transition (Some k_record) None web) ts w.
Proof.
  destruct (reconcileJoinTransitions_edges (Some k_record) None
    (elements (list_to_set (jp_key <$> was_joined) : gset NamespacedName)) web was_joined shop_pods
    (reflexivity _) ltac:(repeat constructor; by intros ?%not_elem_of_nil)) as (ts & _ & Hj & Hl & Hrun).
  exists ts. split_and!; [apply Hj|apply Hl|exact Hrun]; split;
    first [apply (bool_decide_eq_true_1 _); vm_compute; reflexivity
          |apply (bool_decide_eq_false_1 _); vm_compute; reflexivity].
Defined.

Lemma pod_events_wake_witness :
  podJoinAnnotationPredicate (PodUpdate (demo_pod "shop" "api" "traps/web") (demo_pod "shop" "api" "")) = true /\
  mapJoinedPodToDecoy decoys_client (demo_pod "shop" "api" "traps/web") demo_cluster =
    (inr [NN "traps" "web"], demo_cluster).
Proof.
  apply (pod_events_wake decoys_client _ (demo_pod "shop" "api" "traps/web")); [simpl; elem_lit|reflexivity].
Defined.

Lemma podIsRedirected_mutated_witness : podIsRedirected JoinDemo.mutated = true.
Proof.
  exact (proj1 (podIsRedirected_mutated JoinDemo.decoys JoinDemo.services JoinDemo.pod tt JoinDemo.mutated tt
    JoinDemo.mutated_run)).
Defined.

(** ** The whole reconcile *)

Lemma record_keeps {X} (view : cluster -> X) :
  (forall l k, view (set_events l k) = view k) ->
  forall f, Some k_record = Some f -> forall a b c d, keeps view (f a b c d).
Proof. intros Hv f [= <-] a b c d k. apply Hv. Qed.

Lemma no_notifier_keeps {X} (view : cluster -> X) :
  forall f, (None : option (DecoyRef -> NamespacedName -> bool -> E cluster unit)) = Some f ->
  forall a b c, keeps view (f a b c).
Proof. discriminate. Qed.

Lemma guarded_demo : guarded secrets_view decoys_view demo_cluster.
Proof. intros k key s Hs. vm_compute in Hs. discriminate. Qed.

Lemma Reconcile_guards_mirrors_witness :
  guarded secrets_view decoys_view (run_reconcile (NN "traps" "web") demo_cluster).2.
Proof.
  exact (Reconcile_guards_mirrors k_yaml (fun _ => true) id k_zero k_metrics k_Info k_range_ns k_range_nn manager
    secrets_view decoys_view now_keeps_both (fun _ _ => eq_refl) (fun _ _ _ _ => eq_refl)
    (record_keeps (both secrets_view decoys_view) (fun _ _ => eq_refl)) (no_notifier_keeps _) (fun X => reflexivity _)
    (NN "traps" "web") demo_cluster guarded_demo).
Defined.

Lemma Reconcile_respects_decoys_witness :
  all_respected (decoys_view demo_cluster) (decoys_view (run_reconcile (NN "traps" "web") demo_cluster).2).
Proof.
  exact (Reconcile_respects_decoys k_yaml (fun _ => true) id k_zero k_metrics k_Info k_range_ns k_range_nn manager
    decoys_view now_keeps_decoys (fun _ _ => eq_refl) (fun _ _ _ _ => eq_refl)
    (record_keeps decoys_view (fun _ _ => eq_refl)) (no_notifier_keeps _) (NN "traps" "web") demo_cluster).
Defined.

Lemma updateStatus_outcome_witness :
  exists w', updateStatus k_metrics k_Info manager web "web-decoy" "https://web.traps.svc:6443" shop_pods demo_cluster
             = (inr tt, w') /\
  exists d, decoys_view w' !! NN "traps" "web" = Some d /\ st_Phase (kt_Status d) = DecoyPhasePending.
Proof.
  destruct (updateStatus k_metrics k_Info manager web "web-decoy" "https://web.traps.svc:6443" shop_pods demo_cluster)
    as [[e|[]] w'] eqn:E; [ok_run E|].
  exists w'. split; [reflexivity|].
  destruct (updateStatus_outcome k_yaml (fun _ => true) id k_zero k_metrics k_Info k_range_ns k_range_nn manager
    decoys_view now_keeps_decoys (fun _ _ => eq_refl) (fun _ _ _ _ => eq_refl)
    (record_keeps decoys_view (fun _ _ => eq_refl)) (no_notifier_keeps _)
    web "web-decoy" "https://web.traps.svc:6443" shop_pods demo_cluster w' E) as (d & Hd & Hp & _).
  exists d. split; [exact Hd|]. destruct Hp as [[(dep & Hdep & _) _]|(_ & Hp & _)]; [|exact Hp].
  vm_compute in Hdep. discriminate Hdep.
Defined.

(** A manager whose Service calls are refused. *)
Definition down : Client cluster Service :=
  let e := Errorf "connection refused" in
  {| Get _ := throw e; List_ _ := throw e; Create _ := throw e; Update _ := throw e;
     StatusUpdate _ := throw e; Delete _ := throw e |}.

#[local] Instance down_leaves : Leaves down decoys_view.
Proof. by split. Qed.

Definition cut_off : DecoyReconciler cluster :=
  {| r_decoys := decoys_client; r_services := down; r_secrets := secrets_client;
     r_configmaps := configmaps_client; r_deployments := deployments_client;
     r_networkpolicies := networkpolicies_client; r_pvcs := pvcs_client; r_pods := pods_client;
     r_ManagerAuditWebhookURL := ""; r_Notifier := None; r_Recorder := Some k_record |}.

Definition service_error : error := wrapf "reconciling service" (Errorf "connection refused").

Lemma record_total : forall f, Some k_record = Some f ->
  forall a b c d w, exists w', f a b c d w = (inr tt, w').
Proof. intros f [= <-] a b c d w. eexists. reflexivity. Qed.

Lemma metrics_total : forall f w, exists w', k_metrics f w = (inr tt, w').
Proof. intros f w. eexists. reflexivity. Qed.

Definition cut_off_run : (error + unit) * cluster :=
  reconcile k_yaml (fun _ => true) id k_zero k_metrics k_Info k_range_ns k_range_nn cut_off
    (NN "traps" "web") demo_cluster.

Lemma Reconcile_failure_witness :
  (Reconcile k_yaml (fun _ => true) id k_zero k_metrics k_Info k_range_ns k_range_nn cut_off
     (NN "traps" "web") demo_cluster).1 = inl service_error.
Proof.
  destruct cut_off_run as [res w1] eqn:E. assert (Hres : res = inl service_error).
  { apply (f_equal fst) in E. cbn [fst] in E. rewrite <- E. vm_compute. reflexivity. }
  rewrite Hres in E.
  exact (proj1 (Reconcile_failure k_yaml (fun _ => true) id k_zero k_metrics k_Info k_range_ns k_range_nn cut_off
    decoys_view now_keeps_decoys (fun _ _ => eq_refl) (fun _ _ _ _ => eq_refl)
    (record_keeps decoys_view (fun _ _ => eq_refl)) (no_notifier_keeps _) metrics_total record_total
    (NN "traps" "web") demo_cluster service_error w1 E)).
Defined.

(** Two versions of a decoy that differ in what is seeded. *)
Definition config_run (kt : Decoy) (joined : list Pod) : (error + string) * cluster :=
  reconcileConfigMap k_yaml (fun _ => true) manager kt "web-config" joined "t1" "t2" "t3" demo_cluster.

Lemma config_run_ok kt joined : exists c w, config_run kt joined = (inr c, w).
Proof.
  unfold config_run, reconcileConfigMap. cbn [renderConfigData lift mbind E_bind].
  eexists _, _. reflexivity.
Qed.

Definition seeded_spec : DecoySpec :=
  {| spec_KubeletShimImage := ""; spec_ExecProfile := ""; spec_ExecIsolation := false;
     spec_KubernetesVersion := ""; spec_KubeAPIServerImage := ""; spec_KineImage := "";
     spec_Port := 0; spec_SANs := []; spec_AuditLevel := ""; spec_FakeNodes := [];
     spec_FakePods := []; spec_FakeSecrets := [{| fs_Name := "db"; fs_Namespace := "shop"; fs_Data := ∅ |}];
     spec_Resources := no_resources; spec_RuntimeClassName := None; spec_SeedSystemComponents := None;
     spec_FakeCRDs := []; spec_Persistence := None |}.

Lemma reconcileConfigMap_checksum_witness :
  exists c w w', config_run web [] = (inr c, w) /\
    config_run (mk_decoy "traps" "web" seeded_spec) shop_pods = (inr c, w').
Proof.
  destruct (config_run_ok web []) as (c & w & E).
  destruct (config_run_ok (mk_decoy "traps" "web" seeded_spec) shop_pods) as (c' & w' & E').
  exists c, w, w'. split; [exact E|]. rewrite E'. f_equal. f_equal.
  exact (reconcileConfigMap_checksum k_yaml (fun _ => true) manager web (mk_decoy "traps" "web" seeded_spec)
    "web-config" [] shop_pods "t1" "t2" "t3" demo_cluster c w demo_cluster c' w'
    eq_refl eq_refl eq_refl E E').
Defined.
